(* ===== verification/_CoqProject ===== *)
-Q . S2P
Prelude.v
PyStr.v
PyVal.v
PyStd.v
Regex.v
NetAddr.v
Json.v
Sigma.v
Redis.v
SigmaRunner.v
Detectors.v
Crypto.v
Actions.v
Auth.v
AuditLog.v
Db.v
Pipeline.v
SoarConfig.v
Soar.v
SoarBackends.v
DeadLetter.v
Dispatcher.v
Ws.v
Brand.v
RateLimit.v
Evidence.v
Sources.v
Ingest.v
RulesStudio.v
Shell.v
Toml.v
Provision.v
ReadApi.v
Middleware.v
SelfDefense.v
Hunt.v
Canary.v
AuditBots.v
Streams.v
SoarTasks.v
SoarPoll.v
App.v
Response.v
System.v
Config.v
