(* ===== verification/Prelude.v ===== *)
(** * ZaqorinCore server: a verification library

    ZaqorinCore is a host-intrusion response server: agents on the hosts send
    log events over a WebSocket, detectors and Sigma rules turn them into
    alerts and actions, a dispatcher signs pending actions and pushes them back
    to the agents, and a SOAR worker fans alerts out to ticketing and chat
    backends.  This library models the Python server (under
    server/src/zaqorincore_server/, the prefix of the file names below) and
    proves what makes its core correct, or states exactly where it is not.

    ** Program, files and how the parts interact

    A frame of an agent enters through [Ws] (api/v1/stream.py), is persisted by
    the services of [Db] (models/, service/, detectors/action_service.py,
    detectors/alert_service.py) and published to a Redis stream; [Streams]
    (streams/publisher.py, streams/consumer.py, detectors/runner.py) holds the
    stream, its consumer group and the loops that read it, and hands every message
    to [Pipeline] (detectors/runner.py), which runs [Detectors] (detectors/*.py)
    and the Sigma rules of [Sigma] (rule_engine/sigma.py) through [SigmaRunner]
    (rule_engine/runner.py), and persists alerts and actions; [Dispatcher] (dispatcher.py) takes pending
    actions, checks them with [Actions] (action_kinds.py, deployment.py), signs
    them with [Crypto] (crypto.py) and sends them over the registered
    connections of [Ws]; [SoarPoll], [Soar], [SoarTasks], [SoarConfig],
    [SoarBackends] and [DeadLetter] (soar/, and api/v1/soar.py) poll the alerts,
    and deliver them to backends.  [Auth] (auth.py) and
    [RateLimit] (rate_limit.py) guard the HTTP API; [Evidence] (evidence.py) is
    the evidence locker; [Brand] (detection/brand_protection.py) the typosquat
    check.  Events that do not come from agents enter through [Ingest]
    (api/v1/ingest_webhook.py, api/v1/ingest_cloudflare.py) into the same tables
    and stream; [Sources] (api/v1/sources.py, models/source.py) keeps the
    registered connectors in the same database; [RulesStudio]
    (api/v1/rules_studio.py) edits the directory of rules that [Sigma] loads;
    [AuditLog] (audit.py, api/v1/audit.py) is the log these endpoints write to.
    [Toml] and [Provision] (api/v1/agents_provision.py, api/v1/agents.py) write
    the configurations and commands that install agents, rotate the secrets
    that [Ws] and [Dispatcher] sign with, and report which agents are connected;
    [Provision.Agent] is the part of the Go agent (agent/internal/config) that
    reads such a configuration.  [ReadApi] (api/v1/alerts.py, events.py, hosts.py,
    evidence.py, auth.py, healthcheck.py, version.py, stats.py, api/health.py)
    answers queries on the same tables and the evidence locker.  Every request
    passes the stack of [Middleware] (error_envelope.py, request_id.py, cors.py,
    security.py, api/v1/security.py, main.create_app) around the limiter of
    [RateLimit].  [SelfDefense] (self_defense/) turns reports of browsers into
    events for a rule pack that [Sigma] loads.  [Hunt] (api/v1/hunt.py) runs
    a rule over past events of the same tables, [Canary] (canary.py,
    api/v1/canary.py) registers canary tokens and takes reports of their touches,
    and [AuditBots] (api/v1/audit_bots.py) checks the server's own sources and
    counters.  [App] (main.py, db.py) starts the parts and takes them down, and
    holds the DNS interface (detection/dns_intel_interface.py).  [Config]
    (config.py) loads the settings, of which the other files keep the fields they
    read.

    [System] puts [Ws], [Streams] with [Pipeline], and [Dispatcher] back together:
    one database, one Redis server, one network and the registry of connections,
    stepped in any order by [System.perform].  The HTTP routes take part as
    transactions that satisfy [System.route_ok] (patching a host, rotating a
    secret and storing a batch are shown to): none of them writes an action.
    [Response] follows one event through the same parts, from its message to the
    command.

    Below them: [Prelude] (exceptions, the error and state monads, tactics),
    [PyStr] and [PyVal] (Python's strings, numbers and dynamic values),
    [PyStd] (UUIDs, dates, a backtracking regular-expression matcher), [Regex]
    (match and fullmatch with a denotation they are proved against), [NetAddr]
    (the standard library's ipaddress and urlparse), [Shell] (shlex.quote and a
    reader of the words a shell takes literally), [Json]
    (json.dumps and utils/depth_json.py) and [Redis] (the server the rules keep
    their windows in, as a class).

    ** Conventions

    Definitions keep the names of the source where Rocq allows it.  A Python
    function that may raise is a function into [res]; one that works on shared
    state is in [M S], where the state survives the exception, as it does in
    Python.  A coroutine is the sequence of the steps between its awaits that
    touch shared state; interleavings are lists of such steps (service calls in
    [Db.run_aops], messages in [Pipeline.run_messages], ticks in
    [Dispatcher._run], events of delivery tasks in
    [SoarTasks.fire_all], publications and turns of any number of workers in
    [Streams.run_steps], socket reads in [Ws.on_text], all of these together in
    [System.history], requests in
    [RateLimit.run], [Sources.run_sops] and [RulesStudio.run_reqs], records in
    [AuditLog.run_calls]).  Strings are lists of code points below 256; instants are
    integers (nanoseconds for Redis and the monotonic clock, microseconds for
    datetimes, seconds for timestamps rendered to the second).  Log output and
    the wording of messages are left out.

    Outside the repository, and therefore parameters: the Redis server (class
    [Redis.Redis] with [RedisLaws], discharged by [MemRedis]; for the stream
    class [Streams.StreamServer] with [StreamUp] for a server that answers and
    [StreamLaws] for lost connections, discharged by [MemStream] and
    [FlakyStream]), the SQL database
    ([Db.Database] with [DatabaseLaws]: a transaction commits, rolls back, or
    loses its connection before or after the commit; discharged by
    [mem_database]), the sockets, the backends, the JSON and YAML decoders (of rules,
    hunts and configurations), the
    pydantic validators of the frames and of a rule's details, [re.search] of
    operator patterns, [fromisoformat], the lenient UTF-8 decoder, the HTTP
    self-call of a connector test, UUID, key and nonce generation, the file
    system's [resolve], the HTTP client, DNS and the Jinja templates of the SOAR
    backends, [tomllib.loads], the em dash (no code below 256), the address
    classes of ipaddress, [url.Parse], [filepath.IsAbs] and [uuid.Parse] of
    the agent, pydantic's reading of numbers and booleans in environment variables,
    the reading of datetime query parameters, and Starlette's response
    class ([Middleware.StarletteResponse]) and CORS middleware.

    ** Theorems

    - [System]: whatever the interleaving and whatever connections are lost, a
      command is sent only for a pending row of an opted-in host, signed with its
      present secret, over a connection that proved this host's secret, and the
      row was asked for by a detector or rule on a stored event of the host.  The
      event may have been reported by the agent of another host.
    - [Response]: a web attack on an opted-in, connected host ends, when database
      and network answer, with its alert stored and the block command sent.
    - [Sigma]: the condition text of ADR-010 is evaluated as the boolean
      combination it denotes; rules fail closed; which files of a rule directory
      load; template rendering.
    - [SigmaRunner]: no fire on a key before its cooldown has run out, over any
      later stream; the Redis-backed runner refines an abstract sliding window.
    - [Crypto]: signatures verify; the canonical form is injective without
      pipes and ambiguous with one.
    - [Actions]: exactly which IPv4 targets pass, what an accepted CIDR block
      cannot contain; the deployment modes.
    - [Json]: the depth limit is exact on JSON text.
    - [Db]: the life cycle of action rows under any interleaving and lost
      connections; single acknowledgement; idempotent event persistence.
    - [Dispatcher]: when a frame is built; a tick sends only authorised frames,
      oldest first, delivers what is deliverable, and starves behind sixteen
      undeliverable rows.
    - [Detectors]: exact firing conditions; three detectors that never fire; a
      cooldown an attacker can hold.
    - [Pipeline]: stream round trip; the consumer survives every message and
      links actions to alerts; fires are persisted whole or not at all; one
      raising rule suppresses all fires of an event.
    - [Streams]: with a server that answers every published event is handled once
      and in order by one of the workers; with lost connections none is handled
      twice, and what was read but not handled never is.
    - [Soar], [SoarConfig], [DeadLetter]: bounds of every configuration that
      loads; the delivery schedule; the queueing decision; deliveries lost
      without a dead letter; replays that are always refused; colliding files.
    - [SoarTasks], [SoarPoll]: the interleaved deliveries, of which one alone is
      the sequential one of [Soar]; at most ten at a time; ten sleeping retries
      stop all others; what a poll enqueues; which configurations install.
    - [SoarBackends]: the URLs the address guard accepts and how it is walked
      around; where deliveries can go; what one delivery reports, and that one
      its backend refuses is lost.
    - [Ws]: what a first frame can do and who is admitted; the effect of every
      later frame.
    - [RateLimit]: the pruned deques refine an unpruned log and bound every
      minute.
    - [Evidence]: what is stored and what verification answers after rotations.
    - [Auth]: the decision for every request and setting.
    - [AuditLog]: the ring and the daily files after any sequence of records.
    - [Sources]: what every connector row satisfies after any requests; the key
      of a syslog source that nobody sees; which hosts are accepted; the answers
      conform to their models; connector tests; webhook signatures.
    - [Ingest]: a batch is stored whole or not at all; an unsigned Logpush batch
      does nothing; bounds of the stored metadata; rows published in place of
      the stored ones.
    - [RulesStudio]: no request leaves the custom directory; a created rule
      compiles to the rule asked for; the accepted conditions are those the
      engine evaluates; a rejected rule that stops the engine.
    - [Toml], [Provision]: the generated configuration is read back to what was
      asked for; commands are read by a shell as the intended words; a request
      cannot leave the here-document it is written into; which configurations
      start an agent; no answer depends on a secret; what a rotation does.
    - [ReadApi]: following the cursor of the alert list terminates and, when
      instants differ, shows every alert once and in order; what patching a host
      does; the key the evidence store starts with; where two endpoints disagree
      on the build.
    - [Middleware]: every response has a safe request id; which responses carry
      the security headers; wrapped errors whose length is wrong.
    - [SelfDefense]: the throttle refines an unpruned log and bounds every
      minute; which rules can fire on the events of the report endpoint.
    - [Hunt]: on plain metadata a hunt matches exactly the events the live
      runner would, and changes no table.
    - [Canary]: the answers are those of a store that keeps no secrets.
    - [AuditBots]: when the secret scan answers, and with which findings.
    - [App]: the shutdown mirrors the start; a start that fails takes nothing down.
    - [Config]: whatever the variables hold, settings that load are within their
      bounds; with an unknown deployment mode the dispatcher sends nothing.
    - [Brand]: the dynamic program computes the least number of edits.

    ** Bounds and fuel

    [Streams.published_events_handled_once] asks for as many turns as the batches
    of the worker need; [Sigma.sub_fuel] is the length of the template, and every step of the
    substitution consumes a character; the regular-expression matcher of
    [PyStd] bounds a star by the length of its input, of which every iteration
    consumes at least one character; [Soar.attempts] is given
    [max_retries + 2 - attempt], one more than the attempts the loop can make;
    [ReadApi.AlertsApi.follow] needs one request more than there are matching
    alerts, as [alerts_pagination] proves;
    the roots of the SHA-256 constants in [Crypto] are computed bit by bit.
    SHA-256 is proved equal to published digests on examples, not to a
    specification.

    ** Not modelled

    The Go agent but for its configuration checks, the web console and migrations
    are out of scope.  Inside a modelled part: rounding of floating-point clocks
    is ignored, a step of [System] lasts from one read of a loop to the next, so
    that interleavings inside the handling of one frame or message are not
    considered there, file-system errors of the evidence locker are left out, and
    code points above 255 do not occur.  A write of the rule studio takes effect
    or raises, the statements of one request to [Sources] or [Ingest] are not
    interleaved with others inside a transaction.  Everything else of the server is
    library calls: logging, routers, the bundled console and the entry points. *)

From Stdlib Require Export ZArith Lia.
From stdpp Require Export base tactics list gmap strings option pretty sorting.

#[global] Open Scope Z_scope.

Declare Scope zq_scope.
Delimit Scope zq_scope with zq.

(** ** Python exceptions and the error monad

    A Python call that may raise is a function into [res].  [Raise] carries
    the exception class; the text of the message is a short tag, the wording
    of the source's f-strings is not modelled. *)

Inductive exn : Type :=
| ValueError (tag : string)
| JSONDecodeError
| TypeError
| KeyError
| IndexError
| AttributeError
| OSError
| RuntimeError
| OverflowError
| ReError
| YAMLError
| SigmaRuleLoadError (reason : string)
| SqlError
| RedisError (wrongtype : bool)
| ResponseError (code : string)
| AssertionError
| DuplicateEvent
| ValidationError
| WebSocketDisconnect
| TimeoutError
| NameError
| ResponseValidationError
| GaiError
| TemplateError
| TOMLDecodeError
| ConnectionError
| HTTPException (status : Z) (detail : string).

#[export] Instance exn_eq_dec : EqDecision exn.
Proof. solve_decision. Defined.

Inductive res (A : Type) : Type :=
| Ok (a : A)
| Raise (e : exn).
Arguments Ok {A} a.
Arguments Raise {A} e.

#[export] Instance res_ret : MRet res := @Ok.
#[export] Instance res_bind : MBind res := fun A B f m =>
  match m with Ok a => f a | Raise e => Raise e end.

#[export] Instance res_fmap : FMap res := fun A B f m =>
  match m with Ok a => Ok (f a) | Raise e => Raise e end.

#[export] Instance Ok_inj {A} : Inj eq eq (@Ok A).
Proof. by intros a b [=]. Qed.

Definition is_ok {A} (r : res A) : bool :=
  match r with Ok _ => true | Raise _ => false end.

(** [except ValueError]: JSONDecodeError, TOMLDecodeError and ValidationError are
    subclasses of ValueError. *)
Definition is_value_error (e : exn) : bool :=
  match e with ValueError _ | JSONDecodeError | ValidationError | TOMLDecodeError => true | _ => false end.

Lemma res_bind_ok {A B} (m : res A) (f : A -> res B) b :
  (m ≫= f) = Ok b <-> exists a, m = Ok a /\ f a = Ok b.
Proof.
  destruct m as [a|e]; cbn; split; [eauto | naive_solver | done | naive_solver].
Qed.

(** [raise ... unless b]. *)
Definition guard_res (b : bool) (e : exn) : res unit :=
  if b then Ok tt else Raise e.

Lemma guard_res_ok b e u : guard_res b e = Ok u <-> b = true.
Proof. destruct b, u; cbn; split; congruence. Qed.

(** ** State and exceptions

    A coroutine that works on a shared state of type [S] and may raise; the
    state survives the exception. *)

Definition M (S A : Type) : Type := S -> S * res A.

#[export] Instance M_ret {S} : MRet (M S) := fun A a s => (s, Ok a).
#[export] Instance M_bind {S} : MBind (M S) := fun A B f m s =>
  match m s with
  | (s', Ok a) => f a s'
  | (s', Raise e) => (s', Raise e)
  end.

Definition raise_M {S A} (e : exn) : M S A := fun s => (s, Raise e).
Definition lift_res {S A} (r : res A) : M S A := fun s => (s, r).

(** [try: m except Exception as e: h e]. *)
Definition try_M {S A} (m : M S A) (h : exn -> M S A) : M S A := fun s =>
  match m s with
  | (s', Raise e) => h e s'
  | r => r
  end.

(** Run on one half of a pair of states. *)
Definition on_fst {S T A} (m : M S A) : M (S * T) A := fun w =>
  let '(s, r) := m w.1 in ((s, w.2), r).
Definition on_snd {S T A} (m : M T A) : M (S * T) A := fun w =>
  let '(t, r) := m w.2 in ((w.1, t), r).

Lemma M_bind_ok {S A B} (m : M S A) (f : A -> M S B) s s' b :
  (m ≫= f) s = (s', Ok b) <-> exists s1 a, m s = (s1, Ok a) /\ f a s1 = (s', Ok b).
Proof.
  unfold mbind, M_bind. destruct (m s) as [s1 [a|e]]; split; naive_solver.
Qed.

(** ** Invariants of stateful code *)

(** A Hoare triple for exceptional state: the invariant survives [m], raised or
    not. *)
Definition keeps_inv {S A} (I : S -> Prop) (m : M S A) : Prop := forall s, I s -> I (m s).1.

Lemma inv_bind {S A B} (I : S -> Prop) (m : M S A) (f : A -> M S B) :
  keeps_inv I m -> (forall a, keeps_inv I (f a)) -> keeps_inv I (m ≫= f).
Proof.
  intros Hm Hf s Hs. unfold mbind, M_bind. specialize (Hm s Hs). destruct (m s) as [s' [a|e]]; [|done].
  by apply Hf.
Qed.

Lemma inv_ret {S A} (I : S -> Prop) (a : A) : keeps_inv I (mret a).
Proof. by intros s. Qed.

Lemma inv_lift {S A} (I : S -> Prop) (r : res A) : keeps_inv I (lift_res r).
Proof. by intros s. Qed.

Lemma inv_try {S A} (I : S -> Prop) (m : M S A) (h : exn -> M S A) :
  keeps_inv I m -> (forall e, keeps_inv I (h e)) -> keeps_inv I (try_M m h).
Proof.
  intros Hm Hh s Hs. unfold try_M. specialize (Hm s Hs). destruct (m s) as [s' [a|e]]; [done|].
  by apply Hh.
Qed.

Lemma inv_on_fst {S T A} (I : S -> Prop) (m : M S A) :
  keeps_inv I m -> keeps_inv (fun w : S * T => I w.1) (on_fst m).
Proof. intros Hm [s t] Hs. unfold on_fst. cbn [fst] in *. specialize (Hm s Hs). by destruct (m s). Qed.

Lemma inv_on_snd {S T A} (I : S -> Prop) (m : M T A) :
  keeps_inv (fun w : S * T => I w.1) (on_snd m).
Proof. intros [s t] Hs. unfold on_snd. cbn. by destruct (m t). Qed.

(** What a successful check established may be used afterwards. *)
Lemma inv_lift_bind {S A B} (I : S -> Prop) (r : res A) (f : A -> M S B) :
  (forall a, r = Ok a -> keeps_inv I (f a)) -> keeps_inv I (lift_res r ≫= f).
Proof. intros Hf s Hs. unfold mbind, M_bind, lift_res. destruct r as [a|e]; [|done]. by apply Hf. Qed.

(** *** Triples

    [hoare P m Q E]: from a state in [P], [m] returns some [a] in a state of
    [Q a], or raises in a state of [E]. *)
Definition hoare {S A} (P : S -> Prop) (m : M S A) (Q : A -> S -> Prop) (E : S -> Prop) : Prop :=
  forall s, P s -> match m s with (s', Ok a) => Q a s' | (s', Raise _) => E s' end.

Lemma hoare_ret {S A} (a : A) (Q : A -> S -> Prop) E : hoare (Q a) (mret a) Q E.
Proof. by intros s. Qed.

Lemma hoare_raise {S A} e (Q : A -> S -> Prop) E : hoare E (raise_M e) Q E.
Proof. by intros s. Qed.

Lemma hoare_bind {S A B} P (m : M S A) R (f : A -> M S B) Q E :
  hoare P m R E -> (forall a, hoare (R a) (f a) Q E) -> hoare P (m ≫= f) Q E.
Proof.
  intros Hm Hf s Hs. unfold mbind, M_bind. specialize (Hm s Hs).
  destruct (m s) as [s1 [a|e]]; [by apply Hf|done].
Qed.

Lemma hoare_try {S A} P (m : M S A) (h : exn -> M S A) Q E E' :
  hoare P m Q E' -> (forall e, hoare E' (h e) Q E) -> hoare P (try_M m h) Q E.
Proof.
  intros Hm Hh s Hs. unfold try_M. specialize (Hm s Hs).
  destruct (m s) as [s1 [a|e]]; [done|by apply Hh].
Qed.

Lemma hoare_weaken {S A} (P P' : S -> Prop) (m : M S A) (Q Q' : A -> S -> Prop) (E E' : S -> Prop) :
  hoare P' m Q' E' -> (forall s, P s -> P' s) -> (forall a s, Q' a s -> Q a s) ->
  (forall s, E' s -> E s) -> hoare P m Q E.
Proof.
  intros Hm HP HQ HE s Hs. specialize (Hm s (HP s Hs)). destruct (m s) as [s1 [a|e]]; auto.
Qed.

Lemma hoare_pre {S A} (P P' : S -> Prop) (m : M S A) Q E :
  hoare P' m Q E -> (forall s, P s -> P' s) -> hoare P m Q E.
Proof. intros Hm HP. by eapply hoare_weaken. Qed.

(** A fact that does not speak of the state. *)
Lemma hoare_pure {S A} (F : Prop) (P : S -> Prop) (m : M S A) Q E :
  (F -> hoare P m Q E) -> hoare (fun s => P s /\ F) m Q E.
Proof. intros Hm s [Hs Hf]. by apply Hm. Qed.

Lemma hoare_inv {S A} (I : S -> Prop) (m : M S A) : keeps_inv I m <-> hoare I m (fun _ => I) I.
Proof.
  split; intros Hm s Hs; specialize (Hm s Hs); destruct (m s) as [s1 [a|e]]; done.
Qed.

(** An invariant, and what the result says by itself. *)
Lemma hoare_result {S A} (I : S -> Prop) (m : M S A) (F : A -> Prop) :
  keeps_inv I m -> (forall s s' a, I s -> m s = (s', Ok a) -> F a) ->
  hoare I m (fun a s => I s /\ F a) I.
Proof.
  intros Hm Hf s Hs. specialize (Hm s Hs). specialize (Hf s).
  destruct (m s) as [s1 [a|e]]; [|done]. split; [done|]. by apply (Hf s1).
Qed.

Lemma hoare_lift {S A} (I : S -> Prop) (r : res A) :
  hoare I (lift_res r) (fun a s => I s /\ r = Ok a) I.
Proof. intros s Hs. unfold lift_res. by destruct r. Qed.

Lemma hoare_on_fst {S T A} (P : S * T -> Prop) (m : M S A) (Q : A -> S * T -> Prop) E :
  (forall t, hoare (fun s => P (s, t)) m (fun a s => Q a (s, t)) (fun s => E (s, t))) ->
  hoare P (on_fst m) Q E.
Proof.
  intros Hm [s t] Hs. unfold on_fst. cbn [fst snd]. specialize (Hm t s Hs).
  by destruct (m s) as [s1 [a|e]].
Qed.

Lemma hoare_on_snd {S T A} (P : S * T -> Prop) (m : M T A) (Q : A -> S * T -> Prop) E :
  (forall s, hoare (fun t => P (s, t)) m (fun a t => Q a (s, t)) (fun t => E (s, t))) ->
  hoare P (on_snd m) Q E.
Proof.
  intros Hm [s t] Hs. unfold on_snd. cbn [fst snd]. specialize (Hm s t Hs).
  by destruct (m t) as [t1 [a|e]].
Qed.

(** ** Integers *)

Lemma lor_shiftl a b n : 0 <= n -> 0 <= b < 2 ^ n -> Z.lor (Z.shiftl a n) b = a * 2 ^ n + b.
Proof.
  intros Hn Hb. rewrite <- Z.shiftl_mul_pow2 by done.
  symmetry. apply Z.add_nocarry_lor. apply Z.bits_inj'. intros i Hi.
  rewrite Z.land_spec, Z.bits_0. destruct (Z.lt_ge_cases i n).
  - by rewrite Z.shiftl_spec_low.
  - rewrite (proj1 (Z.bounded_iff_bits_nonneg n b Hn ltac:(lia)) ltac:(lia) i) by done.
    apply andb_false_r.
Qed.

(** ** Tactics *)

(** Invert every monadic success hypothesis in the context. *)
Ltac inv_res :=
  repeat match goal with
  | H : (_ ≫= _) = Ok _ |- _ =>
      apply res_bind_ok in H; destruct H as (?&?&?)
  | H : (_ ≫= _) _ = (_, Ok _) |- _ =>
      apply M_bind_ok in H; destruct H as (?&?&?&?)
  | H : mret _ _ = (_, Ok _) |- _ => injection H as <- <-
  | H : guard_res _ _ = Ok _ |- _ => apply guard_res_ok in H
  | H : Ok _ = Ok _ |- _ => injection H as H; try subst
  | H : Raise _ = Ok _ |- _ => discriminate H
  | H : Ok _ = Raise _ |- _ => discriminate H
  end.

(** Case analysis on the scrutinee of the first [match] or [if] of the goal,
    keeping the equation. *)
Ltac split_match :=
  match goal with
  | |- context [match ?x with _ => _ end] =>
      lazymatch x with
      | context [match _ with _ => _ end] => fail
      | _ => let E := fresh "E" in destruct x eqn:E
      end
  end.

Ltac split_match_in H :=
  match type of H with
  | context [match ?x with _ => _ end] =>
      lazymatch x with
      | context [match _ with _ => _ end] => fail
      | _ => let E := fresh "E" in destruct x eqn:E
      end
  end.

(** Boolean hypotheses to propositions. *)
Ltac bprop :=
  repeat match goal with
  | H : (_ && _) = true |- _ => apply andb_true_iff in H; destruct H
  | H : (_ || _) = false |- _ => apply orb_false_iff in H; destruct H
  | H : negb _ = true |- _ => apply negb_true_iff in H
  | H : negb _ = false |- _ => apply negb_false_iff in H
  | H : (_ <=? _) = true |- _ => apply Z.leb_le in H
  | H : (_ <=? _) = false |- _ => apply Z.leb_gt in H
  | H : (_ <? _) = true |- _ => apply Z.ltb_lt in H
  | H : (_ <? _) = false |- _ => apply Z.ltb_ge in H
  | H : (_ =? _) = true |- _ => apply Z.eqb_eq in H
  | H : (_ =? _) = false |- _ => apply Z.eqb_neq in H
  | H : String.eqb _ _ = true |- _ => apply String.eqb_eq in H
  | H : String.eqb _ _ = false |- _ => apply String.eqb_neq in H
  | H : bool_decide _ = true |- _ => apply bool_decide_eq_true_1 in H
  | H : bool_decide _ = false |- _ => apply bool_decide_eq_false_1 in H
  end.

Create HintDb zq.
Create Rewrite HintDb zq_str.
#[export] Hint Resolve inv_ret inv_lift inv_on_snd : zq.
