(* ===== verification/PyStr.v ===== *)
(** * Python [str] operations

    A Python [str] is a [string]: every character is a code point below 256
    (Latin-1), which contains ASCII.  On that range the functions below are the
    methods of [str], [int()] and [str()] the server calls. *)

From S2P Require Import Prelude.
From Stdlib Require Import Ascii.

(** Let [cbn] unfold concatenation on a constructor. *)
#[global] Arguments String.append !_ _ /.

(** Case analysis on the eight bits of a character. *)
Ltac ascii_cases c :=
  destruct c; repeat match goal with b : bool |- _ => destruct b end.

Definition code (c : ascii) : N := N_of_ascii c.

Definition in_range (lo hi : N) (c : ascii) : bool :=
  (lo <=? code c)%N && (code c <=? hi)%N.

(** [str.isspace] on one character; also the class matched by [\s]. *)
Definition is_space (c : ascii) : bool :=
  in_range 9 13 c || in_range 28 32 c || (code c =? 133)%N || (code c =? 160)%N.

Definition is_digit (c : ascii) : bool := in_range 48 57 c.

Definition digit_val (c : ascii) : Z := Z.of_N (code c) - 48.

(** [str.isalnum] on one character. *)
Definition is_alnum (c : ascii) : bool :=
  is_digit c || in_range 65 90 c || in_range 97 122 c
  || (code c =? 170)%N || in_range 178 179 c || (code c =? 181)%N
  || in_range 185 186 c || in_range 188 190 c
  || (in_range 192 255 c && negb (code c =? 215)%N && negb (code c =? 247)%N).

(** [\w]. *)
Definition is_word (c : ascii) : bool := is_alnum c || (code c =? 95)%N.

Definition lower_char (c : ascii) : ascii :=
  if in_range 65 90 c || (in_range 192 222 c && negb (code c =? 215)%N)
  then ascii_of_N (code c + 32) else c.

(** Upper-casing, on the characters whose upper case stays in range. *)
Definition upper_char (c : ascii) : ascii :=
  if in_range 97 122 c || (in_range 224 254 c && negb (code c =? 247)%N)
  then ascii_of_N (code c - 32) else c.

Fixpoint smap (f : ascii -> ascii) (s : string) : string :=
  match s with EmptyString => EmptyString | String c r => String (f c) (smap f r) end.

Definition lower : string -> string := smap lower_char.
Definition upper : string -> string := smap upper_char.

Fixpoint sforall (p : ascii -> bool) (s : string) : bool :=
  match s with EmptyString => true | String c r => p c && sforall p r end.

Fixpoint sexists (p : ascii -> bool) (s : string) : bool :=
  match s with EmptyString => false | String c r => p c || sexists p r end.

Definition slen (s : string) : Z := Z.of_nat (String.length s).

(** [s in (a, b, ...)]. *)
Definition str_in (s : string) (l : list string) : bool := existsb (String.eqb s) l.

(** Truth value of a [str]. *)
Definition nonempty (s : string) : bool :=
  match s with EmptyString => false | _ => true end.

Definition startswith (p s : string) : bool := String.prefix p s.

(** [needle in s]. *)
Fixpoint contains (needle s : string) : bool :=
  startswith needle s ||
  match s with EmptyString => false | String _ r => contains needle r end.

Fixpoint endswith (suf s : string) : bool :=
  String.eqb suf s ||
  match s with EmptyString => false | String _ r => endswith suf r end.

Fixpoint dropwhile (p : ascii -> bool) (s : string) : string :=
  match s with
  | EmptyString => EmptyString
  | String c r => if p c then dropwhile p r else s
  end.

(** Longest prefix whose characters satisfy [p], and what follows it. *)
Fixpoint span (p : ascii -> bool) (s : string) : string * string :=
  match s with
  | EmptyString => (EmptyString, EmptyString)
  | String c r =>
      if p c then let '(a, b) := span p r in (String c a, b)
      else (EmptyString, s)
  end.

Fixpoint droplast (p : ascii -> bool) (s : string) : string :=
  match s with
  | EmptyString => EmptyString
  | String c r =>
      match droplast p r with
      | EmptyString => if p c then EmptyString else String c EmptyString
      | t => String c t
      end
  end.

Definition lstrip (s : string) : string := dropwhile is_space s.
Definition rstrip (s : string) : string := droplast is_space s.
Definition strip (s : string) : string := lstrip (rstrip s).

Definition is_char (x c : ascii) : bool := Ascii.eqb x c.

(** [s.rstrip(c)] for a one-character argument. *)
Definition rstrip_char (x : ascii) (s : string) : string := droplast (is_char x) s.

(** [s.split(c)]. *)
Fixpoint split_char (x : ascii) (s : string) : list string :=
  match s with
  | EmptyString => [EmptyString]
  | String c r =>
      if is_char x c then EmptyString :: split_char x r
      else match split_char x r with
           | [] => [String c EmptyString]
           | h :: t => String c h :: t
           end
  end.

(** [c.join(parts)] for a separator of any length. *)
Fixpoint join (sep : string) (parts : list string) : string :=
  match parts with
  | [] => EmptyString
  | [p] => p
  | p :: rest => p +:+ sep +:+ join sep rest
  end.

(** [s.partition(c)]: the text before the first [c], whether [c] occurs, and
    the text after it. *)
Fixpoint partition_char (x : ascii) (s : string) : string * bool * string :=
  match s with
  | EmptyString => (EmptyString, false, EmptyString)
  | String c r =>
      if is_char x c then (EmptyString, true, r)
      else let '(a, f, b) := partition_char x r in (String c a, f, b)
  end.

Fixpoint take_str (n : nat) (s : string) : string :=
  match n, s with
  | S m, String c r => String c (take_str m r)
  | _, _ => EmptyString
  end.

Fixpoint drop_str (n : nat) (s : string) : string :=
  match n, s with
  | S m, String _ r => drop_str m r
  | _, _ => s
  end.

(** [s.split(sep)] for a non-empty separator; [fuel] bounds the pieces, and
    [length s] is enough since every cut consumes a character. *)
Fixpoint split_str_fuel (fuel : nat) (sep s acc : string) : list string :=
  match fuel with
  | O => [acc +:+ s]
  | S k =>
      if startswith sep s
      then acc :: split_str_fuel k sep (drop_str (String.length sep) s) EmptyString
      else match s with
           | EmptyString => [acc]
           | String c r => split_str_fuel k sep r (acc +:+ String c EmptyString)
           end
  end.

Definition split_str (sep s : string) : list string :=
  split_str_fuel (S (String.length s)) sep s EmptyString.

(** [s.replace(a, b)] for one-character [a]. *)
Fixpoint replace_char (a : ascii) (b s : string) : string :=
  match s with
  | EmptyString => EmptyString
  | String c r =>
      if is_char a c then b +:+ replace_char a b r
      else String c (replace_char a b r)
  end.

(** ** [int(s)] and [str(n)] *)

Fixpoint int_digits (s : string) (acc : Z) (prev_digit : bool) : option Z :=
  match s with
  | EmptyString => if prev_digit then Some acc else None
  | String c r =>
      if is_digit c then int_digits r (acc * 10 + digit_val c) true
      else if is_char "_" c && prev_digit then int_digits r acc false
      else None
  end.

Fixpoint count_digits (s : string) : Z :=
  match s with
  | EmptyString => 0
  | String c r => (if is_digit c then 1 else 0) + count_digits r
  end.

(** CPython refuses more than 4300 digits. *)
Definition int_max_str_digits : Z := 4300.

Definition int_unsigned (s : string) : option Z :=
  if int_max_str_digits <? count_digits s then None else int_digits s 0 false.

(** [int(s)] for a [str] argument; [None] is [ValueError]. *)
Definition py_int (s : string) : option Z :=
  match strip s with
  | String "+" r => int_unsigned r
  | String "-" r => Z.opp <$> int_unsigned r
  | r => int_unsigned r
  end.

Definition str_int (z : Z) : string := pretty z.

Definition str_bool (b : bool) : string := if b then "True" else "False".

(** ** Lemmas *)

Lemma is_char_spec x c : is_char x c = true <-> x = c.
Proof. apply Ascii.eqb_eq. Qed.

Lemma str_in_spec s l : str_in s l = true <-> In s l.
Proof.
  unfold str_in. rewrite existsb_exists. split.
  - intros (x&Hx&E). by apply String.eqb_eq in E as ->.
  - intros H. exists s. by rewrite String.eqb_refl.
Qed.

Lemma is_char_refl x : is_char x x = true.
Proof. by apply is_char_spec. Qed.

Lemma sapp_nil_r (s : string) : s +:+ "" = s.
Proof. induction s as [|c s IH]; cbn; [done|]. by rewrite IH. Qed.

Lemma sapp_assoc (a b c : string) : (a +:+ b) +:+ c = a +:+ (b +:+ c).
Proof. induction a as [|x a IH]; cbn; [done|]. by rewrite IH. Qed.

Lemma sapp_length (a b : string) :
  String.length (a +:+ b) = (String.length a + String.length b)%nat.
Proof. induction a as [|c a IH]; cbn; [done|]. by rewrite IH. Qed.

Lemma slen_app (a b : string) : slen (a +:+ b) = slen a + slen b.
Proof. unfold slen. rewrite sapp_length. lia. Qed.

Lemma sapp_inj_l (a b c : string) : a +:+ b = a +:+ c -> b = c.
Proof. induction a as [|x a IH]; cbn; [done|]. intros H. injection H. done. Qed.

Lemma sforall_app p (a b : string) : sforall p (a +:+ b) = sforall p a && sforall p b.
Proof. induction a as [|c a IH]; cbn; [done|]. by rewrite IH, andb_assoc. Qed.

Lemma sexists_app p (a b : string) : sexists p (a +:+ b) = sexists p a || sexists p b.
Proof. induction a as [|c a IH]; cbn; [done|]. by rewrite IH, orb_assoc. Qed.

Lemma prefix_spec (p s : string) :
  String.prefix p s = true <-> exists r, s = p +:+ r.
Proof.
  revert s. induction p as [|c p IH]; intros s; cbn.
  - destruct s; split; eauto.
  - destruct s as [|d s]; cbn.
    + split; [done | intros [r Hr]; discriminate].
    + destruct (ascii_dec c d) as [->|Hne].
      * rewrite IH. split; intros [r Hr]; exists r; [by rewrite Hr | by injection Hr].
      * split; [done | intros [r Hr]; injection Hr; congruence].
Qed.

Lemma startswith_spec (p s : string) :
  startswith p s = true <-> exists r, s = p +:+ r.
Proof. apply prefix_spec. Qed.

Lemma contains_spec (needle s : string) :
  contains needle s = true <-> exists a b, s = a +:+ needle +:+ b.
Proof.
  induction s as [|c s IH]; cbn [contains]; rewrite orb_true_iff, startswith_spec.
  - split.
    + intros [[r Hr]|?]; [|done]. exists "", r. done.
    + intros (a&b&H). left. destruct a as [|x a]; [|discriminate]. by exists b.
  - rewrite IH. split.
    + intros [[r Hr]|(a&b&->)]; [exists "", r; done | by exists (String c a), b].
    + intros (a&b&H). destruct a as [|x a]; cbn in H; [left; by exists b|].
      injection H as -> ->. right. eauto.
Qed.

Lemma contains_char x s : contains (String x "") s = sexists (is_char x) s.
Proof.
  induction s as [|c s IH]; cbn [contains sexists]; [done|]. rewrite IH. f_equal.
  unfold startswith, is_char. cbn [String.prefix]. destruct (ascii_dec x c) as [->|Hn].
  - rewrite Ascii.eqb_refl. by destruct s.
  - symmetry. by apply Ascii.eqb_neq.
Qed.

Lemma endswith_spec (suf s : string) :
  endswith suf s = true <-> exists r, s = r +:+ suf.
Proof.
  induction s as [|c s IH]; cbn [endswith]; rewrite orb_true_iff, String.eqb_eq.
  - split; [intros [->|?]; [by exists ""|done]|].
    intros [r H]. destruct r; cbn in H; [by left|discriminate].
  - rewrite IH. split.
    + intros [->|[r ->]]; [by exists ""|by exists (String c r)].
    + intros [r H]. destruct r as [|d r]; cbn in H; [by left|].
      injection H as -> ->. right. eauto.
Qed.

Lemma span_app p (s : string) : let '(a, b) := span p s in s = a +:+ b.
Proof.
  induction s as [|c s IH]; cbn; [done|].
  destruct (p c); [|done]. destruct (span p s) as [a b]. cbn. by rewrite IH.
Qed.

Lemma span_all p (s : string) : sforall p s = true -> span p s = (s, "").
Proof.
  induction s as [|c s IH]; cbn; [done|]. intros H; bprop.
  rewrite H, IH by done. done.
Qed.

(** [span] stops exactly at the first character outside the class. *)
Lemma span_stop p (a : string) c (b : string) :
  sforall p a = true -> p c = false -> span p (a +:+ String c b) = (a, String c b).
Proof.
  intros Ha Hc. induction a as [|x a IH]; cbn in *; [by rewrite Hc|].
  bprop. rewrite H, IH by done. done.
Qed.

Lemma partition_char_spec x (s : string) :
  match partition_char x s with
  | (a, true, b) => s = a +:+ String x b /\ sexists (is_char x) a = false
  | (a, false, b) => s = a /\ b = "" /\ sexists (is_char x) s = false
  end.
Proof.
  induction s as [|c s IH]; cbn; [done|].
  destruct (is_char x c) eqn:E; [apply is_char_spec in E as ->; done|].
  destruct (partition_char x s) as [[a f] b]. destruct f; cbn.
  - destruct IH as [-> IH]. by rewrite E, IH.
  - destruct IH as (->&->&IH). by rewrite IH.
Qed.

Lemma partition_char_none x s :
  sexists (is_char x) s = false -> partition_char x s = (s, false, "").
Proof.
  induction s as [|c s IH]; cbn [sexists partition_char]; [done|]. intros H. bprop.
  rewrite H, IH by done. done.
Qed.

Lemma split_char_nonnil x s : split_char x s <> [].
Proof.
  destruct s as [|c s]; cbn; [done|].
  destruct (is_char x c); [done|]. by destruct (split_char x s).
Qed.

(** Splitting loses nothing: joining the pieces gives the string back. *)
Lemma join_split_char x s : join (String x "") (split_char x s) = s.
Proof.
  induction s as [|c s IH]; [done|]. cbn [split_char].
  pose proof (split_char_nonnil x s) as Hn.
  destruct (is_char x c) eqn:E.
  - apply is_char_spec in E as ->.
    destruct (split_char c s) as [|h t]; [done|]. cbn [join]. by rewrite <- IH.
  - destruct (split_char x s) as [|h t]; [done|].
    destruct t; cbn in *; by rewrite IH.
Qed.

Lemma split_char_no_sep x s :
  Forall (fun p => sexists (is_char x) p = false) (split_char x s).
Proof.
  induction s as [|c s IH]; cbn; [repeat constructor|].
  destruct (is_char x c) eqn:E; [constructor; [done|exact IH]|].
  destruct (split_char x s) as [|h t].
  - constructor; [cbn; by rewrite E|constructor].
  - apply Forall_cons in IH as [Hh Ht]. constructor; [cbn; by rewrite E, Hh|done].
Qed.

(** A string without the separator is one piece, and a piece followed by the
    separator is split off. *)
Lemma split_char_app x (a b : string) :
  sexists (is_char x) a = false ->
  split_char x (a +:+ String x b) = a :: split_char x b.
Proof.
  intros Ha. induction a as [|c a IH]; cbn in *; [by rewrite is_char_refl|].
  bprop. rewrite H. by rewrite IH.
Qed.

Lemma split_char_one x (a : string) :
  sexists (is_char x) a = false -> split_char x a = [a].
Proof.
  intros Ha. induction a as [|c a IH]; cbn in *; [done|].
  bprop. rewrite H. by rewrite IH.
Qed.

Lemma strip_nil : strip "" = "".
Proof. done. Qed.

Lemma droplast_none p s : sforall (fun c => negb (p c)) s = true -> droplast p s = s.
Proof.
  induction s as [|c s IH]; cbn; [done|]. intros H; bprop. rewrite IH by done.
  rewrite H. by destruct s.
Qed.

Lemma dropwhile_none p s : sforall (fun c => negb (p c)) s = true -> dropwhile p s = s.
Proof. destruct s as [|c s]; cbn; [done|]. intros H; bprop. by rewrite H. Qed.

Lemma strip_none s : sforall (fun c => negb (is_space c)) s = true -> strip s = s.
Proof.
  intros H. unfold strip, lstrip, rstrip.
  by rewrite droplast_none, dropwhile_none by done.
Qed.

(** *** [str] of an integer is read back by [int] *)

Lemma digit_char_ok (n : N) :
  (n < 10)%N -> is_digit (pretty_N_char n) = true /\ digit_val (pretty_N_char n) = Z.of_N n.
Proof.
  intros H.
  assert (Hall : Forall (fun k => is_digit (pretty_N_char (N.of_nat k)) = true
                   /\ digit_val (pretty_N_char (N.of_nat k)) = Z.of_nat k) (seq 0 10))
    by (repeat constructor).
  rewrite Forall_forall in Hall. specialize (Hall (N.to_nat n)).
  rewrite N2Nat.id, N_nat_Z in Hall. apply Hall, elem_of_seq. lia.
Qed.

(** The digits [pretty_N_go] writes in front of [s]. *)
Lemma pretty_N_go_digits (x : N) : forall s, exists ds,
  pretty_N_go x s = ds +:+ s /\ sforall is_digit ds = true
  /\ (x <> 0%N -> nonempty ds = true)
  /\ forall acc p r, int_digits (ds +:+ r) acc p
       = int_digits r (acc * 10 ^ Z.of_nat (String.length ds) + Z.of_N x) (p || nonempty ds).
Proof.
  induction x as [x IH] using (well_founded_induction N.lt_wf_0). intros s.
  destruct (decide (x = 0%N)) as [->|Hx].
  - exists "". rewrite pretty_N_go_0. repeat split; [done|]. intros acc p r. cbn.
    rewrite orb_false_r. f_equal. lia.
  - rewrite pretty_N_go_step by lia.
    destruct (IH (x / 10)%N ltac:(apply N.div_lt; lia)
                (String (pretty_N_char (x mod 10)) s)) as (ds&Hgo&Hd&_&Hv).
    pose proof (digit_char_ok (x mod 10) ltac:(apply N.mod_lt; lia)) as [Hc1 Hc2].
    exists (ds +:+ String (pretty_N_char (x mod 10)) "").
    rewrite Hgo, sapp_assoc, sforall_app, Hd, sapp_length. cbn [sforall String.append].
    rewrite Hc1. split; [done|split; [done|split]].
    { intros _. by destruct ds. }
    intros acc p r. rewrite sapp_assoc, Hv. cbn [String.append int_digits String.length].
    rewrite Hc1, Hc2.
    replace (p || nonempty (ds +:+ _)) with true by (by destruct ds, p).
    f_equal. rewrite Nat2Z.inj_add, Z.pow_add_r by lia. change (10 ^ Z.of_nat 1) with 10.
    pose proof (N.div_mod x 10 ltac:(lia)). nia.
Qed.

Lemma pretty_N_digits (x : N) :
  sforall is_digit (pretty x) = true /\ nonempty (pretty x) = true
  /\ int_digits (pretty x) 0 false = Some (Z.of_N x).
Proof.
  unfold pretty, pretty_N. case_decide as Hx; [by subst|].
  destruct (pretty_N_go_digits x "") as (ds&->&Hd&Hn&Hv).
  rewrite sapp_nil_r. split; [done|split; [by apply Hn|]].
  specialize (Hv 0 false ""). rewrite sapp_nil_r in Hv. rewrite Hv. cbn.
  by rewrite Hn by done.
Qed.

Lemma sforall_impl (p q : ascii -> bool) s :
  (forall c, p c = true -> q c = true) -> sforall p s = true -> sforall q s = true.
Proof.
  intros Hpq. induction s as [|c s IH]; cbn; [done|]. intros H; bprop.
  by rewrite Hpq, IH.
Qed.

(** A digit is the code point of one of ten characters. *)
Lemma is_digit_range c : is_digit c = true -> (48 <= code c <= 57)%N.
Proof. unfold is_digit, in_range. intros H. apply andb_true_iff in H as [H1 H2].
  apply N.leb_le in H1, H2. lia. Qed.

Lemma code_inj c d : code c = code d -> c = d.
Proof. intros H. rewrite <- (ascii_N_embedding c), <- (ascii_N_embedding d). by f_equal. Qed.

(** Tell a digit from a given non-digit character. *)
Lemma digit_not (x c : ascii) :
  is_digit x = false -> is_digit c = true -> is_char x c = false.
Proof. intros Hx Hc. destruct (is_char x c) eqn:E; [|done]. apply is_char_spec in E. congruence. Qed.

Lemma digit_not_space c : is_digit c = true -> is_space c = false.
Proof.
  intros H%is_digit_range. unfold is_space, in_range.
  repeat (apply orb_false_iff; split);
    [apply andb_false_iff; rewrite !N.leb_gt | apply andb_false_iff; rewrite !N.leb_gt
    | apply N.eqb_neq | apply N.eqb_neq]; lia.
Qed.

Lemma nonspace_digits s :
  sforall is_digit s = true -> sforall (fun c => negb (is_space c)) s = true.
Proof. apply sforall_impl. intros c Hc. by rewrite digit_not_space. Qed.

Lemma str_int_nonneg z : 0 <= z -> str_int z = pretty (Z.to_N z).
Proof. unfold str_int. intros H. destruct z; done. Qed.

Lemma str_int_neg z : z < 0 -> str_int z = String "-" (pretty (Z.to_N (- z))).
Proof. unfold str_int. intros H. destruct z; done. Qed.

Lemma int_unsigned_pretty (n : N) :
  count_digits (pretty n) <= int_max_str_digits ->
  int_unsigned (pretty n) = Some (Z.of_N n).
Proof.
  intros Hlen. unfold int_unsigned.
  destruct (Z.ltb_spec int_max_str_digits (count_digits (pretty n))); [lia|].
  apply pretty_N_digits.
Qed.

(** [int(str(n)) == n] as long as CPython converts that many digits. *)
Lemma py_int_str_int z :
  count_digits (str_int z) <= int_max_str_digits -> py_int (str_int z) = Some z.
Proof.
  intros Hlen. unfold py_int.
  destruct (Z.le_gt_cases 0 z) as [Hz|Hz].
  - rewrite str_int_nonneg in * by done.
    destruct (pretty_N_digits (Z.to_N z)) as (Hd&Hn&_).
    rewrite strip_none by (by apply nonspace_digits).
    apply int_unsigned_pretty in Hlen. rewrite Z2N.id in Hlen by done.
    destruct (pretty (Z.to_N z)) as [|c r]; [done|].
    cbn in Hd. bprop.
    ascii_cases c; first [exact Hlen | vm_compute in H; discriminate H].
  - rewrite str_int_neg in * by done.
    destruct (pretty_N_digits (Z.to_N (- z))) as (Hd&Hn&_).
    rewrite strip_none by (cbn; by apply nonspace_digits).
    change (0 + count_digits (pretty (Z.to_N (- z))) <= int_max_str_digits) in Hlen.
    rewrite int_unsigned_pretty by lia. cbn. f_equal. lia.
Qed.

(** A number below [10 ^ k] has at most [k] digits. *)
Lemma count_digits_go k : forall (x : N) s, (x < 10 ^ N.of_nat k)%N ->
  count_digits (pretty_N_go x s) <= Z.of_nat k + count_digits s.
Proof.
  induction k as [|k IH]; intros x s Hx.
  - change (10 ^ N.of_nat 0)%N with 1%N in Hx. replace x with 0%N by lia.
    rewrite pretty_N_go_0. lia.
  - destruct (decide (x = 0%N)) as [->|Hn]; [rewrite pretty_N_go_0; lia|].
    rewrite pretty_N_go_step by lia.
    etrans; [apply IH|].
    + apply N.Div0.div_lt_upper_bound. by rewrite Nat2N.inj_succ, N.pow_succ_r' in Hx.
    + cbn [count_digits]. destruct (is_digit _); lia.
Qed.

Lemma count_digits_int k z :
  (0 < k)%nat -> Z.abs z < 10 ^ Z.of_nat k -> count_digits (str_int z) <= Z.of_nat k.
Proof.
  intros Hk Hz.
  assert (Hp : forall n : N, (n < 10 ^ N.of_nat k)%N -> count_digits (pretty n) <= Z.of_nat k).
  { intros n Hn. unfold pretty, pretty_N. case_decide; [change (1 <= Z.of_nat k); lia|].
    pose proof (count_digits_go k n "" Hn) as Hg. cbn [count_digits] in Hg. lia. }
  assert (Hb : (Z.to_N (Z.abs z) < 10 ^ N.of_nat k)%N).
  { apply N2Z.inj_lt. rewrite Z2N.id, N2Z.inj_pow, nat_N_Z by lia. exact Hz. }
  destruct (Z.le_gt_cases 0 z).
  - rewrite str_int_nonneg by done. apply Hp. by rewrite Z.abs_eq in Hb by done.
  - rewrite str_int_neg by done. cbn [count_digits]. change (is_digit "-") with false.
    rewrite Z.add_0_l. apply Hp. by rewrite Z.abs_neq in Hb by lia.
Qed.

Lemma str_int_inj a b : str_int a = str_int b -> a = b.
Proof. apply (inj pretty). Qed.

Lemma str_int_no_char x z :
  is_digit x = false -> is_char x "-" = false -> sexists (is_char x) (str_int z) = false.
Proof.
  intros Hx Hm.
  assert (Hds : forall s, sforall is_digit s = true -> sexists (is_char x) s = false).
  { intros s. induction s as [|c s IH]; cbn; [done|]. intros H; bprop.
    by rewrite digit_not, IH by done. }
  destruct (Z.le_gt_cases 0 z).
  - rewrite str_int_nonneg by done. apply Hds, pretty_N_digits.
  - rewrite str_int_neg by done. cbn. rewrite Hm. apply Hds, pretty_N_digits.
Qed.

Lemma startswith_app (p r : string) : startswith p (p +:+ r) = true.
Proof. apply startswith_spec. by exists r. Qed.

Lemma endswith_app (r suf : string) : endswith suf (r +:+ suf) = true.
Proof. apply endswith_spec. by exists r. Qed.

Lemma drop_str_app (p r : string) : drop_str (String.length p) (p +:+ r) = r.
Proof. by induction p. Qed.

Lemma take_str_app (p r : string) : take_str (String.length p) (p +:+ r) = p.
Proof. induction p as [|c p IH]; cbn; [by destruct r|]. by rewrite IH. Qed.

Lemma smap_app f (a b : string) : smap f (a +:+ b) = smap f a +:+ smap f b.
Proof. induction a as [|c a IH]; cbn; [done|]. by rewrite IH. Qed.

Lemma smap_id f s : sforall (fun c => Ascii.eqb (f c) c) s = true -> smap f s = s.
Proof.
  induction s as [|c s IH]; cbn; [done|]. intros H; bprop.
  apply Ascii.eqb_eq in H. by rewrite H, IH.
Qed.

Lemma sexists_sforall p s : sexists p s = negb (sforall (fun c => negb (p c)) s).
Proof. induction s as [|c s IH]; cbn; [done|]. rewrite IH. by destruct (p c). Qed.

Lemma split_str_fuel_step fuel sep c r acc :
  startswith sep (String c r) = false ->
  split_str_fuel (S fuel) sep (String c r) acc
  = split_str_fuel fuel sep r (acc +:+ String c "").
Proof. intros H. cbn [split_str_fuel]. by rewrite H. Qed.

(** Reading a piece that does not contain the first character of the separator. *)
Lemma split_str_fuel_piece x sep (a : string) : forall fuel rest acc,
  sexists (is_char x) a = false ->
  (String.length a <= fuel)%nat ->
  split_str_fuel fuel (String x sep) (a +:+ rest) acc
  = split_str_fuel (fuel - String.length a) (String x sep) rest (acc +:+ a).
Proof.
  induction a as [|c a IH]; intros fuel rest acc Ha Hf; cbn [String.append String.length].
  - by rewrite sapp_nil_r, Nat.sub_0_r.
  - cbn in Ha, Hf. bprop. destruct fuel as [|fuel]; [lia|].
    rewrite split_str_fuel_step.
    + rewrite IH by (done || lia). rewrite sapp_assoc. cbn.
      by replace (S fuel - S (String.length a))%nat with (fuel - String.length a)%nat by lia.
    + unfold startswith. cbn. destruct (ascii_dec x c) as [->|]; [|done].
      by rewrite is_char_refl in H.
Qed.

(** Splitting undoes joining when no piece contains the separator's first
    character. *)
Lemma split_str_join x sep (parts : list string) :
  parts <> [] ->
  Forall (fun p => sexists (is_char x) p = false) parts ->
  split_str (String x sep) (join (String x sep) parts) = parts.
Proof.
  intros Hne Hall. unfold split_str.
  assert (Hgen : forall fuel acc, (String.length (join (String x sep) parts) < fuel)%nat ->
    split_str_fuel fuel (String x sep) (join (String x sep) parts) acc
    = match parts with [] => [acc] | h :: t => (acc +:+ h) :: t end); last first.
  { rewrite Hgen by lia. by destruct parts. }
  induction Hall as [|a parts Ha Hall IH]; [done|]. intros fuel acc Hf.
  destruct parts as [|b parts].
  - cbn [join] in *. rewrite <- (sapp_nil_r a) at 1.
    rewrite split_str_fuel_piece by (done || lia).
    destruct (fuel - String.length a)%nat eqn:E; [lia|]. done.
  - change (join (String x sep) (a :: b :: parts))
      with (a +:+ String x sep +:+ join (String x sep) (b :: parts)) in *.
    rewrite !sapp_length in Hf. cbn [String.length] in Hf.
    rewrite split_str_fuel_piece by (done || lia).
    destruct (fuel - String.length a)%nat as [|fuel'] eqn:E; [lia|].
    cbn [split_str_fuel]. rewrite startswith_app, drop_str_app.
    rewrite IH by (done || lia). done.
Qed.

(** A string whose first and last parts carry no blank at the ends is its own
    [strip]. *)
Lemma droplast_app p (a b : string) :
  nonempty b = true -> droplast p b = b -> droplast p (a +:+ b) = a +:+ b.
Proof.
  intros Hn Hb. induction a as [|c a IH]; [done|]. cbn [String.append droplast].
  rewrite IH. by destruct a, b.
Qed.

Lemma strip_app c (a b : string) :
  is_space c = false -> nonempty b = true ->
  sforall (fun c => negb (is_space c)) b = true ->
  strip (String c a +:+ b) = String c a +:+ b.
Proof.
  intros Hc Hn Hb. unfold strip, lstrip, rstrip.
  rewrite droplast_app by (done || by apply droplast_none). cbn. by rewrite Hc.
Qed.

Lemma sapp_last_inj (a b : string) c d :
  a +:+ String c "" = b +:+ String d "" -> a = b /\ c = d.
Proof.
  revert b. induction a as [|x a IH]; intros [|y b]; cbn; intros H.
  - by injection H.
  - injection H as _ H. by destruct b.
  - injection H as _ H. by destruct a.
  - injection H as -> H. apply IH in H as [-> ->]. done.
Qed.

Lemma join_empty_cons (x : string) l : join "" (x :: l) = x +:+ join "" l.
Proof. destruct l; cbn [join]; [by rewrite sapp_nil_r|done]. Qed.

Lemma join_empty_app (a b : list string) : join "" (a ++ b) = join "" a +:+ join "" b.
Proof.
  induction a as [|x a IH]; [done|]. rewrite <- app_comm_cons, !join_empty_cons, IH.
  by rewrite sapp_assoc.
Qed.

Lemma sapp_inj_r (a b c : string) : a +:+ c = b +:+ c -> a = b.
Proof.
  revert b. induction a as [|x a IH]; intros [|y b]; cbn; intros H; try done.
  - exfalso. apply (f_equal String.length) in H. cbn in H. rewrite sapp_length in H. lia.
  - exfalso. apply (f_equal String.length) in H. cbn in H. rewrite sapp_length in H. lia.
  - injection H as -> H. by rewrite (IH b).
Qed.

#[export] Hint Rewrite sapp_nil_r sapp_assoc sforall_app sexists_app : zq_str.

Lemma int_digits_nonneg s : forall acc p z, 0 <= acc -> int_digits s acc p = Some z -> 0 <= z.
Proof.
  induction s as [|c s IH]; cbn [int_digits]; intros acc p z Ha.
  - destruct p; [intros [= <-]; done|done].
  - destruct (is_digit c) eqn:E.
    + apply IH. apply is_digit_range in E. unfold digit_val. lia.
    + destruct (is_char "_" c && p); [apply IH; lia|done].
Qed.

