(* ===== verification/PyVal.v ===== *)
(** * Dynamically typed Python values

    What [yaml.safe_load], [json.loads] and the event metadata hold: [None],
    booleans, integers, floats, strings, lists and dictionaries with string
    keys in insertion order.  A float is named by its [repr], which determines
    it ([float(repr(x)) == x]); [float_of_str] computes its binary64 value. *)

From S2P Require Import Prelude PyStr.
From Stdlib Require Import Ascii.

(** ** binary64 values *)

(** [FFin m e] is the finite value [m * 2^e]. *)
Inductive pyfloat : Type :=
| FNaN
| FInf (neg : bool)
| FFin (m e : Z).

(** Round the positive rational [n/d] to binary64, ties to even. *)
Definition round_pos (n d : Z) : pyfloat :=
  let e0 := Z.max (Z.log2 n - Z.log2 d - 53) (-1074) in
  let scale e := if 0 <=? e then (n, d * 2 ^ e) else (n * 2 ^ (- e), d) in
  let '(a0, b0) := scale e0 in
  let e := if 2 ^ 53 <=? a0 / b0 then e0 + 1 else e0 in
  let '(a, b) := scale e in
  let q := a / b in
  let r := a mod b in
  let m := if b <? 2 * r then q + 1
           else if 2 * r <? b then q
           else if Z.even q then q else q + 1 in
  if (971 <? e) || ((e =? 971) && (2 ^ 53 <=? m)) then FInf false else FFin m e.

Definition fneg (f : pyfloat) : pyfloat :=
  match f with FNaN => FNaN | FInf b => FInf (negb b) | FFin m e => FFin (- m) e end.

Definition round_ratio (n d : Z) : pyfloat :=
  if n =? 0 then FFin 0 0
  else if n <? 0 then fneg (round_pos (- n) d) else round_pos n d.

(** Exact comparison of finite values. *)
Definition fin_compare (m1 e1 m2 e2 : Z) : comparison :=
  let e := Z.min e1 e2 in
  (m1 * 2 ^ (e1 - e) ?= m2 * 2 ^ (e2 - e)).

(** [None] when one side is NaN. *)
Definition fcompare (a b : pyfloat) : option comparison :=
  match a, b with
  | FNaN, _ | _, FNaN => None
  | FInf x, FInf y => Some (if Bool.eqb x y then Eq else if x then Lt else Gt)
  | FInf x, FFin _ _ => Some (if x then Lt else Gt)
  | FFin _ _, FInf y => Some (if y then Gt else Lt)
  | FFin m1 e1, FFin m2 e2 => Some (fin_compare m1 e1 m2 e2)
  end.

Definition fge (a b : pyfloat) : bool :=
  match fcompare a b with Some Gt | Some Eq => true | _ => false end.
Definition flt (a b : pyfloat) : bool :=
  match fcompare a b with Some Lt => true | _ => false end.
Definition feqb (a b : pyfloat) : bool :=
  match fcompare a b with Some Eq => true | _ => false end.

(** ** [float(s)] *)

(** Digits of [s], with their number; underscores have been removed. *)
Fixpoint dec_digits (s : string) (acc n : Z) : Z * Z * string :=
  match s with
  | String c r => if is_digit c then dec_digits r (acc * 10 + digit_val c) (n + 1)
                  else (acc, n, s)
  | EmptyString => (acc, n, s)
  end.

(** Every underscore must stand between two digits. *)
Fixpoint underscores_ok (prev_digit : bool) (s : string) : bool :=
  match s with
  | EmptyString => true
  | String c r =>
      if is_char "_" c
      then prev_digit && match r with String d _ => is_digit d | _ => false end
           && underscores_ok false r
      else underscores_ok (is_digit c) r
  end.

(** [m * 10^x]; far outside the binary64 range the result is known without
    computing the power. *)
Definition scale10 (m ndigits x : Z) : pyfloat :=
  if m =? 0 then FFin 0 0
  else if 400 <? x + ndigits then FInf false
  else if x + ndigits <? -400 then FFin 0 0
  else if 0 <=? x then round_ratio (m * 10 ^ x) 1 else round_ratio m (10 ^ (- x)).

Definition float_exponent (s : string) : option Z :=
  match s with
  | EmptyString => Some 0
  | String c r =>
      if is_char "e" (lower_char c) then
        let '(neg, t) := match r with
                         | String "-" t => (true, t)
                         | String "+" t => (false, t)
                         | _ => (false, r)
                         end in
        let '(x, n, rest) := dec_digits t 0 0 in
        if (n =? 0) || nonempty rest then None
        else Some (if neg then - x else x)
      else None
  end.

Definition float_unsigned (s : string) : option pyfloat :=
  if String.eqb (lower s) "inf" || String.eqb (lower s) "infinity" then Some (FInf false)
  else if String.eqb (lower s) "nan" then Some FNaN
  else
    let '(ip, ni, r) := dec_digits s 0 0 in
    let '(m, nf, r') := match r with
                        | String "." t => let '(m, n, u) := dec_digits t ip 0 in (m, n, u)
                        | _ => (ip, 0, r)
                        end in
    if ni + nf =? 0 then None
    else x ← float_exponent r'; Some (scale10 m (ni + nf) (x - nf)).

(** [float(s)]; [None] is [ValueError]. *)
Definition float_of_str (s : string) : option pyfloat :=
  let t := strip s in
  if negb (underscores_ok false t) then None
  else
    match replace_char "_" "" t with
    | String "-" r => fneg <$> float_unsigned r
    | String "+" r => float_unsigned r
    | r => float_unsigned r
    end.

(** [float(n)] for an [int]: values beyond the range raise [OverflowError]. *)
Definition float_of_int (z : Z) : res pyfloat :=
  match round_ratio z 1 with FInf _ => Raise OverflowError | f => Ok f end.

(** [int(x)] for a [float]: truncation towards zero. *)
Definition int_of_float (f : pyfloat) : res Z :=
  match f with
  | FNaN => Raise (ValueError "nan")
  | FInf _ => Raise OverflowError
  | FFin m e => Ok (if 0 <=? e then m * 2 ^ e else Z.quot m (2 ^ (- e)))
  end.

(** ** Values *)

Inductive val : Type :=
| VNone
| VBool (b : bool)
| VInt (z : Z)
| VFloat (repr : string)
| VStr (s : string)
| VList (l : list val)
| VDict (d : list (string * val)).

(** [d.get(k)] on an insertion-ordered dictionary with distinct keys. *)
Fixpoint assoc {A} (k : string) (d : list (string * A)) : option A :=
  match d with
  | [] => None
  | (k', v) :: r => if String.eqb k k' then Some v else assoc k r
  end.

(** [d[k] = v]: in place when the key is present, at the end otherwise. *)
Fixpoint assoc_set {A} (k : string) (v : A) (d : list (string * A)) : list (string * A) :=
  match d with
  | [] => [(k, v)]
  | (k', v') :: r => if String.eqb k k' then (k', v) :: r else (k', v') :: assoc_set k v r
  end.

Fixpoint assoc_del {A} (k : string) (d : list (string * A)) : list (string * A) :=
  match d with
  | [] => []
  | (k', v) :: r => if String.eqb k k' then r else (k', v) :: assoc_del k r
  end.

Definition has_key {A} (k : string) (d : list (string * A)) : bool :=
  match assoc k d with Some _ => true | None => false end.

Definition float_value (r : string) : pyfloat := default FNaN (float_of_str r).

(** The number a value stands for, if it is one ([bool] is an [int]). *)
Definition num_of (v : val) : option pyfloat :=
  match v with
  | VBool b => Some (FFin (Z.b2z b) 0)
  | VInt z => Some (FFin z 0)
  | VFloat r => Some (float_value r)
  | _ => None
  end.

(** [a == b]. *)
Fixpoint val_eqb (a b : val) {struct a} : bool :=
  match a, b with
  | VNone, VNone => true
  | VStr s, VStr t => String.eqb s t
  | VList l, VList m =>
      (fix go (l m : list val) {struct l} : bool :=
         match l, m with
         | [], [] => true
         | x :: l', y :: m' => val_eqb x y && go l' m'
         | _, _ => false
         end) l m
  | VDict d, VDict f =>
      Nat.eqb (length d) (length f) &&
      (fix go (d : list (string * val)) : bool :=
         match d with
         | [] => true
         | (k, x) :: d' =>
             match assoc k f with Some y => val_eqb x y | None => false end && go d'
         end) d
  | _, _ =>
      match num_of a, num_of b with
      | Some x, Some y => feqb x y
      | _, _ => false
      end
  end.

(** [v in l]. *)
Definition val_in (v : val) (l : list val) : bool := existsb (val_eqb v) l.

(** Truth value. *)
Definition truthy (v : val) : bool :=
  match v with
  | VNone => false
  | VBool b => b
  | VInt z => negb (z =? 0)
  | VFloat r => negb (feqb (float_value r) (FFin 0 0))
  | VStr s => nonempty s
  | VList l => match l with [] => false | _ => true end
  | VDict d => match d with [] => false | _ => true end
  end.

(** [a or b]. *)
Definition val_or (a b : val) : val := if truthy a then a else b.

(** [d.get(k)] with [None] for a missing key. *)
Definition get (k : string) (d : list (string * val)) : val :=
  default VNone (assoc k d).

(** ** [repr] and [str] *)

Definition hex_digit (n : N) : ascii :=
  if (n <? 10)%N then ascii_of_N (48 + n) else ascii_of_N (87 + n).

Definition hex_byte (c : ascii) : string :=
  String (hex_digit (code c / 16)%N) (String (hex_digit (code c mod 16)%N) "").

Definition printable (c : ascii) : bool :=
  in_range 32 126 c || (in_range 161 255 c && negb (code c =? 173)%N).

Definition quote_char (s : string) : ascii :=
  if contains "'" s && negb (sexists (is_char "034") s) then "034"%char else "'"%char.

Fixpoint repr_chars (q : ascii) (s : string) : string :=
  match s with
  | EmptyString => EmptyString
  | String c r =>
      (if is_char q c || is_char "\" c then String "\" (String c "")
       else if is_char "010" c then "\n"
       else if is_char "013" c then "\r"
       else if is_char "009" c then "\t"
       else if printable c then String c ""
       else "\x" +:+ hex_byte c) +:+ repr_chars q r
  end.

Definition repr_str (s : string) : string :=
  let q := quote_char s in
  String q "" +:+ repr_chars q s +:+ String q "".

Fixpoint repr (v : val) : string :=
  match v with
  | VNone => "None"
  | VBool b => str_bool b
  | VInt z => str_int z
  | VFloat r => r
  | VStr s => repr_str s
  | VList l => "[" +:+ join ", " (map repr l) +:+ "]"
  | VDict d => "{" +:+ join ", " (map (fun kv => repr_str kv.1 +:+ ": " +:+ repr kv.2) d) +:+ "}"
  end.

Definition str_of (v : val) : string :=
  match v with VStr s => s | _ => repr v end.

(** [int(v)] and [float(v)]. *)
Definition int_of (v : val) : res Z :=
  match v with
  | VStr s => match py_int s with Some z => Ok z | None => Raise (ValueError "int") end
  | VInt z => Ok z
  | VBool b => Ok (Z.b2z b)
  | VFloat r => int_of_float (float_value r)
  | _ => Raise TypeError
  end.

Definition float_of (v : val) : res pyfloat :=
  match v with
  | VStr s => match float_of_str s with Some f => Ok f | None => Raise (ValueError "float") end
  | VInt z => float_of_int z
  | VBool b => Ok (FFin (Z.b2z b) 0)
  | VFloat r => Ok (float_value r)
  | _ => Raise TypeError
  end.

(** ** Lemmas *)

Lemma val_eqb_str s t : val_eqb (VStr s) (VStr t) = true <-> s = t.
Proof. apply String.eqb_eq. Qed.

Definition is_str (v : val) : bool := match v with VStr _ => true | _ => false end.

Lemma val_eqb_str_other s v : is_str v = false -> val_eqb (VStr s) v = false.
Proof. by destruct v. Qed.

Lemma val_in_str_other s (l : list val) :
  Forall (fun v => is_str v = false) l -> val_in (VStr s) l = false.
Proof.
  induction 1 as [|v l Hv _ IH]; cbn [val_in existsb]; [done|].
  rewrite val_eqb_str_other by done. exact IH.
Qed.

Lemma assoc_set_same {A} k (v : A) d : assoc k (assoc_set k v d) = Some v.
Proof.
  induction d as [|[k' v'] d IH]; cbn; [by rewrite String.eqb_refl|].
  destruct (String.eqb k k') eqn:E; cbn; by rewrite E.
Qed.

Lemma assoc_set_other {A} k k' (v : A) d :
  k <> k' -> assoc k' (assoc_set k v d) = assoc k' d.
Proof.
  intros Hne. induction d as [|[k2 v2] d IH]; cbn.
  - by rewrite (proj2 (String.eqb_neq _ _)) by congruence.
  - destruct (String.eqb k k2) eqn:E; cbn.
    + apply String.eqb_eq in E as <-.
      by rewrite (proj2 (String.eqb_neq k' k)) by congruence.
    + by rewrite IH.
Qed.

Lemma assoc_in {A} k (v : A) d : assoc k d = Some v -> In (k, v) d.
Proof.
  induction d as [|[k' v'] d IH]; cbn; [done|].
  destruct (String.eqb k k') eqn:E; [|auto].
  apply String.eqb_eq in E as ->. intros [= ->]. by left.
Qed.

Lemma assoc_none {A} k (d : list (string * A)) : assoc k d = None <-> ~ In k (map fst d).
Proof.
  induction d as [|[k' v'] d IH]; cbn; [naive_solver|].
  destruct (String.eqb k k') eqn:E; bprop; [subst; naive_solver|].
  rewrite IH. naive_solver.
Qed.

Example float_tenth : float_of_str "0.1" = Some (FFin 7205759403792794 (-56)).
Proof. vm_compute. reflexivity. Qed.

Example float_forms :
  float_of_str " 1_0.5e1 " = Some (FFin 7388718138654720 (-46))
  /\ float_of_str "1__0" = None /\ float_of_str "." = None
  /\ float_of_str "-inf" = Some (FInf true) /\ float_of_str "1e400" = Some (FInf false)
  /\ float_of_str "5." = float_of_str "5".
Proof. vm_compute. repeat split. Qed.

Example repr_forms :
  repr (VList [VStr "ab"; VInt (-3); VBool true; VNone]) = "['ab', -3, True, None]".
Proof. reflexivity. Qed.
