(* ===== verification/PyStd.v ===== *)
(** * Parts of the Python standard library the server leans on

    [uuid.UUID] on text, [datetime.fromtimestamp] on the range it accepts, and a
    backtracking matcher with the priorities of [re] for the fixed patterns of
    the detectors (greedy repetition, leftmost alternative first). *)

From S2P Require Import Prelude PyStr PyVal.
From Stdlib Require Import Ascii.

(** ** [uuid.UUID] *)

Definition hex_val (c : ascii) : option Z :=
  if is_digit c then Some (digit_val c)
  else if in_range 97 102 c then Some (Z.of_N (code c) - 87)
  else if in_range 65 70 c then Some (Z.of_N (code c) - 55)
  else None.

Fixpoint int16_digits (s : string) (acc : Z) (prev_digit : bool) : option Z :=
  match s with
  | EmptyString => if prev_digit then Some acc else None
  | String c r =>
      match hex_val c with
      | Some d => int16_digits r (acc * 16 + d) true
      | None => if is_char "_" c && prev_digit then int16_digits r acc false else None
      end
  end.

(** An optional [0x] and one underscore after it. *)
Definition int16_unsigned (s : string) : option Z :=
  match s with
  | String "0" (String x r) =>
      if is_char "x" x || is_char "X" x
      then int16_digits (match r with String "_" r' => r' | _ => r end) 0 false
      else int16_digits s 0 false
  | _ => int16_digits s 0 false
  end.

(** [int(s, 16)]. *)
Definition py_int16 (s : string) : option Z :=
  match strip s with
  | String "+" r => int16_unsigned r
  | String "-" r => Z.opp <$> int16_unsigned r
  | r => int16_unsigned r
  end.

(** [s.replace(a, '')]. *)
Definition remove_str (a s : string) : string := join "" (split_str a s).

Definition is_brace (c : ascii) : bool := is_char "{" c || is_char "}" c.

(** [n] as [k] lower-case hexadecimal digits. *)
Fixpoint hexw (k : nat) (n : Z) : string :=
  match k with
  | O => ""
  | S k' => hexw k' (n / 16) +:+ String (hex_digit (Z.to_N (n mod 16))) ""
  end.

(** [str(UUID(int=n))]. *)
Definition uuid_text (n : Z) : string :=
  hexw 8 (n / 2 ^ 96) +:+ "-" +:+ hexw 4 (n / 2 ^ 80) +:+ "-" +:+ hexw 4 (n / 2 ^ 64)
  +:+ "-" +:+ hexw 4 (n / 2 ^ 48) +:+ "-" +:+ hexw 12 n.

(** [uuid.UUID(s)], given as its text; every refusal is a [ValueError]. *)
Definition parse_uuid (s : string) : res string :=
  let h := remove_str "uuid:" (remove_str "urn:" s) in
  let h := replace_char "-" "" (dropwhile is_brace (droplast is_brace h)) in
  if negb (slen h =? 32) then Raise (ValueError "badly formed hexadecimal UUID string")
  else match py_int16 h with
  | Some n => if (0 <=? n) && (n <? 2 ^ 128) then Ok (uuid_text n)
              else Raise (ValueError "int is out of range (need a 128-bit value)")
  | None => Raise (ValueError "invalid literal for int() with base 16")
  end.

(** The texts [str] gives to UUIDs. *)
Definition is_uuid (s : string) : Prop := exists n, 0 <= n < 2 ^ 128 /\ s = uuid_text n.

(** ** [datetime.fromtimestamp(n, tz=utc)]

    Accepted between the years 1 and 9999; refused with [ValueError] while the
    C library still has a year for it, and with another exception beyond. *)

Definition fromtimestamp (n : Z) : res Z :=
  if (-62135596800 <=? n) && (n <=? 253402300799) then Ok n
  else if (-67768040609740800 <=? n) && (n <=? 67768036191676799)
  then Raise (ValueError "year is out of range")
  else if (- 2 ^ 63 <=? n) && (n <? 2 ^ 63) then Raise OSError
  else Raise OverflowError.

(** ** [datetime] text, proleptic Gregorian calendar, UTC *)

(** Year, month and day of a day number counted from 1970-01-01. *)
Definition civil (days : Z) : Z * Z * Z :=
  let z := days + 719468 in
  let era := z / 146097 in
  let doe := z mod 146097 in
  let yoe := (doe - doe / 1460 + doe / 36524 - doe / 146096) / 365 in
  let doy := doe - (365 * yoe + yoe / 4 - yoe / 100) in
  let mp := (5 * doy + 2) / 153 in
  let m := if mp <? 10 then mp + 3 else mp - 9 in
  (yoe + era * 400 + (if m <=? 2 then 1 else 0), m, doy - (153 * mp + 2) / 5 + 1).

Fixpoint decw (k : nat) (n : Z) : string :=
  match k with
  | O => ""
  | S k' => decw k' (n / 10) +:+ String (ascii_of_N (48 + Z.to_N (n mod 10))) ""
  end.

Definition ymd (sep : string) (t : Z) : string :=
  let '(y, m, d) := civil (t / 86400) in
  decw 4 y +:+ sep +:+ decw 2 m +:+ sep +:+ decw 2 d.

Definition hms (sep : string) (t : Z) : string :=
  let s := t mod 86400 in
  decw 2 (s / 3600) +:+ sep +:+ decw 2 (s / 60 mod 60) +:+ sep +:+ decw 2 (s mod 60).

(** [isoformat(timespec="seconds")] of an aware UTC instant, without its offset;
    [strftime("%Y%m%dT%H%M%SZ")]. *)
Definition iso_seconds (t : Z) : string := ymd "-" t +:+ "T" +:+ hms ":" t.
Definition stamp (t : Z) : string := ymd "" t +:+ "T" +:+ hms "" t +:+ "Z".

(** [isoformat()] of an instant in microseconds. *)
Definition isoformat (us : Z) : string :=
  iso_seconds (us / 1000000)
  +:+ (if us mod 1000000 =? 0 then "" else "." +:+ decw 6 (us mod 1000000)) +:+ "+00:00".

(** ** Regular expressions *)

Inductive re : Type :=
| Rcls (p : ascii -> bool)
| Rlit (s : string)
| Rcat (a b : re)
| Ralt (a b : re)
| Rstar (a : re)
| Rrep (lo hi : nat) (a : re)
| Ropt (a : re)
| Rend.

(** [m a s]: what is left of [s] after each way [a] matches a prefix of it, in
    the order [re] tries them. *)
Section Engine.
Variable body : string -> list string.

(** Greedy repetition: an iteration that consumes nothing ends it. *)
Fixpoint star_rest (fuel : nat) (s : string) : list string :=
  match fuel with
  | O => [s]
  | S n =>
      flat_map (fun r => if (String.length r <? String.length s)%nat then star_rest n r else [])
        (body s) ++ [s]
  end.

Fixpoint rep_rest (lo hi : nat) (s : string) : list string :=
  match hi with
  | O => match lo with O => [s] | _ => [] end
  | S hi' =>
      flat_map (fun r => rep_rest (pred lo) hi' r) (body s)
      ++ match lo with O => [s] | _ => [] end
  end.

End Engine.

Fixpoint rests (a : re) (s : string) : list string :=
  match a with
  | Rcls p => match s with String c r => if p c then [r] else [] | EmptyString => [] end
  | Rlit l => if startswith l s then [drop_str (String.length l) s] else []
  | Rcat a b => flat_map (rests b) (rests a s)
  | Ralt a b => rests a s ++ rests b s
  | Rstar a => star_rest (rests a) (String.length s) s
  | Rrep lo hi a => rep_rest (rests a) lo hi s
  | Ropt a => rests a s ++ [s]
  | Rend => match s with EmptyString | String "010" EmptyString => [s] | _ => [] end
  end.

(** [pattern.search(s)]: the part of [s] from the leftmost match on, with what
    is left after it. *)
Fixpoint re_find (a : re) (s : string) : option (string * string) :=
  match rests a s with
  | r :: _ => Some (s, r)
  | [] => match s with EmptyString => None | String _ t => re_find a t end
  end.

Definition re_search (a : re) (s : string) : bool :=
  match re_find a s with Some _ => true | None => false end.

(** The text between two suffixes of one string. *)
Definition between (s r : string) : string := take_str (String.length s - String.length r) s.

(** A literal matched without regard to case. *)
Fixpoint Rilit (s : string) : re :=
  match s with
  | EmptyString => Rlit ""
  | String c EmptyString => Rcls (fun d => is_char (lower_char c) (lower_char d))
  | String c r => Rcat (Rcls (fun d => is_char (lower_char c) (lower_char d))) (Rilit r)
  end.

(** ** Lemmas *)

(** *** Hexadecimal digits *)

Lemma hex_digit_val n : 0 <= n < 16 -> hex_val (hex_digit (Z.to_N n)) = Some n.
Proof.
  intros H.
  assert (Hall : Forall (fun k => hex_val (hex_digit (N.of_nat k)) = Some (Z.of_nat k)) (seq 0 16))
    by (repeat constructor).
  rewrite Forall_forall in Hall. specialize (Hall (Z.to_nat n)).
  rewrite Z2Nat.id in Hall by lia. rewrite <- Hall; [|apply elem_of_seq; lia].
  do 2 f_equal. lia.
Qed.

Lemma hexw_length k : forall n, String.length (hexw k n) = k.
Proof. induction k as [|k IH]; intros n; [done|]. cbn [hexw]. rewrite sapp_length, IH. cbn. lia. Qed.

Definition is_hexc (c : ascii) : bool := is_digit c || in_range 97 102 c.

Lemma hex_digit_hexc n : 0 <= n < 16 -> is_hexc (hex_digit (Z.to_N n)) = true.
Proof.
  intros H.
  assert (Hall : Forall (fun k => is_hexc (hex_digit (N.of_nat k)) = true) (seq 0 16))
    by (repeat constructor).
  rewrite Forall_forall in Hall. specialize (Hall (Z.to_nat n)).
  replace (Z.to_N n) with (N.of_nat (Z.to_nat n)) by lia. apply Hall, elem_of_seq. lia.
Qed.

Lemma hexw_hexc k : forall n, sforall is_hexc (hexw k n) = true.
Proof.
  induction k as [|k IH]; intros n; [done|]. cbn [hexw]. rewrite sforall_app, IH. cbn [sforall].
  rewrite hex_digit_hexc by (apply Z.mod_pos_bound; lia). done.
Qed.

(** Reading [k] digits back appends them to the accumulator. *)
Lemma int16_hexw k : forall n r acc p, 0 <= n ->
  int16_digits (hexw k n +:+ r) acc p
  = int16_digits r (acc * 16 ^ Z.of_nat k + n mod 16 ^ Z.of_nat k) (p || bool_decide (k <> 0%nat)).
Proof.
  induction k as [|k IH]; intros n r acc p Hn.
  { cbn [hexw String.append]. rewrite Z.mod_1_r, orb_false_r. f_equal. lia. }
  cbn [hexw]. rewrite sapp_assoc, IH by (apply Z.div_pos; lia). cbn [String.append int16_digits].
  rewrite hex_digit_val by (apply Z.mod_pos_bound; lia).
  rewrite (bool_decide_eq_true_2 (S k <> 0%nat)) by lia. rewrite orb_true_r. f_equal.
  rewrite Nat2Z.inj_succ, Z.pow_succ_r, Z.rem_mul_r by lia. lia.
Qed.

Lemma hexc_not x c : is_hexc x = false -> is_hexc c = true -> is_char x c = false.
Proof. intros Hx Hc. destruct (is_char x c) eqn:E; [|done]. apply is_char_spec in E. congruence. Qed.

Lemma hexc_not_space c : is_hexc c = true -> is_space c = false.
Proof. by ascii_cases c. Qed.

Lemma replace_none x b s : sexists (is_char x) s = false -> replace_char x b s = s.
Proof.
  induction s as [|c s IH]; cbn; [done|]. intros H; bprop. rewrite H, IH by done. done.
Qed.

Lemma replace_char_app x b (s t : string) :
  replace_char x b (s +:+ t) = replace_char x b s +:+ replace_char x b t.
Proof.
  induction s as [|c s IH]; cbn; [done|]. rewrite IH.
  destruct (is_char x c); cbn; by rewrite ?sapp_assoc.
Qed.

Lemma remove_absent x sep s : sexists (is_char x) s = false -> remove_str (String x sep) s = s.
Proof.
  intros H. unfold remove_str. change s with (join (String x sep) [s]) at 1.
  rewrite split_str_join; [done|done|by repeat constructor].
Qed.

Definition is_uuidc (c : ascii) : bool := is_hexc c || is_char "-" c.

Lemma uuid_text_chars n : sforall is_uuidc (uuid_text n) = true.
Proof.
  assert (H : forall k m, sforall is_uuidc (hexw k m) = true).
  { intros. eapply sforall_impl; [|apply hexw_hexc]. unfold is_uuidc. intros c ->. done. }
  unfold uuid_text. by rewrite !sforall_app, !H.
Qed.

(** A character that is no hexadecimal digit and no hyphen is not in the text. *)
Lemma uuidc_absent p s :
  (forall c, is_uuidc c = true -> p c = false) -> sforall is_uuidc s = true -> sexists p s = false.
Proof.
  intros Hp. induction s as [|c s IH]; cbn; [done|]. intros H; bprop.
  by rewrite Hp, IH.
Qed.

(** The digits of a number, in two groups. *)
Lemma hexw_split k j : forall n, 0 <= n ->
  hexw k (n / 16 ^ Z.of_nat j) +:+ hexw j n = hexw (k + j) n.
Proof.
  induction j as [|j IH]; intros n Hn.
  - rewrite Z.div_1_r, sapp_nil_r. by rewrite Nat.add_0_r.
  - rewrite Nat.add_succ_r. cbn [hexw]. rewrite <- IH by (apply Z.div_pos; lia).
    rewrite sapp_assoc. do 2 f_equal.
    rewrite Nat2Z.inj_succ, Z.pow_succ_r by lia. by rewrite Z.div_div by lia.
Qed.

Lemma hexw_no_dash k m : sexists (is_char "-") (hexw k m) = false.
Proof.
  pose proof (hexw_hexc k m) as H. induction (hexw k m) as [|c s IH]; [done|].
  cbn [sexists sforall] in *. bprop.
  rewrite IH by done. by rewrite hexc_not.
Qed.

Lemma uuid_text_digits n :
  0 <= n < 2 ^ 128 -> replace_char "-" "" (uuid_text n) = hexw 32 n.
Proof.
  intros Hn. unfold uuid_text.
  rewrite !replace_char_app, !(replace_none _ _ _ (hexw_no_dash _ _)).
  change (replace_char "-" "" "-") with "". cbn [String.append].
  assert (Hd : forall a b, 0 <= a -> 0 <= b -> n / 2 ^ (a + b) = n / 2 ^ b / 2 ^ a).
  { intros a b Ha Hb. rewrite Z.div_div by lia. by rewrite <- Z.pow_add_r, (Z.add_comm b a) by lia. }
  assert (Hnn : forall a, 0 <= a -> 0 <= n / 2 ^ a) by (intros; apply Z.div_pos; lia).
  pose proof (hexw_split 4 12 n ltac:(lia)) as H4.
  pose proof (hexw_split 4 16 n ltac:(lia)) as H3.
  pose proof (hexw_split 4 20 n ltac:(lia)) as H2.
  pose proof (hexw_split 8 24 n ltac:(lia)) as H1.
  change (16 ^ Z.of_nat 12) with (2 ^ 48) in H4. change (16 ^ Z.of_nat 16) with (2 ^ 64) in H3.
  change (16 ^ Z.of_nat 20) with (2 ^ 80) in H2. change (16 ^ Z.of_nat 24) with (2 ^ 96) in H1.
  cbn [Nat.add] in *. by rewrite H4, H3, H2, H1.
Qed.

Lemma strip_hexw k n : strip (hexw k n) = hexw k n.
Proof.
  apply strip_none. eapply sforall_impl; [|apply hexw_hexc]. intros c Hc. by rewrite hexc_not_space.
Qed.

Lemma py_int16_hexw n : 0 <= n < 2 ^ 128 -> py_int16 (hexw 32 n) = Some n.
Proof.
  intros Hn. unfold py_int16. rewrite strip_hexw.
  pose proof (hexw_hexc 32 n) as Hh. pose proof (hexw_length 32 n) as Hl.
  pose proof (int16_hexw 32 n "" 0 false ltac:(lia)) as Hv. rewrite sapp_nil_r in Hv.
  change (16 ^ Z.of_nat 32) with (2 ^ 128) in Hv. rewrite Z.mod_small in Hv by lia.
  cbn [int16_digits orb] in Hv.
  destruct (hexw 32 n) as [|c [|d r]]; [discriminate Hl|discriminate Hl|].
  cbn [sforall] in Hh. bprop.
  assert (Hu : int16_unsigned (String c (String d r)) = Some n).
  { unfold int16_unsigned.
    ascii_cases c; cbv beta iota;
      first [exact Hv | rewrite !(hexc_not _ d) by done; exact Hv]. }
  ascii_cases c; first [exact Hu | vm_compute in H; discriminate H].
Qed.

(** [UUID(str(u)) == u]. *)
Lemma parse_uuid_text n : 0 <= n < 2 ^ 128 -> parse_uuid (uuid_text n) = Ok (uuid_text n).
Proof.
  intros Hn. unfold parse_uuid. pose proof (uuid_text_chars n) as Hc.
  assert (Hu : sexists (is_char "u") (uuid_text n) = false).
  { eapply uuidc_absent; [|exact Hc]. intros c. by ascii_cases c. }
  rewrite (remove_absent "u" "rn:"), (remove_absent "u" "uid:") by done.
  rewrite droplast_none, dropwhile_none by
    (revert Hc; apply sforall_impl; intros c; by ascii_cases c).
  rewrite uuid_text_digits by done. unfold slen. rewrite hexw_length. cbn [negb Z.eqb Z.of_nat].
  rewrite py_int16_hexw by done.
  destruct (Z.leb_spec 0 n), (Z.ltb_spec n (2 ^ 128)); try lia. done.
Qed.

Lemma parse_uuid_id s : is_uuid s -> parse_uuid s = Ok s.
Proof. intros (n&Hn&->). by apply parse_uuid_text. Qed.

(** *** The matcher *)

Lemma re_find_suffix a s t r : re_find a s = Some (t, r) -> exists pre, s = pre +:+ t.
Proof.
  induction s as [|c s IH]; cbn [re_find]; destruct (rests a _); intros H; try discriminate H.
  - injection H as <- _. by exists "".
  - apply IH in H as [pre ->]. by exists (String c pre).
  - injection H as <- _. by exists "".
Qed.

Lemma between_app (p r : string) : between (p +:+ r) r = p.
Proof.
  unfold between. rewrite sapp_length.
  replace (String.length p + String.length r - String.length r)%nat with (String.length p) by lia.
  apply take_str_app.
Qed.

Example iso_leap : isoformat (951782399 * 1000000 + 42) = "2000-02-28T23:59:59.000042+00:00".
Proof. reflexivity. Qed.

Example stamp_leap : stamp 1709164800 = "20240229T000000Z".
Proof. reflexivity. Qed.
