(* ===== verification/Regex.v ===== *)
(** * Languages of regular expressions

    [den a w r] says that the expression [a] matches the text [w] when the text
    [r] follows it; [rests_spec] proves that the backtracking matcher of [PyStd]
    finds exactly the matches of that language, so that the validators of the
    HTTP handlers can be characterised without running it. *)

From S2P Require Import Prelude PyStr PyStd.
From Stdlib Require Import Ascii.

(** ** [pattern.match] and [pattern.fullmatch] *)

Definition re_match (a : re) (s : string) : bool :=
  match rests a s with [] => false | _ => true end.

Definition re_fullmatch (a : re) (s : string) : bool := existsb (String.eqb "") (rests a s).

(** A literal character. *)
Abbreviation Rchr c := (Rcls (is_char c)).

(** [+]. *)
Definition Rplus (a : re) : re := Rcat a (Rstar a).

(** ** Denotation *)

Section Denote.
Variable P : string -> string -> Prop.

(** Iterations that consume something, as [re] stops at an empty one. *)
Inductive star_den : string -> string -> Prop :=
| star_nil r : star_den "" r
| star_cons w1 w2 r :
    nonempty w1 = true -> P w1 (w2 +:+ r) -> star_den w2 r -> star_den (w1 +:+ w2) r.

Fixpoint rep_den (lo hi : nat) (w r : string) : Prop :=
  (lo = 0%nat /\ w = "") \/
  match hi with
  | O => False
  | S hi' => exists w1 w2, w = w1 +:+ w2 /\ P w1 (w2 +:+ r) /\ rep_den (pred lo) hi' w2 r
  end.

End Denote.

Fixpoint den (a : re) (w r : string) : Prop :=
  match a with
  | Rcls p => exists c, w = String c "" /\ p c = true
  | Rlit l => w = l
  | Rcat a b => exists w1 w2, w = w1 +:+ w2 /\ den a w1 (w2 +:+ r) /\ den b w2 r
  | Ralt a b => den a w r \/ den b w r
  | Rstar a => star_den (den a) w r
  | Rrep lo hi a => rep_den (den a) lo hi w r
  | Ropt a => den a w r \/ w = ""
  | Rend => w = "" /\ (r = "" \/ r = String "010" "")
  end.

(** ** The matcher finds the matches *)

Definition finds (f : string -> list string) (P : string -> string -> Prop) : Prop :=
  forall s r, In r (f s) <-> exists w, s = w +:+ r /\ P w r.

Lemma nonempty_length s : nonempty s = true <-> (0 < String.length s)%nat.
Proof. destruct s; cbn; split; (done || lia). Qed.

Lemma star_rest_finds f P :
  finds f P -> forall fuel s r, (String.length s <= fuel)%nat ->
  In r (star_rest f fuel s) <-> exists w, s = w +:+ r /\ star_den P w r.
Proof.
  intros Hf. induction fuel as [|n IH]; intros s r Hn; cbn [star_rest].
  - destruct s as [|c s]; [|cbn in Hn; lia]. cbn [In]. split.
    + intros [<-|[]]. exists "". split; [done|constructor].
    + intros (w&E&_). left. by destruct w, r.
  - rewrite in_app_iff, in_flat_map. cbn [In]. split.
    + intros [(t&Ht&Hr)|[<-|[]]]; [|exists ""; split; [done|constructor]].
      apply Hf in Ht as (w1&->&H1). rewrite sapp_length in *.
      destruct (Nat.ltb_spec (String.length t) (String.length w1 + String.length t)); [|done].
      apply IH in Hr as (w2&->&H2); [|lia]. exists (w1 +:+ w2). rewrite sapp_assoc.
      split; [done|]. constructor; [apply nonempty_length; lia|done|done].
    + intros (w&->&Hw). destruct Hw as [r|w1 w2 r Hne H1 H2]; [by right; left|].
      left. exists (w2 +:+ r). split; [apply Hf; exists w1; by rewrite sapp_assoc|].
      apply nonempty_length in Hne.
      destruct (Nat.ltb_spec (String.length (w2 +:+ r)) (String.length ((w1 +:+ w2) +:+ r)))
        as [_|Hl]; rewrite ?sapp_length in *; [|lia].
      apply IH; [rewrite sapp_length; lia|eauto].
Qed.

Lemma rep_rest_finds f P :
  finds f P -> forall hi lo s r,
  In r (rep_rest f lo hi s) <-> exists w, s = w +:+ r /\ rep_den P lo hi w r.
Proof.
  intros Hf. induction hi as [|hi IH]; intros lo s r; cbn [rep_rest rep_den].
  - destruct lo; cbn [In]; split.
    + intros [<-|[]]. exists "". tauto.
    + intros (w&->&[[_ ->]|[]]). by left.
    + done.
    + intros (w&->&[[? _]|[]]). done.
  - rewrite in_app_iff, in_flat_map. split.
    + intros [(t&Ht&Hr)|Hl].
      * apply Hf in Ht as (w1&->&H1). apply IH in Hr as (w2&->&H2).
        exists (w1 +:+ w2). rewrite sapp_assoc. split; [done|]. right. eauto.
      * destruct lo; [|done]. destruct Hl as [<-|[]]. exists "". tauto.
    + intros (w&->&[[-> ->]|(w1&w2&->&H1&H2)]); [by right; left|].
      left. exists (w2 +:+ r). rewrite sapp_assoc. split; [apply Hf; eauto|]. apply IH; eauto.
Qed.

Theorem rests_spec a : finds (rests a) (den a).
Proof.
  induction a as [p|l|a IHa b IHb|a IHa b IHb|a IHa|lo hi a IHa|a IHa|];
    unfold finds in *; intros s r; cbn [rests den].
  - destruct s as [|c s]; [split; [done|intros (w&E&c&->&_); discriminate E]|].
    destruct (p c) eqn:E; cbn [In]; split.
    + intros [<-|[]]. exists (String c ""). eauto.
    + intros (w&H&d&->&Hd). injection H as _ ->. by left.
    + done.
    + intros (w&H&d&->&Hd). injection H as -> ->. congruence.
  - destruct (startswith l s) eqn:E; cbn [In]; split.
    + intros [<-|[]]. apply startswith_spec in E as [t ->]. rewrite drop_str_app. eauto.
    + intros (w&->&->). left. apply drop_str_app.
    + done.
    + intros (w&->&->). by rewrite startswith_app in E.
  - rewrite in_flat_map. split.
    + intros (t&Ht&Hr). apply IHa in Ht as (w1&->&H1). apply IHb in Hr as (w2&->&H2).
      exists (w1 +:+ w2). rewrite sapp_assoc. split; [done|]. eauto.
    + intros (w&->&w1&w2&->&H1&H2). exists (w2 +:+ r). rewrite sapp_assoc.
      split; [apply IHa; eauto|apply IHb; eauto].
  - rewrite in_app_iff, IHa, IHb. split; [|intros (w&->&[?|?]); eauto].
    intros [(w&->&?)|(w&->&?)]; eauto.
  - by apply star_rest_finds.
  - by apply rep_rest_finds.
  - rewrite in_app_iff, IHa. cbn [In]. split.
    + intros [(w&->&?)|[<-|[]]]; [eauto|]. exists "". eauto.
    + intros (w&->&[?| ->]); eauto.
  - split.
    + intros H. exists "". cbn. split; [|split; [done|]];
        (destruct s as [|[[|] [|] [|] [|] [|] [|] [|] [|]] [|d s]]; cbn in H;
         try done; destruct H as [<-|[]]; auto).
    + intros (w&->&->&[->| ->]); by left.
Qed.

Lemma re_match_spec a s : re_match a s = true <-> exists w r, s = w +:+ r /\ den a w r.
Proof.
  unfold re_match. destruct (rests a s) as [|r l] eqn:E; split; try done.
  - intros (w&r&->&H). assert (Hr : In r (rests a (w +:+ r))) by (apply rests_spec; eauto).
    by rewrite E in Hr.
  - intros _. assert (Hr : In r (rests a s)) by (rewrite E; by left).
    apply rests_spec in Hr as (w&->&H). eauto.
Qed.

Lemma re_fullmatch_spec a s : re_fullmatch a s = true <-> den a s "".
Proof.
  unfold re_fullmatch. rewrite existsb_exists. split.
  - intros (r&Hr&E). apply String.eqb_eq in E as <-. apply rests_spec in Hr as (w&->&H).
    by rewrite sapp_nil_r.
  - intros H. exists "". split; [|done]. apply rests_spec. exists s. by rewrite sapp_nil_r.
Qed.

(** ** Classes repeated *)

Lemma den_star_class p w r : den (Rstar (Rcls p)) w r <-> sforall p w = true.
Proof.
  cbn [den]. split.
  - induction 1 as [r|w1 w2 r _ (c&->&Hc) _ IH]; [done|]. cbn. by rewrite Hc, IH.
  - revert r. induction w as [|c w IH]; intros r; [constructor|]. cbn [sforall]. intros H; bprop.
    change (String c w) with (String c "" +:+ w). constructor; [done|eauto|by apply IH].
Qed.

Lemma den_rep_class p lo hi w r :
  den (Rrep lo hi (Rcls p)) w r
  <-> sforall p w = true /\ (lo <= String.length w <= hi)%nat.
Proof.
  cbn [den]. revert lo w. induction hi as [|hi IH]; intros lo w; cbn [rep_den].
  - split.
    + intros [[-> ->]|[]]. cbn. split; [done|lia].
    + intros [H Hl]. left. destruct w; cbn in *; [split; [lia|done]|lia].
  - split.
    + intros [[-> ->]|(w1&w2&->&(c&->&Hc)&H)]; [cbn; split; [done|lia]|].
      apply IH in H as [Hw Hl]. cbn. rewrite Hc, Hw. split; [done|lia].
    + intros [H Hl]. destruct w as [|c w]; [left; split; [cbn in Hl; lia|done]|].
      right. cbn in H, Hl. bprop. exists (String c ""), w. split; [done|]. split; [eauto|].
      apply IH. split; [done|lia].
Qed.

Lemma den_plus_class p w r :
  den (Rplus (Rcls p)) w r <-> sforall p w = true /\ nonempty w = true.
Proof.
  unfold Rplus. change (den (Rcat ?a ?b) w r) with
    (exists w1 w2, w = w1 +:+ w2 /\ den a w1 (w2 +:+ r) /\ den b w2 r). split.
  - intros (w1&w2&->&(c&->&Hc)&H%den_star_class). cbn. by rewrite Hc, H.
  - intros [H Hn]. destruct w as [|c w]; [done|]. cbn in H. bprop.
    exists (String c ""), w. split; [done|]. split; [cbn; eauto|by apply den_star_class].
Qed.

(** ** The end of the text

    [$] also matches before a final newline: [line_of s w] says that [w] is the
    text with such a newline left out, or the text itself. *)

Definition nl : string := String "010" "".

Definition line_of (s w : string) : Prop := s = w \/ s = w +:+ nl.

(** The text without one final newline. *)
Fixpoint chomp (s : string) : string :=
  match s with
  | EmptyString => EmptyString
  | String c r => if String.eqb r "" && is_char "010" c then "" else String c (chomp r)
  end.

Lemma chomp_line s : line_of s (chomp s).
Proof.
  unfold line_of. induction s as [|c s IH]; [by left|]. cbn [chomp].
  destruct (String.eqb s "" && is_char "010" c) eqn:E.
  - bprop. subst. apply is_char_spec in H0 as <-. by right.
  - destruct IH as [IH|IH]; [left|right]; cbn; congruence.
Qed.

Lemma chomp_nl w : chomp (w +:+ nl) = w.
Proof.
  induction w as [|c w IH]; [done|]. cbn [String.append chomp]. rewrite IH.
  destruct (String.eqb (w +:+ nl) "") eqn:E; [|done].
  apply String.eqb_eq in E. by destruct w.
Qed.

Lemma chomp_none s : sexists (is_char "010") s = false -> chomp s = s.
Proof.
  induction s as [|c s IH]; cbn; [done|]. intros H; bprop. rewrite H, andb_false_r. by rewrite IH.
Qed.

Lemma match_end a s :
  re_match (Rcat a Rend) s = true
  <-> exists w, line_of s w /\ den a w (if String.eqb s w then "" else nl).
Proof.
  rewrite re_match_spec. split.
  - intros (w&r&->&w1&w2&->&H1&->&Hr). exists w1. rewrite sapp_nil_r in *. cbn in H1.
    destruct Hr as [->| ->].
    + rewrite sapp_nil_r. split; [by left|]. by rewrite String.eqb_refl.
    + split; [by right|]. destruct (String.eqb (w1 +:+ _) w1) eqn:E; [|done].
      apply String.eqb_eq in E. exfalso. apply (f_equal String.length) in E.
      rewrite sapp_length in E. cbn in E. lia.
  - intros (w&[->| ->]&H).
    + rewrite String.eqb_refl in H. exists w, "". rewrite sapp_nil_r. split; [done|].
      exists w, "". rewrite sapp_nil_r. cbn [den]. auto.
    + exists w, nl. split; [done|]. exists w, "". rewrite sapp_nil_r. cbn [den].
      destruct (String.eqb (w +:+ nl) w) eqn:E; [|auto].
      apply String.eqb_eq in E. exfalso. apply (f_equal String.length) in E.
      rewrite sapp_length in E. cbn in E. lia.
Qed.

(** When the language neither looks at what follows nor contains a newline, the
    match decides on the text without its final newline. *)
Lemma match_end_chomp a (Q : string -> bool) s :
  (forall w r, den a w r <-> Q w = true) ->
  (forall w, Q w = true -> sexists (is_char "010") w = false) ->
  re_match (Rcat a Rend) s = Q (chomp s).
Proof.
  intros HQ Hn. apply eq_true_iff_eq. rewrite match_end. split.
  - intros (w&[->| ->]&H%HQ); [by rewrite chomp_none by auto|by rewrite chomp_nl].
  - intros H. exists (chomp s). split; [apply chomp_line|by apply HQ].
Qed.

Definition len_in (lo hi : nat) (s : string) : bool :=
  (lo <=? String.length s)%nat && (String.length s <=? hi)%nat.

Lemma len_in_spec lo hi s : len_in lo hi s = true <-> (lo <= String.length s <= hi)%nat.
Proof. unfold len_in. rewrite andb_true_iff, !Nat.leb_le. lia. Qed.

Lemma class_no_char p x s : p x = false -> sforall p s = true -> sexists (is_char x) s = false.
Proof.
  intros Hx. induction s as [|c s IH]; cbn; [done|]. intros H; bprop.
  rewrite IH by done. destruct (is_char x c) eqn:E; [|done]. apply is_char_spec in E. congruence.
Qed.

Lemma match_class_end p lo hi s :
  p "010"%char = false ->
  re_match (Rcat (Rrep lo hi (Rcls p)) Rend) s = sforall p (chomp s) && len_in lo hi (chomp s).
Proof.
  intros Hp. apply (match_end_chomp _ (fun w => sforall p w && len_in lo hi w)).
  - intros w r. by rewrite den_rep_class, andb_true_iff, len_in_spec.
  - intros w Hw. bprop. by eapply class_no_char.
Qed.

Lemma fullmatch_class p lo hi s :
  re_fullmatch (Rrep lo hi (Rcls p)) s = sforall p s && len_in lo hi s.
Proof.
  apply eq_true_iff_eq. by rewrite re_fullmatch_spec, den_rep_class, andb_true_iff, len_in_spec.
Qed.

Lemma den_lit l w r : den (Rlit l) w r <-> w = l.
Proof. done. Qed.

Lemma den_cat a b w r :
  den (Rcat a b) w r <-> exists w1 w2, w = w1 +:+ w2 /\ den a w1 (w2 +:+ r) /\ den b w2 r.
Proof. done. Qed.

Lemma den_opt a w r : den (Ropt a) w r <-> den a w r \/ w = "".
Proof. done. Qed.

Lemma den_class p w r : den (Rcls p) w r <-> exists c, w = String c "" /\ p c = true.
Proof. done. Qed.

Lemma den_lit_cat l a w r : den (Rcat (Rlit l) a) w r <-> exists v, w = l +:+ v /\ den a v r.
Proof.
  rewrite den_cat. split.
  - intros (w1&w2&->&H1&H). cbn [den] in H1. subst w1. eauto.
  - intros (v&->&H). exists l, v. split; [done|]. split; [by apply den_lit|done].
Qed.

Example match_newline :
  re_match (Rcat (Rrep 1 64 (Rcls is_digit)) Rend) (String "1" nl) = true
  /\ re_fullmatch (Rrep 1 64 (Rcls is_digit)) (String "1" nl) = false
  /\ re_match (Rcat (Rrep 1 64 (Rcls is_digit)) Rend) "1a" = false.
Proof. repeat split. Qed.
