(* ===== verification/NetAddr.v ===== *)
(** * Addresses and URLs: what the server uses of [ipaddress] and [urllib.parse]

    The parsers of IPv4 and IPv6 addresses, the membership test of networks, and
    the scheme and host of a URL, as the Python 3.12 standard library computes
    them, with the lemmas that describe them by numbers. *)

From S2P Require Import Prelude PyStr PyVal PyStd Regex.
From Stdlib Require Import Ascii.

(** ** [ipaddress.ip_address] *)

(** The scope of an IPv6 address plays no part here and is dropped. *)
Inductive ipaddr : Type :=
| V4 (n : Z)
| V6 (n : Z).

(** [IPv4Address._parse_octet]. *)
Definition v4_octet (s : string) : option Z :=
  if nonempty s && sforall is_digit s && (String.length s <=? 3)%nat
     && (String.eqb s "0" || negb (startswith "0" s))
  then match int_unsigned s with Some n => if n <=? 255 then Some n else None | None => None end
  else None.

Definition v4_of_string (s : string) : option Z :=
  match mapM v4_octet (split_char "." s) with
  | Some [a; b; c; d] => Some (a * 2 ^ 24 + b * 2 ^ 16 + c * 2 ^ 8 + d)
  | _ => None
  end.

Definition is_xdigit (c : ascii) : bool :=
  is_digit c || in_range 97 102 c || in_range 65 70 c.

(** [IPv6Address._parse_hextet]. *)
Definition hextet (s : string) : option Z :=
  if sforall is_xdigit s && (String.length s <=? 4)%nat then int16_digits s 0 false else None.

(** The positions of the empty parts strictly inside the list. *)
Fixpoint empty_at (i : nat) (parts : list string) : list nat :=
  match parts with
  | [] | [_] => []
  | p :: r => if String.eqb p "" then i :: empty_at (S i) r else empty_at (S i) r
  end.

Definition shift_words (acc : Z) (ws : list Z) : Z :=
  fold_left (fun acc w => Z.lor (Z.shiftl acc 16) w) ws acc.

(** The value of the parts around a "::" that stands for [skipped] zero words. *)
Definition assemble (hi lo : list string) (skipped : nat) : option Z :=
  his ← mapM hextet hi;
  los ← mapM hextet lo;
  Some (shift_words (Z.shiftl (shift_words 0 his) (16 * Z.of_nat skipped)) los).

(** An IPv4 suffix becomes two hexadecimal parts. *)
Definition with_v4_suffix (parts : list string) : option (list string) :=
  let final := List.last parts "" in
  if contains "." final then
    n ← v4_of_string final;
    Some (removelast parts ++ [hexw 4 (Z.land (Z.shiftr n 16) 65535); hexw 4 (Z.land n 65535)])
  else Some parts.

Definition v6_parts (parts : list string) : option Z :=
  if (9 <? length parts)%nat then None
  else
    let first_empty := String.eqb (List.hd "" parts) "" in
    let last_empty := String.eqb (List.last parts "") "" in
    match empty_at 1 (tail parts) with
    | [] =>
        if negb (length parts =? 8)%nat || first_empty || last_empty then None
        else assemble parts [] 0
    | [skip_index] =>
        let parts_hi := (skip_index - (if first_empty then 1 else 0))%nat in
        let parts_lo := (length parts - skip_index - 1 - (if last_empty then 1 else 0))%nat in
        if (first_empty && (0 <? parts_hi)%nat) || (last_empty && (0 <? parts_lo)%nat) then None
        else if (8 <=? parts_hi + parts_lo)%nat then None
        else assemble (take parts_hi parts) (drop (length parts - parts_lo) parts)
               (8 - (parts_hi + parts_lo))
    | _ => None
    end.

(** [IPv6Address._ip_int_from_string] after the scope identifier is cut off. *)
Definition v6_of_string (s : string) : option Z :=
  match partition_char "%" s with
  | (addr, sep, scope) =>
      if sep && (negb (nonempty scope) || contains "%" scope) then None
      else
        let parts := split_char ":" addr in
        if negb (nonempty addr) || (length parts <? 3)%nat then None
        else parts ← with_v4_suffix parts; v6_parts parts
  end.

(** [None] is the ValueError. *)
Definition ip_address (s : string) : option ipaddr :=
  if contains "/" s then None
  else match v4_of_string s with
       | Some n => Some (V4 n)
       | None => V6 <$> v6_of_string s
       end.

(** ** Networks *)

Record network : Type := mkNet { nt_v6 : bool; nt_addr : Z; nt_prefix : Z }.

Definition width (v6 : bool) : Z := if v6 then 128 else 32.

(** [ALL_ONES ^ (ALL_ONES >> prefixlen)]. *)
Definition netmask (w prefix : Z) : Z := Z.lxor (Z.ones w) (Z.shiftr (Z.ones w) prefix).

Definition ip_version6 (ip : ipaddr) : bool := match ip with V4 _ => false | V6 _ => true end.
Definition ip_int (ip : ipaddr) : Z := match ip with V4 n | V6 n => n end.

(** [ip in net]. *)
Definition in_network (ip : ipaddr) (net : network) : bool :=
  Bool.eqb (ip_version6 ip) (nt_v6 net)
  && (Z.land (ip_int ip) (netmask (width (nt_v6 net)) (nt_prefix net)) =? nt_addr net).

(** [ipaddress.ip_network] on an "address/prefix" text without host bits. *)
Definition ip_network (s : string) : option network :=
  match partition_char "/" s with
  | (addr, true, prefix) =>
      ip ← ip_address addr;
      n ← py_int prefix;
      let w := width (ip_version6 ip) in
      if (0 <=? n) && (n <=? w) && (Z.land (ip_int ip) (netmask w n) =? ip_int ip)
      then Some (mkNet (ip_version6 ip) (ip_int ip) n) else None
  | _ => None
  end.

(** ** [urllib.parse.urlparse] *)

Definition c0_or_space (c : ascii) : bool := in_range 0 32 c.
Definition unsafe_url_char (c : ascii) : bool := is_char "009" c || is_char "013" c || is_char "010" c.
Definition scheme_char (c : ascii) : bool :=
  in_range 97 122 c || in_range 65 90 c || is_digit c || is_char "+" c || is_char "-" c || is_char "." c.
Definition ascii_letter (c : ascii) : bool := in_range 97 122 c || in_range 65 90 c.

Fixpoint sfilter (p : ascii -> bool) (s : string) : string :=
  match s with
  | "" => ""
  | String c r => if p c then String c (sfilter p r) else sfilter p r
  end.

(** The scheme and the rest behind its colon. *)
Definition split_scheme (url : string) : string * string :=
  match partition_char ":" url with
  | (before, true, after) =>
      match before with
      | String c _ =>
          if ascii_letter c && sforall scheme_char before then (lower before, after) else ("", url)
      | "" => ("", url)
      end
  | _ => ("", url)
  end.

Definition netloc_end (c : ascii) : bool := is_char "/" c || is_char "?" c || is_char "#" c.

(** [_check_bracketed_host]. *)
Definition ipvfuture_re : re :=
  Rcat (Rlit "v") (Rcat (Rplus (Rcls is_xdigit))
    (Rcat (Rlit ".") (Rplus (Rcls (fun c => negb (is_char "010" c)))))).

Definition check_bracketed_host (h : string) : bool :=
  if startswith "v" h then re_fullmatch ipvfuture_re h
  else match ip_address h with Some (V6 _) => true | _ => false end.

Definition has_char (x : ascii) (s : string) : bool := sexists (is_char x) s.

Definition between_brackets (netloc : string) : string :=
  let '(_, _, after) := partition_char "[" netloc in
  let '(inside, _, _) := partition_char "]" after in inside.

Definition netloc_valid (netloc : string) : bool :=
  if has_char "[" netloc && has_char "]" netloc then check_bracketed_host (between_brackets netloc)
  else negb (has_char "[" netloc) && negb (has_char "]" netloc).

(** The scheme and the network location of a URL; characters above ASCII that
    NFKC turns into a delimiter do not exist below 256. *)
Definition urlsplit (url : string) : res (string * string) :=
  let url := sfilter (fun c => negb (unsafe_url_char c)) (dropwhile c0_or_space url) in
  let '(scheme, rest) := split_scheme url in
  if startswith "//" rest then
    let netloc := fst (span (fun c => negb (netloc_end c)) (drop_str 2 rest)) in
    if netloc_valid netloc then Ok (scheme, netloc) else Raise (ValueError "netloc")
  else Ok (scheme, "").

(** [s.rpartition(c)[2]]. *)
Definition after_last (x : ascii) (s : string) : string := List.last (split_char x s) "".

(** The [hostname] property: lower case up to a zone identifier. *)
Definition hostname (netloc : string) : option string :=
  let hostinfo := after_last "@" netloc in
  let '(_, have_open, bracketed) := partition_char "[" hostinfo in
  let '(host, _, _) := if have_open : bool then partition_char "]" bracketed else partition_char ":" hostinfo in
  if nonempty host then
    let '(h, percent, zone) := partition_char "%" host in
    Some (lower h +:+ (if percent : bool then "%" else "") +:+ zone)
  else None.

Example ip_examples :
  map ip_address ["127.0.0.1"; "127.1"; "010.0.0.1"; "::1"; "fe80::1%eth0"; "::ffff:10.0.0.1"; "1::2::3";
                  "2001:db8:0:0:0:0:0:5"; ":::"; "::"; "1:2:3:4:5:6:7::"]
  = [Some (V4 2130706433); None; None; Some (V6 1); Some (V6 (65152 * 2 ^ 112 + 1));
     Some (V6 (65535 * 2 ^ 32 + 167772161)); None; Some (V6 (536939960 * 2 ^ 96 + 5)); None; Some (V6 0);
     Some (V6 (5192455318486707404433266433261568))].
Proof. vm_compute. reflexivity. Qed.

Example url_examples :
  map (fun u => '(s, n) ← urlsplit u; Ok (s, hostname n))
    ["http://User@Host:80/x"; "HTTPS://[::1]:8/"; "http:/x"; " http://a.b?q"; "http://[1.2.3.4]/"; "x"; "http://"]
  = [Ok ("http", Some "host"); Ok ("https", Some "::1"); Ok ("http", None); Ok ("http", Some "a.b");
     Raise (ValueError "netloc"); Ok ("", None); Ok ("http", None)].
Proof. vm_compute. reflexivity. Qed.

(** ** Lemmas *)

Lemma netmask_bits w p i :
  0 <= p <= w -> 0 <= i -> Z.testbit (netmask w p) i = (w - p <=? i) && (i <? w).
Proof.
  intros Hp Hi. unfold netmask. rewrite Z.lxor_spec, Z.shiftr_spec, !Z.testbit_ones_nonneg by lia.
  destruct (Z.ltb_spec i w), (Z.ltb_spec (i + p) w), (Z.leb_spec (w - p) i); first [reflexivity|exfalso; lia].
Qed.

Lemma land_netmask w p n :
  0 <= p <= w -> 0 <= n < 2 ^ w -> Z.land n (netmask w p) = n / 2 ^ (w - p) * 2 ^ (w - p).
Proof.
  intros Hp Hn. rewrite <- Z.shiftr_div_pow2, <- Z.shiftl_mul_pow2 by lia.
  apply Z.bits_inj'. intros i Hi. rewrite Z.land_spec, netmask_bits by done.
  destruct (Z.leb_spec (w - p) i).
  - rewrite Z.shiftl_spec, Z.shiftr_spec by lia. replace (i - (w - p) + (w - p)) with i by lia.
    destruct (Z.ltb_spec i w); [apply andb_true_r|]. rewrite andb_false_r. symmetry.
    rewrite <- (Z.mod_small n (2 ^ w)) by done. by apply Z.mod_pow2_bits_high; lia.
  - cbn [andb]. rewrite andb_false_r. symmetry. by apply Z.shiftl_spec_low.
Qed.

(** A network is the interval of its addresses. *)
Lemma in_network_spec ip net k :
  0 <= nt_prefix net <= width (nt_v6 net) ->
  nt_addr net = k * 2 ^ (width (nt_v6 net) - nt_prefix net) ->
  0 <= ip_int ip < 2 ^ width (ip_version6 ip) ->
  in_network ip net = true
  <-> ip_version6 ip = nt_v6 net
      /\ nt_addr net <= ip_int ip < nt_addr net + 2 ^ (width (nt_v6 net) - nt_prefix net).
Proof.
  intros Hp Ha Hn. unfold in_network. rewrite andb_true_iff, Z.eqb_eq.
  destruct (Bool.eqb_spec (ip_version6 ip) (nt_v6 net)) as [Hv|Hv]; [|by split; intros []].
  rewrite Hv in Hn. rewrite land_netmask, Ha by done.
  set (m := 2 ^ (width (nt_v6 net) - nt_prefix net)).
  assert (Hm : 0 < m) by (apply Z.pow_pos_nonneg; lia).
  pose proof (Z.div_mod (ip_int ip) m ltac:(lia)). pose proof (Z.mod_pos_bound (ip_int ip) m Hm).
  split; intros [_ H1]; (split; [done|]); [lia|].
  f_equal. symmetry. apply Z.div_unique with (r := ip_int ip - k * m); lia.
Qed.

Lemma v4_octet_range s n : v4_octet s = Some n -> 0 <= n <= 255.
Proof.
  unfold v4_octet. split_match; [|done]. split_match; [|done]. split_match; [|done]. intros [= <-]. bprop.
  split; [|lia]. unfold int_unsigned in E0. split_match_in E0; [done|].
  by eapply int_digits_nonneg; [|exact E0].
Qed.

Lemma v4_range s n : v4_of_string s = Some n -> 0 <= n < 2 ^ 32.
Proof.
  unfold v4_of_string. destruct (mapM v4_octet (split_char "." s)) as [l|] eqn:E; [|done].
  apply mapM_Some in E. destruct l as [|a [|b [|c [|d [|]]]]]; try done. intros [= <-].
  assert (Hl : Forall (fun z => 0 <= z <= 255) [a; b; c; d]).
  { eapply Forall2_Forall_r; [exact E|]. apply Forall_true. intros x y. apply v4_octet_range. }
  rewrite !Forall_cons in Hl. lia.
Qed.

Lemma hex_val_range c d : hex_val c = Some d -> 0 <= d < 16.
Proof. ascii_cases c; vm_compute; by intros [= <-]. Qed.

Lemma int16_digits_range s : forall acc p z, 0 <= acc ->
  int16_digits s acc p = Some z -> 0 <= z < (acc + 1) * 16 ^ slen s.
Proof.
  induction s as [|c s IH]; cbn [int16_digits]; intros acc p z Ha H.
  { destruct p; [|done]. injection H as <-. change (slen "") with 0. rewrite Z.pow_0_r. lia. }
  unfold slen in *. cbn [String.length]. rewrite Nat2Z.inj_succ, Z.pow_succ_r by lia.
  set (P := 16 ^ Z.of_nat (String.length s)) in *. assert (0 < P) by (apply Z.pow_pos_nonneg; lia).
  destruct (hex_val c) as [d|] eqn:E.
  - apply hex_val_range in E. apply IH in H; [|lia]. nia.
  - destruct (is_char "_" c && p); [|done]. apply IH in H; [|lia]. nia.
Qed.

Lemma hextet_range s w : hextet s = Some w -> 0 <= w < 2 ^ 16.
Proof.
  unfold hextet. split_match; [|done]. intros H. bprop. apply Nat.leb_le in H1.
  apply int16_digits_range in H; [|lia]. split; [lia|]. eapply Z.lt_le_trans; [apply H|].
  change (2 ^ 16) with ((0 + 1) * 16 ^ 4). unfold slen. apply Z.mul_le_mono_nonneg_l; [lia|].
  apply Z.pow_le_mono_r; lia.
Qed.

Lemma shift_words_range ws : forall acc k, 0 <= k ->
  Forall (fun w => 0 <= w < 2 ^ 16) ws -> 0 <= acc < 2 ^ (16 * k) ->
  0 <= shift_words acc ws < 2 ^ (16 * (k + Z.of_nat (length ws))).
Proof.
  induction ws as [|w ws IH]; intros acc k Hk Hw Ha; cbn [shift_words fold_left length].
  { by rewrite Z.add_0_r. }
  apply Forall_cons in Hw as [Hw Hws]. rewrite lor_shiftl by (done || lia).
  replace (k + Z.of_nat (S (length ws))) with (k + 1 + Z.of_nat (length ws)) by lia.
  apply IH; [lia|done|]. replace (16 * (k + 1)) with (16 * k + 16) by lia. rewrite Z.pow_add_r by lia. lia.
Qed.

Lemma mapM_hextet ps ws : mapM hextet ps = Some ws ->
  length ws = length ps /\ Forall (fun w => 0 <= w < 2 ^ 16) ws.
Proof.
  intros H. apply mapM_Some in H. split; [symmetry; by eapply Forall2_length|].
  eapply Forall2_Forall_r; [exact H|]. apply Forall_true. intros x y. apply hextet_range.
Qed.

Lemma assemble_range hi lo skipped n :
  (length hi + skipped + length lo <= 8)%nat -> assemble hi lo skipped = Some n -> 0 <= n < 2 ^ 128.
Proof.
  intros Hl H. unfold assemble in H.
  destruct (mapM hextet hi) as [his|] eqn:E1; [|done]. destruct (mapM hextet lo) as [los|] eqn:E2; [|done].
  cbn in H. injection H as <-.
  apply mapM_hextet in E1 as [L1 F1]. apply mapM_hextet in E2 as [L2 F2].
  pose proof (shift_words_range his 0 0 ltac:(lia) F1 ltac:(cbn; lia)) as H1.
  rewrite Z.shiftl_mul_pow2 by lia. set (a := shift_words 0 his) in *.
  assert (Ha : 0 <= a * 2 ^ (16 * Z.of_nat skipped) < 2 ^ (16 * (Z.of_nat (length his) + Z.of_nat skipped))).
  { rewrite Z.mul_add_distr_l, Z.pow_add_r by lia. rewrite Z.add_0_l in H1.
    assert (0 < 2 ^ (16 * Z.of_nat skipped)) by (apply Z.pow_pos_nonneg; lia).
    split; [apply Z.mul_nonneg_nonneg; lia|apply Z.mul_lt_mono_pos_r; lia]. }
  pose proof (shift_words_range los _ (Z.of_nat (length his) + Z.of_nat skipped) ltac:(lia) F2 Ha) as H2. split; [lia|].
  eapply Z.lt_le_trans; [apply H2|]. apply Z.pow_le_mono_r; lia.
Qed.

Lemma v6_parts_range ps n : v6_parts ps = Some n -> 0 <= n < 2 ^ 128.
Proof.
  unfold v6_parts. destruct (9 <? length ps)%nat; [done|]. cbv zeta.
  destruct (empty_at 1 (tail ps)) as [|i [|]]; [| |done].
  - destruct (_ || _ || _) eqn:E; [done|]. intros H. bprop. apply Nat.eqb_eq in H0.
    eapply assemble_range; [|exact H]. cbn [length]. lia.
  - destruct (_ || _); [done|]. destruct (8 <=? _)%nat eqn:E; [done|]. apply Nat.leb_gt in E.
    intros H. eapply assemble_range; [|exact H]. rewrite length_take, length_drop. lia.
Qed.

Lemma ip_address_range s ip : ip_address s = Some ip -> 0 <= ip_int ip < 2 ^ width (ip_version6 ip).
Proof.
  unfold ip_address. destruct (contains "/" s); [done|].
  destruct (v4_of_string s) as [n|] eqn:E; [intros [= <-]; by apply v4_range in E|].
  destruct (v6_of_string s) as [n|] eqn:E6; [|done]. intros [= <-]. cbn [ip_int ip_version6 width].
  unfold v6_of_string in E6. destruct (partition_char "%" s) as [[addr sep] scope].
  split_match_in E6; [done|]. split_match_in E6; [done|].
  destruct (with_v4_suffix (split_char ":" addr)) as [ps|]; [|done]. by apply v6_parts_range in E6.
Qed.

(** *** Dotted quads *)

Definition quad_text (a b c d : Z) : string :=
  str_int a +:+ "." +:+ str_int b +:+ "." +:+ str_int c +:+ "." +:+ str_int d.

Definition quad_int (a b c d : Z) : Z := a * 2 ^ 24 + b * 2 ^ 16 + c * 2 ^ 8 + d.

Lemma v4_octet_text n : 0 <= n <= 255 -> v4_octet (str_int n) = Some n.
Proof.
  intros Hn.
  assert (Hall : forallb (fun z => bool_decide (v4_octet (str_int z) = Some z)) (seqZ 0 256) = true)
    by (vm_compute; reflexivity).
  rewrite forallb_forall in Hall. specialize (Hall n). rewrite bool_decide_eq_true in Hall.
  apply Hall, list_elem_of_In, elem_of_seqZ. lia.
Qed.

Lemma v4_quad a b c d :
  0 <= a <= 255 -> 0 <= b <= 255 -> 0 <= c <= 255 -> 0 <= d <= 255 ->
  v4_of_string (quad_text a b c d) = Some (quad_int a b c d).
Proof.
  intros Ha Hb Hc Hd. unfold v4_of_string, quad_text. cbn [String.append].
  assert (Hdot : forall z, sexists (is_char ".") (str_int z) = false) by (intros z; by apply str_int_no_char).
  rewrite !split_char_app by apply Hdot. rewrite split_char_one by apply Hdot.
  cbn [mapM]. by rewrite !v4_octet_text.
Qed.

Lemma quad_no_char x a b c d :
  is_digit x = false -> is_char x "-" = false -> is_char x "." = false ->
  sexists (is_char x) (quad_text a b c d) = false.
Proof.
  intros Hx Hm Hdot. unfold quad_text. rewrite !sexists_app. cbn [sexists].
  by rewrite Hdot, !str_int_no_char.
Qed.

Lemma hextet_hexw n : 0 <= n < 2 ^ 16 -> hextet (hexw 4 n) = Some n.
Proof.
  intros Hn. unfold hextet. rewrite hexw_length.
  assert (Hx : sforall is_xdigit (hexw 4 n) = true).
  { eapply sforall_impl; [|apply hexw_hexc]. intros c. unfold is_hexc, is_xdigit. by intros ->. }
  rewrite Hx. cbn [Nat.leb andb].
  pose proof (int16_hexw 4 n "" 0 false ltac:(lia)) as Hv. rewrite sapp_nil_r in Hv. rewrite Hv.
  cbn [int16_digits orb]. f_equal. change (16 ^ Z.of_nat 4) with (2 ^ 16). rewrite Z.mod_small by lia. lia.
Qed.

Lemma v4_bad_head p r :
  sexists (is_char ".") p = false -> v4_octet p = None -> v4_of_string (p +:+ "." +:+ r) = None.
Proof. intros Hp Hn. unfold v4_of_string. cbn [String.append]. rewrite split_char_app by done. cbn. by rewrite Hn. Qed.

Lemma hexw_nonempty k n : String.eqb (hexw (S k) n) "" = false.
Proof. apply String.eqb_neq. intros E. pose proof (hexw_length (S k) n) as Hl. by rewrite E in Hl. Qed.

(** Two halves of a 32-bit integer, put together below a prefix. *)
Lemma halves_joined p n : 0 <= p -> 0 <= n < 2 ^ 32 ->
  Z.lor (Z.shiftl (Z.lor (Z.shiftl p 16) (n / 2 ^ 16 mod 2 ^ 16)) 16) (n mod 2 ^ 16) = p * 2 ^ 32 + n.
Proof.
  intros Hp Hn. pose proof (Z.mod_pos_bound (n / 2 ^ 16) (2 ^ 16) ltac:(lia)).
  pose proof (Z.mod_pos_bound n (2 ^ 16) ltac:(lia)). rewrite !(lor_shiftl _ _ 16) by lia.
  assert (Hq16 : 0 <= n / 2 ^ 16 < 2 ^ 16) by (split; [apply Z.div_pos; lia|apply Z.div_lt_upper_bound; lia]).
  rewrite (Z.mod_small (n / 2 ^ 16)) by done. pose proof (Z.div_mod n (2 ^ 16) ltac:(lia)). lia.
Qed.

(** The suffix in quad notation becomes two groups. *)
Lemma quad_suffix pre q n : sexists (is_char ".") q = true -> v4_of_string q = Some n ->
  with_v4_suffix (pre ++ [q])
  = Some (pre ++ [hexw 4 (Z.land (Z.shiftr n 16) 65535); hexw 4 (Z.land n 65535)]).
Proof.
  intros Hdot Hq. unfold with_v4_suffix. rewrite List.last_last, contains_char, Hdot, Hq. cbn.
  by rewrite List.removelast_last.
Qed.

(** The IPv6 form of an IPv4 address. *)
Lemma mapped_quad a b c d :
  0 <= a <= 255 -> 0 <= b <= 255 -> 0 <= c <= 255 -> 0 <= d <= 255 ->
  ip_address ("::ffff:" +:+ quad_text a b c d) = Some (V6 (65535 * 2 ^ 32 + quad_int a b c d)).
Proof.
  intros Ha Hb Hc Hd. pose proof (v4_quad a b c d Ha Hb Hc Hd) as Hq.
  pose proof (v4_range _ _ Hq) as Hr. set (q := quad_text a b c d) in *. set (n := quad_int a b c d) in *.
  assert (Hno : forall x, is_digit x = false -> is_char x "-" = false -> is_char x "." = false ->
    sexists (is_char x) q = false) by (intros x; apply quad_no_char).
  unfold ip_address. rewrite contains_char, sexists_app, Hno by done.
  assert (H4 : v4_of_string ("::ffff:" +:+ q) = None).
  { unfold q, quad_text. rewrite <- sapp_assoc.
    apply v4_bad_head; [cbn; by apply str_int_no_char|reflexivity]. }
  rewrite H4. unfold v6_of_string.
  assert (Hp : partition_char "%" ("::ffff:" +:+ q) = ("::ffff:" +:+ q, false, "")).
  { apply partition_char_none. cbn. by apply Hno. }
  rewrite Hp. cbn [andb]. change ("::ffff:" +:+ q) with (String ":" (String ":" ("ffff" +:+ String ":" q))).
  cbn [nonempty negb orb].
  assert (Hs : split_char ":" (String ":" (String ":" ("ffff" +:+ String ":" q))) = [""; ""; "ffff"; q]).
  { cbn [split_char is_char Ascii.eqb Bool.eqb]. rewrite split_char_app by done.
    by rewrite split_char_one by (by apply Hno). }
  rewrite Hs. cbn [length Nat.ltb Nat.leb].
  assert (Hdot : sexists (is_char ".") q = true).
  { unfold q, quad_text. rewrite !sexists_app. cbn [sexists]. by rewrite !orb_true_r. }
  change [""; ""; "ffff"; q] with ([""; ""; "ffff"] ++ [q]). rewrite (quad_suffix _ q n Hdot Hq).
  cbn [mbind option_bind app].
  change 65535 with (Z.ones 16) at 1 2. rewrite !Z.land_ones, Z.shiftr_div_pow2 by lia.
  set (hi := n / 2 ^ 16 mod 2 ^ 16). set (lo := n mod 2 ^ 16).
  assert (Hhi : 0 <= hi < 2 ^ 16) by (apply Z.mod_pos_bound; lia).
  assert (Hlo : 0 <= lo < 2 ^ 16) by (apply Z.mod_pos_bound; lia).
  unfold v6_parts. cbn [length Nat.ltb Nat.leb tail empty_at String.eqb Ascii.eqb Bool.eqb List.hd List.last].
  rewrite ?(hexw_nonempty 3). cbn -[hexw hextet Z.pow Z.mul].
  rewrite !hextet_hexw by done. cbn -[Z.pow Z.mul hexw].
  replace (hextet "ffff") with (Some 65535) by (vm_compute; reflexivity).
  cbn [mbind option_bind mret option_ret fmap option_fmap option_map]. do 2 f_equal.
  rewrite Z.shiftl_0_l. unfold shift_words. cbn [fold_left]. by apply (halves_joined 65535 n).
Qed.

(** *** URLs of dotted quads *)

Lemma sfilter_all p s : sforall p s = true -> sfilter p s = s.
Proof. induction s as [|c s IH]; cbn; [done|]. intros H. bprop. rewrite H. by rewrite IH. Qed.

Definition quad_char (c : ascii) : bool := is_digit c || is_char "." c.

Lemma quad_chars a b c d :
  0 <= a -> 0 <= b -> 0 <= c -> 0 <= d -> sforall quad_char (quad_text a b c d) = true.
Proof.
  intros Ha Hb Hc Hd.
  assert (Hi : forall z, 0 <= z -> sforall quad_char (str_int z) = true).
  { intros z Hz. rewrite str_int_nonneg by done. destruct (pretty_N_digits (Z.to_N z)) as [Hp _].
    eapply sforall_impl; [|exact Hp]. intros x Hx. unfold quad_char. by rewrite Hx. }
  unfold quad_text. rewrite !sforall_app, !Hi by done. reflexivity.
Qed.

Lemma lower_quad a b c d :
  0 <= a -> 0 <= b -> 0 <= c -> 0 <= d -> lower (quad_text a b c d) = quad_text a b c d.
Proof.
  intros Ha Hb Hc Hd. apply smap_id. eapply sforall_impl; [|by apply (quad_chars a b c d)].
  intros x. ascii_cases x; vm_compute; congruence.
Qed.

Lemma partition_char_app x (a b : string) :
  sexists (is_char x) a = false -> partition_char x (a +:+ String x b) = (a, true, b).
Proof.
  induction a as [|c a IH]; cbn [sexists]; intros H; cbn; [by rewrite is_char_refl|]. bprop.
  by rewrite H, IH.
Qed.

Lemma urlsplit_http authority path :
  sforall (fun c => negb (unsafe_url_char c) && negb (netloc_end c)) authority = true ->
  sforall (fun c => negb (unsafe_url_char c)) path = true ->
  netloc_valid authority = true ->
  urlsplit ("http://" +:+ authority +:+ "/" +:+ path) = Ok ("http", authority).
Proof.
  intros Ha Hp Hv. unfold urlsplit. rewrite sfilter_all.
  2:{ cbn -[sforall]. change (sforall (fun c => negb (unsafe_url_char c)) ("http://" +:+ authority +:+ "/" +:+ path) = true).
      rewrite !sforall_app, Hp. cbn. rewrite andb_true_r.
      eapply sforall_impl; [|exact Ha]. intros c H. by apply andb_true_iff in H as [H _]. }
  change (dropwhile c0_or_space ("http://" +:+ authority +:+ "/" +:+ path))
    with (String "h" (String "t" (String "t" (String "p" (String ":" ("//" +:+ authority +:+ "/" +:+ path)))))).
  assert (Hs : split_scheme (String "h" (String "t" (String "t" (String "p" (String ":" ("//" +:+ authority +:+ "/" +:+ path))))))
    = ("http", "//" +:+ authority +:+ "/" +:+ path)) by reflexivity.
  rewrite Hs, startswith_app. change (drop_str 2 ("//" +:+ authority +:+ "/" +:+ path)) with (authority +:+ String "/" path).
  rewrite span_stop; [cbn [fst]; by rewrite Hv|..|done].
  eapply sforall_impl; [|exact Ha]. intros c H. by apply andb_true_iff in H as [_ H].
Qed.

Lemma sexists_of_class p x s : p x = false -> sforall p s = true -> sexists (is_char x) s = false.
Proof.
  intros Hx. induction s as [|c s IH]; cbn; [done|]. intros H. bprop. rewrite IH by done.
  rewrite orb_false_r. destruct (is_char x c) eqn:E; [|done]. apply is_char_spec in E. congruence.
Qed.

(** The two ways to write an IPv4 address as the host of a URL. *)
Lemma url_quad a b c d path :
  0 <= a -> 0 <= b -> 0 <= c -> 0 <= d ->
  sforall (fun c => negb (unsafe_url_char c)) path = true ->
  let q := quad_text a b c d in
  urlsplit ("http://" +:+ q +:+ "/" +:+ path) = Ok ("http", q) /\ hostname q = Some q.
Proof.
  intros Ha Hb Hc Hd Hp q. pose proof (quad_chars a b c d Ha Hb Hc Hd) as Hq. fold q in Hq.
  assert (Hno : forall x, quad_char x = false -> sexists (is_char x) q = false).
  { intros x Hx. by eapply sexists_of_class. }
  split.
  - apply urlsplit_http; [|done|].
    + eapply sforall_impl; [|exact Hq]. intros x. ascii_cases x; vm_compute; congruence.
    + unfold netloc_valid, has_char. by rewrite !Hno.
  - unfold hostname, after_last. rewrite split_char_one by (by apply Hno). cbn [List.last].
    rewrite (partition_char_none "[") by (by apply Hno). rewrite (partition_char_none ":") by (by apply Hno).
    assert (Hne : nonempty q = true).
    { unfold q, quad_text. destruct (str_int a); done. }
    rewrite Hne, (partition_char_none "%") by (by apply Hno).
    cbn [String.append]. rewrite sapp_nil_r. f_equal. by apply lower_quad.
Qed.

Lemma url_mapped a b c d path :
  0 <= a <= 255 -> 0 <= b <= 255 -> 0 <= c <= 255 -> 0 <= d <= 255 ->
  sforall (fun c => negb (unsafe_url_char c)) path = true ->
  let h := "::ffff:" +:+ quad_text a b c d in
  urlsplit ("http://" +:+ ("[" +:+ h +:+ "]") +:+ "/" +:+ path) = Ok ("http", "[" +:+ h +:+ "]")
  /\ hostname ("[" +:+ h +:+ "]") = Some h.
Proof.
  intros Ha Hb Hc Hd Hp h.
  assert (Hh : sforall (fun x => quad_char x || is_char ":" x || is_char "f" x) h = true).
  { unfold h. rewrite sforall_app. cbn [sforall]. apply andb_true_iff. split; [reflexivity|].
    eapply sforall_impl; [|apply (quad_chars a b c d); lia]. intros x Hx. by rewrite Hx. }
  assert (Hno : forall x, quad_char x || is_char ":" x || is_char "f" x = false -> sexists (is_char x) h = false).
  { intros x Hx. by eapply sexists_of_class; [|exact Hh]. }
  assert (Hbr : partition_char "]" (h +:+ "]") = (h, true, "")) by (apply partition_char_app; by apply Hno).
  split.
  - apply urlsplit_http; [|done|].
    + rewrite !sforall_app. cbn [sforall]. apply andb_true_iff. split; [reflexivity|].
      apply andb_true_iff. split; [|reflexivity].
      eapply sforall_impl; [|exact Hh]. intros x. ascii_cases x; vm_compute; congruence.
    + unfold netloc_valid, has_char. rewrite !sexists_app. cbn [sexists]. rewrite !orb_true_r.
      assert (Hbb : between_brackets ("[" +:+ h +:+ "]") = h).
      { unfold between_brackets. change (partition_char "[" ("[" +:+ h +:+ "]")) with ("", true, h +:+ "]").
        cbv iota beta. by rewrite Hbr. }
      change (is_char "[" "[") with true. cbn [orb andb]. rewrite Hbb. unfold check_bracketed_host.
      replace (startswith "v" h) with false by reflexivity. unfold h. by rewrite mapped_quad.
  - unfold hostname, after_last.
    rewrite split_char_one by (rewrite !sexists_app, Hno by done; reflexivity). cbn [List.last].
    change (partition_char "[" ("[" +:+ h +:+ "]")) with ("", true, h +:+ "]"). cbv iota beta.
    rewrite Hbr. assert (Hne : nonempty h = true) by done.
    rewrite Hne, (partition_char_none "%") by (by apply Hno). cbn [String.append]. rewrite sapp_nil_r.
    f_equal. unfold h, lower. rewrite smap_app. f_equal. apply lower_quad; lia.
Qed.
