(* ===== verification/Json.v ===== *)
(** * JSON text: [json.dumps] and the depth limit of [utils/depth_json.py]

    [dumps] writes the text [json.dumps] produces for a value (ASCII only,
    default separators); [dumps_pretty] is [indent=2, sort_keys=True].
    [_check_depth] is the scanner of [DepthLimitedDecoder]; the decoder proper is
    the argument [decode]. *)

From S2P Require Import Prelude PyStr PyVal.
From Stdlib Require Import Ascii.

(** ** [json.dumps] *)

Definition dquote : ascii := "034".

Definition unicode_escape (c : ascii) : string := "\u00" +:+ hex_byte c.

(** [ensure_ascii]: every other control and every non-ASCII character is escaped. *)
Definition json_char (c : ascii) : string :=
  if is_char dquote c then String "\" (String dquote "")
  else if is_char "\" c then "\\"
  else if is_char "010" c then "\n"
  else if is_char "013" c then "\r"
  else if is_char "009" c then "\t"
  else if is_char "012" c then "\f"
  else if is_char "008" c then "\b"
  else if in_range 32 126 c then String c ""
  else unicode_escape c.

Fixpoint json_chars (s : string) : string :=
  match s with
  | EmptyString => EmptyString
  | String c r => json_char c +:+ json_chars r
  end.

Definition json_string (s : string) : string :=
  String dquote (json_chars s +:+ String dquote "").

Definition json_bool (b : bool) : string := if b then "true" else "false".

Fixpoint dumps (v : val) : string :=
  match v with
  | VNone => "null"
  | VBool b => json_bool b
  | VInt z => str_int z
  | VFloat r => r
  | VStr s => json_string s
  | VList l => "[" +:+ join ", " (map dumps l) +:+ "]"
  | VDict d => "{" +:+ join ", " (map (fun kv => json_string kv.1 +:+ ": " +:+ dumps kv.2) d) +:+ "}"
  end.

(** A float that is not finite has a name of its own in JSON text. *)
Definition json_float (r : string) : string :=
  if String.eqb r "nan" then "NaN" else if String.eqb r "inf" then "Infinity"
  else if String.eqb r "-inf" then "-Infinity" else r.

(** [json.dumps(v, separators=(",", ":"))]. *)
Fixpoint dumps_compact (v : val) : string :=
  match v with
  | VFloat r => json_float r
  | VList l => "[" +:+ join "," (map dumps_compact l) +:+ "]"
  | VDict d => "{" +:+ join "," (map (fun kv => json_string kv.1 +:+ ":" +:+ dumps_compact kv.2) d) +:+ "}"
  | _ => dumps v
  end.

Fixpoint spaces (n : nat) : string :=
  match n with O => "" | S n' => String " " (spaces n') end.

Definition newline (n : nat) : string := String "010" (spaces n).

(** Code point order of keys. *)
Definition key_le (a b : string * val) : Prop := String.leb a.1 b.1 = true.

#[export] Instance key_le_dec a b : Decision (key_le a b).
Proof. unfold key_le. apply _. Defined.

(** [sort_keys=True], in every nested object. *)
Fixpoint sort_keys (v : val) : val :=
  match v with
  | VList l => VList (map sort_keys l)
  | VDict d => VDict (merge_sort key_le (map (fun kv => (kv.1, sort_keys kv.2)) d))
  | _ => v
  end.

Fixpoint pretty_at (n : nat) (v : val) : string :=
  match v with
  | VList [] => "[]"
  | VDict [] => "{}"
  | VList l =>
      "[" +:+ newline (n + 2) +:+ join ("," +:+ newline (n + 2)) (map (pretty_at (n + 2)) l)
      +:+ newline n +:+ "]"
  | VDict d =>
      "{" +:+ newline (n + 2)
      +:+ join ("," +:+ newline (n + 2))
            (map (fun kv => json_string kv.1 +:+ ": " +:+ pretty_at (n + 2) kv.2) d)
      +:+ newline n +:+ "}"
  | _ => dumps v
  end.

(** [json.dumps(v, indent=2, sort_keys=True)]. *)
Definition dumps_pretty (v : val) : string := pretty_at 0 (sort_keys v).

(** ** [utils/depth_json.py] *)

Definition MAX_JSON_DEPTH : Z := 32.

Definition is_open (c : ascii) : bool := is_char "[" c || is_char "{" c.
Definition is_close (c : ascii) : bool := is_char "]" c || is_char "}" c.

(** The loop of [_check_depth] from a given state. *)
Fixpoint depth_scan (max depth : Z) (in_string escape : bool) (s : string) : res unit :=
  match s with
  | EmptyString => Ok tt
  | String ch r =>
      if in_string then
        if escape then depth_scan max depth true false r
        else if is_char "\" ch then depth_scan max depth true true r
        else if is_char dquote ch then depth_scan max depth false false r
        else depth_scan max depth true false r
      else
        if is_char dquote ch then depth_scan max depth true escape r
        else if is_open ch then
          if max <? depth + 1 then Raise (ValueError "JSON nesting depth")
          else depth_scan max (depth + 1) false escape r
        else if is_close ch then depth_scan max (depth - 1) false escape r
        else depth_scan max depth false escape r
  end.

Definition _check_depth (max : Z) (s : string) (idx : nat) : res unit :=
  depth_scan max 0 false false (drop_str idx s).

Section Decoder.
(** [json.JSONDecoder().decode] and [raw_decode]. *)
Context (decode : string -> res val) (raw_decode : string -> nat -> res (val * nat)).

Definition limited_decode (s : string) : res val :=
  _ ← _check_depth MAX_JSON_DEPTH s 0; decode s.

Definition limited_raw_decode (s : string) (idx : nat) : res (val * nat) :=
  _ ← _check_depth MAX_JSON_DEPTH s idx; raw_decode s idx.

Definition safe_loads (s : string) : res val := limited_decode s.

End Decoder.

(** ** Lemmas *)

(** Nesting depth of a value. *)
Fixpoint depth (v : val) : Z :=
  match v with
  | VList l => 1 + fold_right Z.max 0 (map depth l)
  | VDict d => 1 + fold_right Z.max 0 (map (fun kv => depth kv.2) d)
  | _ => 0
  end.

(** The text of a float holds no bracket and no quote. *)
Definition plain_char (c : ascii) : bool :=
  negb (is_char dquote c || is_open c || is_close c).

Fixpoint floats_plain (v : val) : bool :=
  match v with
  | VFloat r => sforall plain_char r
  | VList l => forallb floats_plain l
  | VDict d => forallb (fun kv => floats_plain kv.2) d
  | _ => true
  end.

(** Structural induction through lists and objects. *)
Lemma val_nested_ind (P : val -> Prop) :
  P VNone -> (forall b, P (VBool b)) -> (forall z, P (VInt z)) -> (forall r, P (VFloat r)) ->
  (forall s, P (VStr s)) -> (forall l, Forall P l -> P (VList l)) ->
  (forall d, Forall (fun kv => P kv.2) d -> P (VDict d)) -> forall v, P v.
Proof.
  intros HN HB HI HF HS HL HD. fix IH 1.
  intros [|b|z|r|s|l|d]; [exact HN|apply HB|apply HI|apply HF|apply HS| |].
  - apply HL. induction l as [|v l IHl]; constructor; [apply IH|apply IHl].
  - apply HD. induction d as [|[k v] d IHd]; constructor; [apply IH|apply IHd].
Qed.

Lemma scan_plain max dep (s r : string) :
  sforall plain_char s = true ->
  depth_scan max dep false false (s +:+ r) = depth_scan max dep false false r.
Proof.
  induction s as [|c s IH]; [done|]. cbn [sforall String.append]. intros H. bprop.
  unfold plain_char in H. apply negb_true_iff, orb_false_iff in H as [H Hc].
  apply orb_false_iff in H as [Hq Ho]. cbn [depth_scan]. rewrite Hq, Ho, Hc. by apply IH.
Qed.

(** An escaped character keeps the scanner inside the string. *)
Lemma scan_json_char max dep c (r : string) :
  depth_scan max dep true false (json_char c +:+ r) = depth_scan max dep true false r.
Proof. ascii_cases c; reflexivity. Qed.

Lemma scan_json_string max dep (s r : string) :
  depth_scan max dep false false (json_string s +:+ r) = depth_scan max dep false false r.
Proof.
  unfold json_string. cbn [String.append depth_scan]. change (is_char dquote dquote) with true.
  cbn iota. rewrite sapp_assoc. cbn [String.append].
  induction s as [|c s IH].
  - cbn [json_chars String.append depth_scan]. reflexivity.
  - cbn [json_chars]. by rewrite sapp_assoc, scan_json_char.
Qed.

Lemma plain_digits s : sforall is_digit s = true -> sforall plain_char s = true.
Proof. apply sforall_impl. intros c. by ascii_cases c. Qed.

Lemma plain_int z : sforall plain_char (str_int z) = true.
Proof.
  destruct (Z.le_gt_cases 0 z).
  - rewrite str_int_nonneg by done. apply plain_digits, pretty_N_digits.
  - rewrite str_int_neg by done. cbn [sforall]. apply plain_digits, pretty_N_digits.
Qed.

Lemma scan_open max dep c (r : string) :
  is_open c = true ->
  depth_scan max dep false false (String c r)
  = if max <? dep + 1 then Raise (ValueError "JSON nesting depth")
    else depth_scan max (dep + 1) false false r.
Proof. intros H. cbn [depth_scan]. rewrite H. ascii_cases c; try discriminate H; reflexivity. Qed.

Lemma scan_close max dep c (r : string) :
  is_close c = true ->
  depth_scan max dep false false (String c r) = depth_scan max (dep - 1) false false r.
Proof. intros H. cbn [depth_scan]. ascii_cases c; try discriminate H; reflexivity. Qed.

(** What the scanner does with the text [s] of a value of depth [k]. *)
Definition scans (s : string) (k : Z) : Prop :=
  forall max dep r, dep <= max ->
    depth_scan max dep false false (s +:+ r)
    = if max <? dep + k then Raise (ValueError "JSON nesting depth")
      else depth_scan max dep false false r.

Lemma scans_plain s : sforall plain_char s = true -> scans s 0.
Proof.
  intros H max dep r Hd. rewrite scan_plain by done.
  destruct (Z.ltb_spec max (dep + 0)); [lia|done].
Qed.

(** A sequence of scanned pieces between separators. *)
Lemma scans_join (sep : string) (parts : list (string * Z)) :
  sforall plain_char sep = true ->
  Forall (fun p => scans p.1 p.2 /\ 0 <= p.2) parts ->
  scans (join sep (map fst parts)) (fold_right Z.max 0 (map snd parts)).
Proof.
  intros Hsep. induction 1 as [|[s k] parts [Hs Hk] Hall IH]; [by apply scans_plain|].
  cbn [fst snd] in *. intros max dep r Hd. cbn [map fold_right].
  assert (Hnn : 0 <= fold_right Z.max 0 (map snd parts)) by (clear; induction parts; cbn; lia).
  destruct parts as [|q parts].
  - cbn [join map fst snd fold_right] in *. rewrite Hs by done. by rewrite Z.max_l by lia.
  - change (join sep (fst (s, k) :: map fst (q :: parts)))
      with (s +:+ sep +:+ join sep (map fst (q :: parts))).
    rewrite !sapp_assoc, Hs by done. cbn [snd].
    rewrite (scan_plain max dep sep) by done. rewrite IH by done.
    set (m := fold_right _ _ _) in *.
    destruct (Z.ltb_spec max (dep + k)), (Z.ltb_spec max (dep + m)),
      (Z.ltb_spec max (dep + Z.max k m)); try lia; done.
Qed.

Lemma scans_bracket o c s k :
  is_open o = true -> is_close c = true -> scans s k -> 0 <= k ->
  scans (String o (s +:+ String c "")) (1 + k).
Proof.
  intros Ho Hc Hs Hk max dep r Hd. cbn [String.append]. rewrite scan_open by done.
  destruct (Z.ltb_spec max (dep + 1)).
  { destruct (Z.ltb_spec max (dep + (1 + k))); [done|lia]. }
  rewrite sapp_assoc, Hs by lia. cbn [String.append]. rewrite scan_close by done.
  replace (dep + 1 - 1) with dep by lia. by rewrite Z.add_assoc.
Qed.

Lemma depth_nonneg v : 0 <= depth v.
Proof.
  assert (H : forall l, 0 <= fold_right Z.max 0 l) by (induction l; cbn; lia).
  destruct v as [| | | | |l|d]; cbn; try lia;
    [specialize (H (map depth l)) | specialize (H (map (fun kv => depth kv.2) d))]; lia.
Qed.

Lemma dumps_scans v : floats_plain v = true -> scans (dumps v) (depth v).
Proof.
  induction v as [|[]|z|r|s|l IH|d IH] using val_nested_ind; cbn [floats_plain]; intros Hf;
    try (apply scans_plain; done || by apply plain_int).
  - intros max dep r Hd. cbn [dumps depth]. rewrite scan_json_string.
    destruct (Z.ltb_spec max (dep + 0)); [lia|done].
  - pose proof (scans_join ", " (map (fun v => (dumps v, depth v)) l) eq_refl) as Hj.
    rewrite !map_map in Hj. cbn [fst snd] in Hj.
    apply scans_bracket; [done|done| |clear; induction l; cbn; lia].
    apply Hj. apply Forall_map. rewrite forallb_forall in Hf. apply Forall_forall. intros v Hv.
    cbn [fst snd]. split; [|apply depth_nonneg]. rewrite Forall_forall in IH.
    apply IH; [done|]. apply Hf. by apply list_elem_of_In.
  - pose proof (scans_join ", "
      (map (fun kv => (json_string kv.1 +:+ ": " +:+ dumps kv.2, depth kv.2)) d) eq_refl) as Hj.
    rewrite !map_map in Hj. cbn [fst snd] in Hj.
    apply scans_bracket; [done|done| |clear; induction d; cbn; lia].
    apply Hj. apply Forall_map. rewrite forallb_forall in Hf. apply Forall_forall. intros kv Hkv.
    cbn [fst snd]. split; [|apply depth_nonneg]. rewrite Forall_forall in IH.
    intros max dep r Hd. rewrite !sapp_assoc, scan_json_string, (scan_plain max dep ": ") by done.
    apply IH; [done| |done]. apply Hf. by apply list_elem_of_In.
Qed.

(** The indented text scans like the compact one. *)
Lemma plain_newline n : sforall plain_char (newline n) = true.
Proof. unfold newline. cbn. by induction n. Qed.

Lemma scans_pad a b s k :
  sforall plain_char a = true -> sforall plain_char b = true -> scans s k ->
  scans (a +:+ s +:+ b) k.
Proof.
  intros Ha Hb Hs max dep r Hd. rewrite !sapp_assoc, scan_plain, Hs by done.
  by rewrite scan_plain.
Qed.

Lemma scans_pretty_block o c n s k :
  is_open o = true -> is_close c = true -> scans s k -> 0 <= k ->
  scans (String o (newline (n + 2) +:+ s +:+ newline n +:+ String c "")) (1 + k).
Proof.
  intros Ho Hc Hs Hk. replace (newline (n + 2) +:+ s +:+ newline n +:+ String c "")
    with ((newline (n + 2) +:+ s +:+ newline n) +:+ String c "") by (by rewrite !sapp_assoc).
  apply scans_bracket; auto using scans_pad, plain_newline.
Qed.

Lemma pretty_scans v : forall n, floats_plain v = true -> scans (pretty_at n v) (depth v).
Proof.
  assert (Hsep : forall n, sforall plain_char ("," +:+ newline (n + 2)) = true)
    by (intros n; apply (plain_newline (n + 2))).
  induction v as [|[]|z|r|s|l IH|d IH] using val_nested_ind; intros n Hf;
    try (apply (dumps_scans (VNone)) || apply (dumps_scans (VBool _)) || apply (dumps_scans (VInt z))
         || apply (dumps_scans (VFloat r)) || apply (dumps_scans (VStr s)); exact Hf).
  - destruct l as [|v l]; [by apply (dumps_scans (VList []))|].
    pose proof (scans_join ("," +:+ newline (n + 2))
      (map (fun v => (pretty_at (n + 2) v, depth v)) (v :: l)) (Hsep n)) as Hj.
    rewrite !map_map in Hj. cbn [floats_plain] in Hf.
    apply scans_pretty_block; [done|done| |clear; induction (v :: l); cbn; lia].
    apply Hj. apply Forall_map. rewrite forallb_forall in Hf. rewrite Forall_forall in *. intros w Hw.
    split; [|apply depth_nonneg]. apply IH; [done|]. apply Hf. by apply list_elem_of_In.
  - destruct d as [|kv0 d]; [by apply (dumps_scans (VDict []))|].
    pose proof (scans_join ("," +:+ newline (n + 2))
      (map (fun kv => (json_string kv.1 +:+ ": " +:+ pretty_at (n + 2) kv.2, depth kv.2)) (kv0 :: d))
      (Hsep n)) as Hj.
    rewrite !map_map in Hj. cbn [floats_plain] in Hf.
    apply scans_pretty_block; [done|done| |clear; induction (kv0 :: d); cbn; lia].
    apply Hj. apply Forall_map. rewrite forallb_forall in Hf. rewrite Forall_forall in *. intros kv Hkv.
    split; [|apply depth_nonneg]. intros max dep r Hd.
    cbn [fst snd]. rewrite !sapp_assoc, scan_json_string, (scan_plain max dep ": ") by done.
    apply IH; [done| |done]. apply Hf. by apply list_elem_of_In.
Qed.

Lemma fold_max_perm (l l' : list Z) : l ≡ₚ l' -> fold_right Z.max 0 l = fold_right Z.max 0 l'.
Proof. induction 1; cbn; lia. Qed.

Lemma sort_keys_depth v : depth (sort_keys v) = depth v.
Proof.
  induction v as [|b|z|r|s|l IH|d IH] using val_nested_ind; try done; cbn [sort_keys depth]; f_equal.
  - rewrite map_map. f_equal. apply map_ext_in. intros x Hx. rewrite Forall_forall in IH.
    apply IH. by apply list_elem_of_In.
  - transitivity (fold_right Z.max 0 (map (fun kv => depth kv.2) (map (fun kv => (kv.1, sort_keys kv.2)) d))).
    { apply fold_max_perm, fmap_Permutation. apply merge_sort_Permutation. }
    rewrite map_map. f_equal. apply map_ext_in. intros x Hx. rewrite Forall_forall in IH.
    apply IH. by apply list_elem_of_In.
Qed.

Lemma sort_keys_floats v : floats_plain v = true -> floats_plain (sort_keys v) = true.
Proof.
  induction v as [|b|z|r|s|l IH|d IH] using val_nested_ind; try done; cbn [sort_keys floats_plain];
    rewrite !forallb_forall; rewrite Forall_forall in IH; intros Hf x Hx.
  - apply in_map_iff in Hx as (y&<-&Hy). apply IH; [by apply list_elem_of_In|by apply Hf].
  - apply list_elem_of_In in Hx. rewrite merge_sort_Permutation in Hx.
    apply list_elem_of_In, in_map_iff in Hx as (y&<-&Hy). cbn [snd].
    apply IH; [by apply list_elem_of_In|by apply (Hf y)].
Qed.

(** [safe_loads] of an indented document within the limit is the plain decoder. *)
Lemma safe_loads_pretty (decode : string -> res val) (v : val) :
  floats_plain v = true -> depth v <= MAX_JSON_DEPTH ->
  safe_loads decode (dumps_pretty v) = decode (dumps_pretty v).
Proof.
  intros Hf Hd. unfold safe_loads, limited_decode, _check_depth. cbn [drop_str].
  pose proof (pretty_scans (sort_keys v) 0 (sort_keys_floats v Hf) MAX_JSON_DEPTH 0 ""
    ltac:(unfold MAX_JSON_DEPTH; lia)) as H.
  rewrite sapp_nil_r, sort_keys_depth in H. unfold dumps_pretty. rewrite H, Z.add_0_l.
  by rewrite (proj2 (Z.ltb_ge _ _)) by done.
Qed.

(** ** Properties *)

(** C6. The depth limit is exact on JSON text: the text of a value, brackets and
    braces inside its strings included, passes the scanner precisely when the
    value nests no deeper than the limit, and then [safe_loads] is the plain
    decoder; a deeper one raises ValueError before the decoder sees it. *)
Theorem safe_loads_depth (decode : string -> res val) (v : val) :
  floats_plain v = true ->
  safe_loads decode (dumps v)
  = if depth v <=? MAX_JSON_DEPTH then decode (dumps v) else Raise (ValueError "JSON nesting depth").
Proof.
  intros Hf. unfold safe_loads, limited_decode, _check_depth. cbn [drop_str].
  pose proof (dumps_scans v Hf MAX_JSON_DEPTH 0 "" ltac:(unfold MAX_JSON_DEPTH; lia)) as H.
  rewrite sapp_nil_r in H. rewrite H, Z.add_0_l.
  rewrite Z.leb_antisym. by destruct (MAX_JSON_DEPTH <? depth v).
Qed.

Fixpoint nest (n : nat) (v : val) : val :=
  match n with O => v | S n' => VList [nest n' v] end.

Lemma safe_loads_depth_witness :
  safe_loads (fun _ => Ok VNone) (dumps (nest 32 (VStr "[[{"))) = Ok VNone
  /\ safe_loads (fun _ => Ok VNone) (dumps (nest 33 VNone)) = Raise (ValueError "JSON nesting depth").
Proof.
  split.
  - exact (safe_loads_depth (fun _ => Ok VNone) (nest 32 (VStr "[[{")) eq_refl).
  - exact (safe_loads_depth (fun _ => Ok VNone) (nest 33 VNone) eq_refl).
Defined.
