(* ===== verification/Sigma.v ===== *)
(** * Sigma rules: [rule_engine/sigma.py]

    Matching of one event against one compiled rule, placeholder
    interpolation, compilation of a parsed YAML document and loading of a rule
    directory.  YAML parsing (PyYAML) and the regular expressions of rule
    authors ([re.search] on an arbitrary pattern) are arguments; everything the
    module decides itself is computed here, and its own fixed patterns are
    written out as scanners. *)

From S2P Require Import Prelude PyStr PyVal.
From Stdlib Require Import Ascii.

(** ** Events ([detectors/base.py]) *)

(** Ids are the text of the UUID; [occurred_at] is in seconds since the epoch.
    Metadata values are [val]: the consumer of the event stream makes them all
    strings, the self-defense projection also stores integers and booleans. *)
Record ParsedEvent : Type := mkEvent {
  ev_event_id : string;
  ev_host_id : string;
  ev_source : string;
  ev_raw : string;
  ev_metadata : list (string * val);
  ev_occurred_at : Z
}.

(** ** [_interpolate] *)

(** [[a-zA-Z0-9_]]. *)
Definition is_key_char (c : ascii) : bool :=
  is_digit c || in_range 65 90 c || in_range 97 122 c || is_char "_" c.

(** [_PLACEHOLDER_RE] anchored at the start of [s]: the name and what follows.
    The name's class excludes the brace, so the greedy match is the only one. *)
Definition placeholder (s : string) : option (string * string) :=
  match s with
  | String "{" (String "{" r) =>
      let '(w, t) := span is_key_char r in
      if nonempty w then
        match t with
        | String "}" (String "}" u) => Some (w, u)
        | _ => None
        end
      else None
  | _ => None
  end.

Definition braces (k : string) : string := "{{" +:+ k +:+ "}}".

(** The [_replace] callback: unknown variables stay as the literal text. *)
Definition replacement (md : list (string * val)) (k : string) : string :=
  str_of (default (VStr (braces k)) (assoc k md)).

(** [_PLACEHOLDER_RE.sub]: leftmost matches, left to right; every step consumes
    a character, so [length s] steps are enough. *)
Fixpoint sub_fuel (fuel : nat) (md : list (string * val)) (s : string) : string :=
  match fuel with
  | O => s
  | S n =>
      match placeholder s with
      | Some (k, u) => replacement md k +:+ sub_fuel n md u
      | None =>
          match s with
          | EmptyString => EmptyString
          | String c r => String c (sub_fuel n md r)
          end
      end
  end.

Definition _interpolate (template : string) (md : list (string * val)) : string :=
  sub_fuel (String.length template) md template.

(** ** Selections *)

(** [_is_modifier_value]. *)
Definition _is_modifier_value (value : string) : bool :=
  if negb (sexists (is_char "|") value) then false
  else
    let '(_, _, mod_spec) := partition_char "|" value in
    if negb (sexists (is_char ":") mod_spec) then false
    else
      let '(m, _, _) := partition_char ":" mod_spec in
      String.eqb m "startswith" || String.eqb m "endswith"
      || String.eqb m "ge" || String.eqb m "lt".

(** [try: float(actual) <op> float(lit) except (TypeError, ValueError): False]. *)
Definition float_cmp (op : pyfloat -> pyfloat -> bool) (actual : val) (lit : string) : res bool :=
  match (a ← float_of actual; b ← float_of (VStr lit); Ok (op a b)) with
  | Raise (ValueError _) | Raise TypeError => Ok false
  | r => r
  end.

(** [_match_modifier]. *)
Definition _match_modifier (actual : val) (value : string) : res bool :=
  let '(_, _, mod_spec) := partition_char "|" value in
  let '(m, _, lit0) := partition_char ":" mod_spec in
  let lit := strip lit0 in
  if String.eqb m "startswith" then Ok (startswith lit (str_of actual))
  else if String.eqb m "endswith" then Ok (endswith lit (str_of actual))
  else if String.eqb m "ge" then float_cmp fge actual lit
  else if String.eqb m "lt" then float_cmp flt actual lit
  else Ok false.

Section Matching.
(** [re.search(pattern, text)]; a bad pattern raises [re.error]. *)
Context (re_search : string -> string -> res bool).

(** One item of the selection. *)
Definition match_item (event : ParsedEvent) (key : string) (expected : val) : res bool :=
  let found := get key (ev_metadata event) in
  let actual := match found with
                | VNone => if String.eqb key "source" then VStr (ev_source event) else VNone
                | v => v
                end in
  match actual with
  | VNone => Ok false
  | _ =>
      match expected with
      | VList l => Ok (val_in actual l)
      | VStr e =>
          if _is_modifier_value e then _match_modifier actual e
          else if startswith "re:" e then re_search (drop_str 3 e) (str_of actual)
          else if startswith "contains:" e then
            let needle := drop_str 9 e in
            Ok (contains needle (str_of actual) || contains needle (ev_raw event))
          else Ok (String.eqb (str_of actual) e)
      | _ => Ok (val_eqb actual expected)
      end
  end.

(** [_match_selection]: the loop over [selection.items()]. *)
Fixpoint _match_selection (event : ParsedEvent) (selection : list (string * val)) : res bool :=
  match selection with
  | [] => Ok true
  | (key, expected) :: rest =>
      b ← match_item event key expected;
      if b : bool then _match_selection event rest else Ok false
  end.

(** The same call on a value taken out of the detection block: anything but a
    mapping has no [.items()]. *)
Definition match_selection_val (event : ParsedEvent) (v : val) : res bool :=
  match v with VDict d => _match_selection event d | _ => Raise AttributeError end.

(** ** Compiled rules *)

Record CompiledSigmaRule : Type := mkRule {
  rule_id : string;
  rule_title : string;
  rule_level : string;
  rule_selection : list (string * val);
  rule_detection : list (string * val);
  rule_condition : string;
  rule_count : Z;
  rule_timeframe_sec : Z;
  rule_cooldown_sec : Z;
  rule_dedup_key : string;
  rule_action : option (list (string * val));
  rule_required_fields : list string
}.

(** Scanners for the condition patterns.  [\s+], [\w+] and [[^)]+] are each
    followed by a character outside their class, so the greedy match is the
    only one and [re.fullmatch] needs no backtracking. *)
Definition eat (p s : string) : option string :=
  if startswith p s then Some (drop_str (String.length p) s) else None.

Definition eat1 (p : ascii -> bool) (s : string) : option (string * string) :=
  let '(a, b) := span p s in if nonempty a then Some (a, b) else None.

Definition eat_spaces (s : string) : option string := snd <$> eat1 is_space s.

Definition at_end {A} (x : A) (s : string) : option A :=
  if nonempty s then None else Some x.

(** [\s+and\s+] *)
Definition eat_and (s : string) : option string :=
  s ← eat_spaces s; s ← eat "and" s; eat_spaces s.

(** [not\s+(\w+)] at the end. *)
Definition eat_not_word (s : string) : option string :=
  s ← eat "not" s; s ← eat_spaces s; '(w, r) ← eat1 is_word s; at_end w r.

(** [\(([^)]+)\)] *)
Definition eat_group (s : string) : option (string * string) :=
  s ← eat "(" s; '(w, r) ← eat1 (fun c => negb (is_char ")" c)) s;
  r ← eat ")" r; Some (w, r).

(** [selection\s+and\s+not\s+(\w+)] *)
Definition pattern2 (cond : string) : option string :=
  s ← eat "selection" cond; s ← eat_and s; eat_not_word s.

(** [selection\s+and\s+\(([^)]+)\)] *)
Definition pattern3 (cond : string) : option string :=
  s ← eat "selection" cond; s ← eat_and s; '(w, r) ← eat_group s; at_end w r.

(** [selection\s+and\s+\(([^)]+)\)\s+and\s+not\s+(\w+)] *)
Definition pattern4 (cond : string) : option (string * string) :=
  s ← eat "selection" cond; s ← eat_and s; '(w, r) ← eat_group s;
  r ← eat_and r; n ← eat_not_word r; Some (w, n).

(** [[f.strip() for f in inner.split(" or ")]] *)
Definition filter_names (inner : string) : list string := map strip (split_str " or " inner).

(** [any(_match_selection(event, detection[fn]) for fn in names)]. *)
Fixpoint any_filter (event : ParsedEvent) (det : list (string * val)) (names : list string) : res bool :=
  match names with
  | [] => Ok false
  | n :: rest =>
      b ← match_selection_val event (get n det);
      if b : bool then Ok true else any_filter event det rest
  end.

(** [CompiledSigmaRule.matches]. *)
Definition matches (r : CompiledSigmaRule) (event : ParsedEvent) : res bool :=
  let det := rule_detection r in
  let sel := _match_selection event (rule_selection r) in
  if negb (forallb (fun f => has_key f (ev_metadata event)) (rule_required_fields r)) then Ok false
  else if String.eqb (rule_condition r) "selection" then sel
  else
    let cond := strip (rule_condition r) in
    match pattern2 cond with
    | Some f =>
        if negb (has_key f det) then Ok false
        else b ← sel; if b : bool then negb <$> match_selection_val event (get f det) else Ok false
    | None =>
    match pattern3 cond with
    | Some inner =>
        let names := filter_names inner in
        if negb (forallb (fun f => has_key f det) names) then Ok false
        else b ← sel; if b : bool then any_filter event det names else Ok false
    | None =>
    match pattern4 cond with
    | Some (inner, nf) =>
        let names := filter_names inner in
        if negb (forallb (fun f => has_key f det) (names ++ [nf])) then Ok false
        else
          b ← sel;
          if negb b then Ok false
          else
            x ← match_selection_val event (get nf det);
            if x : bool then Ok false else any_filter event det names
    | None => Ok false
    end end end.

End Matching.

(** ** Rendering *)

Record RenderedAction : Type := mkRendered {
  ra_kind : val;
  ra_target : string;
  ra_ttl_sec : val
}.

(** [_interpolate] on a template that need not be a string. *)
Definition interpolate_val (template : val) (md : list (string * val)) : res string :=
  match template with VStr t => Ok (_interpolate t md) | _ => Raise TypeError end.

(** [CompiledSigmaRule.render_action]. *)
Definition render_action (r : CompiledSigmaRule) (event : ParsedEvent) : res (option RenderedAction) :=
  match rule_action r with
  | None | Some [] => Ok None
  | Some action =>
      let kind := get "kind" action in
      target ← interpolate_val (default (VStr "") (assoc "target" action)) (ev_metadata event);
      if negb (truthy kind) || negb (nonempty target) then Ok None
      else
        let ttl := match get "ttl_sec" action with
                   | VStr t => match py_int (_interpolate t (ev_metadata event)) with
                               | Some z => VInt z
                               | None => VNone
                               end
                   | v => v
                   end in
        Ok (Some (mkRendered kind target ttl))
  end.

(** [CompiledSigmaRule.render_dedup_key]. *)
Definition render_dedup_key (r : CompiledSigmaRule) (event : ParsedEvent) : string :=
  if nonempty (rule_dedup_key r) then
    let k := _interpolate (rule_dedup_key r) (ev_metadata event) in
    if nonempty k then k else rule_id r
  else rule_id r.

(** ** Compilation *)

(** [s[:-n]]. *)
Definition chop (n : nat) (s : string) : string := take_str (String.length s - n) s.

(** [_parse_timeframe]. *)
Definition _parse_timeframe (value : val) : Z :=
  match value with
  | VInt z => z
  | VBool b => Z.b2z b
  | _ =>
      let s := lower (strip (str_of value)) in
      if negb (nonempty s) then 60
      else if endswith "ms" s then
        match py_int (chop 2 s) with Some n => Z.max 1 (n / 1000) | None => 60 end
      else if endswith "s" s then default 60 (py_int (chop 1 s))
      else if endswith "m" s then
        match py_int (chop 1 s) with Some n => n * 60 | None => 60 end
      else if endswith "h" s then
        match py_int (chop 1 s) with Some n => n * 3600 | None => 60 end
      else default 60 (py_int s)
  end.

Definition levels : list string := ["low"; "medium"; "high"; "critical"].

(** [_compile]. *)
Definition _compile (raw : list (string * val)) : res CompiledSigmaRule :=
  let title := str_of (val_or (get "title" raw) (val_or (get "id" raw) (VStr "unnamed"))) in
  let rid := str_of (val_or (get "id" raw) (VStr (replace_char " " "-" (lower title)))) in
  let level := str_of (val_or (get "level" raw) (VStr "medium")) in
  _ ← guard_res (str_in level levels) (SigmaRuleLoadError "invalid level");
  match get "detection" raw with
  | VDict detection =>
      match get "selection" detection with
      | VDict selection =>
          let condition := str_of (val_or (get "condition" detection) (VStr "selection")) in
          count ← int_of (val_or (get "count" detection) (VInt 1));
          let timeframe_sec :=
            _parse_timeframe (default (VStr "60s") (assoc "timeframe" detection)) in
          cooldown_sec ← int_of (val_or (get "cooldown_sec" raw) (VInt 300));
          let dedup_key := str_of (val_or (get "dedup_key" raw) (VStr "")) in
          action ← match get "action" raw with
                   | VNone => Ok None
                   | VDict a => Ok (Some a)
                   | _ => Raise (SigmaRuleLoadError "'action' must be a mapping")
                   end;
          required ← match default (VList []) (assoc "required_fields" raw) with
                     | VList l => Ok (map str_of l)
                     | _ => Raise (SigmaRuleLoadError "'required_fields' must be a list of strings")
                     end;
          Ok (mkRule rid title level selection detection condition count timeframe_sec
                cooldown_sec dedup_key action required)
      | _ => Raise (SigmaRuleLoadError "missing 'detection.selection'")
      end
  | _ => Raise (SigmaRuleLoadError "missing 'detection' block")
  end.

Fixpoint mapM_res {A B} (f : A -> res B) (l : list A) : res (list B) :=
  match l with
  | [] => Ok []
  | x :: r => y ← f x; ys ← mapM_res f r; Ok (y :: ys)
  end.

(** [parse_rule_file]; [doc] is what [yaml.safe_load] made of the file. *)
Definition parse_rule_file (doc : res val) : res (list CompiledSigmaRule) :=
  match doc with
  | Raise YAMLError => Raise (SigmaRuleLoadError "invalid YAML")
  | Raise OSError => Raise (SigmaRuleLoadError "cannot read")
  | Raise e => Raise e
  | Ok VNone => Ok []
  | Ok data =>
      let rules := match data with VList l => l | v => [v] end in
      mapM_res (fun raw => match raw with
                           | VDict d => _compile d
                           | _ => Raise (SigmaRuleLoadError "rule must be a mapping")
                           end) rules
  end.

(** [load_rules_from_dir]: [docs] lists the documents in the order [rglob]
    yields the files ([*.yml] first, then [*.yaml]).  Only
    [SigmaRuleLoadError] is caught. *)
Fixpoint load_files (docs : list (res val)) : res (list CompiledSigmaRule) :=
  match docs with
  | [] => Ok []
  | d :: rest =>
      match parse_rule_file d with
      | Ok rs => out ← load_files rest; Ok (rs ++ out)
      | Raise (SigmaRuleLoadError _) => load_files rest
      | Raise e => Raise e
      end
  end.

Definition load_rules_from_dir (is_dir : bool) (docs : list (res val)) : res (list CompiledSigmaRule) :=
  if is_dir then load_files docs else Ok [].

(** ** Interpolation *)

(** A template as its author reads it: literal text and placeholders. *)
Inductive segment : Type := Lit (s : string) | Var (k : string).

Definition segment_ok (g : segment) : bool :=
  match g with
  | Lit s => negb (sexists (is_char "{") s)
  | Var k => nonempty k && sforall is_key_char k
  end.

Definition segment_text (g : segment) : string :=
  match g with Lit s => s | Var k => braces k end.

Definition segment_value (md : list (string * val)) (g : segment) : string :=
  match g with Lit s => s | Var k => replacement md k end.

Fixpoint concat_str (l : list string) : string :=
  match l with [] => EmptyString | s :: r => s +:+ concat_str r end.

Lemma placeholder_braces k u :
  nonempty k = true -> sforall is_key_char k = true ->
  placeholder (braces k +:+ u) = Some (k, u).
Proof.
  intros Hn Hk. unfold braces. rewrite !sapp_assoc. cbn [String.append placeholder].
  by rewrite span_stop, Hn by done.
Qed.

Lemma placeholder_other c r : is_char "{" c = false -> placeholder (String c r) = None.
Proof.
  intros H. destruct (ascii_dec c "{") as [->|Hne]; [by rewrite is_char_refl in H|].
  unfold placeholder. by ascii_cases c.
Qed.

Lemma sub_fuel_lit md (s : string) : forall fuel u,
  sexists (is_char "{") s = false -> (String.length s <= fuel)%nat ->
  sub_fuel fuel md (s +:+ u) = s +:+ sub_fuel (fuel - String.length s) md u.
Proof.
  induction s as [|c s IH]; intros fuel u Hs Hf; cbn [String.append String.length].
  - by rewrite Nat.sub_0_r.
  - cbn in Hs, Hf. bprop. destruct fuel as [|fuel]; [lia|].
    cbn [sub_fuel]. rewrite placeholder_other by done. by rewrite IH by (done || lia).
Qed.

Lemma sub_fuel_nil fuel md : sub_fuel fuel md "" = "".
Proof. by destruct fuel. Qed.

Lemma sub_fuel_segments md (gs : list segment) : forall fuel,
  Forall (fun g => segment_ok g = true) gs ->
  (String.length (concat_str (map segment_text gs)) <= fuel)%nat ->
  sub_fuel fuel md (concat_str (map segment_text gs))
  = concat_str (map (segment_value md) gs).
Proof.
  induction gs as [|g gs IH]; intros fuel Hok Hf; [apply sub_fuel_nil|].
  apply Forall_cons in Hok as [Hg Hok].
  cbn [map concat_str] in *. rewrite sapp_length in Hf.
  destruct g as [s|k]; cbn [segment_ok segment_text segment_value] in *.
  - apply negb_true_iff in Hg. rewrite sub_fuel_lit by (done || lia).
    by rewrite IH by (done || lia).
  - bprop. unfold braces in Hf at 1. rewrite !sapp_length in Hf. cbn in Hf.
    destruct fuel as [|fuel]; [lia|]. cbn [sub_fuel].
    rewrite placeholder_braces by done. by rewrite IH by (done || lia).
Qed.

(** A template made of literal text (no opening brace) and [{{name}}]
    placeholders renders to the same text with every placeholder replaced by
    [str] of the metadata value, or by itself when the variable is unknown;
    substituted values are never scanned again, whatever braces they hold. *)
Theorem interpolate_segments (gs : list segment) (md : list (string * val)) :
  Forall (fun g => segment_ok g = true) gs ->
  _interpolate (concat_str (map segment_text gs)) md
  = concat_str (map (segment_value md) gs).
Proof. intros H. by apply sub_fuel_segments. Qed.

Lemma interpolate_segments_witness :
  Forall (fun g => segment_ok g = true) [Lit "ip="; Var "a"; Var "b"]
  /\ _interpolate "ip={{a}}{{b}}" [("a", VStr "{{b}}")] = "ip={{b}}{{b}}".
Proof.
  split; [repeat constructor|].
  exact (interpolate_segments [Lit "ip="; Var "a"; Var "b"] [("a", VStr "{{b}}")]
           ltac:(repeat constructor)).
Defined.

(** ** Conditions *)

(** The condition language of ADR-010, as rule authors write it. *)
Inductive cond : Type :=
| CSelection
| CAndNot (f : string)
| CAny (fs : list string)
| CAnyNot (fs : list string) (f : string).

Definition show_cond (c : cond) : string :=
  match c with
  | CSelection => "selection"
  | CAndNot f => "selection and not " +:+ f
  | CAny fs => "selection and (" +:+ join " or " fs +:+ ")"
  | CAnyNot fs f => "selection and (" +:+ join " or " fs +:+ ") and not " +:+ f
  end.

Definition name_ok (f : string) : bool := nonempty f && sforall is_word f.

Definition cond_names (c : cond) : list string :=
  match c with
  | CSelection => []
  | CAndNot f => [f]
  | CAny fs => fs
  | CAnyNot fs f => fs ++ [f]
  end.

Definition cond_ok (c : cond) : bool :=
  forallb name_ok (cond_names c)
  && match c with CAny [] | CAnyNot [] _ => false | _ => true end.

(** What a condition means, given the verdict of the selection and of every
    filter. *)
Definition denote (c : cond) (sel : bool) (filter : string -> bool) : bool :=
  match c with
  | CSelection => sel
  | CAndNot f => sel && negb (filter f)
  | CAny fs => sel && existsb filter fs
  | CAnyNot fs f => sel && negb (filter f) && existsb filter fs
  end.

Lemma word_not_space c : is_word c = true -> is_space c = false.
Proof. by ascii_cases c. Qed.

Lemma word_not_paren c : is_word c = true -> is_char ")" c = false.
Proof. by ascii_cases c. Qed.

Lemma word_not_open c : is_word c = true -> is_char "(" c = false.
Proof. by ascii_cases c. Qed.

Lemma word_not_blank c : is_word c = true -> is_char " " c = false.
Proof. by ascii_cases c. Qed.

Lemma eat_app p r : eat p (p +:+ r) = Some r.
Proof. unfold eat. by rewrite startswith_app, drop_str_app. Qed.

Lemma eat_spaces_blank c r :
  is_space c = false -> eat_spaces (String " " (String c r)) = Some (String c r).
Proof.
  intros H. unfold eat_spaces, eat1. cbn [span].
  change (is_space " ") with true. cbn. by rewrite H.
Qed.

Lemma span_word f : sforall is_word f = true -> span is_word f = (f, "").
Proof. apply span_all. Qed.

Lemma eat_not_word_ok f : name_ok f = true -> eat_not_word ("not " +:+ f) = Some f.
Proof.
  unfold name_ok. intros H; bprop. unfold eat_not_word.
  change ("not " +:+ f) with ("not" +:+ String " " f). rewrite eat_app. cbn [mbind option_bind].
  destruct f as [|c f]; [done|]. cbn [sforall] in *. bprop.
  rewrite eat_spaces_blank by (by apply word_not_space). cbn [mbind option_bind].
  unfold eat1. rewrite span_word by (cbn; by rewrite H0, H1). done.
Qed.

Lemma eat_and_blank c r :
  is_space c = false -> eat_and (" and " +:+ String c r) = Some (String c r).
Proof.
  intros H. unfold eat_and. cbn [String.append].
  rewrite eat_spaces_blank by done. cbn [mbind option_bind].
  change (String "a" (String "n" (String "d" (String " " (String c r)))))
    with ("and" +:+ String " " (String c r)).
  rewrite eat_app. cbn [mbind option_bind]. by rewrite eat_spaces_blank.
Qed.

(** The text between the parentheses. *)
Definition group_ok (w : string) : bool :=
  nonempty w && sforall (fun c => negb (is_char ")" c)) w.

Lemma eat_group_ok w r :
  group_ok w = true -> eat_group ("(" +:+ w +:+ String ")" r) = Some (w, r).
Proof.
  unfold group_ok. intros H; bprop. unfold eat_group. rewrite eat_app. cbn [mbind option_bind].
  unfold eat1. rewrite span_stop by done. rewrite H. cbn [mbind option_bind].
  change (String ")" r) with (")" +:+ r). by rewrite eat_app.
Qed.

Lemma join_sforall p sep (l : list string) :
  sforall p sep = true -> Forall (fun x => sforall p x = true) l ->
  sforall p (join sep l) = true.
Proof.
  intros Hs. induction 1 as [|x l Hx Hl IH]; [done|].
  destruct l as [|y l]; [done|].
  change (join sep (x :: y :: l)) with (x +:+ sep +:+ join sep (y :: l)).
  by rewrite !sforall_app, Hx, Hs, IH.
Qed.

Lemma join_nonempty sep x (l : list string) :
  nonempty x = true -> nonempty (join sep (x :: l)) = true.
Proof. destruct x; [done|]. by destruct l. Qed.

Lemma names_group_ok fs :
  fs <> [] -> forallb name_ok fs = true -> group_ok (join " or " fs) = true.
Proof.
  intros Hne Hok. unfold group_ok. rewrite andb_true_iff.
  rewrite forallb_forall in Hok. unfold name_ok in Hok. split.
  - destruct fs as [|f fs]; [done|]. apply join_nonempty.
    specialize (Hok f (or_introl eq_refl)). by bprop.
  - apply join_sforall; [done|]. rewrite Forall_forall. intros f Hf.
    apply list_elem_of_In in Hf. specialize (Hok f Hf). bprop.
    revert H0. apply sforall_impl. intros c Hc. by rewrite word_not_paren.
Qed.

Lemma name_no_blank f : name_ok f = true -> sexists (is_char " ") f = false.
Proof.
  unfold name_ok. intros H; bprop. rewrite sexists_sforall, negb_false_iff.
  revert H0. apply sforall_impl. intros c Hc. by rewrite word_not_blank.
Qed.

Lemma name_strip f : name_ok f = true -> strip f = f.
Proof.
  unfold name_ok. intros H; bprop. apply strip_none.
  revert H0. apply sforall_impl. intros c Hc. by rewrite word_not_space.
Qed.

Lemma filter_names_join fs :
  fs <> [] -> forallb name_ok fs = true -> filter_names (join " or " fs) = fs.
Proof.
  intros Hne Hok. unfold filter_names. rewrite forallb_forall in Hok.
  rewrite split_str_join; [| done |].
  - rewrite <- (map_id fs) at 2. apply map_ext_in. intros f Hf. by apply name_strip, Hok.
  - rewrite Forall_forall. intros f Hf%list_elem_of_In. by apply name_no_blank, Hok.
Qed.

Lemma show_cond_strip c : cond_ok c = true -> strip (show_cond c) = show_cond c.
Proof.
  unfold cond_ok. intros H; bprop. rewrite forallb_forall in H.
  assert (Hf : forall f, name_ok f = true ->
            nonempty f = true /\ sforall (fun c => negb (is_space c)) f = true).
  { intros f Hf. unfold name_ok in Hf. bprop. split; [done|].
    revert H2. apply sforall_impl. intros x Hx. by rewrite word_not_space. }
  destruct c as [|f|fs|fs f]; cbn [show_cond cond_names] in *.
  - done.
  - apply strip_app; [done | apply Hf, H; by left ..].
  - rewrite <- sapp_assoc. by apply strip_app.
  - rewrite <- !sapp_assoc. apply strip_app; [done | apply Hf, H, in_or_app; right; by left ..].
Qed.

Lemma pattern2_group w : pattern2 ("selection and (" +:+ w) = None.
Proof.
  unfold pattern2. change ("selection and (" +:+ w) with ("selection" +:+ " and " +:+ String "(" w).
  rewrite eat_app. cbn [mbind option_bind]. by rewrite eat_and_blank.
Qed.

Lemma pattern2_show_any fs : pattern2 (show_cond (CAny fs)) = None.
Proof. apply pattern2_group. Qed.

Lemma pattern2_show_anynot fs f : pattern2 (show_cond (CAnyNot fs f)) = None.
Proof. apply pattern2_group. Qed.

Lemma pattern2_show f : name_ok f = true -> pattern2 (show_cond (CAndNot f)) = Some f.
Proof.
  intros Hf. unfold pattern2. cbn [show_cond].
  change ("selection and not " +:+ f) with ("selection" +:+ " and " +:+ String "n" ("ot " +:+ f)).
  rewrite eat_app. cbn [mbind option_bind]. rewrite eat_and_blank by done. cbn [mbind option_bind].
  change (String "n" ("ot " +:+ f)) with ("not " +:+ f). by apply eat_not_word_ok.
Qed.

Lemma group_prefix w r :
  group_ok w = true ->
  (s ← eat "selection" ("selection and (" +:+ w +:+ String ")" r);
   s ← eat_and s; eat_group s) = Some (w, r).
Proof.
  intros Hw.
  change ("selection and (" +:+ w +:+ String ")" r)
    with ("selection" +:+ " and " +:+ String "(" (w +:+ String ")" r)).
  rewrite eat_app. cbn [mbind option_bind]. rewrite eat_and_blank by done. cbn [mbind option_bind].
  change (String "(" (w +:+ String ")" r)) with ("(" +:+ w +:+ String ")" r). by apply eat_group_ok.
Qed.

(** Patterns 3 and 4 as a continuation of [group_prefix]. *)
Lemma pattern3_eq cond :
  pattern3 cond = '(w, r) ← (s ← eat "selection" cond; s ← eat_and s; eat_group s); at_end w r.
Proof.
  unfold pattern3. destruct (eat "selection" cond); cbn [mbind option_bind]; [|done].
  by destruct (eat_and s).
Qed.

Lemma pattern4_eq cond :
  pattern4 cond = '(w, r) ← (s ← eat "selection" cond; s ← eat_and s; eat_group s);
                  r ← eat_and r; n ← eat_not_word r; Some (w, n).
Proof.
  unfold pattern4. destruct (eat "selection" cond); cbn [mbind option_bind]; [|done].
  by destruct (eat_and s).
Qed.

Lemma pattern3_show fs :
  fs <> [] -> forallb name_ok fs = true ->
  pattern3 (show_cond (CAny fs)) = Some (join " or " fs).
Proof.
  intros Hne Hok. rewrite pattern3_eq. cbn [show_cond].
  by rewrite group_prefix by (by apply names_group_ok).
Qed.

Lemma pattern34_show fs f :
  fs <> [] -> forallb name_ok fs = true -> name_ok f = true ->
  pattern3 (show_cond (CAnyNot fs f)) = None
  /\ pattern4 (show_cond (CAnyNot fs f)) = Some (join " or " fs, f).
Proof.
  intros Hne Hok Hf. rewrite pattern3_eq, pattern4_eq. cbn [show_cond].
  change (") and not " +:+ f) with (String ")" (" and " +:+ String "n" ("ot " +:+ f))).
  rewrite group_prefix by (by apply names_group_ok). cbn [mbind option_bind].
  split; [done|]. rewrite eat_and_blank by done. cbn [mbind option_bind].
  change (String "n" ("ot " +:+ f)) with ("not " +:+ f). by rewrite eat_not_word_ok.
Qed.

Section Conditions.
Context (re_search : string -> string -> res bool).
Context (r : CompiledSigmaRule) (event : ParsedEvent).

(** Every clause the condition names is in the detection block and evaluates
    without raising: the selection to [sel], the filter [f] to [filter f]. *)
Definition clauses (names : list string) (sel : bool) (filter : string -> bool) : Prop :=
  forallb (fun f => has_key f (ev_metadata event)) (rule_required_fields r) = true
  /\ _match_selection re_search event (rule_selection r) = Ok sel
  /\ Forall (fun f => has_key f (rule_detection r) = true
       /\ match_selection_val re_search event (get f (rule_detection r)) = Ok (filter f)) names.

Lemma any_filter_ok names filter :
  Forall (fun f => has_key f (rule_detection r) = true
       /\ match_selection_val re_search event (get f (rule_detection r)) = Ok (filter f)) names ->
  any_filter re_search event (rule_detection r) names = Ok (existsb filter names).
Proof.
  induction 1 as [|n names [_ Hn] _ IH]; cbn; [done|].
  rewrite Hn. cbn. by destruct (filter n).
Qed.

Lemma names_known names filter :
  Forall (fun f => has_key f (rule_detection r) = true
       /\ match_selection_val re_search event (get f (rule_detection r)) = Ok (filter f)) names ->
  forallb (fun f => has_key f (rule_detection r)) names = true.
Proof.
  intros H. rewrite forallb_forall. intros f Hf%list_elem_of_In.
  rewrite Forall_forall in H. by apply H.
Qed.

Lemma show_cond_selection c :
  String.eqb (show_cond c) "selection" = match c with CSelection => true | _ => false end.
Proof. by destruct c. Qed.

Lemma matches_show c sel filter :
  cond_ok c = true -> rule_condition r = show_cond c ->
  clauses (cond_names c) sel filter ->
  matches re_search r event = Ok (denote c sel filter).
Proof.
  intros Hc Hr (Hreq&Hsel&Hall). unfold matches.
  rewrite Hreq, Hsel, Hr, show_cond_selection. cbn [negb].
  destruct c as [|f|fs|fs f]; [done|..]; rewrite show_cond_strip by done;
    unfold cond_ok in Hc; cbn [cond_names] in *; bprop.
  - cbn [forallb] in H. bprop. rewrite pattern2_show by done.
    apply Forall_cons in Hall as [[Hk Hf] _]. rewrite Hk, Hf. cbn. by destruct sel.
  - assert (fs <> []) as Hne by (by destruct fs).
    rewrite pattern2_show_any, pattern3_show by done.
    rewrite filter_names_join, (names_known _ filter), (any_filter_ok _ filter) by done.
    by destruct sel.
  - rewrite forallb_app in H. cbn [forallb] in H. bprop.
    assert (fs <> []) as Hne by (by destruct fs).
    destruct (pattern34_show fs f Hne H H1) as [-> ->].
    rewrite pattern2_show_anynot.
    rewrite filter_names_join, (names_known _ filter) by done.
    apply Forall_app in Hall as [Hfs Hf]. apply Forall_cons in Hf as [[Hk Hf] _].
    rewrite Hf, (any_filter_ok _ filter) by done. cbn.
    by destruct sel, (filter f).
Qed.

(** Inversion of a firing match. *)
Lemma matches_true_sel :
  matches re_search r event = Ok true ->
  forallb (fun f => has_key f (ev_metadata event)) (rule_required_fields r) = true
  /\ _match_selection re_search event (rule_selection r) = Ok true.
Proof.
  unfold matches. destruct (forallb _ (rule_required_fields r)); [|done]. cbn [negb].
  intros H. split; [done|].
  destruct (_match_selection re_search event (rule_selection r)) as [[]|e]; [done|..];
    cbn in H; repeat (split_match_in H; try discriminate).
Qed.

End Conditions.

(** C3. The text of a condition means what ADR-010 says: for the four forms
    [selection], [selection and not F], [selection and (F1 or ... or Fn)] and
    [selection and (F1 or ... or Fn) and not G], with any number of filters
    named by words, [matches] computes the boolean combination of the
    selection's and the filters' verdicts. *)
Theorem matches_denotes (re_search : string -> string -> res bool)
    (r : CompiledSigmaRule) (event : ParsedEvent) (c : cond) (sel : bool) (filter : string -> bool) :
  cond_ok c = true -> rule_condition r = show_cond c ->
  clauses re_search r event (cond_names c) sel filter ->
  matches re_search r event = Ok (denote c sel filter).
Proof. apply matches_show. Qed.

Definition no_regex (p s : string) : res bool := Raise ReError.

Definition example_rule (condition : string) : CompiledSigmaRule :=
  mkRule "ssh-1" "SSH" "high" [("source", VStr "sshd")]
    [("f1", VDict [("status", VStr "failed")]);
     ("f2", VDict [("status", VList [VStr "denied"])]);
     ("g", VDict [("user", VStr "user|startswith: svc")])]
    condition 1 60 300 "" None ["user"].

Definition example_event : ParsedEvent :=
  mkEvent "e" "h" "sshd" "raw" [("status", VStr "denied"); ("user", VStr "root")] 0.

Lemma matches_denotes_witness :
  cond_ok (CAnyNot ["f1"; "f2"] "g") = true
  /\ matches no_regex (example_rule "selection and (f1 or f2) and not g") example_event = Ok true.
Proof.
  split; [reflexivity|].
  exact (matches_denotes no_regex (example_rule "selection and (f1 or f2) and not g") example_event
           (CAnyNot ["f1"; "f2"] "g") true (String.eqb "f2") eq_refl eq_refl
           ltac:(split; [reflexivity|split; [reflexivity|repeat constructor]])).
Defined.

(** Fail closed: a rule fires on an event only when every required field is
    present and its selection matched, whatever its condition string says. *)
Theorem matches_fail_closed (re_search : string -> string -> res bool)
    (r : CompiledSigmaRule) (event : ParsedEvent) :
  matches re_search r event = Ok true ->
  Forall (fun f => exists v, assoc f (ev_metadata event) = Some v) (rule_required_fields r)
  /\ _match_selection re_search event (rule_selection r) = Ok true.
Proof.
  intros [Hreq Hsel]%matches_true_sel. split; [|done].
  rewrite Forall_forall. rewrite forallb_forall in Hreq.
  intros f Hf%list_elem_of_In. specialize (Hreq f Hf). unfold has_key in Hreq.
  destruct (assoc f (ev_metadata event)); [eauto|done].
Qed.

Lemma matches_fail_closed_witness :
  matches no_regex (example_rule "selection and (f1 or f2) and not g") example_event = Ok true
  /\ _match_selection no_regex example_event [("source", VStr "sshd")] = Ok true.
Proof.
  split; [reflexivity|].
  exact (proj2 (matches_fail_closed no_regex
    (example_rule "selection and (f1 or f2) and not g") example_event eq_refl)).
Defined.

(** ** Selections on the live event stream *)

Lemma match_selection_true re_search event sel :
  _match_selection re_search event sel = Ok true
  <-> Forall (fun kv => match_item re_search event kv.1 kv.2 = Ok true) sel.
Proof.
  induction sel as [|[k v] sel IH]; cbn; [done|].
  rewrite Forall_cons, <- IH. cbn.
  destruct (match_item re_search event k v) as [[]|e]; cbn; naive_solver.
Qed.

(** An expected value that holds no string: a YAML number, boolean, null or
    mapping, or a list of such values. *)
Definition non_string (v : val) : bool :=
  match v with
  | VStr _ => false
  | VList l => forallb (fun x => negb (is_str x)) l
  | _ => true
  end.

(** The consumer of the event stream coerces metadata to strings. *)
Definition live_metadata (md : list (string * val)) : Prop :=
  Forall (fun kv => is_str kv.2 = true) md.

Lemma live_get md k v : live_metadata md -> assoc k md = Some v -> is_str v = true.
Proof.
  intros Hl Ha%assoc_in. unfold live_metadata in Hl. rewrite Forall_forall in Hl.
  apply (Hl (k, v)). by apply list_elem_of_In.
Qed.

Lemma non_string_item re_search event k v :
  live_metadata (ev_metadata event) -> non_string v = true ->
  match_item re_search event k v = Ok false.
Proof.
  intros Hl Hv.
  assert (Hs : forall s, match v with
      | VList l => Ok (val_in (VStr s) l)
      | VStr e => Raise TypeError
      | _ => Ok (val_eqb (VStr s) v)
      end = (Ok false : res bool)).
  { intros s. destruct v; cbn in Hv; try done.
    rewrite val_in_str_other; [done|]. rewrite Forall_forall. rewrite forallb_forall in Hv.
    intros x Hx%list_elem_of_In. specialize (Hv x Hx). by destruct (is_str x). }
  unfold match_item, get.
  destruct (assoc k (ev_metadata event)) as [w|] eqn:E; cbn.
  - apply live_get in E; [|done]. destruct w; try done.
    specialize (Hs s). by destruct v.
  - destruct (String.eqb k "source"); [|done].
    specialize (Hs (ev_source event)). by destruct v.
Qed.

(** On the live stream, where every metadata value is a string, a rule whose
    selection asks for a number, a boolean or a list without strings never
    fires, however the event looks: [401] is not ["401"] and [False] is not
    ["False"]. *)
Theorem non_string_selection_never_fires (re_search : string -> string -> res bool)
    (r : CompiledSigmaRule) (event : ParsedEvent) (k : string) (v : val) :
  live_metadata (ev_metadata event) ->
  In (k, v) (rule_selection r) -> non_string v = true ->
  matches re_search r event <> Ok true.
Proof.
  intros Hl Hin Hv [_ H]%matches_true_sel.
  rewrite match_selection_true, Forall_forall in H.
  apply list_elem_of_In in Hin. apply H in Hin. cbn in Hin.
  by rewrite non_string_item in Hin.
Qed.

(** The selection of [rules/builtin/self_defense/T1505_004_csp_report_burst.yml]
    asks for [status: 429]. *)
Definition csp_burst_rule : CompiledSigmaRule :=
  mkRule "csp" "CSP report burst" "medium"
    [("event_type", VStr "csp.violation"); ("status", VInt 429)] []
    "selection" 1 60 300 "" None [].

Lemma non_string_selection_never_fires_witness :
  matches no_regex csp_burst_rule
    (mkEvent "e" "h" "csp" "" [("event_type", VStr "csp.violation"); ("status", VStr "429")] 0)
  <> Ok true.
Proof.
  apply (non_string_selection_never_fires no_regex csp_burst_rule _ "status" (VInt 429)).
  - repeat constructor.
  - right. by left.
  - reflexivity.
Defined.

(** ** Loading *)

(** What one file contributes: its rules, nothing when it is skipped, or an
    exception that leaves the loader. *)
Definition file_outcome (d : res val) : res (list CompiledSigmaRule) :=
  match parse_rule_file d with
  | Raise (SigmaRuleLoadError _) => Ok []
  | r => r
  end.

Fixpoint first_error (l : list (res (list CompiledSigmaRule))) : option exn :=
  match l with
  | [] => None
  | Raise e :: _ => Some e
  | Ok _ :: r => first_error r
  end.

Definition rules_of (r : res (list CompiledSigmaRule)) : list CompiledSigmaRule :=
  match r with Ok rs => rs | Raise _ => [] end.

Lemma load_files_eq docs :
  load_files docs =
  match first_error (map file_outcome docs) with
  | Some e => Raise e
  | None => Ok (concat (map (fun d => rules_of (file_outcome d)) docs))
  end.
Proof.
  induction docs as [|d docs IH]; [done|]. cbn [load_files map concat first_error].
  unfold file_outcome at 1 3. rewrite IH.
  destruct (parse_rule_file d) as [rs|e]; cbn.
  - by destruct (first_error (map file_outcome docs)).
  - destruct e; cbn; try done.
Qed.

(** Loading a directory: files that raise [SigmaRuleLoadError] contribute
    nothing and all the others contribute their rules in order; but any other
    exception of any file (a [count] that is not a number, say) leaves
    [load_rules_from_dir], and no rule of the directory is loaded. *)
Theorem load_rules_spec (docs : list (res val)) :
  load_rules_from_dir true docs =
  match first_error (map file_outcome docs) with
  | Some e => Raise e
  | None => Ok (concat (map (fun d => rules_of (file_outcome d)) docs))
  end.
Proof. apply load_files_eq. Qed.

Definition good_rule_doc : val :=
  VDict [("id", VStr "ok"); ("detection", VDict [("selection", VDict [("a", VStr "b")])])].
Definition bad_level_doc : val :=
  VDict [("id", VStr "lvl"); ("level", VStr "urgent")].
Definition bad_count_doc : val :=
  VDict [("id", VStr "cnt"); ("detection", VDict [("selection", VDict [("a", VStr "b")]);
                                                  ("count", VStr "five")])].

(** A bad level is skipped; a bad count takes the whole directory down. *)
Example load_bad_level :
  map rule_id (rules_of (load_rules_from_dir true [Ok bad_level_doc; Ok good_rule_doc])) = ["ok"].
Proof. reflexivity. Qed.

(** The counter-example to one bad rule not taking the engine down. *)
Lemma bad_count_aborts_load :
  load_rules_from_dir true [Ok good_rule_doc; Ok bad_count_doc] = Raise (ValueError "int").
Proof. reflexivity. Qed.

(** ** Timeframes *)

Lemma lower_int z : lower (str_int z) = str_int z.
Proof.
  assert (Hd : forall s, sforall is_digit s = true -> lower s = s).
  { intros s Hs. apply smap_id. revert Hs. apply sforall_impl. intros c.
    by ascii_cases c. }
  destruct (Z.le_gt_cases 0 z).
  - rewrite str_int_nonneg by done. apply Hd, pretty_N_digits.
  - rewrite str_int_neg by done. unfold lower. cbn [smap].
    change (lower_char "-") with "-"%char. f_equal. apply Hd, pretty_N_digits.
Qed.

Lemma str_int_nonspace z : sforall (fun c => negb (is_space c)) (str_int z) = true.
Proof.
  destruct (Z.le_gt_cases 0 z).
  - rewrite str_int_nonneg by done. apply nonspace_digits, pretty_N_digits.
  - rewrite str_int_neg by done. cbn. apply nonspace_digits, pretty_N_digits.
Qed.

Lemma chop_app (p suf : string) : chop (String.length suf) (p +:+ suf) = p.
Proof.
  unfold chop. rewrite sapp_length.
  replace (String.length p + String.length suf - String.length suf)%nat
    with (String.length p) by lia.
  apply take_str_app.
Qed.

(** The suffix is recognised whatever integer stands before it. *)
Lemma timeframe_text z (u : string) :
  sforall (fun c => negb (is_space c)) u = true -> lower u = u ->
  lower (strip (str_int z +:+ u)) = str_int z +:+ u.
Proof.
  intros Hu Hl. rewrite strip_none.
  - unfold lower. rewrite smap_app. f_equal; [apply lower_int | exact Hl].
  - by rewrite sforall_app, str_int_nonspace, Hu.
Qed.

Lemma nonempty_app_r (a b : string) : nonempty b = true -> nonempty (a +:+ b) = true.
Proof. by destruct a. Qed.

Lemma str_int_last z : endswith "m" (str_int z) = false.
Proof.
  destruct (endswith "m" (str_int z)) eqn:E; [|done].
  apply endswith_spec in E as [p Hp].
  assert (sexists (is_char "m") (str_int z) = false) as Hn by (by apply str_int_no_char).
  rewrite Hp, sexists_app in Hn. cbn in Hn. by rewrite orb_true_r in Hn.
Qed.

Lemma endswith_last2 c d (p : string) :
  endswith (String c (String d "")) (p +:+ String d "") = endswith (String c "") p.
Proof.
  apply eq_iff_eq_true. rewrite !endswith_spec. split.
  - intros [q Hq]. exists q.
    assert (H : p +:+ String d "" = (q +:+ String c "") +:+ String d "")
      by (rewrite sapp_assoc; exact Hq).
    by apply sapp_last_inj in H as [-> _].
  - intros [q ->]. exists q. by rewrite sapp_assoc.
Qed.

(** Timeframes: an integer followed by [s], [m] or [h] is that many seconds,
    minutes or hours; [ms] is rounded down to whole seconds but never below
    one; a bare integer is in seconds. *)
Theorem parse_timeframe_units (n : Z) :
  count_digits (str_int n) <= int_max_str_digits ->
  _parse_timeframe (VInt n) = n
  /\ _parse_timeframe (VStr (str_int n +:+ "s")) = n
  /\ _parse_timeframe (VStr (str_int n +:+ "m")) = n * 60
  /\ _parse_timeframe (VStr (str_int n +:+ "h")) = n * 3600
  /\ _parse_timeframe (VStr (str_int n +:+ "ms")) = Z.max 1 (n / 1000).
Proof.
  intros Hn. apply py_int_str_int in Hn.
  assert (Hs : endswith "ms" (str_int n +:+ "s") = false)
    by (rewrite endswith_last2; apply str_int_last).
  assert (Hother : forall c u, c <> u -> forall p q, endswith (p +:+ String u "") (q +:+ String c "") = false).
  { intros c u Hc p q. apply not_true_is_false. intros E.
    apply endswith_spec in E as [w Hw]. rewrite <- sapp_assoc in Hw.
    apply sapp_last_inj in Hw as [_ Hw]. by destruct (Hc Hw). }
  pose proof (Hother "m"%char "s"%char ltac:(discriminate) "m" (str_int n)) as Hm_ms.
  pose proof (Hother "m"%char "s"%char ltac:(discriminate) "" (str_int n)) as Hm_s.
  pose proof (Hother "h"%char "s"%char ltac:(discriminate) "m" (str_int n)) as Hh_ms.
  pose proof (Hother "h"%char "s"%char ltac:(discriminate) "" (str_int n)) as Hh_s.
  pose proof (Hother "h"%char "m"%char ltac:(discriminate) "" (str_int n)) as Hh_m.
  cbn [String.append] in Hm_ms, Hm_s, Hh_ms, Hh_s, Hh_m.
  assert (Hchop : forall u, py_int (chop (String.length u) (str_int n +:+ u)) = Some n)
    by (intros u; by rewrite chop_app).
  unfold _parse_timeframe. cbn [str_of].
  rewrite !timeframe_text by done. rewrite !nonempty_app_r by done. cbn [negb].
  rewrite Hs, Hm_ms, Hm_s, Hh_ms, Hh_s, Hh_m, !endswith_app.
  pose proof (Hchop "s") as Cs. pose proof (Hchop "m") as Cm.
  pose proof (Hchop "h") as Ch. pose proof (Hchop "ms") as Cms.
  cbn [String.length] in Cs, Cm, Ch, Cms. by rewrite Cs, Cm, Ch, Cms.
Qed.

Lemma parse_timeframe_units_witness :
  count_digits (str_int 5) <= int_max_str_digits
  /\ _parse_timeframe (VStr "5m") = 300.
Proof.
  split; [vm_compute; discriminate|].
  exact (proj1 (proj2 (proj2 (parse_timeframe_units 5 ltac:(vm_compute; discriminate))))).
Defined.
