(* ===== verification/Redis.v ===== *)
(** * The Redis server the rules keep their windows in

    Redis is outside the repository: the components see it through the class
    [Redis], one operation per command they send.  [RedisLaws] is the
    documented behaviour of those commands, stated on the [contents] of the
    server: keys hold a string, a sorted set or a set, with an optional expiry
    instant.  [MemRedis] is a server that obeys the laws.

    Instants and scores are integers; every command is executed at the server
    time [now], in nanoseconds. *)

From S2P Require Import Prelude PyStr.

Definition SEC : Z := 1000000000.

Inductive robj : Type :=
| OStr
| OZset (z : gmap string Z)
| OSet (s : gset string).

Abbreviation store := (gmap string (robj * option Z)).

(** ** Documented behaviour *)

Definition live_at (now : Z) (e : robj * option Z) : bool :=
  match snd e with Some t => now <? t | None => true end.

Definition live (now : Z) (k : string) (st : store) : option (robj * option Z) :=
  match st !! k with
  | Some e => if live_at now e then Some e else None
  | None => None
  end.

Definition zset_live (now : Z) (k : string) (st : store) : res (gmap string Z) :=
  match live now k st with
  | None => Ok ∅
  | Some (OZset z, _) => Ok z
  | Some _ => Raise (RedisError true)
  end.

(** Expiry of the live object at [k], which a write keeps. *)
Definition ttl_live (now : Z) (k : string) (st : store) : option Z :=
  match live now k st with Some (_, t) => t | None => None end.

Definition in_scores (lo : option Z) (hi x : Z) : bool :=
  match lo with Some l => l <=? x | None => true end && (x <=? hi).

(** ZREMRANGEBYSCORE key lo hi (both ends included); an emptied set is removed. *)
Definition spec_zremrangebyscore (now : Z) (k : string) (lo : option Z) (hi : Z)
    (st : store) : store * res unit :=
  match zset_live now k st with
  | Raise e => (st, Raise e)
  | Ok z =>
      let z' := filter (fun p => in_scores lo hi p.2 = false) z in
      (if decide (z' = ∅) then delete k st else <[k := (OZset z', ttl_live now k st)]> st, Ok tt)
  end.

(** ZADD key score member. *)
Definition spec_zadd (now : Z) (k m : string) (score : Z) (st : store) : store * res unit :=
  match zset_live now k st with
  | Raise e => (st, Raise e)
  | Ok z => (<[k := (OZset (<[m := score]> z), ttl_live now k st)]> st, Ok tt)
  end.

(** ZCARD key. *)
Definition spec_zcard (now : Z) (k : string) (st : store) : res Z :=
  z ← zset_live now k st; Ok (Z.of_nat (size z)).

(** EXPIRE key seconds: no effect on a missing key, removal when the instant
    has passed. *)
Definition spec_expire (now : Z) (k : string) (sec : Z) (st : store) : store :=
  match live now k st with
  | None => st
  | Some (o, _) => if sec <=? 0 then delete k st else <[k := (o, Some (now + sec * SEC))]> st
  end.

(** EXISTS key. *)
Definition spec_exists (now : Z) (k : string) (st : store) : bool :=
  match live now k st with Some _ => true | None => false end.

(** SET key value EX seconds [NX]: the reply says whether the key was set; a
    non-positive expiry is refused. *)
Definition spec_set (now : Z) (k : string) (ex : Z) (nx : bool) (st : store) : store * res bool :=
  if ex <=? 0 then (st, Raise (RedisError false))
  else if nx && spec_exists now k st then (st, Ok false)
  else (<[k := (OStr, Some (now + ex * SEC))]> st, Ok true).

Definition set_live (now : Z) (k : string) (st : store) : res (gset string) :=
  match live now k st with
  | None => Ok ∅
  | Some (OSet s, _) => Ok s
  | Some _ => Raise (RedisError true)
  end.

(** SISMEMBER key member. *)
Definition spec_sismember (now : Z) (k m : string) (st : store) : res bool :=
  s ← set_live now k st; Ok (bool_decide (m ∈ s)).

(** SADD key member. *)
Definition spec_sadd (now : Z) (k m : string) (st : store) : store * res unit :=
  match set_live now k st with
  | Raise e => (st, Raise e)
  | Ok s => (<[k := (OSet ({[m]} ∪ s), ttl_live now k st)]> st, Ok tt)
  end.

(** ** The client interface *)

(** Any command may also raise (connection lost); the laws below describe a
    server that answers. *)
Class Redis (R : Type) : Type := {
  zremrangebyscore : Z -> string -> option Z -> Z -> M R unit;
  zadd : Z -> string -> string -> Z -> M R unit;
  zcard : Z -> string -> M R Z;
  expire : Z -> string -> Z -> M R unit;
  exists_key : Z -> string -> M R bool;
  set_ex : Z -> string -> Z -> bool -> M R bool;
  sismember : Z -> string -> string -> M R bool;
  sadd : Z -> string -> string -> M R unit;
  contents : R -> store
}.

(** [r'] is the server after a command that answered [x] from [r]. *)
Definition answers {R A} `{Redis R} (c : M R A) (r : R) (p : store * res A) : Prop :=
  contents (c r).1 = p.1 /\ (c r).2 = p.2.

Class RedisLaws (R : Type) `{Redis R} : Prop := {
  zremrangebyscore_law now k lo hi r :
    answers (zremrangebyscore now k lo hi) r (spec_zremrangebyscore now k lo hi (contents r));
  zadd_law now k m x r : answers (zadd now k m x) r (spec_zadd now k m x (contents r));
  zcard_law now k r : answers (zcard now k) r (contents r, spec_zcard now k (contents r));
  expire_law now k sec r : answers (expire now k sec) r (spec_expire now k sec (contents r), Ok tt);
  exists_law now k r : answers (exists_key now k) r (contents r, Ok (spec_exists now k (contents r)));
  set_law now k ex nx r : answers (set_ex now k ex nx) r (spec_set now k ex nx (contents r));
  sismember_law now k m r :
    answers (sismember now k m) r (contents r, spec_sismember now k m (contents r));
  sadd_law now k m r : answers (sadd now k m) r (spec_sadd now k m (contents r))
}.

(** ** An in-memory server *)

Definition MemRedis : Type := store.

#[export] Instance mem_redis : Redis MemRedis := {
  zremrangebyscore now k lo hi r := spec_zremrangebyscore now k lo hi r;
  zadd now k m x r := spec_zadd now k m x r;
  zcard now k r := (r, spec_zcard now k r);
  expire now k sec r := (spec_expire now k sec r, Ok tt);
  exists_key now k r := (r, Ok (spec_exists now k r));
  set_ex now k ex nx r := spec_set now k ex nx r;
  sismember now k m r := (r, spec_sismember now k m r);
  sadd now k m r := spec_sadd now k m r;
  contents r := r
}.

#[export] Instance mem_redis_laws : RedisLaws MemRedis.
Proof. constructor; intros; split; reflexivity. Qed.

(** ** Lemmas *)

Lemma live_insert_ne now k k' e (st : store) :
  k <> k' -> live now k' (<[k := e]> st) = live now k' st.
Proof. intros. unfold live. by rewrite lookup_insert_ne. Qed.

Lemma live_insert_eq now k e (st : store) :
  live now k (<[k := e]> st) = if live_at now e then Some e else None.
Proof. unfold live. by rewrite lookup_insert_eq. Qed.

Lemma live_delete_ne now k k' (st : store) :
  k <> k' -> live now k' (delete k st) = live now k' st.
Proof. intros. unfold live. by rewrite lookup_delete_ne. Qed.

Lemma live_delete_eq now k (st : store) : live now k (delete k st) = None.
Proof. unfold live. by rewrite lookup_delete_eq. Qed.

(** Commands on one key leave the entries of the others alone. *)
Lemma spec_zrem_frame now k lo hi (st : store) k' :
  k <> k' -> (spec_zremrangebyscore now k lo hi st).1 !! k' = st !! k'.
Proof.
  intros. unfold spec_zremrangebyscore. destruct (zset_live now k st); [|done].
  cbn. case_decide; [by rewrite lookup_delete_ne | by rewrite lookup_insert_ne].
Qed.

Lemma spec_zadd_frame now k m x (st : store) k' :
  k <> k' -> (spec_zadd now k m x st).1 !! k' = st !! k'.
Proof.
  intros. unfold spec_zadd. destruct (zset_live now k st); [|done].
  cbn. by rewrite lookup_insert_ne.
Qed.

Lemma spec_expire_frame now k sec (st : store) k' :
  k <> k' -> spec_expire now k sec st !! k' = st !! k'.
Proof.
  intros. unfold spec_expire. destruct (live now k st) as [[o t]|]; [|done].
  destruct (sec <=? 0); [by rewrite lookup_delete_ne | by rewrite lookup_insert_ne].
Qed.

Lemma spec_set_frame now k ex nx (st : store) k' :
  k <> k' -> (spec_set now k ex nx st).1 !! k' = st !! k'.
Proof.
  intros. unfold spec_set. destruct (ex <=? 0); [done|].
  destruct (nx && _); [done|]. cbn. by rewrite lookup_insert_ne.
Qed.

(** Rewriting with the laws: split a command into its new state and reply. *)
Lemma answers_run {R A} `{Redis R} (c : M R A) (r : R) p :
  answers c r p -> exists r', c r = (r', p.2) /\ contents r' = p.1.
Proof. intros [H1 H2]. destruct (c r) as [r' x]. cbn in *. subst. eauto. Qed.
