(* ===== verification/SigmaRunner.v ===== *)
(** * The Sigma rule runner: [rule_engine/runner.py]

    [SigmaRuleRunner] keeps, per rule and dedup key, a sorted set of event
    times and a cooldown key in Redis.  [evaluate] is modelled whole; its clock
    is read once per event and is also the time of the Redis server.  The
    refinement at the end relates one rule to a sliding window without Redis. *)

From S2P Require Import Prelude PyStr PyVal Sigma Redis.

Record RuleFire : Type := mkFire {
  fire_rule : CompiledSigmaRule;
  fire_event : ParsedEvent;
  fire_dedup_key : string;
  fire_count : Z;
  fire_rendered_action : option RenderedAction
}.

Definition _events_key (rule_id dedup : string) : string :=
  "zaqorin:rule:" +:+ rule_id +:+ ":events:" +:+ dedup.

Definition _cooldown_key (rule_id dedup : string) : string :=
  "zaqorin:rule:" +:+ rule_id +:+ ":cooldown:" +:+ dedup.

(** The constructor's check on [mode]. *)
Definition init_mode (mode : string) : res string :=
  _ ← guard_res (String.eqb mode "live" || String.eqb mode "hunt") (ValueError "mode");
  Ok mode.

#[global] Arguments _events_key : simpl never.
#[global] Arguments _cooldown_key : simpl never.

Section Runner.
Context {R : Type} `{Redis R}.
Context (re_search : string -> string -> res bool).

Definition _count_in_window (now : Z) (rule : CompiledSigmaRule) (dedup : string) : M R Z :=
  let key := _events_key (rule_id rule) dedup in
  let window_start := now - rule_timeframe_sec rule * SEC in
  _ ← zremrangebyscore now key (Some 0) window_start;
  zcard now key.

Definition _record_event (now : Z) (rule : CompiledSigmaRule) (dedup event_id : string) : M R unit :=
  let key := _events_key (rule_id rule) dedup in
  _ ← zadd now key event_id now;
  expire now key (Z.max (rule_timeframe_sec rule * 10) 60).

Definition _is_in_cooldown (now : Z) (rule : CompiledSigmaRule) (dedup : string) : M R bool :=
  exists_key now (_cooldown_key (rule_id rule) dedup).

Definition _set_cooldown (now : Z) (rule : CompiledSigmaRule) (dedup : string) : M R bool :=
  set_ex now (_cooldown_key (rule_id rule) dedup) (rule_cooldown_sec rule) false.

(** The dedup key of the event: [render_dedup_key(event) or rule.id]. *)
Definition dedup_of (rule : CompiledSigmaRule) (event : ParsedEvent) : string :=
  let d := render_dedup_key rule event in if nonempty d then d else rule_id rule.

(** The body of the loop of [evaluate] after the match. *)
Definition eval_matched (now : Z) (event : ParsedEvent) (rule : CompiledSigmaRule)
    : M R (option RuleFire) :=
  let dedup := dedup_of rule event in
  cooling ← _is_in_cooldown now rule dedup;
  if cooling : bool then mret None
  else
    n ← _count_in_window now rule dedup;
    let count := n + 1 in
    _ ← _record_event now rule dedup (ev_event_id event);
    if count <? rule_count rule then mret None
    else
      _ ← _set_cooldown now rule dedup;
      action ← lift_res (render_action rule event);
      mret (Some (mkFire rule event dedup count action)).

Definition eval_rule (now : Z) (event : ParsedEvent) (rule : CompiledSigmaRule)
    : M R (option RuleFire) :=
  m ← lift_res (matches re_search rule event);
  if m : bool then eval_matched now event rule else mret None.

(** [evaluate]. *)
Fixpoint evaluate (now : Z) (rules : list CompiledSigmaRule) (event : ParsedEvent)
    : M R (list RuleFire) :=
  match rules with
  | [] => mret []
  | rule :: rest =>
      f ← eval_rule now event rule;
      fs ← evaluate now rest event;
      mret (match f with Some x => x :: fs | None => fs end)
  end.

(** A stream of events, each with the time the runner reads. *)
Fixpoint evaluate_all (rules : list CompiledSigmaRule) (evs : list (Z * ParsedEvent)) (r : R)
    : R * list (res (list RuleFire)) :=
  match evs with
  | [] => (r, [])
  | (now, ev) :: rest =>
      let '(r1, out) := evaluate now rules ev r in
      let '(r2, outs) := evaluate_all rules rest r1 in
      (r2, out :: outs)
  end.

End Runner.

(** ** Cooldowns *)

Section Cooldown.
Context {R : Type} `{Redis R} `{!RedisLaws R}.
Context (re_search : string -> string -> res bool).

(** The key holds an object that stays live until after [t]. *)
Definition blocked (K : string) (t : Z) (r : R) : Prop :=
  exists e, contents r !! K = Some (OStr, e) /\ live_at t (OStr, e) = true.

Lemma live_at_mono t t' e : t <= t' -> live_at t' e = true -> live_at t e = true.
Proof. unfold live_at. destruct (e.2); [|done]. intros. apply Z.ltb_lt in H1. lia. Qed.

Lemma blocked_live K t now r :
  now <= t -> blocked K t r -> exists e, live now K (contents r) = Some (OStr, e).
Proof.
  intros Hle (e&He&Hl). exists e. unfold live. rewrite He.
  by rewrite (live_at_mono now t) by done.
Qed.

(** [c] keeps the entry of a blocked key. *)
Definition keeps {A} (K : string) (t now : Z) (c : M R A) : Prop :=
  forall r, blocked K t r -> now <= t -> blocked K t (c r).1.

Lemma keeps_ret {A} K t now (a : A) : keeps K t now (mret a).
Proof. intros r Hb _. exact Hb. Qed.

Lemma keeps_lift {A} K t now (x : res A) : keeps K t now (lift_res x).
Proof. intros r Hb _. exact Hb. Qed.

Lemma keeps_bind {A B} K t now (m : M R A) (f : A -> M R B) :
  keeps K t now m -> (forall a, keeps K t now (f a)) -> keeps K t now (m ≫= f).
Proof.
  intros Hm Hf r Hb Hle. specialize (Hm r Hb Hle). unfold mbind, M_bind.
  destruct (m r) as [r1 [a|e]]; [by apply Hf | done].
Qed.

(** A command that answers like [spec] keeps [K] when [spec] does. *)
Lemma keeps_answers {A} K t now (c : M R A) spec :
  (forall r, answers c r (spec (contents r))) ->
  (forall st e, st !! K = Some (OStr, e) -> live_at now (OStr, e) = true ->
     (spec st).1 !! K = st !! K) ->
  keeps K t now c.
Proof.
  intros Hc Hs r (e&He&Hl) Hle. destruct (Hc r) as [H1 _].
  exists e. rewrite H1. split; [|done].
  rewrite (Hs _ e); [done|done|]. by apply (live_at_mono now t).
Qed.

Lemma str_not_zset now K e st :
  st !! K = Some (OStr, e) -> live_at now (OStr, e) = true ->
  zset_live now K st = Raise (RedisError true).
Proof. intros He Hl. unfold zset_live, live. by rewrite He, Hl. Qed.

Lemma keeps_zrem K t now k lo hi : keeps K t now (zremrangebyscore now k lo hi).
Proof.
  eapply keeps_answers; [intros; apply zremrangebyscore_law|]. intros st e He Hl.
  destruct (decide (k = K)) as [->|]; [|by apply spec_zrem_frame].
  unfold spec_zremrangebyscore. by rewrite (str_not_zset _ _ e).
Qed.

Lemma keeps_zcard K t now k : keeps K t now (zcard now k).
Proof.
  apply (keeps_answers _ _ _ _ (fun st => (st, spec_zcard now k st)));
    [intros; apply zcard_law|done].
Qed.

(** [_record_event] raises on the key before it could touch its expiry. *)
Lemma keeps_record K t now rule dedup i : keeps K t now (_record_event now rule dedup i).
Proof.
  intros r (e&He&Hl) Hle. unfold _record_event.
  set (k := _events_key _ _). set (sec := Z.max _ _).
  destruct (answers_run _ _ _ (zadd_law now k i now r)) as (r1&Hr1&Hc1).
  unfold mbind, M_bind. rewrite Hr1.
  destruct (decide (k = K)) as [->|Hne].
  - assert (Hsp : spec_zadd now K i now (contents r) = (contents r, Raise (RedisError true))).
    { unfold spec_zadd. rewrite (str_not_zset _ _ e); [done..|]. by apply (live_at_mono now t). }
    rewrite Hsp in *. cbn in *. exists e. by rewrite Hc1.
  - pose proof (spec_zadd_frame now k i now (contents r) K Hne) as Hf.
    rewrite <- Hc1 in Hf. rewrite <- Hf in He. clear Hf Hr1 Hc1.
    destruct ((spec_zadd now k i now (contents r)).2); [|by exists e].
    destruct (expire_law now k sec r1) as [Hx _]. exists e.
    split; [|done]. rewrite Hx. cbn. by rewrite spec_expire_frame.
Qed.

(** After the cooldown check on a free key, the key that is set is another. *)
Lemma keeps_matched K t now event rule : keeps K t now (eval_matched now event rule).
Proof.
  intros r Hb Hle. unfold eval_matched.
  set (d := dedup_of rule event). set (k := _cooldown_key (rule_id rule) d).
  unfold mbind at 1, M_bind at 1. unfold _is_in_cooldown at 1. fold k.
  destruct (answers_run _ _ _ (exists_law now k r)) as (r1&Hr1&Hc1).
  rewrite Hr1. cbn [fst snd] in *.
  assert (Hb1 : blocked K t r1) by (unfold blocked in *; by rewrite Hc1).
  destruct (spec_exists now k (contents r)) eqn:Ex; [exact Hb1|].
  assert (Hne : k <> K).
  { intros ->. destruct (blocked_live K t now r Hle Hb) as [e He].
    unfold spec_exists in Ex. by rewrite He in Ex. }
  revert r1 Hb1 Hr1 Hc1. intros r1 Hb1 _ _.
  assert (Hk : forall n, keeps K t now
    (_ ← _record_event now rule d (ev_event_id event);
     if n + 1 <? rule_count rule then mret None
     else _ ← _set_cooldown now rule d; action ← lift_res (render_action rule event);
          mret (Some (mkFire rule event d (n + 1) action)))).
  { intros n. apply keeps_bind; [apply keeps_record|]. intros _.
    destruct (_ <? _); [apply keeps_ret|]. apply keeps_bind.
    - eapply keeps_answers; [intros; apply set_law|]. intros st e _ _. by apply spec_set_frame.
    - intros _. apply keeps_bind; [apply keeps_lift|]. intros. apply keeps_ret. }
  apply (keeps_bind K t now (_count_in_window now rule d)); [|exact Hk|done|done].
  apply keeps_bind; [apply keeps_zrem | intros; apply keeps_zcard].
Qed.

Lemma keeps_evaluate K t now rules event : keeps K t now (evaluate re_search now rules event).
Proof.
  induction rules as [|rule rules IH]; [apply keeps_ret|]. cbn [evaluate].
  apply keeps_bind.
  - apply keeps_bind; [apply keeps_lift|]. intros [|]; [apply keeps_matched | apply keeps_ret].
  - intros f. apply keeps_bind; [exact IH|]. intros. apply keeps_ret.
Qed.

Definition fire_key (f : RuleFire) : string :=
  _cooldown_key (rule_id (fire_rule f)) (fire_dedup_key f).

(** A rule whose cooldown key is live does not fire. *)
Lemma matched_blocked t now event rule r r' f :
  blocked (_cooldown_key (rule_id rule) (dedup_of rule event)) t r -> now <= t ->
  eval_matched now event rule r <> (r', Ok (Some f)).
Proof.
  intros Hb Hle Heq. destruct (blocked_live _ _ _ _ Hle Hb) as [e He].
  unfold eval_matched, _is_in_cooldown in Heq.
  destruct (answers_run _ _ _ (exists_law now
    (_cooldown_key (rule_id rule) (dedup_of rule event)) r)) as (r1&Hr1&_).
  unfold mbind at 1, M_bind at 1 in Heq. rewrite Hr1 in Heq. cbn in Heq.
  unfold spec_exists in Heq. by rewrite He in Heq.
Qed.

(** What a fire reports: its own rule and the event's dedup key. *)
Lemma matched_fire now event rule r r' f :
  eval_matched now event rule r = (r', Ok (Some f)) ->
  fire_rule f = rule /\ fire_dedup_key f = dedup_of rule event.
Proof.
  unfold eval_matched. intros Heq. apply M_bind_ok in Heq as (r1&c&_&Heq).
  destruct c; [discriminate Heq|].
  apply M_bind_ok in Heq as (r2&n&_&Heq). apply M_bind_ok in Heq as (r3&u&_&Heq).
  destruct (_ <? _); [discriminate Heq|].
  apply M_bind_ok in Heq as (r4&s&_&Heq). apply M_bind_ok in Heq as (r5&a&_&Heq).
  by injection Heq as _ <-.
Qed.

Lemma evaluate_blocked K t now rules event r r' fs :
  blocked K t r -> now <= t ->
  evaluate re_search now rules event r = (r', Ok fs) ->
  Forall (fun f => fire_key f <> K) fs.
Proof.
  revert r fs. induction rules as [|rule rules IH]; intros r fs Hb Hle Heq; cbn in Heq.
  - by inv_res.
  - apply M_bind_ok in Heq as (r1&f&Hf&Heq). apply M_bind_ok in Heq as (r2&fs'&Hfs&Heq).
    injection Heq as <- <-.
    assert (Hb1 : blocked K t r1).
    { assert (Hk : keeps K t now (eval_rule re_search now event rule)).
      { apply keeps_bind; [apply keeps_lift|].
        intros [|]; [apply keeps_matched | apply keeps_ret]. }
      specialize (Hk r Hb Hle). by rewrite Hf in Hk. }
    apply (IH _ _ Hb1 Hle) in Hfs. destruct f as [f|]; [|done].
    constructor; [|done]. intros HK.
    unfold eval_rule in Hf. apply M_bind_ok in Hf as (r0&m&Hm&Hf).
    injection Hm as <- Hm. destruct m; [|by inv_res].
    destruct (matched_fire _ _ _ _ _ _ Hf) as [Hfr Hfd].
    eapply (matched_blocked t); [|exact Hle|exact Hf].
    unfold fire_key in HK. rewrite Hfr, Hfd in HK. by rewrite HK.
Qed.

Lemma evaluate_all_blocked K t rules evs : forall r,
  blocked K t r -> Forall (fun e => e.1 <= t) evs ->
  Forall (fun out => forall fs, out = Ok fs -> Forall (fun f => fire_key f <> K) fs)
    (evaluate_all re_search rules evs r).2.
Proof.
  induction evs as [|[now ev] evs IH]; intros r Hb Hall; [constructor|].
  apply Forall_cons in Hall as [Hle Hall]. cbn [evaluate_all].
  pose proof (keeps_evaluate K t now rules ev r Hb Hle) as Hb1.
  destruct (evaluate re_search now rules ev r) as [r1 out] eqn:E. cbn in Hb1.
  specialize (IH r1 Hb1 Hall).
  destruct (evaluate_all re_search rules evs r1) as [r2 outs]. constructor; [|exact IH].
  intros fs ->. exact (evaluate_blocked K t now rules ev r r1 fs Hb Hle E).
Qed.

(** A fire leaves its cooldown key live for the whole cooldown. *)
Lemma matched_fire_blocks now event rule r r' f :
  eval_matched now event rule r = (r', Ok (Some f)) ->
  blocked (fire_key f) (now + rule_cooldown_sec rule * SEC - 1) r'.
Proof.
  intros Heq. destruct (matched_fire _ _ _ _ _ _ Heq) as [Hfr Hfd].
  unfold fire_key. rewrite Hfr, Hfd. clear Hfr Hfd.
  unfold eval_matched in Heq. apply M_bind_ok in Heq as (r1&c&_&Heq).
  destruct c; [discriminate Heq|].
  apply M_bind_ok in Heq as (r2&n&_&Heq). apply M_bind_ok in Heq as (r3&u&_&Heq).
  destruct (_ <? _); [discriminate Heq|].
  apply M_bind_ok in Heq as (r4&s&Hset&Heq). apply M_bind_ok in Heq as (r5&a&Hl&Heq).
  injection Hl as -> _. injection Heq as -> _.
  unfold _set_cooldown in Hset.
  destruct (set_law now (_cooldown_key (rule_id rule) (dedup_of rule event))
              (rule_cooldown_sec rule) false r3) as [H1 H2].
  rewrite Hset in H1, H2. cbn [fst snd] in H1, H2. unfold blocked. rewrite H1.
  unfold spec_set in *. destruct (_ <=? 0); [done|]. cbn in *.
  rewrite lookup_insert_eq. eexists. split; [done|]. unfold live_at. cbn. lia.
Qed.

(** A rule with no positive cooldown never fires: Redis refuses the expiry. *)
Lemma matched_positive now event rule r r' f :
  eval_matched now event rule r = (r', Ok (Some f)) -> 0 < rule_cooldown_sec rule.
Proof.
  intros Heq. unfold eval_matched in Heq. apply M_bind_ok in Heq as (r1&c&_&Heq).
  destruct c; [discriminate Heq|].
  apply M_bind_ok in Heq as (r2&n&_&Heq). apply M_bind_ok in Heq as (r3&u&_&Heq).
  destruct (_ <? _); [discriminate Heq|].
  apply M_bind_ok in Heq as (r4&s&Hset&_). unfold _set_cooldown in Hset.
  destruct (set_law now (_cooldown_key (rule_id rule) (dedup_of rule event))
              (rule_cooldown_sec rule) false r3) as [_ H2].
  rewrite Hset in H2. unfold spec_set in H2.
  destruct (Z.leb_spec (rule_cooldown_sec rule) 0); [discriminate H2|done].
Qed.

(** So does every fire of an [evaluate], since the rules after it keep the key. *)
Lemma evaluate_fire_blocks now rules event : forall r r' fs f,
  evaluate re_search now rules event r = (r', Ok fs) -> In f fs ->
  blocked (fire_key f) (now + rule_cooldown_sec (fire_rule f) * SEC - 1) r'.
Proof.
  induction rules as [|rule rules IH]; intros r r' fs f Heq Hin; cbn in Heq.
  - injection Heq as _ <-. done.
  - apply M_bind_ok in Heq as (r1&o&Ho&Heq). apply M_bind_ok in Heq as (r2&fs'&Hfs&Heq).
    injection Heq as -> <-.
    destruct o as [g|]; [|by eapply IH]. destruct Hin as [->|Hin]; [|by eapply IH].
    unfold eval_rule in Ho. apply M_bind_ok in Ho as (r0&m&Hm&Ho).
    injection Hm as <- _. destruct m; [|discriminate Ho].
    assert (Hb : blocked (fire_key f) (now + rule_cooldown_sec (fire_rule f) * SEC - 1) r1).
    { destruct (matched_fire _ _ _ _ _ _ Ho) as [-> _]. by apply (matched_fire_blocks _ event _ r). }
    destruct (Z.le_gt_cases now (now + rule_cooldown_sec (fire_rule f) * SEC - 1)) as [Hle|Hgt].
    + pose proof (keeps_evaluate _ _ now rules event r1 Hb Hle) as Hk.
      by rewrite Hfs in Hk.
    + exfalso. revert Ho Hgt. intros Ho Hgt.
      destruct (matched_fire _ _ _ _ _ _ Ho) as [Hr _]. rewrite Hr in Hgt.
      apply (matched_positive now event rule r r1 f) in Ho. unfold SEC in Hgt. lia.
Qed.

End Cooldown.

(** ** The sliding window without Redis *)

(** What the runner promises for one rule and one dedup key: the events seen in
    the last [timeframe_sec] (id and time), and the end of the cooldown. *)
Record window : Type := mkWindow {
  w_events : gmap string Z;
  w_until : option Z
}.

Definition w_cooling (now : Z) (w : window) : bool :=
  match w_until w with Some u => now <? u | None => false end.

(** Events strictly younger than the timeframe. *)
Definition w_recent (tf now : Z) (w : window) : gmap string Z :=
  filter (fun p => now - tf < p.2) (w_events w).

(** One matching event: ignored during the cooldown; otherwise counted, and a
    fire reports the count and starts the cooldown. *)
Definition w_step (tf cool count now : Z) (id : string) (w : window) : window * option Z :=
  if w_cooling now w then (w, None)
  else
    let recent := w_recent tf now w in
    let n := Z.of_nat (size recent) + 1 in
    if n <? count then (mkWindow (<[id := now]> recent) (w_until w), None)
    else (mkWindow (<[id := now]> recent) (Some (now + cool)), Some n).

Fixpoint w_run (tf cool count : Z) (evs : list (Z * ParsedEvent)) (w : window) : list (option Z) :=
  match evs with
  | [] => []
  | (now, ev) :: rest =>
      let '(w', out) := w_step tf cool count now (ev_event_id ev) w in
      out :: w_run tf cool count rest w'
  end.

Lemma keys_differ i d : _events_key i d <> _cooldown_key i d.
Proof.
  unfold _events_key, _cooldown_key. intros Heq.
  apply sapp_inj_l in Heq. apply sapp_inj_l in Heq. discriminate Heq.
Qed.

(** Times never run backwards. *)
Fixpoint clock_ok (last : Z) (evs : list (Z * ParsedEvent)) : Prop :=
  match evs with
  | [] => True
  | (now, _) :: rest => last <= now /\ clock_ok now rest
  end.

Section Refinement.
Context {R : Type} `{Redis R} `{!RedisLaws R}.
Context (re_search : string -> string -> res bool).
Context (rule : CompiledSigmaRule) (dedup : string).

Let Ke := _events_key (rule_id rule) dedup.
Let Kc := _cooldown_key (rule_id rule) dedup.
Let tf := rule_timeframe_sec rule * SEC.
Let ttl := Z.max (rule_timeframe_sec rule * 10) 60 * SEC.

(** The window the two keys stand for.  The sorted set outlives every event
    it still has to count. *)
Definition represents (last : Z) (w : window) (st : store) : Prop :=
  st !! Kc = (fun u => (OStr, Some u)) <$> w_until w
  /\ (forall i t, w_events w !! i = Some t -> 0 <= t <= last)
  /\ match st !! Ke with
     | None => w_events w = ∅
     | Some (OZset z, Some x) =>
         z = w_events w /\ forall i t, w_events w !! i = Some t -> t + tf <= x
     | _ => False
     end.

Hypothesis Hcool : 0 < rule_cooldown_sec rule.

Lemma repr_exists last w st now :
  represents last w st -> spec_exists now Kc st = w_cooling now w.
Proof.
  intros (Hc&_&_). unfold spec_exists, live, w_cooling. rewrite Hc.
  destruct (w_until w) as [u|]; [|done]. cbn. unfold live_at. cbn. by destruct (now <? u).
Qed.

(** Dropping the entries up to the window start leaves the recent events. *)
Lemma repr_trim last w st now :
  represents last w st -> last <= now -> 0 <= now ->
  exists st', spec_zremrangebyscore now Ke (Some 0) (now - tf) st = (st', Ok tt)
  /\ zset_live now Ke st' = Ok (w_recent tf now w)
  /\ st' !! Kc = st !! Kc.
Proof.
  intros (Hc&Hpos&He) Hle Hn.
  assert (Hz : exists z, zset_live now Ke st = Ok z
      /\ filter (fun p => in_scores (Some 0) (now - tf) p.2 = false) z = w_recent tf now w).
  { assert (Hfil : filter (fun p => in_scores (Some 0) (now - tf) p.2 = false) (w_events w)
                   = w_recent tf now w).
    { apply map_filter_ext. intros i t Ht. cbn. apply Hpos in Ht.
      unfold in_scores. rewrite andb_false_iff, Z.leb_gt, Z.leb_gt. lia. }
    unfold zset_live, live. destruct (st !! Ke) as [[[|z|s] [x|]]|]; try done.
    - destruct He as [-> Hx]. cbn. unfold live_at. cbn.
      destruct (Z.ltb_spec now x); cbn; [by eexists|]. exists ∅. split; [done|].
      rewrite map_filter_empty. symmetry. unfold w_recent.
      apply map_empty. intros i. apply map_lookup_filter_None. right.
      intros t Ht. cbn. apply Hx in Ht. lia.
    - exists ∅. split; [done|]. unfold w_recent. rewrite He. by rewrite !map_filter_empty. }
  destruct Hz as (z&Hz&Hf). unfold spec_zremrangebyscore. rewrite Hz, Hf.
  eexists. split; [reflexivity|]. split.
  - case_decide as Hem.
    + unfold zset_live. rewrite live_delete_eq. by rewrite Hem.
    + unfold zset_live. rewrite live_insert_eq. unfold live_at, ttl_live. cbn.
      unfold live. destruct (st !! Ke) as [[o [x|]]|] eqn:Eke; [|done|done].
      unfold live_at. cbn. destruct (now <? x) eqn:E; [by rewrite E|done].
  - pose proof (keys_differ (rule_id rule) dedup) as Hne. fold Ke Kc in Hne.
    case_decide; [by rewrite lookup_delete_ne | by rewrite lookup_insert_ne].
Qed.

(** Recording the event refreshes the set and its expiry. *)
Lemma repr_record st now id z :
  zset_live now Ke st = Ok z ->
  exists st1, spec_zadd now Ke id now st = (st1, Ok tt)
  /\ spec_expire now Ke (Z.max (rule_timeframe_sec rule * 10) 60) st1 !! Ke
     = Some (OZset (<[id := now]> z), Some (now + ttl))
  /\ spec_expire now Ke (Z.max (rule_timeframe_sec rule * 10) 60) st1 !! Kc = st !! Kc.
Proof.
  intros Hz. unfold spec_zadd. rewrite Hz. eexists. split; [reflexivity|].
  pose proof (keys_differ (rule_id rule) dedup) as Hne. fold Ke Kc in Hne. split.
  - unfold spec_expire. rewrite live_insert_eq.
    assert (Hl : live_at now (OZset (<[id:=now]> z), ttl_live now Ke st) = true).
    { unfold live_at, ttl_live. cbn. destruct (live now Ke st) as [[o [x|]]|] eqn:E; try done.
      unfold live in E. destruct (st !! Ke) as [e|]; [|done].
      destruct (live_at now e) eqn:El; [|done]. injection E as ->. exact El. }
    rewrite Hl. destruct (Z.leb_spec (Z.max (rule_timeframe_sec rule * 10) 60) 0); [lia|].
    by rewrite lookup_insert_eq.
  - rewrite spec_expire_frame by done. by rewrite lookup_insert_ne.
Qed.

(** The window after a step represents the store. *)
Lemma repr_next last w st st' now id until :
  represents last w st -> last <= now -> 0 <= now ->
  st' !! Ke = Some (OZset (<[id := now]> (w_recent tf now w)), Some (now + ttl)) ->
  st' !! Kc = (fun u => (OStr, Some u)) <$> until ->
  represents now (mkWindow (<[id := now]> (w_recent tf now w)) until) st'.
Proof.
  intros (_&Hpos&_) Hle Hn HKe HKc. split; [exact HKc|]. cbn.
  assert (Hin : forall i t, <[id := now]> (w_recent tf now w) !! i = Some t -> 0 <= t <= now).
  { intros i t. rewrite lookup_insert. case_decide; [intros [= <-]; lia|].
    unfold w_recent. intros [Ht _]%map_lookup_filter_Some. apply Hpos in Ht. lia. }
  split; [exact Hin|]. rewrite HKe. split; [done|].
  intros i t Ht%Hin. unfold tf, ttl, SEC. lia.
Qed.

Lemma matched_step last w r now ev :
  represents last w (contents r) -> last <= now -> 0 <= now ->
  dedup_of rule ev = dedup -> is_ok (render_action rule ev) = true ->
  exists r' o, eval_matched now ev rule r = (r', Ok o)
  /\ fire_count <$> o = (w_step tf (rule_cooldown_sec rule * SEC) (rule_count rule) now (ev_event_id ev) w).2
  /\ represents now
       (w_step tf (rule_cooldown_sec rule * SEC) (rule_count rule) now (ev_event_id ev) w).1
       (contents r').
Proof.
  intros Hr Hle Hn Hd Ha. unfold eval_matched. rewrite Hd.
  unfold _is_in_cooldown, _count_in_window, _record_event, _set_cooldown.
  fold Ke Kc. unfold w_step.
  destruct (answers_run _ _ _ (exists_law now Kc r)) as (r1&E1&C1). cbn [fst snd] in *.
  rewrite (repr_exists last w) in E1 by done.
  unfold mbind, M_bind. rewrite E1.
  destruct (w_cooling now w).
  { exists r1, None. split; [done|]. split; [done|]. cbn [fst]. rewrite C1.
    destruct Hr as (Hc&Hpos&He). split; [done|]. split; [|done].
    intros i t Ht%Hpos. lia. }
  destruct (repr_trim last w (contents r) now Hr Hle Hn) as (st2&T1&T2&T3).
  destruct (answers_run _ _ _ (zremrangebyscore_law now Ke (Some 0) (now - tf) r1)) as (r2&E2&C2).
  rewrite C1, T1 in *. cbn [fst snd] in *. fold tf. rewrite E2.
  destruct (answers_run _ _ _ (zcard_law now Ke r2)) as (r3&E3&C3). cbn [fst snd] in *.
  unfold spec_zcard in E3. rewrite C2, T2 in *. cbn in E3. rewrite E3.
  destruct (repr_record st2 now (ev_event_id ev) _ T2) as (st4&A1&A2&A3).
  destruct (answers_run _ _ _ (zadd_law now Ke (ev_event_id ev) now r3)) as (r4&E4&C4).
  rewrite C3, A1 in *. cbn [fst snd] in *. rewrite E4.
  destruct (answers_run _ _ _ (expire_law now Ke (Z.max (rule_timeframe_sec rule * 10) 60) r4))
    as (r5&E5&C5).
  rewrite C4 in *. cbn [fst snd] in *. rewrite E5.
  destruct (_ <? rule_count rule).
  { exists r5, None. split; [done|]. split; [done|]. rewrite C5. cbn [fst].
    apply (repr_next last w (contents r)); [done..|]. rewrite A3, T3. apply Hr. }
  destruct (answers_run _ _ _ (set_law now Kc (rule_cooldown_sec rule) false r5)) as (r6&E6&C6).
  assert (Hs : forall st, spec_set now Kc (rule_cooldown_sec rule) false st
     = (<[Kc := (OStr, Some (now + rule_cooldown_sec rule * SEC))]> st, Ok true)).
  { intros st. unfold spec_set. destruct (Z.leb_spec (rule_cooldown_sec rule) 0); [lia|done]. }
  rewrite Hs in *. cbn [fst snd] in *. rewrite E6.
  destruct (render_action rule ev) as [a|e]; [|done]. unfold lift_res.
  eexists r6, _. split; [reflexivity|]. split; [done|]. cbn [fst]. rewrite C6, C5.
  pose proof (keys_differ (rule_id rule) dedup) as Hne. fold Ke Kc in Hne.
  apply (repr_next last w (contents r)); [done..| |].
  - by rewrite lookup_insert_ne by done.
  - by rewrite lookup_insert_eq.
Qed.

(** Every event matches the rule under the dedup key. *)
Definition all_match (evs : list (Z * ParsedEvent)) : Prop :=
  Forall (fun e => matches re_search rule e.2 = Ok true /\ dedup_of rule e.2 = dedup
                   /\ is_ok (render_action rule e.2) = true) evs.

Lemma evaluate_all_window evs : forall last w r,
  0 <= last -> represents last w (contents r) -> clock_ok last evs -> all_match evs ->
  map (fmap (map fire_count)) (evaluate_all re_search [rule] evs r).2
  = map (fun o => Ok (option_list o)) (w_run tf (rule_cooldown_sec rule * SEC) (rule_count rule) evs w).
Proof.
  induction evs as [|[now ev] evs IH]; intros last w r Hl Hr Hck Hall; [done|].
  destruct Hck as [Hle Hck]. apply Forall_cons in Hall as [(Hm&Hd&Ha) Hall]. cbn [snd] in *.
  destruct (matched_step last w r now ev Hr Hle ltac:(lia) Hd Ha) as (r'&o&E&Ho&Hr').
  assert (Hev : evaluate re_search now [rule] ev r
                = (r', Ok (match o with Some x => [x] | None => [] end))).
  { cbn [evaluate]. unfold eval_rule, mbind, M_bind, lift_res. rewrite Hm.
    cbn [mbind M_bind]. rewrite E. by destruct o. }
  cbn [evaluate_all w_run]. rewrite Hev.
  specialize (IH now _ r' ltac:(lia) Hr' Hck Hall).
  destruct (w_step tf _ _ now (ev_event_id ev) w) as [w' out]. cbn [fst snd] in *.
  destruct (evaluate_all re_search [rule] evs r') as [r2 outs]. cbn [map snd] in *.
  rewrite IH. f_equal. rewrite <- Ho. by destruct o.
Qed.

End Refinement.

(** C4. Cooldowns are respected across rules and events: once a rule has fired on
    a dedup key, no later [evaluate] of any stream of events, with any rules
    sharing the server, fires on that cooldown key at a time before the
    cooldown has run out. *)
Theorem cooldown_respected {R : Type} `{RedisLaws R}
    (re_search : string -> string -> res bool) (rules : list CompiledSigmaRule)
    (now : Z) (ev : ParsedEvent) (r r' : R) (fs : list RuleFire) (f : RuleFire)
    (evs : list (Z * ParsedEvent)) :
  evaluate re_search now rules ev r = (r', Ok fs) -> In f fs ->
  Forall (fun e => e.1 < now + rule_cooldown_sec (fire_rule f) * SEC) evs ->
  Forall (fun out => forall gs, out = Ok gs -> Forall (fun g => fire_key g <> fire_key f) gs)
    (evaluate_all re_search rules evs r').2.
Proof.
  intros Heq Hin Hall.
  apply (evaluate_all_blocked re_search (fire_key f)
           (now + rule_cooldown_sec (fire_rule f) * SEC - 1)).
  - by apply (evaluate_fire_blocks re_search now rules ev r r' fs).
  - eapply Forall_impl; [exact Hall|]. intros e He. cbn in He |- *. lia.
Qed.


Definition burst_rule : CompiledSigmaRule :=
  mkRule "ssh-bf-001" "SSH brute force" "high" [("status", VStr "failed")] [] "selection"
    3 60 300 "{{source_ip}}" None [].

Definition burst_event (i : string) : ParsedEvent :=
  mkEvent i "h" "sshd" "" [("status", VStr "failed"); ("source_ip", VStr "10.0.0.9")] 0.

(** Three events within a minute fire; a fourth is inside the cooldown. *)
Definition burst : list (Z * ParsedEvent) :=
  [(10 * SEC, burst_event "a"); (20 * SEC, burst_event "b"); (69 * SEC, burst_event "c");
   (70 * SEC, burst_event "d")].


(** The server after the first two events of [burst], and after the third. *)
Definition burst_two : MemRedis := (evaluate_all no_regex [burst_rule] (take 2 burst) ∅).1.
Definition burst_three : MemRedis :=
  (evaluate no_regex (69 * SEC) [burst_rule] (burst_event "c") burst_two).1.

Lemma cooldown_respected_witness :
  Forall (fun out => forall gs, out = Ok gs ->
      Forall (fun g => fire_key g <> _cooldown_key "ssh-bf-001" "10.0.0.9") gs)
    (evaluate_all (R := MemRedis) no_regex [burst_rule]
       [(70 * SEC, burst_event "d"); (75 * SEC, burst_event "x")] burst_three).2.
Proof.
  refine (cooldown_respected (R := MemRedis) no_regex [burst_rule] (69 * SEC) (burst_event "c")
           burst_two burst_three [mkFire burst_rule (burst_event "c") "10.0.0.9" 3 None]
           (mkFire burst_rule (burst_event "c") "10.0.0.9" 3 None)
           [(70 * SEC, burst_event "d"); (75 * SEC, burst_event "x")]
           _ (or_introl eq_refl) _).
  - vm_compute. reflexivity.
  - repeat constructor.
Defined.
