(* ===== verification/Detectors.v ===== *)
(** * The built-in detectors: [detectors/base.py] and the five plugins

    A detector looks at one event, keeps its state in Redis and returns
    [DetectionResult]s.  [now] is the time of the Redis server.  The fixed
    patterns are terms of the matcher of [PyStd]. *)

From S2P Require Import Prelude PyStr PyVal PyStd Sigma Redis.
From Stdlib Require Import Ascii.

(** ** [base.py] *)

Record DetectionAction : Type := mkDAction {
  da_kind : string;
  da_target : string;
  da_ttl_sec : option Z
}.

Record DetectionResult : Type := mkResult {
  dr_detector : string;
  dr_severity : string;
  dr_summary : string;
  dr_detail : list (string * val);
  dr_cooldown_sec : Z;
  dr_dedup_key : string;
  dr_action : option DetectionAction
}.

(** [DetectionResult(...)]: [__post_init__] checks the severity. *)
Definition new_result (r : DetectionResult) : res DetectionResult :=
  _ ← guard_res (str_in (dr_severity r) ["low"; "medium"; "high"; "critical"])
        (ValueError "invalid severity");
  Ok r.

(** The settings the detectors read from [config.py]. *)
Record Settings : Type := mkSettings {
  ssh_bruteforce_threshold : Z;
  ssh_bruteforce_window_sec : Z;
  ssh_bruteforce_cooldown_sec : Z
}.

Definition default_settings : Settings := mkSettings 5 60 300.

Definition metadata_get (k : string) (event : ParsedEvent) : val := get k (ev_metadata event).

(** [x.lower()] and [x.strip()]: only a [str] has them. *)
Definition val_lower (v : val) : res string :=
  match v with VStr s => Ok (lower s) | _ => Raise AttributeError end.
Definition val_strip (v : val) : res string :=
  match v with VStr s => Ok (strip s) | _ => Raise AttributeError end.

(** [event.metadata.get(k, "")]. *)
Definition metadata_text (k : string) (event : ParsedEvent) : val :=
  default (VStr "") (assoc k (ev_metadata event)).

(** ** A pipeline of four commands

    Every command is sent and answered; then the first error is raised. *)
Definition seq_reply {A B} (a : res A) (b : res B) : res B :=
  match a with Raise e => Raise e | Ok _ => b end.

Definition window_pipeline {R} `{Redis R} (now : Z) (key : string) (lo : option Z) (cutoff : Z)
    (member : string) (score ttl : Z) : M R Z := fun r =>
  let '(r1, a1) := zremrangebyscore now key lo cutoff r in
  let '(r2, a2) := zadd now key member score r1 in
  let '(r3, a3) := zcard now key r2 in
  let '(r4, a4) := expire now key ttl r3 in
  (r4, seq_reply a1 (seq_reply a2 (match a3 with
                                    | Ok n => seq_reply a4 (Ok n)
                                    | Raise e => Raise e
                                    end))).

(** ** [ssh_bruteforce.py] *)

Module Ssh.

Definition not_space (c : ascii) : bool := negb (is_space c).
Definition octet_re : re := Rrep 1 3 (Rcls is_digit).

(** The part of [_SSH_FAILED_RE] before the group [ip], and the group. *)
Definition failed_re : re :=
  Rcat (Rlit "Failed password for ") (Rcat (Ropt (Rlit "invalid user "))
    (Rcat (Rcls not_space) (Rcat (Rstar (Rcls not_space)) (Rlit " from ")))).
Definition ip_re : re := Rcat octet_re (Rrep 3 3 (Rcat (Rlit ".") octet_re)).

(** The text of the group in the match tried first at the start of [s]. *)
Definition group_here (s : string) : option string :=
  match flat_map (fun r => map (between r) (rests ip_re r)) (rests failed_re s) with
  | ip :: _ => Some ip
  | [] => None
  end.

(** [_SSH_FAILED_RE.search(s)], as the group [ip] of the match. *)
Fixpoint search_failed (s : string) : option string :=
  match group_here s with
  | Some ip => Some ip
  | None => match s with EmptyString => None | String _ t => search_failed t end
  end.

Definition _extract_source_ip (event : ParsedEvent) : res (option string) :=
  let ip := metadata_get "source_ip" event in
  if truthy ip then s ← val_strip ip; Ok (Some s)
  else Ok (search_failed (ev_raw event)).

Definition _is_failed_login (event : ParsedEvent) : res bool :=
  status ← val_lower (metadata_text "status" event);
  if str_in status ["failed"; "failure"; "invalid"] then Ok true
  else Ok (match search_failed (ev_raw event) with Some _ => true | None => false end).

Definition _window_key (host_id ip : string) : string :=
  "zc:rule:ssh_bruteforce:" +:+ host_id +:+ ":" +:+ ip.

Definition cooldown_key (host_id ip : string) : string := _window_key host_id ip +:+ ":cooldown".

#[global] Arguments _window_key : simpl never.
#[global] Arguments cooldown_key : simpl never.

Definition cooldown_sec (settings : Settings) : Z :=
  Z.max (ssh_bruteforce_cooldown_sec settings) (ssh_bruteforce_window_sec settings * 5).

Definition result (settings : Settings) (event : ParsedEvent) (ip : string) (count : Z)
  : DetectionResult :=
  mkResult "ssh_bruteforce" "medium"
    ("SSH brute-force from " +:+ ip +:+ ": " +:+ str_int count +:+ " failed logins in "
     +:+ str_int (ssh_bruteforce_window_sec settings) +:+ "s")
    [("source_ip", VStr ip); ("window_sec", VInt (ssh_bruteforce_window_sec settings));
     ("threshold", VInt (ssh_bruteforce_threshold settings)); ("observed_count", VInt count);
     ("host_id", VStr (ev_host_id event)); ("event_id", VStr (ev_event_id event))]
    (cooldown_sec settings) ip (Some (mkDAction "block_ip" ip (Some 3600))).

(** The part of [on_event] after the source address is known. *)
Definition on_failed_login {R} `{Redis R} (settings : Settings) (now : Z) (event : ParsedEvent)
    (ip : string) : M R (list DetectionResult) := fun r =>
  let key := _window_key (ev_host_id event) ip in
  let now_ts := ev_occurred_at event in
  let cutoff := now_ts - ssh_bruteforce_window_sec settings in
  match window_pipeline now key (Some 0) cutoff (ev_event_id event) now_ts (cooldown_sec settings) r with
  | (r1, Raise _) => (r1, Ok [])
  | (r1, Ok count) =>
      if count <? ssh_bruteforce_threshold settings then (r1, Ok [])
      else
        let '(r2, reply) :=
          set_ex now (cooldown_key (ev_host_id event) ip) (cooldown_sec settings) true r1 in
        let fired := match reply with Ok b => b | Raise _ => true end in
        if fired
        then (r2, x ← new_result (result settings event ip count); Ok [x])
        else (r2, Ok [])
  end.

Definition on_event {R} `{Redis R} (settings : Settings) (now : Z) (event : ParsedEvent)
  : M R (list DetectionResult) :=
  failed ← lift_res (_is_failed_login event);
  if negb (failed : bool) then mret []
  else
    ip ← lift_res (_extract_source_ip event);
    match ip with
    | None | Some "" => mret []
    | Some ip => on_failed_login settings now event ip
    end.

End Ssh.

(** ** The attribute [timestamp]

    [ParsedEvent] has no such field: reading it raises. *)
Definition event_timestamp (event : ParsedEvent) : res Z := Raise AttributeError.

(** The window of [port_scan], [dns_tunnel] and [auth_anomaly]: [member] is
    suffixed with the time in milliseconds, the timestamp counted in
    milliseconds. *)
Definition ms_window {R} `{Redis R} (now : Z) (event : ParsedEvent) (key member : string)
    (window_sec : Z) : M R Z :=
  now_ms ← lift_res (event_timestamp event);
  window_pipeline now key None (now_ms - window_sec * 1000) (member +:+ ":" +:+ str_int now_ms)
    now_ms (window_sec * 5).

(** [except Exception: return []]. *)
Definition or_empty {R A} (m : M R (list A)) : M R (list A) := try_M m (fun _ => mret []).

(** [a or b] on metadata values. *)
Definition metadata_or (k1 k2 : string) (event : ParsedEvent) : val :=
  val_or (metadata_get k1 event) (metadata_get k2 event).

(** An address that is truthy, as the text the f-strings show. *)
Definition source_ip (event : ParsedEvent) : option string :=
  let ip := metadata_get "source_ip" event in
  if truthy ip then Some (str_of ip) else None.

(** ** [port_scan.py] *)

Module PortScan.

Definition _extract_dest_port (event : ParsedEvent) : res (option Z) :=
  match metadata_or "dest_port" "dport" event with
  | VNone => Ok None
  | raw =>
      match int_of raw with
      | Ok n => Ok (if (0 <? n) && (n <? 65536) then Some n else None)
      | Raise (ValueError _) | Raise TypeError => Ok None
      | Raise e => Raise e
      end
  end.

Definition _is_port_knock (event : ParsedEvent) : res bool :=
  if val_eqb (metadata_get "event_type" event) (VStr "network.connect") then Ok true
  else p ← _extract_dest_port event; Ok (match p with Some _ => true | None => false end).

Definition _window_key (host_id ip : string) : string :=
  "zc:rule:port_scan:" +:+ host_id +:+ ":" +:+ ip.

Definition threshold : Z := 20.
Definition window_sec : Z := 30.
Definition cooldown_sec : Z := 600.

Definition result (ip : string) (n : Z) : DetectionResult :=
  mkResult "port_scan" "medium"
    ("port scan: " +:+ ip +:+ " hit " +:+ str_int n +:+ " ports in " +:+ str_int window_sec +:+ "s")
    [("source_ip", VStr ip); ("ports_in_window", VInt n); ("window_sec", VInt window_sec)]
    cooldown_sec ip (Some (mkDAction "tarpit_ip" ip (Some 1800))).

Definition on_event {R} `{Redis R} (now : Z) (event : ParsedEvent) : M R (list DetectionResult) :=
  knock ← lift_res (_is_port_knock event);
  if negb (knock : bool) then mret []
  else
    port ← lift_res (_extract_dest_port event);
    match source_ip event, port with
    | Some ip, Some p =>
        seen ← try_M (n ← ms_window now event (_window_key (ev_host_id event) ip) (str_int p) window_sec;
                      mret (Some n)) (fun _ => mret None);
        match seen with
        | None => mret []
        | Some n => if n <? threshold then mret []
                    else x ← lift_res (new_result (result ip n)); mret [x]
        end
    | _, _ => mret []
    end.

End PortScan.

(** ** [dns_tunnel.py] *)

Module DnsTunnel.

Definition _is_dns_event (event : ParsedEvent) : res bool :=
  src ← val_lower (metadata_text "source" event);
  Ok (contains "dns" src || contains "named" src).

Definition _extract_qname (event : ParsedEvent) : option string :=
  match metadata_or "qname" "query" event with
  | VStr (String _ _ as q) => Some (lower (rstrip_char "." (strip q)))
  | _ => None
  end.

Definition _leftmost_label_length (qname : string) : Z :=
  slen (fst (fst (partition_char "." qname))).

Definition _window_key (host_id ip : string) : string :=
  "zc:rule:dns_tunnel:" +:+ host_id +:+ ":" +:+ ip.

Definition label_threshold : Z := 40.
Definition threshold : Z := 50.
Definition window_sec : Z := 60.
Definition cooldown_sec : Z := 900.

Definition result (ip qname : string) (seen : Z) : DetectionResult :=
  mkResult "dns_tunnel" "high"
    ("possible DNS tunnel from " +:+ ip +:+ " (" +:+ str_int seen +:+ " long queries in "
     +:+ str_int window_sec +:+ "s)")
    [("source_ip", VStr ip); ("long_queries_in_window", VInt seen); ("window_sec", VInt window_sec);
     ("sample_qname", VStr qname)]
    cooldown_sec ip (Some (mkDAction "block_ip" ip (Some 3600))).

Definition on_event {R} `{Redis R} (now : Z) (event : ParsedEvent) : M R (list DetectionResult) :=
  dns ← lift_res (_is_dns_event event);
  if negb (dns : bool) then mret []
  else
    match source_ip event, _extract_qname event with
    | Some ip, Some (String _ _ as qname) =>
        if _leftmost_label_length qname <? label_threshold then mret []
        else
          seen ← try_M (n ← ms_window now event (_window_key (ev_host_id event) ip) qname window_sec;
                        mret (Some n)) (fun _ => mret None);
          match seen with
          | None => mret []
          | Some n => if n <? threshold then mret []
                      else x ← lift_res (new_result (result ip qname n)); mret [x]
          end
    | _, _ => mret []
    end.

End DnsTunnel.

(** ** [web_attack.py] *)

Module WebAttack.

Definition spaces_re : re := Rstar (Rcls is_space).
Definition spaces1_re : re := Rcat (Rcls is_space) spaces_re.

Definition alts (l : list re) : re := foldr Ralt (Rcls (fun _ => false)) l.

Definition sqli_re : re :=
  alts [Rcat (Rilit "union") (Rcat spaces1_re (Rilit "select"));
        Rcat (Rlit "'") (Rcat spaces_re (Rcat (Rilit "or") (Rcat spaces1_re
          (Rcat (Ropt (Rlit "'")) (Rcls is_digit)))));
        Rcat (Rilit "or") (Rcat spaces1_re (Rlit "1=1"));
        Rcat (Rlit "--") (Rcat spaces_re Rend);
        Rcat (Rilit ";drop") (Rcat spaces1_re (Rilit "table"))].

Definition xss_re : re :=
  alts [Rilit "<script"; Rilit "javascript:"; Rcat (Rilit "onerror") (Rcat spaces_re (Rlit "="));
        Rcat (Rilit "onload") (Rcat spaces_re (Rlit "="))].

Definition path_re : re :=
  alts [Rlit "../"; Rlit "..\"; Rlit "%2e%2e/"; Rlit "%252e%252e/"].

Definition scanner_re : re :=
  alts (map Rilit ["sqlmap"; "nikto"; "nmap"; "masscan"; "wpscan"; "acunetix"]).

Definition _PATTERNS : list (string * re) :=
  [("sqli", sqli_re); ("xss", xss_re); ("path_traversal", path_re); ("scanner", scanner_re)].

Definition _is_http_event (event : ParsedEvent) : res bool :=
  src ← val_lower (metadata_text "source" event);
  if contains "nginx" src || contains "apache" src || contains "http" src || contains "access" src
  then Ok true
  else Ok (existsb (fun p => startswith p (lower (ev_raw event)))
             ["get "; "post "; "put "; "delete "; "head "]).

Definition _match_patterns (event : ParsedEvent) : list string :=
  map fst (filter (fun p => re_search p.2 (ev_raw event) = true) _PATTERNS).

Definition _cooldown_key (host_id ip tag : string) : string :=
  "zc:rule:web_attack:" +:+ host_id +:+ ":" +:+ ip +:+ ":" +:+ tag.

#[global] Arguments _cooldown_key : simpl never.

Definition cooldown_sec : Z := 300.

Definition result (event : ParsedEvent) (ip tag : string) (matches : list string) : DetectionResult :=
  mkResult "web_attack" (if str_in tag ["sqli"; "scanner"] then "high" else "medium")
    ("web attack (" +:+ tag +:+ ") from " +:+ ip)
    [("source_ip", VStr ip); ("match_tags", VList (map VStr matches));
     ("raw_excerpt", VStr (take_str 500 (ev_raw event)))]
    cooldown_sec (ip +:+ ":" +:+ tag) (Some (mkDAction "block_ip" ip (Some 3600))).

(** The loop over the matched tags. *)
Fixpoint first_free {R} `{Redis R} (now : Z) (event : ParsedEvent) (ip : string)
    (matches tags : list string) : M R (list DetectionResult) := fun r =>
  match tags with
  | [] => (r, Ok [])
  | tag :: tags' =>
      let '(r1, reply) :=
        set_ex now (_cooldown_key (ev_host_id event) ip tag) cooldown_sec true r in
      let acquired := match reply with Ok b => b | Raise _ => true end in
      if acquired then (r1, x ← new_result (result event ip tag matches); Ok [x])
      else first_free now event ip matches tags' r1
  end.

Definition on_event {R} `{Redis R} (now : Z) (event : ParsedEvent) : M R (list DetectionResult) :=
  http ← lift_res (_is_http_event event);
  if negb (http : bool) then mret []
  else
    match _match_patterns event, source_ip event with
    | [], _ | _, None => mret []
    | ms, Some ip => first_free now event ip ms ms
    end.

End WebAttack.

(** ** [auth_anomaly.py] *)

Module AuthAnomaly.

Definition _is_auth_success (event : ParsedEvent) : bool :=
  str_in (lower (str_of (metadata_text "status" event))) ["success"; "accepted"; "ok"; "0"].

Definition _extract_user (event : ParsedEvent) : option string :=
  match metadata_or "user" "username" event with
  | VStr (String _ _ as u) => Some (strip u)
  | _ => None
  end.

Definition _known_ip_key (host_id user : string) : string :=
  "zc:rule:auth_anomaly:known_ips:" +:+ host_id +:+ ":" +:+ user.
Definition _diff_ips_key (host_id user : string) : string :=
  "zc:rule:auth_anomaly:diff_ips:" +:+ host_id +:+ ":" +:+ user.

Definition known_ttl : Z := 7 * 86400.
Definition diff_threshold : Z := 3.
Definition window_sec : Z := 300.
Definition cooldown_sec : Z := 600.

Definition new_ip_result (user ip : string) : DetectionResult :=
  mkResult "auth_anomaly" "medium"
    ("new source IP for user " +:+ repr_str user +:+ ": " +:+ ip)
    [("user", VStr user); ("source_ip", VStr ip); ("first_seen", VBool true)]
    cooldown_sec (user +:+ ":" +:+ ip) None.

Definition multi_ip_result (user : string) (distinct_ips : Z) : DetectionResult :=
  mkResult "auth_anomaly" "high"
    ("user " +:+ repr_str user +:+ " authenticated from " +:+ str_int distinct_ips
     +:+ " distinct IPs in " +:+ str_int window_sec +:+ "s")
    [("user", VStr user); ("distinct_ips_in_window", VInt distinct_ips);
     ("window_sec", VInt window_sec)]
    cooldown_sec (user +:+ ":multi_ip")
    (Some (mkDAction "revoke_session" ("user:" +:+ user) (Some 86400))).

(** The body of the [try]. *)
Definition observe {R} `{Redis R} (now : Z) (event : ParsedEvent) (user ip : string)
  : M R (bool * Z) :=
  let known_key := _known_ip_key (ev_host_id event) user in
  seen_before ← sismember now known_key ip;
  _ ← sadd now known_key ip;
  _ ← expire now known_key known_ttl;
  distinct_ips ← ms_window now event (_diff_ips_key (ev_host_id event) user) ip window_sec;
  mret (seen_before, distinct_ips).

Definition on_event {R} `{Redis R} (now : Z) (event : ParsedEvent) : M R (list DetectionResult) :=
  if negb (_is_auth_success event) then mret []
  else
    match _extract_user event, source_ip event with
    | Some (String _ _ as user), Some ip =>
        seen ← try_M (o ← observe now event user ip; mret (Some o)) (fun _ => mret None);
        match seen with
        | None => mret []
        | Some (seen_before, distinct_ips) =>
            r1 ← lift_res (if (seen_before : bool) then Ok []
                           else x ← new_result (new_ip_result user ip); Ok [x]);
            r2 ← lift_res (if diff_threshold <=? distinct_ips
                           then x ← new_result (multi_ip_result user distinct_ips); Ok [x]
                           else Ok []);
            mret (r1 ++ r2)
        end
    | _, _ => mret []
    end.

End AuthAnomaly.

(** ** [detectors/__init__.py]: the registry, in order. *)
Definition BUILTIN_DETECTORS {R} `{Redis R} (settings : Settings)
  : list (Z -> ParsedEvent -> M R (list DetectionResult)) :=
  [Ssh.on_event settings; PortScan.on_event; WebAttack.on_event; DnsTunnel.on_event;
   AuthAnomaly.on_event].

(** ** Lemmas *)

(** *** The detectors that read [timestamp] *)

Lemma ms_window_raises {R} `{Redis R} now event key member w (r : R) :
  ms_window now event key member w r = (r, Raise AttributeError).
Proof. reflexivity. Qed.

Definition silent {R} (m : M R (list DetectionResult)) : Prop :=
  forall r l, (m r).2 = Ok l -> l = [].

Lemma silent_nil {R} : silent (R := R) (mret []).
Proof. intros r l. cbn. by intros [= <-]. Qed.

Lemma silent_lift {R A} (x : res A) (f : A -> M R (list DetectionResult)) :
  (forall a, silent (f a)) -> silent (lift_res x ≫= f).
Proof.
  intros Hf r l. unfold mbind, M_bind, lift_res. destruct x as [a|e]; [apply Hf|discriminate].
Qed.

(** A [try] whose body raises falls back to the empty list. *)
Lemma silent_try {R A} (m : M R A) (f : A -> M R (list DetectionResult)) :
  (forall r, exists e, (m r).2 = Raise e) ->
  silent (x ← try_M (a ← m; mret (Some a)) (fun _ => mret None);
          match x with None => mret [] | Some a => f a end).
Proof.
  intros Hm r l. unfold try_M, mbind, M_bind. destruct (Hm r) as [e He].
  destruct (m r) as [r' x]. cbn in He. subst x. cbn. by intros [= <-].
Qed.

Lemma observe_raises {R} `{Redis R} now event user ip (r : R) :
  exists e, (AuthAnomaly.observe now event user ip r).2 = Raise e.
Proof.
  unfold AuthAnomaly.observe, mbind, M_bind.
  destruct (sismember now _ ip r) as [r1 [b|e]]; [|by eexists].
  destruct (sadd now _ ip r1) as [r2 [u|e]]; [|by eexists].
  destruct (expire now _ _ r2) as [r3 [v|e]]; [|by eexists].
  rewrite ms_window_raises. by eexists.
Qed.

Lemma port_scan_silent {R} `{Redis R} now event : silent (R := R) (PortScan.on_event now event).
Proof.
  unfold PortScan.on_event. apply silent_lift. intros [|]; [|apply silent_nil]. cbn [negb].
  apply silent_lift. intros port. destruct (source_ip event) as [ip|]; [|apply silent_nil].
  destruct port as [p|]; [|apply silent_nil].
  apply silent_try. intros r. rewrite ms_window_raises. by eexists.
Qed.

Lemma dns_tunnel_silent {R} `{Redis R} now event : silent (R := R) (DnsTunnel.on_event now event).
Proof.
  unfold DnsTunnel.on_event. apply silent_lift. intros [|]; [|apply silent_nil]. cbn [negb].
  destruct (source_ip event) as [ip|]; [|apply silent_nil].
  destruct (DnsTunnel._extract_qname event) as [[|c q]|]; [apply silent_nil| |apply silent_nil].
  destruct (_ <? _); [apply silent_nil|].
  apply silent_try. intros r. rewrite ms_window_raises. by eexists.
Qed.

Lemma auth_anomaly_silent {R} `{Redis R} now event : silent (R := R) (AuthAnomaly.on_event now event).
Proof.
  unfold AuthAnomaly.on_event. destruct (AuthAnomaly._is_auth_success event); [|apply silent_nil].
  cbn [negb]. destruct (AuthAnomaly._extract_user event) as [[|c u]|];
    [apply silent_nil| |apply silent_nil].
  destruct (source_ip event) as [ip|]; [|apply silent_nil].
  eapply (silent_try (AuthAnomaly.observe now event (String c u) ip) (fun o =>
    let '(seen_before, distinct_ips) := o in _)).
  intros r. apply observe_raises.
Qed.

(** *** The window of the SSH detector *)

Definition still_in (cutoff : Z) (z : gmap string Z) : gmap string Z :=
  filter (fun p => in_scores (Some 0) cutoff p.2 = false) z.

Lemma live_at_ttl now k (st : store) o :
  live_at now (o, ttl_live now k st) = true.
Proof.
  unfold live_at, ttl_live, live. cbn. destruct (st !! k) as [[o' t]|]; [|done].
  destruct (live_at now (o', t)) eqn:E; [|done]. unfold live_at in E. cbn in E. by destruct t.
Qed.

Lemma zset_live_insert now k z t (st : store) :
  live_at now (OZset z, t) = true -> zset_live now k (<[k := (OZset z, t)]> st) = Ok z.
Proof. intros Hl. unfold zset_live. by rewrite live_insert_eq, Hl. Qed.

Lemma zrem_live now k lo hi (st : store) z :
  zset_live now k st = Ok z ->
  exists st', spec_zremrangebyscore now k lo hi st = (st', Ok tt)
  /\ zset_live now k st' = Ok (filter (fun p => in_scores lo hi p.2 = false) z).
Proof.
  intros Hz. unfold spec_zremrangebyscore. rewrite Hz. eexists. split; [reflexivity|].
  case_decide as Hd.
  - unfold zset_live. by rewrite live_delete_eq, Hd.
  - apply zset_live_insert, live_at_ttl.
Qed.

Section SshSpec.
Context {R : Type} `{RedisLaws R}.

(** The four commands: they count the entries left in the window, the present
    one included, and leave every other key alone. *)
Lemma window_pipeline_ok now key cutoff member score ttl (r : R) z :
  zset_live now key (contents r) = Ok z -> 0 < ttl ->
  exists r', window_pipeline now key (Some 0) cutoff member score ttl r
    = (r', Ok (Z.of_nat (size (<[member := score]> (still_in cutoff z)))))
  /\ contents r' !! key
     = Some (OZset (<[member := score]> (still_in cutoff z)), Some (now + ttl * SEC))
  /\ forall k, k <> key -> contents r' !! k = contents r !! k.
Proof.
  intros Hz Httl. unfold window_pipeline.
  destruct (zrem_live now key (Some 0) cutoff _ _ Hz) as (st1&S1&Z1).
  destruct (answers_run _ _ _ (zremrangebyscore_law now key (Some 0) cutoff r)) as (r1&->&C1).
  rewrite S1 in *. cbn [fst snd] in *.
  destruct (answers_run _ _ _ (zadd_law now key member score r1)) as (r2&E2&C2).
  rewrite C1 in *. unfold spec_zadd in E2, C2. rewrite Z1 in E2, C2. cbn [fst snd] in *. rewrite E2.
  destruct (answers_run _ _ _ (zcard_law now key r2)) as (r3&->&C3). cbn [fst snd] in *.
  fold (still_in cutoff z) in *.
  pose proof (live_at_ttl now key st1 (OZset (<[member := score]> (still_in cutoff z)))) as Hl.
  unfold spec_zcard. rewrite C2, zset_live_insert by done. cbn [mbind res_bind].
  destruct (answers_run _ _ _ (expire_law now key ttl r3)) as (r4&->&C4). cbn [fst snd] in *.
  exists r4. cbn [seq_reply]. split; [done|].
  rewrite C4, C3, C2. split.
  - unfold spec_expire. rewrite live_insert_eq, Hl.
    destruct (Z.leb_spec ttl 0); [lia|]. by rewrite lookup_insert_eq.
  - intros k Hk. rewrite spec_expire_frame, lookup_insert_ne by congruence.
    replace st1 with (spec_zremrangebyscore now key (Some 0) cutoff (contents r)).1 by (by rewrite S1).
    by apply spec_zrem_frame.
Qed.

Lemma window_pipeline_wrong now key cutoff member score ttl (r : R) e :
  zset_live now key (contents r) = Raise e ->
  exists r' e', window_pipeline now key (Some 0) cutoff member score ttl r = (r', Raise e').
Proof.
  intros Hz. unfold window_pipeline.
  destruct (answers_run _ _ _ (zremrangebyscore_law now key (Some 0) cutoff r)) as (r1&->&_).
  unfold spec_zremrangebyscore. rewrite Hz. cbn [fst snd].
  destruct (zadd _ _ _ _ r1) as [r2 a2]. destruct (zcard _ _ r2) as [r3 a3].
  destruct (expire _ _ _ r3) as [r4 a4]. cbn [seq_reply]. eauto.
Qed.

Lemma cooldown_key_ne h ip : Ssh.cooldown_key h ip <> Ssh._window_key h ip.
Proof.
  intros E. apply (f_equal String.length) in E. unfold Ssh.cooldown_key in E.
  rewrite sapp_length in E. cbn in E. lia.
Qed.

Lemma spec_exists_ext now k (st st' : store) :
  st !! k = st' !! k -> spec_exists now k st = spec_exists now k st'.
Proof. intros E. unfold spec_exists, live. by rewrite E. Qed.

(** What one failed login leads to. *)
Lemma on_failed_login_spec settings now event ip (r : R) :
  0 < Ssh.cooldown_sec settings ->
  (Ssh.on_failed_login settings now event ip r).2
  = Ok (match zset_live now (Ssh._window_key (ev_host_id event) ip) (contents r) with
        | Raise _ => []
        | Ok z =>
            let n := Z.of_nat (size (<[ev_event_id event := ev_occurred_at event]>
               (still_in (ev_occurred_at event - ssh_bruteforce_window_sec settings) z))) in
            if (n <? ssh_bruteforce_threshold settings)
               || spec_exists now (Ssh.cooldown_key (ev_host_id event) ip) (contents r)
            then [] else [Ssh.result settings event ip n]
        end).
Proof.
  intros Hc. unfold Ssh.on_failed_login.
  destruct (zset_live now _ (contents r)) as [z|e] eqn:Hz.
  - destruct (window_pipeline_ok now _ (ev_occurred_at event - ssh_bruteforce_window_sec settings)
      (ev_event_id event) (ev_occurred_at event) (Ssh.cooldown_sec settings) r z Hz Hc)
      as (r1&->&_&Hframe).
    cbn zeta. destruct (_ <? ssh_bruteforce_threshold settings); [done|]. cbn [orb].
    destruct (answers_run _ _ _ (set_law now (Ssh.cooldown_key (ev_host_id event) ip)
      (Ssh.cooldown_sec settings) true r1)) as (r2&->&_).
    unfold spec_set. destruct (Z.leb_spec (Ssh.cooldown_sec settings) 0); [lia|]. cbn [andb].
    rewrite (spec_exists_ext _ _ (contents r1) (contents r)) by apply Hframe, cooldown_key_ne.
    by destruct (spec_exists now _ (contents r)).
  - destruct (window_pipeline_wrong now _ (ev_occurred_at event - ssh_bruteforce_window_sec settings)
      (ev_event_id event) (ev_occurred_at event) (Ssh.cooldown_sec settings) r e Hz) as (r'&e'&->).
    done.
Qed.

(** [on_event] on a failed login with an address is [on_failed_login]. *)
Lemma ssh_on_event settings now event ip (r : R) :
  Ssh._is_failed_login event = Ok true -> Ssh._extract_source_ip event = Ok (Some ip) ->
  nonempty ip = true ->
  Ssh.on_event settings now event r = Ssh.on_failed_login settings now event ip r.
Proof.
  intros Hf Hi Hn. unfold Ssh.on_event, mbind, M_bind, lift_res. rewrite Hf, Hi. cbn [negb].
  by destruct ip.
Qed.

(** The window key of one address is the cooldown key of another. *)
Lemma window_key_collides h ip :
  Ssh._window_key h (ip +:+ ":cooldown") = Ssh.cooldown_key h ip.
Proof. unfold Ssh.cooldown_key, Ssh._window_key. by rewrite !sapp_assoc. Qed.

Lemma first_free_spec now event ip ms tags : forall (r : R),
  (WebAttack.first_free now event ip ms tags r).2
  = Ok (match find (fun tag => negb (spec_exists now
                (WebAttack._cooldown_key (ev_host_id event) ip tag) (contents r))) tags with
        | Some tag => [WebAttack.result event ip tag ms]
        | None => []
        end).
Proof.
  induction tags as [|tag tags IH]; intros r; [done|]. cbn [WebAttack.first_free find].
  destruct (answers_run _ _ _ (set_law now (WebAttack._cooldown_key (ev_host_id event) ip tag)
    WebAttack.cooldown_sec true r)) as (r1&->&C1).
  unfold spec_set in *. change (WebAttack.cooldown_sec <=? 0) with false in *. cbn iota in *.
  cbn [andb] in *. destruct (spec_exists now _ (contents r)); cbn [negb fst snd] in *.
  - by rewrite IH, C1.
  - unfold new_result, WebAttack.result, str_in. cbn. by destruct (_ || _).
Qed.

End SshSpec.

(** ** Properties *)

(** When the SSH detector fires: on a failed login with a source address the
    result is decided by the sorted set of that host and address.  The detector
    fires when the logins left in the window, this one included, reach the
    threshold and no cooldown is live, reports exactly that count and asks for
    the address to be blocked; it never raises, and an unusable key means no
    alert. *)
Theorem ssh_fires_spec {R : Type} `{RedisLaws R} (settings : Settings) (now : Z)
    (event : ParsedEvent) (ip : string) (r : R) :
  0 < Ssh.cooldown_sec settings -> nonempty ip = true ->
  Ssh._is_failed_login event = Ok true -> Ssh._extract_source_ip event = Ok (Some ip) ->
  (Ssh.on_event settings now event r).2
  = Ok (match zset_live now (Ssh._window_key (ev_host_id event) ip) (contents r) with
        | Raise _ => []
        | Ok z =>
            let n := Z.of_nat (size (<[ev_event_id event := ev_occurred_at event]>
               (still_in (ev_occurred_at event - ssh_bruteforce_window_sec settings) z))) in
            if (n <? ssh_bruteforce_threshold settings)
               || spec_exists now (Ssh.cooldown_key (ev_host_id event) ip) (contents r)
            then [] else [Ssh.result settings event ip n]
        end).
Proof.
  intros Hc Hn Hf Hi. rewrite (ssh_on_event settings now event ip r Hf Hi Hn).
  by apply on_failed_login_spec.
Qed.

Definition failed_login (i : string) (t : Z) : ParsedEvent :=
  mkEvent i "h" "sshd" ("sshd[7]: Failed password for invalid user bob from 198.51.100.4 port "
    +:+ str_int t +:+ " ssh2") [] t.

(** Four earlier logins in the window, one outside. *)
Definition four_logins : MemRedis :=
  {[ Ssh._window_key "h" "198.51.100.4" :=
       (OZset {["a" := 30; "b" := 70; "c" := 80; "d" := 90; "e" := 95]}, None) ]}.

Lemma ssh_fires_spec_witness :
  (Ssh.on_event default_settings (200 * SEC) (failed_login "f" 100) four_logins).2
  = Ok [Ssh.result default_settings (failed_login "f" 100) "198.51.100.4" 5].
Proof.
  refine (eq_trans (ssh_fires_spec (R := MemRedis) default_settings (200 * SEC) (failed_login "f" 100)
    "198.51.100.4" four_logins eq_refl eq_refl _ _) _); vm_compute; reflexivity.
Defined.

(** The cooldown of one address can be set by another: a failed login whose
    source address is reported as the text of the address followed by
    [:cooldown] keeps its window under the key of the cooldown, and for as long
    as the cooldown would last no failed login from the real address of that
    host fires, however many there are. *)
Theorem ssh_cooldown_poisoned {R : Type} `{RedisLaws R} (settings : Settings) (now1 now2 : Z)
    (forged event : ParsedEvent) (ip : string) (r : R) (z : gmap string Z) :
  0 < Ssh.cooldown_sec settings -> nonempty ip = true ->
  Ssh._is_failed_login forged = Ok true ->
  Ssh._extract_source_ip forged = Ok (Some (ip +:+ ":cooldown")) ->
  Ssh._is_failed_login event = Ok true -> Ssh._extract_source_ip event = Ok (Some ip) ->
  ev_host_id event = ev_host_id forged ->
  zset_live now1 (Ssh.cooldown_key (ev_host_id forged) ip) (contents r) = Ok z ->
  1 < ssh_bruteforce_threshold settings - Z.of_nat (size z) ->
  now2 < now1 + Ssh.cooldown_sec settings * SEC ->
  let r' := (Ssh.on_event settings now1 forged r).1 in
  (Ssh.on_event settings now2 event r').2 = Ok [].
Proof.
  intros Hc Hn Hf1 Hi1 Hf2 Hi2 Hh Hz Hthr Hlt. cbn zeta.
  rewrite (ssh_on_event settings now1 forged _ r Hf1 Hi1) by (by destruct ip).
  rewrite (ssh_on_event settings now2 event ip _ Hf2 Hi2 Hn), on_failed_login_spec, Hh by done.
  unfold Ssh.on_failed_login. rewrite window_key_collides.
  destruct (window_pipeline_ok now1 _ (ev_occurred_at forged - ssh_bruteforce_window_sec settings)
      (ev_event_id forged) (ev_occurred_at forged) (Ssh.cooldown_sec settings) r z Hz Hc)
      as (r1&->&Hk&_). cbn zeta.
  set (z1 := still_in _ z) in *.
  assert (Hle : Z.of_nat (size (<[ev_event_id forged := ev_occurred_at forged]> z1)) <= Z.of_nat (size z) + 1).
  { assert (size z1 <= size z)%nat by (apply map_subseteq_size, map_filter_subseteq).
    rewrite map_size_insert. destruct (z1 !! ev_event_id forged); cbn; lia. }
  destruct (Z.ltb_spec (Z.of_nat (size (<[ev_event_id forged := ev_occurred_at forged]> z1)))
              (ssh_bruteforce_threshold settings)); [|lia].
  cbn [fst].
  assert (He : spec_exists now2 (Ssh.cooldown_key (ev_host_id forged) ip) (contents r1) = true).
  { unfold spec_exists, live. rewrite Hk. unfold live_at. cbn [snd].
    by destruct (Z.ltb_spec now2 (now1 + Ssh.cooldown_sec settings * SEC)); [|lia]. }
  destruct (zset_live now2 _ (contents r1)); [|done]. rewrite He. by rewrite orb_true_r.
Qed.

(** Three of the five detectors never fire: [port_scan], [dns_tunnel] and
    [auth_anomaly] read [event.timestamp], which [ParsedEvent] does not have,
    inside the [try] that fails open; whatever Redis answers they return no
    result. *)
Theorem timestamp_detectors_silent {R : Type} `{Redis R} (now : Z) (event : ParsedEvent) (r : R)
    (d : Z -> ParsedEvent -> M R (list DetectionResult)) (l : list DetectionResult) :
  In d [PortScan.on_event; DnsTunnel.on_event; AuthAnomaly.on_event] ->
  (d now event r).2 = Ok l -> l = [].
Proof.
  intros [<-|[<-|[<-|[]]]]; [apply port_scan_silent|apply dns_tunnel_silent|apply auth_anomaly_silent].
Qed.

Definition scan_event : ParsedEvent :=
  mkEvent "e" "h" "fw" "" [("dest_port", VStr "22"); ("source_ip", VStr "203.0.113.9")] 5.

Lemma timestamp_detectors_silent_witness :
  (PortScan.on_event (R := MemRedis) 0 scan_event ∅).2 = Ok [] /\ ([] : list DetectionResult) = [].
Proof.
  split; [vm_compute; reflexivity|].
  refine (timestamp_detectors_silent (R := MemRedis) 0 scan_event ∅ PortScan.on_event [] _ _).
  - by left.
  - vm_compute. reflexivity.
Defined.

(** The web-attack detector reports the first matching signature of the
    request that is not in its cooldown, at most one per event, and names all
    the matching ones; when every matching signature is cooling it is silent. *)
Theorem web_attack_spec {R : Type} `{RedisLaws R} (now : Z) (event : ParsedEvent) (ip : string) (r : R) :
  WebAttack._is_http_event event = Ok true -> source_ip event = Some ip ->
  (WebAttack.on_event now event r).2
  = Ok (match find (fun tag => negb (spec_exists now
                (WebAttack._cooldown_key (ev_host_id event) ip tag) (contents r)))
              (WebAttack._match_patterns event) with
        | Some tag => [WebAttack.result event ip tag (WebAttack._match_patterns event)]
        | None => []
        end).
Proof.
  intros Hh Hi. unfold WebAttack.on_event, mbind, M_bind, lift_res. rewrite Hh, Hi. cbn [negb].
  destruct (WebAttack._match_patterns event) as [|t ts]; [done|]. apply first_free_spec.
Qed.

Definition attack_event : ParsedEvent :=
  mkEvent "e" "h" "nginx" "GET /a?id=1 UNION  SELECT x HTTP/1.1 sqlmap/1.7"
    [("source", VStr "nginx"); ("source_ip", VStr "203.0.113.9")] 5.

(** The SQL injection tag is cooling: the scanner tag is reported. *)
Lemma web_attack_spec_witness :
  (WebAttack.on_event (R := MemRedis) (10 * SEC) attack_event
     {[WebAttack._cooldown_key "h" "203.0.113.9" "sqli" := (OStr, Some (11 * SEC))]}).2
  = Ok [WebAttack.result attack_event "203.0.113.9" "scanner" ["sqli"; "scanner"]].
Proof.
  refine (eq_trans (web_attack_spec (R := MemRedis) (10 * SEC) attack_event "203.0.113.9" _ _ _) _);
    vm_compute; reflexivity.
Defined.

Lemma ssh_cooldown_poisoned_witness :
  let forged := mkEvent "x" "h" "sshd" ""
    [("status", VStr "failed"); ("source_ip", VStr "198.51.100.4:cooldown")] 99 in
  let r' := (Ssh.on_event default_settings (199 * SEC) forged four_logins).1 in
  (Ssh.on_event default_settings (200 * SEC) (failed_login "f" 100) r').2 = Ok [].
Proof.
  refine (ssh_cooldown_poisoned (R := MemRedis) default_settings (199 * SEC) (200 * SEC)
    (mkEvent "x" "h" "sshd" "" [("status", VStr "failed"); ("source_ip", VStr "198.51.100.4:cooldown")] 99)
    (failed_login "f" 100) "198.51.100.4" four_logins ∅ eq_refl eq_refl _ _ _ _ eq_refl _ _ _);
    vm_compute; reflexivity.
Defined.
