(* ===== verification/Crypto.v ===== *)
(** * Command signing: [crypto.py]

    The standard library's SHA-256 and HMAC (FIPS 180-4, RFC 2104) are written
    out on 32-bit words, so that signatures evaluate; then [canonical_form],
    [sign_command] and [verify_command]. *)

From S2P Require Import Prelude PyStr PyVal.
From Stdlib Require Import Ascii.

(** ** SHA-256 *)

Definition w32 (x : Z) : Z := x mod 2 ^ 32.
Definition add32 (x y : Z) : Z := w32 (x + y).
Definition rotr (n x : Z) : Z := Z.lor (Z.shiftr x n) (w32 (Z.shiftl x (32 - n))).
Definition not32 (x : Z) : Z := 2 ^ 32 - 1 - x.

Definition ch (x y z : Z) : Z := Z.lxor (Z.land x y) (Z.land (not32 x) z).
Definition maj (x y z : Z) : Z := Z.lxor (Z.lxor (Z.land x y) (Z.land x z)) (Z.land y z).
Definition bsig0 (x : Z) : Z := Z.lxor (Z.lxor (rotr 2 x) (rotr 13 x)) (rotr 22 x).
Definition bsig1 (x : Z) : Z := Z.lxor (Z.lxor (rotr 6 x) (rotr 11 x)) (rotr 25 x).
Definition ssig0 (x : Z) : Z := Z.lxor (Z.lxor (rotr 7 x) (rotr 18 x)) (Z.shiftr x 3).
Definition ssig1 (x : Z) : Z := Z.lxor (Z.lxor (rotr 17 x) (rotr 19 x)) (Z.shiftr x 10).

(** The constants of FIPS 180-4, from their definition: fractional bits of the
    roots of the first primes. *)
Definition primes (upto : nat) : list Z :=
  filter (fun p => forallb (fun q => negb (p mod q =? 0)) (seqZ 2 (p - 2)) = true)
    (seqZ 2 (Z.of_nat upto)).

(** Cube root, rounded down, of a number below [2 ^ (3 * bits)]. *)
Fixpoint cube_root (bits : nat) (n r : Z) : Z :=
  match bits with
  | O => r
  | S b =>
      let r' := r + 2 ^ Z.of_nat b in
      cube_root b n (if r' * r' * r' <=? n then r' else r)
  end.

Definition round_constants : list Z :=
  Eval vm_compute in map (fun p => w32 (cube_root 36 (p * 2 ^ 96) 0)) (take 64 (primes 310)).

Record hstate : Type := mkH { ha : Z; hb : Z; hc : Z; hd : Z; he : Z; hf : Z; hg : Z; hh : Z }.

Definition initial_hash : hstate :=
  Eval vm_compute in
    match map (fun p => w32 (Z.sqrt (p * 2 ^ 64))) (primes 18) with
    | [a; b; c; d; e; f; g; h] => mkH a b c d e f g h
    | _ => mkH 0 0 0 0 0 0 0 0
    end.

Definition sha_round (s : hstate) (k w : Z) : hstate :=
  let t1 := w32 (hh s + bsig1 (he s) + ch (he s) (hf s) (hg s) + k + w) in
  let t2 := w32 (bsig0 (ha s) + maj (ha s) (hb s) (hc s)) in
  mkH (add32 t1 t2) (ha s) (hb s) (hc s) (add32 (hd s) t1) (he s) (hf s) (hg s).

(** The sixty-four rounds; [win] holds the next sixteen schedule words. *)
Fixpoint sha_rounds (ks win : list Z) (s : hstate) : hstate :=
  match ks, win with
  | k :: ks', w :: rest =>
      let w' := w32 (ssig1 (nth 13 rest 0) + nth 8 rest 0 + ssig0 (nth 0 rest 0) + w) in
      sha_rounds ks' (rest ++ [w']) (sha_round s k w)
  | _, _ => s
  end.

Definition add_state (s t : hstate) : hstate :=
  mkH (add32 (ha s) (ha t)) (add32 (hb s) (hb t)) (add32 (hc s) (hc t)) (add32 (hd s) (hd t))
      (add32 (he s) (he t)) (add32 (hf s) (hf t)) (add32 (hg s) (hg t)) (add32 (hh s) (hh t)).

(** Big-endian words of a block. *)
Fixpoint words (bs : list Z) : list Z :=
  match bs with
  | a :: b :: c :: d :: r => (a * 2 ^ 24 + b * 2 ^ 16 + c * 2 ^ 8 + d) :: words r
  | _ => []
  end.

Fixpoint sha_blocks (n : nat) (bs : list Z) (s : hstate) : hstate :=
  match n with
  | O => s
  | S m => sha_blocks m (drop 64 bs) (add_state s (sha_rounds round_constants (words (take 64 bs)) s))
  end.

Fixpoint be_bytes (n : nat) (x : Z) : list Z :=
  match n with
  | O => []
  | S m => be_bytes m (x / 256) ++ [x mod 256]
  end.

Definition sha_pad (bs : list Z) : list Z :=
  let l := Z.of_nat (length bs) in
  bs ++ [128] ++ repeat 0 (Z.to_nat ((55 - l) mod 64)) ++ be_bytes 8 (8 * l).

Definition state_bytes (s : hstate) : list Z :=
  concat (map (be_bytes 4) [ha s; hb s; hc s; hd s; he s; hf s; hg s; hh s]).

Definition sha256 (bs : list Z) : list Z :=
  let p := sha_pad bs in
  state_bytes (sha_blocks (length p / 64) p initial_hash).

(** ** HMAC *)

Definition pad_key (key : list Z) : list Z :=
  let k := if (64 <? length key)%nat then sha256 key else key in
  k ++ repeat 0 (64 - length k).

Definition hmac_sha256 (key msg : list Z) : list Z :=
  let k := pad_key key in
  sha256 (map (Z.lxor 0x5c) k ++ sha256 (map (Z.lxor 0x36) k ++ msg)).

(** ** Text *)

(** [s.encode("utf-8")] of code points below 256. *)
Fixpoint utf8 (s : string) : list Z :=
  match s with
  | EmptyString => []
  | String c r =>
      let n := Z.of_N (code c) in
      (if n <? 128 then [n] else [192 + n / 64; 128 + n mod 64]) ++ utf8 r
  end.

(** [digest.hex()]. *)
Fixpoint hex (bs : list Z) : string :=
  match bs with
  | [] => EmptyString
  | b :: r => String (hex_digit (Z.to_N (b / 16))) (String (hex_digit (Z.to_N (b mod 16))) (hex r))
  end.

Definition hexdigest (bs : list Z) : string := hex (sha256 bs).

Definition is_ascii (s : string) : bool := sforall (fun c => (code c <? 128)%N) s.

(** [hmac.compare_digest] on two [str]: only ASCII is accepted. *)
Definition compare_digest (a b : string) : res bool :=
  if is_ascii a && is_ascii b then Ok (String.eqb a b) else Raise TypeError.

(** ** [crypto.py] *)

Definition canonical_text (command_id kind target : string) (ttl_sec : Z) (issued_at : string) : string :=
  command_id +:+ "|" +:+ kind +:+ "|" +:+ target +:+ "|" +:+ str_int ttl_sec +:+ "|" +:+ issued_at.

Definition canonical_form (command_id kind target : string) (ttl_sec : Z) (issued_at : string) : list Z :=
  utf8 (canonical_text command_id kind target ttl_sec issued_at).

Definition sign_command (secret command_id kind target : string) (ttl_sec : Z) (issued_at : string) : string :=
  hex (hmac_sha256 (utf8 secret) (canonical_form command_id kind target ttl_sec issued_at)).

Definition verify_command (secret command_id kind target : string) (ttl_sec : Z)
    (issued_at hmac_hex : string) : res bool :=
  compare_digest (sign_command secret command_id kind target ttl_sec issued_at) (lower hmac_hex).

(** ** Test vectors *)

Example sha256_empty :
  hexdigest [] = "e3b0c44298fc1c149afbf4c8996fb92427ae41e4649b934ca495991b7852b855".
Proof. vm_compute. reflexivity. Qed.

Example sha256_abc :
  hexdigest (utf8 "abc") = "ba7816bf8f01cfea414140de5dae2223b00361a396177a9cb410ff61f20015ad".
Proof. vm_compute. reflexivity. Qed.

Example hmac_rfc4231_2 :
  hex (hmac_sha256 (utf8 "Jefe") (utf8 "what do ya want for nothing?"))
  = "5bdcc146bf60754e6a042426089575c75a003f089d2739839dec58b964ec3843".
Proof. vm_compute. reflexivity. Qed.

(** ** Lemmas *)

Lemma be_bytes_length n x : length (be_bytes n x) = n.
Proof.
  revert x. induction n as [|n IH]; intros x; cbn; [done|].
  rewrite length_app, IH. cbn. lia.
Qed.

Lemma be_bytes_range n : forall x, Forall (fun b => 0 <= b < 256) (be_bytes n x).
Proof.
  induction n as [|n IH]; intros x; cbn; [done|].
  apply Forall_app. split; [apply IH|]. repeat constructor; apply Z.mod_pos_bound; lia.
Qed.

Lemma sha256_length bs : length (sha256 bs) = 32%nat.
Proof. unfold sha256, state_bytes. cbn [map concat]. rewrite !length_app, !be_bytes_length. done. Qed.

Lemma sha256_range bs : Forall (fun b => 0 <= b < 256) (sha256 bs).
Proof.
  unfold sha256, state_bytes. cbn [map concat].
  repeat (apply Forall_app; split; [apply be_bytes_range|]). done.
Qed.

Lemma hex_length bs : slen (hex bs) = 2 * Z.of_nat (length bs).
Proof. unfold slen. induction bs as [|b bs IH]; [done|]. cbn [hex String.length length]. lia. Qed.

(** Lower-case hexadecimal digits. *)
Definition is_hex (c : ascii) : bool := is_digit c || in_range 97 102 c.

Lemma hex_digit_is_hex n : (n < 16)%N -> is_hex (hex_digit n) = true.
Proof.
  intros H.
  assert (Hall : Forall (fun k => is_hex (hex_digit (N.of_nat k)) = true) (seq 0 16))
    by (repeat constructor).
  rewrite Forall_forall in Hall. specialize (Hall (N.to_nat n)).
  rewrite N2Nat.id in Hall. apply Hall, elem_of_seq. lia.
Qed.

Lemma hex_is_hex bs : Forall (fun b => 0 <= b < 256) bs -> sforall is_hex (hex bs) = true.
Proof.
  induction 1 as [|b bs Hb _ IH]; [done|]. cbn [hex sforall].
  assert (0 <= b / 16 < 16) by (split; [apply Z.div_pos | apply Z.div_lt_upper_bound]; lia).
  pose proof (Z.mod_pos_bound b 16).
  rewrite (hex_digit_is_hex (Z.to_N (b / 16))), (hex_digit_is_hex (Z.to_N (b mod 16))) by lia.
  by rewrite IH.
Qed.

Lemma lower_char_ascii c : (code (lower_char c) <? 128)%N = (code c <? 128)%N.
Proof. by ascii_cases c. Qed.

Lemma lower_ascii s : is_ascii (lower s) = is_ascii s.
Proof.
  unfold is_ascii, lower. induction s as [|c s IH]; cbn [smap sforall]; [done|].
  by rewrite lower_char_ascii, IH.
Qed.

Lemma lower_length s : slen (lower s) = slen s.
Proof. unfold slen, lower. f_equal. induction s as [|c s IH]; cbn; [done|]. by rewrite IH. Qed.

Lemma is_hex_ascii_lower c : is_hex c = true -> (code c <? 128)%N = true /\ lower_char c = c.
Proof. ascii_cases c; cbn; intros H; done. Qed.

Lemma hex_ascii s : sforall is_hex s = true -> is_ascii s = true.
Proof. apply sforall_impl. intros c Hc. by apply is_hex_ascii_lower. Qed.

Lemma hex_lower s : sforall is_hex s = true -> lower s = s.
Proof.
  intros H. apply smap_id. revert H. apply sforall_impl. intros c Hc.
  apply Ascii.eqb_eq. by apply is_hex_ascii_lower.
Qed.

Lemma hex_upper_lower s : sforall is_hex s = true -> lower (upper s) = s.
Proof.
  unfold lower, upper. induction s as [|c s IH]; [done|]. cbn [sforall smap]. intros H; bprop.
  rewrite IH by done. f_equal. revert H. by ascii_cases c.
Qed.

Lemma sign_hex secret i k t ttl at_ : sforall is_hex (sign_command secret i k t ttl at_) = true.
Proof. apply hex_is_hex, sha256_range. Qed.

Lemma utf8_inj a : forall b, utf8 a = utf8 b -> a = b.
Proof.
  assert (Hc : forall c, Z.of_N (code c) < 256).
  { intros c. pose proof (N_ascii_bounded c). unfold code. lia. }
  assert (Hcode : forall c d, Z.of_N (code c) = Z.of_N (code d) -> c = d).
  { intros c d H. apply code_inj. lia. }
  induction a as [|c a IH]; intros [|d b]; cbn [utf8]; intros H.
  - done.
  - destruct (_ <? 128); discriminate H.
  - destruct (_ <? 128); discriminate H.
  - pose proof (Hc c). pose proof (Hc d).
    destruct (Z.ltb_spec (Z.of_N (code c)) 128), (Z.ltb_spec (Z.of_N (code d)) 128);
      cbn [app] in H.
    + injection H as Hx Hr. apply Hcode in Hx as ->. f_equal. by apply IH.
    + injection H as Hx Hr. pose proof (Z.div_pos (Z.of_N (code d)) 64). lia.
    + injection H as Hx Hr. pose proof (Z.div_pos (Z.of_N (code c)) 64). lia.
    + injection H as Hx Hy Hr. f_equal; [|by apply IH]. apply Hcode.
      rewrite (Z.div_mod (Z.of_N (code c)) 64), (Z.div_mod (Z.of_N (code d)) 64) by lia. lia.
Qed.

(** Cutting at the first separator. *)
Lemma sep_inj x (a b r s : string) :
  sexists (is_char x) a = false -> sexists (is_char x) b = false ->
  a +:+ String x r = b +:+ String x s -> a = b /\ r = s.
Proof.
  revert b. induction a as [|c a IH]; intros [|d b]; cbn; intros Ha Hb H.
  - injection H. done.
  - injection H as -> _. by rewrite is_char_refl in Hb.
  - injection H as <- _. by rewrite is_char_refl in Ha.
  - bprop. injection H as -> H. by apply IH in H as [-> ->].
Qed.

Lemma verify_sign secret i k t ttl at_ :
  verify_command secret i k t ttl at_ (sign_command secret i k t ttl at_) = Ok true.
Proof.
  pose proof (sign_hex secret i k t ttl at_). unfold verify_command, compare_digest.
  by rewrite hex_lower, hex_ascii, String.eqb_refl.
Qed.

(** ** Properties *)

(** A signed command verifies: the receiver's check of the HMAC that
    [sign_command] produced for the same fields answers True, in lower or upper
    case hexadecimal, and the digest has the 64 characters the COMMAND frame
    schema demands. *)
Theorem verify_signed (secret command_id kind target : string) (ttl_sec : Z) (issued_at : string) :
  let h := sign_command secret command_id kind target ttl_sec issued_at in
  verify_command secret command_id kind target ttl_sec issued_at h = Ok true
  /\ verify_command secret command_id kind target ttl_sec issued_at (upper h) = Ok true
  /\ slen h = 64.
Proof.
  cbn zeta. pose proof (sign_hex secret command_id kind target ttl_sec issued_at) as Hh.
  unfold verify_command, compare_digest.
  rewrite hex_upper_lower, hex_lower, hex_ascii by done. rewrite String.eqb_refl.
  split; [done|split; [done|]].
  unfold sign_command, hmac_sha256. by rewrite hex_length, sha256_length.
Qed.

(** The canonical form binds every field as long as the id, the kind and the
    target hold no pipe: equal bytes mean equal commands, even with an
    arbitrary timestamp. *)
Theorem canonical_form_injective (id1 kind1 target1 : string) (ttl1 : Z) (at1 : string)
    (id2 kind2 target2 : string) (ttl2 : Z) (at2 : string) :
  Forall (fun s => sexists (is_char "|") s = false) [id1; kind1; target1; id2; kind2; target2] ->
  canonical_form id1 kind1 target1 ttl1 at1 = canonical_form id2 kind2 target2 ttl2 at2 ->
  id1 = id2 /\ kind1 = kind2 /\ target1 = target2 /\ ttl1 = ttl2 /\ at1 = at2.
Proof.
  intros Hp H%utf8_inj. rewrite !Forall_cons in Hp. destruct Hp as (?&?&?&?&?&?&_).
  unfold canonical_text in H. cbn [String.append] in H.
  apply sep_inj in H as [-> H]; [|done|done].
  apply sep_inj in H as [-> H]; [|done|done].
  apply sep_inj in H as [-> H]; [|done|done].
  apply sep_inj in H as [Ht ->]; [|by apply str_int_no_char..].
  apply str_int_inj in Ht as ->. done.
Qed.

Lemma canonical_form_injective_witness :
  canonical_form "1" "block_ip" "10.0.0.1" 60 "t" = canonical_form "1" "block_ip" "10.0.0.1" 60 "t"
  /\ ("t" = "t" :> string).
Proof.
  split; [reflexivity|].
  refine (proj2 (proj2 (proj2 (proj2 (canonical_form_injective "1" "block_ip" "10.0.0.1" 60 "t"
    "1" "block_ip" "10.0.0.1" 60 "t" _ eq_refl))))).
  repeat constructor.
Defined.

(** A pipe in the target breaks that binding: one HMAC covers two different
    commands, whatever the secret. *)
Theorem canonical_form_ambiguous (secret command_id kind target issued_at : string) (ttl1 ttl2 : Z) :
  sign_command secret command_id kind (target +:+ "|" +:+ str_int ttl1) ttl2 issued_at
  = sign_command secret command_id kind target ttl1 (str_int ttl2 +:+ "|" +:+ issued_at).
Proof.
  unfold sign_command, canonical_form. do 3 f_equal. unfold canonical_text.
  by rewrite !sapp_assoc.
Qed.
