(* ===== verification/Actions.v ===== *)
(** * Action kinds and deployment modes: [action_kinds.py], [deployment.py]

    The registry of response actions, the validation of their targets with the
    deny list of dangerous addresses, and the kinds each deployment mode
    enables.  [ZAQORIN_ALLOW_DANGEROUS_TARGETS] is the argument [allow]. *)

From S2P Require Import Prelude PyStr PyVal.
From Stdlib Require Import Ascii.

(** ** The registry *)

Inductive TargetShape : Type :=
| Shape_ipv4 | Shape_ipv4_cidr | Shape_pid | Shape_path
| Shape_user | Shape_session | Shape_url | Shape_host.

Record Kind : Type := mkKind {
  k_name : string;
  k_target_shape : TargetShape;
  k_default_ttl_sec : Z;
  k_description : string;
  k_requires_host_opt_in : bool
}.

Definition KINDS : list (string * Kind) :=
  [("block_ip", mkKind "block_ip" Shape_ipv4 3600
      "Drop all traffic from this source IP via nftables." true);
   ("tarpit_ip", mkKind "tarpit_ip" Shape_ipv4 1800
      "Accept connections from this IP but throttle reads to a trickle." true);
   ("canary_alert", mkKind "canary_alert" Shape_path 0
      "Alert when this canary file/path is touched. Zero false positives." false);
   ("isolate_host", mkKind "isolate_host" Shape_host 900
      "Block all network egress from this host (kill switch)." true);
   ("kill_process", mkKind "kill_process" Shape_pid 0
      "Send SIGKILL to the offending process (cgroup-scoped)." true);
   ("quarantine_file", mkKind "quarantine_file" Shape_path 0
      "chmod 000 the file and move it to the evidence vault." true);
   ("revoke_session", mkKind "revoke_session" Shape_session 86400
      "Invalidate the session/credential and force re-auth." true);
   ("webhook_soar", mkKind "webhook_soar" Shape_url 0
      "POST a signed event to a SOAR endpoint. Action lives in the SOAR." false);
   ("evidence_capture", mkKind "evidence_capture" Shape_host 0
      "Capture logs/process tree/network state into the evidence vault." false)].

Definition is_valid_kind (name : string) : bool := has_key name KINDS.

Definition get_kind (name : string) : res Kind :=
  match assoc name KINDS with
  | Some k => Ok k
  | None => Raise (ValueError "unknown action kind")
  end.

Definition list_kinds : list string := map fst KINDS.

(** ** IPv4 targets *)

Definition parse_octet (part : string) : res Z :=
  match py_int part with
  | None => Raise (ValueError "non-numeric octet")
  | Some n => if (0 <=? n) && (n <=? 255) then Ok n else Raise (ValueError "octet out of range")
  end.

(** [_parse_ipv4]: the octets are checked left to right. *)
Definition _parse_ipv4 (target : string) : res (Z * Z * Z * Z) :=
  match split_char "." target with
  | [p1; p2; p3; p4] =>
      o1 ← parse_octet p1; o2 ← parse_octet p2; o3 ← parse_octet p3; o4 ← parse_octet p4;
      Ok (o1, o2, o3, o4)
  | _ => Raise (ValueError "expected a.b.c.d")
  end.

Definition _ip_to_int (o1 o2 o3 o4 : Z) : Z :=
  Z.lor (Z.lor (Z.lor (Z.shiftl o1 24) (Z.shiftl o2 16)) (Z.shiftl o3 8)) o4.

Definition _DENY_RANGES : list (Z * Z) :=
  [(_ip_to_int 127 0 0 0, _ip_to_int 127 255 255 255);
   (_ip_to_int 224 0 0 0, _ip_to_int 239 255 255 255)].

Definition in_deny_range (addr : Z) : bool :=
  existsb (fun r => (fst r <=? addr) && (addr <=? snd r)) _DENY_RANGES.

Definition _check_dangerous_single (allow : bool) (addr : Z) : res unit :=
  if allow then Ok tt
  else if addr =? 0 then Raise (ValueError "unspecified address")
  else if addr =? _ip_to_int 255 255 255 255 then Raise (ValueError "broadcast address")
  else if in_deny_range addr then Raise (ValueError "deny range")
  else Ok tt.

Definition _check_dangerous_cidr (allow : bool) (addr prefix : Z) : res unit :=
  if allow then Ok tt
  else if prefix =? 0 then Raise (ValueError "/0 prefix")
  else if prefix <=? 8 then Raise (ValueError "short prefix")
  else if in_deny_range addr then Raise (ValueError "deny range")
  else Ok tt.

(** ** [validate_target] *)

Definition user_char (c : ascii) : bool :=
  is_alnum c || is_char "_" c || is_char "-" c || is_char "." c.

Definition validate_shape (allow : bool) (shape : TargetShape) (target : string) : res unit :=
  match shape with
  | Shape_ipv4 =>
      '(o1, o2, o3, o4) ← _parse_ipv4 target;
      _check_dangerous_single allow (_ip_to_int o1 o2 o3 o4)
  | Shape_ipv4_cidr =>
      match partition_char "/" target with
      | (_, false, _) => Raise (ValueError "expected a.b.c.d/n")
      | (ip, true, prefix) =>
          '(o1, o2, o3, o4) ← _parse_ipv4 ip;
          match py_int prefix with
          | None => Raise (ValueError "non-numeric prefix")
          | Some n =>
              if (0 <=? n) && (n <=? 32)
              then _check_dangerous_cidr allow (_ip_to_int o1 o2 o3 o4) n
              else Raise (ValueError "prefix out of range")
          end
      end
  | Shape_pid =>
      match py_int target with
      | None => Raise (ValueError "non-numeric PID")
      | Some n => guard_res (0 <? n) (ValueError "PID must be > 0")
      end
  | Shape_path => guard_res (startswith "/" target) (ValueError "not an absolute path")
  | Shape_user =>
      _ ← guard_res (nonempty target) (ValueError "target username is empty");
      guard_res (sforall user_char target) (ValueError "illegal characters")
  | Shape_session | Shape_host | Shape_url =>
      guard_res (nonempty target) (ValueError "target is empty")
  end.

Definition validate_target (allow : bool) (kind_name target : string) : res unit :=
  kind ← get_kind kind_name; validate_shape allow (k_target_shape kind) target.

(** ** Deployment modes *)

Record ModeProfile : Type := mkProfile {
  p_name : string;
  p_storage : string;
  p_transport : string;
  p_detector_set : string;
  p_action_kinds : list string;
  p_memory_budget_mb : Z;
  p_cpu_budget_pct : val;
  p_dashboard : bool;
  p_hunt_engine : bool;
  p_federation : bool;
  p_multi_tenant : bool
}.

Definition INDIVIDUAL : ModeProfile :=
  mkProfile "individual" "sqlite" "local" "core"
    ["block_ip"; "canary_alert"; "evidence_capture"] 20 (VFloat "1.5") false false false false.

Definition STARTUP : ModeProfile :=
  mkProfile "startup" "postgresql" "websocket" "standard"
    ["block_ip"; "tarpit_ip"; "canary_alert"; "isolate_host"; "kill_process"; "quarantine_file";
     "webhook_soar"; "evidence_capture"] 200 (VFloat "5.0") true true false false.

Definition ENTERPRISE : ModeProfile :=
  mkProfile "enterprise" "postgresql" "websocket" "full"
    ["block_ip"; "tarpit_ip"; "canary_alert"; "isolate_host"; "kill_process"; "quarantine_file";
     "revoke_session"; "webhook_soar"; "evidence_capture"] 1024 (VFloat "10.0") true true true true.

Definition PROFILES : list (string * ModeProfile) :=
  [("individual", INDIVIDUAL); ("startup", STARTUP); ("enterprise", ENTERPRISE)].

Definition get_profile (mode : string) : res ModeProfile :=
  match assoc mode PROFILES with
  | Some p => Ok p
  | None => Raise (ValueError "unknown deployment mode")
  end.

Definition validate_mode_storage (mode storage : string) : res unit :=
  if String.eqb mode "individual" && negb (String.eqb storage "sqlite")
  then Raise (ValueError "individual mode requires sqlite storage")
  else if str_in mode ["startup"; "enterprise"] && negb (String.eqb storage "postgresql")
  then Raise (ValueError "mode requires postgresql storage")
  else Ok tt.

Definition validate_mode_action (mode action_kind : string) : res unit :=
  p ← get_profile mode;
  guard_res (str_in action_kind (p_action_kinds p)) (ValueError "action kind not enabled").

(** ** Lemmas *)

Definition octet (o : Z) : Prop := 0 <= o <= 255.

(** The 32-bit address of four octets. *)
Lemma ip_to_int_sum o1 o2 o3 o4 :
  octet o1 -> octet o2 -> octet o3 -> octet o4 ->
  _ip_to_int o1 o2 o3 o4 = o1 * 2 ^ 24 + o2 * 2 ^ 16 + o3 * 2 ^ 8 + o4.
Proof.
  unfold octet, _ip_to_int. intros.
  assert (E : Z.lor (Z.shiftl o1 24) (Z.shiftl o2 16) = Z.shiftl (o1 * 2 ^ 8 + o2) 16).
  { rewrite lor_shiftl; [|lia|]; rewrite !Z.shiftl_mul_pow2 by lia; lia. }
  rewrite E.
  assert (E2 : Z.lor (Z.shiftl (o1 * 2 ^ 8 + o2) 16) (Z.shiftl o3 8)
               = Z.shiftl ((o1 * 2 ^ 8 + o2) * 2 ^ 8 + o3) 8).
  { rewrite lor_shiftl; [|lia|]; rewrite !Z.shiftl_mul_pow2 by lia; lia. }
  rewrite E2, lor_shiftl by lia. lia.
Qed.

(** The addresses the deny list protects. *)
Definition safe_quad (o1 o2 o3 o4 : Z) : Prop :=
  o1 <> 127 /\ ~ (224 <= o1 <= 239)
  /\ (o1, o2, o3, o4) <> (0, 0, 0, 0) /\ (o1, o2, o3, o4) <> (255, 255, 255, 255).

Lemma parse_octet_ok p o : parse_octet p = Ok o <-> py_int p = Some o /\ octet o.
Proof.
  unfold parse_octet, octet. destruct (py_int p) as [n|]; [|naive_solver].
  destruct ((0 <=? n) && (n <=? 255)) eqn:E.
  - bprop. split; [intros [= ->]; split; [done|lia] | by intros [[= ->] _]].
  - split; [done|]. intros [[= ->] ?]. rewrite andb_false_iff, !Z.leb_gt in E. lia.
Qed.

Lemma parse_ipv4_ok t o1 o2 o3 o4 :
  _parse_ipv4 t = Ok (o1, o2, o3, o4) <->
  exists p1 p2 p3 p4, split_char "." t = [p1; p2; p3; p4]
    /\ parse_octet p1 = Ok o1 /\ parse_octet p2 = Ok o2
    /\ parse_octet p3 = Ok o3 /\ parse_octet p4 = Ok o4.
Proof.
  unfold _parse_ipv4. split.
  - intros H. destruct (split_char "." t) as [|p1 [|p2 [|p3 [|p4 [|]]]]]; try discriminate H.
    inv_res. naive_solver.
  - intros (p1&p2&p3&p4&->&E1&E2&E3&E4). by rewrite E1; cbn; rewrite E2; cbn; rewrite E3; cbn; rewrite E4.
Qed.

Lemma parse_ipv4_octets t o1 o2 o3 o4 :
  _parse_ipv4 t = Ok (o1, o2, o3, o4) -> octet o1 /\ octet o2 /\ octet o3 /\ octet o4.
Proof. intros (?&?&?&?&_&H1&H2&H3&H4)%parse_ipv4_ok. rewrite parse_octet_ok in H1, H2, H3, H4. naive_solver. Qed.

Lemma in_deny_range_spec a :
  in_deny_range a = true <-> 127 <= a / 2 ^ 24 < 128 \/ 224 <= a / 2 ^ 24 < 240.
Proof.
  unfold in_deny_range, _DENY_RANGES. cbn [existsb fst snd].
  rewrite !ip_to_int_sum by (unfold octet; lia).
  rewrite !orb_true_iff, !andb_true_iff, !Z.leb_le.
  pose proof (Z.div_mod a (2 ^ 24) ltac:(lia)). pose proof (Z.mod_pos_bound a (2 ^ 24) ltac:(lia)).
  split; [intros [?|[?|?]]; [left; lia|right; lia|done] | intros [?|?]; lia].
Qed.

Lemma deny_range_quad o1 o2 o3 o4 :
  octet o1 -> octet o2 -> octet o3 -> octet o4 ->
  in_deny_range (_ip_to_int o1 o2 o3 o4) = false <-> o1 <> 127 /\ ~ (224 <= o1 <= 239).
Proof.
  intros ????. rewrite <- not_true_iff_false, in_deny_range_spec, ip_to_int_sum by done.
  unfold octet in *.
  replace ((o1 * 2 ^ 24 + o2 * 2 ^ 16 + o3 * 2 ^ 8 + o4) / 2 ^ 24) with o1; [lia|].
  apply (Z.div_unique_pos _ _ _ (o2 * 2 ^ 16 + o3 * 2 ^ 8 + o4)); lia.
Qed.

Lemma check_dangerous_single_ok o1 o2 o3 o4 :
  octet o1 -> octet o2 -> octet o3 -> octet o4 ->
  _check_dangerous_single false (_ip_to_int o1 o2 o3 o4) = Ok tt <-> safe_quad o1 o2 o3 o4.
Proof.
  intros H1 H2 H3 H4. pose proof (deny_range_quad o1 o2 o3 o4 H1 H2 H3 H4) as Hd.
  unfold _check_dangerous_single, safe_quad.
  rewrite !ip_to_int_sum in * by (try done; unfold octet; lia). unfold octet in *.
  destruct (Z.eqb_spec (o1 * 2 ^ 24 + o2 * 2 ^ 16 + o3 * 2 ^ 8 + o4) 0) as [E|E].
  { split; [done|]. intros (_&_&Hz&_). destruct Hz.
    by replace o1 with 0 by lia; replace o2 with 0 by lia;
      replace o3 with 0 by lia; replace o4 with 0 by lia. }
  match goal with |- context [Z.eqb ?a ?b] => destruct (Z.eqb_spec a b) as [F|F] end.
  { split; [done|]. intros (_&_&_&Hz). destruct Hz.
    by replace o1 with 255 by lia; replace o2 with 255 by lia;
      replace o3 with 255 by lia; replace o4 with 255 by lia. }
  destruct (in_deny_range _) eqn:D.
  { split; [done|]. intros (?&?&_). by assert (true = false) by (apply Hd; split; lia). }
  split; [|done]. intros _. destruct Hd as [Hd _]. specialize (Hd eq_refl) as [? ?].
  split; [done|]. split; [done|]. split; intros [= -> -> -> ->]; lia.
Qed.

(** ** Properties *)

(** Without the operator override a block or tarpit target passes validation
    exactly when it is four dot-separated [int()] literals in 0..255 whose
    address is none of the unspecified, broadcast, loopback and multicast
    addresses; everything else raises. *)
Theorem ipv4_target_accepted_iff (kind_name target : string) (k : Kind) :
  get_kind kind_name = Ok k -> k_target_shape k = Shape_ipv4 ->
  validate_target false kind_name target = Ok tt <->
  exists p1 p2 p3 p4 o1 o2 o3 o4,
    split_char "." target = [p1; p2; p3; p4]
    /\ py_int p1 = Some o1 /\ py_int p2 = Some o2 /\ py_int p3 = Some o3 /\ py_int p4 = Some o4
    /\ octet o1 /\ octet o2 /\ octet o3 /\ octet o4 /\ safe_quad o1 o2 o3 o4.
Proof.
  intros Hk Hs. unfold validate_target. rewrite Hk. cbn. rewrite Hs. cbn. split.
  - intros H. apply res_bind_ok in H as ([[[o1 o2] o3] o4]&Hp&Hc).
    pose proof (parse_ipv4_octets _ _ _ _ _ Hp) as (?&?&?&?).
    apply check_dangerous_single_ok in Hc; [|done..].
    apply parse_ipv4_ok in Hp as (p1&p2&p3&p4&Hp&Q1&Q2&Q3&Q4).
    rewrite parse_octet_ok in Q1, Q2, Q3, Q4.
    exists p1, p2, p3, p4, o1, o2, o3, o4. naive_solver.
  - intros (p1&p2&p3&p4&o1&o2&o3&o4&Hp&H1&H2&H3&H4&?&?&?&?&Hsafe).
    rewrite (proj2 (parse_ipv4_ok target o1 o2 o3 o4)).
    + cbn. by apply check_dangerous_single_ok.
    + exists p1, p2, p3, p4. by rewrite !parse_octet_ok.
Qed.

(** The literals are those of [int()]: spaces, signs and underscores pass. *)
Lemma ipv4_target_accepted_iff_witness :
  validate_target false "block_ip" " 1_0.+0.0. 7" = Ok tt.
Proof.
  refine (proj2 (ipv4_target_accepted_iff "block_ip" " 1_0.+0.0. 7"
    (mkKind "block_ip" Shape_ipv4 3600
      "Drop all traffic from this source IP via nftables." true) eq_refl eq_refl) _).
  exists " 1_0", "+0", "0", " 7", 10, 0, 0, 7. unfold octet, safe_quad.
  repeat split; solve [reflexivity | lia | discriminate].
Defined.

(** The CIDR check is complete for the deny ranges although it only looks at
    the given address: no address of an accepted block is loopback or
    multicast, and an accepted block has at most 2^23 addresses.  It does not
    cover the single addresses: the block of the unspecified address and the one
    of the broadcast address, which are refused as plain targets, pass. *)
Theorem cidr_target_safe (target : string) :
  (validate_shape false Shape_ipv4_cidr target = Ok tt ->
   exists ip prefix o1 o2 o3 o4 n,
     target = ip +:+ "/" +:+ prefix /\ _parse_ipv4 ip = Ok (o1, o2, o3, o4)
     /\ py_int prefix = Some n /\ 8 < n <= 32
     /\ forall a, a / 2 ^ (32 - n) = _ip_to_int o1 o2 o3 o4 / 2 ^ (32 - n) ->
          in_deny_range a = false)
  /\ validate_shape false Shape_ipv4_cidr "0.0.0.0/32" = Ok tt
  /\ validate_shape false Shape_ipv4_cidr "255.255.255.255/32" = Ok tt
  /\ validate_shape false Shape_ipv4 "0.0.0.0" = Raise (ValueError "unspecified address").
Proof.
  split; [|repeat split; vm_compute; reflexivity].
  unfold validate_shape. pose proof (partition_char_spec "/" target) as Hp.
  destruct (partition_char "/" target) as [[ip []] prefix]; [|done]. intros H.
  apply res_bind_ok in H as ([[[o1 o2] o3] o4]&Hq&H).
  destruct (py_int prefix) as [n|] eqn:En; [|done].
  destruct ((0 <=? n) && (n <=? 32)) eqn:Er; [|done]. bprop.
  unfold _check_dangerous_cidr in H.
  destruct (n =? 0) eqn:E0; [done|]. destruct (n <=? 8) eqn:E8; [done|].
  destruct (in_deny_range _) eqn:Ed; [done|]. bprop.
  exists ip, prefix, o1, o2, o3, o4, n. split; [apply Hp|]. do 3 (split; [done || lia|]).
  intros a Ha. apply not_true_iff_false in Ed. apply not_true_iff_false.
  intros Hd. apply Ed. rewrite in_deny_range_spec in Hd |- *.
  assert (Hs : forall x, x / 2 ^ 24 = x / 2 ^ (32 - n) / 2 ^ (n - 8)).
  { intros x. rewrite Z.div_div by lia. rewrite <- Z.pow_add_r by lia. do 2 f_equal. lia. }
  by rewrite Hs, <- Ha, <- Hs.
Qed.

Lemma cidr_target_safe_witness :
  exists ip prefix o1 o2 o3 o4 n,
     "198.51.100.0/24" = ip +:+ "/" +:+ prefix /\ _parse_ipv4 ip = Ok (o1, o2, o3, o4)
     /\ py_int prefix = Some n /\ 8 < n <= 32
     /\ forall a, a / 2 ^ (32 - n) = _ip_to_int o1 o2 o3 o4 / 2 ^ (32 - n) ->
          in_deny_range a = false.
Proof. refine (proj1 (cidr_target_safe "198.51.100.0/24") _). vm_compute. reflexivity. Defined.

(** The modes form a tower: an action kind enabled in a mode is enabled in
    every larger one, every enabled kind is registered, the enterprise mode
    enables the whole registry, and each mode accepts exactly the storage of
    its own profile. *)
Theorem modes_tower (kind storage : string) :
  (validate_mode_action "individual" kind = Ok tt -> validate_mode_action "startup" kind = Ok tt)
  /\ (validate_mode_action "startup" kind = Ok tt -> validate_mode_action "enterprise" kind = Ok tt)
  /\ (validate_mode_action "enterprise" kind = Ok tt <-> is_valid_kind kind = true)
  /\ forall mode p, get_profile mode = Ok p ->
       validate_mode_storage mode storage = Ok tt <-> storage = p_storage p.
Proof.
  split; [|split; [|split]].
  4:{
    intros mode p. unfold get_profile, PROFILES. cbn. unfold validate_mode_storage, str_in. cbn.
    destruct (String.eqb_spec mode "individual") as [->|]; cbn.
    { intros [= <-]. cbn. destruct (String.eqb_spec storage "sqlite"); cbn; naive_solver. }
    destruct (String.eqb mode "startup"), (String.eqb mode "enterprise"); cbn; intros Hok;
      try discriminate Hok; injection Hok as <-; cbn;
      destruct (String.eqb_spec storage "postgresql"); cbn; naive_solver. }
  all: unfold validate_mode_action, get_profile, is_valid_kind, has_key, guard_res; cbn.
  all: repeat match goal with |- context [String.eqb ?k ?s] => destruct (String.eqb k s); cbn; [try done; split; done|] end.
  all: first [done | split; intros HF; discriminate HF].
Qed.
