(* ===== verification/Auth.v ===== *)
(** * Role-based API authentication: [auth.py]

    [require_role] as a function of the settings, the request and the presented
    X-API-Key; [request.state] and the one-off warning are left out. *)

From S2P Require Import Prelude PyStr PyVal.

Inductive Role : Type := READ | WRITE | INGEST.

Definition role_eqb (a b : Role) : bool :=
  match a, b with READ, READ | WRITE, WRITE | INGEST, INGEST => true | _, _ => false end.

#[export] Instance Role_eq_dec : EqDecision Role.
Proof. solve_decision. Defined.

Record KeySettings : Type := mkKeys {
  api_key : string;
  api_key_read : string;
  api_key_write : string;
  api_key_ingest : string;
  allow_unauthenticated : bool
}.

(** A [dict] keyed by role, in insertion order. *)
Abbreviation role_dict := (list (Role * string)).

Fixpoint role_get (r : Role) (d : role_dict) : option string :=
  match d with
  | [] => None
  | (r', k) :: t => if role_eqb r r' then Some k else role_get r t
  end.

Fixpoint role_set (r : Role) (k : string) (d : role_dict) : role_dict :=
  match d with
  | [] => [(r, k)]
  | (r', k') :: t => if role_eqb r r' then (r', k) :: t else (r', k') :: role_set r k t
  end.

Definition _roles_from_settings (s : KeySettings) : role_dict :=
  let d1 := if nonempty (api_key_read s) then role_set READ (api_key_read s) [] else [] in
  let d2 := if nonempty (api_key_write s) then role_set WRITE (api_key_write s) d1 else d1 in
  let d3 := if nonempty (api_key_ingest s) then role_set INGEST (api_key_ingest s) d2 else d2 in
  if nonempty (api_key s) && negb (str_in (api_key s) (map snd d3))
  then role_set WRITE (api_key s) d3 else d3.

(** [for role in (READ, WRITE, INGEST)]. *)
Fixpoint lookup_in (presented : string) (role_keys : role_dict) (roles : list Role) : option Role :=
  match roles with
  | [] => None
  | r :: rest =>
      match role_get r role_keys with
      | Some expected => if String.eqb presented expected then Some r
                         else lookup_in presented role_keys rest
      | None => lookup_in presented role_keys rest
      end
  end.

Definition _lookup_role (presented : string) (role_keys : role_dict) : option Role :=
  if negb (nonempty presented) then None else lookup_in presented role_keys [READ; WRITE; INGEST].

Definition _allow_method_for_role (role : Role) (method : string) : bool :=
  let m := upper method in
  match role with
  | WRITE => true
  | READ => str_in m ["GET"; "HEAD"; "OPTIONS"]
  | INGEST => String.eqb m "POST"
  end.

Definition require_role (s : KeySettings) (path method : string) (x_api_key : option string)
  : res Role :=
  let role_keys := _roles_from_settings s in
  match role_keys with
  | [] => if allow_unauthenticated s then Ok WRITE
          else Raise (HTTPException 503 "API authentication is not configured")
  | _ =>
      match x_api_key with
      | None | Some "" => Raise (HTTPException 401 "X-API-Key header missing")
      | Some presented =>
          match _lookup_role presented role_keys with
          | None => Raise (HTTPException 401 "X-API-Key invalid")
          | Some role =>
              if String.eqb path "/api/v1/auth/whoami" then Ok role
              else if negb (_allow_method_for_role role method)
              then Raise (HTTPException 403 "role may not")
              else Ok role
          end
      end
  end.

(** ** Lemmas *)

(** The key a role answers to. *)
Definition key_of (s : KeySettings) (r : Role) : string :=
  let legacy := nonempty (api_key s)
    && negb (str_in (api_key s) (List.filter nonempty
               [api_key_read s; api_key_write s; api_key_ingest s])) in
  match r with
  | READ => api_key_read s
  | WRITE => if legacy then api_key s else api_key_write s
  | INGEST => api_key_ingest s
  end.

Lemma roles_get s r :
  role_get r (_roles_from_settings s)
  = if nonempty (key_of s r) then Some (key_of s r) else None.
Proof.
  destruct s as [k kr kw ki a]. unfold _roles_from_settings, key_of.
  cbn [api_key api_key_read api_key_write api_key_ingest].
  destruct (nonempty kr) eqn:E1, (nonempty kw) eqn:E2, (nonempty ki) eqn:E3;
    cbn [role_set role_eqb map snd List.filter]; rewrite ?E1, ?E2, ?E3; cbn [role_set role_eqb map snd];
    (destruct (nonempty k) eqn:E4; cbn [andb];
     [match goal with |- context [negb (str_in ?x ?l)] => destruct (str_in x l) end|]);
    destruct r; cbn; rewrite ?E1, ?E2, ?E3, ?E4; done.
Qed.

Lemma roles_empty s :
  _roles_from_settings s = [] <-> forall r, nonempty (key_of s r) = false.
Proof.
  split.
  - intros H r. pose proof (roles_get s r) as Hg. rewrite H in Hg. cbn in Hg.
    by destruct (nonempty (key_of s r)).
  - intros H. destruct (_roles_from_settings s) as [|[r k] d] eqn:E; [done|].
    pose proof (roles_get s r) as Hg. rewrite E, H in Hg. cbn in Hg.
    by destruct r.
Qed.

Lemma lookup_role_spec s presented :
  presented <> "" ->
  _lookup_role presented (_roles_from_settings s)
  = List.find (fun r => String.eqb presented (key_of s r)) [READ; WRITE; INGEST].
Proof.
  intros Hne. unfold _lookup_role. destruct presented as [|c p]; [done|]. cbn [nonempty negb].
  set (q := String c p) in *.
  assert (Hstep : forall r, match role_get r (_roles_from_settings s) with
    | Some expected => String.eqb q expected | None => false end = String.eqb q (key_of s r)).
  { intros r. rewrite roles_get. destruct (key_of s r) eqn:E; cbn; [|done].
    destruct (String.eqb_spec q ""); done. }
  cbn [lookup_in List.find]. rewrite <- !Hstep. repeat (case_match; try done).
Qed.

(** What a role may do. *)
Definition may_use (role : Role) (method : string) : Prop :=
  match role with
  | READ => upper method = "GET" \/ upper method = "HEAD" \/ upper method = "OPTIONS"
  | WRITE => True
  | INGEST => upper method = "POST"
  end.

#[export] Instance may_use_dec role method : Decision (may_use role method).
Proof. destruct role; unfold may_use; apply _. Defined.

Lemma allow_method_spec role method :
  _allow_method_for_role role method = bool_decide (may_use role method).
Proof.
  apply eq_true_iff_eq. rewrite bool_decide_eq_true.
  destruct role; cbn; rewrite ?orb_true_iff, ?String.eqb_eq; intuition congruence.
Qed.

(** ** Properties *)

(** C18. Authentication, for every setting and request.  With no key configured
    the answer is 503, or the write role when unauthenticated mode is on.
    Otherwise a missing or empty key and an unknown key are 401; a known key
    has the first of the roles read, write, ingest whose key it is (the
    legacy key stands in for the write key unless it is one of the three),
    and is let through for the whoami path or when the role may use the
    method (read: GET, HEAD, OPTIONS; ingest: POST; write: all), else 403. *)
Theorem require_role_spec (s : KeySettings) (path method : string) (x_api_key : option string) :
  require_role s path method x_api_key
  = if forallb (fun r => negb (nonempty (key_of s r))) [READ; WRITE; INGEST] then
      if allow_unauthenticated s then Ok WRITE
      else Raise (HTTPException 503 "API authentication is not configured")
    else if negb (nonempty (default "" x_api_key))
    then Raise (HTTPException 401 "X-API-Key header missing")
    else match List.find (fun r => String.eqb (default "" x_api_key) (key_of s r))
                 [READ; WRITE; INGEST] with
         | None => Raise (HTTPException 401 "X-API-Key invalid")
         | Some role =>
             if String.eqb path "/api/v1/auth/whoami" || bool_decide (may_use role method)
             then Ok role else Raise (HTTPException 403 "role may not")
         end.
Proof.
  unfold require_role.
  assert (Hempty : forallb (fun r => negb (nonempty (key_of s r))) [READ; WRITE; INGEST]
    = match _roles_from_settings s with [] => true | _ => false end).
  { pose proof (roles_empty s) as He. destruct (_roles_from_settings s) as [|e d].
    - cbn [forallb]. by rewrite !(proj1 He eq_refl).
    - apply not_true_is_false. rewrite forallb_forall. intros H.
      assert (e :: d = []) as [=]. apply He. intros r. apply negb_true_iff, H. destruct r; cbn; auto. }
  rewrite Hempty. destruct (_roles_from_settings s) as [|e d] eqn:E; [done|].
  destruct x_api_key as [[|c p]|]; try done. cbn [default nonempty negb].
  rewrite <- E, lookup_role_spec by done.
  destruct (List.find _ _) as [role|]; [|done]. rewrite allow_method_spec.
  destruct (String.eqb path _); [done|]. by destruct (bool_decide _).
Qed.

(** A legacy key that is none of the three replaces the write key: the
    configured write key is refused. *)
Lemma legacy_replaces_write :
  require_role (mkKeys "old" "r" "w" "i" false) "/api/v1/hosts" "POST" (Some "w")
  = Raise (HTTPException 401 "X-API-Key invalid")
  /\ require_role (mkKeys "old" "r" "w" "i" false) "/api/v1/hosts" "POST" (Some "old") = Ok WRITE.
Proof. split; reflexivity. Qed.
