(* ===== verification/AuditLog.v ===== *)
(** * The audit log: [audit.py] and [api/v1/audit.py]

    The in-memory ring, the open handle of the daily file and the files of the
    log directory are the record [audit_log].  Clock readings are arguments (in
    microseconds, UTC); what the file system does in one call is the record
    [io].  The parameter [fromisoformat] is [datetime.fromisoformat]. *)

From S2P Require Import Prelude PyStr PyVal PyStd Json.
From Stdlib Require Import Ascii.

(** ** [json.dumps(..., ensure_ascii=False)] *)

Definition raw_char (c : ascii) : string :=
  if in_range 127 255 c then String c "" else json_char c.

Fixpoint raw_chars (s : string) : string :=
  match s with
  | EmptyString => EmptyString
  | String c r => raw_char c +:+ raw_chars r
  end.

Definition raw_string (s : string) : string := String dquote (raw_chars s +:+ String dquote "").

Fixpoint dumps_raw (v : val) : string :=
  match v with
  | VStr s => raw_string s
  | VFloat r => json_float r
  | VList l => "[" +:+ join ", " (map dumps_raw l) +:+ "]"
  | VDict d => "{" +:+ join ", " (map (fun kv => raw_string kv.1 +:+ ": " +:+ dumps_raw kv.2) d) +:+ "}"
  | _ => dumps v
  end.

(** ** State *)

Definition AUDIT_MAX : nat := 1024.

(** A value of an entry: a [datetime], or anything JSON holds. *)
Inductive aval : Type :=
| ADate (us : Z)
| AVal (v : val).

Abbreviation item := (list (string * aval)).

Record audit_log : Type := mkAudit {
  _log : list item;
  _persist_dir : option string;
  _persist_handle : option string;
  _persist_date : option string;
  _persist_warned : bool;
  pending : string;  (* what the open handle has buffered *)
  audit_files : gmap string string
}.

(** What the file system does with the close, the open and the write of one
    call: a failing flush leaves some characters on the disk. *)
Record io : Type := mkIo {
  io_close : option nat;
  io_open : bool;
  io_write : option nat
}.

Definition good_io : io := mkIo None true None.

Definition today (now : Z) : string := ymd "-" (now / 1000000).

Definition persist_path (dir day : string) : string := dir +:+ "/audit-" +:+ day +:+ ".jsonl".

Definition _resolve_persist_path (now : Z) (st : audit_log) : option string :=
  (fun dir => persist_path dir (today now)) <$> _persist_dir st.

(** ** Files *)

Definition content (path : string) (fs : gmap string string) : string := default "" (fs !! path).

Definition append_file (path text : string) (fs : gmap string string) : gmap string string :=
  <[path := content path fs +:+ text]> fs.

(** Flush [text] to the file: all of it, or [n] characters before the error. *)
Definition flush (path text : string) (fails : option nat) (fs : gmap string string)
  : gmap string string * string :=
  match fails with
  | None => (append_file path text fs, "")
  | Some n => (append_file path (take_str n text) fs, drop_str n text)
  end.

(** ** Operations *)

Definition reopen (io : io) (dir day : string) (st : audit_log) : audit_log * option string :=
  let target := persist_path dir day in
  let fs := match _persist_handle st with
            | Some h => (flush h (pending st) (io_close io) (audit_files st)).1
            | None => audit_files st
            end in
  if io_open io
  then (mkAudit (_log st) (_persist_dir st) (Some target) (Some day) (_persist_warned st) ""
          (append_file target "" fs), Some target)
  else (mkAudit (_log st) (_persist_dir st) None (_persist_date st) true "" fs, None).

Definition _ensure_persist_open (io : io) (now : Z) (st : audit_log) : audit_log * option string :=
  match _persist_dir st with
  | None => (st, None)
  | Some dir =>
      if _persist_warned st then (st, None)
      else match _persist_handle st with
           | Some h => if bool_decide (_persist_date st = Some (today now)) then (st, Some h)
                       else reopen io dir (today now) st
           | None => reopen io dir (today now) st
           end
  end.

(** [item["ts"].isoformat()]. *)
Definition ts_text (it : item) : res string :=
  match assoc "ts" it with
  | Some (ADate us) => Ok (isoformat us)
  | Some (AVal _) => Raise AttributeError
  | None => Raise KeyError
  end.

Definition plain (v : aval) : val := match v with ADate us => VStr (isoformat us) | AVal v => v end.

Definition item_json (ts : string) (it : item) : string :=
  dumps_raw (VDict (map (fun kv => (kv.1, plain kv.2)) (assoc_set "ts" (AVal (VStr ts)) it))).

(** The arguments of one call. *)
Record entry : Type := mkEntry {
  en_actor : string;
  en_action : string;
  en_target : string;
  en_status : option Z;
  en_extra : list (string * val)
}.

Definition entry_item (ts : Z) (e : entry) : item :=
  let base := [("ts", ADate ts); ("actor", AVal (VStr (en_actor e)));
               ("action", AVal (VStr (en_action e))); ("target", AVal (VStr (en_target e)))] in
  let base := match en_status e with
              | Some s => assoc_set "status" (AVal (VInt s)) base
              | None => base
              end in
  fold_left (fun d kv => assoc_set kv.1 (AVal kv.2) d) (en_extra e) base.

(** [deque(maxlen=AUDIT_MAX).append]. *)
Definition ring_append (it : item) (log : list item) : list item :=
  let l := log ++ [it] in drop (length l - AUDIT_MAX) l.

Definition set_log (l : list item) (st : audit_log) : audit_log :=
  mkAudit l (_persist_dir st) (_persist_handle st) (_persist_date st) (_persist_warned st)
    (pending st) (audit_files st).

Definition persist (io : io) (path : string) (it : item) : M audit_log unit := fun st =>
  match ts_text it with
  | Raise e => (st, Raise e)
  | Ok ts =>
      let '(fs, rest) := flush path (pending st +:+ item_json ts it +:+ String "010" "")
                           (io_write io) (audit_files st) in
      (mkAudit (_log st) (_persist_dir st) (_persist_handle st) (_persist_date st)
         (_persist_warned st) rest fs, Ok tt)
  end.

(** [now] stamps the entry, [day_now] is the clock read when the file is chosen. *)
Definition record (io : io) (now day_now : Z) (e : entry) : M audit_log item := fun st =>
  let it := entry_item now e in
  let st1 := set_log (ring_append it (_log st)) st in
  let '(st2, handle) := _ensure_persist_open io day_now st1 in
  match handle with
  | None => (st2, Ok it)
  | Some h => (_ ← persist io h it; mret it) st2
  end.

(** The dict of an entry with its timestamp rendered. *)
Definition shown (it : item) : item :=
  match assoc "ts" it with
  | Some (ADate us) => assoc_set "ts" (AVal (VStr (isoformat us))) it
  | _ => it
  end.

Definition snapshot (limit : Z) (st : audit_log) : list item :=
  if limit <? 1 then []
  else map shown (rev (drop (length (_log st) - Z.to_nat limit) (_log st))).

Definition reset (st : audit_log) : audit_log :=
  mkAudit [] (_persist_dir st) (_persist_handle st) None (_persist_warned st)
    (pending st) (audit_files st).

(** ** [api/v1/audit.py] *)

Section Endpoint.
Context (fromisoformat : string -> res Z).

(** [needle in it.get(key, "")]. *)
Definition field_contains (key needle : string) (it : item) : res bool :=
  match assoc key it with
  | None => Ok (contains needle "")
  | Some (AVal (VStr s)) => Ok (contains needle s)
  | Some (AVal (VList l)) => Ok (val_in (VStr needle) l)
  | Some (AVal (VDict d)) => Ok (has_key needle d)
  | Some _ => Raise TypeError
  end.

Fixpoint filter_res (p : item -> res bool) (l : list item) : res (list item) :=
  match l with
  | [] => Ok []
  | it :: r => b ← p it; t ← filter_res p r; Ok (if b : bool then it :: t else t)
  end.

Definition opt_filter (key : string) (needle : option string) (l : list item) : res (list item) :=
  match needle with
  | Some s => if nonempty s then filter_res (field_contains key s) l else Ok l
  | None => Ok l
  end.

(** Entries whose timestamp is no text or does not parse are skipped. *)
Definition not_before (cutoff : Z) (it : item) : res bool :=
  match assoc "ts" it with
  | Some (AVal (VStr s)) =>
      match fromisoformat s with
      | Ok t => Ok (cutoff <=? t)
      | Raise e => if is_value_error e then Ok false else Raise e
      end
  | _ => Ok false
  end.

(** [limit] has been checked against 1..1000 by the router. *)
Definition list_audit (actor action : option string) (since : option Z) (limit : Z)
    (st : audit_log) : res (list item) :=
  let raw := snapshot limit st in
  a ← opt_filter "actor" actor raw;
  b ← opt_filter "action" action a;
  match since with
  | None => Ok b
  | Some cutoff => filter_res (not_before cutoff) b
  end.

End Endpoint.

(** ** A sequence of calls *)

Record call : Type := mkCall { c_io : io; c_now : Z; c_day : Z; c_entry : entry }.

Definition run_call (st : audit_log) (c : call) : audit_log :=
  (record (c_io c) (c_now c) (c_day c) (c_entry c) st).1.

Definition run_calls (cs : list call) (st : audit_log) : audit_log := fold_left run_call cs st.

Definition fresh_log (dir : option string) : audit_log := mkAudit [] dir None None false "" ∅.

(** ** Lemmas *)

Lemma ring_append_take (it : item) (all : list item) :
  ring_append it (drop (length all - AUDIT_MAX) all)
  = drop (length (all ++ [it]) - AUDIT_MAX) (all ++ [it]).
Proof.
  unfold ring_append. rewrite <- (drop_app_le _ [it]) by lia.
  rewrite drop_drop, length_drop. f_equal. rewrite length_app. cbn [length]. lia.
Qed.

(** *** The ring *)

Lemma ensure_log io now st : _log (_ensure_persist_open io now st).1 = _log st.
Proof.
  unfold _ensure_persist_open, reopen. repeat split_match; done.
Qed.

Lemma record_log io now day e st :
  _log (record io now day e st).1 = ring_append (entry_item now e) (_log st).
Proof.
  unfold record. pose proof (ensure_log io day (set_log (ring_append (entry_item now e) (_log st)) st)) as L.
  destruct (_ensure_persist_open _ _ _) as [st2 [h|]]; cbn [fst _log set_log] in L; [|exact L].
  rewrite <- L. unfold persist, mbind, M_bind. destruct (ts_text _); [|done].
  by destruct (flush _ _ _ _).
Qed.

Definition call_item (c : call) : item := entry_item (c_now c) (c_entry c).

Lemma run_calls_log cs dir :
  let all := map call_item cs in
  _log (run_calls cs (fresh_log dir)) = drop (length all - AUDIT_MAX) all.
Proof.
  cbv zeta. induction cs as [|c cs IH] using rev_ind; [done|].
  unfold run_calls. rewrite fold_left_app. cbn [fold_left]. unfold run_call at 1.
  rewrite record_log. fold (run_calls cs (fresh_log dir)). rewrite IH, map_app. apply ring_append_take.
Qed.

(** *** The timestamp of an entry *)

Lemma extras_keep k (v : aval) extra : forall d,
  ~ In k (map fst extra) -> assoc k d = Some v ->
  assoc k (fold_left (fun d kv => assoc_set kv.1 (AVal kv.2) d) extra d) = Some v.
Proof.
  induction extra as [|[k' v'] extra IH]; intros d Hn Hd; cbn [fold_left fst snd]; [done|].
  cbn [map In fst] in Hn. apply IH; [tauto|]. rewrite assoc_set_other by tauto. done.
Qed.

Lemma entry_ts now e :
  ~ In "ts" (map fst (en_extra e)) -> ts_text (entry_item now e) = Ok (isoformat now).
Proof.
  intros H. unfold ts_text, entry_item. rewrite (extras_keep "ts" (ADate now)); [done|exact H|].
  destruct (en_status e); reflexivity.
Qed.

(** *** The daily files *)

Definition line (c : call) : string :=
  item_json (isoformat (c_now c)) (call_item c) +:+ String "010" "".

(** A log whose last write went through. *)
Definition settled (d : string) (st : audit_log) : Prop :=
  _persist_dir st = Some d /\ _persist_warned st = false /\ pending st = ""
  /\ ((_persist_handle st = None)
      \/ exists day, _persist_handle st = Some (persist_path d day) /\ _persist_date st = Some day).

Lemma content_append p path text fs :
  content p (append_file path text fs) = content p fs +:+ (if String.eqb p path then text else "").
Proof.
  unfold content, append_file. destruct (String.eqb p path) eqn:E; bprop.
  - subst. by rewrite lookup_insert_eq.
  - rewrite lookup_insert_ne by congruence. by rewrite sapp_nil_r.
Qed.

Lemma ensure_good d now st :
  settled d st ->
  let st' := (_ensure_persist_open good_io now st).1 in
  (_ensure_persist_open good_io now st).2 = Some (persist_path d (today now))
  /\ settled d st'
  /\ (_persist_handle st' = Some (persist_path d (today now)) /\ _persist_date st' = Some (today now))
  /\ forall p, content p (audit_files st') = content p (audit_files st).
Proof.
  intros (Hd&Hw&Hp&Hh). cbv zeta. unfold _ensure_persist_open. rewrite Hd, Hw.
  assert (Hre : let r := reopen good_io d (today now) st in
    r.2 = Some (persist_path d (today now)) /\ settled d r.1
    /\ (_persist_handle r.1 = Some (persist_path d (today now)) /\ _persist_date r.1 = Some (today now))
    /\ forall p, content p (audit_files r.1) = content p (audit_files st)).
  { cbv zeta. unfold reopen, good_io, flush. cbn [io_close io_open fst snd _persist_handle _persist_date audit_files].
    split; [done|]. split; [repeat split; eauto|]. split; [done|]. intros p.
    rewrite content_append. destruct (_persist_handle st); rewrite ?content_append, ?Hp;
      repeat destruct (String.eqb _ _); by rewrite ?sapp_nil_r. }
  destruct Hh as [Hh|(day&Hh&Hdate)]; rewrite Hh; [exact Hre|].
  case_bool_decide as E; [|exact Hre]. cbn [fst snd]. rewrite Hdate in E. injection E as ->.
  split; [done|]. split; [repeat split; eauto|]. split; done.
Qed.

Lemma run_call_good d c st :
  settled d st -> c_io c = good_io -> ~ In "ts" (map fst (en_extra (c_entry c))) ->
  settled d (run_call st c)
  /\ forall p, content p (audit_files (run_call st c))
       = content p (audit_files st)
         +:+ (if String.eqb p (persist_path d (today (c_day c))) then line c else "").
Proof.
  intros Hs Hio Hts. unfold run_call, record. rewrite Hio.
  set (st1 := set_log _ st).
  assert (Hs1 : settled d st1) by exact Hs.
  destruct (ensure_good d (c_day c) st1 Hs1) as (E&(Hd&Hw&Hp&_)&[Hh Hdt]&Hf).
  destruct (_ensure_persist_open good_io (c_day c) st1) as [st2 handle]. cbn [fst snd] in *. subst handle.
  unfold mbind, M_bind, mret, M_ret, persist. rewrite entry_ts by done.
  unfold good_io, flush. cbn [io_write fst _persist_dir _persist_warned pending _persist_handle audit_files].
  split; [repeat split; eauto|]. intros p. rewrite content_append, Hf, Hp. done.
Qed.

Lemma run_calls_files d cs :
  Forall (fun c => c_io c = good_io /\ ~ In "ts" (map fst (en_extra (c_entry c)))) cs ->
  settled d (run_calls cs (fresh_log (Some d)))
  /\ forall p, content p (audit_files (run_calls cs (fresh_log (Some d))))
       = join "" (map line (List.filter (fun c => String.eqb p (persist_path d (today (c_day c)))) cs)).
Proof.
  induction cs as [|c cs IH] using rev_ind; intros H.
  - split; [repeat split; by left|done].
  - apply Forall_app in H as [H Hc]. apply Forall_cons in Hc as [[Hio Hts] _].
    specialize (IH H) as [Hs Hf]. unfold run_calls. rewrite fold_left_app. cbn [fold_left].
    fold (run_calls cs (fresh_log (Some d))).
    destruct (run_call_good d c _ Hs Hio Hts) as [Hs' Hf']. split; [done|]. intros p.
    rewrite Hf', Hf, List.filter_app, map_app, join_empty_app. f_equal. cbn [List.filter].
    by destruct (String.eqb p _).
Qed.

Lemma rev_drop_take {A} (l : list A) (m n : nat) :
  rev (drop (length (drop m l) - n) (drop m l)) = take (Nat.min n (length l - m)) (rev l).
Proof.
  rewrite drop_drop, length_drop. set (k := (m + (length l - m - n))%nat).
  assert (E : rev l = rev (drop k l) ++ rev (take k l)) by (by rewrite <- rev_app_distr, take_drop).
  rewrite E, take_app_le by (rewrite length_rev, length_drop; lia).
  rewrite take_ge; [done|]. rewrite length_rev, length_drop. lia.
Qed.

(** ** Properties *)


Definition ex_entry (a : string) : entry := mkEntry "write" a "s1" None [("zone_id", VStr "z")].

