(* ===== verification/Db.v ===== *)
(** * The database: [models/], [detectors/action_service.py],
    [detectors/alert_service.py], [service/]

    PostgreSQL is outside the repository.  The tables of [models/] are the
    record [db]; a statement is a function on it that fails with [SqlError] when
    it breaks a declared constraint (primary key, foreign key, column width,
    32-bit integer, no NUL character in text).  A session is the class
    [Database]: [transaction] runs statements up to a commit.  Its law leaves
    room for a lost connection, before or after the commit.

    Instants are integers; the ids drawn by [uuid4] and the clock readings are
    arguments. *)

From S2P Require Import Prelude PyStr PyVal PyStd.
From Stdlib Require Import Ascii.

(** ** The rows *)

Record Host : Type := mkHost {
  h_id : string;
  h_first_seen_at : Z;
  h_last_seen_at : Z;
  h_last_version : option string;
  h_hostname : option string;
  h_secret : option string;
  h_auto_block : bool;
  h_meta : list (string * val)
}.

Record Event : Type := mkEventRow {
  e_id : string;
  e_host_id : string;
  e_schema : string;
  e_occurred_at : Z;
  e_received_at : Z;
  e_source : string;
  e_raw : string;
  e_metadata : list (string * val)
}.

Record Alert : Type := mkAlert {
  al_id : string;
  al_host_id : option string;
  al_detector : string;
  al_severity : string;
  al_summary : string;
  al_detail : list (string * val);
  al_created_at : Z;
  al_acknowledged_at : option Z
}.

Record Action : Type := mkAction {
  ac_id : string;
  ac_host_id : option string;
  ac_alert_id : option string;
  ac_kind : string;
  ac_target : string;
  ac_ttl_sec : option Z;
  ac_status : string;
  ac_sent_at : option Z;
  ac_acked_at : option Z;
  ac_created_at : Z
}.

Record SourceConnector : Type := mkConnector {
  sc_id : string;
  sc_platform : string;
  sc_name : option string;
  sc_config : list (string * val);
  sc_api_key : string;
  sc_api_key_fingerprint : string;
  sc_status : string;
  sc_events_received : Z;
  sc_error_count : Z;
  sc_last_event_at : option Z;
  sc_created_at : Z;
  sc_updated_at : Z
}.

Record db : Type := mkDb {
  db_hosts : gmap string Host;
  db_events : gmap string Event;
  db_alerts : gmap string Alert;
  db_actions : gmap string Action;
  db_sources : gmap string SourceConnector
}.

Definition empty_db : db := mkDb ∅ ∅ ∅ ∅ ∅.

Definition set_hosts (f : gmap string Host -> gmap string Host) (d : db) : db :=
  mkDb (f (db_hosts d)) (db_events d) (db_alerts d) (db_actions d) (db_sources d).
Definition set_events (f : gmap string Event -> gmap string Event) (d : db) : db :=
  mkDb (db_hosts d) (f (db_events d)) (db_alerts d) (db_actions d) (db_sources d).
Definition set_alerts (f : gmap string Alert -> gmap string Alert) (d : db) : db :=
  mkDb (db_hosts d) (db_events d) (f (db_alerts d)) (db_actions d) (db_sources d).
Definition set_actions (f : gmap string Action -> gmap string Action) (d : db) : db :=
  mkDb (db_hosts d) (db_events d) (db_alerts d) (f (db_actions d)) (db_sources d).
Definition set_sources (f : gmap string SourceConnector -> gmap string SourceConnector) (d : db) : db :=
  mkDb (db_hosts d) (db_events d) (db_alerts d) (db_actions d) (f (db_sources d)).

(** ** Constraints *)

Definition text_ok (s : string) : bool := negb (sexists (is_char "000") s).
Definition varchar (n : Z) (s : string) : bool := (slen s <=? n) && text_ok s.
Definition int32 (z : Z) : bool := (- 2 ^ 31 <=? z) && (z <? 2 ^ 31).
Definition opt_all {A} (p : A -> bool) (o : option A) : bool :=
  match o with Some a => p a | None => true end.

(** What a JSONB column stores: no NUL in any text. *)
Fixpoint jsonb_ok (v : val) : bool :=
  match v with
  | VStr s => text_ok s
  | VList l => forallb jsonb_ok l
  | VDict d => forallb (fun kv => text_ok kv.1 && jsonb_ok kv.2) d
  | _ => true
  end.

Definition present {A} (m : gmap string A) (k : string) : bool := bool_decide (is_Some (m !! k)).

Definition alert_ok (d : db) (a : Alert) : bool :=
  negb (present (db_alerts d) (al_id a)) && opt_all (present (db_hosts d)) (al_host_id a)
  && varchar 64 (al_detector a) && varchar 16 (al_severity a) && varchar 512 (al_summary a)
  && jsonb_ok (VDict (al_detail a)).

Definition action_ok (d : db) (a : Action) : bool :=
  negb (present (db_actions d) (ac_id a)) && opt_all (present (db_hosts d)) (ac_host_id a)
  && opt_all (present (db_alerts d)) (ac_alert_id a)
  && varchar 64 (ac_kind a) && varchar 512 (ac_target a) && varchar 16 (ac_status a)
  && opt_all int32 (ac_ttl_sec a).

Definition event_ok (d : db) (e : Event) : bool :=
  present (db_hosts d) (e_host_id e) && varchar 16 (e_schema e) && varchar 255 (e_source e)
  && text_ok (e_raw e) && jsonb_ok (VDict (e_metadata e)).

(** ** Statements *)

Definition insert_alert (a : Alert) : M db unit := fun d =>
  if alert_ok d a then (set_alerts (insert (al_id a) a) d, Ok tt) else (d, Raise SqlError).

Definition insert_action (a : Action) : M db unit := fun d =>
  if action_ok d a then (set_actions (insert (ac_id a) a) d, Ok tt) else (d, Raise SqlError).

(** INSERT ... ON CONFLICT (id) DO NOTHING RETURNING. *)
Definition insert_event (e : Event) : M db (option Event) := fun d =>
  if event_ok d e then
    match db_events d !! e_id e with
    | Some _ => (d, Ok None)
    | None => (set_events (insert (e_id e) e) d, Ok (Some e))
    end
  else (d, Raise SqlError).

(** UPDATE actions SET ... WHERE id = ... AND status = ...: the row count. *)
Definition update_action (id status : string) (f : Action -> Action) : M db Z := fun d =>
  match db_actions d !! id with
  | Some a => if String.eqb (ac_status a) status
              then (set_actions (insert id (f a)) d, Ok 1) else (d, Ok 0)
  | None => (d, Ok 0)
  end.

(** ** Sessions *)

Class Database (D : Type) : Type := {
  tables : D -> db;
  transaction : forall A, M db A -> M D A
}.
Arguments transaction {D _ A} t.

(** A transaction that commits applies its statements; one whose statements
    raise changes nothing; a lost connection raises, and leaves the tables
    either as they were or as committed. *)
Class DatabaseLaws (D : Type) `{Database D} : Prop := {
  transaction_law A (t : M db A) (d : D) :
    match t (tables d) with
    | (st, Ok a) =>
        (tables (transaction t d).1 = st /\ (transaction t d).2 = Ok a)
        \/ (tables (transaction t d).1 = st /\ (transaction t d).2 = Raise SqlError)
        \/ (tables (transaction t d).1 = tables d /\ (transaction t d).2 = Raise SqlError)
    | (_, Raise e) =>
        tables (transaction t d).1 = tables d
        /\ ((transaction t d).2 = Raise e \/ (transaction t d).2 = Raise SqlError)
    end
}.

(** A database that never loses the connection. *)
Definition run_transaction {A} (t : M db A) : M db A := fun d =>
  match t d with
  | (st, Ok a) => (st, Ok a)
  | (_, Raise e) => (d, Raise e)
  end.

#[export] Instance mem_database : Database db := {
  tables d := d;
  transaction A t d := run_transaction t d
}.

#[export] Instance mem_database_laws : DatabaseLaws db.
Proof.
  constructor. intros A t d. cbn. unfold run_transaction.
  destruct (t d) as [st [a|e]]; cbn; auto.
Qed.

(** ** [action_service.py] *)

Section Services.
Context {D : Type} `{Database D}.

Definition write_action (new_id : string) (now : Z) (host_id : string) (alert_id : option string)
    (kind target : string) (ttl_sec : option Z) : M D string :=
  _ ← transaction (insert_action
        (mkAction new_id (Some host_id) alert_id kind target ttl_sec "pending" None None now));
  mret new_id.

Definition as_dispatched (now : Z) (a : Action) : Action :=
  mkAction (ac_id a) (ac_host_id a) (ac_alert_id a) (ac_kind a) (ac_target a) (ac_ttl_sec a)
    "dispatched" (Some now) (ac_acked_at a) (ac_created_at a).

Definition as_acked (status : string) (now : Z) (a : Action) : Action :=
  mkAction (ac_id a) (ac_host_id a) (ac_alert_id a) (ac_kind a) (ac_target a) (ac_ttl_sec a)
    status (ac_sent_at a) (Some now) (ac_created_at a).

Definition mark_dispatched (action_id : string) (now : Z) : M D bool :=
  n ← transaction (update_action action_id "pending" (as_dispatched now)); mret (0 <? n).

Definition mark_applied (action_id : string) (now : Z) : M D bool :=
  n ← transaction (update_action action_id "dispatched" (as_acked "applied" now)); mret (0 <? n).

Definition mark_failed (action_id : string) (now : Z) : M D bool :=
  n ← transaction (update_action action_id "dispatched" (as_acked "failed" now)); mret (0 <? n).

Definition get_action (action_id : string) : M D (option Action) :=
  transaction (fun d => (d, Ok (db_actions d !! action_id))).

(** ** [alert_service.py] *)

Definition enrich (detail : list (string * val)) (dedup_key : string) (cooldown_sec : Z)
  : list (string * val) :=
  let d1 := if nonempty dedup_key then assoc_set "dedup_key" (VStr dedup_key) detail else detail in
  if cooldown_sec =? 0 then d1 else assoc_set "cooldown_sec" (VInt cooldown_sec) d1.

Definition write_alert (alert_id : string) (now : Z) (detector severity summary : string)
    (detail : list (string * val)) (host_id : option string) (dedup_key : string)
    (cooldown_sec : Z) : M D string :=
  _ ← transaction (insert_alert
        (mkAlert alert_id host_id detector severity (take_str 512 summary)
           (enrich detail dedup_key cooldown_sec) now None));
  mret alert_id.

(** ** [service/event_service.py] *)

(** The fields of an EVENT frame's inner event. *)
Record EventInner : Type := mkInner {
  in_id : string;
  in_host_id : string;
  in_event_schema : string;
  in_timestamp : Z;
  in_source : string;
  in_raw : string;
  in_metadata : list (string * val)
}.

Definition event_row (now : Z) (i : EventInner) : Event :=
  mkEventRow (in_id i) (in_host_id i) (in_event_schema i) (in_timestamp i) now
    (in_source i) (in_raw i) (in_metadata i).

(** The insert; on a conflict the rollback and [DuplicateEvent]. *)
Definition persist_row (now : Z) (inner : EventInner) : M D Event :=
  transaction (row ← insert_event (event_row now inner);
               match row with Some e => mret e | None => raise_M DuplicateEvent end).

(** [publish] is [publish_event], whose failure is logged and dropped. *)
Definition persist_event {R} (publish : Event -> M R unit) (now : Z) (inner : EventInner)
  : M (D * R) Event :=
  row ← on_fst (persist_row now inner);
  _ ← try_M (on_snd (publish row)) (fun _ => mret tt);
  mret row.

(** [select(Event).order_by(received_at.desc()).limit().offset()] with its two
    filters. *)
Definition newest_first (a b : Event) : Prop := e_received_at b <= e_received_at a.

#[local] Instance newest_first_dec a b : Decision (newest_first a b).
Proof. unfold newest_first. apply _. Defined.

Definition list_events (host_id : option string) (since : option Z) (limit offset : nat)
  : M D (list Event) :=
  transaction (fun d => (d, Ok (
    take limit (drop offset (merge_sort newest_first
      (filter (fun e => opt_all (String.eqb (e_host_id e)) host_id
                        && opt_all (fun t => t <? e_received_at e) since = true)
         (map snd (map_to_list (db_events d))))))))).

(** ** [service/host_service.py] *)

Definition get_host (agent_id : string) : M D (option Host) :=
  transaction (fun d => (d, Ok (db_hosts d !! agent_id))).

(** In the session of the HELLO handler, which commits. *)
Definition upsert_on_hello (agent_id : string) : M db Host := fun d =>
  (d, match db_hosts d !! agent_id with
      | Some h => Ok h
      | None => Raise (ValueError "unknown agent")
      end).

Definition touch (version : string) (now : Z) (h : Host) : Host :=
  mkHost (h_id h) (h_first_seen_at h) now (Some version) (h_hostname h) (h_secret h)
    (h_auto_block h) (h_meta h).

(** The flush writes the two changed columns; [last_version] holds 32 characters. *)
Definition mark_authenticated_hello (host : Host) (version : string) (now : Z) : M db Host := fun d =>
  if varchar 32 version
  then (set_hosts (alter (touch version now) (h_id host)) d, Ok (touch version now host))
  else (d, Raise SqlError).

Definition newest_host (a b : Host) : Prop := h_last_seen_at b <= h_last_seen_at a.

#[local] Instance newest_host_dec a b : Decision (newest_host a b).
Proof. unfold newest_host. apply _. Defined.

Definition list_hosts (limit offset : nat) : M D (list Host) :=
  transaction (fun d => (d, Ok (take limit (drop offset
    (merge_sort newest_host (map snd (map_to_list (db_hosts d)))))))).

End Services.


(** ** The life of an action row *)

Definition terminal (status : string) : bool := str_in status ["applied"; "failed"].
Definition statuses : list string := ["pending"; "dispatched"; "applied"; "failed"].

(** The allowed changes of the status column. *)
Definition may_become (s t : string) : Prop :=
  s = t \/ (s = "pending" /\ In t statuses) \/ (s = "dispatched" /\ terminal t = true).

(** [sent_at] and [acked_at] are set exactly when the status says so. *)
Definition action_wf (a : Action) : Prop :=
  In (ac_status a) statuses
  /\ (ac_sent_at a = None <-> ac_status a = "pending")
  /\ (ac_acked_at a = None <-> terminal (ac_status a) = false).

(** The columns an operator reads to know what was ordered. *)
Definition order_of (a : Action) : option string * option string * string * string * option Z * Z :=
  (ac_host_id a, ac_alert_id a, ac_kind a, ac_target a, ac_ttl_sec a, ac_created_at a).

Definition later (a a' : Action) : Prop :=
  order_of a' = order_of a /\ may_become (ac_status a) (ac_status a')
  /\ (terminal (ac_status a) = true -> a' = a).

(** Calls of the service, in any interleaving. *)
Inductive aop : Type :=
| OpWrite (new_id : string) (now : Z) (host_id : string) (alert_id : option string)
    (kind target : string) (ttl_sec : option Z)
| OpDispatched (action_id : string) (now : Z)
| OpApplied (action_id : string) (now : Z)
| OpFailed (action_id : string) (now : Z).

Lemma present_true {A} (m : gmap string A) k : present m k = true <-> exists a, m !! k = Some a.
Proof. unfold present. rewrite bool_decide_eq_true. split; intros [a Ha]; eauto. Qed.

Lemma present_false {A} (m : gmap string A) k : present m k = false <-> m !! k = None.
Proof.
  unfold present. rewrite bool_decide_eq_false, <- eq_None_not_Some. done.
Qed.

Section Lifecycle.
Context {D : Type} `{DatabaseLaws D}.

Definition run_aop (o : aop) (d : D) : D * res bool :=
  match o with
  | OpWrite i now h al k t ttl =>
      let '(d', r) := write_action i now h al k t ttl d in (d', fmap (fun _ => true) r)
  | OpDispatched i now => mark_dispatched i now d
  | OpApplied i now => mark_applied i now d
  | OpFailed i now => mark_failed i now d
  end.

Fixpoint run_aops (ops : list aop) (d : D) : D * list (res bool) :=
  match ops with
  | [] => (d, [])
  | o :: ops' =>
      let '(d1, r) := run_aop o d in
      let '(d2, rs) := run_aops ops' d1 in (d2, r :: rs)
  end.

(** The statement an operation runs, on the tables. *)
Definition stmt (o : aop) : M db Z :=
  match o with
  | OpWrite i now h al k t ttl =>
      _ ← insert_action (mkAction i (Some h) al k t ttl "pending" None None now); mret 1
  | OpDispatched i now => update_action i "pending" (as_dispatched now)
  | OpApplied i now => update_action i "dispatched" (as_acked "applied" now)
  | OpFailed i now => update_action i "dispatched" (as_acked "failed" now)
  end.

(** A transaction either changes nothing and raises, or runs its statements. *)
Lemma transaction_cases {A} (t : M db A) (d : D) :
  (tables (transaction t d).1 = tables d /\ exists e, (transaction t d).2 = Raise e)
  \/ exists a, t (tables d) = (tables (transaction t d).1, Ok a)
       /\ ((transaction t d).2 = Ok a \/ (transaction t d).2 = Raise SqlError).
Proof.
  pose proof (transaction_law A t d) as L. destruct (t (tables d)) as [st [a|e]].
  - destruct L as [[<- ->]|[[<- ->]|[E ->]]]; [right; eauto..|left; eauto].
  - left. destruct L as [E [->| ->]]; eauto.
Qed.

(** A transaction keeps what its statements keep. *)
Lemma inv_transaction {A} (I : db -> Prop) (t : M db A) :
  keeps_inv I t -> keeps_inv (fun d : D => I (tables d)) (transaction t).
Proof.
  intros Ht d Hd. destruct (transaction_cases t d) as [[E _]|(a&E&_)]; [by rewrite E|].
  specialize (Ht _ Hd). by rewrite E in Ht.
Qed.

Lemma run_aop_tables o d :
  (tables (run_aop o d).1 = tables d /\ (run_aop o d).2 <> Ok true)
  \/ exists n, stmt o (tables d) = (tables (run_aop o d).1, Ok n)
       /\ ((run_aop o d).2 = Ok true -> 0 < n).
Proof.
  destruct o as [i now h al k t ttl|i now|i now|i now];
    cbn [run_aop stmt]; unfold write_action, mark_dispatched, mark_applied, mark_failed,
      mbind, M_bind;
    match goal with |- context [transaction ?t d] => pose proof (transaction_cases t d) as L;
      destruct (transaction t d) as [d' r] end;
    cbn [fst snd] in L; destruct L as [(E&e&->)|(a&E&[->| ->])]; cbn [fst snd fmap res_fmap].
  all: try (left; split; [exact E|discriminate]).
  all: right; rewrite E; eexists; split; [reflexivity|]; intros Hr; try discriminate Hr.
  - lia.
  - injection Hr as Hr. bprop. exact Hr.
  - injection Hr as Hr. bprop. exact Hr.
  - injection Hr as Hr. bprop. exact Hr.
Qed.

Lemma may_become_refl s : may_become s s.
Proof. by left. Qed.

Lemma may_become_trans s t u : may_become s t -> may_become t u -> may_become s u.
Proof.
  unfold may_become, terminal, statuses. rewrite !str_in_spec. intros H1 H2.
  destruct H1 as [->|[[-> H1]|[-> H1]]]; [done| |]; cbn in *.
  - right; left. split; [done|]. destruct H2 as [<-|[[-> H2]|[-> H2]]]; tauto.
  - right; right. split; [done|]. destruct H2 as [<-|[[-> H2]|[-> H2]]]; [done| |];
      destruct H1 as [E|[E|[]]]; discriminate E.
Qed.

Lemma later_refl a : later a a.
Proof. split; [done|]. split; [apply may_become_refl|done]. Qed.

Lemma later_trans a b c : later a b -> later b c -> later a c.
Proof.
  intros (O1&S1&T1) (O2&S2&T2). split; [congruence|]. split; [by eapply may_become_trans|].
  intros Ht. specialize (T1 Ht) as ->. by apply T2.
Qed.

(** One statement on one row. *)
Lemma stmt_row o st st' n : stmt o st = (st', Ok n) ->
  (forall id a, db_actions st !! id = Some a -> action_wf a ->
     exists a', db_actions st' !! id = Some a' /\ later a a' /\ action_wf a')
  /\ (forall id a', db_actions st' !! id = Some a' ->
        (exists a, db_actions st !! id = Some a) \/ action_wf a').
Proof.
  assert (Hupd : forall i now st0 f s1, (* the three updates *)
    (s1 = "pending" /\ f = as_dispatched now
     \/ s1 = "dispatched" /\ (f = as_acked "applied" now \/ f = as_acked "failed" now)) ->
    update_action i s1 f st0 = (st', Ok n) ->
    (forall id a, db_actions st0 !! id = Some a -> action_wf a ->
       exists a', db_actions st' !! id = Some a' /\ later a a' /\ action_wf a')
    /\ (forall id a', db_actions st' !! id = Some a' ->
          (exists a, db_actions st0 !! id = Some a) \/ action_wf a')).
  { intros i now st0 f s1 Hf Hu. unfold update_action in Hu.
    destruct (db_actions st0 !! i) as [b|] eqn:Eb;
      [|injection Hu as <- _; split; [eauto using later_refl|eauto]].
    destruct (String.eqb_spec (ac_status b) s1) as [Es|];
      [|injection Hu as <- _; split; [eauto using later_refl|eauto]].
    injection Hu as <- _. cbn [db_actions set_actions]. split.
    - intros id a Ha Hwf. destruct (decide (i = id)) as [->|Hne].
      + rewrite lookup_insert_eq. rewrite Ha in Eb. injection Eb as ->.
        eexists. split; [done|]. destruct Hwf as (_&Hs&Hk).
        destruct Hf as [[-> ->]|[-> [->| ->]]]; unfold later, may_become, action_wf, terminal;
          cbn; rewrite Es in *; cbn in *; intuition (try discriminate; auto).
      + rewrite lookup_insert_ne by done. eauto using later_refl.
    - intros id a' Ha. destruct (decide (i = id)) as [->|Hne]; [eauto|].
      rewrite lookup_insert_ne in Ha by done. eauto. }
  destruct o as [i now h al k t ttl|i now|i now|i now]; cbn [stmt]; intros Hs.
  2-4: by eapply (Hupd i now st); [|exact Hs]; tauto.
  apply M_bind_ok in Hs as (s1&[]&Hi&Hr). injection Hr as -> _.
  unfold insert_action in Hi. destruct (action_ok _ _) eqn:Eok; [|discriminate Hi].
  injection Hi as <-. cbn [db_actions set_actions ac_id].
  unfold action_ok in Eok. bprop. cbn [ac_id] in *. unfold present in *. bprop.
  split.
  - intros id a Ha Hwf. assert (i <> id) by (intros ->; rewrite Ha in *; naive_solver).
    rewrite lookup_insert_ne by done. eauto using later_refl.
  - intros id a' Ha. destruct (decide (i = id)) as [->|Hne].
    + rewrite lookup_insert_eq in Ha. injection Ha as <-. right. cbn. unfold action_wf, terminal. cbn.
      intuition discriminate.
    + rewrite lookup_insert_ne in Ha by done. eauto.
Qed.

Definition all_wf (st : db) : Prop := forall id a, db_actions st !! id = Some a -> action_wf a.

Lemma run_aop_row o d :
  all_wf (tables d) ->
  all_wf (tables (run_aop o d).1)
  /\ forall id a, db_actions (tables d) !! id = Some a ->
      exists a', db_actions (tables (run_aop o d).1) !! id = Some a' /\ later a a'.
Proof.
  intros Hwf. destruct (run_aop_tables o d) as [[-> _]|(n&E&_)].
  { split; [done|]. eauto using later_refl. }
  destruct (stmt_row _ _ _ _ E) as [H1 H2]. split.
  - intros id a' Ha'. destruct (H2 id a' Ha') as [[a Ha]|]; [|done].
    destruct (H1 id a Ha (Hwf _ _ Ha)) as (b&Hb&_&?). congruence.
  - intros id a Ha. destruct (H1 id a Ha (Hwf _ _ Ha)) as (b&Hb&?&_). eauto.
Qed.

(** An acknowledgement of one action, and one that reported success. *)
Definition is_ack (id : string) (o : aop) : bool :=
  match o with
  | OpApplied i _ | OpFailed i _ => String.eqb i id
  | _ => false
  end.

Definition acked (id : string) (x : aop * res bool) : bool :=
  is_ack id x.1 && match x.2 with Ok b => b | Raise _ => false end.

Lemma acked_row id o d :
  is_ack id o = true -> (run_aop o d).2 = Ok true ->
  (exists a, db_actions (tables d) !! id = Some a /\ ac_status a = "dispatched")
  /\ exists a', db_actions (tables (run_aop o d).1) !! id = Some a' /\ terminal (ac_status a') = true.
Proof.
  intros Ho Hr. destruct (run_aop_tables o d) as [[_ Hn]|(n&E&Hn)]; [done|].
  specialize (Hn Hr). destruct o as [| |i now|i now]; try discriminate Ho; cbn [is_ack] in Ho; bprop;
    subst i; cbn [stmt run_aop] in *; unfold update_action in E;
    destruct (db_actions (tables d) !! id) as [a|] eqn:Ea; try (injection E as _ <-; lia);
    destruct (String.eqb_spec (ac_status a) "dispatched"); try (injection E as _ <-; lia);
    injection E as <- _; cbn [db_actions set_actions]; rewrite lookup_insert_eq;
    split; eexists; (split; [reflexivity|done]).
Qed.

(** After a terminal status no acknowledgement succeeds. *)
Lemma no_ack_after id ops : forall d a,
  all_wf (tables d) -> db_actions (tables d) !! id = Some a -> terminal (ac_status a) = true ->
  Forall (fun x => acked id x = false) (zip ops (run_aops ops d).2).
Proof.
  induction ops as [|o ops IH]; intros d a Hwf Ha Ht; [constructor|].
  cbn [run_aops]. destruct (run_aop_row o d Hwf) as [Hwf1 Hrow].
  pose proof (acked_row id o d) as Hack.
  destruct (run_aop o d) as [d1 r]. cbn [fst snd] in *.
  destruct (Hrow id a Ha) as (b&Hb&(_&_&Heq)). rewrite (Heq Ht) in Hb.
  specialize (IH d1 a Hwf1 Hb Ht). destruct (run_aops ops d1) as [d2 rs]. cbn [snd zip] in *.
  constructor; [|exact IH]. unfold acked. cbn [fst snd].
  destruct (is_ack id o) eqn:Eo; [|done]. destruct r as [[]|]; [|done|done].
  destruct (Hack eq_refl eq_refl) as [(c&Hc&Es) _]. rewrite Ha in Hc. injection Hc as <-.
  rewrite Es in Ht. discriminate Ht.
Qed.

End Lifecycle.

(** ** Properties *)

(** C7. The life of an action: whatever calls of the service run in whatever
    order, with connections lost at any point, an action row is never deleted,
    what it orders never changes, its status only moves from pending to
    dispatched to applied or failed, a row that was acknowledged never changes
    again, and the send and acknowledgement times are set exactly when the
    status says so. *)
Theorem action_lifecycle {D : Type} `{DatabaseLaws D} (ops : list aop) (d : D) :
  all_wf (tables d) ->
  all_wf (tables (run_aops ops d).1)
  /\ forall id a, db_actions (tables d) !! id = Some a ->
      exists a', db_actions (tables (run_aops ops d).1) !! id = Some a' /\ later a a'.
Proof.
  revert d. induction ops as [|o ops IH]; intros d Hwf; [split; eauto using later_refl|].
  cbn [run_aops]. destruct (run_aop_row o d Hwf) as [Hwf1 Hrow].
  destruct (run_aop o d) as [d1 r]. cbn [fst] in *.
  destruct (IH d1 Hwf1) as [Hwf2 Hrow2].
  destruct (run_aops ops d1) as [d2 rs]. cbn [fst] in *. split; [done|].
  intros id a Ha. destruct (Hrow id a Ha) as (b&Hb&L1). destruct (Hrow2 id b Hb) as (c&Hc&L2).
  exists c. eauto using later_trans.
Qed.

Definition one_action : db :=
  set_actions (insert "a1" (mkAction "a1" None None "block_ip" "203.0.113.7" (Some 60)
    "pending" None None 5)) empty_db.

Lemma one_action_wf : all_wf one_action.
Proof.
  intros id a. cbn. rewrite lookup_insert. case_decide; [|by rewrite lookup_empty].
  intros [= <-]. unfold action_wf, terminal. cbn. intuition discriminate.
Qed.

(** Acknowledged before it was sent, sent, applied, then reported failed. *)
Definition one_life : list aop :=
  [OpApplied "a1" 6; OpDispatched "a1" 7; OpApplied "a1" 9; OpFailed "a1" 11; OpDispatched "a1" 12].

Lemma action_lifecycle_witness :
  (exists a', db_actions (run_aops one_life one_action).1 !! "a1" = Some a' /\ ac_status a' = "applied"
     /\ ac_sent_at a' = Some 7 /\ ac_acked_at a' = Some 9)
  /\ all_wf (run_aops one_life one_action).1.
Proof.
  split; [eexists; split; [vm_compute; reflexivity|done]|].
  exact (proj1 (action_lifecycle (D := db) one_life one_action one_action_wf)).
Defined.

(** An action is acknowledged once: over any calls of the service in any
    order at most one mark_applied or mark_failed of an action reports that it
    updated the row. *)
Theorem acknowledged_once {D : Type} `{DatabaseLaws D} (ops : list aop) (d : D) (id : string) :
  all_wf (tables d) ->
  (length (filter (fun x => acked id x = true) (zip ops (run_aops ops d).2)) <= 1)%nat.
Proof.
  revert d. induction ops as [|o ops IH]; intros d Hwf; [cbn; lia|].
  cbn [run_aops]. destruct (run_aop_row o d Hwf) as [Hwf1 _].
  pose proof (acked_row id o d) as Hack. destruct (run_aop o d) as [d1 r]. cbn [fst snd] in *.
  specialize (IH d1 Hwf1). pose proof (no_ack_after id ops d1) as Hno.
  destruct (run_aops ops d1) as [d2 rs]. cbn [snd zip] in *.
  rewrite filter_cons. case_decide as Ea; [|exact IH].
  unfold acked in Ea. cbn [fst snd] in Ea. bprop.
  destruct r as [[]|]; [|done|done].
  destruct (Hack ltac:(done) ltac:(done)) as [_ (a&Ha&Ht)].
  specialize (Hno a Hwf1 Ha Ht). cbn [length].
  assert (filter (fun x => acked id x = true) (zip ops rs) = []) as ->; [|cbn; lia].
  clear -Hno. induction Hno as [|x l Hx _ IHl]; [done|].
  rewrite filter_cons_False; [exact IHl|]. by rewrite Hx.
Qed.

Lemma acknowledged_once_witness :
  (run_aops one_life one_action).2 = [Ok false; Ok true; Ok true; Ok false; Ok false]
  /\ (length (filter (fun x => acked "a1" x = true)
        (zip one_life (run_aops one_life one_action).2)) <= 1)%nat.
Proof.
  split; [vm_compute; reflexivity|].
  exact (acknowledged_once (D := db) one_life one_action "a1" one_action_wf).
Defined.

(** Events are persisted once.  A redelivered event never touches the
    tables and is not published again; the handler sees [DuplicateEvent] (or a
    lost connection).  When [persist_event] returns, exactly its row was added
    under an id that was free, whatever the publication to the stream did; when
    it raises, the stream was not written. *)
Theorem persist_event_once {D R : Type} `{DatabaseLaws D} (publish : Event -> M R unit)
    (now : Z) (inner : EventInner) (d d' : D) (r r' : R) (out : res Event) :
  persist_event publish now inner (d, r) = ((d', r'), out) ->
  (is_Some (db_events (tables d) !! in_id inner) ->
     tables d' = tables d /\ r' = r /\ is_ok out = false)
  /\ (forall row, out = Ok row ->
        db_events (tables d) !! in_id inner = None
        /\ row = event_row now inner /\ r' = (publish row r).1
        /\ tables d' = set_events (insert (in_id inner) row) (tables d))
  /\ (is_ok out = false -> r' = r).
Proof.
  unfold persist_event, persist_row, mbind at 1, M_bind at 1, on_fst. cbn [fst snd].
  set (t := row ← insert_event _; _).
  pose proof (transaction_cases t d) as L. destruct (transaction t d) as [d1 x].
  cbn [fst snd] in L. intros Heq.
  assert (Ht : forall st row, t (tables d) = (st, Ok row) ->
    db_events (tables d) !! in_id inner = None /\ row = event_row now inner
    /\ st = set_events (insert (in_id inner) row) (tables d)).
  { intros st row E. subst t. apply M_bind_ok in E as (s1&o&Ei&Er).
    destruct o as [e|]; [|discriminate Er]. injection Er as -> <-.
    unfold insert_event in Ei. destruct (event_ok _ _); [|discriminate Ei].
    cbn [e_id event_row] in Ei. destruct (db_events (tables d) !! in_id inner); [discriminate Ei|].
    by injection Ei as <- <-. }
  destruct L as [[E [e ->]]|(row&E&[->| ->])].
  - injection Heq as <- <- <-. split; [done|]. split; [by intros ?|done].
  - destruct (Ht _ _ E) as (Hn&->&Est). unfold mbind, M_bind, try_M, on_snd in Heq. cbn [fst snd] in Heq.
    destruct (publish (event_row now inner) r) as [r1 [[]|e]] eqn:Ep; injection Heq as <- <- <-;
      (split; [intros [? Hs]; congruence|]); (split; [|done]);
      intros row [= <-]; by rewrite Ep.
  - destruct (Ht _ _ E) as (Hn&_&_). injection Heq as <- <- <-.
    split; [intros [? Hs]; congruence|]. split; [by intros ?|done].
Qed.

Definition hello_host : Host := mkHost "h1" 0 0 None None (Some "k") true [].
Definition one_host : db := set_hosts (insert "h1" hello_host) empty_db.
Definition login : EventInner := mkInner "e1" "h1" "v1" 100 "sshd" "Failed password" [].
Definition no_publish : Event -> M unit unit := fun _ => raise_M (RedisError false).

Lemma persist_event_once_witness :
  let d1 := set_events (insert "e1" (event_row 101 login)) one_host in
  persist_event (D := db) no_publish 101 login (one_host, tt) = ((d1, tt), Ok (event_row 101 login))
  /\ is_ok (persist_event (D := db) no_publish 102 login (d1, tt)).2 = false.
Proof.
  cbn zeta. split; [reflexivity|].
  refine (proj2 (proj2 (proj1 (persist_event_once (D := db) no_publish 102 login
    (set_events (insert "e1" (event_row 101 login)) one_host)
    (set_events (insert "e1" (event_row 101 login)) one_host) tt tt (Raise DuplicateEvent) _) _))).
  - reflexivity.
  - eexists. reflexivity.
Defined.
