(* ===== verification/Pipeline.v ===== *)
(** * From event to alert: [streams/publisher.py], [detectors/runner.py] and
    [persist_fire] of [rule_engine/runner.py]

    A stream entry is read back, its event loaded from the database, shown to
    every detector and to the Sigma rules; results become alert and action rows.
    The state is the database and the Redis server.  [uuid4] draws ids, [xack]
    acknowledges an entry, [now] is the clock of one message. *)

From S2P Require Import Prelude PyStr PyVal PyStd Sigma Redis SigmaRunner Detectors Db.

(** ** [publish_event] and [_parse_event] *)

(** The fields of a stream entry; [occurred_at] counts whole seconds here, which
    is what [int(occurred_at.timestamp())] keeps. *)
Definition publish_fields (e : Event) : list (string * string) :=
  [("event_id", e_id e); ("host_id", e_host_id e); ("source", e_source e);
   ("occurred_at_unix", str_int (e_occurred_at e))].

Section Publisher.
Context {R : Type} (xadd : list (string * string) -> M R string).

Definition publish_event (e : Event) : M R string := xadd (publish_fields e).

End Publisher.

Definition field (k : string) (fields : list (string * string)) : res string :=
  match assoc k fields with Some v => Ok v | None => Raise KeyError end.

Definition _to_uuid (s : string) : res string := parse_uuid s.

(** The [try] of [_parse_event]. *)
Definition parse_fields (fields : list (string * string)) : res ParsedEvent :=
  i ← field "event_id" fields; event_id ← _to_uuid i;
  h ← field "host_id" fields; host_id ← _to_uuid h;
  t ← field "occurred_at_unix" fields;
  n ← (match py_int t with Some n => Ok n | None => Raise (ValueError "int") end);
  occurred_at ← fromtimestamp n;
  Ok (mkEvent event_id host_id (default "" (assoc "source" fields)) "" [] occurred_at).

Definition _parse_event (fields : list (string * string)) : res (option ParsedEvent) :=
  match parse_fields fields with
  | Ok p => Ok (Some p)
  | Raise KeyError => Ok None
  | Raise e => if is_value_error e then Ok None else Raise e
  end.

(** [{str(k): str(v) for k, v in (meta or {}).items()}]. *)
Definition coerce_meta (meta : list (string * val)) : list (string * val) :=
  map (fun kv => (kv.1, VStr (str_of kv.2))) meta.

Definition with_payload (p : ParsedEvent) (raw : string) (meta : list (string * val)) : ParsedEvent :=
  mkEvent (ev_event_id p) (ev_host_id p) (ev_source p) raw meta (ev_occurred_at p).

(** ** [persist_fire] *)

(** The values bound to the text and integer columns of an action. *)
Definition text_param (v : val) : res string :=
  match v with VStr s => Ok s | _ => Raise SqlError end.
Definition int_param (v : val) : res (option Z) :=
  match v with
  | VInt z => Ok (Some z)
  | VBool b => Ok (Some (Z.b2z b))
  | VNone => Ok None
  | _ => Raise SqlError
  end.

Definition fire_alert (alert_id : string) (now : Z) (fire : RuleFire) : Alert :=
  mkAlert alert_id (Some (ev_host_id (fire_event fire))) (rule_id (fire_rule fire))
    (rule_level (fire_rule fire)) (rule_title (fire_rule fire))
    [("rule_title", VStr (rule_title (fire_rule fire)));
     ("rule_level", VStr (rule_level (fire_rule fire)));
     ("count", VInt (fire_count fire)); ("dedup_key", VStr (fire_dedup_key fire));
     ("event_id", VStr (ev_event_id (fire_event fire)))] now None.

Definition fire_action (action_id alert_id : string) (now : Z) (fire : RuleFire)
    (a : RenderedAction) : res Action :=
  kind ← text_param (ra_kind a); ttl ← int_param (ra_ttl_sec a);
  Ok (mkAction action_id (Some (ev_host_id (fire_event fire))) (Some alert_id) kind (ra_target a)
        ttl "pending" None None now).

(** The statements of the flush, in the session the caller commits. *)
Definition persist_fire (mode : string) (alert_id action_id : string) (now : Z) (fire : RuleFire)
  : M db unit :=
  if String.eqb mode "hunt" then mret tt
  else
    _ ← insert_alert (fire_alert alert_id now fire);
    match fire_rendered_action fire with
    | None => mret tt
    | Some a => act ← lift_res (fire_action action_id alert_id now fire a); insert_action act
    end.

(** ** [detectors/runner.py] *)

Section Consumer.
Context {D R : Type} `{Database D} `{Redis R}.
Context (uuid4 : M D string) (xack : string -> M R unit).
Context (re_search : string -> string -> res bool).
Context (detectors : list (Z -> ParsedEvent -> M R (list DetectionResult))).

Abbreviation world := (D * R)%type.

(** [try: ... except Exception: log]. *)
Definition swallow {A} (m : M world A) : M world unit :=
  try_M (_ ← m; mret tt) (fun _ => mret tt).

Definition _load_event_payload (event_id : string)
  : M world (option (string * list (string * val))) :=
  on_fst (transaction (fun d => (d, Ok (e ← db_events d !! event_id;
                                        Some (e_raw e, coerce_meta (e_metadata e)))))).

(** One result: its alert, then its action if the alert was written. *)
Definition handle_result (now : Z) (host_id : string) (r : DetectionResult) : M world unit :=
  alert_id ← try_M
    (i ← on_fst (id ← uuid4;
                 write_alert id now (dr_detector r) (dr_severity r) (dr_summary r) (dr_detail r)
                   (Some host_id) (dr_dedup_key r) (dr_cooldown_sec r));
     mret (Some i)) (fun _ => mret None);
  match alert_id, dr_action r with
  | Some i, Some a =>
      swallow (on_fst (id ← uuid4;
                       write_action id now host_id (Some i) (da_kind a) (da_target a) (da_ttl_sec a)))
  | _, _ => mret tt
  end.

Fixpoint for_each {A} (f : A -> M world unit) (l : list A) : M world unit :=
  match l with
  | [] => mret tt
  | x :: l' => _ ← f x; for_each f l'
  end.

(** One detector; a time-out is one of the exceptions its call may raise. *)
Definition run_detector (now : Z) (parsed : ParsedEvent)
    (d : Z -> ParsedEvent -> M R (list DetectionResult)) : M world unit :=
  results ← try_M (on_snd (d now parsed)) (fun _ => mret []);
  for_each (handle_result now (ev_host_id parsed)) results.

Definition _process_one (now : Z) (msg_id : string) (fields : list (string * string))
  : M world unit :=
  parsed ← lift_res (_parse_event fields);
  match parsed with
  | None => on_snd (xack msg_id)
  | Some p =>
      payload ← _load_event_payload (ev_event_id p);
      match payload with
      | None => on_snd (xack msg_id)
      | Some (raw, meta) =>
          _ ← for_each (run_detector now (with_payload p raw meta)) detectors;
          on_snd (xack msg_id)
      end
  end.

(** The rules are loaded again for every message. *)
Definition _process_sigma_one (now : Z) (rules_loaded : res (list CompiledSigmaRule))
    (fields : list (string * string)) : M world unit :=
  parsed ← lift_res (_parse_event fields);
  match parsed with
  | None => mret tt
  | Some p =>
      payload ← _load_event_payload (ev_event_id p);
      match payload with
      | None => mret tt
      | Some (raw, meta) =>
          rules ← lift_res rules_loaded;
          match rules with
          | [] => mret tt
          | _ =>
              fires ← on_snd (evaluate re_search now rules (with_payload p raw meta));
              for_each (fun fire => swallow (on_fst (
                a ← uuid4; b ← uuid4; transaction (persist_fire "live" a b now fire)))) fires
          end
      end
  end.

(** The body of the inner loop of [run]. *)
Definition handle_message (now : Z) (rules_loaded : res (list CompiledSigmaRule))
    (msg : string * list (string * string)) : M world unit :=
  try_M (_ ← _process_one now msg.1 msg.2; _process_sigma_one now rules_loaded msg.2)
    (fun _ => swallow (on_snd (xack msg.1))).

(** The messages of the batches, in order, each at the time it is handled. *)
Definition run_messages (rules_loaded : res (list CompiledSigmaRule))
    (msgs : list (Z * (string * list (string * string)))) : M world unit :=
  for_each (fun m => handle_message m.1 rules_loaded m.2) msgs.

End Consumer.

(** ** Lemmas *)

Lemma inv_for_each {D R A} (I : D * R -> Prop) (f : A -> M (D * R) unit) l :
  (forall x, keeps_inv I (f x)) -> keeps_inv I (for_each f l).
Proof.
  intros Hf. induction l as [|x l IH]; cbn [for_each]; [apply inv_ret|].
  apply inv_bind; [apply Hf|auto].
Qed.

Lemma inv_swallow {D R A} (I : D * R -> Prop) (m : M (D * R) A) :
  keeps_inv I m -> keeps_inv I (swallow m).
Proof. intros Hm. apply inv_try; [apply inv_bind; auto with zq|auto with zq]. Qed.

(** Every action row has its alert, on the same host. *)
Definition linked (st : db) : Prop :=
  forall id a, db_actions st !! id = Some a ->
    exists i al, ac_alert_id a = Some i /\ db_alerts st !! i = Some al /\ al_host_id al = ac_host_id a.

Lemma insert_alert_cases a st st' r :
  insert_alert a st = (st', r) ->
  (r = Raise SqlError /\ st' = st)
  \/ (r = Ok tt /\ st' = set_alerts (insert (al_id a) a) st /\ db_alerts st !! al_id a = None).
Proof.
  unfold insert_alert. destruct (alert_ok st a) eqn:E; intros [= <- <-]; [right|by left].
  unfold alert_ok in E. bprop. split; [done|]. split; [done|]. by apply present_false.
Qed.

Lemma insert_action_cases a st st' r :
  insert_action a st = (st', r) ->
  (r = Raise SqlError /\ st' = st)
  \/ (r = Ok tt /\ st' = set_actions (insert (ac_id a) a) st
      /\ opt_all (present (db_alerts st)) (ac_alert_id a) = true /\ slen (ac_target a) <= 512).
Proof.
  unfold insert_action. destruct (action_ok st a) eqn:E; intros [= <- <-]; [right|by left].
  unfold action_ok, varchar in E. bprop. done.
Qed.

Lemma insert_alert_linked a : keeps_inv linked (insert_alert a).
Proof.
  intros st Hl. destruct (insert_alert a st) as [st' r] eqn:E.
  apply insert_alert_cases in E as [[-> ->]|(->&->&Hn)]; [done|]. cbn [fst].
  intros id b Hb. destruct (Hl id b Hb) as (i&al&?&Ha&?). exists i, al. split; [done|].
  split; [|done]. cbn [db_alerts set_alerts]. rewrite lookup_insert_ne; [done|]. congruence.
Qed.

(** An action that points to an alert of its own host keeps the link. *)
Lemma insert_action_linked a st i al :
  linked st -> ac_alert_id a = Some i -> db_alerts st !! i = Some al ->
  al_host_id al = ac_host_id a -> linked (insert_action a st).1.
Proof.
  intros Hl Hi Ha Hh. destruct (insert_action a st) as [st' r] eqn:E.
  apply insert_action_cases in E as [[-> ->]|(->&->&_)]; [done|]. cbn [fst].
  intros id b. cbn [db_actions set_actions db_alerts]. rewrite lookup_insert. case_decide.
  - intros [= <-]. eauto.
  - apply Hl.
Qed.

Lemma persist_fire_linked mode i j now fire : keeps_inv linked (persist_fire mode i j now fire).
Proof.
  intros st Hl. unfold persist_fire. destruct (String.eqb mode "hunt"); [done|].
  unfold mbind, M_bind. pose proof (insert_alert_linked (fire_alert i now fire) st Hl) as Hl1.
  destruct (insert_alert _ st) as [st1 r] eqn:E. cbn [fst] in Hl1.
  apply insert_alert_cases in E as [[-> ->]|(->&->&Hn)]; [done|].
  destruct (fire_rendered_action fire) as [ra|]; [|done]. unfold lift_res.
  destruct (fire_action j i now fire ra) as [act|e] eqn:Ea; [|done].
  unfold fire_action in Ea. inv_res. eapply insert_action_linked; [done|done| |].
  - cbn [db_alerts set_alerts]. apply lookup_insert_eq.
  - done.
Qed.

Section Invariant.
Context {D R : Type} `{DatabaseLaws D} `{Redis R}.
Context (uuid4 : M D string) (xack : string -> M R unit).
Context (re_search : string -> string -> res bool).
Context (detectors : list (Z -> ParsedEvent -> M R (list DetectionResult))).
Hypothesis uuid4_pure : forall d, tables (uuid4 d).1 = tables d.

Abbreviation LinkedD := (fun d : D => linked (tables d)).
Abbreviation Linked := (fun w : D * R => linked (tables w.1)).

Lemma inv_uuid4 : keeps_inv LinkedD uuid4.
Proof. intros d. by rewrite uuid4_pure. Qed.

Lemma action_after_alert now host i al k t ttl d :
  linked (tables d) -> db_alerts (tables d) !! i = Some al -> al_host_id al = Some host ->
  linked (tables ((id ← uuid4; write_action id now host (Some i) k t ttl) d).1).
Proof.
  intros Hl Ha Hh. unfold mbind, M_bind. pose proof (uuid4_pure d) as Hu.
  destruct (uuid4 d) as [d1 [j|e]]; cbn [fst] in *; [|by rewrite Hu].
  rewrite <- Hu in *. clear Hu. unfold write_action, mbind, M_bind.
  match goal with |- context [transaction ?t d1] => pose proof (transaction_cases t d1) as L;
    destruct (transaction t d1) as [d2 y] end. cbn [fst snd] in L.
  assert (Hl2 : linked (tables d2)).
  { destruct L as [[-> _]|(u&E&_)]; [done|].
    pose proof (insert_action_linked
      (mkAction j (Some host) (Some i) k t ttl "pending" None None now) _ i al Hl eq_refl Ha Hh) as Hl2.
    by rewrite E in Hl2. }
  by destruct y.
Qed.

(** The alert a detector result names is there when its action is written. *)
Lemma handle_result_linked now host r : keeps_inv Linked (handle_result uuid4 now host r).
Proof.
  intros [d x] Hl. cbn [fst] in Hl. unfold handle_result, mbind at 1, M_bind at 1, try_M at 1,
    mbind at 1, M_bind at 1, on_fst at 1. cbn [fst snd].
  unfold mbind at 1, M_bind at 1. pose proof (uuid4_pure d) as Hu.
  destruct (uuid4 d) as [d1 [i|e]]; cbn [fst snd] in *; [|cbn; by rewrite Hu].
  rewrite <- Hu in Hl. clear Hu. unfold write_alert, mbind at 1, M_bind at 1.
  match goal with |- context [transaction ?t d1] => pose proof (transaction_cases t d1) as L;
    destruct (transaction t d1) as [d2 y] end. cbn [fst snd] in L.
  destruct L as [[E [e ->]]|(u&E&Hy)]; [cbn; by rewrite E|].
  match type of E with insert_alert ?a _ = _ =>
    pose proof (insert_alert_linked a _ Hl) as Hl2 end. rewrite E in Hl2. cbn [fst] in Hl2.
  apply insert_alert_cases in E as [[? _]|(_&E&_)]; [done|].
  assert (Hal : exists al, db_alerts (tables d2) !! i = Some al /\ al_host_id al = Some host).
  { eexists. rewrite E. split; [apply lookup_insert_eq|done]. }
  destruct Hal as (al&Hal&Hhost). destruct Hy as [->| ->]; [|exact Hl2]. cbn.
  destruct (dr_action r) as [a|]; [|exact Hl2].
  unfold swallow, try_M, mbind, M_bind, on_fst. cbn [fst snd].
  match goal with |- context [write_action _ now host _ ?k ?t ?ttl] =>
    pose proof (action_after_alert now host i al k t ttl d2 Hl2 Hal Hhost) as Hl3 end.
  unfold mbind, M_bind in Hl3.
  match type of Hl3 with linked (tables (?m).1) => destruct m as [d3 [b|e]] end; exact Hl3.
Qed.

Lemma linked_on_snd {A} (m : M R A) : keeps_inv Linked (on_snd m).
Proof. exact (inv_on_snd LinkedD m). Qed.

Lemma linked_on_fst {A} (m : M D A) : keeps_inv LinkedD m -> keeps_inv Linked (on_fst m).
Proof. exact (inv_on_fst LinkedD m). Qed.

Lemma linked_transaction {A} (t : M db A) :
  keeps_inv linked t -> keeps_inv Linked (on_fst (transaction t)).
Proof. intros Ht. apply linked_on_fst. by apply (inv_transaction linked). Qed.
#[local] Hint Resolve linked_on_snd : zq.

Lemma handle_message_linked now rules msg :
  keeps_inv Linked (handle_message uuid4 xack re_search detectors now rules msg).
Proof.
  unfold handle_message, _process_one, _process_sigma_one, _load_event_payload.
  assert (Hload : forall A (f : db -> res A), keeps_inv Linked
    (on_fst (T := R) (transaction (D := D) (fun d => (d, f d))))).
  { intros A f. apply linked_transaction. by intros st. }
  apply inv_try; [apply inv_bind|].
  - apply inv_bind; [auto with zq|]. intros [p|]; [|auto with zq].
    apply inv_bind; [apply Hload|]. intros [[raw meta]|]; [|auto with zq].
    apply inv_bind; [|auto with zq]. apply inv_for_each. intros d. unfold run_detector.
    apply inv_bind; [apply inv_try; auto with zq|]. intros rs. apply inv_for_each.
    intros r. apply handle_result_linked.
  - intros _. apply inv_bind; [auto with zq|]. intros [p|]; [|auto with zq].
    apply inv_bind; [apply Hload|]. intros [[raw meta]|]; [|auto with zq].
    apply inv_bind; [auto with zq|]. intros [|rule rs]; [auto with zq|].
    apply inv_bind; [auto with zq|]. intros fires. apply inv_for_each. intros fire.
    apply inv_swallow, linked_on_fst. apply inv_bind; [apply inv_uuid4|]. intros i.
    apply inv_bind; [apply inv_uuid4|]. intros j.
    apply (inv_transaction linked), persist_fire_linked.
  - intros e. apply inv_swallow. auto with zq.
Qed.

End Invariant.

(** *** What is left when a rule raises *)

Lemma evaluate_raises {R} `{Redis R} (re_search : string -> string -> res bool) now event rules bad e :
  In bad rules -> matches re_search bad event = Raise e ->
  forall r, exists e', (evaluate re_search now rules event r).2 = Raise e'.
Proof.
  intros Hin Hbad. induction rules as [|rule rules IH]; [done|]. intros r. cbn [evaluate].
  unfold mbind, M_bind. destruct Hin as [->|Hin].
  - unfold eval_rule, mbind, M_bind, lift_res. rewrite Hbad. by eexists.
  - destruct (eval_rule re_search now event rule r) as [r1 [f|e1]]; [|by eexists].
    destruct (IH Hin r1) as [e2 He]. destruct (evaluate re_search now rules event r1) as [r2 x].
    cbn in He. subst x. by eexists.
Qed.

Lemma swallow_ok {D R A} (m : M (D * R) A) w : (swallow m w).2 = Ok tt.
Proof. unfold swallow, try_M, mbind, M_bind. by destruct (m w) as [w' [a|e]]. Qed.

Lemma handle_message_ok {D R} `{Database D} `{Redis R} uuid4 xack re_search detectors now rules msg
    (w : D * R) :
  (handle_message uuid4 xack re_search detectors now rules msg w).2 = Ok tt.
Proof.
  unfold handle_message, try_M.
  match goal with |- context [match ?m with (_, _) => _ end] => destruct m as [w' [[]|e]] end;
    [done|apply swallow_ok].
Qed.

(** ** Properties *)

(** The stream carries what was published: the fields [publish_event] writes
    for a stored event are parsed back to its ids, its source and its time, for
    every instant a [datetime] can hold. *)
Theorem publish_parse_roundtrip (e : Event) :
  is_uuid (e_id e) -> is_uuid (e_host_id e) -> fromtimestamp (e_occurred_at e) = Ok (e_occurred_at e) ->
  _parse_event (publish_fields e)
  = Ok (Some (mkEvent (e_id e) (e_host_id e) (e_source e) "" [] (e_occurred_at e))).
Proof.
  intros Hi Hh Ht. unfold _parse_event, parse_fields, publish_fields, field, _to_uuid. cbn [assoc String.eqb Ascii.eqb Bool.eqb].
  cbn. rewrite (parse_uuid_id _ Hi). cbn. rewrite (parse_uuid_id _ Hh). cbn.
  rewrite py_int_str_int.
  - cbn. rewrite Ht. done.
  - etrans; [apply (count_digits_int 18); [lia|]|unfold int_max_str_digits; lia].
    unfold fromtimestamp in Ht.
    destruct ((-62135596800 <=? e_occurred_at e) && (e_occurred_at e <=? 253402300799)) eqn:E.
    + bprop. lia.
    + repeat case_match; discriminate Ht.
Qed.

Definition stored_event : Event :=
  mkEventRow (uuid_text 7) (uuid_text (2 ^ 127)) "v1" 1700000000 0 "sshd" "raw" [].

Lemma publish_parse_roundtrip_witness :
  _parse_event (publish_fields stored_event)
  = Ok (Some (mkEvent "00000000-0000-0000-0000-000000000007" "80000000-0000-0000-0000-000000000000"
                "sshd" "" [] 1700000000)).
Proof.
  refine (eq_trans (publish_parse_roundtrip stored_event _ _ eq_refl) _).
  - exists 7. split; [lia|reflexivity].
  - exists (2 ^ 127). split; [lia|reflexivity].
  - vm_compute. reflexivity.
Defined.

(** The consumer survives any message and keeps its rows linked: whatever the
    messages, the detectors, the rules, Redis and lost database connections do,
    [run_messages] does not raise, and if every action row pointed to an alert
    of its own host before, it does so after. *)
Theorem consumer_links_actions {D R : Type} `{DatabaseLaws D} `{Redis R}
    (uuid4 : M D string) (xack : string -> M R unit) (re_search : string -> string -> res bool)
    (detectors : list (Z -> ParsedEvent -> M R (list DetectionResult)))
    (rules : res (list CompiledSigmaRule)) (msgs : list (Z * (string * list (string * string))))
    (d : D) (r : R) :
  (forall d, tables (uuid4 d).1 = tables d) -> linked (tables d) ->
  exists d' r', run_messages uuid4 xack re_search detectors rules msgs (d, r) = ((d', r'), Ok tt)
  /\ linked (tables d').
Proof.
  intros Hu. revert d r. induction msgs as [|[now msg] msgs IH]; intros d r Hl; [by exists d, r|].
  unfold run_messages in *. cbn [for_each fst snd]. unfold mbind, M_bind.
  pose proof (handle_message_linked uuid4 xack re_search detectors Hu now rules msg (d, r) Hl) as Hl1.
  pose proof (handle_message_ok uuid4 xack re_search detectors now rules msg (d, r)) as Hok.
  destruct (handle_message uuid4 xack re_search detectors now rules msg (d, r)) as [[d1 r1] x].
  cbn [fst snd] in *. subst x. by apply IH.
Qed.

(** A fire is persisted whole or not at all: after the transaction of a live
    fire the tables are as before, or hold the alert and, if the rule rendered
    an action, the pending action that points to it.  A rendered target longer
    than the column loses the alert as well. *)
Theorem persist_fire_all_or_nothing {D : Type} `{DatabaseLaws D} (alert_id action_id : string)
    (now : Z) (fire : RuleFire) (d : D) :
  let d' := (transaction (persist_fire "live" alert_id action_id now fire) d).1 in
  let alerted := set_alerts (insert alert_id (fire_alert alert_id now fire)) (tables d) in
  (tables d' = tables d
   \/ match fire_rendered_action fire with
      | None => tables d' = alerted
      | Some a => exists act, fire_action action_id alert_id now fire a = Ok act
                    /\ tables d' = set_actions (insert action_id act) alerted
      end)
  /\ (forall a, fire_rendered_action fire = Some a -> 512 < slen (ra_target a) ->
        tables d' = tables d).
Proof.
  cbn zeta. destruct (transaction_cases (persist_fire "live" alert_id action_id now fire) d)
    as [[-> _]|([]&E&_)]; [by split; [left|]|].
  remember (tables (transaction (persist_fire "live" alert_id action_id now fire) d).1) as st' eqn:Est.
  clear Est. unfold persist_fire in E. cbn [String.eqb] in E.
  apply M_bind_ok in E as (st1&[]&Ei&E).
  apply insert_alert_cases in Ei as [[? _]|(_&->&_)]; [done|].
  destruct (fire_rendered_action fire) as [a|].
  - apply M_bind_ok in E as (st2&act&Ea&E). unfold lift_res in Ea. injection Ea as <- Ea.
    apply insert_action_cases in E as [[? _]|(_&->&_&Hlen)]; [done|].
    assert (Hact : ac_id act = action_id /\ ac_target act = ra_target a).
    { unfold fire_action in Ea. by inv_res. }
    destruct Hact as [Hid Htg]. rewrite Hid. split; [right; by exists act|].
    intros b [= <-] Hlong. rewrite Htg in Hlen. lia.
  - injection E as ->. by split; [right|].
Qed.

(** One rule that raises mutes the others: if matching any rule of the
    directory raises on the event of a message (a pattern [re] refuses, say), no
    alert of any Sigma rule is written for it, although the rules before it have
    fired and started their cooldowns. *)
Theorem raising_rule_drops_fires {D R : Type} `{DatabaseLaws D} `{Redis R}
    (uuid4 : M D string) (re_search : string -> string -> res bool) (now : Z)
    (rules : list CompiledSigmaRule) (bad : CompiledSigmaRule) (fields : list (string * string))
    (p : ParsedEvent) (e : Event) (x : exn) (d : D) (r : R) :
  In bad rules -> _parse_event fields = Ok (Some p) ->
  db_events (tables d) !! ev_event_id p = Some e ->
  matches re_search bad (with_payload p (e_raw e) (coerce_meta (e_metadata e))) = Raise x ->
  tables (_process_sigma_one uuid4 re_search now (Ok rules) fields (d, r)).1.1 = tables d.
Proof.
  intros Hin Hp He Hbad. unfold _process_sigma_one, mbind, M_bind, lift_res. rewrite Hp.
  unfold _load_event_payload, on_fst at 1. cbn [fst snd].
  set (t := fun d : db => _). pose proof (transaction_cases t d) as L.
  destruct (transaction t d) as [d1 y]. cbn [fst snd] in L.
  destruct L as [[Ed [x' ->]]|(o&E&Hy)]; [exact Ed|]. subst t. injection E as Ed <-.
  rewrite He in Hy. cbn in Hy. destruct Hy as [->| ->]; [|by rewrite Ed].
  destruct rules as [|rule rules]; [done|].
  destruct (evaluate_raises re_search now _ (rule :: rules) bad x Hin Hbad r) as [e' He'].
  unfold on_snd. cbn [fst snd]. destruct (evaluate _ _ _ _ r) as [r1 z]. cbn in He'. subst z.
  by rewrite Ed.
Qed.

(** *** Concrete runs *)

Definition mem_uuid4 : M db string := fun d =>
  (d, Ok ("id" +:+ str_int (Z.of_nat (size (db_alerts d) + size (db_actions d))))).

Definition mem_world : db * MemRedis :=
  (set_events (insert (uuid_text 7) (mkEventRow (uuid_text 7) (uuid_text 9) "v1" 100 0 "nginx"
       "GET /?q=<script HTTP/1.1" [("source", VStr "nginx"); ("source_ip", VStr "203.0.113.9")]))
     (set_hosts (insert (uuid_text 9) (mkHost (uuid_text 9) 0 0 None None None false [])) empty_db), ∅).

Definition script_message : Z * (string * list (string * string)) :=
  (200 * SEC, ("1-0", [("event_id", uuid_text 7); ("host_id", uuid_text 9); ("source", "nginx");
                       ("occurred_at_unix", "100")])).

Definition no_ack : string -> M MemRedis unit := fun _ => mret tt.

Lemma consumer_links_actions_witness :
  exists d' r', run_messages mem_uuid4 no_ack no_regex (BUILTIN_DETECTORS default_settings) (Ok [])
      [script_message] mem_world = ((d', r'), Ok tt)
  /\ linked d'.
Proof.
  refine (consumer_links_actions (D := db) mem_uuid4 no_ack no_regex
    (BUILTIN_DETECTORS default_settings) (Ok []) [script_message] mem_world.1 mem_world.2
    (fun _ => eq_refl) _).
  intros id a Ha. vm_compute in Ha. discriminate Ha.
Defined.

Example script_alert :
  let st := (run_messages mem_uuid4 no_ack no_regex (BUILTIN_DETECTORS default_settings) (Ok [])
      [script_message] mem_world).1.1 in
  (size (db_alerts st), size (db_actions st)) = (1%nat, 1%nat).
Proof. vm_compute. reflexivity. Qed.

Definition long_fire : RuleFire :=
  mkFire burst_rule (mkEvent (uuid_text 7) (uuid_text 9) "sshd" "" [] 0) "k" 3
    (Some (mkRendered (VStr "block_ip") (join "" (repeat "0123456789" 60)) VNone)).

Lemma persist_fire_all_or_nothing_witness :
  tables (transaction (persist_fire "live" "a" "b" 5 long_fire) mem_world.1).1 = mem_world.1.
Proof.
  refine (proj2 (persist_fire_all_or_nothing (D := db) "a" "b" 5 long_fire mem_world.1)
    (mkRendered (VStr "block_ip") (join "" (repeat "0123456789" 60)) VNone) eq_refl _).
  vm_compute. reflexivity.
Defined.

Definition bad_regex_rule : CompiledSigmaRule :=
  mkRule "bad" "broken pattern" "low" [("source", VStr "re:(")] [] "selection" 1 60 60 "" None [].

Definition eager_rule : CompiledSigmaRule :=
  mkRule "eager" "any nginx event" "high" [("source", VStr "nginx")] [] "selection" 1 60 300 "" None [].

(** The first rule has fired and cools, and nothing was written. *)
Lemma raising_rule_drops_fires_witness :
  let out := _process_sigma_one mem_uuid4 no_regex (200 * SEC) (Ok [eager_rule; bad_regex_rule])
      script_message.2.2 mem_world in
  tables out.1.1 = mem_world.1
  /\ spec_exists (201 * SEC) (_cooldown_key "eager" "eager") out.1.2 = true.
Proof.
  split; [|vm_compute; reflexivity].
  refine (raising_rule_drops_fires (D := db) mem_uuid4 no_regex (200 * SEC)
    [eager_rule; bad_regex_rule] bad_regex_rule script_message.2.2
    (mkEvent (uuid_text 7) (uuid_text 9) "nginx" "" [] 100)
    (mkEventRow (uuid_text 7) (uuid_text 9) "v1" 100 0 "nginx"
       "GET /?q=<script HTTP/1.1" [("source", VStr "nginx"); ("source_ip", VStr "203.0.113.9")])
    ReError mem_world.1 mem_world.2 _ _ _ _).
  - right. by left.
  - vm_compute. reflexivity.
  - vm_compute. reflexivity.
  - vm_compute. reflexivity.
Defined.
