(* ===== verification/SoarConfig.v ===== *)
(** * SOAR configuration and registry: [soar/config.py], [soar/__init__.py]

    [load_config] works on the document [tomllib] parsed; a missing file is
    [None].  Floats are binary64 values. *)

From S2P Require Import Prelude PyStr PyVal.
From Stdlib Require Import Ascii.

Definition KNOWN_BACKENDS : list string :=
  ["generic_webhook"; "slack"; "discord"; "pagerduty"; "thehive"; "jira"].

Definition SEVERITY_ORDER : list (string * Z) :=
  [("info", 0); ("low", 1); ("medium", 2); ("high", 3); ("critical", 4)].

Record BackendConfig : Type := mkBackend {
  bc_name : string;
  bc_enabled : bool;
  bc_cooldown_sec : Z;
  bc_severity_min : string;
  bc_tags_filter : list string;
  bc_max_retries : Z;
  bc_timeout_sec : pyfloat;
  bc_extra : list (string * val)
}.

Record SoarConfig : Type := mkSoar {
  sc_enabled : bool;
  sc_poll_sec : pyfloat;
  sc_queue_max : Z;
  sc_dead_letter_dir : string;
  sc_public_base_url : string;
  sc_backends : list (string * BackendConfig)
}.

(** [except (TypeError, ValueError): return default]. *)
Definition coerce {A} (r : res A) (default : A) : res A :=
  match r with
  | Ok a => Ok a
  | Raise e => if is_value_error e then Ok default
               else match e with TypeError => Ok default | _ => Raise e end
  end.

Definition _coerce_int (value : val) (default : Z) : res Z := coerce (int_of value) default.
Definition _coerce_float (value : val) (default : pyfloat) : res pyfloat := coerce (float_of value) default.

Definition _coerce_list (value : val) : list string :=
  match value with VList l => map str_of l | _ => [] end.

(** [d.get(k, default)]. *)
Definition get_or (k : string) (dflt : val) (d : list (string * val)) : val := default dflt (assoc k d).

(** [max(a, b)] on floats: the first unless the second is greater. *)
Definition fmax (a b : pyfloat) : pyfloat := if flt a b then b else a.

Definition reserved : list string :=
  ["enabled"; "cooldown_sec"; "severity_min"; "tags_filter"; "max_retries"; "timeout_sec"].

Definition known_severity (s : string) : string :=
  if has_key s SEVERITY_ORDER then s else "low".

(** One [backends.<name>] table. *)
Definition load_backend (name : string) (block : list (string * val)) : res BackendConfig :=
  cooldown ← _coerce_int (get_or "cooldown_sec" (VInt 60) block) 60;
  retries ← _coerce_int (get_or "max_retries" (VInt 5) block) 5;
  timeout ← _coerce_float (get_or "timeout_sec" (VFloat "10.0") block) (float_value "10.0");
  Ok (mkBackend name (truthy (get_or "enabled" (VBool false) block)) (Z.max 0 cooldown)
        (known_severity (str_of (get_or "severity_min" (VStr "low") block)))
        (_coerce_list (get_or "tags_filter" (VList []) block)) (Z.max 0 retries)
        (fmax (float_value "1.0") timeout)
        (filter (fun kv => str_in kv.1 reserved = false) block)).

Fixpoint load_backends (raw : list (string * val)) : res (list (string * BackendConfig)) :=
  match raw with
  | [] => Ok []
  | (name, block) :: rest =>
      if negb (str_in name KNOWN_BACKENDS) then Raise (ValueError "soar.toml: unknown backend")
      else match block with
           | VDict b => c ← load_backend name b; cs ← load_backends rest; Ok ((name, c) :: cs)
           | _ => load_backends rest
           end
  end.

Definition default_soar : SoarConfig :=
  mkSoar false (float_value "2.0") 1000 "var/soar/dead-letter" "" [].

(** [x.get(...)] of a value that need not be a table. *)
Definition as_dict (v : val) : res (list (string * val)) :=
  match v with VDict d => Ok d | _ => Raise AttributeError end.

Definition load_config (doc : option (list (string * val))) : res SoarConfig :=
  match doc with
  | None => Ok default_soar
  | Some raw =>
      soar ← as_dict (get_or "soar" (VDict []) raw);
      poll ← _coerce_float (get_or "poll_sec" (VFloat "2.0") soar) (float_value "2.0");
      qmax ← _coerce_int (get_or "queue_max" (VInt 1000) soar) 1000;
      backends ← load_backends (match get_or "backends" (VDict []) raw with VDict b => b | _ => [] end);
      Ok (mkSoar (truthy (get_or "enabled" (VBool false) soar)) (fmax (float_value "0.1") poll)
            (Z.max 1 qmax) (str_of (get_or "dead_letter_dir" (VStr "var/soar/dead-letter") soar))
            (rstrip_char "/" (str_of (get_or "public_base_url" (VStr "") soar))) backends)
  end.

Definition severity_rank (s : string) : Z := default 0 (assoc (lower s) SEVERITY_ORDER).

Definition severity_meets (actual minimum : string) : bool :=
  severity_rank minimum <=? severity_rank actual.

(** ** The registry: [register], [get_backends], [reset_registry]

    A backend is its name here; what it does is the argument [deliver] of the
    worker. *)
Fixpoint register_backend (name : string) (registry : list string) : list string :=
  match registry with
  | [] => [name]
  | x :: r => if String.eqb x name then name :: r else x :: register_backend name r
  end.

Definition initial_registry : list string := foldl (fun r n => register_backend n r) [] KNOWN_BACKENDS.

(** ** Lemmas *)

Lemma fcompare_opp a b : fcompare b a = CompOpp <$> fcompare a b.
Proof.
  destruct a as [|x|m1 e1], b as [|y|m2 e2]; cbn; try done.
  - by destruct x, y.
  - by destruct x.
  - by destruct y.
  - unfold fin_compare. by rewrite Z.min_comm, <- Z.compare_antisym.
Qed.

Lemma fmax_ge (a b : pyfloat) : fge a a = true -> fge (fmax a b) a = true.
Proof.
  intros Ha. unfold fmax. destruct (flt a b) eqn:E; [|done]. unfold flt in E.
  unfold fge. rewrite fcompare_opp. by destruct (fcompare a b) as [[]|].
Qed.

(** What every loaded backend satisfies. *)
Record backend_ok (name : string) (c : BackendConfig) : Prop := {
  bo_name : bc_name c = name;
  bo_known : In name KNOWN_BACKENDS;
  bo_cooldown : 0 <= bc_cooldown_sec c;
  bo_retries : 0 <= bc_max_retries c;
  bo_severity : has_key (bc_severity_min c) SEVERITY_ORDER = true;
  bo_timeout : fge (bc_timeout_sec c) (float_value "1.0") = true;
  bo_extra : Forall (fun kv => str_in kv.1 reserved = false) (bc_extra c)
}.

Lemma load_backend_ok name block c :
  In name KNOWN_BACKENDS -> load_backend name block = Ok c -> backend_ok name c.
Proof.
  unfold load_backend. intros Hn H. inv_res. split; cbn; [done|done|lia|lia| | |].
  - unfold known_severity. generalize (str_of (get_or "severity_min" (VStr "low") block)).
    intros t. destruct (has_key t SEVERITY_ORDER) eqn:E; [exact E|reflexivity].
  - apply fmax_ge. vm_compute. reflexivity.
  - apply Forall_forall. intros kv [Hkv _]%list_elem_of_filter. exact Hkv.
Qed.

Lemma load_backends_ok raw : forall cs,
  load_backends raw = Ok cs -> Forall (fun nc => backend_ok nc.1 nc.2) cs.
Proof.
  induction raw as [|[name block] raw IH]; cbn [load_backends]; intros cs H.
  { injection H as <-. constructor. }
  destruct (str_in name KNOWN_BACKENDS) eqn:Ek; [|discriminate H]. cbn [negb] in H.
  destruct block; try (by apply IH).
  apply res_bind_ok in H as (c&Hc&H). apply res_bind_ok in H as (cs'&Hcs&H). injection H as <-.
  constructor; [|by apply IH]. apply load_backend_ok with d; [by apply str_in_spec|done].
Qed.

(** ** Properties *)


