(* ===== verification/Soar.v ===== *)
(** * The SOAR worker: [soar/worker.py]

    Alerts become (alert, backend) items of a bounded queue; an item is delivered
    with retries and every attempt is recorded.  The worker's own dictionaries
    and queue are the record [worker]; the outside (the backend's HTTP call, the
    monotonic clock, waiting for the stop event, the delivery table, the
    dead-letter directory) is an arbitrary state [N] with one operation each.
    Monotonic time is in nanoseconds, wall-clock instants in microseconds. *)

From S2P Require Import Prelude PyStr PyVal PyStd Json Redis Crypto Db SoarConfig.
From Stdlib Require Import Ascii.

Record DeliveryResult : Type := mkDelivery {
  d_backend : string;
  d_alert_id : string;
  d_status_code : Z;
  d_attempted_at : Z;
  d_duration_ms : Z;
  d_error : option string;
  d_dead_lettered : bool
}.

Record DeliverOutcome : Type := mkOutcome {
  o_result : DeliveryResult;
  o_payload_sha256 : string
}.

Record SAlert : Type := mkSAlert {
  s_id : string;
  s_host_id : string;
  s_detector : string;
  s_severity : string;
  s_tags : list string;
  s_summary : string;
  s_evidence : option string;
  s_metadata : list (string * string)
}.

Record PendingDelivery : Type := mkPending {
  pd_alert : SAlert;
  pd_backend_name : string;
  pd_config : BackendConfig;
  pd_attempt : Z;
  pd_next_eligible_at : Z
}.

(** One row of [soar_deliveries]. *)
Record SoarDelivery : Type := mkSoarRow {
  sd_alert_id : option string;
  sd_backend : string;
  sd_status_code : Z;
  sd_attempted_at : Z;
  sd_duration_ms : Z;
  sd_attempt : Z;
  sd_error : option string;
  sd_dead_lettered : bool;
  sd_payload_sha256 : option string
}.

(** [NotImplemented.deliver]. *)
Definition not_implemented (name : string) (now : Z) (alert : SAlert) : DeliverOutcome :=
  mkOutcome (mkDelivery name (s_id alert) 0 now 0
    (Some "backend not implemented in this release (Slice 1 scaffolding; see ADR-008)") true) "".

Definition _BACKOFF_SCHEDULE : list Z := [1; 5; 25; 125; 625].

(** [_BACKOFF_SCHEDULE[min(attempt - 1, 4)]]. *)
Definition backoff (attempt : Z) : Z :=
  nth (Z.to_nat (Z.min (attempt - 1) (Z.of_nat (length _BACKOFF_SCHEDULE) - 1))) _BACKOFF_SCHEDULE 0.

Definition cooldown_index : Type := (string * string * string)%type.

Record worker : Type := mkWorker {
  w_cooldowns : gmap (string * string * string) Z;
  w_enqueued : gset string;
  w_finished : gset (string * string);
  w_queue : list PendingDelivery
}.

Definition fresh_worker : worker := mkWorker ∅ ∅ ∅ [].

Definition set_queue (q : list PendingDelivery) (w : worker) : worker :=
  mkWorker (w_cooldowns w) (w_enqueued w) (w_finished w) q.
Definition add_enqueued (i : string) (w : worker) : worker :=
  mkWorker (w_cooldowns w) ({[i]} ∪ w_enqueued w) (w_finished w) (w_queue w).
Definition add_finished (k : string * string) (w : worker) : worker :=
  mkWorker (w_cooldowns w) (w_enqueued w) ({[k]} ∪ w_finished w) (w_queue w).
Definition set_cooldown (k : string * string * string) (t : Z) (w : worker) : worker :=
  mkWorker (<[k := t]> (w_cooldowns w)) (w_enqueued w) (w_finished w) (w_queue w).

(** ** Dead letters *)

Definition _is_dead_letter_candidate (result : DeliveryResult) (attempt : Z) (config : BackendConfig)
  : bool :=
  if d_dead_lettered result && (400 <=? d_status_code result) && (d_status_code result <? 500)
  then true
  else if (bc_max_retries config <? attempt) && (500 <=? d_status_code result) then true
  else (bc_max_retries config <? attempt) && (d_status_code result =? 0).

Definition short_id (id : string) : string :=
  let s := take_str 8 (replace_char "-" "" id) in if nonempty s then s else "alert".

(** The name of the file, inside the dead-letter directory. *)
Definition dead_letter_name (item : PendingDelivery) (outcome : DeliverOutcome) : string :=
  stamp (d_attempted_at (o_result outcome) / 1000000) +:+ "-" +:+ short_id (s_id (pd_alert item))
  +:+ ".json".

Definition opt_str (o : option string) : val := match o with Some s => VStr s | None => VNone end.

Definition alert_body (a : SAlert) : val :=
  VDict [("id", VStr (s_id a)); ("host_id", VStr (s_host_id a)); ("detector", VStr (s_detector a));
         ("severity", VStr (s_severity a)); ("tags", VList (map VStr (s_tags a)));
         ("summary", VStr (s_summary a)); ("evidence", opt_str (s_evidence a));
         ("metadata", VDict (map (fun kv => (kv.1, VStr kv.2)) (s_metadata a)))].

Definition dead_letter_body (item : PendingDelivery) (outcome : DeliverOutcome) (attempt : Z)
  : list (string * val) :=
  [("ts", VStr (isoformat (d_attempted_at (o_result outcome))));
   ("backend", VStr (pd_backend_name item)); ("alert", alert_body (pd_alert item));
   ("status_code", VInt (d_status_code (o_result outcome)));
   ("error", opt_str (d_error (o_result outcome))); ("attempt", VInt attempt);
   ("payload_sha256", VStr (o_payload_sha256 outcome))].

Definition body_sha (body : list (string * val)) : string :=
  hexdigest (utf8 (dumps_pretty (VDict body))).

(** The text on disk: the body with its own hash. *)
Definition dead_letter_text (body : list (string * val)) : string :=
  dumps_pretty (VDict (body ++ [("file_sha256", VStr (body_sha body))])).

#[global] Arguments body_sha : simpl never.
#[global] Arguments dead_letter_text : simpl never.
#[global] Arguments dead_letter_name : simpl never.
#[global] Arguments dead_letter_body : simpl never.

Definition _is_uuid (value : string) : bool := is_ok (parse_uuid value).

(** ** Filters of one backend *)

Definition tags_match (filter_tags tags : list string) : bool :=
  match filter_tags with [] => true | _ => existsb (fun t => str_in t tags) filter_tags end.

Definition cooldown_key (name : string) (a : SAlert) : string * string * string :=
  (name, s_host_id a, s_detector a).

(** [now - last < cooldown_sec], where a missing entry counts as 0. *)
Definition cooling (w : worker) (now : Z) (name : string) (cfg : BackendConfig) (a : SAlert) : bool :=
  now - default 0 (w_cooldowns w !! cooldown_key name a) <? bc_cooldown_sec cfg * SEC.

Definition accepts (w : worker) (now : Z) (name : string) (cfg : BackendConfig) (a : SAlert) : bool :=
  bc_enabled cfg && severity_meets (s_severity a) (bc_severity_min cfg)
  && tags_match (bc_tags_filter cfg) (s_tags a) && negb (cooling w now name cfg a).

(** ** The alert a row becomes *)

Definition str_map (v : val) : list (string * string) :=
  match v with VDict d => map (fun kv => (kv.1, str_of kv.2)) d | _ => [] end.

Definition row_alert (row : Alert) : SAlert :=
  let detail := al_detail row in
  mkSAlert (al_id row) (default "" (al_host_id row)) (al_detector row) (al_severity row)
    (_coerce_list (get "tags" detail)) (al_summary row)
    (match get "evidence" detail with VStr s => Some s | _ => None end)
    (str_map (get "metadata" detail)).

Section Worker.
Context {N : Type}.
Context (config : SoarConfig).
Context (deliver : string -> SAlert -> M N DeliverOutcome).
Context (monotonic : M N Z) (utcnow : M N Z).
Context (stopped : M N bool) (wait_stop : Z -> M N bool).
Context (persist : SoarDelivery -> M N unit).
Context (write_file : string -> string -> M N unit).

Abbreviation world := (worker * N)%type.

Definition modify (f : worker -> worker) : M world unit := fun w => ((f w.1, w.2), Ok tt).
Definition read {A} (f : worker -> A) : M world A := fun w => (w, Ok (f w.1)).

(** [_maybe_dead_letter]: an [OSError] of the directory or the file is logged. *)
Definition _maybe_dead_letter (item : PendingDelivery) (outcome : DeliverOutcome) (attempt : Z)
  : M world unit :=
  if negb (_is_dead_letter_candidate (o_result outcome) attempt (pd_config item)) then mret tt
  else
    try_M (on_snd (write_file (dead_letter_name item outcome)
                     (dead_letter_text (dead_letter_body item outcome attempt))))
      (fun e => match e with OSError => mret tt | _ => raise_M e end).

(** [_dead_letter_queue_full]. *)
Definition _dead_letter_queue_full (item : PendingDelivery) : M world unit :=
  now ← on_snd utcnow;
  _maybe_dead_letter item
    (mkOutcome (mkDelivery (pd_backend_name item) (s_id (pd_alert item)) 0 now 0
       (Some "queue full") true) "") (pd_attempt item).

(** [put_nowait]: whether there was room. *)
Definition put_nowait (item : PendingDelivery) : M world bool := fun w =>
  if Z.of_nat (length (w_queue w.1)) <? sc_queue_max config
  then ((set_queue (w_queue w.1 ++ [item]) w.1, w.2), Ok true)
  else (w, Ok false).

Definition get_nowait : M world (option PendingDelivery) := fun w =>
  match w_queue w.1 with
  | [] => (w, Ok None)
  | x :: q => ((set_queue q w.1, w.2), Ok (Some x))
  end.

(** Enqueue one item; on a full queue the oldest one makes room. *)
Definition enqueue (item : PendingDelivery) : M world unit :=
  ok ← put_nowait item;
  if ok : bool then mret tt
  else
    dropped ← get_nowait;
    _ ← match dropped with Some d => _dead_letter_queue_full d | None => mret tt end;
    ok ← put_nowait item;
    if ok : bool then mret tt else _dead_letter_queue_full item.

(** The loop of [_enqueue_row] over the registered backends. *)
Fixpoint enqueue_backends (alert : SAlert) (names : list string) : M world unit :=
  match names with
  | [] => mret tt
  | name :: names' =>
      _ ← match assoc name (sc_backends config) with
          | None => mret tt
          | Some cfg =>
              now ← on_snd monotonic;
              yes ← read (fun w => accepts w now name cfg alert);
              if yes : bool then
                _ ← modify (add_enqueued (s_id alert));
                enqueue (mkPending alert name cfg 1 now)
              else mret tt
          end;
      enqueue_backends alert names'
  end.

Definition _enqueue_row (registry : list string) (row : Alert) : M world unit :=
  seen ← read (fun w => bool_decide (al_id row ∈ w_enqueued w));
  if seen : bool then mret tt else enqueue_backends (row_alert row) registry.

(** [_poll_once] on the rows its query returned. *)
Fixpoint enqueue_rows (registry : list string) (rows : list Alert) : M world unit :=
  match rows with
  | [] => mret tt
  | row :: rows' => _ ← _enqueue_row registry row; enqueue_rows registry rows'
  end.

(** ** Delivery *)

Definition exception_outcome (item : PendingDelivery) (now : Z) (e : exn) : DeliverOutcome :=
  mkOutcome (mkDelivery (pd_backend_name item) (s_id (pd_alert item)) 0 now 0
    (Some "backend exception") true) "".

Definition delivery_row (item : PendingDelivery) (outcome : DeliverOutcome) (attempt : Z)
  : SoarDelivery :=
  let r := o_result outcome in
  mkSoarRow (match parse_uuid (s_id (pd_alert item)) with Ok u => Some u | Raise _ => None end)
    (pd_backend_name item) (d_status_code r) (d_attempted_at r) (d_duration_ms r) attempt (d_error r)
    (d_dead_lettered r) (if nonempty (o_payload_sha256 outcome) then Some (o_payload_sha256 outcome) else None).

Definition _persist_attempt (item : PendingDelivery) (outcome : DeliverOutcome) (attempt : Z)
  : M world unit := on_snd (persist (delivery_row item outcome attempt)).

Definition _mark_cooldown (item : PendingDelivery) : M world unit :=
  now ← on_snd monotonic; modify (set_cooldown (cooldown_key (pd_backend_name item) (pd_alert item)) now).

(** The wait before an attempt: whether the stop event ended the delivery. *)
Definition wait_turn (attempt next_eligible_at : Z) : M world bool :=
  stop ← (if 1 <? attempt then on_snd stopped else mret false);
  if stop : bool then mret true
  else
    now ← on_snd monotonic;
    if now <? next_eligible_at then on_snd (wait_stop (next_eligible_at - now)) else mret false.

(** The [while] of [_run_one]; [left] is the number of attempts it still allows.
    The result says whether the item was finished (or the stop event returned
    from the coroutine). *)
Fixpoint attempts (left : nat) (item : PendingDelivery) (attempt next_eligible_at : Z)
  : M world bool :=
  match left with
  | O => mret true
  | S left' =>
      stop ← wait_turn attempt next_eligible_at;
      if stop : bool then mret false
      else
        outcome ← try_M (on_snd (deliver (pd_backend_name item) (pd_alert item)))
                    (fun e => now ← on_snd utcnow; mret (exception_outcome item now e));
        _ ← _persist_attempt item outcome attempt;
        let result := o_result outcome in
        if d_dead_lettered result then
          _ ← _maybe_dead_letter item outcome attempt; mret true
        else if (200 <=? d_status_code result) && (d_status_code result <? 400) then
          _ ← _mark_cooldown item; mret true
        else if bc_max_retries (pd_config item) <? attempt then
          _ ← _maybe_dead_letter item outcome attempt; mret true
        else
          now ← on_snd monotonic;
          attempts left' item (attempt + 1) (now + backoff attempt * SEC)
  end.

Definition _run_one (item : PendingDelivery) : M world unit :=
  done ← attempts (Z.to_nat (bc_max_retries (pd_config item) + 2 - pd_attempt item)) item
           (pd_attempt item) (pd_next_eligible_at item);
  if done : bool then modify (add_finished (s_id (pd_alert item), pd_backend_name item)) else mret tt.

(** [_drain_queue_once] takes at most sixteen items; each runs as a task of its
    own, one after the other here. *)
Fixpoint drain (n : nat) : M world unit :=
  match n with
  | O => mret tt
  | S n' =>
      stop ← on_snd stopped;
      if stop : bool then mret tt
      else
        item ← get_nowait;
        match item with
        | None => mret tt
        | Some i => _ ← try_M (_run_one i) (fun _ => mret tt); drain n'
        end
  end.

Definition _drain_queue_once : M world unit := fun w =>
  drain (Nat.min 16 (length (w_queue w.1))) w.

End Worker.

(** ** A recorded outside world

    The backend answers from a list, waiting advances the clock and is never
    interrupted, and everything is logged. *)

Inductive effect : Type :=
| EWait (ns : Z)
| EDeliver
| ERow (attempt status : Z)
| EFile (name text : string).

Record env : Type := mkEnv {
  v_clock : Z;
  v_answers : list (res DeliverOutcome);
  v_log : list effect
}.

Definition log_effect (x : effect) (e : env) : env :=
  mkEnv (v_clock e) (v_answers e) (v_log e ++ [x]).

Definition env_deliver (name : string) (a : SAlert) : M env DeliverOutcome := fun e =>
  match v_answers e with
  | [] => (log_effect EDeliver e, Raise TimeoutError)
  | x :: r => (mkEnv (v_clock e) r (v_log e ++ [EDeliver]), x)
  end.
Definition env_monotonic : M env Z := fun e => (e, Ok (v_clock e)).
Definition env_stopped : M env bool := mret false.
Definition env_wait (ns : Z) : M env bool := fun e =>
  (mkEnv (v_clock e + ns) (v_answers e) (v_log e ++ [EWait ns]), Ok false).
Definition env_persist (r : SoarDelivery) : M env unit := fun e =>
  (log_effect (ERow (sd_attempt r) (sd_status_code r)) e, Ok tt).
Definition env_write (name text : string) : M env unit := fun e => (log_effect (EFile name text) e, Ok tt).

Abbreviation run_one_env :=
  (_run_one env_deliver env_monotonic env_monotonic env_stopped env_wait env_persist env_write).
Abbreviation attempts_env :=
  (attempts env_deliver env_monotonic env_monotonic env_stopped env_wait env_persist env_write).

(** ** Lemmas *)

(** An answer that is worth a retry. *)
Definition transient (o : DeliverOutcome) : bool :=
  let r := o_result o in
  negb (d_dead_lettered r) && negb ((200 <=? d_status_code r) && (d_status_code r <? 400)).

Definition success (o : DeliverOutcome) : bool :=
  let r := o_result o in
  negb (d_dead_lettered r) && (200 <=? d_status_code r) && (d_status_code r <? 400).

Definition waits (ns : Z) : list effect := if 0 <? ns then [EWait ns] else [].

(** The effects of one attempt, the wait before it included. *)
Definition attempt_log (ns a : Z) (o : DeliverOutcome) : list effect :=
  waits ns ++ [EDeliver; ERow a (d_status_code (o_result o))].

Fixpoint attempts_log (ns a : Z) (os : list DeliverOutcome) : list effect :=
  match os with
  | [] => []
  | o :: os' => attempt_log ns a o ++ attempts_log (backoff a * SEC) (a + 1) os'
  end.

(** The clock when the attempts are over. *)
Fixpoint total_wait (ns a : Z) (os : list DeliverOutcome) : Z :=
  match os with
  | [] => 0
  | o :: os' => Z.max 0 ns + total_wait (backoff a * SEC) (a + 1) os'
  end.

Lemma wait_turn_env a next (w : worker) e :
  wait_turn env_monotonic env_stopped env_wait a next (w, e)
  = ((w, mkEnv (v_clock e + Z.max 0 (next - v_clock e)) (v_answers e)
           (v_log e ++ waits (next - v_clock e))), Ok false).
Proof.
  assert (Hw : (now ← on_snd env_monotonic;
                if now <? next then on_snd (env_wait (next - now)) else mret false) (w, e)
    = ((w, mkEnv (v_clock e + Z.max 0 (next - v_clock e)) (v_answers e)
             (v_log e ++ waits (next - v_clock e))), Ok false)).
  { unfold mbind, M_bind, on_snd, env_monotonic, env_wait, waits. cbn [fst snd].
    destruct (Z.ltb_spec (v_clock e) next), (Z.ltb_spec 0 (next - v_clock e)); try lia.
    - by rewrite Z.max_r by lia.
    - rewrite Z.max_l, Z.add_0_r, app_nil_r by lia. by destruct e. }
  unfold wait_turn. by destruct (1 <? a).
Qed.

(** One transient attempt that is not the last. *)
Lemma attempts_transient left item a next (w : worker) e o rest :
  transient o = true -> a <= bc_max_retries (pd_config item) -> v_answers e = Ok o :: rest ->
  attempts_env (S left) item a next (w, e)
  = let e' := mkEnv (v_clock e + Z.max 0 (next - v_clock e)) rest
                (v_log e ++ attempt_log (next - v_clock e) a o) in
    attempts_env left item (a + 1) (v_clock e' + backoff a * SEC) (w, e').
Proof.
  intros Ht Ha He. cbn [attempts]. unfold mbind at 1, M_bind at 1. rewrite wait_turn_env.
  unfold mbind at 1, M_bind at 1, try_M, on_snd at 1, env_deliver. cbn [fst snd v_answers].
  rewrite He. cbn [fst snd v_clock v_log].
  unfold _persist_attempt, mbind at 1, M_bind at 1, on_snd at 1, env_persist, log_effect.
  cbn [fst snd v_clock v_log v_answers sd_attempt sd_status_code delivery_row].
  unfold transient in Ht. apply andb_true_iff in Ht as [Hd Hs].
  apply negb_true_iff in Hd, Hs. rewrite Hd, Hs.
  destruct (Z.ltb_spec (bc_max_retries (pd_config item)) a); [lia|].
  unfold mbind at 1, M_bind at 1, on_snd at 1, env_monotonic at 1. cbn [fst snd v_clock].
  unfold attempt_log. by rewrite <- !app_assoc.
Qed.

Lemma attempts_transients os : forall left item a next (w : worker) e rest,
  Forall (fun o => transient o = true) os ->
  a + Z.of_nat (length os) <= bc_max_retries (pd_config item) + 1 ->
  v_answers e = map Ok os ++ rest -> os <> [] ->
  exists next', attempts_env (length os + left) item a next (w, e)
  = attempts_env left item (a + Z.of_nat (length os)) next'
      (w, mkEnv (v_clock e + total_wait (next - v_clock e) a os) rest
            (v_log e ++ attempts_log (next - v_clock e) a os))
  /\ next' - (v_clock e + total_wait (next - v_clock e) a os)
     = backoff (a + Z.of_nat (length os) - 1) * SEC.
Proof.
  induction os as [|o os IH]; intros left item a next w e rest Hall Hle He Hne; [done|].
  apply Forall_cons in Hall as [Ho Hall]. cbn [length map app] in *.
  cbn [Nat.add]. rewrite (attempts_transient _ item a next w e o (map Ok os ++ rest)) by (done || lia).
  cbn zeta. destruct os as [|o2 os].
  - cbn [length Nat.add map app attempts_log total_wait]. eexists. split.
    + replace (a + Z.of_nat 1) with (a + 1) by lia. rewrite app_nil_r.
      cbn [v_clock]. by rewrite Z.add_0_r.
    + cbn [v_clock]. replace (a + Z.of_nat 1 - 1) with a by lia. lia.
  - set (c := v_clock e + Z.max 0 (next - v_clock e)).
    destruct (IH left item (a + 1) (c + backoff a * SEC) w
      (mkEnv c (map Ok (o2 :: os) ++ rest) (v_log e ++ attempt_log (next - v_clock e) a o)) rest)
      as (next'&E&Hn); [done|cbn [length] in *; lia|done|done|].
    cbn [v_clock v_log v_answers] in *. rewrite E. clear E. unfold c in *. clear c.
    replace (v_clock e + Z.max 0 (next - v_clock e) + backoff a * SEC
             - (v_clock e + Z.max 0 (next - v_clock e))) with (backoff a * SEC) in * by lia.
    change (attempts_log (next - v_clock e) a (o :: o2 :: os)) with
      (attempt_log (next - v_clock e) a o ++ attempts_log (backoff a * SEC) (a + 1) (o2 :: os)).
    change (total_wait (next - v_clock e) a (o :: o2 :: os)) with
      (Z.max 0 (next - v_clock e) + total_wait (backoff a * SEC) (a + 1) (o2 :: os)).
    replace (a + Z.of_nat (S (length (o2 :: os)))) with (a + 1 + Z.of_nat (length (o2 :: os))) by lia.
    rewrite Z.add_assoc, app_assoc. by exists next'.
Qed.

Lemma log_app ns a os o :
  attempts_log ns a (os ++ [o])
  = attempts_log ns a os
    ++ attempt_log (match os with [] => ns | _ => backoff (a + Z.of_nat (length os) - 1) * SEC end)
         (a + Z.of_nat (length os)) o.
Proof.
  revert ns a. induction os as [|x os IH]; intros ns a; cbn [app attempts_log length].
  { change (Z.of_nat 0) with 0. by rewrite app_nil_r, Z.add_0_r. }
  rewrite IH, <- app_assoc, Nat2Z.inj_succ.
  replace (a + Z.succ (Z.of_nat (length os)) - 1) with (a + Z.of_nat (length os)) by lia.
  replace (a + Z.succ (Z.of_nat (length os))) with (a + 1 + Z.of_nat (length os)) by lia.
  destruct os as [|y os]; [cbn [length]; change (Z.of_nat 0) with 0; by rewrite !Z.add_0_r|].
  by replace (a + 1 + Z.of_nat (length (y :: os)) - 1) with (a + Z.of_nat (length (y :: os))) by lia.
Qed.

Lemma wait_app ns a os o :
  total_wait ns a (os ++ [o])
  = total_wait ns a os
    + Z.max 0 (match os with [] => ns | _ => backoff (a + Z.of_nat (length os) - 1) * SEC end).
Proof.
  revert ns a. induction os as [|x os IH]; intros ns a; cbn [app total_wait length]; [lia|].
  rewrite IH, Nat2Z.inj_succ.
  replace (a + Z.succ (Z.of_nat (length os)) - 1) with (a + Z.of_nat (length os)) by lia.
  destruct os as [|y os].
  - cbn [length total_wait]. change (Z.of_nat 0) with 0. rewrite !Z.add_0_r. lia.
  - replace (a + 1 + Z.of_nat (length (y :: os)) - 1) with (a + Z.of_nat (length (y :: os))) by lia.
    lia.
Qed.

(** What the world is after an attempt that answered. *)
Definition after_attempt (ns a : Z) (o : DeliverOutcome) (rest : list (res DeliverOutcome)) (e : env) : env :=
  mkEnv (v_clock e + Z.max 0 ns) rest (v_log e ++ attempt_log ns a o).

Lemma attempts_success left item a next (w : worker) e o rest :
  success o = true -> v_answers e = Ok o :: rest ->
  attempts_env (S left) item a next (w, e)
  = let e' := after_attempt (next - v_clock e) a o rest e in
    ((set_cooldown (cooldown_key (pd_backend_name item) (pd_alert item)) (v_clock e') w, e'), Ok true).
Proof.
  intros Hs He. cbn [attempts]. unfold mbind at 1, M_bind at 1. rewrite wait_turn_env.
  unfold mbind at 1, M_bind at 1, try_M, on_snd at 1, env_deliver. cbn [fst snd v_answers].
  rewrite He. cbn [fst snd v_clock v_log].
  unfold _persist_attempt, mbind at 1, M_bind at 1, on_snd at 1, env_persist, log_effect.
  cbn [fst snd v_clock v_log v_answers sd_attempt sd_status_code delivery_row].
  unfold success in Hs. bprop. rewrite H.
  destruct (Z.leb_spec 200 (d_status_code (o_result o))); [|lia].
  destruct (Z.ltb_spec (d_status_code (o_result o)) 400); [|lia]. cbn [andb].
  unfold after_attempt, attempt_log. rewrite <- !app_assoc. reflexivity.
Qed.

Lemma attempts_last left item a next (w : worker) e o rest :
  transient o = true -> bc_max_retries (pd_config item) < a -> v_answers e = Ok o :: rest ->
  attempts_env (S left) item a next (w, e)
  = let e' := after_attempt (next - v_clock e) a o rest e in
    ((w, if _is_dead_letter_candidate (o_result o) a (pd_config item)
         then log_effect (EFile (dead_letter_name item o)
                (dead_letter_text (dead_letter_body item o a))) e'
         else e'), Ok true).
Proof.
  intros Ht Ha He. cbn [attempts]. unfold mbind at 1, M_bind at 1. rewrite wait_turn_env.
  unfold mbind at 1, M_bind at 1, try_M at 1, on_snd at 1, env_deliver. cbn [fst snd v_answers].
  rewrite He. cbn [fst snd v_clock v_log].
  unfold _persist_attempt, mbind at 1, M_bind at 1, on_snd at 1, env_persist, log_effect.
  cbn [fst snd v_clock v_log v_answers sd_attempt sd_status_code delivery_row].
  unfold transient in Ht. apply andb_true_iff in Ht as [Hd Hs].
  apply negb_true_iff in Hd, Hs. rewrite Hd, Hs.
  destruct (Z.ltb_spec (bc_max_retries (pd_config item)) a); [|lia].
  unfold mbind, M_bind, _maybe_dead_letter, after_attempt, attempt_log.
  generalize (dead_letter_text (dead_letter_body item o a)) (dead_letter_name item o).
  intros text name.
  destruct (_is_dead_letter_candidate _ _ _); cbn; unfold log_effect, mret, M_ret;
    cbn [v_clock v_answers v_log]; by rewrite <- !app_assoc.
Qed.

(** The prefix of retries common to both ends of a delivery. *)
Lemma attempts_prefix left item next (w : worker) e os o rest :
  Forall (fun o => transient o = true) os ->
  Z.of_nat (length os) <= bc_max_retries (pd_config item) ->
  v_answers e = map Ok os ++ Ok o :: rest ->
  exists next' e', attempts_env (length os + left) item 1 next (w, e)
    = attempts_env left item (1 + Z.of_nat (length os)) next' (w, e')
  /\ v_answers e' = Ok o :: rest
  /\ forall a, a = 1 + Z.of_nat (length os) -> after_attempt (next' - v_clock e') a o rest e'
     = mkEnv (v_clock e + total_wait (next - v_clock e) 1 (os ++ [o])) rest
         (v_log e ++ attempts_log (next - v_clock e) 1 (os ++ [o])).
Proof.
  intros Hall Hle He. destruct os as [|o1 os].
  - exists next, e. cbn [length Nat.add Z.of_nat]. split; [done|]. split; [exact He|].
    intros a ->. unfold after_attempt. cbn [app attempts_log total_wait]. by rewrite !Z.add_0_r, app_nil_r.
  - destruct (attempts_transients (o1 :: os) left item 1 next w e (Ok o :: rest)) as (next'&->&Hn);
      [done|lia|done|done|].
    eexists next', _. split; [reflexivity|]. split; [done|]. intros a ->.
    unfold after_attempt. cbn [v_clock v_log]. rewrite Hn, log_app, wait_app, app_assoc.
    by rewrite Z.add_assoc.
Qed.

(** ** Properties *)

Definition finished_key (item : PendingDelivery) : string * string :=
  (s_id (pd_alert item), pd_backend_name item).

(** C13. The retry schedule: a delivery whose first answers are transient failures
    is attempted again after 1, 5, 25, 125 and then always 625 seconds.  It ends
    at the first success, with the cooldown set at that time, or after
    [max_retries] retries, with a dead-letter file if the last answer was a
    server or a network error; every attempt leaves one row, in order, and the
    item is finished. *)
Theorem delivery_schedule (item : PendingDelivery) (w : worker) (e : env)
    (os : list DeliverOutcome) (o : DeliverOutcome) (rest : list (res DeliverOutcome)) :
  pd_attempt item = 1 -> Forall (fun o => transient o = true) os ->
  Z.of_nat (length os) <= bc_max_retries (pd_config item) ->
  v_answers e = map Ok os ++ Ok o :: rest ->
  let ns := pd_next_eligible_at item - v_clock e in
  let e' := mkEnv (v_clock e + total_wait ns 1 (os ++ [o])) rest
              (v_log e ++ attempts_log ns 1 (os ++ [o])) in
  (success o = true ->
   run_one_env item (w, e)
   = ((add_finished (finished_key item)
         (set_cooldown (cooldown_key (pd_backend_name item) (pd_alert item)) (v_clock e') w), e'), Ok tt))
  /\ (transient o = true -> Z.of_nat (length os) = bc_max_retries (pd_config item) ->
      let status := d_status_code (o_result o) in
      let a := 1 + Z.of_nat (length os) in
      run_one_env item (w, e)
      = ((add_finished (finished_key item) w,
          if (500 <=? status) || (status =? 0)
          then log_effect (EFile (dead_letter_name item o)
                 (dead_letter_text (dead_letter_body item o a))) e'
          else e'), Ok tt))
  /\ map backoff (seqZ 1 7) = [1; 5; 25; 125; 625; 625; 625].
Proof.
  intros Ha Hall Hle He. cbn zeta. unfold _run_one. rewrite Ha.
  destruct (Z_le_lt_eq_dec _ _ Hle) as [Hlt|Heq].
  all: replace (Z.to_nat (bc_max_retries (pd_config item) + 2 - 1)) with
    (length os + S (Z.to_nat (bc_max_retries (pd_config item)) - length os))%nat by lia.
  all: destruct (attempts_prefix (S (Z.to_nat (bc_max_retries (pd_config item)) - length os)) item
    (pd_next_eligible_at item) w e os o rest Hall Hle He) as (next'&e1&Ep&Ha1&Hafter).
  all: specialize (Hafter _ eq_refl); unfold mbind, M_bind; rewrite Ep; split; [|split; [|reflexivity]].
  - intros Hs. rewrite (attempts_success _ item _ next' w e1 o rest Hs Ha1). cbn zeta. by rewrite Hafter.
  - lia.
  - intros Hs. rewrite (attempts_success _ item _ next' w e1 o rest Hs Ha1). cbn zeta. by rewrite Hafter.
  - intros Ht _. rewrite (attempts_last _ item (1 + Z.of_nat (length os)) next' w e1 o rest Ht ltac:(lia) Ha1). cbn zeta.
    rewrite Hafter. unfold _is_dead_letter_candidate.
    unfold transient in Ht. bprop. rewrite H. cbn [andb].
    destruct (Z.ltb_spec (bc_max_retries (pd_config item)) (1 + Z.of_nat (length os))); [|lia].
    cbn [andb]. by destruct (500 <=? _), (_ =? 0).
Qed.

Definition slack_config (retries : Z) : BackendConfig :=
  mkBackend "slack" true 60 "low" [] retries (float_value "10.0") [].
Definition some_alert : SAlert :=
  mkSAlert "0f0e0d0c-0000-4000-8000-000000000001" "h" "ssh_bruteforce" "high" [] "s" None [].
Definition answer (status : Z) : DeliverOutcome :=
  mkOutcome (mkDelivery "slack" (s_id some_alert) status 0 5 None false) "".

(** Two server errors, then success: the waits are one and five seconds. *)
Lemma delivery_schedule_witness :
  v_log (run_one_env (mkPending some_alert "slack" (slack_config 5) 1 0)
     (fresh_worker, mkEnv (9 * SEC) [Ok (answer 503); Ok (answer 0); Ok (answer 204)] [])).1.2
  = [EDeliver; ERow 1 503; EWait SEC; EDeliver; ERow 2 0; EWait (5 * SEC); EDeliver; ERow 3 204].
Proof.
  refine (eq_trans (f_equal (fun x => v_log x.1.2) (proj1 (delivery_schedule
    (mkPending some_alert "slack" (slack_config 5) 1 0) fresh_worker
    (mkEnv (9 * SEC) [Ok (answer 503); Ok (answer 0); Ok (answer 204)] [])
    [answer 503; answer 0] (answer 204) [] eq_refl _ _ eq_refl) eq_refl)) _).
  - repeat constructor.
  - cbn. lia.
  - vm_compute. reflexivity.
Defined.

(** Failures the dead-letter store misses.  A backend that raises is tried
    once, its row says dead-lettered, and no file is written; and when the queue
    is full the oldest item is dropped for the new one without any trace in the
    outside world, although both paths mean to keep it.  Both hold for every item
    in its first attempt whose backend allows a retry. *)
Theorem failures_without_dead_letter {N : Type} (config : SoarConfig)
    (utcnow : M N Z) (write_file : string -> string -> M N unit)
    (item dropped : PendingDelivery) (w : worker) (e : env) (x : exn)
    (rest : list (res DeliverOutcome)) (q : list PendingDelivery) (n n' : N) (t : Z) :
  pd_attempt dropped = 1 -> 1 <= bc_max_retries (pd_config dropped) ->
  (v_answers e = Raise x :: rest -> pd_next_eligible_at dropped <= v_clock e ->
   run_one_env dropped (w, e)
   = ((add_finished (finished_key dropped) w,
       mkEnv (v_clock e) rest (v_log e ++ [EDeliver; ERow 1 0])), Ok tt))
  /\ (w_queue w = dropped :: q -> Z.of_nat (length (w_queue w)) = sc_queue_max config ->
      utcnow n = (n', Ok t) ->
      enqueue config utcnow write_file item (w, n) = ((set_queue (q ++ [item]) w, n'), Ok tt)).
Proof.
  intros Ha Hr. split.
  - intros He Hn. unfold _run_one. rewrite Ha.
    replace (Z.to_nat (bc_max_retries (pd_config dropped) + 2 - 1))
      with (S (Z.to_nat (bc_max_retries (pd_config dropped)))) by lia.
    cbn [attempts]. unfold mbind at 1, M_bind at 1, mbind at 1, M_bind at 1. rewrite wait_turn_env.
    unfold mbind at 1, M_bind at 1, try_M at 1, on_snd at 1, env_deliver. cbn [fst snd v_answers].
    rewrite He. cbn [fst snd v_clock v_log].
    unfold waits. rewrite Z.max_l by lia. destruct (Z.ltb_spec 0 (pd_next_eligible_at dropped - v_clock e)); [lia|].
    unfold mbind, M_bind, on_snd, env_monotonic, mret, M_ret. cbn [fst snd v_clock].
    unfold _persist_attempt, on_snd, env_persist, log_effect. cbn [fst snd v_clock v_log v_answers].
    unfold delivery_row, exception_outcome. cbn [o_result d_dead_lettered sd_attempt sd_status_code d_status_code].
    unfold _maybe_dead_letter, _is_dead_letter_candidate. cbn [o_result d_dead_lettered d_status_code].
    change (400 <=? 0) with false. change (500 <=? 0) with false. cbn [andb].
    rewrite andb_false_r. destruct (Z.ltb_spec (bc_max_retries (pd_config dropped)) 1); [lia|]. cbn.
    unfold modify, finished_key. cbn [fst snd]. rewrite Z.add_0_r, app_nil_r, <- app_assoc. done.
  - intros Hq Hfull Hu. unfold enqueue, mbind, M_bind, put_nowait at 1. cbn [fst snd].
    destruct (Z.ltb_spec (Z.of_nat (length (w_queue w))) (sc_queue_max config)); [lia|].
    unfold get_nowait. cbn [fst snd]. rewrite Hq.
    unfold _dead_letter_queue_full, mbind, M_bind, on_snd at 1. cbn [fst snd]. rewrite Hu.
    unfold _maybe_dead_letter, _is_dead_letter_candidate. cbn [o_result d_dead_lettered d_status_code].
    change (400 <=? 0) with false. change (500 <=? 0) with false. rewrite Ha. cbn [andb].
    rewrite andb_false_r. destruct (Z.ltb_spec (bc_max_retries (pd_config dropped)) 1); [lia|]. cbn [andb negb].
    unfold mret, M_ret, put_nowait. cbn [fst snd w_queue set_queue].
    rewrite Hq in Hfull. cbn [length] in Hfull.
    destruct (Z.ltb_spec (Z.of_nat (length q)) (sc_queue_max config)); [done|lia].
Qed.

Lemma failures_without_dead_letter_witness :
  let item := mkPending some_alert "slack" (slack_config 5) 1 0 in
  v_log (run_one_env item (fresh_worker, mkEnv 0 [Raise TimeoutError] [])).1.2 = [EDeliver; ERow 1 0]
  /\ enqueue (mkSoar true (float_value "2.0") 1 "" "" []) env_monotonic env_write item
       (set_queue [item] fresh_worker, mkEnv 0 [] [])
     = ((set_queue [item] fresh_worker, mkEnv 0 [] []), Ok tt).
Proof.
  cbn zeta. split.
  - refine (eq_trans (f_equal (fun x => v_log x.1.2) (proj1 (failures_without_dead_letter
      (mkSoar true (float_value "2.0") 1 "" "" []) env_monotonic env_write
      (mkPending some_alert "slack" (slack_config 5) 1 0)
      (mkPending some_alert "slack" (slack_config 5) 1 0) fresh_worker
      (mkEnv 0 [Raise TimeoutError] []) TimeoutError [] [] (mkEnv 0 [] []) (mkEnv 0 [] []) 0
      eq_refl _) eq_refl _)) _); [cbn; lia|cbn; lia|vm_compute; reflexivity].
  - refine (proj2 (failures_without_dead_letter
      (mkSoar true (float_value "2.0") 1 "" "" []) env_monotonic env_write
      (mkPending some_alert "slack" (slack_config 5) 1 0)
      (mkPending some_alert "slack" (slack_config 5) 1 0) (set_queue [mkPending some_alert "slack" (slack_config 5) 1 0] fresh_worker)
      (mkEnv 0 [] []) TimeoutError [] [] (mkEnv 0 [] []) (mkEnv 0 [] []) 0
      eq_refl _) eq_refl eq_refl eq_refl). cbn; lia.
Defined.

(** *** Which backends an alert goes to *)

(** The items an alert becomes. *)
Definition selected (config : SoarConfig) (w : worker) (now : Z) (alert : SAlert) (names : list string)
  : list PendingDelivery :=
  omap (fun name =>
    cfg ← assoc name (sc_backends config);
    if accepts w now name cfg alert then Some (mkPending alert name cfg 1 now) else None) names.

Section Enqueue.
Context {N : Type} (config : SoarConfig) (monotonic utcnow : M N Z).
Context (write_file : string -> string -> M N unit) (now : Z).
Hypothesis clock_stands : forall n, monotonic n = (n, Ok now).

Lemma enqueue_backends_room alert names : forall (w : worker) (n : N),
  Z.of_nat (length (w_queue w) + length names) <= sc_queue_max config ->
  exists w', enqueue_backends config monotonic utcnow write_file alert names (w, n) = ((w', n), Ok tt)
  /\ w_queue w' = w_queue w ++ selected config w now alert names
  /\ w_cooldowns w' = w_cooldowns w /\ w_finished w' = w_finished w
  /\ w_enqueued w' = (match selected config w now alert names with
                      | [] => w_enqueued w
                      | _ => {[s_id alert]} ∪ w_enqueued w
                      end).
Proof.
  induction names as [|name names IH]; intros w n Hroom; cbn [length] in Hroom.
  { exists w. cbn. rewrite app_nil_r. done. }
  cbn [enqueue_backends]. unfold mbind at 1, M_bind at 1.
  assert (Hskip : forall cfg0, assoc name (sc_backends config) = cfg0 ->
    (c ← cfg0; if accepts w now name c alert then Some (mkPending alert name c 1 now) else None) = None ->
    selected config w now alert (name :: names) = selected config w now alert names).
  { intros cfg0 E Hn. unfold selected. cbn [omap list_omap]. by rewrite E, Hn. }
  destruct (assoc name (sc_backends config)) as [cfg|] eqn:Ec.
  - unfold mbind at 1, M_bind at 1, on_snd at 1. cbn [fst snd]. rewrite clock_stands. cbn [fst snd].
    unfold mbind at 1, M_bind at 1, read. cbn [fst].
    destruct (accepts w now name cfg alert) eqn:Ea.
    + unfold mbind at 1, M_bind at 1, modify. cbn [fst snd].
      unfold enqueue, mbind at 1, M_bind at 1, put_nowait at 1. cbn [fst snd w_queue add_enqueued].
      destruct (Z.ltb_spec (Z.of_nat (length (w_queue w))) (sc_queue_max config)); [|lia].
      cbn [mret M_ret]. unfold mret, M_ret.
      set (w1 := set_queue _ _).
      assert (Hsel : selected config w now alert (name :: names)
        = mkPending alert name cfg 1 now :: selected config w1 now alert names).
      { unfold selected at 1. cbn [omap list_omap]. rewrite Ec. cbn [mbind option_bind]. rewrite Ea.
        done. }
      destruct (IH w1 n) as (w'&E&Hq&Hcd&Hf&He).
      { cbn. rewrite length_app. cbn. lia. }
      exists w'. split; [exact E|]. rewrite Hsel, Hq, Hcd, Hf, He. cbn [w_queue set_queue w1].
      split; [by rewrite <- app_assoc|]. split; [done|]. split; [done|]. cbn.
      destruct (selected config w1 now alert names); [done|]. set_solver.
    + cbn [mret M_ret]. unfold mret, M_ret. destruct (IH w n ltac:(lia)) as (w'&E&H'). exists w'.
      rewrite (Hskip (Some cfg) eq_refl); [by split|]. cbn. by rewrite Ea.
  - cbn [mret M_ret]. unfold mret, M_ret. destruct (IH w n ltac:(lia)) as (w'&E&H'). exists w'.
    rewrite (Hskip None eq_refl eq_refl). by split.
Qed.

End Enqueue.

(** Fan-out: with room in the queue a new alert is enqueued, in registry
    order, for exactly the configured backends that are enabled, whose minimum
    severity and tag filter it meets and whose cooldown has run out; nothing
    else of the worker changes but the mark that the alert was seen, and an
    alert seen before is not enqueued again. *)
Theorem enqueue_row_spec {N : Type} (config : SoarConfig) (monotonic utcnow : M N Z)
    (write_file : string -> string -> M N unit) (now : Z) (registry : list string) (row : Alert)
    (w : worker) (n : N) :
  (forall n, monotonic n = (n, Ok now)) ->
  Z.of_nat (length (w_queue w) + length registry) <= sc_queue_max config ->
  let items := if bool_decide (al_id row ∈ w_enqueued w) then []
               else selected config w now (row_alert row) registry in
  exists w', _enqueue_row config monotonic utcnow write_file registry row (w, n) = ((w', n), Ok tt)
  /\ w_queue w' = w_queue w ++ items
  /\ w_cooldowns w' = w_cooldowns w
  /\ (items <> [] -> al_id row ∈ w_enqueued w')
  /\ Forall (fun i => pd_attempt i = 1 /\ exists cfg,
        assoc (pd_backend_name i) (sc_backends config) = Some cfg /\ bc_enabled cfg = true
        /\ severity_meets (al_severity row) (bc_severity_min cfg) = true
        /\ tags_match (bc_tags_filter cfg) (s_tags (row_alert row)) = true
        /\ bc_cooldown_sec cfg * SEC
           <= now - default 0 (w_cooldowns w !! cooldown_key (pd_backend_name i) (row_alert row))) items.
Proof.
  intros Hc Hroom. cbn zeta. unfold _enqueue_row, mbind, M_bind, read. cbn [fst].
  case_bool_decide as Hin; [exists w; cbn; rewrite app_nil_r; by repeat split|].
  destruct (enqueue_backends_room config monotonic utcnow write_file now Hc (row_alert row) registry w n
    Hroom) as (w'&E&Hq&Hcd&_&He).
  exists w'. split; [exact E|]. split; [done|]. split; [done|]. split.
  - intros Hne. rewrite He. destruct (selected _ _ _ _ _); [done|]. cbn. set_solver.
  - apply Forall_forall. intros i Hi. apply list_elem_of_omap in Hi as (name&_&Hi).
    destruct (assoc name (sc_backends config)) as [cfg|] eqn:Ec; [|discriminate Hi]. cbn in Hi.
    destruct (accepts w now name cfg (row_alert row)) eqn:Ea; [|discriminate Hi]. injection Hi as <-.
    cbn. split; [done|]. exists cfg. split; [done|]. unfold accepts, cooling in Ea. bprop. done.
Qed.

Definition alert_row : Alert :=
  mkAlert "0f0e0d0c-0000-4000-8000-000000000001" (Some "h") "ssh_bruteforce" "high" "s" [] 0 None.

(** Right after boot the clock has not reached the cooldown yet, and the missing
    entry counts as a delivery at time zero: nothing is enqueued. *)
Lemma enqueue_row_spec_witness :
  let config := mkSoar true (float_value "2.0") 1000 "" "" [("slack", slack_config 5)] in
  let at_ t := (_enqueue_row config (fun n : unit => (n, Ok (t * SEC))) (mret 0) (fun _ _ => mret tt)
                  initial_registry alert_row (fresh_worker, tt)).1.1 in
  map pd_backend_name (w_queue (at_ 61)) = ["slack"] /\ w_queue (at_ 59) = [].
Proof.
  cbn zeta. split.
  - destruct (enqueue_row_spec (mkSoar true (float_value "2.0") 1000 "" "" [("slack", slack_config 5)])
      (fun n : unit => (n, Ok (61 * SEC))) (mret 0) (fun _ _ => mret tt) (61 * SEC) initial_registry
      alert_row fresh_worker tt (fun _ => eq_refl) ltac:(vm_compute; discriminate))
      as (w'&E&Hq&_). rewrite E. cbn [fst]. rewrite Hq. vm_compute. reflexivity.
  - destruct (enqueue_row_spec (mkSoar true (float_value "2.0") 1000 "" "" [("slack", slack_config 5)])
      (fun n : unit => (n, Ok (59 * SEC))) (mret 0) (fun _ _ => mret tt) (59 * SEC) initial_registry
      alert_row fresh_worker tt (fun _ => eq_refl) ltac:(vm_compute; discriminate))
      as (w'&E&Hq&_). rewrite E. cbn [fst]. rewrite Hq. vm_compute. reflexivity.
Defined.
