(* ===== verification/SoarBackends.v ===== *)
(** * SOAR backends: [soar/backends/*.py]

    The six delivery backends of the worker of [Soar]: their configuration
    checks, the request each renders from an alert, and the delivery they share.
    Parameters: the HTTP client, the wall clock, Jinja ([from_string], [render]),
    and what DNS and the environment answer during a call ([resolve], [env]).
    The em dash that stands for an empty field has no code below 256 and is the
    parameter [dash]. *)

From S2P Require Import Prelude PyStr PyVal PyStd Regex NetAddr Json Crypto SoarConfig Soar.
From Stdlib Require Import Ascii.

(** ** The address guard of [generic_webhook.py] *)

Definition _SSRF_BLOCKED_NETWORKS : list network :=
  omap ip_network
    ["127.0.0.0/8"; "10.0.0.0/8"; "172.16.0.0/12"; "192.168.0.0/16"; "169.254.0.0/16"; "0.0.0.0/8";
     "100.64.0.0/10"; "224.0.0.0/4"; "240.0.0.0/4"; "::1/128"; "fc00::/7"; "fe80::/10"].

(** The allow list, from the text of the environment variable. *)
Definition _ssrf_allowlist (env : string) : list string :=
  map (fun h => lower (strip h)) (filter (fun h => nonempty (strip h) = true) (split_char "," env)).

Definition _is_blocked_address (addr : string) : bool :=
  match ip_address addr with
  | None => true
  | Some ip => existsb (in_network ip) _SSRF_BLOCKED_NETWORKS
  end.

(** The loop over the answers of [getaddrinfo]; [None] is an empty address. *)
Fixpoint check_infos (seen : list string) (infos : list (option string)) : option string :=
  match infos with
  | [] => None
  | None :: r => check_infos seen r
  | Some addr :: r =>
      if str_in addr seen then check_infos seen r
      else if _is_blocked_address addr then Some "resolves to blocked address"
      else check_infos (addr :: seen) r
  end.

Section Guard.
Context (env : string) (resolve : string -> res (list (option string))).

(** [Ok None] is an accepted URL, [Ok (Some e)] a refused one. *)
Definition validate_webhook_url (url : val) : res (option string) :=
  match url with
  | VStr u =>
      if negb (nonempty u) then Ok (Some "missing or non-string url")
      else
        '(scheme, netloc) ← urlsplit u;
        if negb (str_in scheme ["http"; "https"]) then Ok (Some "url must be http(s)")
        else match hostname netloc with
             | None => Ok (Some "url has no hostname")
             | Some h =>
                 let host := lower h in
                 if str_in host (_ssrf_allowlist env) then Ok None
                 else match ip_address host with
                      | Some _ => Ok (if _is_blocked_address host then Some "blocked range" else None)
                      | None =>
                          match resolve host with
                          | Ok infos => Ok (check_infos [] infos)
                          | Raise GaiError => Ok (Some "cannot resolve hostname")
                          | Raise e => Raise e
                          end
                      end
             end
  | _ => Ok (Some "missing or non-string url")
  end.

End Guard.

(** ** Requests and the shared delivery *)

Record Request : Type := mkRequest {
  rq_method : string;
  rq_url : string;
  rq_content : list Z;
  rq_headers : list (string * string)
}.

(** A backend: its checks, and the request it renders from the alert and the
    console URL ([inl] is a template that failed to render). *)
Record backend (N : Type) : Type := mkBackendOps {
  b_name : string;
  b_timeout : pyfloat;
  b_validate : res (option string);
  b_prepare : SAlert -> string -> M N (string + Request)
}.
Arguments mkBackendOps {N}.
Arguments b_name {N}.
Arguments b_timeout {N}.
Arguments b_validate {N}.
Arguments b_prepare {N}.

(** [x * k] for a float and a small positive integer. *)
Definition fscale (x : pyfloat) (k : Z) : pyfloat :=
  match x with FFin m e => round_ratio (m * k * 2 ^ Z.max e 0) (2 ^ Z.max (- e) 0) | f => f end.

(** [int((now - started).total_seconds() * 1000)]. *)
Definition duration_ms (started now : Z) : Z :=
  match int_of_float (fscale (round_ratio (now - started) 1000000) 1000) with Ok z => z | Raise _ => 0 end.

Definition refused (name : string) (alert : SAlert) (started : Z) (err : string) : DeliverOutcome :=
  mkOutcome (mkDelivery name (s_id alert) 0 started 0 (Some err) true) "".

(** The error text and whether a status is final. *)
Definition http_error (status : Z) (text : string) : option string :=
  if 400 <=? status then Some ("http " +:+ str_int status +:+ ": " +:+ take_str 200 text) else None.
Definition permanent (status : Z) : bool := (400 <=? status) && negb (500 <=? status).

Definition answered (name : string) (alert : SAlert) (started now status : Z) (text sha : string)
  : DeliverOutcome :=
  mkOutcome (mkDelivery name (s_id alert) status started (duration_ms started now)
    (http_error status text) (permanent status)) sha.

Definition unreachable (name : string) (alert : SAlert) (started now : Z) (sha : string) : DeliverOutcome :=
  mkOutcome (mkDelivery name (s_id alert) 0 started (duration_ms started now)
    (Some "network error") false) sha.

Section Delivery.
Context {N : Type} (utcnow : M N Z) (http : pyfloat -> Request -> M N (Z * string)).

(** The request, with [except (httpx.TimeoutException, httpx.NetworkError)]. *)
Definition send (b : backend N) (alert : SAlert) (started : Z) (rq : Request) : M N DeliverOutcome :=
  let sha := hexdigest (rq_content rq) in
  try_M (r ← http (b_timeout b) rq; now ← utcnow;
         mret (answered (b_name b) alert started now r.1 r.2 sha))
    (fun e => match e with
              | TimeoutError | ConnectionError =>
                  now ← utcnow; mret (unreachable (b_name b) alert started now sha)
              | _ => raise_M e
              end).

Definition deliver (b : backend N) (public_base_url : string) (alert : SAlert) : M N DeliverOutcome :=
  started ← utcnow;
  err ← lift_res (b_validate b);
  match err with
  | Some e => mret (refused (b_name b) alert started e)
  | None =>
      rq ← b_prepare b alert public_base_url;
      match rq with
      | inl e => mret (refused (b_name b) alert started e)
      | inr rq => send b alert started rq
      end
  end.

End Delivery.

(** ** Rendering *)

Definition starts_any (prefixes : list string) (s : string) : bool :=
  existsb (fun p => startswith p s) prefixes.

(** [not url or not isinstance(url, str)], negated. *)
Definition text_of (v : val) : option string :=
  match v with VStr s => if nonempty s then Some s else None | _ => None end.

(** [a or b] for texts. *)
Definition or_text (a b : string) : string := if nonempty a then a else b.

Definition severity_of (a : SAlert) : string := lower (or_text (s_severity a) "info").

Definition alert_url (console_url : string) (a : SAlert) : string :=
  rstrip_char "/" console_url +:+ "/#/alerts/" +:+ s_id a.

(** [console_url] may be empty, and then there is no link. *)
Definition optional_url (console_url : string) (a : SAlert) : string :=
  if nonempty console_url then alert_url console_url a else "".

Definition backquoted (t : string) : string := "`" +:+ t +:+ "`".

(** [body[k] = str(extra[k])] when it is set. *)
Definition override (k key : string) (extra body : list (string * val)) : list (string * val) :=
  if truthy (get k extra) then assoc_set key (VStr (str_of (get k extra))) body else body.

(** [json.dumps(body, separators=(",", ":"), sort_keys=True).encode("utf-8")]. *)
Definition json_bytes (body : list (string * val)) : list Z := utf8 (dumps_compact (sort_keys (VDict body))).

Definition json_header : list (string * string) := [("Content-Type", "application/json")].

Definition post_json (url : string) (headers : list (string * string)) (body : list (string * val))
  : Request := mkRequest "POST" url (json_bytes body) headers.

Definition obj (fields : list (string * val)) : val := VDict fields.
Definition texts (l : list string) : val := VList (map VStr l).

(** [datetime.now(timezone.utc).isoformat(timespec="seconds")]. *)
Definition iso_now (us : Z) : string := iso_seconds (us / 1000000) +:+ "+00:00".

(** [base64.b64encode]. *)
Definition b64_char (n : Z) : ascii :=
  ascii_of_N (Z.to_N (if n <? 26 then 65 + n else if n <? 52 then 71 + n else if n <? 62 then n - 4
                      else if n =? 62 then 43 else 47)).

Fixpoint b64encode (bs : list Z) : string :=
  match bs with
  | [] => ""
  | [a] => String (b64_char (a / 4)) (String (b64_char (a mod 4 * 16)) "==")
  | [a; b] => String (b64_char (a / 4)) (String (b64_char (a mod 4 * 16 + b / 16))
                (String (b64_char (b mod 16 * 4)) "="))
  | a :: b :: c :: r =>
      String (b64_char (a / 4)) (String (b64_char (a mod 4 * 16 + b / 16))
        (String (b64_char (b mod 16 * 4 + c / 64)) (String (b64_char (c mod 64)) (b64encode r))))
  end.

Example b64_examples :
  map (fun s => b64encode (utf8 s)) [""; "M"; "Ma"; "Man"; "a>?b@c:d"]
  = [""; "TQ=="; "TWE="; "TWFu"; "YT4/YkBjOmQ="].
Proof. vm_compute. reflexivity. Qed.

Section Renderers.
Context {N : Type} (utcnow : M N Z) (dash : string).
Context (env : string) (resolve : string -> res (list (option string))).
Context {T : Type} (from_string : string -> res T) (render : T -> val -> res string).
Context (cfg : BackendConfig).

Definition extra : list (string * val) := bc_extra cfg.

(** *** [slack.py] *)

Definition _SEVERITY_EMOJI : list (string * string) :=
  [("critical", ":fire:"); ("high", ":rotating_light:"); ("medium", ":warning:");
   ("low", ":information_source:"); ("info", ":information_source:")].

Definition _SEVERITY_BUTTON_STYLE : list (string * string) :=
  [("critical", "danger"); ("high", "danger"); ("medium", "primary"); ("low", "default");
   ("info", "default")].

Definition mrkdwn (text : string) : val := obj [("type", VStr "mrkdwn"); ("text", VStr text)].
Definition plain_text (text : string) : val := obj [("type", VStr "plain_text"); ("text", VStr text)].
Definition nl_char : string := String "010" "".

Definition slack_render (alert : SAlert) (console_url : string) : list (string * val) :=
  let sev := severity_of alert in
  let emoji := default ":information_source:" (assoc sev _SEVERITY_EMOJI) in
  let style := default "default" (assoc sev _SEVERITY_BUTTON_STYLE) in
  let tags := or_text (join ", " (map backquoted (s_tags alert))) dash in
  [("blocks", VList
    [obj [("type", VStr "header"); ("text", plain_text (emoji +:+ " ZaqorinCore alert"))];
     obj [("type", VStr "section");
          ("fields", VList
            [mrkdwn ("*Detector:*" +:+ nl_char +:+ backquoted (s_detector alert));
             mrkdwn ("*Severity:*" +:+ nl_char +:+ backquoted sev);
             mrkdwn ("*Host:*" +:+ nl_char +:+ backquoted (or_text (s_host_id alert) dash));
             mrkdwn ("*Tags:*" +:+ nl_char +:+ tags)])];
     obj [("type", VStr "section"); ("text", mrkdwn (or_text (s_summary alert) "(no summary)"))];
     obj [("type", VStr "actions");
          ("elements", VList
            [obj [("type", VStr "button"); ("text", plain_text "View");
                  ("url", VStr (alert_url console_url alert)); ("style", VStr style)]])]])].

(** A URL setting that must have a prefix. *)
Definition url_with_prefix (key prefix : string) : option string :=
  match text_of (get key extra) with
  | None => Some "missing url in config"
  | Some u => if startswith prefix u then None else Some "wrong url prefix"
  end.

(** [Slack.deliver] is [deliver] of this backend. *)
Definition slack : backend N :=
  mkBackendOps "slack" (bc_timeout_sec cfg) (Ok (url_with_prefix "webhook_url" "https://hooks.slack.com/"))
    (fun alert base =>
       let body := override "channel" "channel" extra
                     (override "username" "username" extra (slack_render alert base)) in
       mret (inr (post_json (str_of (get "webhook_url" extra)) json_header body))).

(** *** [discord.py] *)

Definition _SEVERITY_COLOR : list (string * Z) :=
  [("critical", 15158332); ("high", 15105570); ("medium", 15844367); ("low", 3066993); ("info", 3447003)].

Definition discord_field (name value : string) (inline : bool) : val :=
  obj [("name", VStr name); ("value", VStr value); ("inline", VBool inline)].

Definition discord_render (now : Z) (alert : SAlert) (console_url : string) : list (string * val) :=
  let sev := severity_of alert in
  [("username", VStr "ZaqorinCore");
   ("embeds", VList
     [obj [("title", VStr ("ZaqorinCore alert: " +:+ s_detector alert));
           ("description", VStr (or_text (s_summary alert) "(no summary)"));
           ("color", VInt (default 9807270 (assoc sev _SEVERITY_COLOR)));
           ("url", VStr (alert_url console_url alert));
           ("timestamp", VStr (iso_now now));
           ("fields", VList
             [discord_field "Severity" sev true;
              discord_field "Host" (or_text (s_host_id alert) dash) true;
              discord_field "Detector" (s_detector alert) true;
              discord_field "Tags" (or_text (join ", " (s_tags alert)) dash) false])]])].

(** [Discord.deliver] is [deliver] of this backend. *)
Definition discord : backend N :=
  mkBackendOps "discord" (bc_timeout_sec cfg)
    (Ok (url_with_prefix "webhook_url" "https://discord.com/api/webhooks/"))
    (fun alert base =>
       now ← utcnow;
       let body := override "username" "username" extra (discord_render now alert base) in
       mret (inr (post_json (str_of (get "webhook_url" extra)) json_header body))).

(** *** [pagerduty.py] *)

Definition _DEFAULT_SEVERITY_MAP : list (string * string) :=
  [("critical", "critical"); ("high", "error"); ("medium", "warning"); ("low", "info"); ("info", "info")].

(** A mapping setting, with its values as texts. *)
Definition text_map (v : val) (dflt : list (string * string)) : list (string * string) :=
  match v with VDict d => map (fun kv => (kv.1, str_of kv.2)) d | _ => dflt end.

Definition pagerduty_render (alert : SAlert) (console_url : string) : list (string * val) :=
  let sev_map := text_map (get "severity_map" extra) _DEFAULT_SEVERITY_MAP in
  let pd_sev := default "info" (assoc (severity_of alert) sev_map) in
  [("routing_key", VStr (str_of (get "routing_key" extra)));
   ("event_action", VStr "trigger");
   ("dedup_key", VStr ("zaqorin:" +:+ s_id alert));
   ("payload", obj
     [("summary", VStr (or_text (s_summary alert) ("ZaqorinCore alert " +:+ s_id alert)));
      ("source", VStr "zaqorincore"); ("severity", VStr pd_sev);
      ("component", VStr (s_detector alert)); ("group", VStr "zaqorincore");
      ("class", VStr (s_detector alert));
      ("custom_details", obj
        [("alert_id", VStr (s_id alert)); ("host_id", VStr (s_host_id alert));
         ("tags", texts (s_tags alert)); ("console_url", VStr (optional_url console_url alert))])])].

Definition pagerduty_endpoint : string := "https://events.pagerduty.com/v2/enqueue".

(** [PagerDuty.deliver] is [deliver] of this backend. *)
Definition pagerduty : backend N :=
  mkBackendOps "pagerduty" (bc_timeout_sec cfg)
    (Ok (match text_of (get "routing_key" extra) with
         | Some _ => None | None => Some "missing routing_key in config" end))
    (fun alert base => mret (inr (post_json pagerduty_endpoint json_header (pagerduty_render alert base)))).

(** *** [thehive.py] *)

Definition _SEVERITY_TO_HIVE : list (string * Z) :=
  [("info", 1); ("low", 1); ("medium", 2); ("high", 3); ("critical", 4)].

Definition evidence_text (alert : SAlert) : string := default "" (s_evidence alert).

Definition hive_description (alert : SAlert) : string :=
  join nl_char
    ([or_text (s_summary alert) "(no summary)"; "";
      "- **alert_id**: " +:+ backquoted (s_id alert);
      "- **host_id**: " +:+ backquoted (s_host_id alert);
      "- **detector**: " +:+ backquoted (s_detector alert);
      "- **severity**: " +:+ backquoted (severity_of alert)]
     ++ match s_tags alert with
        | [] => []
        | tags => ["- **tags**: " +:+ join ", " (map backquoted tags)]
        end
     ++ (if nonempty (evidence_text alert)
         then [""; "### Evidence"; "```"; evidence_text alert; "```"] else [])).

(** [str(extra.get(k, dflt))]. *)
Definition text_or (k dflt : string) : string := str_of (get_or k (VStr dflt) extra).

Definition alert_title (alert : SAlert) : string :=
  s_detector alert +:+ ": " +:+ or_text (s_summary alert) (s_id alert).

Definition hive_render (now : Z) (alert : SAlert) : list (string * val) :=
  override "caseTemplate" "case_template" extra
    [("type", VStr (text_or "alert_type" "external"));
     ("source", VStr (text_or "source" "zaqorincore"));
     ("sourceRef", VStr ("zaqorin:" +:+ s_id alert));
     ("title", VStr (alert_title alert));
     ("description", VStr (hive_description alert));
     ("severity", VInt (default 1 (assoc (severity_of alert) _SEVERITY_TO_HIVE)));
     ("date", VStr (iso_now now));
     ("tags", texts ("zaqorincore" :: s_tags alert))].

Definition hive_validate : option string :=
  match text_of (get "api_url" extra) with
  | None => Some "missing api_url in config"
  | Some u =>
      if negb (starts_any ["http://"; "https://"] u) then Some "api_url must be http(s)"
      else match text_of (get "api_key" extra) with
           | None => Some "missing api_key in config"
           | Some _ => None
           end
  end.

Definition api_base : string := rstrip_char "/" (str_of (get "api_url" extra)).

(** [TheHive.deliver] is [deliver] of this backend. *)
Definition thehive : backend N :=
  mkBackendOps "thehive" (bc_timeout_sec cfg) (Ok hive_validate)
    (fun alert base =>
       now ← utcnow;
       mret (inr (post_json (api_base +:+ "/api/v1/alert")
                    (json_header ++ [("Authorization", "Bearer " +:+ str_of (get "api_key" extra))])
                    (hive_render now alert)))).

(** *** [jira.py] *)

Definition _DEFAULT_PRIORITY : list (string * string) :=
  [("critical", "Highest"); ("high", "High"); ("medium", "Medium"); ("low", "Low"); ("info", "Low")].

Definition _adf_text (text : string) : val :=
  obj [("type", VStr "paragraph"); ("content", VList [obj [("type", VStr "text"); ("text", VStr text)]])].

Definition _adf_code (text : string) : val :=
  obj [("type", VStr "codeBlock"); ("attrs", obj [("language", VStr "plaintext")]);
       ("content", VList [obj [("type", VStr "text"); ("text", VStr text)]])].

Definition jira_validate : option string :=
  match text_of (get "api_url" extra) with
  | None => Some "missing api_url in config"
  | Some u =>
      if negb (startswith "https://" u) then Some "api_url must be https"
      else if negb (truthy (get "project_key" extra)) then Some "missing project_key in config"
      else if negb (truthy (get "email" extra)) then Some "missing email in config"
      else if negb (truthy (get "api_token" extra)) then Some "missing api_token in config"
      else None
  end.

Definition jira_auth_header : string :=
  "Basic " +:+ b64encode (utf8 (str_of (get "email" extra) +:+ ":" +:+ str_of (get "api_token" extra))).

Definition jira_content (alert : SAlert) (console_url : string) : list val :=
  [_adf_text (or_text (s_summary alert) "(no summary)")]
  ++ (if nonempty (optional_url console_url alert)
      then [_adf_text ("console: " +:+ optional_url console_url alert)] else [])
  ++ [_adf_text ("host: " +:+ s_host_id alert); _adf_text ("detector: " +:+ s_detector alert)]
  ++ match s_tags alert with [] => [] | tags => [_adf_text ("tags: " +:+ join ", " tags)] end
  ++ (if nonempty (evidence_text alert) then [_adf_code (evidence_text alert)] else []).

Definition jira_render (alert : SAlert) (console_url : string) : list (string * val) :=
  let priority := default "" (assoc (severity_of alert)
                                (text_map (get "priority_map" extra) _DEFAULT_PRIORITY)) in
  let fields :=
    [("project", obj [("key", VStr (str_of (get "project_key" extra)))]);
     ("issuetype", obj [("name", VStr (text_or "issue_type" "Task"))]);
     ("summary", VStr (alert_title alert));
     ("description", obj [("type", VStr "doc"); ("version", VInt 1);
                          ("content", VList (jira_content alert console_url))]);
     ("labels", texts ("zaqorincore" :: s_tags alert))] in
  [("fields", obj (if nonempty priority
                   then fields ++ [("priority", obj [("name", VStr priority)])] else fields))].

(** [Jira.deliver] is [deliver] of this backend. *)
Definition jira : backend N :=
  mkBackendOps "jira" (bc_timeout_sec cfg) (Ok jira_validate)
    (fun alert base =>
       mret (inr (post_json (api_base +:+ "/rest/api/3/issue")
                    (json_header ++ [("Accept", "application/json"); ("Authorization", jira_auth_header)])
                    (jira_render alert base)))).

(** *** [generic_webhook.py] *)

(** [__init__]: the compiled template, or what is wrong with it. *)
Definition webhook_init : res (option T * option string) :=
  let template_src := text_or "template" "" in
  if nonempty (strip template_src) then
    match from_string template_src with
    | Ok t => Ok (Some t, None)
    | Raise TemplateError => Ok (None, Some "template parse error")
    | Raise e => Raise e
    end
  else Ok (None, if bc_enabled cfg then Some "`template` is empty" else None).

Definition webhook_validate (template : option T) (template_err : option string) : res (option string) :=
  match text_of (get "url" extra) with
  | None => Ok (Some "missing `url` in config")
  | Some u =>
      if negb (starts_any ["http://"; "https://"] u) then Ok (Some "url must be http(s)")
      else
        ssrf ← validate_webhook_url env resolve (VStr u);
        match ssrf with
        | Some e => Ok (Some e)
        | None =>
            match template with
            | Some _ => Ok None
            | None => Ok (Some (or_text (default "" template_err) "`template` is missing or invalid"))
            end
        end
  end.

Definition template_ctx (now : Z) (alert : SAlert) (console_url : string) : val :=
  obj [("alert", obj
         [("id", VStr (s_id alert)); ("host_id", VStr (s_host_id alert));
          ("detector", VStr (s_detector alert)); ("severity", VStr (s_severity alert));
          ("summary", VStr (s_summary alert)); ("tags", texts (s_tags alert));
          ("evidence", VStr (evidence_text alert));
          ("metadata", obj (map (fun kv => (kv.1, VStr kv.2)) (s_metadata alert)))]);
       ("console_url", VStr (rstrip_char "/" console_url)); ("ts", VStr (iso_now now))].

Definition webhook_headers : list (string * string) :=
  let h := [("Content-Type", text_or "content_type" "application/json")] in
  let h := if truthy (get "auth_header" extra)
           then assoc_set "Authorization" (str_of (get "auth_header" extra)) h else h in
  match get "headers" extra with
  | VDict d => fold_left (fun h kv => assoc_set kv.1 (str_of kv.2) h) d h
  | _ => h
  end.

(** [_render] and [render_body], and the request of [deliver]. *)
Definition webhook_prepare (template : option T) (alert : SAlert) (console_url : string)
  : M N (string + Request) :=
  match template with
  | None => raise_M RuntimeError
  | Some t =>
      now ← utcnow;
      match render t (template_ctx now alert console_url) with
      | Ok body => mret (inr (mkRequest (upper (text_or "method" "POST")) (str_of (get "url" extra))
                                (utf8 body) webhook_headers))
      | Raise TemplateError => mret (inl "template render error")
      | Raise e => raise_M e
      end
  end.

Definition generic_webhook (template : option T) (template_err : option string) : backend N :=
  mkBackendOps "generic_webhook" (bc_timeout_sec cfg) (webhook_validate template template_err)
    (webhook_prepare template).

(** The class of a configured name; every other name keeps its stub. *)
Definition backend_of (name : string) : res (option (backend N)) :=
  if String.eqb name "generic_webhook" then '(t, e) ← webhook_init; Ok (Some (generic_webhook t e))
  else Ok (assoc name [("slack", slack); ("discord", discord); ("pagerduty", pagerduty);
                       ("thehive", thehive); ("jira", jira)]).

End Renderers.

(** ** Lemmas: addresses *)

Definition net_ok (net : network) : bool :=
  (0 <=? nt_prefix net) && (nt_prefix net <=? width (nt_v6 net))
  && (nt_addr net mod 2 ^ (width (nt_v6 net) - nt_prefix net) =? 0).

(** A version, and the first and the last address of an interval. *)
Definition in_interval (ip : ipaddr) (i : bool * Z * Z) : Prop :=
  ip_version6 ip = i.1.1 /\ i.1.2 <= ip_int ip <= i.2.

Definition net_interval (net : network) : bool * Z * Z :=
  (nt_v6 net, nt_addr net, nt_addr net + 2 ^ (width (nt_v6 net) - nt_prefix net) - 1).

Lemma networks_spec ip nets :
  0 <= ip_int ip < 2 ^ width (ip_version6 ip) -> forallb net_ok nets = true ->
  existsb (in_network ip) nets = true <-> Exists (in_interval ip) (map net_interval nets).
Proof.
  intros Hr. induction nets as [|net nets IH]; cbn [forallb existsb map]; intros H.
  { split; [done|]. intros He. by inversion He. }
  bprop. rewrite orb_true_iff, IH, Exists_cons by done. apply ZifyClasses.or_morph; [|done].
  unfold net_ok in H. bprop.
  rewrite (in_network_spec ip net (nt_addr net / 2 ^ (width (nt_v6 net) - nt_prefix net))); [|lia| |done].
  - unfold in_interval, net_interval. cbn [fst snd]. intuition lia.
  - apply Z.div_exact in H1; [lia|]. apply Z.pow_nonzero; lia.
Qed.

(** What the guard calls internal. *)
Definition internal_intervals : list (bool * Z * Z) :=
  [(false, quad_int 127 0 0 0, quad_int 127 255 255 255);
   (false, quad_int 10 0 0 0, quad_int 10 255 255 255);
   (false, quad_int 172 16 0 0, quad_int 172 31 255 255);
   (false, quad_int 192 168 0 0, quad_int 192 168 255 255);
   (false, quad_int 169 254 0 0, quad_int 169 254 255 255);
   (false, quad_int 0 0 0 0, quad_int 0 255 255 255);
   (false, quad_int 100 64 0 0, quad_int 100 127 255 255);
   (false, quad_int 224 0 0 0, quad_int 239 255 255 255);
   (false, quad_int 240 0 0 0, quad_int 255 255 255 255);
   (true, 1, 1);
   (true, 64512 * 2 ^ 112, 65024 * 2 ^ 112 - 1);
   (true, 65152 * 2 ^ 112, 65216 * 2 ^ 112 - 1)].

Definition internal (ip : ipaddr) : Prop := Exists (in_interval ip) internal_intervals.

Lemma blocked_internal addr ip :
  ip_address addr = Some ip -> _is_blocked_address addr = true <-> internal ip.
Proof.
  intros H. pose proof (ip_address_range _ _ H) as Hr. unfold _is_blocked_address. rewrite H.
  rewrite networks_spec; [|done|vm_compute; reflexivity].
  assert (E : map net_interval _SSRF_BLOCKED_NETWORKS = internal_intervals) by (vm_compute; reflexivity).
  by rewrite E.
Qed.

(** An address that parses and is not internal. *)
Definition public (addr : string) : Prop := exists ip, ip_address addr = Some ip /\ ~ internal ip.

Lemma not_blocked addr : _is_blocked_address addr = false <-> public addr.
Proof.
  unfold public. destruct (ip_address addr) as [ip|] eqn:E.
  - pose proof (blocked_internal _ _ E) as Hb. split.
    + intros Hf. exists ip. split; [done|]. rewrite <- Hb. by rewrite Hf.
    + intros (ip'&[= <-]&Hn). rewrite <- Hb in Hn. by destruct (_is_blocked_address addr).
  - unfold _is_blocked_address. rewrite E. split; [done|]. by intros (?&?&?).
Qed.

Lemma check_infos_spec infos : forall seen,
  Forall (fun a => _is_blocked_address a = false) seen ->
  check_infos seen infos = None <-> forall addr, In (Some addr) infos -> public addr.
Proof.
  induction infos as [|[addr|] infos IH]; intros seen Hs; cbn [check_infos].
  - split; [intros _ a []|done].
  - destruct (str_in addr seen) eqn:Ein.
    + rewrite IH by done. apply str_in_spec, list_elem_of_In in Ein.
      rewrite Forall_forall in Hs. specialize (Hs _ Ein). apply not_blocked in Hs.
      split; [intros H a [[= <-]|Ha]|intros H a Ha]; [done|by apply H|apply H; by right].
    + destruct (_is_blocked_address addr) eqn:Eb.
      * split; [done|]. intros H. specialize (H addr (or_introl eq_refl)). apply not_blocked in H. congruence.
      * rewrite IH by (by constructor). apply not_blocked in Eb.
        split; [intros H a [[= <-]|Ha]|intros H a Ha]; [done|by apply H|apply H; by right].
  - rewrite IH by done. split; [intros H a [[=]|Ha]|intros H a Ha]; [by apply H|apply H; by right].
Qed.

(** The URL names a host the operator allowed, a public address, or a name all
    of whose addresses are public. *)
Definition host_allowed (env : string) (resolve : string -> res (list (option string))) (host : string)
  : Prop :=
  In host (_ssrf_allowlist env)
  \/ public host
  \/ (ip_address host = None
      /\ exists infos, resolve host = Ok infos /\ forall addr, In (Some addr) infos -> public addr).

Definition destination_ok (env : string) (resolve : string -> res (list (option string))) (url : string)
  : Prop :=
  exists scheme netloc h, urlsplit url = Ok (scheme, netloc) /\ (scheme = "http" \/ scheme = "https")
    /\ hostname netloc = Some h /\ host_allowed env resolve (lower h).

Lemma guard_accepts (env : string) (resolve : string -> res (list (option string))) (url : string) :
  validate_webhook_url env resolve (VStr url) = Ok None <-> destination_ok env resolve url.
Proof.
  unfold validate_webhook_url, destination_ok. destruct (nonempty url) eqn:En.
  2:{ destruct url; [|done]. split; [done|]. intros (s&n&h&[= <- <-]&[]&_); discriminate. }
  cbn [negb]. destruct (urlsplit url) as [[scheme netloc]|e]; cbn [mbind res_bind].
  2:{ split; [done|]. by intros (s&n&h&[=]&_). }
  destruct (str_in scheme ["http"; "https"]) eqn:Es; cbn [negb].
  2:{ split; [done|]. intros (s&n&h&[= <- <-]&Hs&_). exfalso.
      assert (str_in scheme ["http"; "https"] = true) by (by destruct Hs as [->| ->]). congruence. }
  assert (Hs : scheme = "http" \/ scheme = "https").
  { apply str_in_spec in Es. by destruct Es as [<-|[<-|[]]]; [left|right]. }
  destruct (hostname netloc) as [h|] eqn:Eh.
  2:{ split; [done|]. intros (s&n&h&[= <- <-]&_&Hh&_). congruence. }
  transitivity (host_allowed env resolve (lower h)).
  2:{ split; [intros; by eexists _, _, _|]. intros (s&n&h'&[= <- <-]&_&Hh&?). congruence. }
  unfold host_allowed. destruct (str_in (lower h) (_ssrf_allowlist env)) eqn:Ea.
  { apply str_in_spec in Ea. tauto. }
  assert (Hna : ~ In (lower h) (_ssrf_allowlist env)).
  { intros Hin. apply str_in_spec in Hin. congruence. }
  destruct (ip_address (lower h)) as [ip|] eqn:Ei.
  { destruct (_is_blocked_address (lower h)) eqn:Eb.
    - split; [done|]. intros [|[Hp|[[=] _]]]; [done|]. apply not_blocked in Hp. congruence.
    - apply not_blocked in Eb. tauto. }
  assert (Hnp : ~ public (lower h)) by (intros (?&?&?); congruence).
  destruct (resolve (lower h)) as [infos|e] eqn:Er.
  - transitivity (check_infos [] infos = None); [split; [by intros [= ->]|by intros ->]|].
    rewrite check_infos_spec by done. split.
    + intros H. right. right. split; [done|]. by exists infos.
    + intros [|[|(_&i&[= <-]&H)]]; done.
  - split; [by destruct e|]. by intros [|[|(_&i&[=]&_)]].
Qed.

Lemma mapped_not_internal n : 0 <= n < 2 ^ 32 -> ~ internal (V6 (65535 * 2 ^ 32 + n)).
Proof.
  intros Hn H. unfold internal, internal_intervals in H.
  repeat (apply Exists_cons in H as [[Hv Hi]|H]; [cbn [fst snd ip_version6 ip_int] in Hv, Hi; first [discriminate Hv|lia]|]).
  inversion H.
Qed.

(** ** Lemmas: deliveries *)

(** [m] keeps the invariant and its results satisfy [Q]. *)
Definition yields {S A} (I : S -> Prop) (m : M S A) (Q : A -> Prop) : Prop :=
  forall s, I s -> I (m s).1 /\ forall a, (m s).2 = Ok a -> Q a.

Lemma yields_bind {S A B} (I : S -> Prop) (m : M S A) (f : A -> M S B) Q :
  keeps_inv I m -> (forall a, yields I (f a) Q) -> yields I (m ≫= f) Q.
Proof.
  intros Hm Hf s Hs. specialize (Hm s Hs). unfold mbind, M_bind. destruct (m s) as [s' [a|e]]; [|done].
  by apply Hf.
Qed.

Lemma yields_ret {S A} (I : S -> Prop) (a : A) (Q : A -> Prop) : Q a -> yields I (mret a) Q.
Proof. intros H s Hs. split; [done|]. by intros b [= <-]. Qed.

Section Confinement.
Context {N : Type} (utcnow : M N Z) (http : pyfloat -> Request -> M N (Z * string)).
Context (I : N -> Prop).
Hypothesis clock_keeps : keeps_inv I utcnow.

Lemma send_keeps (b : backend N) alert started rq :
  keeps_inv I (http (b_timeout b) rq) -> keeps_inv I (send utcnow http b alert started rq).
Proof.
  intros Hh. unfold send. apply inv_try.
  - apply inv_bind; [done|]. intros r. apply inv_bind; [done|]. intros now. apply inv_ret.
  - intros e. destruct e; try (intros s Hs; exact Hs);
      (apply inv_bind; [done|]; intros now; apply inv_ret).
Qed.

Lemma deliver_keeps (b : backend N) base alert :
  (b_validate b = Ok None ->
   yields I (b_prepare b alert base)
     (fun x => forall rq, x = inr rq -> keeps_inv I (http (b_timeout b) rq))) ->
  keeps_inv I (deliver utcnow http b base alert).
Proof.
  intros Hb. unfold deliver. apply inv_bind; [done|]. intros started. apply inv_lift_bind.
  intros [err|] Hv; [apply inv_ret|]. specialize (Hb Hv). intros s Hs. specialize (Hb s Hs).
  unfold mbind, M_bind. destruct (b_prepare b alert base s) as [s' [x|e]]; cbn [fst snd] in Hb; [|by destruct Hb].
  destruct Hb as [Hs' Hx]. specialize (Hx x eq_refl). destruct x as [err|rq]; [done|].
  apply send_keeps; [by apply Hx|done].
Qed.

End Confinement.

(** Where the requests of a backend go: the address comes from the
    configuration alone, and was checked. *)
Definition backend_url (cfg : BackendConfig) (name : string) : string :=
  if str_in name ["slack"; "discord"] then str_of (get "webhook_url" (bc_extra cfg))
  else if String.eqb name "pagerduty" then pagerduty_endpoint
  else if String.eqb name "thehive" then api_base cfg +:+ "/api/v1/alert"
  else if String.eqb name "jira" then api_base cfg +:+ "/rest/api/3/issue"
  else str_of (get "url" (bc_extra cfg)).

Definition url_checked (env : string) (resolve : string -> res (list (option string)))
    (cfg : BackendConfig) (name : string) : Prop :=
  let setting k := str_of (get k (bc_extra cfg)) in
  if String.eqb name "slack" then startswith "https://hooks.slack.com/" (setting "webhook_url") = true
  else if String.eqb name "discord" then
    startswith "https://discord.com/api/webhooks/" (setting "webhook_url") = true
  else if String.eqb name "pagerduty" then True
  else if String.eqb name "thehive" then starts_any ["http://"; "https://"] (setting "api_url") = true
  else if String.eqb name "jira" then startswith "https://" (setting "api_url") = true
  else destination_ok env resolve (setting "url").

Lemma text_of_some v u : text_of v = Some u -> v = VStr u /\ str_of v = u.
Proof. destruct v; try done. cbn. destruct (nonempty s); [|done]. by intros [= <-]. Qed.

Lemma url_with_prefix_ok cfg key prefix :
  url_with_prefix cfg key prefix = None -> startswith prefix (str_of (get key (bc_extra cfg))) = true.
Proof.
  unfold url_with_prefix, extra. destruct (text_of (get key (bc_extra cfg))) as [u|] eqn:E; [|done].
  apply text_of_some in E as [_ ->]. by destruct (startswith prefix u).
Qed.

Lemma hive_url_ok cfg :
  hive_validate cfg = None -> starts_any ["http://"; "https://"] (str_of (get "api_url" (bc_extra cfg))) = true.
Proof.
  unfold hive_validate, extra. destruct (text_of (get "api_url" (bc_extra cfg))) as [u|] eqn:E; [|done].
  apply text_of_some in E as [_ ->]. by destruct (starts_any _ u).
Qed.

Lemma jira_url_ok cfg :
  jira_validate cfg = None -> startswith "https://" (str_of (get "api_url" (bc_extra cfg))) = true.
Proof.
  unfold jira_validate, extra. destruct (text_of (get "api_url" (bc_extra cfg))) as [u|] eqn:E; [|done].
  apply text_of_some in E as [_ ->]. by destruct (startswith "https://" u).
Qed.

Lemma webhook_url_ok {T} env resolve cfg (t : option T) err :
  webhook_validate env resolve cfg t err = Ok None ->
  destination_ok env resolve (str_of (get "url" (bc_extra cfg))).
Proof.
  unfold webhook_validate, extra. destruct (text_of (get "url" (bc_extra cfg))) as [u|] eqn:E; [|done].
  apply text_of_some in E as [_ ->]. destruct (negb _); [done|].
  destruct (validate_webhook_url env resolve (VStr u)) as [[e|]|e] eqn:Ev; [done| |done].
  intros _. by apply guard_accepts in Ev.
Qed.

(** ** Properties *)

(** The address guard of the generic webhook accepts exactly the URLs of
    scheme http or https whose host is on the operator's allow list, or is the
    text of a public address, or is a name that resolves, to public addresses
    only; public means outside the twelve blocked ranges, given as intervals of
    numbers.  Every other URL is refused with a message, except that a URL the
    library cannot split and a failure of DNS that is not gaierror escape. *)
Theorem webhook_url_spec (env : string) (resolve : string -> res (list (option string))) (url : string) :
  (validate_webhook_url env resolve (VStr url) = Ok None <-> destination_ok env resolve url)
  /\ forall e, validate_webhook_url env resolve (VStr url) = Raise e ->
       urlsplit url = Raise e \/ (e <> GaiError /\ exists host, resolve host = Raise e).
Proof.
  split; [apply guard_accepts|]. intros e. unfold validate_webhook_url. destruct (negb (nonempty url)); [done|].
  destruct (urlsplit url) as [[scheme netloc]|e']; cbn [mbind res_bind]; [|intros [= ->]; by left].
  repeat first [done | match goal with |- context [resolve ?h] => destruct (resolve h) as [|e'] eqn:Er end
    | split_match; try done].
  all: intros [= <-]; right; eauto.
Qed.

(** The guard can be walked around: every internal IPv4 address is refused
    when the URL names it as a dotted quad, and accepted when the URL names it as
    the IPv4-mapped IPv6 address of the same machine, whatever the allow list and
    DNS say. *)
Theorem mapped_address_accepted (env : string) (resolve : string -> res (list (option string)))
    (a b c d : Z) (path : string) :
  0 <= a <= 255 -> 0 <= b <= 255 -> 0 <= c <= 255 -> 0 <= d <= 255 ->
  internal (V4 (quad_int a b c d)) -> str_in (quad_text a b c d) (_ssrf_allowlist env) = false ->
  sforall (fun c => negb (unsafe_url_char c)) path = true ->
  validate_webhook_url env resolve (VStr ("http://" +:+ quad_text a b c d +:+ "/" +:+ path))
  = Ok (Some "blocked range")
  /\ validate_webhook_url env resolve
       (VStr ("http://" +:+ ("[" +:+ ("::ffff:" +:+ quad_text a b c d) +:+ "]") +:+ "/" +:+ path))
     = Ok None.
Proof.
  intros Ha Hb Hc Hd Hi Hn Hp.
  destruct (url_quad a b c d path ltac:(lia) ltac:(lia) ltac:(lia) ltac:(lia) Hp) as [U1 H1].
  destruct (url_mapped a b c d path Ha Hb Hc Hd Hp) as [U2 H2].
  pose proof (v4_quad a b c d Ha Hb Hc Hd) as Hq. pose proof (v4_range _ _ Hq) as Hr.
  pose proof (mapped_quad a b c d Ha Hb Hc Hd) as Hm.
  assert (Hl : lower (quad_text a b c d) = quad_text a b c d) by (apply lower_quad; lia).
  assert (Hip : ip_address (quad_text a b c d) = Some (V4 (quad_int a b c d))).
  { unfold ip_address. rewrite contains_char, quad_no_char by done. by rewrite Hq. }
  assert (Hne : forall x, nonempty ("http://" +:+ x) = true) by done.
  split; unfold validate_webhook_url; rewrite Hne; cbn [negb].
  - rewrite U1. cbn [mbind res_bind]. change (str_in "http" ["http"; "https"]) with true. cbn [negb].
    rewrite H1, Hl, Hn, Hip. by rewrite (proj2 (blocked_internal _ _ Hip) Hi).
  - rewrite U2. cbn [mbind res_bind]. change (str_in "http" ["http"; "https"]) with true. cbn [negb].
    rewrite H2. assert (Hl2 : lower ("::ffff:" +:+ quad_text a b c d) = "::ffff:" +:+ quad_text a b c d).
    { unfold lower. rewrite smap_app. by fold (lower (quad_text a b c d)); rewrite Hl. }
    rewrite Hl2, Hm.
    assert (Hnb : _is_blocked_address ("::ffff:" +:+ quad_text a b c d) = false).
    { apply not_true_iff_false. rewrite (blocked_internal _ _ Hm). by apply mapped_not_internal. }
    rewrite Hnb. by destruct (str_in ("::ffff:" +:+ _) _).
Qed.

(** C32. Where deliveries can go, whatever the alert says: a backend only sends
    requests to the address of its configuration, Slack and Discord only below
    the prefix of their service, PagerDuty only to its endpoint, Jira only over
    https, and the generic webhook only to a destination its address guard
    accepts; so every invariant of the outside that the clock and such requests
    keep survives every delivery.  (TheHive and Jira have no address guard.) *)
Theorem requests_confined {N : Type} (utcnow : M N Z) (http : pyfloat -> Request -> M N (Z * string))
    (dash env : string) (resolve : string -> res (list (option string)))
    {T : Type} (from_string : string -> res T) (render : T -> val -> res string)
    (cfg : BackendConfig) (name : string) (b : backend N) (I : N -> Prop)
    (Hb : backend_of utcnow dash env resolve from_string render cfg name = Ok (Some b))
    (Hclock : keeps_inv I utcnow)
    (Hhttp : forall rq, rq_url rq = backend_url cfg name -> url_checked env resolve cfg name ->
               keeps_inv I (http (bc_timeout_sec cfg) rq))
    (base : string) (alert : SAlert) :
  b_name b = name /\ keeps_inv I (deliver utcnow http b base alert).
Proof.
  unfold backend_of in Hb. destruct (String.eqb_spec name "generic_webhook") as [->|Hn].
  { destruct (webhook_init from_string cfg) as [[t e]|]; [|done]. injection Hb as <-. split; [done|].
    apply deliver_keeps; [done|]. intros Hv. apply webhook_url_ok in Hv. cbn [b_prepare generic_webhook].
    unfold webhook_prepare. destruct t as [t|]; [|intros s Hs; by split].
    apply yields_bind; [done|]. intros now. destruct (render t _) as [body|[]];
      try (intros s Hs; by split); apply yields_ret; [|done].
    intros rq [= <-]. by apply Hhttp. }
  apply (inj Ok), assoc_in in Hb. cbn [In] in Hb.
  destruct Hb as [E|[E|[E|[E|[E|[]]]]]]; injection E as <- <-; (split; [reflexivity|]);
    (apply deliver_keeps; [exact Hclock|]); intros [= Hv]; cbn [b_prepare slack discord pagerduty thehive jira].
  all: try (apply yields_bind; [exact Hclock|]; intros now).
  all: apply yields_ret; intros rq [= <-]; apply Hhttp; [reflexivity|].
  - by apply url_with_prefix_ok.
  - by apply url_with_prefix_ok.
  - done.
  - by apply hive_url_ok.
  - by apply jira_url_ok.
Qed.

(** A clock that can be read without changing anything. *)
Definition clock_of {N} (clk : N -> Z) : M N Z := fun n => (n, Ok (clk n)).

(** What one delivery reports, for every backend whose configuration passes
    and whose request was rendered: it sends that request once and records the
    hash of the bytes it sent; a status below 400 is no error, one from 400 to
    499 is final, one from 500 on and a network error are for the worker to
    retry, and the worker's own reading (success, final, transient) is exactly
    by these bounds; any other exception escapes. *)
Theorem delivery_outcome {N : Type} (clk : N -> Z) (http : pyfloat -> Request -> M N (Z * string))
    (b : backend N) (base : string) (alert : SAlert) (n n1 : N) (rq : Request)
    (Hv : b_validate b = Ok None) (Hp : b_prepare b alert base n = (n1, Ok (inr rq))) :
  let out := deliver (clock_of clk) http b base alert n in
  match http (b_timeout b) rq n1 with
  | (n2, Ok (code, text)) =>
      exists o, out = (n2, Ok o) /\ o_payload_sha256 o = hexdigest (rq_content rq)
        /\ d_status_code (o_result o) = code
        /\ (d_error (o_result o) = None <-> code < 400)
        /\ (d_dead_lettered (o_result o) = true <-> 400 <= code < 500)
        /\ (success o = true <-> 200 <= code < 400)
        /\ (transient o = true <-> code < 200 \/ 500 <= code)
  | (n2, Raise e) =>
      if decide (e = TimeoutError \/ e = ConnectionError) then
        exists o, out = (n2, Ok o) /\ o_payload_sha256 o = hexdigest (rq_content rq)
          /\ d_status_code (o_result o) = 0 /\ transient o = true
      else out = (n2, Raise e)
  end.
Proof.
  cbv zeta. unfold deliver, send, try_M, mbind, M_bind, lift_res, mret, M_ret.
  change (clock_of clk n) with (n, Ok (clk n)). cbv beta iota. rewrite Hv. cbv beta iota. rewrite Hp.
  cbv beta iota. set (sha := hexdigest (rq_content rq)).
  destruct (http (b_timeout b) rq n1) as [n2 [[code text]|e]].
  - change (clock_of clk n2) with (n2, Ok (clk n2)). cbv beta iota. eexists. split; [reflexivity|].
    unfold transient, success. cbn [o_payload_sha256 o_result answered d_status_code d_error d_dead_lettered fst snd].
    unfold http_error, permanent.
    destruct (Z.leb_spec 400 code), (Z.leb_spec 500 code), (Z.leb_spec 200 code), (Z.ltb_spec code 400);
      try (exfalso; lia); cbn [andb negb]; repeat split; try done; lia.
  - destruct (decide _) as [Hd|Hd].
    + destruct Hd as [->| ->]; change (clock_of clk n2) with (n2, Ok (clk n2)); cbv beta iota;
        (eexists; split; [reflexivity|]); done.
    + destruct e; try reflexivity; destruct Hd; tauto.
Qed.

(** A delivery that its backend refuses is lost: the worker sends nothing,
    writes one row that says dead-lettered, marks the item as finished and writes
    no dead-letter file, so that nothing can be replayed; this is so for every
    alert as long as the backend may retry at all. *)
Theorem refused_delivery_lost {N : Type} (clk mono : N -> Z)
    (http : pyfloat -> Request -> M N (Z * string)) (stopped : M N bool) (wait_stop : Z -> M N bool)
    (put : SoarDelivery -> N -> N) (write_file : string -> string -> M N unit)
    (b : backend N) (base err : string) (item : PendingDelivery) (w : worker) (n : N)
    (Hv : b_validate b = Ok (Some err)) (Ha : pd_attempt item = 1)
    (Hr : 1 <= bc_max_retries (pd_config item)) (Hn : pd_next_eligible_at item <= mono n) :
  exists row,
    _run_one (fun _ a => deliver (clock_of clk) http b base a) (clock_of mono) (clock_of clk) stopped
      wait_stop (fun r n => (put r n, Ok tt)) write_file item (w, n)
    = ((add_finished (finished_key item) w, put row n), Ok tt)
    /\ sd_dead_lettered row = true /\ sd_status_code row = 0 /\ sd_attempt row = 1
    /\ sd_error row = Some err /\ sd_payload_sha256 row = None.
Proof.
  exists (delivery_row item (refused (b_name b) (pd_alert item) (clk n) err) 1). split; [|done].
  unfold _run_one. rewrite Ha.
  destruct (Z.to_nat (bc_max_retries (pd_config item) + 2 - 1)) as [|left] eqn:El; [lia|].
  cbn [attempts]. unfold mbind at 1, M_bind at 1. unfold mbind at 1, M_bind at 1.
  assert (Hw : wait_turn (clock_of mono) stopped wait_stop 1 (pd_next_eligible_at item) (w, n)
    = ((w, n), Ok false)).
  { unfold wait_turn, mbind, M_bind, on_snd, clock_of, mret, M_ret. change (1 <? 1) with false. cbn [fst snd].
    rewrite (proj2 (Z.ltb_ge _ _)) by done. reflexivity. }
  rewrite Hw. unfold try_M. unfold mbind at 1, M_bind at 1. unfold on_snd at 1.
  unfold deliver. unfold mbind at 1, M_bind at 1, clock_of at 1. cbn [fst snd].
  unfold mbind at 1, M_bind at 1, lift_res. rewrite Hv. cbv beta iota.
  unfold mret at 1, M_ret at 1. cbv beta iota.
  unfold _persist_attempt, on_snd. cbn [fst snd]. unfold mbind at 1, M_bind at 1. cbn [fst snd].
  cbn [d_dead_lettered o_result refused].
  unfold _maybe_dead_letter, _is_dead_letter_candidate. cbn [d_dead_lettered d_status_code o_result refused].
  rewrite (proj2 (Z.ltb_ge (bc_max_retries (pd_config item)) 1) Hr). reflexivity.
Qed.

(** ** Instances *)

Definition ex_resolve (host : string) : res (list (option string)) := Ok [Some "93.184.216.34"; None].
Definition ex_cfg (name : string) (extra : list (string * val)) : BackendConfig :=
  mkBackend name true 60 "low" [] 5 (float_value "10.0") extra.
Definition ex_slack_cfg : BackendConfig :=
  ex_cfg "slack" [("webhook_url", VStr "https://hooks.slack.com/services/T/B/x")].

(** The outside is the list of the requests made. *)
Definition ex_clock : list Request -> Z := fun _ => 1700000000000000.
Definition ex_http (timeout : pyfloat) (rq : Request) : M (list Request) (Z * string) :=
  fun log => (log ++ [rq], Ok (503, "busy")).
Definition ex_slack : backend (list Request) := slack "-" ex_slack_cfg.
Definition ex_webhook : backend (list Request) :=
  generic_webhook (clock_of ex_clock) "" ex_resolve (fun (_ : unit) _ => Ok "{}")
    (ex_cfg "generic_webhook" [("url", VStr "http://127.0.0.1:9200/")]) (Some tt) None.

Lemma webhook_url_spec_witness :
  validate_webhook_url "" ex_resolve (VStr "https://Hooks.example.com:8443/x?y") = Ok None
  /\ validate_webhook_url "" ex_resolve (VStr "http://[1.2.3.4]/") = Raise (ValueError "netloc")
  /\ urlsplit "http://[1.2.3.4]/" = Raise (ValueError "netloc").
Proof.
  split; [|split; [vm_compute; reflexivity|]].
  - apply (webhook_url_spec "" ex_resolve). exists "https", "Hooks.example.com:8443", "hooks.example.com".
    split; [vm_compute; reflexivity|]. split; [by right|]. split; [vm_compute; reflexivity|].
    right. right. split; [vm_compute; reflexivity|]. eexists. split; [reflexivity|].
    intros addr [[= <-]|[[=]|[]]]. apply not_blocked. vm_compute. reflexivity.
  - destruct (proj2 (webhook_url_spec "" ex_resolve "http://[1.2.3.4]/") (ValueError "netloc")) as [H|[_ [h H]]];
      [vm_compute; reflexivity|exact H|discriminate H].
Defined.

Lemma mapped_address_accepted_witness :
  validate_webhook_url "" ex_resolve (VStr "http://[::ffff:169.254.169.254]/latest/meta-data") = Ok None.
Proof.
  assert (Hi : internal (V4 (quad_int 169 254 169 254))).
  { apply (blocked_internal "169.254.169.254"); vm_compute; reflexivity. }
  replace (VStr "http://[::ffff:169.254.169.254]/latest/meta-data")
    with (VStr ("http://" +:+ ("[" +:+ ("::ffff:" +:+ quad_text 169 254 169 254) +:+ "]") +:+ "/" +:+ "latest/meta-data"))
    by (vm_compute; reflexivity).
  destruct (mapped_address_accepted "" ex_resolve 169 254 169 254 "latest/meta-data"
    ltac:(lia) ltac:(lia) ltac:(lia) ltac:(lia) Hi ltac:(vm_compute; reflexivity) ltac:(vm_compute; reflexivity))
    as [_ H].
  exact H.
Defined.

Lemma requests_confined_witness :
  Forall (fun rq => startswith "https://hooks.slack.com/" (rq_url rq) = true)
    (deliver (clock_of ex_clock) ex_http ex_slack "https://zq.example" some_alert []).1
  /\ length (deliver (clock_of ex_clock) ex_http ex_slack "https://zq.example" some_alert []).1 = 1%nat.
Proof.
  split; [|reflexivity].
  refine (proj2 (requests_confined (clock_of ex_clock) ex_http "-" "" ex_resolve
    (fun _ => Ok tt) (fun _ _ => Ok "") ex_slack_cfg "slack" ex_slack
    (Forall (fun rq => startswith "https://hooks.slack.com/" (rq_url rq) = true)) eq_refl _ _ _ _) [] _).
  - by intros log.
  - intros rq Hu Hc log Hl. apply Forall_app. split; [exact Hl|]. constructor; [|constructor].
    rewrite Hu. exact Hc.
  - constructor.
Defined.

Lemma delivery_outcome_witness :
  exists o, (deliver (clock_of ex_clock) ex_http ex_slack "https://zq.example" some_alert []).2 = Ok o
    /\ d_status_code (o_result o) = 503 /\ transient o = true /\ success o = false.
Proof.
  pose proof (delivery_outcome ex_clock ex_http ex_slack "https://zq.example" some_alert [] []
    (post_json "https://hooks.slack.com/services/T/B/x" json_header
       (slack_render "-" some_alert "https://zq.example")) eq_refl eq_refl) as H.
  cbn [ex_http] in H. destruct H as (o&E&_&Hs&_&_&Hok&Ht). exists o. split; [by rewrite E|]. split; [exact Hs|].
  split; [apply Ht; by right|]. destruct (success o); [|reflexivity]. assert (200 <= 503 < 400) by (by apply Hok). lia.
Defined.

Lemma refused_delivery_lost_witness :
  exists row,
    _run_one (fun _ a => deliver (clock_of ex_clock) ex_http ex_webhook "" a) (clock_of (fun _ => 0))
      (clock_of ex_clock) (mret true) (fun _ => mret true) (fun _ log => (log, Ok tt))
      (fun _ _ => raise_M OSError)
      (mkPending some_alert "generic_webhook" (slack_config 5) 1 0) (fresh_worker, [])
    = ((add_finished (s_id some_alert, "generic_webhook") fresh_worker, []), Ok tt)
    /\ sd_dead_lettered row = true /\ sd_error row = Some "blocked range".
Proof.
  destruct (refused_delivery_lost ex_clock (fun _ => 0) ex_http (mret true) (fun _ => mret true)
    (fun _ log => log) (fun _ _ => raise_M OSError) ex_webhook "" "blocked range"
    (mkPending some_alert "generic_webhook" (slack_config 5) 1 0) fresh_worker [] ltac:(vm_compute; reflexivity)
    eq_refl ltac:(cbn; lia) ltac:(cbn; lia)) as (row&H1&H2&_&_&H3&_).
  exists row. split; [exact H1|]. split; [exact H2|exact H3].
Defined.
