(* ===== verification/DeadLetter.v ===== *)
(** * Dead letters and the SOAR API: the read paths of [soar/worker.py] and
    [api/v1/soar.py]

    The dead-letter directory is a map from file names to texts ([None] when it
    does not exist) and [json_load] is [json.load] on a file. *)

From S2P Require Import Prelude PyStr PyVal PyStd Json Redis Crypto Db SoarConfig Soar.
From Stdlib Require Import Ascii.

Abbreviation files := (gmap string string).

(** [write_file] of the worker on a directory. *)
Definition mem_write (name text : string) : M files unit := fun fs => (<[name := text]> fs, Ok tt).

Section Read.
Context (json_load : string -> res val) (glob : string -> files -> list string).
Context (base : string).

Definition add_fields (name : string) (body : list (string * val)) : list (string * val) :=
  assoc_set "_path" (VStr (base +:+ "/" +:+ name)) (assoc_set "_file" (VStr name) body).

(** One file: [None] when it cannot be read as JSON; a document that is not an
    object refuses the assignment. *)
Definition load_file (fs : files) (name : string) : res (option (list (string * val))) :=
  match fs !! name with
  | None => Ok None
  | Some text =>
      match json_load text with
      | Ok (VDict body) => Ok (Some (add_fields name body))
      | Ok _ => Raise TypeError
      | Raise JSONDecodeError => Ok None
      | Raise e => Raise e
      end
  end.

Fixpoint first_loaded (fs : files) (names : list string) : res (option (list (string * val))) :=
  match names with
  | [] => Ok None
  | name :: names' =>
      b ← load_file fs name;
      match b with Some _ => Ok b | None => first_loaded fs names' end
  end.

Fixpoint all_loaded (fs : files) (names : list string) : res (list (list (string * val))) :=
  match names with
  | [] => Ok []
  | name :: names' =>
      b ← load_file fs name; bs ← all_loaded fs names';
      Ok (match b with Some x => x :: bs | None => bs end)
  end.

(** [sorted(base.glob("*.json"), reverse=True)]. *)
Definition newest_name (a b : string) : Prop := String.leb b a = true.

#[local] Instance newest_name_dec a b : Decision (newest_name a b).
Proof. unfold newest_name. apply _. Defined.

Definition list_dead_letters (dir : option files) : res (list (list (string * val))) :=
  match dir with
  | None => Ok []
  | Some fs => all_loaded fs (merge_sort newest_name
      (filter (fun n => endswith ".json" n = true) (map fst (map_to_list fs))))
  end.

Definition get_dead_letter (dir : option files) (file_id : string) : res (option (list (string * val))) :=
  match dir with
  | None => Ok None
  | Some fs =>
      if contains "/" file_id || contains ".." file_id then Ok None
      else
        first_loaded fs (match fs !! file_id with
                         | Some _ => [file_id]
                         | None => glob (file_id +:+ "*.json") fs
                         end)
  end.

(** [if k != "file_sha256"]. *)
Definition keep_entry (kv : string * val) : Prop := String.eqb kv.1 "file_sha256" = false.

#[local] Instance keep_entry_dec kv : Decision (keep_entry kv).
Proof. unfold keep_entry. apply _. Defined.

Definition verify_dead_letter (body : list (string * val)) : bool :=
  let expected := get "file_sha256" body in
  if negb (truthy expected) then false
  else val_eqb (VStr (body_sha (filter keep_entry body))) expected.

(** ** [api/v1/soar.py] *)

Definition api_list_dead_letter (worker_dir : option (option files)) : res (list (list (string * val))) :=
  match worker_dir with
  | None => Ok []
  | Some dir => items ← list_dead_letters dir; Ok (map (assoc_del "_path") items)
  end.

Definition api_get_dead_letter (worker_dir : option (option files)) (file_id : string)
  : res (val * bool * list (string * val)) :=
  match worker_dir with
  | None => Raise (HTTPException 503 "soar worker not running")
  | Some dir =>
      b ← get_dead_letter dir file_id;
      match b with
      | None => Raise (HTTPException 404 "not found")
      | Some body => Ok (get "_file" body, verify_dead_letter body, assoc_del "_path" body)
      end
  end.

(** [list(x or [])] and [dict(x or {})] of a JSON value. *)
Definition as_list (v : val) : res (list val) :=
  match v with
  | VList l => Ok l
  | VStr s => Ok (map (fun c => VStr (String c "")) (String.list_ascii_of_string s))
  | VDict d => Ok (map (fun kv => VStr kv.1) d)
  | VNone | VBool false => Ok []
  | VInt z => if z =? 0 then Ok [] else Raise TypeError
  | _ => if truthy v then Raise TypeError else Ok []
  end.

Definition dict_or_empty (v : val) : res (list (string * val)) :=
  if truthy v then match v with VDict d => Ok d | _ => Raise TypeError end else Ok [].

(** The alert of a replay; a fresh id stands for a missing one.  Tags and
    metadata of a file the worker wrote are text. *)
Definition replay_alert (fresh : string) (payload : list (string * val)) : res SAlert :=
  tags ← as_list (get "tags" payload);
  metadata ← dict_or_empty (get "metadata" payload);
  Ok (mkSAlert (str_of (get_or "id" (VStr fresh) payload)) (str_of (get_or "host_id" (VStr "") payload))
        (str_of (get_or "detector" (VStr "") payload)) (str_of (get_or "severity" (VStr "info") payload))
        (map str_of tags) (str_of (get_or "summary" (VStr "") payload))
        (match get "evidence" payload with VStr s => Some s | _ => None end)
        (str_map (VDict metadata))).

Definition replay_config (config : SoarConfig) (name : string) : BackendConfig :=
  match assoc name (sc_backends config) with
  | Some c => c
  | None => mkBackend name true 0 "info" [] 0 (float_value "10.0") []
  end.

(** [replay_dead_letter]: the item put on the worker's queue. *)
Definition replay_dead_letter (config : SoarConfig) (registry : list string)
    (worker_dir : option (option files)) (file_id fresh : string) (w : worker)
  : worker * res PendingDelivery :=
  match worker_dir with
  | None => (w, Raise (HTTPException 503 "soar worker not running"))
  | Some dir =>
      match get_dead_letter dir file_id with
      | Raise e => (w, Raise e)
      | Ok None => (w, Raise (HTTPException 404 "not found"))
      | Ok (Some body) =>
          if negb (verify_dead_letter body)
          then (w, Raise (HTTPException 409 "dead-letter file failed SHA-256 verification"))
          else
            let payload := get "alert" body in
            let backend := get "backend" body in
            if negb (truthy backend) then (w, Raise (HTTPException 400 "missing backend"))
            else match backend with
            | VStr name =>
                if negb (str_in name registry)
                then (w, Raise (HTTPException 400 "backend is not registered"))
                else
                  match (p ← as_dict (if truthy payload then payload else VDict []);
                         replay_alert fresh p) with
                  | Raise e => (w, Raise e)
                  | Ok alert =>
                      let item := mkPending alert name (replay_config config name) 1 0 in
                      if Z.of_nat (length (w_queue w)) <? sc_queue_max config
                      then (set_queue (w_queue w ++ [item]) w, Ok item)
                      else (w, Raise (HTTPException 503 "queue full"))
                  end
            | _ => (w, Raise (HTTPException 400 "backend is not registered"))
            end
      end
  end.

End Read.

(** ** [backend_health] *)

Record health : Type := mkHealth {
  h_total : Z;
  h_success : Z;
  h_client_error : Z;
  h_server_error : Z;
  h_network_error : Z;
  h_dead_lettered : Z
}.

Definition no_health : health := mkHealth 0 0 0 0 0 0.

Definition count_row (r : SoarDelivery) (h : health) : health :=
  let s := sd_status_code r in
  let ok := (200 <=? s) && (s <? 400) in
  let client := negb ok && (400 <=? s) && (s <? 500) in
  let server := negb ok && negb client && (500 <=? s) in
  let network := negb ok && negb client && negb server && (s =? 0) in
  mkHealth (h_total h + 1) (h_success h + Z.b2z ok) (h_client_error h + Z.b2z client)
    (h_server_error h + Z.b2z server) (h_network_error h + Z.b2z network)
    (h_dead_lettered h + Z.b2z (sd_dead_lettered r)).

Fixpoint backend_health (rows : list SoarDelivery) (by_backend : list (string * health))
  : list (string * health) :=
  match rows with
  | [] => by_backend
  | r :: rows' =>
      backend_health rows'
        (assoc_set (sd_backend r) (count_row r (default no_health (assoc (sd_backend r) by_backend)))
           by_backend)
  end.

(** ** Lemmas *)

(** *** The length of a pretty-printed document does not depend on the order *)

Definition zsum (l : list Z) : Z := foldr Z.add 0 l.

Lemma zsum_app a b : zsum (a ++ b) = zsum a + zsum b.
Proof. induction a as [|x a IH]; cbn in *; [done|]. unfold zsum in *. lia. Qed.

Lemma zsum_perm a b : Permutation a b -> zsum a = zsum b.
Proof. induction 1; cbn in *; unfold zsum in *; cbn; lia. Qed.

Lemma slen_join sep (l : list string) :
  l <> [] -> slen (join sep l) = zsum (map slen l) + (Z.of_nat (length l) - 1) * slen sep.
Proof.
  induction l as [|a l IH]; [done|]. intros _. destruct l as [|b l].
  - cbn. unfold zsum. cbn. lia.
  - change (join sep (a :: b :: l)) with (a +:+ sep +:+ join sep (b :: l)).
    rewrite !slen_app, IH by done. unfold zsum. cbn [map foldr length]. lia.
Qed.

(** The text of a non-empty object, from the lengths of its entries. *)
Definition entry_len (n : nat) (kv : string * val) : Z :=
  slen (json_string kv.1) + 2 + slen (pretty_at n kv.2).

Lemma slen_pretty_dict n d :
  d <> [] ->
  slen (pretty_at n (VDict d))
  = 2 + slen (newline (n + 2)) + slen (newline n) + zsum (map (entry_len (n + 2)) d)
    + (Z.of_nat (length d) - 1) * (1 + slen (newline (n + 2))).
Proof.
  intros Hd. destruct d as [|kv d]; [done|]. cbn [pretty_at].
  rewrite !slen_app, slen_join by done. rewrite length_map, slen_app, map_map.
  assert (Hm : map (fun x => slen (json_string x.1 +:+ ": " +:+ pretty_at (n + 2) x.2)) (kv :: d)
               = map (entry_len (n + 2)) (kv :: d)).
  { apply map_ext. intros x. unfold entry_len. rewrite !slen_app. unfold slen at 2. cbn. lia. }
  rewrite Hm. change (slen "{") with 1. change (slen "}") with 1. change (slen ",") with 1. lia.
Qed.

Lemma slen_pretty_list n l :
  l <> [] ->
  slen (pretty_at n (VList l))
  = 2 + slen (newline (n + 2)) + slen (newline n) + zsum (map (fun v => slen (pretty_at (n + 2) v)) l)
    + (Z.of_nat (length l) - 1) * (1 + slen (newline (n + 2))).
Proof.
  intros Hl. destruct l as [|v l]; [done|]. cbn [pretty_at].
  rewrite !slen_app, slen_join by done. rewrite length_map, slen_app, map_map.
  change (slen "[") with 1. change (slen "]") with 1. change (slen ",") with 1. lia.
Qed.

Lemma key_sort_perm d :
  Permutation (merge_sort key_le d) d.
Proof. apply merge_sort_Permutation. Qed.

Lemma slen_pretty_dict_perm n d d' :
  Permutation d d' -> slen (pretty_at n (VDict d)) = slen (pretty_at n (VDict d')).
Proof.
  intros Hp. destruct d as [|kv d]; [by apply Permutation_nil_l in Hp as ->|].
  assert (d' <> []) by (intros ->; by apply Permutation_nil_r in Hp).
  rewrite !slen_pretty_dict by done.
  by rewrite (zsum_perm _ _ (Permutation_map (entry_len (n + 2)) Hp)), (Permutation_length Hp).
Qed.

(** Sorting the keys, however deep and however often, keeps the length. *)
Lemma slen_pretty_sort v : forall n, slen (pretty_at n (sort_keys v)) = slen (pretty_at n v).
Proof.
  induction v as [|b|z|r|s|l IH|d IH] using val_nested_ind; intros n; try done.
  - cbn [sort_keys]. destruct l as [|v l]; [done|].
    rewrite !slen_pretty_list by done. rewrite length_map, map_map. do 2 f_equal. f_equal.
    apply map_ext_Forall. eapply Forall_impl; [exact IH|]. intros x Hx. apply Hx.
  - cbn [sort_keys]. rewrite (slen_pretty_dict_perm n _ _ (key_sort_perm _)).
    destruct d as [|kv d]; [done|]. rewrite !slen_pretty_dict by done.
    rewrite length_map, map_map. do 2 f_equal. f_equal.
    apply map_ext_Forall. eapply Forall_impl; [exact IH|]. intros x Hx.
    unfold entry_len. cbn [fst snd]. by rewrite Hx.
Qed.

Lemma slen_dumps_pretty v : slen (dumps_pretty v) = slen (pretty_at 0 v).
Proof. apply slen_pretty_sort. Qed.

Lemma zsum_sorted (n : nat) d :
  zsum (map (entry_len n) (map (fun kv => (kv.1, sort_keys kv.2)) d)) = zsum (map (entry_len n) d).
Proof.
  rewrite map_map. f_equal. apply map_ext. intros kv. unfold entry_len. cbn [fst snd].
  by rewrite slen_pretty_sort.
Qed.

Lemma assoc_set_absent {A} k (v : A) d : assoc k d = None -> assoc_set k v d = d ++ [(k, v)].
Proof.
  induction d as [|[k' v'] d IH]; cbn; [done|]. destruct (String.eqb k k'); [done|].
  intros H. by rewrite IH.
Qed.

(** *** A file the worker wrote *)

(** The keys of a body, none of which the read paths add. *)
Definition plain_body (body : list (string * val)) : Prop :=
  assoc "file_sha256" body = None /\ assoc "_file" body = None /\ assoc "_path" body = None.

Lemma dead_letter_body_plain item o a : plain_body (dead_letter_body item o a).
Proof. by repeat split. Qed.

Definition sorted_entries (d : list (string * val)) : list (string * val) :=
  merge_sort key_le (map (fun kv => (kv.1, sort_keys kv.2)) d).

Lemma sorted_entries_keys d k : In k (map fst (sorted_entries d)) <-> In k (map fst d).
Proof.
  unfold sorted_entries. rewrite (Permutation_map fst (key_sort_perm _)), map_map. done.
Qed.

(** What [verify_dead_letter] hashes for a file fetched by [get_dead_letter]. *)
Lemma fetched_clone base name body :
  plain_body body -> 
  let written := body ++ [("file_sha256", VStr (body_sha body))] in
  Permutation (filter keep_entry (add_fields base name (sorted_entries written)))
    (map (fun kv => (kv.1, sort_keys kv.2)) body
     ++ [("_file", VStr name); ("_path", VStr (base +:+ "/" +:+ name))]).
Proof.
  intros (Hs&Hf&Hp). cbn zeta. unfold add_fields.
  assert (Hk : forall k, assoc k body = None -> k <> "file_sha256" ->
    assoc k (sorted_entries (body ++ [("file_sha256", VStr (body_sha body))])) = None).
  { intros k Hb Hne. apply assoc_none. rewrite sorted_entries_keys, map_app, in_app_iff. cbn.
    apply assoc_none in Hb. intros [?|[?|[]]]; congruence. }
  rewrite (assoc_set_absent "_file") by (by apply Hk).
  rewrite assoc_set_absent; last first.
  { apply assoc_none. rewrite map_app, in_app_iff. cbn. intros [Hi|[Hi|[]]]; [|discriminate Hi].
    revert Hi. apply assoc_none, Hk; done. }
  rewrite <- app_assoc, filter_app. apply Permutation_app; [|done].
  unfold sorted_entries. rewrite (key_sort_perm _), map_app, filter_app. cbn [map filter].
  assert (Hall : forall d, assoc "file_sha256" d = None ->
    filter keep_entry (map (fun kv => (kv.1, sort_keys kv.2)) d) = map (fun kv => (kv.1, sort_keys kv.2)) d).
  { intros d. rewrite assoc_none. induction d as [|[k v] d IH]; [done|]. cbn [map fst]. intros Hn.
    rewrite filter_cons_True; [f_equal; apply IH; cbn in Hn; tauto|].
    unfold keep_entry. cbn [fst]. apply String.eqb_neq. cbn in Hn. intros ->. tauto. }
  rewrite Hall by done. rewrite app_nil_r. done.
Qed.

(** The hash the worker embedded is still there. *)
Lemma fetched_sha base name body :
  plain_body body ->
  get "file_sha256" (add_fields base name
     (sorted_entries (body ++ [("file_sha256", VStr (body_sha body))]))) = VStr (body_sha body).
Proof.
  intros (Hs&_&_). unfold get, add_fields. rewrite !assoc_set_other by done.
  set (written := body ++ _).
  assert (Hin : forall v, In ("file_sha256", v) (sorted_entries written) -> v = VStr (body_sha body)).
  { intros v Hv. unfold sorted_entries in Hv.
    apply (Permutation_in _ (key_sort_perm _)), in_map_iff in Hv as ([k v']&[= -> <-]&Hv).
    subst written. apply in_app_iff in Hv as [Hv|[[= <-]|[]]]; [|done].
    apply assoc_none in Hs. destruct Hs. apply in_map_iff. by exists ("file_sha256", v'). }
  destruct (assoc "file_sha256" (sorted_entries written)) as [v|] eqn:E.
  - cbn. apply Hin. by apply assoc_in.
  - apply assoc_none in E. destruct E. rewrite sorted_entries_keys. subst written.
    rewrite map_app, in_app_iff. right. by left.
Qed.

(** The text that is checked is longer than the text that was hashed. *)
Lemma fetched_longer base name body :
  plain_body body -> body <> [] ->
  slen (dumps_pretty (VDict body))
  < slen (dumps_pretty (VDict (filter keep_entry (add_fields base name
            (sorted_entries (body ++ [("file_sha256", VStr (body_sha body))])))))).
Proof.
  intros Hp Hne. rewrite !slen_dumps_pretty.
  rewrite (slen_pretty_dict_perm 0 _ _ (fetched_clone base name body Hp)).
  rewrite !slen_pretty_dict by (try done; by destruct body).
  rewrite map_app, zsum_app, zsum_sorted, length_app, length_map.
  assert (Hpos : forall kv, 0 <= entry_len 2 kv) by (intros; unfold entry_len, slen; lia).
  cbn [length map zsum foldr]. pose proof (Hpos ("_file", VStr name)).
  pose proof (Hpos ("_path", VStr (base +:+ "/" +:+ name))).
  change (0 + 2)%nat with 2%nat in *. change (slen (newline 2)) with 3.
  unfold zsum in *. cbn [foldr]. lia.
Qed.

(** ** Properties *)


Definition lost_item : PendingDelivery := mkPending some_alert "slack" (slack_config 0) 1 0.

(** The directory after the worker gave the item up. *)
Definition lost_files : files :=
  {[ "19700101T000000Z-0f0e0d0c.json" := dead_letter_text (dead_letter_body lost_item (answer 500) 1) ]}.

Definition one_file_load (text : string) : res val :=
  if String.eqb text (dead_letter_text (dead_letter_body lost_item (answer 500) 1))
  then Ok (sort_keys (VDict (dead_letter_body lost_item (answer 500) 1
             ++ [("file_sha256", VStr (body_sha (dead_letter_body lost_item (answer 500) 1)))])))
  else Raise JSONDecodeError.


Example replay_is_409 :
  (replay_dead_letter one_file_load (fun _ _ => []) "/d" default_soar KNOWN_BACKENDS (Some (Some lost_files))
     "19700101T000000Z-0f0e0d0c.json" "x" fresh_worker).2
  = Raise (HTTPException 409 "dead-letter file failed SHA-256 verification").
Proof. vm_compute. reflexivity. Qed.

(** Dead letters overwrite each other: two backends that give up on the same
    alert within one second write the same file name, so after both only the
    second body is in the directory. *)
Theorem dead_letters_collide (a : SAlert) (b1 b2 : string) (c1 c2 : BackendConfig)
    (o1 o2 : DeliverOutcome) (n1 n2 : Z) (w : worker) (fs : files) :
  d_attempted_at (o_result o1) / 1000000 = d_attempted_at (o_result o2) / 1000000 ->
  _is_dead_letter_candidate (o_result o1) n1 c1 = true ->
  _is_dead_letter_candidate (o_result o2) n2 c2 = true ->
  let i1 := mkPending a b1 c1 n1 0 in
  let i2 := mkPending a b2 c2 n2 0 in
  let s1 := (_maybe_dead_letter mem_write i1 o1 n1 (w, fs)).1 in
  let s2 := (_maybe_dead_letter mem_write i2 o2 n2 s1).1 in
  s2.2 = <[dead_letter_name i2 o2 := dead_letter_text (dead_letter_body i2 o2 n2)]> fs
  /\ dead_letter_name i1 o1 = dead_letter_name i2 o2.
Proof.
  intros Ht H1 H2. cbn zeta. unfold _maybe_dead_letter. cbn [pd_config]. rewrite H1, H2.
  assert (Hn : dead_letter_name (mkPending a b1 c1 n1 0) o1 = dead_letter_name (mkPending a b2 c2 n2 0) o2).
  { unfold dead_letter_name. cbn [pd_alert]. by rewrite Ht. }
  split; [|done]. rewrite Hn. unfold try_M, on_snd, mem_write. cbn [negb fst snd].
  by rewrite insert_insert_eq.
Qed.

Lemma dead_letters_collide_witness :
  let s1 := (_maybe_dead_letter mem_write lost_item (answer 500) 1 (fresh_worker, ∅)).1 in
  let i2 := mkPending some_alert "jira" (slack_config 0) 1 0 in
  (_maybe_dead_letter mem_write i2 (answer 503) 1 s1).1.2
  = {[ dead_letter_name i2 (answer 503) := dead_letter_text (dead_letter_body i2 (answer 503) 1) ]}.
Proof.
  exact (proj1 (dead_letters_collide some_alert "slack" "jira" (slack_config 0) (slack_config 0)
    (answer 500) (answer 503) 1 1 fresh_worker ∅ eq_refl eq_refl eq_refl)).
Defined.
