(* ===== verification/Dispatcher.v ===== *)
(** * The dispatcher: [dispatcher.py]

    Pending action rows become signed COMMAND frames on the connection of their
    host.  The state of a tick is the database, the network and the registry of
    connections; a connection is a value of an arbitrary type [C] and [send] is
    [ws.send_text]. *)

From S2P Require Import Prelude PyStr PyVal PyStd Json Crypto Actions Db.

(** ** [HostConnectionRegistry] *)

Abbreviation registry := (gmap string).

Definition register {C} (host_id : string) (ws : C) (r : registry C) : registry C :=
  <[host_id := ws]> r.
Definition unregister {C} (host_id : string) (r : registry C) : registry C := delete host_id r.
Definition reg_get {C} (host_id : string) (r : registry C) : option C := r !! host_id.
Definition reg_count {C} (r : registry C) : Z := Z.of_nat (size r).
Definition host_ids {C} (r : registry C) : list string := map fst (map_to_list r).

(** ** [_build_command_frame] *)

(** [except ValueError: return None]. *)
Definition or_none {A B} (r : res A) (k : res (option B)) : res (option B) :=
  match r with
  | Ok _ => k
  | Raise e => if is_value_error e then Ok None else Raise e
  end.

Definition issued_at_text (now : Z) : string := iso_seconds now +:+ "Z".

Definition ttl_val (ttl : option Z) : val := match ttl with Some z => VInt z | None => VNone end.

(** [action.ttl_sec or 0]. *)
Definition ttl_or_zero (ttl : option Z) : Z := default 0 ttl.

Definition command_frame (secret : string) (now : Z) (action : Action) : val :=
  VDict [("type", VStr "command"); ("id", VStr (ac_id action)); ("kind", VStr (ac_kind action));
         ("target", VStr (ac_target action)); ("ttl_sec", ttl_val (ac_ttl_sec action));
         ("issued_at", VStr (issued_at_text now));
         ("hmac", VStr (sign_command secret (ac_id action) (ac_kind action) (ac_target action)
                          (ttl_or_zero (ac_ttl_sec action)) (issued_at_text now)))].

Definition _build_command_frame (allow : bool) (deployment_mode : string) (now : Z)
    (action : Action) (host : Host) : res (option val) :=
  match h_secret host with
  | None | Some "" => Ok None
  | Some secret =>
      if negb (is_valid_kind (ac_kind action)) then Ok None
      else or_none (validate_target allow (ac_kind action) (ac_target action))
          (or_none (validate_mode_action deployment_mode (ac_kind action))
             (kind ← get_kind (ac_kind action);
              if k_requires_host_opt_in kind && negb (h_auto_block host) then Ok None
              else Ok (Some (command_frame secret now action))))
  end.

(** ** [_tick] *)

Definition oldest_first (a b : Action) : Prop := ac_created_at a <= ac_created_at b.

#[export] Instance oldest_first_dec a b : Decision (oldest_first a b).
Proof. unfold oldest_first. apply _. Defined.

Definition TICK_LIMIT : nat := 16.

(** The SELECT of a tick: the oldest pending rows, each with its host if there
    is one. *)
Definition pending_rows (d : db) : list (Action * option Host) :=
  map (fun a => (a, h ← ac_host_id a; db_hosts d !! h))
    (take TICK_LIMIT (merge_sort oldest_first
      (filter (fun a => ac_status a = "pending") (map snd (map_to_list (db_actions d)))))).

Section Dispatcher.
Context {D N C : Type} `{Database D}.
Context (send : C -> string -> M N unit).
Context (allow : bool) (deployment_mode : string).

Abbreviation state := (D * (N * gmap string C))%type.

Definition get_conn (host_id : string) : M state (option C) := fun s =>
  (s, Ok (reg_get host_id s.2.2)).

Definition drop_conn (host_id : string) : M state unit := fun s =>
  ((s.1, (s.2.1, unregister host_id s.2.2)), Ok tt).

Definition dispatch_row (now : Z) (row : Action * option Host) : M state unit :=
  let '(action, host) := row in
  match host with
  | None => mret tt
  | Some h =>
      if negb (h_auto_block h) then mret tt
      else
        ws ← get_conn (h_id h);
        match ws with
        | None => mret tt
        | Some c =>
            frame ← lift_res (_build_command_frame allow deployment_mode now action h);
            match frame with
            | None => mret tt
            | Some f =>
                sent ← try_M (_ ← on_snd (on_fst (send c (dumps f))); mret true)
                         (fun _ => _ ← drop_conn (h_id h); mret false);
                if (sent : bool) then _ ← on_fst (mark_dispatched (ac_id action) now); mret tt
                else mret tt
            end
        end
  end.

Fixpoint dispatch_rows (now : Z) (rows : list (Action * option Host)) : M state unit :=
  match rows with
  | [] => mret tt
  | row :: rows' => _ ← dispatch_row now row; dispatch_rows now rows'
  end.

Definition _tick (now : Z) : M state unit :=
  rows ← on_fst (transaction (fun d => (d, Ok (pending_rows d))));
  dispatch_rows now rows.

(** [_run]: a tick that raises is logged; one tick per entry of the clock. *)
Fixpoint _run (clock : list Z) (s : state) : state :=
  match clock with
  | [] => s
  | now :: clock' => _run clock' (_tick now s).1
  end.

End Dispatcher.

(** ** Lemmas *)

Lemma or_none_some {A B} (r : res A) (k : res (option B)) f :
  or_none r k = Ok (Some f) <-> (exists a, r = Ok a) /\ k = Ok (Some f).
Proof. destruct r as [a|e]; cbn; [naive_solver|destruct (is_value_error e); naive_solver]. Qed.

Lemma get_kind_valid k : is_valid_kind k = true <-> exists kind, get_kind k = Ok kind.
Proof. unfold is_valid_kind, has_key, get_kind. destruct (assoc k KINDS); naive_solver. Qed.

(** Why a frame may be built. *)
Record may_send (allow : bool) (deployment_mode : string) (action : Action) (host : Host)
    (secret : string) (kind : Kind) : Prop := {
  ms_secret : h_secret host = Some secret /\ secret <> "";
  ms_kind : get_kind (ac_kind action) = Ok kind;
  ms_target : validate_target allow (ac_kind action) (ac_target action) = Ok tt;
  ms_mode : validate_mode_action deployment_mode (ac_kind action) = Ok tt;
  ms_opt_in : k_requires_host_opt_in kind = true -> h_auto_block host = true
}.

Lemma build_frame_iff allow mode now action host f :
  _build_command_frame allow mode now action host = Ok (Some f) <->
  exists secret kind, may_send allow mode action host secret kind
    /\ f = command_frame secret now action.
Proof.
  unfold _build_command_frame. split.
  - intros Hb. destruct (h_secret host) as [[|c s]|] eqn:Es; try discriminate Hb.
    destruct (is_valid_kind (ac_kind action)) eqn:Ek; [|discriminate Hb]. cbn [negb] in Hb.
    apply or_none_some in Hb as [[[] Ht] Hb]. apply or_none_some in Hb as [[[] Hm] Hb].
    apply res_bind_ok in Hb as (kind&Hk&Hb).
    exists (String c s), kind. destruct (k_requires_host_opt_in kind && _) eqn:Eo; [discriminate Hb|].
    injection Hb as <-. split; [|done]. split; [done..|].
    intros Hr. rewrite Hr in Eo. by apply negb_false_iff in Eo.
  - intros (secret&kind&[[-> Hs] Hk Ht Hm Ho]&->). destruct secret as [|c s]; [done|].
    rewrite (proj2 (get_kind_valid _)) by eauto. cbn [negb].
    rewrite Ht, Hm, Hk. cbn. destruct (k_requires_host_opt_in kind); [|done].
    by rewrite Ho.
Qed.

(** Validation refuses with [ValueError] only. *)
Definition value_error_only {A} (r : res A) : Prop :=
  forall e, r = Raise e -> is_value_error e = true.

Lemma veo_bind {A B} (r : res A) (f : A -> res B) :
  value_error_only r -> (forall a, value_error_only (f a)) -> value_error_only (r ≫= f).
Proof. intros Hr Hf e. destruct r as [a|e']; cbn; [apply Hf|]. intros [= <-]. by apply Hr. Qed.

Lemma veo_ok {A} (a : A) : value_error_only (Ok a).
Proof. by intros e. Qed.

Lemma veo_raise {A} t : value_error_only (A := A) (Raise (ValueError t)).
Proof. by intros e [= <-]. Qed.

Create HintDb veo.
#[local] Hint Resolve veo_bind veo_ok veo_raise : veo.

Lemma veo_guard b t : value_error_only (guard_res b (ValueError t)).
Proof. destruct b; cbn; auto with veo. Qed.
#[local] Hint Resolve veo_guard : veo.

Ltac veo := repeat (auto with veo; match goal with
  | |- value_error_only (_ ≫= _) => apply veo_bind; [|intros ?]
  | |- value_error_only (match ?x with _ => _ end) => destruct x
  end); auto with veo.

Lemma veo_octet p : value_error_only (parse_octet p).
Proof. unfold parse_octet. veo. Qed.
#[local] Hint Resolve veo_octet : veo.

Lemma veo_ipv4 t : value_error_only (_parse_ipv4 t).
Proof. unfold _parse_ipv4. veo. Qed.
#[local] Hint Resolve veo_ipv4 : veo.

Lemma veo_validate_target allow k t : value_error_only (validate_target allow k t).
Proof.
  unfold validate_target, get_kind. apply veo_bind; [veo|]. intros kind.
  unfold validate_shape, _check_dangerous_single, _check_dangerous_cidr. veo.
Qed.

Lemma veo_mode mode k : value_error_only (validate_mode_action mode k).
Proof. unfold validate_mode_action, get_profile. veo. Qed.

Lemma or_none_ok {A B} (r : res A) (k : res (option B)) :
  value_error_only r -> (exists o, k = Ok o) -> exists o, or_none r k = Ok o.
Proof. intros Hr Hk. destruct r as [a|e]; cbn; [done|]. rewrite (Hr e eq_refl). eauto. Qed.

(** Building a frame never raises. *)
Lemma build_frame_total allow mode now action host :
  exists o, _build_command_frame allow mode now action host = Ok o.
Proof.
  unfold _build_command_frame. destruct (h_secret host) as [[|c s]|]; [eauto| |eauto].
  destruct (is_valid_kind (ac_kind action)) eqn:Ek; [|eauto]. cbn [negb].
  apply or_none_ok; [apply veo_validate_target|]. apply or_none_ok; [apply veo_mode|].
  apply get_kind_valid in Ek as [kind ->]. cbn. destruct (_ && _); eauto.
Qed.

(** *** What a tick sends *)

(** A network that records what is sent and answers as [ok] says. *)
Definition send_log {C} (ok : C -> string -> bool) (c : C) (text : string) : M (list (C * string)) unit :=
  fun log => (log ++ [(c, text)], if ok c text then Ok tt else Raise ConnectionError).

Section Safety.
Context {D C : Type} `{Database D}.
Context (ok : C -> string -> bool) (allow : bool) (mode : string).

(** The row may be sent to [c], and [text] is its frame. *)
Definition authorised (now : Z) (conns : gmap string C) (row : Action * option Host)
    (m : C * string) : Prop :=
  exists host secret kind,
    row.2 = Some host /\ h_auto_block host = true /\ conns !! h_id host = Some m.1
    /\ may_send allow mode row.1 host secret kind
    /\ m.2 = dumps (command_frame secret now row.1).

Lemma dispatch_row_sends now conns0 row d log conns :
  conns ⊆ conns0 ->
  let s' := (dispatch_row (send_log ok) allow mode now row (d, (log, conns))).1 in
  s'.2.2 ⊆ conns0
  /\ (s'.2.1 = log \/ exists m, s'.2.1 = log ++ [m] /\ authorised now conns0 row m).
Proof.
  intros Hsub. destruct row as [action [h|]]; [|by split; [|left]]. cbn [dispatch_row].
  destruct (h_auto_block h) eqn:Eb; [|by split; [|left]]. cbn [negb].
  unfold mbind, M_bind, get_conn, reg_get, lift_res. cbn [fst snd].
  destruct (conns !! h_id h) as [c|] eqn:Ec; [|by split; [|left]].
  destruct (_build_command_frame _ _ _ _ _) as [[f|]|e] eqn:Ef; [|by split; [|left]..].
  unfold try_M, on_snd, on_fst, drop_conn, send_log, mret, M_ret. cbn [fst snd].
  apply build_frame_iff in Ef as (secret&kind&Hm&->).
  assert (Hauth : authorised now conns0 (action, Some h) (c, dumps (command_frame secret now action))).
  { exists h, secret, kind. split; [done|]. split; [done|].
    split; [cbn; by eapply lookup_weaken|]. done. }
  destruct (ok c _); cbn [fst snd].
  - destruct (mark_dispatched (ac_id action) now d) as [d' [x|e]]; cbn [fst snd];
      (split; [done|]); right; by eexists.
  - split; [etrans; [apply delete_subseteq|done]|]. right. by eexists.
Qed.

Lemma dispatch_rows_sends now conns0 rows : forall d log conns,
  conns ⊆ conns0 ->
  exists sent rows', (dispatch_rows (send_log ok) allow mode now rows (d, (log, conns))).1.2.1 = log ++ sent
    /\ rows' `sublist_of` rows /\ Forall2 (authorised now conns0) rows' sent.
Proof.
  induction rows as [|row rows IH]; intros d log conns Hsub.
  { exists [], []. cbn. by rewrite app_nil_r. }
  cbn [dispatch_rows]. unfold mbind, M_bind.
  pose proof (dispatch_row_sends now conns0 row d log conns Hsub) as Hr. cbn zeta in Hr.
  destruct (dispatch_row _ _ _ _ row _) as [[d1 [log1 conns1]] r]. cbn [fst snd] in Hr.
  destruct Hr as [Hsub1 Hlog].
  destruct r as [u|e].
  - destruct (IH d1 log1 conns1 Hsub1) as (sent&rows'&E&Hs&HF). rewrite E.
    destruct Hlog as [->|(m&->&Hm)].
    + exists sent, rows'. split; [done|]. split; [by apply sublist_cons|done].
    + exists (m :: sent), (row :: rows'). split; [by rewrite <- app_assoc|].
      split; [by apply sublist_skip|by constructor].
  - cbn [fst snd]. destruct Hlog as [->|(m&->&Hm)].
    + exists [], []. split; [by rewrite app_nil_r|]. split; [apply sublist_nil_l|constructor].
    + exists [m], [row]. split; [done|]. split; [apply sublist_skip, sublist_nil_l|].
      by repeat constructor.
Qed.

End Safety.

(** *** Delivery *)

(** Rows are stored under their id. *)
Definition keyed (d : db) : Prop := forall id a, db_actions d !! id = Some a -> ac_id a = id.

Lemma pending_rows_in d a h :
  In (a, h) (pending_rows d) ->
  (exists id, db_actions d !! id = Some a) /\ ac_status a = "pending"
  /\ h = (i ← ac_host_id a; db_hosts d !! i).
Proof.
  unfold pending_rows. intros Hin. apply in_map_iff in Hin as (b&[= -> <-]&Hin).
  apply list_elem_of_In in Hin. apply elem_of_take in Hin as (i&Hi&_).
  apply list_elem_of_lookup_2 in Hi. rewrite merge_sort_Permutation in Hi.
  apply list_elem_of_filter in Hi as [Hs Hi]. split; [|done].
  apply list_elem_of_In, in_map_iff in Hi as ([id a']&<-&Hi).
  apply list_elem_of_In, elem_of_map_to_list in Hi. eauto.
Qed.

(** How a tick at [now] may change an action row. *)
Definition adv (now : Z) (a a' : Action) : Prop :=
  a' = a \/ (ac_status a = "pending" /\ a' = as_dispatched now a).

Section Delivery.
Context {N C : Type} (send : C -> string -> M N unit) (allow : bool) (mode : string).
Hypothesis send_answers : forall c t n, (send c t n).2 = Ok tt.

Definition deliverable (now : Z) (conns : gmap string C) (row : Action * option Host) : Prop :=
  exists host c secret kind,
    row.2 = Some host /\ h_auto_block host = true /\ conns !! h_id host = Some c
    /\ may_send allow mode row.1 host secret kind.

Lemma mark_dispatched_mem id now (d : db) :
  mark_dispatched id now d
  = match db_actions d !! id with
    | Some a => if String.eqb (ac_status a) "pending"
                then (set_actions (insert id (as_dispatched now a)) d, Ok true) else (d, Ok false)
    | None => (d, Ok false)
    end.
Proof.
  unfold mark_dispatched, mbind, M_bind, transaction, mem_database, run_transaction, update_action.
  destruct (db_actions d !! id) as [a|]; [|done]. by destruct (String.eqb _ _).
Qed.

Lemma mark_dispatched_adv id now (d : db) id' a :
  db_actions d !! id' = Some a ->
  exists a', db_actions (mark_dispatched id now d).1 !! id' = Some a' /\ adv now a a'
    /\ (id = id' -> ac_status a = "pending" -> a' = as_dispatched now a).
Proof.
  intros Ha. rewrite mark_dispatched_mem.
  destruct (db_actions d !! id) as [b|] eqn:Eb; [|exists a; split; [done|]; split; [by left|];
    intros ->; congruence].
  destruct (String.eqb_spec (ac_status b) "pending") as [Es|Es]; cbn [fst].
  - cbn [db_actions set_actions]. destruct (decide (id = id')) as [->|Hne].
    + rewrite lookup_insert_eq. rewrite Ha in Eb. injection Eb as ->.
      eexists. split; [done|]. split; [by right|done].
    + rewrite lookup_insert_ne by done. exists a. split; [done|]. split; [by left|done].
  - exists a. split; [done|]. split; [by left|]. intros ->. rewrite Ha in Eb. by injection Eb as ->.
Qed.

Lemma adv_trans now a b c : adv now a b -> adv now b c -> adv now a c.
Proof.
  intros [->|[Hs ->]] [->|[Ht ->]]; [by left|by right|by right|].
  cbn in Ht. discriminate Ht.
Qed.

(** One row: it is dispatched if it can be, and nothing else is undone. *)
Lemma dispatch_row_adv now row (d : db) n conns :
  exists d' n', dispatch_row send allow mode now row (d, (n, conns)) = ((d', (n', conns)), Ok tt)
  /\ forall id a, db_actions d !! id = Some a ->
       exists a', db_actions d' !! id = Some a' /\ adv now a a'
       /\ (deliverable now conns row -> ac_id row.1 = id -> ac_status a = "pending" ->
           a' = as_dispatched now a).
Proof.
  destruct row as [action h]. cbn [fst].
  assert (Hskip : (deliverable now conns (action, h) -> False) ->
    forall id a, db_actions d !! id = Some a ->
       exists a', db_actions d !! id = Some a' /\ adv now a a'
       /\ (deliverable now conns (action, h) -> ac_id action = id -> ac_status a = "pending" ->
           a' = as_dispatched now a)).
  { intros Hn id a Ha. exists a. split; [done|]. split; [by left|]. intros Hd. by destruct (Hn Hd). }
  destruct h as [h|]; cbn [dispatch_row];
    [|exists d, n; split; [done|]; apply Hskip; intros (?&?&?&?&[=]&_)].
  destruct (h_auto_block h) eqn:Eb; cbn [negb];
    [|exists d, n; split; [done|]; apply Hskip; intros (?&?&?&?&[= <-]&?&_); congruence].
  unfold mbind, M_bind, get_conn, reg_get, lift_res. cbn [fst snd].
  destruct (conns !! h_id h) as [c|] eqn:Ec;
    [|exists d, n; split; [done|]; apply Hskip; intros (?&?&?&?&[= <-]&_&?&_); congruence].
  destruct (build_frame_total allow mode now action h) as [[f|] Ef]; rewrite Ef;
    [|exists d, n; split; [done|]; apply Hskip; intros (h'&?&secret&kind&[= <-]&_&_&Hm);
      assert (Hf : _build_command_frame allow mode now action h
                   = Ok (Some (command_frame secret now action)))
        by (apply build_frame_iff; eauto); congruence].
  unfold try_M, on_snd, on_fst, mret, M_ret. cbn [fst snd].
  specialize (send_answers c (dumps f) n). destruct (send c (dumps f) n) as [n' x]. cbn in send_answers.
  subst x. cbn [fst snd].
  pose proof (mark_dispatched_adv (ac_id action) now d) as Hadv.
  assert (Hok : exists b, (mark_dispatched (ac_id action) now d).2 = Ok b).
  { rewrite mark_dispatched_mem. destruct (db_actions d !! ac_id action) as [b|];
      [destruct (String.eqb (ac_status b) "pending")|]; eauto. }
  destruct (mark_dispatched (ac_id action) now d) as [d' y]. destruct Hok as [b Hb]. cbn in Hb. subst y.
  exists d', n'. split; [done|]. intros id a Ha. destruct (Hadv id a Ha) as (a'&Ha'&Hv&Heq).
  exists a'. auto.
Qed.

Lemma dispatch_rows_adv now rows : forall (d : db) n conns,
  exists d' n', dispatch_rows send allow mode now rows (d, (n, conns)) = ((d', (n', conns)), Ok tt)
  /\ forall id a, db_actions d !! id = Some a ->
       exists a', db_actions d' !! id = Some a' /\ adv now a a'
       /\ (forall row, In row rows -> deliverable now conns row -> ac_id row.1 = id ->
           ac_status a = "pending" -> a' = as_dispatched now a).
Proof.
  induction rows as [|row rows IH]; intros d n conns.
  { exists d, n. split; [done|]. intros id a Ha. exists a. split; [done|]. split; [by left|done]. }
  cbn [dispatch_rows]. unfold mbind, M_bind.
  destruct (dispatch_row_adv now row d n conns) as (d1&n1&->&H1).
  destruct (IH d1 n1 conns) as (d2&n2&->&H2). exists d2, n2. split; [done|].
  intros id a Ha. destruct (H1 id a Ha) as (b&Hb&A1&E1). destruct (H2 id b Hb) as (c&Hc&A2&E2).
  exists c. split; [done|]. split; [by eapply adv_trans|].
  intros row' [<-|Hin] Hd Hid Hs.
  - rewrite (E1 Hd Hid Hs) in *. destruct A2 as [->|[Ht _]]; [done|]. discriminate Ht.
  - destruct A1 as [->|[_ ->]].
    + by apply (E2 row').
    + destruct A2 as [->|[Ht _]]; [done|]. discriminate Ht.
Qed.

End Delivery.

(** Nobody to send to: the host is gone or has not opted in. *)
Definition not_opted_in (row : Action * option Host) : bool :=
  match row.2 with Some h => negb (h_auto_block h) | None => true end.

Section Blocked.
Context {D N C : Type} `{DatabaseLaws D} (send : C -> string -> M N unit).
Context (allow : bool) (mode : string).

Lemma blocked_rows now rows s :
  Forall (fun row => not_opted_in row = true) rows ->
  dispatch_rows send allow mode now rows s = (s, Ok tt).
Proof.
  induction 1 as [|[a [h|]] rows Hr _ IH]; [done| |]; cbn [dispatch_rows dispatch_row];
    unfold mbind, M_bind; [|exact IH].
  unfold not_opted_in in Hr. cbn in Hr. rewrite Hr. exact IH.
Qed.

Lemma blocked_tick now d n conns :
  Forall (fun row => not_opted_in row = true) (pending_rows (tables d)) ->
  exists d', (_tick send allow mode now (d, (n, conns))).1 = (d', (n, conns))
  /\ tables d' = tables d.
Proof.
  intros Hb. unfold _tick, mbind, M_bind, on_fst. cbn [fst snd].
  set (t := fun d => (d, Ok (pending_rows d))).
  pose proof (transaction_cases t d) as L. destruct (transaction t d) as [d' x]. cbn [fst snd] in L.
  exists d'. destruct L as [[E [e ->]]|(rows&E&[->| ->])]; [done| |].
  - subst t. injection E as E <-. rewrite blocked_rows by done. done.
  - by injection E as ->.
Qed.

End Blocked.

(** ** Properties *)

(** C8. What may be signed: a COMMAND frame is built exactly when the host has a
    secret, the kind is registered and enabled in the deployment mode, the
    target passes validation and the host opted in if the kind asks for it; the
    frame carries the row's order, and the agent's check of its HMAC against the
    host's secret succeeds.  Building never raises. *)
Theorem command_frame_spec (allow : bool) (mode : string) (now : Z) (action : Action) (host : Host) :
  (exists o, _build_command_frame allow mode now action host = Ok o)
  /\ forall f, _build_command_frame allow mode now action host = Ok (Some f) <->
       exists secret kind, may_send allow mode action host secret kind
       /\ exists h, f = VDict [("type", VStr "command"); ("id", VStr (ac_id action));
              ("kind", VStr (ac_kind action)); ("target", VStr (ac_target action));
              ("ttl_sec", ttl_val (ac_ttl_sec action)); ("issued_at", VStr (issued_at_text now));
              ("hmac", VStr h)]
          /\ h = sign_command secret (ac_id action) (ac_kind action) (ac_target action)
                (ttl_or_zero (ac_ttl_sec action)) (issued_at_text now)
          /\ verify_command secret (ac_id action) (ac_kind action) (ac_target action)
               (ttl_or_zero (ac_ttl_sec action)) (issued_at_text now) h = Ok true.
Proof.
  split; [apply build_frame_total|]. intros f. rewrite build_frame_iff. split.
  - intros (secret&kind&Hm&->). exists secret, kind. split; [done|]. eexists.
    split; [reflexivity|]. split; [done|apply verify_sign].
  - intros (secret&kind&Hm&h&->&->&_). by exists secret, kind.
Qed.

(** A tick sends nothing unauthorised: with any database and any network,
    the messages of one tick are, in order and each at most once, frames of
    pending rows (at most sixteen, the oldest first) whose host opted in, each
    on the connection that host had registered. *)
Theorem tick_sends_authorised {D C : Type} `{DatabaseLaws D} (ok : C -> string -> bool)
    (allow : bool) (mode : string) (now : Z) (d : D) (log : list (C * string))
    (conns : gmap string C) :
  exists sent rows,
    (_tick (send_log ok) allow mode now (d, (log, conns))).1.2.1 = log ++ sent
    /\ rows `sublist_of` pending_rows (tables d)
    /\ Forall2 (authorised allow mode now conns) rows sent
    /\ (length sent <= TICK_LIMIT)%nat.
Proof.
  unfold _tick, mbind, M_bind, on_fst. cbn [fst snd].
  set (t := fun d => (d, Ok (pending_rows d))).
  pose proof (transaction_cases t d) as L. destruct (transaction t d) as [d' x]. cbn [fst snd] in L.
  assert (Hnil : exists sent rows, log = log ++ sent /\ rows `sublist_of` pending_rows (tables d)
    /\ Forall2 (authorised allow mode now conns) rows sent /\ (length sent <= TICK_LIMIT)%nat).
  { exists [], []. rewrite app_nil_r. split; [done|]. split; [apply sublist_nil_l|].
    split; [constructor|cbn; lia]. }
  destruct L as [[E [e ->]]|(rows&E&[->| ->])]; [exact Hnil| |exact Hnil].
  subst t. injection E as E <-.
  destruct (dispatch_rows_sends ok allow mode now conns (pending_rows (tables d)) d' log conns)
    as (sent&rows&E1&E2&E3); [done|].
  exists sent, rows. split; [exact E1|]. split; [done|]. split; [done|].
  apply Forall2_length in E3 as <-. apply sublist_length in E2.
  unfold pending_rows in E2. rewrite length_map, length_take in E2. lia.
Qed.

(** C9. A tick delivers: with a database and a network that answer, every one of
    the sixteen oldest pending rows whose host opted in, is connected and may be
    sent the command is dispatched, with the time of the tick, and every other
    row is either untouched or was such a row. *)
Theorem tick_delivers {N C : Type} (send : C -> string -> M N unit) (allow : bool) (mode : string)
    (now : Z) (d : db) (n : N) (conns : gmap string C) :
  (forall c t n, (send c t n).2 = Ok tt) -> keyed d ->
  exists d' n', _tick send allow mode now (d, (n, conns)) = ((d', (n', conns)), Ok tt)
  /\ (forall row, In row (pending_rows d) -> deliverable allow mode now conns row ->
        db_actions d' !! ac_id row.1 = Some (as_dispatched now row.1))
  /\ (forall id a, db_actions d !! id = Some a ->
        exists a', db_actions d' !! id = Some a' /\ adv now a a').
Proof.
  intros Hsend Hk. unfold _tick, mbind, M_bind, on_fst. cbn [fst snd transaction mem_database].
  unfold run_transaction. cbn [fst snd].
  destruct (dispatch_rows_adv send allow mode Hsend now (pending_rows d) d n conns)
    as (d'&n'&E&Hrows).
  exists d', n'. split; [exact E|]. split.
  - intros [a h] Hin Hd. cbn [fst]. destruct (pending_rows_in d a h Hin) as ([id Ha]&Hs&_).
    destruct (Hrows id a Ha) as (a'&Ha'&_&Heq). rewrite (Hk id a Ha).
    rewrite Ha'. f_equal. apply (Heq (a, h)); [done|done|apply (Hk id a Ha)|done].
  - intros id a Ha. destruct (Hrows id a Ha) as (a'&?&?&_). eauto.
Qed.

(** Head-of-line blocking: when the sixteen oldest pending rows belong to
    hosts that have not opted in, no number of ticks changes anything, whatever
    the network does: younger rows are never dispatched, even to connected hosts
    that did opt in. *)
Theorem tick_starves {D N C : Type} `{DatabaseLaws D} (send : C -> string -> M N unit)
    (allow : bool) (mode : string) (clock : list Z) (d : D) (n : N) (conns : gmap string C) :
  Forall (fun row => not_opted_in row = true) (pending_rows (tables d)) ->
  exists d', _run send allow mode clock (d, (n, conns)) = (d', (n, conns))
  /\ tables d' = tables d.
Proof.
  revert d. induction clock as [|now clock IH]; intros d Hb; [by exists d|].
  cbn [_run]. destruct (blocked_tick send allow mode now d n conns Hb) as (d1&->&E).
  destruct (IH d1) as (d2&->&E2); [by rewrite E|]. exists d2. split; [done|congruence].
Qed.

(** *** Concrete runs *)

Definition web_host (auto_block : bool) : Host :=
  mkHost "h1" 0 0 None None (Some "k") auto_block [].
Definition quiet_host : Host := mkHost "h0" 0 0 None None (Some "k") false [].

Definition queued (id host : string) (at_ : Z) : Action :=
  mkAction id (Some host) None "block_ip" "203.0.113.7" (Some 60) "pending" None None at_.

Definition crowded (n : nat) : db :=
  set_actions (insert "new" (queued "new" "h1" 99))
    (set_actions (fun m => foldr (fun i => insert (str_int (Z.of_nat i)) (queued (str_int (Z.of_nat i)) "h0" (Z.of_nat i))) m (seq 0 n))
       (mkDb {["h1" := web_host true; "h0" := quiet_host]} ∅ ∅ ∅ ∅)).

Lemma crowded_keyed : keyed (crowded 2).
Proof.
  intros id a Ha. apply elem_of_map_to_list in Ha.
  assert (Hall : forallb (fun p => String.eqb (ac_id p.2) p.1)
            (map_to_list (db_actions (crowded 2))) = true) by (vm_compute; reflexivity).
  rewrite forallb_forall in Hall. apply list_elem_of_In in Ha. specialize (Hall _ Ha).
  by apply String.eqb_eq in Hall.
Qed.

Definition net_ok : unit -> string -> M unit unit := fun _ _ n => (n, Ok tt).

(** Two rows of the quiet host do not stop the third. *)
Lemma tick_delivers_witness :
  exists d' n', _tick net_ok false "startup" 100 (crowded 2, (tt, {["h1" := tt]}))
    = ((d', (n', {["h1" := tt]})), Ok tt)
  /\ db_actions d' !! "new" = Some (as_dispatched 100 (queued "new" "h1" 99)).
Proof.
  destruct (tick_delivers net_ok false "startup" 100 (crowded 2) tt {["h1" := tt]}
              (fun _ _ _ => eq_refl) crowded_keyed) as (d'&n'&E&H&_).
  exists d', n'. split; [exact E|].
  apply (H (queued "new" "h1" 99, Some (web_host true))).
  - vm_compute. tauto.
  - exists (web_host true), tt, "k",
      (mkKind "block_ip" Shape_ipv4 3600 "Drop all traffic from this source IP via nftables." true).
    split; [done|]. split; [done|]. split; [vm_compute; reflexivity|].
    split; [split; [done|discriminate]|reflexivity|vm_compute; reflexivity|vm_compute; reflexivity|done].
Defined.

(** Sixteen of them do. *)
Lemma tick_starves_witness :
  exists d', _run (D := db) net_ok false "startup" [100; 105; 110] (crowded 16, (tt, {["h1" := tt]}))
    = (d', (tt, {["h1" := tt]}))
  /\ d' = crowded 16.
Proof.
  refine (tick_starves (D := db) net_ok false "startup" [100; 105; 110] (crowded 16) tt {["h1" := tt]} _).
  assert (Hall : forallb not_opted_in (pending_rows (crowded 16)) = true) by (vm_compute; reflexivity).
  apply Forall_forall. intros row Hr. rewrite forallb_forall in Hall.
  apply Hall. by apply list_elem_of_In.
Defined.

(** A connection that fails is used once and dropped. *)
Lemma tick_sends_authorised_witness :
  exists sent rows,
    (_tick (send_log (fun _ _ => false)) false "startup" 100 (crowded 2, ([], {["h1" := tt]}))).1.2.1
      = [] ++ sent
    /\ rows `sublist_of` pending_rows (crowded 2)
    /\ Forall2 (authorised false "startup" 100 {["h1" := tt]}) rows sent
    /\ (length sent <= TICK_LIMIT)%nat.
Proof.
  exact (tick_sends_authorised (D := db) (fun _ _ => false) false "startup" 100 (crowded 2) []
    {["h1" := tt]}).
Defined.
