(* ===== verification/Ws.v ===== *)
(** * The agent WebSocket: [api/v1/stream.py]

    One connection is [phase], the point its handler has reached, and
    [session], the local variable [agent_id]; the world it shares with the
    other connections and the dispatcher is the database, the event stream,
    the network and the registry.  [on_text] is what happens between two reads
    of the socket, so any interleaving of connections is a sequence of
    [on_text] steps ([deliver]).

    Parameters: [send] and [close] of the network, the frame schemas'
    [model_validate] (pydantic), [json.loads] behind the depth scanner, and
    [publish_event]. *)

From S2P Require Import Prelude PyStr PyVal PyStd Json Crypto Db Dispatcher.

Definition MAX_HELLO_BYTES : Z := 64 * 1024.

Record WsSettings : Type := mkWs { ws_max_msg_bytes : Z; ws_max_msg_per_min : Z }.

Record HelloFrame : Type := mkHello {
  hello_agent_id : string;
  hello_version : string;
  hello_nonce : string;
  hello_sig : string
}.

Record CommandAckFrame : Type := mkAck {
  ack_id : string;
  ack_status : string;
  ack_error : option string
}.

(** [_compute_sig]. *)
Definition _compute_sig (secret nonce : string) : string :=
  hex (hmac_sha256 (utf8 secret) (utf8 nonce)).

Definition challenge (nonce : string) : val :=
  VDict [("type", VStr "challenge"); ("nonce", VStr nonce); ("v", VInt 2)].

Definition hello_ack (host_id : string) : val :=
  VDict [("type", VStr "hello_ack"); ("agent_id", VStr host_id); ("v", VInt 2)].

(** [v.get] of a value that may not be a dictionary. *)
Definition as_mapping (v : val) : res (list (string * val)) :=
  match v with VDict d => Ok d | _ => Raise AttributeError end.

(** Nanoseconds of the monotonic clock in the sixty seconds of the cap. *)
Definition MINUTE : Z := 60 * 1000000000.

Inductive phase : Type :=
| AwaitHello (nonce : string)
| Drain (window_start msg_in_window : Z)
| Closed.

Section Handler.
Context {D R N C : Type} `{Database D}.
Context (send : C -> string -> M N unit) (close : C -> Z -> M N unit).
Context (loads : string -> res val).
Context (hello_validate : list (string * val) -> res HelloFrame).
Context (event_validate : list (string * val) -> res EventInner).
Context (ack_validate : list (string * val) -> res CommandAckFrame).
Context (publish : Event -> M R unit).
Context (settings : WsSettings).

Abbreviation world := ((D * R) * (N * registry C))%type.
(** The world with the handler's [agent_id]. *)
Abbreviation local := (option string * world)%type.

Definition on_db {A} (m : M (D * R) A) : M local A := on_snd (on_fst m).
Definition on_net {A} (m : M N A) : M local A := on_snd (on_snd (on_fst m)).
Definition on_registry (f : registry C -> registry C) : M local unit := fun s =>
  ((s.1, (s.2.1, (s.2.2.1, f s.2.2.2))), Ok tt).
Definition set_agent (a : string) : M local unit := fun s => ((Some a, s.2), Ok tt).

(** [await ws.close(code=...); return]. *)
Definition close_with (c : C) (c0 : Z) : M local phase := _ ← on_net (close c c0); mret Closed.

(** [except json.JSONDecodeError]: [None]; other exceptions pass. *)
Definition parse_frame (raw : string) : res (option val) :=
  match safe_loads loads raw with
  | Ok v => Ok (Some v)
  | Raise JSONDecodeError => Ok None
  | Raise e => Raise e
  end.

(** Steps 3 and 4: the host, the signature, the acknowledgement and the
    registration. *)
Definition hello_host (c : C) (now : Z) (nonce : string) (hello : HelloFrame) (sig : string)
  : M local phase :=
  host ← on_db (on_fst (transaction (upsert_on_hello (hello_agent_id hello))));
  match h_secret host with
  | None | Some "" => close_with c 1008
  | Some secret =>
      ok ← lift_res (compare_digest (_compute_sig secret nonce) sig);
      if negb (ok : bool) then close_with c 1008
      else
        _ ← on_net (send c (dumps (hello_ack (h_id host))));
        _ ← on_registry (register (h_id host) c);
        mret (Drain now 0)
  end.

(** Step 2: the first frame. *)
Definition on_hello (c : C) (now : Z) (nonce raw : string) : M local phase :=
  if MAX_HELLO_BYTES <? slen raw then close_with c 1009
  else
    parsed ← lift_res (parse_frame raw);
    match parsed with
    | None => close_with c 1003
    | Some v =>
        first ← lift_res (as_mapping v);
        if negb (val_eqb (get "type" first) (VStr "hello")) then close_with c 1002
        else if negb (val_eqb (get "v" first) (VInt 2)) then close_with c 1002
        else
          match hello_validate first with
          | Raise ValidationError => close_with c 1002
          | Raise e => raise_M e
          | Ok hello =>
              if negb (truthy (get "nonce" first)) || negb (val_eqb (get "nonce" first) (VStr nonce))
              then close_with c 1002
              else
                _ ← set_agent (hello_agent_id hello);
                match get "sig" first with
                | VStr sig =>
                    if nonempty sig then hello_host c now nonce hello sig else close_with c 1002
                | _ => close_with c 1002
                end
          end
    end.

(** The body of the drain loop, from the frame type on: whether the loop goes
    on. *)
Definition on_frame (now : Z) (payload : list (string * val)) : M local bool :=
  let ty t := val_eqb (get "type" payload) (VStr t) in
  if ty "event" then
    match event_validate payload with
    | Raise ValidationError => mret true
    | Raise e => raise_M e
    | Ok inner =>
        try_M (_ ← on_db (persist_event publish now inner); mret true)
          (fun e => match e with DuplicateEvent => mret true | _ => raise_M e end)
    end
  else if ty "command_ack" then
    match ack_validate payload with
    | Raise ValidationError => mret true
    | Raise e => raise_M e
    | Ok ack =>
        _ ← on_db (on_fst (if String.eqb (ack_status ack) "applied"
                           then mark_applied (ack_id ack) now else mark_failed (ack_id ack) now));
        mret true
    end
  else if ty "bye" then mret false
  else mret true.

(** One frame of the drain loop: the caps, the parse and the dispatch on the
    type.  [clock] is the monotonic clock, [now] the wall clock. *)
Definition on_drain (c : C) (clock now window_start msg_in_window : Z) (raw : string)
  : M local phase :=
  if ws_max_msg_bytes settings <? slen raw then close_with c 1009
  else
    let fresh := MINUTE <=? clock - window_start in
    let start := if fresh then clock else window_start in
    let count := if fresh then 1 else msg_in_window + 1 in
    if ws_max_msg_per_min settings <? count then close_with c 1013
    else
      parsed ← lift_res (parse_frame raw);
      match parsed with
      | None => mret (Drain start count)
      | Some v =>
          payload ← lift_res (as_mapping v);
          more ← on_frame now payload;
          mret (if more : bool then Drain start count else Closed)
      end.

(** What [receive_text] gave: a text, or the exception it raised. *)
Definition body (c : C) (clock now : Z) (ph : phase) (input : res string) : M local phase :=
  raw ← lift_res input;
  match ph with
  | AwaitHello nonce => on_hello c clock nonce raw
  | Drain start count => on_drain c clock now start count raw
  | Closed => mret Closed
  end.

(** [finally: await registry.unregister(agent_id)]. *)
Definition finally_ (s : local) : local * phase :=
  match s.1 with
  | Some a => ((None, (s.2.1, (s.2.2.1, unregister a s.2.2.2))), Closed)
  | None => (s, Closed)
  end.

(** [ws_agent] between two reads, with its [except] clauses and [finally]. *)
Definition on_text (c : C) (clock now : Z) (ph : phase) (input : res string) (s : local)
  : local * phase :=
  match ph with
  | Closed => (s, Closed)
  | _ =>
      match body c clock now ph input s with
      | (s', Ok Closed) => finally_ s'
      | (s', Ok ph') => (s', ph')
      | (s', Raise WebSocketDisconnect) => finally_ s'
      | (s', Raise _) => finally_ (on_net (close c 1011) s').1
      end
  end.

(** [await ws.accept()] and the challenge with a fresh nonce. *)
Definition connect (c : C) (nonce : string) (w : world) : local * phase :=
  match on_net (send c (dumps (challenge nonce))) (None, w) with
  | (s, Ok _) => (s, AwaitHello nonce)
  | (s, Raise WebSocketDisconnect) => finally_ s
  | (s, Raise _) => finally_ (on_net (close c 1011) s).1
  end.

(** ** Lemmas *)

Lemma val_eqb_str_r v s : val_eqb v (VStr s) = true <-> v = VStr s.
Proof.
  destruct v; cbn; try (split; [discriminate|congruence]).
  rewrite String.eqb_eq. split; congruence.
Qed.

Lemma compute_sig_hex secret nonce : sforall is_hex (_compute_sig secret nonce) = true.
Proof. apply hex_is_hex, sha256_range. Qed.

Lemma compute_sig_nonempty secret nonce : nonempty (_compute_sig secret nonce) = true.
Proof.
  assert (Hl : slen (_compute_sig secret nonce) = 64).
  { unfold _compute_sig, hmac_sha256. by rewrite hex_length, sha256_length. }
  revert Hl. by destruct (_compute_sig secret nonce).
Qed.

(** A HELLO that proves the agent holds its host's secret. *)
Definition genuine (nonce raw : string) (st : db) (hello : HelloFrame) (h : Host) : Prop :=
  slen raw <= MAX_HELLO_BYTES
  /\ exists first secret,
    safe_loads loads raw = Ok (VDict first)
    /\ get "type" first = VStr "hello" /\ val_eqb (get "v" first) (VInt 2) = true
    /\ hello_validate first = Ok hello
    /\ get "nonce" first = VStr nonce /\ nonce <> ""
    /\ db_hosts st !! hello_agent_id hello = Some h
    /\ h_secret h = Some secret /\ secret <> ""
    /\ get "sig" first = VStr (_compute_sig secret nonce).

(** A well-formed HELLO for this nonce, signed or not. *)
Definition claims (nonce raw agent : string) : Prop :=
  slen raw <= MAX_HELLO_BYTES
  /\ exists first hello,
    safe_loads loads raw = Ok (VDict first)
    /\ get "type" first = VStr "hello" /\ val_eqb (get "v" first) (VInt 2) = true
    /\ hello_validate first = Ok hello
    /\ get "nonce" first = VStr nonce /\ nonce <> ""
    /\ agent = hello_agent_id hello.

Definition tables_of (s : local) : db := tables s.2.1.1.
Definition stream_of (s : local) : R := s.2.1.2.
Definition registry_of (s : local) : registry C := s.2.2.2.

(** Tables, stream and registry are as before. *)
Definition same (s s' : local) : Prop :=
  tables_of s' = tables_of s /\ stream_of s' = stream_of s /\ registry_of s' = registry_of s.

Lemma on_net_same {A} (m : M N A) s : same s (on_net m s).1 /\ (on_net m s).1.1 = s.1.
Proof.
  destruct s as [a [[d r] [n g]]]. unfold on_net, on_snd, on_fst. cbn.
  by destruct (m n).
Qed.

Lemma close_with_same c code s s' out :
  close_with c code s = (s', out) ->
  same s s' /\ s'.1 = s.1 /\ (forall p, out = Ok p -> p = Closed).
Proof.
  unfold close_with, mbind, M_bind. pose proof (on_net_same (close c code) s) as [Hs Ha].
  destruct (on_net _ s) as [s1 [u|e]]; intros [= <- <-]; (split; [exact Hs|split; [exact Ha|]]).
  - by intros p [= <-].
  - discriminate.
Qed.

Context `{!DatabaseLaws D}.

Lemma same_trans s1 s2 s3 : same s1 s2 -> same s2 s3 -> same s1 s3.
Proof. intros (A1&B1&C1) (A2&B2&C2). split; [|split]; congruence. Qed.

Lemma host_read a s s1 out :
  on_db (on_fst (transaction (upsert_on_hello a))) s = (s1, out) ->
  same s s1 /\ s1.1 = s.1 /\ forall h, out = Ok h -> db_hosts (tables_of s) !! a = Some h.
Proof.
  destruct s as [ag [[d r] ng]]. unfold on_db, on_snd, on_fst. cbn [fst snd].
  pose proof (transaction_cases (upsert_on_hello a) d) as L.
  destruct (transaction (upsert_on_hello a) d) as [d1 x]. cbn [fst snd] in L. intros [= <- <-].
  unfold same, tables_of, stream_of, registry_of. cbn [fst snd].
  destruct L as [[E [e ->]]|(h&E&Hx)].
  - repeat split; [exact E|discriminate].
  - unfold upsert_on_hello in E. destruct (db_hosts (tables d) !! a) as [h0|] eqn:Eh; [|discriminate E].
    injection E as E <-. repeat split; [congruence|]. destruct Hx as [->| ->]; congruence.
Qed.

(** The outcomes of a step that has not registered the connection: it did not
    reach the drain loop and shared nothing. *)
Definition stopped (s s' : local) (out : res phase) : Prop :=
  same s s' /\ s'.1 = s.1 /\ forall p, out = Ok p -> p = Closed.

Lemma close_stopped c code s s' out : close_with c code s = (s', out) -> stopped s s' out.
Proof. apply close_with_same. Qed.

Lemma raise_stopped e s : stopped s s (Raise e).
Proof. by repeat split. Qed.

Lemma hello_host_spec c clock nonce hello sig s s' out :
  hello_host c clock nonce hello sig s = (s', out) ->
  stopped s s' out
  \/ exists h secret, out = Ok (Drain clock 0) /\ s'.1 = s.1
       /\ db_hosts (tables_of s) !! hello_agent_id hello = Some h /\ h_secret h = Some secret
       /\ secret <> "" /\ sig = _compute_sig secret nonce
       /\ tables_of s' = tables_of s /\ stream_of s' = stream_of s
       /\ registry_of s' = register (h_id h) c (registry_of s).
Proof.
  unfold hello_host, mbind at 1, M_bind at 1.
  destruct (on_db _ s) as [s1 x] eqn:E1. apply host_read in E1 as (Hs1&Ha1&Hh).
  destruct x as [h|e]; [|intros [= <- <-]; by left]. specialize (Hh h eq_refl).
  assert (Hstop : forall s2 o, stopped s1 s2 o -> stopped s s2 o).
  { intros s2 o (Hs2&Ha2&Hp). split; [by eapply same_trans|]. split; [congruence|done]. }
  destruct (h_secret h) as [[|c0 r0]|] eqn:Esec; try (intros Hc%close_stopped; left; by apply Hstop).
  set (secret := String c0 r0) in *. unfold lift_res, mbind at 1, M_bind at 1, compare_digest.
  destruct (is_ascii _ && is_ascii sig); [|intros [= <- <-]; left; apply Hstop, raise_stopped].
  destruct (String.eqb_spec (_compute_sig secret nonce) sig) as [<-|];
    cbn [negb]; [|intros Hc%close_stopped; left; by apply Hstop].
  unfold mbind, M_bind. pose proof (on_net_same (send c (dumps (hello_ack (h_id h)))) s1) as [Hs2 Ha2].
  destruct (on_net _ s1) as [s2 [u|e]]; cbn [fst snd on_registry] in *; intros [= <- <-].
  2:{ left. apply Hstop. by split. }
  right. exists h, secret. destruct Hs1 as (A1&B1&C1), Hs2 as (A2&B2&C2).
  unfold tables_of, stream_of, registry_of in *. cbn [fst snd].
  repeat split; first [congruence | done].
Qed.

(** What one reading of the first frame leaves behind. *)
Definition hello_outcome (c : C) (clock : Z) (nonce raw : string) (s s' : local) (out : res phase)
  : Prop :=
  (same s s' /\ (forall p, out = Ok p -> p = Closed)
   /\ ((s'.1 = s.1 /\ forall agent, ~ claims nonce raw agent)
       \/ exists agent, s'.1 = Some agent /\ claims nonce raw agent))
  \/ exists hello h, out = Ok (Drain clock 0) /\ genuine nonce raw (tables_of s) hello h
       /\ s'.1 = Some (hello_agent_id hello)
       /\ tables_of s' = tables_of s /\ stream_of s' = stream_of s
       /\ registry_of s' = register (h_id h) c (registry_of s).

Lemma stopped_outcome c clock nonce raw s s' out :
  (forall agent, ~ claims nonce raw agent) ->
  stopped s s' out -> hello_outcome c clock nonce raw s s' out.
Proof. intros ? (?&?&?). left. auto. Qed.

(** A check that failed before the agent was taken from the frame. *)
Ltac early_exit :=
  let refuted := (intros agent (?&?&?&?&?&?&?&?&?&?);
                  try match goal with
                  | A : safe_loads _ _ = Ok (VDict ?x), B : safe_loads _ _ = Ok (VDict ?y) |- _ =>
                      assert (x = y) by congruence; clear A; subst
                  end;
                  first [lia | congruence
                        | match goal with E : val_eqb ?x _ = false, F : ?x = VStr _ |- _ =>
                            rewrite F in E; cbn in E; by rewrite ?String.eqb_refl in E end]) in
  first
    [ intros [= <- <-]; apply stopped_outcome; [refuted|apply raise_stopped]
    | let Hc := fresh in intros Hc%close_stopped; apply stopped_outcome; [refuted|exact Hc] ].

Lemma on_hello_outcome c clock nonce raw s s' out :
  on_hello c clock nonce raw s = (s', out) -> hello_outcome c clock nonce raw s s' out.
Proof.
  unfold on_hello. destruct (MAX_HELLO_BYTES <? slen raw) eqn:El; bprop; [early_exit|].
  unfold lift_res, parse_frame, mbind at 1, M_bind at 1.
  destruct (safe_loads loads raw) as [v|e] eqn:Ep; [|destruct e; early_exit].
  unfold mbind at 1, M_bind at 1.
  destruct v as [| | | | | |first]; try early_exit. cbn [as_mapping].
  destruct (val_eqb (get "type" first) _) eqn:Et; cbn [negb]; [|early_exit].
  destruct (val_eqb (get "v" first) _) eqn:Ev; cbn [negb]; [|early_exit].
  destruct (hello_validate first) as [hello|e] eqn:Eh; [|destruct e; early_exit].
  apply val_eqb_str_r in Et.
  destruct (truthy (get "nonce" first)) eqn:En1; cbn [negb orb].
  2:{ intros Hc%close_stopped. apply stopped_outcome; [|exact Hc].
      intros agent (_&f&h&Hf&_&_&_&Hn&Hne&_). rewrite Ep in Hf. injection Hf as <-.
      rewrite Hn in En1. by destruct nonce. }
  destruct (val_eqb (get "nonce" first) _) eqn:En2; cbn [negb]; [|early_exit].
  apply val_eqb_str_r in En2. rewrite En2 in En1.
  assert (Hne : nonce <> "") by (intros ->; discriminate En1).
  assert (Hcl : claims nonce raw (hello_agent_id hello)) by (split; [lia|exists first, hello; done]).
  unfold mbind, M_bind, set_agent. set (s1 := (Some (hello_agent_id hello), s.2)).
  assert (Hstop : forall o, stopped s1 s' o -> hello_outcome c clock nonce raw s s' o).
  { intros o (Hs&Ha&Hp). left. split; [exact Hs|]. split; [done|]. right. by exists (hello_agent_id hello). }
  destruct (get "sig" first) as [| | | |sig| |] eqn:Es;
    try (intros Hc%close_stopped; by apply Hstop).
  destruct (nonempty sig); [|intros Hc%close_stopped; by apply Hstop].
  intros [Hc|(h&secret&Ho&Ha&Hh&Hsec&Hs0&->&Htab&Hst&Hreg)]%hello_host_spec; [by apply Hstop|].
  right. exists hello, h. split; [done|]. split; [|done]. split; [lia|].
  exists first, secret. done.
Qed.

(** A genuine HELLO is answered when the database and the network are up. *)
Lemma genuine_accepted c clock nonce raw hello h ag d r n g :
  genuine nonce raw (tables d) hello h ->
  (transaction (upsert_on_hello (hello_agent_id hello)) d).2 = Ok h ->
  (forall text, (send c text n).2 = Ok tt) ->
  (on_hello c clock nonce raw (ag, ((d, r), (n, g)))).2 = Ok (Drain clock 0).
Proof.
  intros (Hl&first&secret&Hp&Ht&Hv&Hval&Hn&Hne&Hh&Hsec&Hs0&Hsig) Hread Hsend.
  unfold on_hello, parse_frame, lift_res, set_agent, mbind, M_bind.
  rewrite (proj2 (Z.ltb_ge _ _)) by done. rewrite Hp. cbn [as_mapping].
  rewrite Hv, Hval, Hn, Hsig, Ht, compute_sig_nonempty.
  rewrite !(proj2 (val_eqb_str_r _ _)) by done. cbn [negb truthy orb].
  destruct nonce as [|c0 r0]; [done|]. cbn [nonempty negb orb snd].
  unfold hello_host, on_db, on_snd, on_fst, lift_res, mbind, M_bind. cbn [fst snd].
  destruct (transaction _ d) as [d1 x]. cbn [snd] in Hread. subst x. rewrite Hsec.
  destruct secret as [|c1 r1]; [done|]. unfold compare_digest.
  rewrite hex_ascii by apply compute_sig_hex. rewrite String.eqb_refl. cbn [andb negb].
  unfold on_net, on_snd, on_fst. cbn [fst snd]. specialize (Hsend (dumps (hello_ack (h_id h)))).
  destruct (send c _ n) as [n1 y]. cbn [snd] in Hsend. by subst y.
Qed.

Lemma finally_same s : let '(s1, ph) := finally_ s in
  ph = Closed /\ s1.1 = None /\ tables_of s1 = tables_of s /\ stream_of s1 = stream_of s
  /\ registry_of s1 = match s.1 with Some a => unregister a (registry_of s) | None => registry_of s end.
Proof. unfold finally_. destruct s as [[a|] w]; done. Qed.

(** What a frame may do to the tables: nothing, add the row of a new event, or
    settle an action that was dispatched. *)
Inductive frame_effect (now : Z) (payload : list (string * val)) (st : db) : db -> Prop :=
| effect_none : frame_effect now payload st st
| effect_event inner :
    get "type" payload = VStr "event" -> event_validate payload = Ok inner ->
    db_events st !! in_id inner = None ->
    frame_effect now payload st (set_events (insert (in_id inner) (event_row now inner)) st)
| effect_ack ack a :
    get "type" payload = VStr "command_ack" -> ack_validate payload = Ok ack ->
    db_actions st !! ack_id ack = Some a -> ac_status a = "dispatched" ->
    frame_effect now payload st
      (set_actions (insert (ack_id ack)
         (as_acked (if String.eqb (ack_status ack) "applied" then "applied" else "failed") now a)) st).

Lemma effect_hosts now payload st st' : frame_effect now payload st st' -> db_hosts st' = db_hosts st.
Proof. by destruct 1. Qed.

(** Both acknowledgements, as one. *)
Definition mark (status : string) (id : string) (now : Z) : M D bool :=
  if String.eqb status "applied" then mark_applied id now else mark_failed id now.

Lemma mark_cases status id now d :
  let new := if String.eqb status "applied" then "applied" else "failed" in
  tables (mark status id now d).1 = tables d
  \/ exists a, db_actions (tables d) !! id = Some a /\ ac_status a = "dispatched"
       /\ tables (mark status id now d).1 = set_actions (insert id (as_acked new now a)) (tables d).
Proof.
  unfold mark, mark_applied, mark_failed. destruct (String.eqb status "applied"); cbn zeta;
    unfold mbind, M_bind;
    match goal with |- context [transaction ?t d] => pose proof (transaction_cases t d) as L;
      destruct (transaction t d) as [d' r] end; cbn [fst snd] in L;
    (destruct L as [(E&e&->)|(n&E&[->| ->])]; cbn [fst snd mret M_ret]; [by left|..]);
    unfold update_action in E;
    (destruct (db_actions (tables d) !! id) as [a|] eqn:Ea; [|injection E as E _; left; congruence]);
    (destruct (String.eqb_spec (ac_status a) "dispatched"); [|injection E as E _; left; congruence]);
    injection E as E _; rewrite <- E; right; eauto.
Qed.

(** An acknowledgement that got its answer settled the row. *)
Lemma mark_settles status id now d a b :
  db_actions (tables d) !! id = Some a -> ac_status a = "dispatched" ->
  (mark status id now d).2 = Ok b ->
  tables (mark status id now d).1
  = set_actions (insert id (as_acked (if String.eqb status "applied" then "applied" else "failed")
                              now a)) (tables d).
Proof.
  intros Ha Hs. unfold mark, mark_applied, mark_failed. destruct (String.eqb status "applied");
    unfold mbind, M_bind;
    match goal with |- context [transaction ?t d] => pose proof (transaction_cases t d) as L;
      destruct (transaction t d) as [d' r] end; cbn [fst snd] in L;
    (destruct L as [(E&e&->)|(n&E&[->| ->])]; cbn [fst snd mret M_ret]; intros Hr; try discriminate Hr);
    unfold update_action in E; rewrite Ha, Hs in E; by injection E as E _.
Qed.

Lemma persist_tables now inner d r d' r' out :
  persist_event publish now inner (d, r) = ((d', r'), out) ->
  tables d' = tables d
  \/ db_events (tables d) !! in_id inner = None
     /\ tables d' = set_events (insert (in_id inner) (event_row now inner)) (tables d).
Proof.
  unfold persist_event, persist_row, mbind at 1, M_bind at 1, on_fst. cbn [fst snd].
  match goal with |- context [transaction ?t d] => pose proof (transaction_cases t d) as L;
    destruct (transaction t d) as [d1 x] end. cbn [fst snd] in L.
  intros Heq. assert (Hd : d' = d1).
  { revert Heq. destruct x as [row|e]; [|by intros [= <- _ _]]. unfold try_M, on_snd, mbind, M_bind.
    cbn [fst snd]. destruct (publish row r) as [r1 [u|e]]; by intros [= <- _ _]. }
  subst d'. destruct L as [[E _]|(row&E&_)]; [by left|].
  apply M_bind_ok in E as (s1&o&Ei&Er). destruct o as [ev|]; [|discriminate Er].
  injection Er as -> _. unfold insert_event in Ei. destruct (event_ok _ _); [|discriminate Ei].
  cbn [e_id event_row] in Ei. destruct (db_events (tables d) !! in_id inner); [discriminate Ei|].
  injection Ei as <- _. by right.
Qed.

Lemma on_frame_effect now payload s s' out :
  on_frame now payload s = (s', out) ->
  s'.1 = s.1 /\ registry_of s' = registry_of s
  /\ frame_effect now payload (tables_of s) (tables_of s').
Proof.
  destruct s as [ag [[d r] [n g]]]. unfold on_frame. cbv zeta beta.
  destruct (val_eqb _ (VStr "event")) eqn:E1.
  - apply val_eqb_str_r in E1. destruct (event_validate payload) as [inner|e] eqn:Ev;
      [|by destruct e; intros [= <- <-]; repeat split; constructor].
    unfold try_M, mbind, M_bind, on_db, on_snd, on_fst. cbn [fst snd].
    destruct (persist_event publish now inner (d, r)) as [[d1 r1] x] eqn:Ep.
    apply persist_tables in Ep. intros Hout.
    assert (s' = (ag, ((d1, r1), (n, g)))) as ->.
    { revert Hout. destruct x as [u|e]; [|destruct e]; by intros [= <- _]. }
    unfold tables_of, registry_of. cbn [fst snd]. split; [done|]. split; [done|].
    destruct Ep as [->|[Hnone ->]]; by constructor.
  - destruct (val_eqb _ (VStr "command_ack")) eqn:E2.
    2:{ unfold mret, M_ret. destruct (val_eqb _ (VStr "bye")); intros [= <- <-]; repeat split; constructor. }
    apply val_eqb_str_r in E2. destruct (ack_validate payload) as [ack|e] eqn:Ev;
      [|by destruct e; intros [= <- <-]; repeat split; constructor].
    change (if String.eqb (ack_status ack) "applied" then _ else _)
      with (mark (ack_status ack) (ack_id ack) now).
    unfold mbind, M_bind, on_db, on_snd, on_fst. cbn [fst snd].
    pose proof (mark_cases (ack_status ack) (ack_id ack) now d) as L.
    destruct (mark _ _ now d) as [d1 x]. cbn [fst] in L. intros Hout.
    assert (s' = (ag, ((d1, r), (n, g)))) as ->.
    { revert Hout. destruct x as [u|e]; by intros [= <- _]. }
    unfold tables_of, registry_of. cbn [fst snd]. split; [done|]. split; [done|].
    destruct L as [->|(a&Ha&Hs&->)]; by econstructor.
Qed.

(** The two ends of a first frame: the connection is over, and a claimed agent
    lost its registration; or the connection is registered for the host. *)
Definition turned_away (nonce raw : string) (s s' : local) (ph : phase) : Prop :=
  ph = Closed /\ s'.1 = None
  /\ ((registry_of s' = registry_of s /\ forall agent, ~ claims nonce raw agent)
      \/ exists agent, claims nonce raw agent
           /\ registry_of s' = unregister agent (registry_of s)).

Definition admitted (c : C) (clock : Z) (nonce raw : string) (s s' : local) (ph : phase) : Prop :=
  exists hello h, ph = Drain clock 0 /\ genuine nonce raw (tables_of s) hello h
    /\ s'.1 = Some (hello_agent_id hello)
    /\ registry_of s' = register (h_id h) c (registry_of s).

(** [finally] after a frame that was not admitted. *)
Lemma outcome_turned_away c clock nonce raw s s1 s2 out :
  s.1 = None -> hello_outcome c clock nonce raw s s1 out ->
  (forall p, out = Ok p -> p = Closed) -> same s1 s2 -> s2.1 = s1.1 ->
  let '(s', ph) := finally_ s2 in
  tables_of s' = tables_of s /\ stream_of s' = stream_of s /\ turned_away nonce raw s s' ph.
Proof.
  intros Hs Hout Hcl (T2&R2&G2) A2. pose proof (finally_same s2) as Hf.
  destruct (finally_ s2) as [s' ph]. destruct Hf as (->&Ha&Ht&Hr&Hg).
  destruct Hout as [((T1&R1&G1)&_&Hag)|(hello&h&->&_)]; [|by specialize (Hcl _ eq_refl)].
  split; [congruence|]. split; [congruence|]. split; [done|]. split; [done|].
  rewrite Hg, A2. destruct Hag as [[-> Hno]|(a&->&Hc)].
  - left. rewrite Hs. split; [congruence|done].
  - right. exists a. split; [done|congruence].
Qed.

(** The end of a step of an authenticated connection. *)
Definition conclude (c : C) (s1 : local) (out : res phase) : local * phase :=
  match out with
  | Ok Closed => finally_ s1
  | Ok ph => (s1, ph)
  | Raise WebSocketDisconnect => finally_ s1
  | Raise _ => finally_ (on_net (close c 1011) s1).1
  end.

Lemma conclude_spec c s1 out agent :
  s1.1 = Some agent ->
  let '(s', ph) := conclude c s1 out in
  tables_of s' = tables_of s1 /\ stream_of s' = stream_of s1
  /\ (out = Ok ph /\ s' = s1 /\ ph <> Closed
      \/ ph = Closed /\ s'.1 = None /\ registry_of s' = unregister agent (registry_of s1)
         /\ forall p, out = Ok p -> p = Closed).
Proof.
  intros Ha.
  assert (Hf : forall s2, same s1 s2 -> s2.1 = s1.1 -> (forall p, out = Ok p -> p = Closed) ->
    let '(s', ph) := finally_ s2 in
    tables_of s' = tables_of s1 /\ stream_of s' = stream_of s1
    /\ (out = Ok ph /\ s' = s1 /\ ph <> Closed
        \/ ph = Closed /\ s'.1 = None /\ registry_of s' = unregister agent (registry_of s1)
           /\ forall p, out = Ok p -> p = Closed)).
  { intros s2 (T2&R2&G2) A2 Hp. pose proof (finally_same s2) as Hf.
    destruct (finally_ s2) as [s' ph]. destruct Hf as (->&Hn&Ht&Hr&Hg). rewrite A2, Ha in Hg.
    split; [congruence|]. split; [congruence|]. right. repeat split; [done|congruence|done]. }
  pose proof (on_net_same (close c 1011) s1) as [Hs2 Ha2].
  unfold conclude. destruct out as [[| |]|e]; [by repeat split; left|by repeat split; left| |].
  - apply Hf; [done|done|]. by intros p [= <-].
  - destruct e; (apply Hf; [first [exact Hs2|done]|first [exact Ha2|done]|discriminate]).
Qed.

Lemma on_drain_spec c clock now ws k raw s s1 out :
  let fresh := MINUTE <=? clock - ws in
  let start := if fresh then clock else ws in
  let count := if fresh then 1 else k + 1 in
  let over := (ws_max_msg_bytes settings <? slen raw) || (ws_max_msg_per_min settings <? count) in
  on_drain c clock now ws k raw s = (s1, out) ->
  s1.1 = s.1 /\ registry_of s1 = registry_of s
  /\ (forall p, out = Ok p -> p = Closed \/ p = Drain start count /\ over = false)
  /\ (over = true -> same s s1 /\ forall p, out = Ok p -> p = Closed)
  /\ (tables_of s1 = tables_of s
      \/ exists payload, safe_loads loads raw = Ok (VDict payload)
           /\ frame_effect now payload (tables_of s) (tables_of s1)).
Proof.
  intros fresh start count over. unfold on_drain. fold fresh. cbv zeta. fold start count.
  destruct (ws_max_msg_bytes settings <? slen raw) eqn:E1.
  { intros (Hs&Ha&Hp)%close_stopped. pose proof Hs as (?&?&?). subst over. auto 10. }
  destruct (ws_max_msg_per_min settings <? count) eqn:E2.
  { intros (Hs&Ha&Hp)%close_stopped. pose proof Hs as (?&?&?). subst over. auto 10. }
  cbn [orb] in over. unfold lift_res, parse_frame, mbind at 1, M_bind at 1.
  assert (Hstay : forall o, (forall p, o = Ok p -> p = Closed \/ p = Drain start count) ->
    (s, o) = (s1, out) -> s1.1 = s.1 /\ registry_of s1 = registry_of s
    /\ (forall p, out = Ok p -> p = Closed \/ p = Drain start count /\ over = false)
    /\ (over = true -> same s s1 /\ forall p, out = Ok p -> p = Closed)
    /\ (tables_of s1 = tables_of s
        \/ exists payload, safe_loads loads raw = Ok (VDict payload)
             /\ frame_effect now payload (tables_of s) (tables_of s1))).
  { intros o Ho [= <- <-]. repeat split; auto; try discriminate.
    intros p Hp. destruct (Ho p Hp) as [->| ->]; auto. }
  destruct (safe_loads loads raw) as [v|e] eqn:Ep.
  2:{ destruct e; apply Hstay; try discriminate. intros p [= <-]. by right. }
  unfold mbind, M_bind. destruct v as [| | | | | |payload]; try (apply Hstay; discriminate).
  cbn [as_mapping]. pose proof (on_frame_effect now payload s) as Heff.
  destruct (on_frame now payload s) as [s2 x]. specialize (Heff s2 x eq_refl) as (Ha&Hg&He).
  destruct x as [more|e]; intros [= <- <-].
  - repeat split; auto; try discriminate; [|right; eauto].
    intros p [= <-]. destruct more; auto.
  - repeat split; auto; try discriminate. right. eauto.
Qed.

(** An acknowledgement the database answers. *)
Lemma on_drain_ack c clock now ws k raw payload ack a b ag d r ng s1 out :
  let fresh := MINUTE <=? clock - ws in
  let start := if fresh then clock else ws in
  let count := if fresh then 1 else k + 1 in
  (ws_max_msg_bytes settings <? slen raw) || (ws_max_msg_per_min settings <? count) = false ->
  safe_loads loads raw = Ok (VDict payload) ->
  get "type" payload = VStr "command_ack" -> ack_validate payload = Ok ack ->
  db_actions (tables d) !! ack_id ack = Some a -> ac_status a = "dispatched" ->
  (mark (ack_status ack) (ack_id ack) now d).2 = Ok b ->
  on_drain c clock now ws k raw (ag, ((d, r), ng)) = (s1, out) ->
  out = Ok (Drain start count)
  /\ db_actions (tables_of s1) !! ack_id ack
     = Some (as_acked (if String.eqb (ack_status ack) "applied" then "applied" else "failed") now a).
Proof.
  intros fresh start count Hover Hp Ht Hv Ha Hs Hm. apply orb_false_iff in Hover as [H1 H2].
  unfold on_drain, parse_frame, lift_res. fold fresh. cbv zeta. fold start count. rewrite H1, H2, Hp.
  unfold mbind, M_bind. cbn [as_mapping]. unfold on_frame. cbv zeta beta. rewrite Ht, Hv.
  change (val_eqb (VStr "command_ack") (VStr "event")) with false.
  change (val_eqb (VStr "command_ack") (VStr "command_ack")) with true. cbv iota.
  change (if String.eqb (ack_status ack) "applied"
          then mark_applied (ack_id ack) now else mark_failed (ack_id ack) now)
    with (mark (ack_status ack) (ack_id ack) now).
  pose proof (mark_settles _ _ now d a b Ha Hs Hm) as Hset.
  unfold mbind, M_bind, on_db, on_snd, on_fst. cbn [fst snd].
  destruct (mark _ _ now d) as [d1 x]. cbn [fst snd] in *. subst x. intros [= <- <-].
  split; [done|]. unfold tables_of. cbn [fst snd]. rewrite Hset. apply lookup_insert_eq.
Qed.

(** ** Properties *)

(** C16. The first frame of a connection, whatever it holds: it never touches
    the tables or the event stream, and the connection reaches the drain loop
    only for a HELLO that echoes the nonce and carries the HMAC of the nonce
    under the stored non-empty secret of its host, in which case the
    connection is registered for the host (and with database and network up
    every such HELLO gets there).  Otherwise the connection is over, and
    the registry is as before unless the frame was a well-formed HELLO for
    this nonce: then the claimed agent, authenticated or not, is
    unregistered. *)
Theorem hello_gate (c : C) (clock now : Z) (nonce raw : string) (w : world) :
  let s : local := (None, w) in
  let '(s', ph) := on_text c clock now (AwaitHello nonce) (Ok raw) s in
  tables_of s' = tables_of s /\ stream_of s' = stream_of s
  /\ (turned_away nonce raw s s' ph \/ admitted c clock nonce raw s s' ph)
  /\ forall hello h, genuine nonce raw (tables_of s) hello h ->
       (transaction (upsert_on_hello (hello_agent_id hello)) w.1.1).2 = Ok h ->
       (forall text, (send c text w.2.1).2 = Ok tt) -> ph = Drain clock 0.
Proof.
  cbn zeta. destruct w as [[d r] [n g]]. set (s := (None, _) : local).
  unfold on_text, body, lift_res, mbind, M_bind.
  pose proof (on_hello_outcome c clock nonce raw s) as Hout.
  pose proof (fun hello h => genuine_accepted c clock nonce raw hello h None d r n g) as Hgen.
  fold s in Hgen. change (tables d) with (tables_of s) in Hgen.
  destruct (on_hello c clock nonce raw s) as [s1 out]. specialize (Hout s1 out eq_refl).
  cbn [fst snd] in *.
  assert (Hend : forall s2, same s1 s2 -> s2.1 = s1.1 -> (forall p, out = Ok p -> p = Closed) ->
    let '(s', ph) := finally_ s2 in
    tables_of s' = tables_of s /\ stream_of s' = stream_of s
    /\ (turned_away nonce raw s s' ph \/ admitted c clock nonce raw s s' ph)
    /\ forall hello h, genuine nonce raw (tables_of s) hello h ->
         (transaction (upsert_on_hello (hello_agent_id hello)) d).2 = Ok h ->
         (forall text, (send c text n).2 = Ok tt) -> ph = Drain clock 0).
  { intros s2 Hs Ha Hcl.
    pose proof (outcome_turned_away c clock nonce raw s s1 s2 out eq_refl Hout Hcl Hs Ha) as Hf.
    destruct (finally_ s2) as [s' ph]. destruct Hf as (?&?&?). repeat split; auto.
    intros hello h Hg Hr Hn. by specialize (Hcl _ (Hgen hello h Hg Hr Hn)). }
  destruct out as [[|ws k|]|e].
  - destruct Hout as [(_&Hp&_)|(hello&h&[=]&_)]. discriminate (Hp _ eq_refl).
  - destruct Hout as [(_&Hp&_)|(hello&h&Ho&Hge&Ha&Ht&Hr&Hg)]; [discriminate (Hp _ eq_refl)|].
    injection Ho as -> ->. repeat split; auto. right. by exists hello, h.
  - apply Hend; [done|done|]. by intros p [= <-].
  - pose proof (on_net_same (close c 1011) s1) as [Hs2 Ha2].
    destruct e; (apply Hend; [first [exact Hs2|done]|first [exact Ha2|done]|discriminate]).
Qed.

(** A frame of an authenticated connection: the window counter starts over
    after a minute, a frame over the size or the rate cap ends the connection
    without any effect, and any other frame keeps the connection (registration
    included) or ends it and unregisters its agent.  The hosts table never
    changes; the tables change at most by the row of a new event or by
    settling a dispatched action, and an acknowledgement within the caps that
    the database answers does settle the action it names, whichever host and
    connection it belongs to. *)
Theorem drain_frame_spec (c : C) (clock now window_start k : Z) (raw agent : string) (w : world) :
  let s : local := (Some agent, w) in
  let fresh := MINUTE <=? clock - window_start in
  let start := if fresh then clock else window_start in
  let count := if fresh then 1 else k + 1 in
  let over := (ws_max_msg_bytes settings <? slen raw) || (ws_max_msg_per_min settings <? count) in
  let '(s', ph) := on_text c clock now (Drain window_start k) (Ok raw) s in
  (ph = Closed /\ s'.1 = None /\ registry_of s' = unregister agent (registry_of s)
   \/ ph = Drain start count /\ s'.1 = Some agent /\ registry_of s' = registry_of s /\ over = false)
  /\ (over = true -> ph = Closed /\ tables_of s' = tables_of s /\ stream_of s' = stream_of s)
  /\ db_hosts (tables_of s') = db_hosts (tables_of s)
  /\ (tables_of s' = tables_of s
      \/ exists payload, safe_loads loads raw = Ok (VDict payload)
           /\ frame_effect now payload (tables_of s) (tables_of s'))
  /\ forall payload ack a b,
       over = false -> safe_loads loads raw = Ok (VDict payload) ->
       get "type" payload = VStr "command_ack" -> ack_validate payload = Ok ack ->
       db_actions (tables_of s) !! ack_id ack = Some a -> ac_status a = "dispatched" ->
       (mark (ack_status ack) (ack_id ack) now w.1.1).2 = Ok b ->
       ph = Drain start count
       /\ db_actions (tables_of s') !! ack_id ack
          = Some (as_acked (if String.eqb (ack_status ack) "applied" then "applied" else "failed") now a).
Proof.
  cbv zeta. destruct w as [[d r] ng]. set (s := (Some agent, _) : local).
  change (on_text c clock now (Drain window_start k) (Ok raw) s)
    with (let '(s1, out) := on_drain c clock now window_start k raw s in conclude c s1 out).
  pose proof (on_drain_spec c clock now window_start k raw s) as Hd.
  pose proof (fun p ack a b s1 out =>
    on_drain_ack c clock now window_start k raw p ack a b (Some agent) d r ng s1 out) as Hack.
  destruct (on_drain c clock now window_start k raw s) as [s1 out] eqn:E.
  specialize (Hd s1 out eq_refl) as (Ha&Hg&Hp&Hover&Heff). cbv zeta in *.
  pose proof (conclude_spec c s1 out agent) as Hc. specialize (Hc Ha).
  destruct (conclude c s1 out) as [s' ph]. destruct Hc as (Ht&Hr&Hc). rewrite Ht, Hr. split.
  { destruct Hc as [(->&->&Hne)|(->&Hn&Hreg&_)]; [right|left; rewrite Hreg, Hg; done].
    destruct (Hp ph eq_refl) as [->|[-> ?]]; done. }
  split.
  { intros Ho. destruct (Hover Ho) as [(T&S&_) Hcl]. split; [|by rewrite T, S].
    destruct Hc as [(->&_&_)|(->&_)]; [by apply Hcl|done]. }
  split.
  { destruct Heff as [->|(p&_&He%effect_hosts)]; done. }
  split; [exact Heff|].
  intros payload ack a b Ho Hl Hty Hv Hrow Hst Hm.
  destruct (Hack payload ack a b s1 out Ho Hl Hty Hv Hrow Hst Hm E) as [-> Hfin].
  split; [|exact Hfin].
  destruct Hc as [([= <-]&_&_)|(_&_&_&Hcl)]; [done|]. by specialize (Hcl _ eq_refl).
Qed.

End Handler.

(** ** Concrete runs *)

Definition ex_net : Type := list (string * string).
Definition ex_send (c text : string) : M ex_net unit := fun n => (n ++ [(c, text)], Ok tt).
Definition ex_close (c : string) (code : Z) : M ex_net unit := fun n => (n ++ [(c, str_int code)], Ok tt).

(** A decoder that knows two frames. *)
Definition ex_loads (frames : list val) (text : string) : res val :=
  match List.find (fun v => String.eqb (dumps v) text) frames with
  | Some v => Ok v
  | None => Raise JSONDecodeError
  end.

Definition ex_hello_validate (d : list (string * val)) : res HelloFrame :=
  match get "agent_id" d, get "version" d, get "nonce" d, get "sig" d with
  | VStr a, VStr v, VStr n, VStr s => Ok (mkHello a v n s)
  | _, _, _, _ => Raise ValidationError
  end.

Definition ex_ack_validate (d : list (string * val)) : res CommandAckFrame :=
  match get "id" d, get "status" d with
  | VStr i, VStr s => Ok (mkAck i s None)
  | _, _ => Raise ValidationError
  end.

Definition ex_hello (agent nonce sig : string) : val :=
  VDict [("type", VStr "hello"); ("agent_id", VStr agent); ("v", VInt 2); ("version", VStr "3.2");
         ("nonce", VStr nonce); ("sig", VStr sig)].

Definition ex_host : db := set_hosts (insert "h1" (mkHost "h1" 0 0 None (Some "web") (Some "s3cret") true [])) empty_db.

(** A HELLO signed with the secret registers [c2]; the same frame with another
    signature only takes [c1] out of the registry. *)
Lemma hello_gate_witness :
  let run sig :=
    on_text (D := db) (R := unit) ex_send ex_close (ex_loads [ex_hello "h1" "n" sig]) ex_hello_validate
      (fun _ => Raise ValidationError) ex_ack_validate (fun _ => mret tt) (mkWs 65536 100)
      "c2" 7 0 (AwaitHello "n") (Ok (dumps (ex_hello "h1" "n" sig)))
      (None, ((ex_host, tt), ([], {["h1" := "c1"]} : gmap string string))) in
  (run (_compute_sig "s3cret" "n")).2 = Drain 7 0
  /\ registry_of (run (_compute_sig "s3cret" "n")).1 !! "h1" = Some "c2"
  /\ (run "forged").2 = Closed
  /\ registry_of (run "forged").1 !! "h1" = None
  /\ tables_of (run "forged").1 = ex_host.
Proof.
  cbn zeta. split; [vm_compute; reflexivity|]. split; [vm_compute; reflexivity|].
  split; [vm_compute; reflexivity|]. split; [vm_compute; reflexivity|].
  pose proof (hello_gate (D := db) (R := unit) ex_send ex_close
    (ex_loads [ex_hello "h1" "n" "forged"]) ex_hello_validate
    (fun _ => Raise ValidationError) ex_ack_validate (fun _ => mret tt) (mkWs 65536 100)
    "c2" 7 0 "n" (dumps (ex_hello "h1" "n" "forged"))
    ((ex_host, tt), ([], {["h1" := "c1"]} : gmap string string))) as H.
  cbv zeta in H. destruct (on_text _ _ _ _ _ _ _ _ _ _ _ _ _ _). exact (proj1 H).
Defined.

Definition ex_ack : val := VDict [("type", VStr "command_ack"); ("id", VStr "a1"); ("status", VStr "applied")].

(** An action of host [h2] that was dispatched. *)
Definition ex_dispatched : db :=
  set_actions (insert "a1" (mkAction "a1" (Some "h2") None "block_ip" "203.0.113.7" (Some 60)
    "dispatched" (Some 5) None 1)) ex_host.

(** The agent of [h1] settles the action of [h2]. *)
Lemma drain_frame_spec_witness :
  let out :=
    on_text (D := db) (R := unit) ex_send ex_close (ex_loads [ex_ack]) ex_hello_validate
      (fun _ => Raise ValidationError) ex_ack_validate (fun _ => mret tt) (mkWs 65536 100)
      "c1" 8 9 (Drain 7 0) (Ok (dumps ex_ack))
      (Some "h1", ((ex_dispatched, tt), ([], {["h1" := "c1"]} : gmap string string))) in
  out.2 = Drain 7 1
  /\ option_map ac_status (db_actions (tables_of out.1) !! "a1") = Some "applied"
  /\ db_hosts (tables_of out.1) = db_hosts ex_dispatched.
Proof.
  cbn zeta. split; [vm_compute; reflexivity|]. split; [vm_compute; reflexivity|].
  pose proof (drain_frame_spec (D := db) (R := unit) ex_send ex_close
    (ex_loads [ex_ack]) ex_hello_validate
    (fun _ => Raise ValidationError) ex_ack_validate (fun _ => mret tt) (mkWs 65536 100)
    "c1" 8 9 7 0 (dumps ex_ack) "h1"
    ((ex_dispatched, tt), ([], {["h1" := "c1"]} : gmap string string))) as H.
  cbv zeta in H. destruct (on_text _ _ _ _ _ _ _ _ _ _ _ _ _ _). exact (proj1 (proj2 (proj2 H))).
Defined.
