(* ===== verification/Brand.v ===== *)
(** * Typosquat detection: [detection/brand_protection.py]

    [levenshtein] is the source's dynamic program, row by row, with its list
    indexing ([IndexError] when out of range); [edits] is what it computes, the
    number of single-character edits between two strings. *)

From S2P Require Import Prelude PyStr.
From Stdlib Require Import Ascii.

Definition chars (s : string) : list ascii := String.list_ascii_of_string s.

(** [l[i]] for a non-negative index. *)
Definition at_ (l : list Z) (i : nat) : res Z :=
  match l !! i with Some x => Ok x | None => Raise IndexError end.

Definition neq_cost (x y : ascii) : Z := if Ascii.eqb x y then 0 else 1.

(** The inner loop, from index [j] on. *)
Fixpoint inner (ca : ascii) (j : nat) (bs : list ascii) (prev_row curr_row : list Z)
  : res (list Z) :=
  match bs with
  | [] => Ok curr_row
  | cb :: bs' =>
      i ← at_ curr_row (j - 1);
      d ← at_ prev_row j;
      r ← at_ prev_row (j - 1);
      let insert_cost := i + 1 in
      let delete_cost := d + 1 in
      let replace_cost := r + neq_cost ca cb in
      inner ca (S j) bs' prev_row
        (curr_row ++ [Z.min (Z.min insert_cost delete_cost) replace_cost])
  end.

Fixpoint outer (i : Z) (a b : list ascii) (prev_row : list Z) : res (list Z) :=
  match a with
  | [] => Ok prev_row
  | ca :: a' => curr_row ← inner ca 1 b prev_row [i]; outer (i + 1) a' b curr_row
  end.

Definition levenshtein (a b : string) : res Z :=
  if String.eqb a b then Ok 0
  else if negb (nonempty a) then Ok (slen b)
  else if negb (nonempty b) then Ok (slen a)
  else
    row ← outer 1 (chars a) (chars b) (map Z.of_nat (seq 0 (S (length (chars b)))));
    match last row with Some x => Ok x | None => Raise IndexError end.

Definition DEFAULT_PROTECTED_BRANDS : list string := ["komatsu.co.id"; "microsoft.com"; "google.com"].

(** [env] is ZAQORIN_PROTECTED_BRANDS. *)
Definition protected_brands (env : option string) : list string :=
  match env with
  | None | Some "" => DEFAULT_PROTECTED_BRANDS
  | Some raw =>
      match map (fun part => lower (strip part))
              (List.filter (fun part => nonempty (strip part)) (split_char "," raw)) with
      | [] => DEFAULT_PROTECTED_BRANDS
      | parsed => parsed
      end
  end.

Record TyposquatMatch : Type := mkMatch {
  observed : string;
  brand : string;
  distance : Z;
  length_delta : Z;
  is_legitimate : bool
}.

Definition check_typosquat (obs br : string) (max_distance max_length_delta : Z)
  : res (option TyposquatMatch) :=
  let o := lower (strip obs) in
  let b := lower (strip br) in
  dist ← levenshtein o b;
  let delta := Z.abs (slen o - slen b) in
  Ok (if dist =? 0 then Some (mkMatch o b 0 delta true)
      else if (dist <=? max_distance) && (delta <=? max_length_delta)
      then Some (mkMatch o b dist delta false)
      else None).

Fixpoint first_match (obs : string) (brands : list string) (max_distance max_length_delta : Z)
  : res (option TyposquatMatch) :=
  match brands with
  | [] => Ok None
  | b :: r =>
      m ← check_typosquat obs b max_distance max_length_delta;
      match m with Some x => Ok (Some x) | None => first_match obs r max_distance max_length_delta end
  end.

(** [brands or protected_brands()]. *)
Definition first_typosquat (env : option string) (obs : string) (brands : option (list string))
    (max_distance max_length_delta : Z) : res (option TyposquatMatch) :=
  first_match obs match brands with None | Some [] => protected_brands env | Some l => l end
    max_distance max_length_delta.

(** ** Specification *)

(** [edits a b n]: [n] insertions, deletions and replacements turn [a] into [b]. *)
Inductive edits : list ascii -> list ascii -> Z -> Prop :=
| edits_nil : edits [] [] 0
| edits_keep c a b n : edits a b n -> edits (c :: a) (c :: b) n
| edits_replace c d a b n : edits a b n -> edits (c :: a) (d :: b) (n + 1)
| edits_insert d a b n : edits a b n -> edits a (d :: b) (n + 1)
| edits_delete c a b n : edits a b n -> edits (c :: a) b (n + 1).

Definition minimal_edits (a b : list ascii) (n : Z) : Prop :=
  edits a b n /\ forall m, edits a b m -> n <= m.

(** ** Lemmas *)

(** The recurrence, on reversed prefixes. *)
Fixpoint lev (a : list ascii) : list ascii -> Z :=
  match a with
  | [] => fun b => Z.of_nat (length b)
  | x :: a' =>
      fix go (b : list ascii) : Z :=
        match b with
        | [] => Z.of_nat (length a)
        | y :: b' => Z.min (Z.min (go b' + 1) (lev a' b + 1)) (lev a' b' + neq_cost x y)
        end
  end.

Lemma lev_nil_r a : lev a [] = Z.of_nat (length a).
Proof. by destruct a. Qed.

Lemma lev_cons x a y b :
  lev (x :: a) (y :: b)
  = Z.min (Z.min (lev (x :: a) b + 1) (lev a (y :: b) + 1)) (lev a b + neq_cost x y).
Proof. reflexivity. Qed.

Lemma edits_all_delete a : edits a [] (Z.of_nat (length a)).
Proof.
  induction a as [|c a IH]; [constructor|].
  replace (Z.of_nat (length (c :: a))) with (Z.of_nat (length a) + 1) by (cbn; lia).
  by constructor.
Qed.

Lemma edits_all_insert b : edits [] b (Z.of_nat (length b)).
Proof.
  induction b as [|c b IH]; [constructor|].
  replace (Z.of_nat (length (c :: b))) with (Z.of_nat (length b) + 1) by (cbn; lia).
  by constructor.
Qed.

Lemma edits_step x a y b n : edits a b n -> edits (x :: a) (y :: b) (n + neq_cost x y).
Proof.
  intros H. unfold neq_cost. destruct (Ascii.eqb_spec x y) as [->|].
  - rewrite Z.add_0_r. by constructor.
  - by constructor.
Qed.

Lemma lev_edits a : forall b, edits a b (lev a b).
Proof.
  induction a as [|x a IHa]; intros b; [apply edits_all_insert|].
  induction b as [|y b IHb]; [apply edits_all_delete|]. rewrite lev_cons.
  destruct (Z.min_spec (Z.min (lev (x :: a) b + 1) (lev a (y :: b) + 1)) (lev a b + neq_cost x y))
    as [[_ ->]|[_ ->]]; [|by apply edits_step].
  destruct (Z.min_spec (lev (x :: a) b + 1) (lev a (y :: b) + 1)) as [[_ ->]|[_ ->]]; by constructor.
Qed.

Lemma lev_least a b n : edits a b n -> lev a b <= n.
Proof.
  induction 1 as [|c a b n _ IH|c d a b n _ IH|d a b n _ IH|c a b n _ IH].
  - done.
  - rewrite lev_cons. unfold neq_cost. rewrite Ascii.eqb_refl. lia.
  - rewrite lev_cons. unfold neq_cost. destruct (Ascii.eqb c d); lia.
  - destruct a as [|x a]; [cbn in *; lia|]. rewrite lev_cons. lia.
  - destruct b as [|y b]; [rewrite lev_nil_r in *; cbn [length]; lia|]. rewrite lev_cons. lia.
Qed.

Lemma edits_app a b n c d m : edits a b n -> edits c d m -> edits (a ++ c) (b ++ d) (n + m).
Proof.
  intros H Hc. induction H as [|x a b n _ IH|x y a b n _ IH|y a b n _ IH|x a b n _ IH]; [done| | | |].
  - by constructor.
  - replace (n + 1 + m) with (n + m + 1) by lia. by constructor.
  - replace (n + 1 + m) with (n + m + 1) by lia. by apply edits_insert.
  - replace (n + 1 + m) with (n + m + 1) by lia. by apply edits_delete.
Qed.

Lemma edits_rev a b n : edits a b n -> edits (rev a) (rev b) n.
Proof.
  induction 1 as [|x a b n _ IH|x y a b n _ IH|y a b n _ IH|x a b n _ IH]; cbn [rev]; [constructor| | | |].
  - rewrite <- (Z.add_0_r n). apply edits_app; [done|]. repeat constructor.
  - apply edits_app; [done|]. apply (edits_replace x y [] [] 0), edits_nil.
  - rewrite <- (app_nil_r (rev a)). apply edits_app; [done|]. apply (edits_insert y [] [] 0), edits_nil.
  - rewrite <- (app_nil_r (rev b)). apply edits_app; [done|]. apply (edits_delete x [] [] 0), edits_nil.
Qed.

Lemma lev_minimal a b : minimal_edits a b (lev (rev a) (rev b)).
Proof.
  split.
  - pose proof (edits_rev _ _ _ (lev_edits (rev a) (rev b))) as H. by rewrite !rev_involutive in H.
  - intros m H. by apply lev_least, edits_rev.
Qed.

(** The distance of two prefixes, and a row of the table. *)
Definition dist_of (p q : list ascii) : Z := lev (rev p) (rev q).

Lemma dist_snoc p x q y :
  dist_of (p ++ [x]) (q ++ [y])
  = Z.min (Z.min (dist_of (p ++ [x]) q + 1) (dist_of p (q ++ [y]) + 1)) (dist_of p q + neq_cost x y).
Proof. unfold dist_of. rewrite !rev_unit. apply lev_cons. Qed.

Definition row (p b : list ascii) (n : nat) : list Z := map (fun k => dist_of p (take k b)) (seq 0 n).

Lemma row_lookup p b n k : (k < n)%nat -> row p b n !! k = Some (dist_of p (take k b)).
Proof.
  intros H. unfold row. change (map ?f ?l) with (f <$> l).
  rewrite list_lookup_fmap, lookup_seq_lt by done. done.
Qed.

Lemma row_snoc p b n : row p b (S n) = row p b n ++ [dist_of p (take n b)].
Proof. unfold row. by rewrite seq_S, map_app. Qed.

Lemma inner_row p x q : forall bs,
  inner x (S (length q)) bs (row p (q ++ bs) (S (length (q ++ bs))))
    (row (p ++ [x]) (q ++ bs) (S (length q)))
  = Ok (row (p ++ [x]) (q ++ bs) (S (length (q ++ bs)))).
Proof.
  intros bs. revert q. induction bs as [|y bs IH]; intros q; [by rewrite app_nil_r|].
  cbn [inner]. unfold at_. replace (S (length q) - 1)%nat with (length q) by lia.
  rewrite !row_lookup by (rewrite ?length_app; cbn; lia). unfold mbind, res_bind.
  specialize (IH (q ++ [y])). rewrite <- app_assoc in IH. cbn [app] in IH.
  rewrite length_app in IH. cbn [length] in IH. rewrite Nat.add_1_r in IH.
  rewrite <- IH. f_equal. rewrite (row_snoc _ _ (S (length q))). do 2 f_equal.
  assert (take (S (length q)) (q ++ y :: bs) = q ++ [y]) as ->.
  { rewrite (take_app_ge q) by lia. f_equal.
    by replace (S (length q) - length q)%nat with 1%nat by lia. }
  rewrite take_app_length. symmetry. apply dist_snoc.
Qed.

Lemma dist_nil_r p : dist_of p [] = Z.of_nat (length p).
Proof. unfold dist_of. cbn [rev]. by rewrite lev_nil_r, length_rev. Qed.

Lemma outer_row p a b :
  outer (Z.of_nat (S (length p))) a b (row p b (S (length b)))
  = Ok (row (p ++ a) b (S (length b))).
Proof.
  revert p. induction a as [|x a IH]; intros p; [by rewrite app_nil_r|]. cbn [outer].
  pose proof (inner_row p x [] b) as H. cbn [app length] in H.
  assert (row (p ++ [x]) b 1 = [Z.of_nat (S (length p))]) as Hrow.
  { unfold row. cbn. rewrite take_0, dist_nil_r, length_app. cbn. do 2 f_equal. lia. }
  rewrite Hrow in H. rewrite H. unfold mbind, res_bind.
  replace (Z.of_nat (S (length p)) + 1) with (Z.of_nat (S (length (p ++ [x]))))
    by (rewrite length_app; cbn; lia).
  rewrite IH. by rewrite <- app_assoc.
Qed.

Lemma slen_chars s : slen s = Z.of_nat (length (chars s)).
Proof. unfold slen, chars. induction s as [|c s IH]; cbn in *; lia. Qed.

Lemma chars_inj a b : chars a = chars b -> a = b.
Proof.
  intros H. apply (f_equal String.string_of_list_ascii) in H.
  by rewrite !String.string_of_list_ascii_of_string in H.
Qed.

Lemma edits_zero a b n : edits a b n -> 0 <= n /\ (n = 0 -> a = b).
Proof. induction 1; split; try lia; intros; subst; try f_equal; try naive_solver lia. Qed.

Lemma edits_refl a : edits a a 0.
Proof. induction a; by constructor. Qed.

Lemma edits_length a b n : edits a b n -> Z.abs (Z.of_nat (length a) - Z.of_nat (length b)) <= n.
Proof. induction 1; cbn [length]; lia. Qed.

Lemma minimal_refl a : minimal_edits a a 0.
Proof. split; [apply edits_refl|]. intros m H. by apply edits_zero in H as [? _]. Qed.

Lemma seq_row b n : (n <= length b)%nat -> map Z.of_nat (seq 0 (S n)) = row [] b (S n).
Proof.
  intros Hn. unfold row. apply map_ext_in. intros k Hk%in_seq. unfold dist_of. cbn [rev lev].
  rewrite length_rev, length_take. lia.
Qed.

Lemma levenshtein_minimal a b :
  exists n, levenshtein a b = Ok n /\ minimal_edits (chars a) (chars b) n.
Proof.
  unfold levenshtein. destruct (String.eqb_spec a b) as [->|_]; [eauto using minimal_refl|].
  destruct a as [|ca a]; cbn [nonempty negb].
  { exists (slen b). split; [done|]. rewrite slen_chars.
    pose proof (lev_minimal [] (chars b)) as H. cbn [rev lev] in H. by rewrite length_rev in H. }
  destruct b as [|cb b]; cbn [nonempty negb].
  { exists (slen (String ca a)). split; [done|]. rewrite slen_chars.
    pose proof (lev_minimal (chars (String ca a)) []) as H. cbn [rev] in H.
    by rewrite lev_nil_r, length_rev in H. }
  set (p := chars (String ca a)). set (q := chars (String cb b)).
  exists (dist_of p q). split; [|apply lev_minimal].
  rewrite (seq_row q) by lia. pose proof (outer_row [] p q) as H. cbn [length app] in H.
  change (Z.of_nat 1) with 1 in H. rewrite H. unfold mbind, res_bind.
  rewrite row_snoc, last_snoc. by rewrite firstn_all.
Qed.

(** ** Properties *)

(** C19. Typosquat comparison: the table of [levenshtein] never indexes out of
    range and its last entry is the least number of insertions, deletions and
    replacements between the two stripped, lower-cased names; that number is
    zero exactly for equal names, and at least the difference of their
    lengths.  [check_typosquat] reports a legitimate match at distance zero, a
    typosquat within both thresholds, and nothing otherwise; the length
    threshold rejects nothing when it is not below the distance threshold. *)
Theorem typosquat_spec (obs br : string) (max_distance max_length_delta : Z) :
  let o := lower (strip obs) in
  let b := lower (strip br) in
  let delta := Z.abs (slen o - slen b) in
  exists n, levenshtein o b = Ok n /\ minimal_edits (chars o) (chars b) n
    /\ (n = 0 <-> o = b) /\ delta <= n
    /\ check_typosquat obs br max_distance max_length_delta
       = Ok (if decide (o = b) then Some (mkMatch o b 0 delta true)
             else if (n <=? max_distance) && (delta <=? max_length_delta)
             then Some (mkMatch o b n delta false) else None)
    /\ (max_distance <= max_length_delta -> (n <=? max_distance) && (delta <=? max_length_delta)
                                            = (n <=? max_distance)).
Proof.
  cbv zeta. set (o := lower (strip obs)). set (b := lower (strip br)).
  destruct (levenshtein_minimal o b) as (n&Hn&Hm). exists n. split; [done|]. split; [done|].
  pose proof (proj1 Hm) as He. apply edits_length in He as Hlen. rewrite <- !slen_chars in Hlen.
  assert (Hz : n = 0 <-> o = b).
  { split.
    - intros ->. apply edits_zero in He as [_ H]. by apply chars_inj, H.
    - intros E. unfold levenshtein in Hn. rewrite E, String.eqb_refl in Hn. congruence. }
  split; [done|]. split; [done|]. split.
  - unfold check_typosquat, mbind, res_bind. fold o b. rewrite Hn.
    destruct (n =? 0) eqn:E0; bprop.
    + by rewrite decide_True by (by apply Hz).
    + by rewrite decide_False by (rewrite <- Hz; done).
  - intros Hle. destruct (n <=? max_distance) eqn:E; [|done]. bprop. cbn. apply Z.leb_le. lia.
Qed.

Example typosquat_forms :
  levenshtein "mlcrosoft.com" "microsoft.com" = Ok 1 /\ levenshtein "kitten" "sitting" = Ok 3
  /\ check_typosquat " Gogle.com" "google.com" 2 3 = Ok (Some (mkMatch "gogle.com" "google.com" 1 1 false)).
Proof. vm_compute. repeat split. Qed.

(** A brand listed after a brand it resembles is itself reported as a typosquat. *)
Example brand_reported :
  first_typosquat (Some "acme.com,acne.com") "acne.com" None 2 3
  = Ok (Some (mkMatch "acne.com" "acme.com" 1 0 false)).
Proof. vm_compute. reflexivity. Qed.
