(* ===== verification/RateLimit.v ===== *)
(** * [rate_limit.py]: the sliding-window limiter of the HTTP API

    [Bucket] is the deque of one caller, [limiter] the state of the middleware
    (its buckets and the counter that triggers pruning); [dispatch] is the
    middleware with [call_next] abstracted to the verdict [Forward].  The
    critical section runs under one lock, so concurrent requests are a
    sequence of [dispatch] steps.

    [time.monotonic()] is an integer number of nanoseconds here; rounding of
    Python's floats is not modelled. *)

From S2P Require Import Prelude PyStr.

Definition NS : Z := 1000000000.
Definition WINDOW_SEC : Z := 60 * NS.
Definition PRUNE_EVERY : Z := 256.

Record Request : Type := mkRequest {
  rq_path : string;
  rq_api_key : option string;  (* the X-API-Key header *)
  rq_client : option string    (* request.client.host *)
}.

Definition _EXCLUDED_PREFIXES : list string := ["/healthz"; "/readyz"; "/static/"].

Definition _is_excluded (path : string) : bool :=
  if str_in path ["/"; "/index.html"] then true
  else existsb (fun p => startswith p path) _EXCLUDED_PREFIXES.

Definition _bucket_key (request : Request) : string :=
  let presented := strip (match rq_api_key request with Some k => k | None => "" end) in
  if nonempty presented then "key:" +:+ presented
  else match rq_client request with
       | Some h => if nonempty h then "ip:" +:+ h else "anonymous"
       | None => "anonymous"
       end.

Record Bucket : Type := mkBucket { hits : list Z; window_sec : Z; limit : Z }.

(** [while hits and hits[0] < cutoff: hits.popleft()]. *)
Fixpoint popleft_while (cutoff : Z) (l : list Z) : list Z :=
  match l with
  | [] => []
  | h :: r => if h <? cutoff then popleft_while cutoff r else l
  end.

Definition set_hits (l : list Z) (b : Bucket) : Bucket := mkBucket l (window_sec b) (limit b).

Definition allow (now : Z) : M Bucket (bool * Z) := fun b =>
  let cutoff := now - window_sec b in
  let kept := popleft_while cutoff (hits b) in
  if limit b <=? Z.of_nat (length kept) then
    match kept with
    | [] => (set_hits kept b, Raise IndexError)
    | h :: _ => (set_hits kept b, Ok (false, Z.max 0 (h + window_sec b - now)))
    end
  else (set_hits (kept ++ [now]) b, Ok (true, 0)).

Record limiter : Type := mkLimiter {
  _buckets : gmap string Bucket;
  _accepted_since_prune : Z;
  _enabled : bool;
  _limit : Z
}.

Definition new_limiter (enabled : bool) (lim : Z) : limiter := mkLimiter ∅ 0 enabled lim.

Definition set_buckets (m : gmap string Bucket) (n : Z) (s : limiter) : limiter :=
  mkLimiter m n (_enabled s) (_limit s).

(** One bucket of [_prune]: [None] when it is dropped. *)
Definition prune_bucket (cutoff : Z) (b : Bucket) : option Bucket :=
  match popleft_while cutoff (hits b) with
  | [] => None
  | kept => Some (set_hits kept b)
  end.

Definition _prune (now : Z) (m : gmap string Bucket) : gmap string Bucket :=
  omap (prune_bucket (now - WINDOW_SEC)) m.

(** What the middleware does with a request: pass it on, or answer 429 with
    this [Retry-After]. *)
Inductive verdict : Type := Forward | TooMany (retry_seconds : Z).

Definition retry_seconds (retry_after : Z) : Z := Z.max 1 ((retry_after + 999000000) / NS).

Definition dispatch (now : Z) (request : Request) : M limiter verdict := fun s =>
  if negb (_enabled s) then (s, Ok Forward)
  else if _is_excluded (rq_path request) then (s, Ok Forward)
  else
    let key := _bucket_key request in
    let bucket := match _buckets s !! key with
                  | Some b => b
                  | None => mkBucket [] WINDOW_SEC (_limit s)
                  end in
    match allow now bucket with
    | (b, Raise e) => (set_buckets (<[key := b]> (_buckets s)) (_accepted_since_prune s) s, Raise e)
    | (b, Ok (allowed, retry_after)) =>
        let m := <[key := b]> (_buckets s) in
        let n := _accepted_since_prune s + 1 in
        let s' := if PRUNE_EVERY <=? n then set_buckets (_prune now m) 0 s
                  else set_buckets m n s in
        (s', Ok (if allowed : bool then Forward else TooMany (retry_seconds retry_after)))
    end.

(** The requests of a process in the order they take the lock. *)
Fixpoint run (trace : list (Z * Request)) (s : limiter) : list (res verdict) :=
  match trace with
  | [] => []
  | (now, req) :: rest => let '(s', v) := dispatch now req s in v :: run rest s'
  end.

(** ** Specification: a log of admitted requests

    The log never forgets; a request is admitted when fewer than the limit of
    the caller's admitted requests are at most one window old. *)

Abbreviation log := (list (string * Z)).

Definition times (key : string) (l : log) : list Z := map snd (filter (fun e => e.1 = key) l).

Definition since (t : Z) (l : list Z) : list Z := filter (fun x => t <= x) l.

Definition spec_step (enabled : bool) (lim now : Z) (req : Request) (l : log) : log * verdict :=
  if negb enabled || _is_excluded (rq_path req) then (l, Forward)
  else
    let recent := since (now - WINDOW_SEC) (times (_bucket_key req) l) in
    match recent with
    | h :: _ =>
        if lim <=? Z.of_nat (length recent) then (l, TooMany (retry_seconds (h + WINDOW_SEC - now)))
        else (l ++ [(_bucket_key req, now)], Forward)
    | [] => (l ++ [(_bucket_key req, now)], Forward)
    end.

Fixpoint spec_run (enabled : bool) (lim : Z) (trace : list (Z * Request)) (l : log)
  : log * list verdict :=
  match trace with
  | [] => (l, [])
  | (now, req) :: rest =>
      let '(l1, v) := spec_step enabled lim now req l in
      let '(l2, vs) := spec_run enabled lim rest l1 in (l2, v :: vs)
  end.

(** Times never decrease. *)
Fixpoint monotone (last : Z) (trace : list (Z * Request)) : bool :=
  match trace with
  | [] => true
  | (now, _) :: rest => (last <=? now) && monotone now rest
  end.

(** ** Lemmas *)

Lemma since_cons t x l : since t (x :: l) = if decide (t <= x) then x :: since t l else since t l.
Proof. unfold since. apply filter_cons. Qed.

Lemma since_app t l l' : since t (l ++ l') = since t l ++ since t l'.
Proof. apply filter_app. Qed.

Lemma since_all t l : (forall x, x ∈ l -> t <= x) -> since t l = l.
Proof.
  induction l as [|x l IH]; intros H; [done|].
  rewrite since_cons, decide_True by (apply H; set_solver). f_equal. apply IH. set_solver.
Qed.

Lemma since_since c c' l : c <= c' -> since c' (since c l) = since c' l.
Proof.
  intros Hc. induction l as [|x l IH]; [done|]. rewrite !since_cons.
  destruct (decide (c <= x)); [rewrite since_cons, IH; done|].
  rewrite decide_False by lia. done.
Qed.

Lemma sorted_ge (x : Z) l y : StronglySorted Z.le (x :: l) -> y ∈ x :: l -> x <= y.
Proof.
  intros Hs Hy. inversion Hs as [|? ? _ Hall]; subst. apply elem_of_cons in Hy as [->|Hy]; [lia|].
  rewrite Forall_forall in Hall. by apply Hall.
Qed.

Lemma popleft_since c l : StronglySorted Z.le l -> popleft_while c l = since c l.
Proof.
  induction l as [|x l IH]; intros Hs; [done|]. cbn [popleft_while].
  destruct (x <? c) eqn:Hx; bprop.
  - rewrite since_cons, decide_False by lia. apply IH. by inversion Hs.
  - rewrite since_all; [done|]. intros y Hy. pose proof (sorted_ge x l y Hs Hy). lia.
Qed.

Lemma sorted_since c l : StronglySorted Z.le l -> StronglySorted Z.le (since c l).
Proof.
  induction 1 as [|x l Hs IH Hall]; [constructor|]. rewrite since_cons.
  destruct (decide (c <= x)); [|done]. constructor; [done|].
  rewrite Forall_forall in *. intros y Hy. apply Hall. unfold since in Hy.
  by apply list_elem_of_filter in Hy as [_ Hy].
Qed.

Lemma sorted_snoc l now :
  StronglySorted Z.le l -> (forall x, x ∈ l -> x <= now) -> StronglySorted Z.le (l ++ [now]).
Proof.
  induction 1 as [|x l Hs IH Hall]; intros Hle; [repeat constructor|]. cbn. constructor.
  - apply IH. set_solver.
  - rewrite Forall_app. split; [done|]. repeat constructor. apply Hle. set_solver.
Qed.

Lemma times_snoc key k now l :
  times key (l ++ [(k, now)]) = if decide (k = key) then times key l ++ [now] else times key l.
Proof.
  unfold times. rewrite filter_app, map_app, filter_cons. cbn [fst].
  destruct (decide (k = key)); [done|]. cbn. by rewrite app_nil_r.
Qed.

(** The hits the limiter holds for a key; none without a bucket. *)
Definition hits_of (s : limiter) (key : string) : list Z :=
  match _buckets s !! key with Some b => hits b | None => [] end.

(** The buckets hold, for some cutoff that has left the window, the admitted
    requests of the log from that cutoff on. *)
Definition agrees (enabled : bool) (lim last : Z) (s : limiter) (l : log) : Prop :=
  _enabled s = enabled /\ _limit s = lim
  /\ (forall key b, _buckets s !! key = Some b -> window_sec b = WINDOW_SEC /\ limit b = lim)
  /\ (forall key, StronglySorted Z.le (times key l) /\ forall x, x ∈ times key l -> x <= last)
  /\ forall key, exists c, c <= last - WINDOW_SEC /\ hits_of s key = since c (times key l).

Lemma agrees_later enabled lim last now s l :
  last <= now -> agrees enabled lim last s l -> agrees enabled lim now s l.
Proof.
  intros Hle (He&Hl&Hb&Hs&Hh). repeat split; try done.
  - naive_solver.
  - naive_solver.
  - apply Hs.
  - intros x Hx. apply Hs in Hx. lia.
  - intros key. destruct (Hh key) as (c&Hc&E). exists c. split; [lia|done].
Qed.

(** What pruning leaves of a bucket map. *)
Lemma prune_hits now m key (lim : Z) s n :
  let after := set_buckets (_prune now m) n s in
  hits_of after key = popleft_while (now - WINDOW_SEC) (hits_of (set_buckets m n s) key).
Proof.
  unfold hits_of. cbn. unfold _prune. rewrite lookup_omap.
  destruct (m !! key) as [b|]; cbn; [|done]. unfold prune_bucket.
  destruct (popleft_while _ _) eqn:E; cbn; congruence.
Qed.

Lemma agrees_prune enabled lim now s m n l :
  agrees enabled lim now (set_buckets m n s) l ->
  agrees enabled lim now (set_buckets (_prune now m) 0 s) l.
Proof.
  intros (He&Hl&Hb&Hs&Hh). split; [done|]. split; [done|]. split; [|split].
  - intros key b. cbn. unfold _prune. rewrite lookup_omap. cbn in Hb.
    destruct (m !! key) as [b0|] eqn:E; [|done]. cbn. unfold prune_bucket.
    destruct (popleft_while _ _); [done|]. intros [= <-]. cbn. by apply (Hb key).
  - done.
  - intros key. destruct (Hh key) as (c&Hc&E). exists (now - WINDOW_SEC). split; [lia|].
    rewrite (prune_hits now m key lim s 0).
    change (hits_of (set_buckets m 0 s) key) with (hits_of (set_buckets m n s) key).
    rewrite E, popleft_since by (apply sorted_since, Hs). by rewrite since_since by lia.
Qed.

(** Replacing the bucket of one key. *)
Lemma agrees_insert enabled lim now s l l' key0 kept n :
  agrees enabled lim now s l ->
  (forall key, key <> key0 -> times key l' = times key l) ->
  StronglySorted Z.le (times key0 l') -> (forall x, x ∈ times key0 l' -> x <= now) ->
  kept = since (now - WINDOW_SEC) (times key0 l') ->
  agrees enabled lim now
    (set_buckets (<[key0 := mkBucket kept WINDOW_SEC lim]> (_buckets s)) n s) l'.
Proof.
  intros (He&Hl&Hb&Hs&Hh) Hother Hs0 Hx0 ->. split; [done|]. split; [done|]. split; [|split].
  - intros key b. cbn. destruct (decide (key = key0)) as [->|Hne].
    + rewrite lookup_insert_eq. by intros [= <-].
    + rewrite lookup_insert_ne by done. apply Hb.
  - intros key. destruct (decide (key = key0)) as [->|Hne]; [done|]. rewrite Hother by done. apply Hs.
  - intros key. unfold hits_of. cbn. destruct (decide (key = key0)) as [->|Hne].
    + rewrite lookup_insert_eq. cbn. eexists. split; [|reflexivity]. lia.
    + rewrite lookup_insert_ne, Hother by done. apply Hh.
Qed.

(** A decision of the limiter on one bucket that agrees with the log. *)
Lemma allow_spec now b l c :
  window_sec b = WINDOW_SEC -> 1 <= limit b -> StronglySorted Z.le l -> c <= now - WINDOW_SEC ->
  hits b = since c l ->
  allow now b =
    match since (now - WINDOW_SEC) l with
    | h :: r =>
        if limit b <=? Z.of_nat (length (h :: r))
        then (mkBucket (h :: r) WINDOW_SEC (limit b), Ok (false, h + WINDOW_SEC - now))
        else (mkBucket ((h :: r) ++ [now]) WINDOW_SEC (limit b), Ok (true, 0))
    | [] => (mkBucket [now] WINDOW_SEC (limit b), Ok (true, 0))
    end.
Proof.
  intros Hw Hlim Hs Hc Hb. unfold allow. rewrite Hw, Hb.
  rewrite popleft_since by (by apply sorted_since). rewrite since_since by done.
  unfold set_hits. rewrite Hw. destruct (since (now - WINDOW_SEC) l) as [|h r] eqn:E.
  - destruct (limit b <=? _) eqn:Hc1; [cbn in Hc1; bprop; lia|done].
  - destruct (limit b <=? _); [|done]. rewrite Z.max_r; [done|].
    assert (Hin : h ∈ since (now - WINDOW_SEC) l) by (rewrite E; set_solver).
    unfold since in Hin. apply list_elem_of_filter in Hin as [Hin _]. lia.
Qed.

(** The state after a decision, pruned or not. *)
Lemma agrees_after_prune enabled lim now s l m :
  (forall n, agrees enabled lim now (set_buckets m n s) l) ->
  agrees enabled lim now
    (if PRUNE_EVERY <=? _accepted_since_prune s + 1 then set_buckets (_prune now m) 0 s
     else set_buckets m (_accepted_since_prune s + 1) s) l.
Proof. intros H. destruct (_ <=? _); [apply (agrees_prune _ _ _ _ _ 0)|]; apply H. Qed.

Lemma dispatch_step enabled lim now req s l :
  1 <= lim -> agrees enabled lim now s l ->
  let '(s', v) := dispatch now req s in
  let '(l', v') := spec_step enabled lim now req l in
  v = Ok v' /\ agrees enabled lim now s' l'.
Proof.
  intros Hlim Hag. pose proof Hag as (He&Hl&Hb&Hs&Hh). unfold dispatch, spec_step. rewrite He.
  destruct enabled; cbn [negb orb]; [|done].
  destruct (_is_excluded _); [done|]. set (key := _bucket_key req).
  destruct (Hh key) as (c&Hc&Hhits). destruct (Hs key) as [Hsk Hxk].
  set (b := match _buckets s !! key with Some b => b | None => mkBucket [] WINDOW_SEC (_limit s) end).
  assert (window_sec b = WINDOW_SEC /\ limit b = lim /\ hits b = since c (times key l))
    as (Hw&Hlb&Hbh).
  { rewrite <- Hhits. unfold b, hits_of. destruct (_buckets s !! key) as [b0|] eqn:E; [|done].
    destruct (Hb key b0 E) as [? ?]. done. }
  rewrite (allow_spec now b (times key l) c) by (try done; lia). rewrite Hlb.
  assert (Hrej : forall kept n, kept = since (now - WINDOW_SEC) (times key l) ->
    agrees true lim now (set_buckets (<[key := mkBucket kept WINDOW_SEC lim]> (_buckets s)) n s) l).
  { intros kept n Hk. apply (agrees_insert true lim now s l l key); done. }
  assert (Hacc : forall kept n, kept = since (now - WINDOW_SEC) (times key l) ++ [now] ->
    agrees true lim now (set_buckets (<[key := mkBucket kept WINDOW_SEC lim]> (_buckets s)) n s)
      (l ++ [(key, now)])).
  { intros kept n ->. apply (agrees_insert true lim now s l); try done.
    - intros k Hk. by rewrite times_snoc, decide_False by done.
    - rewrite times_snoc, decide_True by done. by apply sorted_snoc.
    - rewrite times_snoc, decide_True by done. set_solver.
    - rewrite times_snoc, decide_True, since_app by done. f_equal.
      rewrite since_cons, decide_True by (unfold WINDOW_SEC, NS; lia). done. }
  destruct (since (now - WINDOW_SEC) (times key l)) as [|h r] eqn:E.
  - split; [done|]. apply agrees_after_prune. intros n. by apply Hacc.
  - destruct (lim <=? _); (split; [done|]); apply agrees_after_prune; intros n;
      [by apply Hrej | by apply Hacc].
Qed.

Lemma run_refines enabled lim trace : forall last s l,
  1 <= lim -> monotone last trace = true -> agrees enabled lim last s l ->
  run trace s = map Ok (spec_run enabled lim trace l).2.
Proof.
  induction trace as [|[now req] rest IH]; intros last s l Hlim Hm Hag; [done|].
  cbn [monotone] in Hm. bprop. apply (agrees_later _ _ last now) in Hag; [|done].
  pose proof (dispatch_step enabled lim now req s l Hlim Hag) as Hstep. cbn [run spec_run].
  destruct (dispatch now req s) as [s' v], (spec_step enabled lim now req l) as [l1 v1].
  destruct Hstep as [-> Hag']. rewrite (IH now s' l1) by done.
  by destruct (spec_run enabled lim rest l1).
Qed.

Lemma agrees_new enabled lim last : agrees enabled lim last (new_limiter enabled lim) [].
Proof.
  repeat split; try done.
  - constructor.
  - intros x Hx. set_solver.
  - intros key. exists (last - WINDOW_SEC). split; [lia|done].
Qed.

Definition in_window (t : Z) (l : list Z) : list Z := filter (fun x => t <= x <= t + WINDOW_SEC) l.

Definition bounded (lim last : Z) (l : log) : Prop := forall key,
  (forall x, x ∈ times key l -> x <= last) /\ forall t, Z.of_nat (length (in_window t (times key l))) <= lim.

Lemma admitted_since t c l :
  c <= t -> (length (in_window t l) <= length (since c l))%nat.
Proof.
  intros Hc. unfold in_window, since. induction l as [|x l IH]; [done|]. rewrite !filter_cons.
  destruct (decide (t <= x <= t + WINDOW_SEC)), (decide (c <= x)); cbn; lia.
Qed.

Lemma spec_step_bounded enabled lim now req l :
  1 <= lim -> bounded lim now l -> bounded lim now (spec_step enabled lim now req l).1.
Proof.
  intros Hlim Hb. unfold spec_step. destruct (_ || _); [done|]. set (key := _bucket_key req).
  assert (Hadd : Z.of_nat (length (since (now - WINDOW_SEC) (times key l))) < lim ->
    bounded lim now (l ++ [(key, now)])).
  { intros Hlt k. rewrite times_snoc. destruct (decide (key = k)) as [<-|]; [|apply Hb].
    destruct (Hb key) as [Hx Hn]. split; [set_solver|]. intros t. specialize (Hn t).
    unfold in_window in *. rewrite filter_app, length_app, filter_cons.
    destruct (decide _) as [Ht|]; cbn; [|lia].
    pose proof (admitted_since t (now - WINDOW_SEC) (times key l)) as Hle. unfold in_window in Hle. lia. }
  destruct (since (now - WINDOW_SEC) (times key l)) as [|h r] eqn:E; [apply Hadd; cbn; lia|].
  destruct (lim <=? _) eqn:Hc; bprop; [done|]. by apply Hadd.
Qed.

Lemma spec_run_bounded enabled lim trace : forall last l,
  1 <= lim -> monotone last trace = true -> bounded lim last l ->
  exists last', bounded lim last' (spec_run enabled lim trace l).1.
Proof.
  induction trace as [|[now req] rest IH]; intros last l Hlim Hm Hb; [by exists last|].
  cbn [monotone] in Hm. bprop.
  assert (Hb' : bounded lim now l).
  { intros key. destruct (Hb key) as [Hx Hn]. split; [|done]. intros x Hin. apply Hx in Hin. lia. }
  apply (spec_step_bounded enabled lim now req l Hlim) in Hb'. cbn [spec_run].
  destruct (spec_step enabled lim now req l) as [l1 v]. cbn in Hb'.
  destruct (IH now l1) as [last' H']; [done..|]. exists last'.
  by destruct (spec_run enabled lim rest l1).
Qed.

(** ** Properties *)

(** C15. Whatever requests arrive, in whatever order the lock is taken, with a
    clock that never goes back: the limiter, which keeps only a pruned deque
    per caller, answers every request as the unpruned log of admitted requests
    does (excluded paths always pass; a caller is refused exactly when the
    limit of its admitted requests is at most sixty seconds old, with the
    Retry-After of the oldest of them, and the deque is never indexed when
    empty); and no caller ever has more than the limit of requests admitted in
    any closed interval of sixty seconds. *)
Theorem limiter_refines_window (enabled : bool) (lim last : Z) (trace : list (Z * Request))
    (Hlim : 1 <= lim) (Hm : monotone last trace = true) :
  run trace (new_limiter enabled lim) = map Ok (spec_run enabled lim trace []).2
  /\ forall key t,
       Z.of_nat (length (in_window t (times key (spec_run enabled lim trace []).1))) <= lim.
Proof.
  split; [apply (run_refines enabled lim trace last); auto using agrees_new|].
  destruct (spec_run_bounded enabled lim trace last []) as [last' Hb]; [done|done| |].
  { intros key. split; [set_solver|]. intros t. cbn. lia. }
  intros key t. apply Hb.
Qed.

(** A caller at its limit, its Retry-After and the recovery. *)
Definition ex_req (key : string) : Request := mkRequest "/api/v1/alerts" (Some key) None.

Lemma limiter_refines_window_witness :
  run [(0, ex_req "k"); (NS, ex_req "k"); (2 * NS, ex_req "k"); (60 * NS, ex_req "k");
       (60 * NS + 1, ex_req "k")] (new_limiter true 2)
  = map Ok [Forward; Forward; TooMany 58; TooMany 1; Forward]
  /\ run [(0, ex_req "k"); (NS, ex_req "k"); (2 * NS, ex_req "k"); (60 * NS, ex_req "k");
          (60 * NS + 1, ex_req "k")] (new_limiter true 2)
     = map Ok (spec_run true 2
         [(0, ex_req "k"); (NS, ex_req "k"); (2 * NS, ex_req "k"); (60 * NS, ex_req "k");
          (60 * NS + 1, ex_req "k")] []).2.
Proof.
  split; [vm_compute; reflexivity|].
  refine (proj1 (limiter_refines_window true 2 0 _ _ _)); vm_compute; [discriminate|reflexivity].
Defined.

(** A client that waits for the Retry-After and one further millisecond finds
    the hit it was refused for out of the window. *)
Lemma retry_after_frees now h now' :
  now - WINDOW_SEC <= h ->
  now + retry_seconds (h + WINDOW_SEC - now) * NS + 1000000 <= now' -> h < now' - WINDOW_SEC.
Proof.
  unfold retry_seconds. intros H Hw.
  pose proof (Z.div_mod (h + WINDOW_SEC - now + 999000000) NS) as Hd.
  pose proof (Z.mod_pos_bound (h + WINDOW_SEC - now + 999000000) NS) as Hm.
  unfold WINDOW_SEC, NS in *. nia.
Qed.
