(* ===== verification/Evidence.v ===== *)
(** * The evidence locker: [evidence.py]

    [store] is the [EvidenceStore] dataclass, [disk] the files it writes with
    their permission bits.  Signing keys are byte lists, instants microseconds
    in UTC.  Input and output errors of the file system are left out; the
    parameters are [Path.resolve], the UTF-8 decoders of [bytes.decode] and
    [read_text], and [json.loads] behind the depth scanner. *)

From S2P Require Import Prelude PyStr PyVal PyStd Json Crypto.
From Stdlib Require Import Ascii.

(** ** [base64.b64decode] of text *)

Definition b64_value (c : ascii) : option Z :=
  let n := Z.of_N (code c) in
  if in_range 65 90 c then Some (n - 65)
  else if in_range 97 122 c then Some (n - 71)
  else if is_digit c then Some (n + 4)
  else if is_char "+" c then Some 62
  else if is_char "/" c then Some 63
  else None.

(** The decoder's state: characters of the open quantum, bits carried over,
    padding seen.  Characters outside the alphabet are skipped. *)
Fixpoint b64_scan (s : string) (quad left pads : Z) : res (list Z) :=
  match s with
  | EmptyString => if quad =? 0 then Ok [] else Raise (ValueError "base64")
  | String c r =>
      if is_char "=" c then
        if (2 <=? quad) && (4 <=? quad + (pads + 1)) then Ok []
        else b64_scan r quad left (if 2 <=? quad then pads + 1 else pads)
      else
        match b64_value c with
        | None => b64_scan r quad left pads
        | Some v =>
            if quad =? 0 then b64_scan r 1 v 0
            else if quad =? 1 then cons (left * 4 + v / 16) <$> b64_scan r 2 (v mod 16) 0
            else if quad =? 2 then cons (left * 16 + v / 4) <$> b64_scan r 3 (v mod 4) 0
            else cons (left * 64 + v) <$> b64_scan r 0 0 0
        end
  end.

Definition b64decode (s : string) : res (list Z) :=
  if is_ascii s then b64_scan s 0 0 0 else Raise (ValueError "ascii").

Example b64_forms :
  b64decode "aGk=" = Ok [104; 105] /\ b64decode "aG k=\n" = Ok [104; 105]
  /\ b64decode "aGk" = Raise (ValueError "base64") /\ b64decode "aGVsbG8=" = Ok (utf8 "hello").
Proof. vm_compute. repeat split. Qed.

(** ** Data *)

Record EvidenceSubmit : Type := mkSubmit {
  alert_id : string;
  host_id : string;
  captured_at : Z;
  captured_by : string;
  bundle_sha256 : string;
  source_hashes : list (string * string);
  tarball_b64 : string;
  tarball : option (list Z)
}.

Definition as_tarball (p : EvidenceSubmit) : res (list Z) :=
  match tarball p with Some b => Ok b | None => b64decode (tarball_b64 p) end.

Record EvidenceRecord : Type := mkRecord {
  er_submit : EvidenceSubmit;  (* the fields copied from the payload *)
  bundle_path : string;
  sidecar_path : string;
  sidecar_signature : string
}.

Record store : Type := mkStore {
  base_dir : string;
  signing_key : list Z;
  keys : list (string * list Z)
}.

(** The constructor and [__post_init__]. *)
Definition new_store (base : string) (key : list Z) (ks : list (string * list Z)) : store :=
  mkStore base key
    match ks with
    | [] => [("current", key)]
    | _ => if has_key "current" ks then ks else assoc_set "current" key ks
    end.

(** [uuid4().hex] and [secrets.token_bytes] are arguments. *)
Definition rotate (new_id : string) (new_key : list Z) (st : store) : store :=
  let old := default (signing_key st) (assoc "current" (keys st)) in
  mkStore (base_dir st) new_key
    (assoc_set "current" new_key (assoc_set "previous" old (assoc_set new_id new_key []))).

(** Files with their mode, and the directories the store locked down. *)
Record disk : Type := mkDisk {
  files : gmap string (list Z * Z);
  dirs : gmap string Z
}.

(** Mode bits: 0644 for a new file, 0755 for a new directory, then 0600 and 0700. *)
Definition umask_mode : Z := 420.

(** [write_bytes]: truncates, keeps the mode of an existing file. *)
Definition write_bytes (path : string) (data : list Z) (d : disk) : disk :=
  mkDisk (<[path := (data, default umask_mode (snd <$> files d !! path))]> (files d)) (dirs d).

Definition chmod (path : string) (mode : Z) (d : disk) : disk :=
  mkDisk (alter (fun f => (f.1, mode)) path (files d)) (dirs d).

Definition mkdir (path : string) (d : disk) : disk :=
  mkDisk (files d) (<[path := default 493 (dirs d !! path)]> (dirs d)).

Definition chmod_dir (path : string) (mode : Z) (d : disk) : disk :=
  mkDisk (files d) (<[path := mode]> (dirs d)).

Definition read_bytes (path : string) (d : disk) : option (list Z) := fst <$> files d !! path.

Section Locker.
Context (resolve : string -> string).
Context (decode_replace : list Z -> string) (decode_strict : list Z -> res string).
Context (loads : string -> res val).

Definition _alert_dir (st : store) (id : string) : res string :=
  if negb (nonempty id) then Raise (ValueError "alert_id must be non-empty")
  else if sexists (is_char "000") id then Raise (ValueError "NUL")
  else if str_in id ["."; ".."] then Raise (ValueError "dot")
  else if sexists (is_char "/") id || sexists (is_char "\") id then Raise (ValueError "separator")
  else if startswith "/" id then Raise (ValueError "absolute")
  else if startswith "." id then Raise (ValueError "leading dot")
  else
    let joined := resolve (base_dir st +:+ "/" +:+ id) in
    if negb (startswith (resolve (base_dir st) +:+ "/") joined) then Raise (ValueError "escapes")
    else Ok joined.

Definition bundle_of (dir : string) : string := dir +:+ "/bundle.tar.gz".
Definition sidecar_of (dir : string) : string := dir +:+ "/bundle.coc.json".
Definition sig_of (dir : string) : string := dir +:+ "/bundle.coc.sig".

Definition sidecar (p : EvidenceSubmit) : val :=
  VDict [("alert_id", VStr (alert_id p)); ("host_id", VStr (host_id p));
         ("captured_at", VStr (isoformat (captured_at p))); ("captured_by", VStr (captured_by p));
         ("bundle_sha256", VStr (bundle_sha256 p));
         ("source_hashes", VDict (map (fun kv => (kv.1, VStr kv.2)) (source_hashes p)));
         ("key_id", VStr "current")].

Definition sidecar_bytes (p : EvidenceSubmit) : list Z := utf8 (dumps_pretty (sidecar p)).

Definition sign (key data : list Z) : string := hex (hmac_sha256 key data).

(** From the bundle's [write_bytes] on. *)
Definition write_evidence (st : store) (p : EvidenceSubmit) (dir : string) (data : list Z)
  : M disk EvidenceRecord := fun d =>
  let d1 := write_bytes (bundle_of dir) data (mkdir dir d) in
  match assoc "current" (keys st) with
  | None => (d1, Raise KeyError)
  | Some key =>
      let text := sidecar_bytes p in
      let sig := sign key text in
      let d2 := write_bytes (sig_of dir) (utf8 sig) (write_bytes (sidecar_of dir) text d1) in
      let d3 := chmod (sig_of dir) 384 (chmod (sidecar_of dir) 384 (chmod (bundle_of dir) 384 d2)) in
      (chmod_dir dir 448 d3, Ok (mkRecord p (bundle_of dir) (sidecar_of dir) sig))
  end.

Definition submit (st : store) (p : EvidenceSubmit) : M disk EvidenceRecord :=
  data ← lift_res (as_tarball p);
  same ← lift_res (compare_digest (hexdigest data) (bundle_sha256 p));
  if negb (same : bool) then raise_M (ValueError "bundle_sha256 mismatch")
  else
    dir ← lift_res (_alert_dir st (alert_id p));
    write_evidence st p dir data.

(** The key the sidecar names, tried first: [None] when it is not in the
    store, or the [except] clause was taken. *)
Definition named_key (st : store) (text : list Z) : res (option (list Z)) :=
  match safe_loads loads (decode_replace text) with
  | Raise JSONDecodeError | Raise KeyError => Ok None
  | Raise e => Raise e
  | Ok (VDict d) =>
      match default (VStr "current") (assoc "key_id" d) with
      | VStr k => Ok (assoc k (keys st))
      | VList _ | VDict _ => Raise TypeError
      | _ => Ok None
      end
  | Ok _ => Raise AttributeError
  end.

Definition signed_by (text : list Z) (sig : string) (key : list Z) : res bool :=
  compare_digest (sign key text) sig.

(** [for key in self.keys.values(): if compare_digest(...): return True]. *)
Fixpoint any_key (text : list Z) (sig : string) (ks : list (list Z)) : res bool :=
  match ks with
  | [] => Ok false
  | k :: r => b ← signed_by text sig k; if b : bool then Ok true else any_key text sig r
  end.

Definition verify (st : store) (id : string) (d : disk) : res bool :=
  dir ← _alert_dir st id;
  match read_bytes (sidecar_of dir) d, read_bytes (sig_of dir) d with
  | Some text, Some sig_bytes =>
      sig ← decode_strict sig_bytes;
      named ← named_key st text;
      first ← match named with Some k => signed_by text sig k | None => Ok false end;
      if first : bool then Ok true else any_key text sig (map snd (keys st))
  | _, _ => Ok false
  end.

(** Key rotations of an operator, oldest first. *)
Fixpoint rotate_all (rs : list (string * list Z)) (st : store) : store :=
  match rs with
  | [] => st
  | (i, k) :: r => rotate_all r (rotate i k st)
  end.

(** ** Lemmas *)

Lemma sign_ascii key data : is_ascii (sign key data) = true.
Proof. apply hex_ascii, hex_is_hex, sha256_range. Qed.

Lemma any_key_hex text sig ks :
  is_ascii sig = true ->
  any_key text sig ks = Ok (existsb (fun k => String.eqb (sign k text) sig) ks).
Proof.
  intros Hs. induction ks as [|k ks IH]; [done|]. cbn [any_key existsb].
  unfold signed_by, compare_digest, mbind, res_bind. rewrite sign_ascii, Hs. cbv beta iota delta [andb].
  destruct (String.eqb (sign k text) sig); [done|exact IH].
Qed.

Lemma assoc_exists {A} k (v : A) d : assoc k d = Some v -> In v (map snd d).
Proof. intros H%assoc_in. by apply (in_map snd) in H. Qed.

(** A readable sidecar verifies exactly when some key of the store signs it. *)
Lemma verify_any st id d dir text sig_bytes sig named :
  _alert_dir st id = Ok dir ->
  read_bytes (sidecar_of dir) d = Some text -> read_bytes (sig_of dir) d = Some sig_bytes ->
  decode_strict sig_bytes = Ok sig -> is_ascii sig = true -> named_key st text = Ok named ->
  (forall k, named = Some k -> In k (map snd (keys st))) ->
  verify st id d = Ok (existsb (fun k => String.eqb (sign k text) sig) (map snd (keys st))).
Proof.
  intros Hdir Ht Hb Hdec Ha Hn Hin. unfold verify, mbind, res_bind. rewrite Hdir.
  cbv beta iota. rewrite Ht, Hb. cbv beta iota. rewrite Hdec. cbv beta iota. rewrite Hn.
  cbv beta iota. rewrite any_key_hex by done.
  destruct named as [k|]; [|done]. unfold signed_by, compare_digest. rewrite sign_ascii, Ha.
  cbv beta iota delta [andb].
  destruct (String.eqb (sign k text) sig) eqn:E; [|done]. f_equal. symmetry.
  apply existsb_exists. eauto.
Qed.

Lemma sidecar_depth p : depth (sidecar p) <= MAX_JSON_DEPTH.
Proof.
  unfold sidecar. cbn. assert (H : fold_right Z.max 0
    (map (fun kv : string * val => depth kv.2) (map (fun kv => (kv.1, VStr kv.2)) (source_hashes p))) <= 0).
  { induction (source_hashes p) as [|x l IH]; cbn in *; lia. }
  unfold MAX_JSON_DEPTH. lia.
Qed.

Lemma sidecar_floats p : floats_plain (sidecar p) = true.
Proof.
  cbn. rewrite !andb_true_r. apply forallb_forall. intros x (y&<-&_)%in_map_iff. done.
Qed.

(** Reading a key of a sorted dictionary. *)
Lemma sort_keys_dict d : exists d', sort_keys (VDict d) = VDict d'.
Proof. by eexists. Qed.

Lemma lookup_write_other path path' data d :
  path <> path' -> files (write_bytes path data d) !! path' = files d !! path'.
Proof. apply lookup_insert_ne. Qed.

Lemma rotate_current i k st :
  slen i = 32 ->
  keys (rotate i k st)
  = [(i, k); ("previous", default (signing_key st) (assoc "current" (keys st))); ("current", k)].
Proof.
  intros Hi. unfold rotate. cbn [keys assoc_set].
  destruct (String.eqb_spec "previous" i) as [<-|Hp]; [discriminate Hi|]. cbn [assoc_set].
  destruct (String.eqb_spec "current" i) as [<-|Hc]; [discriminate Hi|]. done.
Qed.

Lemma assoc_current i k st : slen i = 32 -> assoc "current" (keys (rotate i k st)) = Some k.
Proof.
  intros Hi. rewrite rotate_current by done. cbn [assoc].
  destruct (String.eqb_spec "current" i) as [<-|]; [discriminate Hi|done].
Qed.

Lemma rotate_all_app rs rs' st : rotate_all (rs ++ rs') st = rotate_all rs' (rotate_all rs st).
Proof. revert st. by induction rs as [|[i k] rs IH]; intros st; [|apply IH]. Qed.

Lemma rotate_all_base rs st : base_dir (rotate_all rs st) = base_dir st.
Proof. revert st. induction rs as [|[i k] rs IH]; intros st; [done|]. cbn. by rewrite IH. Qed.

(** The keys after two or more rotations: the last two. *)
Lemma rotate_last_two rs i1 k1 i2 k2 st :
  slen i1 = 32 -> slen i2 = 32 ->
  map snd (keys (rotate_all (rs ++ [(i1, k1); (i2, k2)]) st)) = [k2; k1; k2].
Proof.
  intros H1 H2. rewrite rotate_all_app. cbn [rotate_all].
  rewrite rotate_current by done. by rewrite assoc_current.
Qed.

(** The three paths of a directory are different. *)
Lemma paths_differ dir :
  bundle_of dir <> sidecar_of dir /\ bundle_of dir <> sig_of dir /\ sidecar_of dir <> sig_of dir.
Proof.
  unfold bundle_of, sidecar_of, sig_of.
  repeat split; intros H; apply (inj (String.append dir)) in H; discriminate H.
Qed.

Lemma chmod_same path mode d :
  files (chmod path mode d) !! path = (fun f => (f.1, mode)) <$> files d !! path.
Proof. apply lookup_alter_eq. Qed.

Lemma chmod_other path path' mode d :
  path <> path' -> files (chmod path mode d) !! path' = files d !! path'.
Proof. apply lookup_alter_ne. Qed.

Lemma write_same path data d :
  files (write_bytes path data d) !! path = Some (data, default umask_mode (snd <$> files d !! path)).
Proof. apply lookup_insert_eq. Qed.

(** What a submission leaves on the disk. *)
Lemma write_evidence_files st p dir data d d' rec :
  write_evidence st p dir data d = (d', Ok rec) ->
  exists key, assoc "current" (keys st) = Some key
    /\ rec = mkRecord p (bundle_of dir) (sidecar_of dir) (sign key (sidecar_bytes p))
    /\ files d' !! bundle_of dir = Some (data, 384)
    /\ files d' !! sidecar_of dir = Some (sidecar_bytes p, 384)
    /\ files d' !! sig_of dir = Some (utf8 (sidecar_signature rec), 384)
    /\ dirs d' !! dir = Some 448
    /\ forall path, path <> bundle_of dir -> path <> sidecar_of dir -> path <> sig_of dir ->
         files d' !! path = files d !! path.
Proof.
  unfold write_evidence. destruct (assoc "current" (keys st)) as [key|]; [|discriminate].
  cbv zeta. intros [<- Hr]%pair_eq. assert (rec = mkRecord p (bundle_of dir) (sidecar_of dir)
    (sign key (sidecar_bytes p))) as -> by congruence. clear Hr. exists key. pose proof (paths_differ dir) as (H1&H2&H3).
  split; [done|]. split; [done|]. cbn [sidecar_signature dirs chmod_dir].
  repeat match goal with |- _ /\ _ => split end.
  - change (files (chmod_dir dir 448 ?q)) with (files q).
    rewrite !chmod_other by done. rewrite chmod_same, !lookup_write_other by done. by rewrite write_same.
  - change (files (chmod_dir dir 448 ?q)) with (files q).
    rewrite chmod_other by done. rewrite chmod_same, chmod_other, lookup_write_other by done.
    by rewrite write_same.
  - change (files (chmod_dir dir 448 ?q)) with (files q).
    rewrite chmod_same, !chmod_other by done. by rewrite write_same.
  - apply lookup_insert_eq.
  - intros path N1 N2 N3. change (files (chmod_dir dir 448 ?q)) with (files q).
    rewrite !chmod_other, !lookup_write_other by done. done.
Qed.

Lemma submit_ok st p d d' rec :
  submit st p d = (d', Ok rec) ->
  exists data dir, as_tarball p = Ok data /\ hexdigest data = bundle_sha256 p
    /\ _alert_dir st (alert_id p) = Ok dir /\ write_evidence st p dir data d = (d', Ok rec).
Proof.
  unfold submit, lift_res, mbind, M_bind. destruct (as_tarball p) as [data|]; [|discriminate].
  unfold compare_digest. destruct (_ && _); [|discriminate].
  destruct (String.eqb_spec (hexdigest data) (bundle_sha256 p)); cbn [negb]; [|discriminate].
  destruct (_alert_dir st (alert_id p)) as [dir|] eqn:E; [|discriminate]. eauto 6.
Qed.

Lemma alert_dir_base st st' id : base_dir st' = base_dir st -> _alert_dir st' id = _alert_dir st id.
Proof. intros H. unfold _alert_dir. by rewrite H. Qed.

(** The key the stored sidecar names is one of the store's, if it is there. *)
Lemma named_sidecar st p :
  (forall t, decode_replace (utf8 t) = t) ->
  loads (dumps_pretty (sidecar p)) = Ok (sort_keys (sidecar p)) ->
  exists named, named_key st (sidecar_bytes p) = Ok named
    /\ forall k, named = Some k -> In k (map snd (keys st)).
Proof.
  intros Hrt Hl. unfold named_key, sidecar_bytes. rewrite Hrt.
  rewrite safe_loads_pretty by auto using sidecar_depth, sidecar_floats. rewrite Hl.
  unfold sidecar. cbn [sort_keys]. set (l := map _ _). set (d := merge_sort key_le l).
  assert (default (VStr "current") (assoc "key_id" d) = VStr "current") as ->.
  { destruct (assoc "key_id" d) as [v|] eqn:E; [|done]. cbn [default].
    apply assoc_in, list_elem_of_In in E. unfold d in E. rewrite merge_sort_Permutation in E.
    apply list_elem_of_In, in_map_iff in E as (kv&[= Hk <-]&Hin).
    repeat destruct Hin as [<-|Hin]; try discriminate Hk; done. }
  eexists. split; [reflexivity|]. intros k Hk. by eapply assoc_exists.
Qed.

(** ** Properties *)


End Locker.

(** ** A concrete locker *)

(** UTF-8 of the first 256 code points. *)
Fixpoint latin_decode (bs : list Z) : string :=
  match bs with
  | [] => ""
  | b :: r =>
      if b <? 128 then String (ascii_of_N (Z.to_N b)) (latin_decode r)
      else match r with
           | c :: r' => String (ascii_of_N (Z.to_N ((b - 192) * 64 + (c - 128)))) (latin_decode r')
           | [] => ""
           end
  end.

Lemma latin_decode_utf8 t : latin_decode (utf8 t) = t.
Proof.
  induction t as [|c t IH]; [done|]. cbn [utf8].
  assert (Hc : latin_decode ((if Z.of_N (code c) <? 128 then [Z.of_N (code c)]
    else [192 + Z.of_N (code c) / 64; 128 + Z.of_N (code c) mod 64]) ++ utf8 t)
    = String c (latin_decode (utf8 t))).
  { generalize (utf8 t) as l. intros l. by ascii_cases c. }
  by rewrite Hc, IH.
Qed.

Definition ex_submit : EvidenceSubmit :=
  mkSubmit "a1" "h1" 1700000000000000 "auto"
    "2cf24dba5fb0a30e26e83b2ac5b9e29e1b161e5c1fa7425e73043362938b9824" [("auth.log", "00")]
    "aGVsbG8=" None.

Definition ex_store : store := new_store "/evidence" [1; 2; 3] [].
Definition ex_disk : disk := mkDisk ∅ ∅.
Definition ex_first : string := "00000000000000000000000000000001".
Definition ex_second : string := "00000000000000000000000000000002".

