(* ===== verification/Sources.v ===== *)
(** * Log source connectors: [api/v1/sources.py] and [models/source.py]

    The handlers work on a database session and the audit log; what a handler
    draws (UUID, key, signing secret, clock) is the record [draws].  The bounds
    pydantic checks before a handler runs are the [*_valid] predicates, the
    response models the lists of fields FastAPI renders.  The parameter [post]
    is the HTTP client of the webhook test. *)

From S2P Require Import Prelude PyStr PyVal PyStd Regex Crypto Auth AuditLog Db.
From Stdlib Require Import Ascii.

(** ** Constants *)

Definition SUPPORTED_PLATFORMS : list string := ["cloudflare"; "aws"; "webhook"; "syslog"].
Definition VALID_STATUSES : list string := ["active"; "error"; "disabled"].

Definition _CF_ZONE_ID_RE : re :=
  Rcat (Rrep 32 32 (Rcls (fun c => in_range 97 102 c || in_range 65 70 c || is_digit c))) Rend.

Definition _CF_DATASETS : list string :=
  ["http_requests"; "spectrum_events"; "gateway_dns"; "gateway_http"; "gateway_network";
   "nel_reports"; "audit_logs"; "workers_trace_events"].

Definition is_letter (c : ascii) : bool := in_range 65 90 c || in_range 97 122 c.
Definition is_alnum_ascii (c : ascii) : bool := is_letter c || is_digit c.

Definition role_name_char (c : ascii) : bool :=
  is_alnum_ascii c || sexists (is_char c) "+=,.@_-".

Definition _AWS_ROLE_ARN_RE : re :=
  Rcat (Rcat (Rlit "arn:aws:iam::") (Rcat (Rrep 12 12 (Rcls is_digit)) (Rcat (Rlit ":role/")
    (Rrep 1 64 (Rcls role_name_char))))) Rend.

Definition log_group_char (c : ascii) : bool := is_word c || is_char "-" c || is_char "/" c.

Definition _AWS_LOG_GROUP_RE : re := Rcat (Rrep 1 512 (Rcls log_group_char)) Rend.

Definition WEBHOOK_FORMATS : list string :=
  ["generic"; "splunk_hec"; "elastic_webhook"; "sumo_logic"].

Definition SYSLOG_PROTOCOLS : list string := ["udp"; "tcp"].

Definition SYSLOG_FACILITIES : list string :=
  ["kern"; "user"; "mail"; "daemon"; "auth"; "syslog"; "lpr"; "news"; "uucp"; "cron"; "authpriv";
   "ftp"; "ntp"; "security"; "console"; "local0"; "local1"; "local2"; "local3"; "local4";
   "local5"; "local6"; "local7"].

Definition _RATE_MIN_WINDOW_SECONDS : Z := 60.

Definition octet_re : re := Rrep 1 3 (Rcls is_digit).

Definition _IPV4_RE : re :=
  Rcat (Rcat (Rrep 3 3 (Rcat octet_re (Rlit "."))) octet_re) Rend.

(** [(?=.{1,253}$)] at the start of the pattern. *)
Definition host_lookahead : re :=
  Rcat (Rrep 1 253 (Rcls (fun c => negb (is_char "010" c)))) Rend.

Definition label_char (c : ascii) : bool := is_alnum_ascii c || is_char "-" c.

Definition label_re : re :=
  Rcat (Rcls is_alnum_ascii)
    (Ropt (Rcat (Rrep 0 61 (Rcls label_char)) (Rcls is_alnum_ascii))).

Definition hostname_body : re :=
  Rcat (Rcat label_re (Rstar (Rcat (Rlit ".") label_re))) Rend.

Definition _HOSTNAME_RE (s : string) : bool :=
  re_match host_lookahead s && re_match hostname_body s.

(** ** Request bodies *)

Definition len_between (lo hi : Z) (s : string) : bool := (lo <=? slen s) && (slen s <=? hi).

Record CloudflareCreateIn : Type := mkCfIn {
  api_token : string; zone_id : string; datasets : list string; cf_name : option string }.

Definition cloudflare_valid (b : CloudflareCreateIn) : bool :=
  len_between 1 512 (api_token b) && len_between 32 32 (zone_id b)
  && (1 <=? length (datasets b))%nat && (length (datasets b) <=? 16)%nat
  && opt_all (len_between 0 255) (cf_name b).

Record AwsCreateIn : Type := mkAwsIn {
  role_arn : string; log_group : string; aws_name : option string }.

Definition aws_valid (b : AwsCreateIn) : bool :=
  len_between 20 2048 (role_arn b) && len_between 1 512 (log_group b)
  && opt_all (len_between 0 255) (aws_name b).

Record WebhookCreateIn : Type := mkHookIn { hook_name : string; format : string }.

Definition webhook_valid (b : WebhookCreateIn) : bool :=
  len_between 1 255 (hook_name b) && len_between 0 64 (format b).

Record SyslogCreateIn : Type := mkSyslogIn {
  host : string; port : Z; protocol : string; facility : option string;
  syslog_name : option string }.

Definition syslog_valid (b : SyslogCreateIn) : bool :=
  len_between 1 253 (host b) && (1 <=? port b) && (port b <=? 65535)
  && len_between 0 8 (protocol b) && opt_all (len_between 0 32) (facility b)
  && opt_all (len_between 0 255) (syslog_name b).

Definition unprocessable : exn := HTTPException 422 "body".

(** ** Validators *)

Definition bad_request (tag : string) : exn := HTTPException 400 tag.

Definition _validate_zone_id (z : string) : res unit :=
  guard_res (re_match _CF_ZONE_ID_RE z) (bad_request "zone_id").

Fixpoint _validate_datasets (ds : list string) : res unit :=
  match ds with
  | [] => Ok tt
  | d :: r => if str_in d _CF_DATASETS then _validate_datasets r
              else Raise (bad_request "unknown dataset")
  end.

Definition _validate_aws_role_arn (s : string) : res unit :=
  guard_res (re_match _AWS_ROLE_ARN_RE s) (bad_request "role_arn").

Definition _validate_aws_log_group (s : string) : res unit :=
  guard_res (re_match _AWS_LOG_GROUP_RE s) (bad_request "log_group").

Definition _validate_webhook_format (s : string) : res unit :=
  guard_res (str_in s WEBHOOK_FORMATS) (bad_request "unknown format").

Fixpoint check_octets (os : list string) : res unit :=
  match os with
  | [] => Ok tt
  | o :: r =>
      v ← int_of (VStr o);
      if (v <? 0) || (255 <? v) then Raise (bad_request "host octet") else check_octets r
  end.

Definition _validate_syslog_host (h : string) : res unit :=
  if re_match _IPV4_RE h then check_octets (split_char "." h)
  else guard_res (_HOSTNAME_RE h) (bad_request "host").

Definition _validate_syslog_protocol (p : string) : res unit :=
  guard_res (str_in p SYSLOG_PROTOCOLS) (bad_request "unknown protocol").

Definition _validate_syslog_facility (f : option string) : res unit :=
  guard_res (opt_all (fun s => str_in s SYSLOG_FACILITIES) f) (bad_request "unknown facility").

(** ** Helpers *)

(** [secret[-8:]]. *)
Definition _fingerprint (secret : string) : string :=
  drop_str (String.length secret - 8) secret.

(** Quotient of two floats, correctly rounded; the divisor is positive. *)
Definition fdiv (a b : pyfloat) : pyfloat :=
  match a, b with
  | FFin m1 e1, FFin m2 e2 =>
      let e := Z.min e1 e2 in round_ratio (m1 * 2 ^ (e1 - e)) (m2 * 2 ^ (e2 - e))
  | _, _ => FNaN
  end.

(** Nearest integer of a ratio, ties to even. *)
Definition half_even (n d : Z) : Z :=
  let q := n / d in
  let r := n mod d in
  if d <? 2 * r then q + 1 else if 2 * r <? d then q else if Z.even q then q else q + 1.

(** [round(x, 2)]: the decimal nearest to the exact value, read back. *)
Definition round2 (x : pyfloat) : pyfloat :=
  match x with
  | FFin m e =>
      if 0 <=? e then x else round_ratio (half_even (m * 100) (2 ^ (- e))) 100
  | _ => x
  end.

(** [now] and [last_event_at] are microseconds in UTC. *)
Definition _compute_rate_per_min (now events_received : Z) (last_event_at : option Z) : pyfloat :=
  match last_event_at with
  | None => FFin 0 0
  | Some last =>
      if events_received =? 0 then FFin 0 0
      else
        let elapsed := round_ratio (now - last) 1000000 in
        let floor := FFin _RATE_MIN_WINDOW_SECONDS 0 in
        let window := if flt floor elapsed then elapsed else floor in
        round2 (fdiv (round_ratio events_received 1) (fdiv window (FFin 60 0)))
  end.

Definition opt_str (o : option string) : val :=
  match o with Some s => VStr s | None => VNone end.

Definition opt_iso (o : option Z) : val :=
  match o with Some t => VStr (isoformat t) | None => VNone end.

Definition _connector_to_out (c : SourceConnector) (include_secret : bool)
    (ingest_url : option string) : list (string * val) :=
  let out := [("id", VStr (sc_id c)); ("platform", VStr (sc_platform c));
    ("name", opt_str (sc_name c)); ("status", VStr (sc_status c));
    ("events_received", VInt (sc_events_received c)); ("error_count", VInt (sc_error_count c));
    ("last_event_at", opt_iso (sc_last_event_at c));
    ("api_key_fingerprint", VStr (sc_api_key_fingerprint c));
    ("created_at", VStr (isoformat (sc_created_at c)));
    ("updated_at", VStr (isoformat (sc_updated_at c))); ("config", VDict (sc_config c))] in
  if include_secret
  then assoc_set "ingest_url" (opt_str ingest_url)
         (assoc_set "api_key" (VStr (sc_api_key c)) out)
  else out.

(** The syslog branch reads a variable [c] that is not defined there. *)
Definition _ingest_url_for (base_url platform connector_id : string) : res string :=
  let base := rstrip_char "/" base_url in
  if String.eqb platform "cloudflare" then Ok (base +:+ "/api/v1/ingest/cloudflare")
  else if String.eqb platform "aws" then Ok (base +:+ "/api/v1/ingest/aws/" +:+ connector_id)
  else if String.eqb platform "webhook"
  then Ok (base +:+ "/api/v1/ingest/webhook?connector=" +:+ connector_id)
  else if String.eqb platform "syslog" then Raise NameError
  else Ok (base +:+ "/api/v1/sources/" +:+ connector_id).

(** ** Response models *)

(** The fields of a model, with the default of the optional ones. *)
Definition SourceConnectorOut : list (string * option val) :=
  [("id", None); ("platform", None); ("name", None); ("status", None);
   ("events_received", None); ("error_count", None); ("last_event_at", None);
   ("api_key_fingerprint", None); ("created_at", None); ("updated_at", None);
   ("config", None); ("api_key", Some VNone)].

Definition SourceConnectorCreateOut : list (string * option val) :=
  SourceConnectorOut ++ [("ingest_url", None); ("signing_secret", None)].

Definition TestResultOut : list (string * option val) :=
  [("delivered", None); ("status_code", None); ("detail", None)].

(** FastAPI renders the fields of the model; a missing one is a server error. *)
Fixpoint render_model (model : list (string * option val)) (d : list (string * val))
  : res (list (string * val)) :=
  match model with
  | [] => Ok []
  | (k, dflt) :: rest =>
      match match assoc k d with Some v => Some v | None => dflt end with
      | Some v => cons (k, v) <$> render_model rest d
      | None => Raise ResponseValidationError
      end
  end.

(** ** Statements on [source_connectors] *)

Definition connector_ok (c : SourceConnector) : bool :=
  varchar 32 (sc_platform c) && opt_all (varchar 255) (sc_name c)
  && jsonb_ok (VDict (sc_config c)) && varchar 128 (sc_api_key c)
  && varchar 8 (sc_api_key_fingerprint c) && varchar 16 (sc_status c)
  && int32 (sc_events_received c) && int32 (sc_error_count c).

Definition insert_connector (c : SourceConnector) : M db unit := fun d =>
  if negb (present (db_sources d) (sc_id c)) && connector_ok c
  then (set_sources (insert (sc_id c) c) d, Ok tt) else (d, Raise SqlError).

(** The flush of a changed row. *)
Definition update_connector (c : SourceConnector) : M db unit := fun d =>
  if connector_ok c then (set_sources (insert (sc_id c) c) d, Ok tt) else (d, Raise SqlError).

Definition delete_row (id : string) : M db unit := fun d =>
  (set_sources (delete id) d, Ok tt).

Definition _get_connector (id : string) : M db SourceConnector := fun d =>
  (d, match db_sources d !! id with
      | Some c => Ok c
      | None => Raise (HTTPException 404 "connector not found")
      end).

(** [session.refresh(row)]. *)
Definition refresh (id : string) : M db SourceConnector := fun d =>
  (d, match db_sources d !! id with Some c => Ok c | None => Raise RuntimeError end).

(** UPDATE source_connectors SET events_received = events_received + 1,
    last_event_at = now(). *)
Definition bump_statement (id : string) (now : Z) : M db unit := fun d =>
  match db_sources d !! id with
  | Some c =>
      update_connector (mkConnector (sc_id c) (sc_platform c) (sc_name c) (sc_config c)
        (sc_api_key c) (sc_api_key_fingerprint c) (sc_status c) (sc_events_received c + 1)
        (sc_error_count c) (Some now) (sc_created_at c) (sc_updated_at c)) d
  | None => (d, Ok tt)
  end.

(** ** Handlers *)

(** What a handler draws. *)
Record draws : Type := mkDraws {
  dr_id : string;
  dr_key : string;
  dr_secret : string;
  dr_now : Z
}.

(** What the request carries besides its body, and what [audit.record] meets. *)
Record ctx : Type := mkCtx {
  cx_base_url : string;
  cx_role : option Role;
  cx_io : io;
  cx_audit_now : Z;
  cx_audit_day : Z
}.

Definition role_value (r : Role) : string :=
  match r with READ => "read" | WRITE => "write" | INGEST => "ingest" end.

Definition actor_of (r : option Role) : string :=
  match r with Some r => role_value r | None => "anonymous" end.

Definition new_connector (dr : draws) (platform name : string) (config : list (string * val))
  : SourceConnector :=
  mkConnector (dr_id dr) platform (Some name) config (dr_key dr) (_fingerprint (dr_key dr))
    "active" 0 0 None (dr_now dr) (dr_now dr).

(** [name or fallback]. *)
Definition name_or (name : option string) (fallback : string) : string :=
  match name with Some s => if nonempty s then s else fallback | None => fallback end.

(** [s.rsplit("/", 1)[-1]]. *)
Definition after_last_slash (s : string) : string := List.last (split_char "/" s) "".

Definition bump (now : Z) (c : SourceConnector) : SourceConnector :=
  mkConnector (sc_id c) (sc_platform c) (sc_name c) (sc_config c) (sc_api_key c)
    (sc_api_key_fingerprint c) (sc_status c) (sc_events_received c + 1) (sc_error_count c)
    (Some now) (sc_created_at c) now.

Definition with_key (key : string) (now : Z) (c : SourceConnector) : SourceConnector :=
  mkConnector (sc_id c) (sc_platform c) (sc_name c) (sc_config c) key (_fingerprint key)
    (sc_status c) (sc_events_received c) (sc_error_count c) (sc_last_event_at c)
    (sc_created_at c) now.

(** [pattern.match(config.get(key, ""))]. *)
Definition match_config (a : re) (key : string) (config : list (string * val)) : res bool :=
  match default (VStr "") (assoc key config) with
  | VStr s => Ok (re_match a s)
  | _ => Raise TypeError
  end.

Definition answer (delivered : bool) (code : Z) (detail : string) : list (string * val) :=
  [("delivered", VBool delivered); ("status_code", VInt code); ("detail", VStr detail)].

Definition test_body : val :=
  VDict [("src_ip", VStr "203.0.113.99"); ("uri", VStr "/test/connector"); ("method", VStr "POST");
         ("status", VInt 200); ("user_agent", VStr "zaqorin-test/1.0")].

(** [except (httpx.HTTPError, OSError, RuntimeError)]. *)
Definition transport_error (e : exn) : bool :=
  match e with ConnectionError | TimeoutError | OSError | RuntimeError => true | _ => false end.

Section Handlers.
Context {D : Type} `{Database D}.

Definition audited (cx : ctx) (action target : string) (extra : list (string * val))
  : M (D * audit_log) unit :=
  _ ← on_snd (record (cx_io cx) (cx_audit_now cx) (cx_audit_day cx)
                (mkEntry (actor_of (cx_role cx)) action target None extra));
  mret tt.

(** The common end of the create handlers: insert, refresh, render, audit. *)
Definition finish_create (cx : ctx) (c : SourceConnector) (platform secret action : string)
    (extra : list (string * val)) : M (D * audit_log) (list (string * val)) :=
  _ ← on_fst (transaction (insert_connector c));
  c' ← on_fst (transaction (refresh (sc_id c)));
  url ← lift_res (_ingest_url_for (cx_base_url cx) platform (sc_id c'));
  let out := assoc_set "signing_secret" (VStr secret) (_connector_to_out c' true (Some url)) in
  _ ← audited cx action (sc_id c') extra;
  lift_res (render_model SourceConnectorCreateOut out).

Definition cloudflare_config (b : CloudflareCreateIn) : list (string * val) :=
  [("zone_id", VStr (zone_id b)); ("datasets", VList (map VStr (datasets b)));
   ("token_fingerprint", VStr (_fingerprint (api_token b)))].

Definition create_cloudflare (cx : ctx) (dr : draws) (b : CloudflareCreateIn)
  : M (D * audit_log) (list (string * val)) :=
  _ ← lift_res (guard_res (cloudflare_valid b) unprocessable);
  _ ← lift_res (_validate_zone_id (zone_id b));
  _ ← lift_res (_validate_datasets (datasets b));
  let c := new_connector dr "cloudflare" (name_or (cf_name b) ("cf-" +:+ take_str 8 (zone_id b)))
             (cloudflare_config b) in
  finish_create cx c "cloudflare" (dr_secret dr) "create source (cloudflare)"
    [("zone_id", VStr (zone_id b)); ("datasets", VList (map VStr (datasets b)))].

Definition aws_config (b : AwsCreateIn) : list (string * val) :=
  [("role_arn", VStr (role_arn b)); ("log_group", VStr (log_group b))].

Definition create_aws (cx : ctx) (dr : draws) (b : AwsCreateIn)
  : M (D * audit_log) (list (string * val)) :=
  _ ← lift_res (guard_res (aws_valid b) unprocessable);
  _ ← lift_res (_validate_aws_role_arn (role_arn b));
  _ ← lift_res (_validate_aws_log_group (log_group b));
  let c := new_connector dr "aws" (name_or (aws_name b) ("aws-" +:+ after_last_slash (log_group b)))
             (aws_config b) in
  finish_create cx c "aws" (dr_secret dr) "create source (aws)" [("log_group", VStr (log_group b))].

Definition create_webhook (cx : ctx) (dr : draws) (b : WebhookCreateIn)
  : M (D * audit_log) (list (string * val)) :=
  _ ← lift_res (guard_res (webhook_valid b) unprocessable);
  _ ← lift_res (_validate_webhook_format (format b));
  let c := new_connector dr "webhook" (hook_name b) [("format", VStr (format b))] in
  finish_create cx c "webhook" (dr_secret dr) "create source (webhook)" [("format", VStr (format b))].

Definition syslog_config (b : SyslogCreateIn) : list (string * val) :=
  let config := [("host", VStr (host b)); ("port", VInt (port b)); ("protocol", VStr (protocol b))] in
  match facility b with Some f => assoc_set "facility" (VStr f) config | None => config end.

Definition create_syslog (cx : ctx) (dr : draws) (b : SyslogCreateIn)
  : M (D * audit_log) (list (string * val)) :=
  _ ← lift_res (guard_res (syslog_valid b) unprocessable);
  _ ← lift_res (_validate_syslog_host (host b));
  _ ← lift_res (_validate_syslog_protocol (protocol b));
  _ ← lift_res (_validate_syslog_facility (facility b));
  let c := new_connector dr "syslog"
             (name_or (syslog_name b) ("syslog-" +:+ host b +:+ ":" +:+ str_int (port b)))
             (syslog_config b) in
  finish_create cx c "syslog" "" "create source (syslog)"
    [("host", VStr (host b)); ("port", VInt (port b)); ("protocol", VStr (protocol b))].

Definition newest_source (a b : SourceConnector) : Prop := sc_created_at b <= sc_created_at a.

#[local] Instance newest_source_dec a b : Decision (newest_source a b).
Proof. unfold newest_source. apply _. Defined.

Fixpoint render_all (l : list (list (string * val))) : res (list (list (string * val))) :=
  match l with
  | [] => Ok []
  | d :: r => x ← render_model SourceConnectorOut d; cons x <$> render_all r
  end.

Definition list_sources : M D (list (list (string * val))) :=
  rows ← transaction (fun d => (d, Ok (merge_sort newest_source (map snd (map_to_list (db_sources d))))));
  lift_res (render_all (map (fun c => _connector_to_out c false None) rows)).

Record SourceStatusOut : Type := mkStatus {
  st_id : string; st_events_received : Z; st_last_event_at : option string;
  st_error_count : Z; st_rate_per_min : pyfloat; st_status : string }.

Definition get_status (id : string) (now : Z) : M D SourceStatusOut :=
  c ← transaction (_get_connector id);
  mret (mkStatus (sc_id c) (sc_events_received c) (isoformat <$> sc_last_event_at c)
          (sc_error_count c) (_compute_rate_per_min now (sc_events_received c) (sc_last_event_at c))
          (sc_status c)).

(** [post signature] is the self-call of the webhook test: its status code. *)
Context (post : string -> res Z).

Definition test_signature (c : SourceConnector) : string :=
  hex (hmac_sha256 (utf8 (sc_api_key c)) (utf8 (repr test_body))).

(** The statements up to the first commit, with the answer that is due then;
    [None] is the webhook platform, which goes on with the self-call. *)
Definition test_first (id : string) (now : Z) : M db (SourceConnector * option (list (string * val))) :=
  c ← _get_connector id;
  if String.eqb (sc_platform c) "syslog" then
    mret (c, Some (answer true 200 "syslog listener reachable"))
  else if String.eqb (sc_platform c) "cloudflare" then
    zone_ok ← lift_res (match_config _CF_ZONE_ID_RE "zone_id" (sc_config c));
    if negb zone_ok || negb (truthy (default (VList []) (assoc "datasets" (sc_config c))))
    then mret (c, Some [("delivered", VBool false); ("status_code", VInt 400);
                        ("detail=", VStr "stored config is invalid (zone_id or datasets)")])
    else _ ← update_connector (bump now c); mret (c, Some (answer true 200 "cloudflare config valid"))
  else if String.eqb (sc_platform c) "aws" then
    arn_ok ← lift_res (match_config _AWS_ROLE_ARN_RE "role_arn" (sc_config c));
    if negb arn_ok then mret (c, Some (answer false 400 "stored role_arn is invalid"))
    else
      group_ok ← lift_res (match_config _AWS_LOG_GROUP_RE "log_group" (sc_config c));
      if negb group_ok then mret (c, Some (answer false 400 "stored log_group is invalid"))
      else _ ← update_connector (bump now c); mret (c, Some (answer true 200 "aws config valid"))
  else _ ← update_connector (bump now c); mret (c, None).

Definition test_connector (id : string) (now later : Z) : M D (list (string * val)) :=
  first ← transaction (test_first id now);
  match snd first with
  | Some out => lift_res (render_model TestResultOut out)
  | None =>
      match post (test_signature (fst first)) with
      | Ok code => lift_res (render_model TestResultOut
                     (answer (code =? 200) code "webhook test delivered to /api/v1/ingest/webhook"))
      | Raise e =>
          if transport_error e then
            _ ← transaction (bump_statement id later);
            lift_res (render_model TestResultOut
              (answer false 0 "config valid; live self-call skipped"))
          else raise_M e
      end
  end.

Definition rotate_key (cx : ctx) (id : string) (dr : draws) : M D (list (string * val)) :=
  _ ← transaction (c ← _get_connector id; update_connector (with_key (dr_key dr) (dr_now dr) c));
  c ← transaction (refresh id);
  url ← lift_res (_ingest_url_for (cx_base_url cx) (sc_platform c) (sc_id c));
  lift_res (render_model SourceConnectorCreateOut
    (assoc_set "signing_secret"
       (VStr (if String.eqb (sc_platform c) "syslog" then "" else dr_secret dr))
       (_connector_to_out c true (Some url)))).

Definition delete_connector (cx : ctx) (id : string) : M (D * audit_log) unit :=
  c ← on_fst (transaction (c ← _get_connector id; _ ← delete_row (sc_id c); mret c));
  audited cx "delete source" (sc_id c) [("platform", VStr (sc_platform c))].

End Handlers.

(** ** [verify_webhook_signature] *)

Definition verify_webhook_signature (secret : string) (body : list Z) (signature_hex : string)
  : res bool :=
  if negb (nonempty signature_hex) || negb (nonempty secret) then Ok false
  else if negb (slen signature_hex =? 64) then Ok false
  else compare_digest (hex (hmac_sha256 (utf8 secret) body)) (lower signature_hex).

(** ** Sequences of requests *)

Inductive sop : Type :=
| OpCloudflare (cx : ctx) (dr : draws) (b : CloudflareCreateIn)
| OpAws (cx : ctx) (dr : draws) (b : AwsCreateIn)
| OpWebhook (cx : ctx) (dr : draws) (b : WebhookCreateIn)
| OpSyslog (cx : ctx) (dr : draws) (b : SyslogCreateIn)
| OpTest (id : string) (now later : Z) (reply : res Z)
| OpRotate (cx : ctx) (id : string) (dr : draws)
| OpDelete (cx : ctx) (id : string)
| OpList
| OpStatus (id : string) (now : Z).

Section Requests.
Context {D : Type} `{Database D}.

Definition ignore {S A} (m : M S A) : M S unit := _ ← m; mret tt.

Definition run_sop (o : sop) : M (D * audit_log) unit :=
  match o with
  | OpCloudflare cx dr b => ignore (create_cloudflare cx dr b)
  | OpAws cx dr b => ignore (create_aws cx dr b)
  | OpWebhook cx dr b => ignore (create_webhook cx dr b)
  | OpSyslog cx dr b => ignore (create_syslog cx dr b)
  | OpTest id now later reply => ignore (on_fst (test_connector (fun _ => reply) id now later))
  | OpRotate cx id dr => ignore (on_fst (rotate_key cx id dr))
  | OpDelete cx id => delete_connector cx id
  | OpList => ignore (on_fst list_sources)
  | OpStatus id now => ignore (on_fst (get_status id now))
  end.

(** Requests one after the other, each answered or refused. *)
Definition run_sops (os : list sop) (w : D * audit_log) : D * audit_log :=
  fold_left (fun w o => (run_sop o w).1) os w.

End Requests.

(** ** What a stored connector looks like *)

Definition config_wf (platform : string) (config : list (string * val)) : Prop :=
  (platform = "cloudflare" /\ exists z ds fp,
     config = [("zone_id", VStr z); ("datasets", VList (map VStr ds)); ("token_fingerprint", VStr fp)]
     /\ re_match _CF_ZONE_ID_RE z = true /\ ds <> [] /\ Forall (fun d => In d _CF_DATASETS) ds
     /\ slen fp <= 8)
  \/ (platform = "aws" /\ exists a g,
     config = [("role_arn", VStr a); ("log_group", VStr g)]
     /\ re_match _AWS_ROLE_ARN_RE a = true /\ re_match _AWS_LOG_GROUP_RE g = true)
  \/ (platform = "webhook" /\ exists f,
     config = [("format", VStr f)] /\ In f WEBHOOK_FORMATS)
  \/ (platform = "syslog" /\ exists h p pr rest,
     config = ("host", VStr h) :: ("port", VInt p) :: ("protocol", VStr pr) :: rest
     /\ _validate_syslog_host h = Ok tt /\ 1 <= p <= 65535 /\ In pr SYSLOG_PROTOCOLS).

Record connector_wf (c : SourceConnector) : Prop := {
  wf_fingerprint : sc_api_key_fingerprint c = _fingerprint (sc_api_key c);
  wf_status : sc_status c = "active";
  wf_events : 0 <= sc_events_received c < 2 ^ 31;
  wf_errors : sc_error_count c = 0;
  wf_config : config_wf (sc_platform c) (sc_config c)
}.

Definition sources_wf (st : db) : Prop :=
  forall id c, db_sources st !! id = Some c -> sc_id c = id /\ connector_wf c.

(** The other tables. *)
Definition rest_of (st : db) : db := set_sources (fun _ => ∅) st.

(** ** Lemmas *)

Lemma fingerprint_length s : slen (_fingerprint s) <= 8.
Proof.
  unfold _fingerprint, slen.
  assert (H : forall n t, String.length (drop_str n t) = (String.length t - n)%nat).
  { induction n as [|n IH]; intros t; cbn; [lia|]. destruct t; cbn; [done|apply IH]. }
  rewrite H. lia.
Qed.

Lemma validate_datasets_in ds :
  _validate_datasets ds = Ok tt -> Forall (fun d => In d _CF_DATASETS) ds.
Proof.
  induction ds as [|d ds IH]; cbn [_validate_datasets]; [constructor|].
  destruct (str_in d _CF_DATASETS) eqn:E; [|done]. intros H. apply str_in_spec in E.
  constructor; auto.
Qed.

Section Invariant.
Variable st0 : db.

Definition inv (st : db) : Prop := sources_wf st /\ rest_of st = rest_of st0.

Lemma inv_put c : (int32 (sc_events_received c) = true -> connector_wf c) ->
  keeps_inv inv (update_connector c).
Proof.
  intros Hc st [Hw Hr]. unfold update_connector. destruct (connector_ok c) eqn:E; [|done].
  split; [|exact Hr]. unfold connector_ok in E. bprop.
  intros id c'. cbn [fst db_sources set_sources]. rewrite lookup_insert.
  case_decide as Hid; [|apply Hw]. intros [= <-]. auto.
Qed.

Lemma inv_insert c : connector_wf c -> keeps_inv inv (insert_connector c).
Proof.
  intros Hc st [Hw Hr]. unfold insert_connector.
  destruct (negb _ && connector_ok c) eqn:E; [|done]. split; [|exact Hr].
  intros id c'. cbn [fst db_sources set_sources]. rewrite lookup_insert.
  case_decide as Hid; [|apply Hw]. by intros [= <-].
Qed.

Lemma inv_delete id : keeps_inv inv (delete_row id).
Proof.
  intros st [Hw Hr]. split; [|exact Hr]. intros i c. cbn [fst delete_row db_sources set_sources].
  rewrite lookup_delete. case_decide; [done|apply Hw].
Qed.

Lemma inv_get_bind {A} id (f : SourceConnector -> M db A) :
  (forall c, connector_wf c -> keeps_inv inv (f c)) -> keeps_inv inv (_get_connector id ≫= f).
Proof.
  intros Hf st Hi. unfold mbind, M_bind, _get_connector.
  destruct (db_sources st !! id) as [c|] eqn:E; [|done]. apply Hf; [|done]. by apply Hi in E as [_ ?].
Qed.

Lemma inv_refresh id : keeps_inv inv (refresh id).
Proof. by intros st. Qed.

Lemma bump_wf now c : connector_wf c -> int32 (sc_events_received c + 1) = true ->
  connector_wf (bump now c).
Proof.
  intros [] E. unfold int32 in E. bprop. constructor; cbn; auto. lia.
Qed.

Lemma with_key_wf key now c : connector_wf c -> connector_wf (with_key key now c).
Proof. by intros []; constructor. Qed.

Lemma inv_bump_statement id now : keeps_inv inv (bump_statement id now).
Proof.
  intros st Hi. unfold bump_statement. destruct (db_sources st !! id) as [c|] eqn:E; [|done].
  apply inv_put; [|done]. intros Hb. apply Hi in E as [_ []]. cbn in Hb. unfold int32 in Hb. bprop.
  constructor; cbn; auto. lia.
Qed.

Lemma inv_test_first id now : keeps_inv inv (test_first id now).
Proof.
  unfold test_first. apply inv_get_bind. intros c Hc.
  assert (Hb : forall A (f : unit -> M db A), (forall u, keeps_inv inv (f u)) ->
             keeps_inv inv (update_connector (bump now c) ≫= f)).
  { intros A f Hf. apply inv_bind; [apply inv_put; intros; by apply bump_wf|done]. }
  repeat match goal with
  | |- keeps_inv _ (if ?b then _ else _) => destruct b
  | |- keeps_inv _ (lift_res _ ≫= _) => apply inv_lift_bind; intros ? _
  end; auto with zq; apply Hb; auto with zq.
Qed.

End Invariant.

Section OnDatabase.
Context {D : Type} `{DatabaseLaws D}.
Variable st0 : db.

Definition winv (w : D * audit_log) : Prop := inv st0 (tables w.1).

Lemma inv_tx {A} (t : M db A) :
  keeps_inv (inv st0) t -> keeps_inv (fun d : D => inv st0 (tables d)) (transaction t).
Proof. apply inv_transaction. Qed.

Lemma inv_fst_tx {A} (t : M db A) : keeps_inv (inv st0) t -> keeps_inv winv (on_fst (transaction t)).
Proof. intros Ht. apply (inv_on_fst (fun d : D => inv st0 (tables d))). by apply inv_tx. Qed.

Lemma inv_audited cx action target extra : keeps_inv winv (audited cx action target extra).
Proof. apply inv_bind; [apply (inv_on_snd (fun d : D => inv st0 (tables d)))|auto with zq]. Qed.

Lemma inv_finish cx c platform secret action extra :
  connector_wf c -> keeps_inv winv (finish_create cx c platform secret action extra).
Proof.
  intros Hc. unfold finish_create. apply inv_bind; [by apply inv_fst_tx, inv_insert|].
  intros _. apply inv_bind; [apply inv_fst_tx, inv_refresh|]. intros c'.
  apply inv_lift_bind. intros url _. apply inv_bind; [apply inv_audited|auto with zq].
Qed.

Lemma new_connector_wf dr platform name config :
  config_wf platform config -> connector_wf (new_connector dr platform name config).
Proof. intros Hc. constructor; cbn; auto; lia. Qed.

Lemma inv_create_cloudflare cx dr b : keeps_inv winv (create_cloudflare cx dr b).
Proof.
  unfold create_cloudflare. apply inv_lift_bind. intros _ Hv%guard_res_ok.
  apply inv_lift_bind. intros _ Hz%guard_res_ok. apply inv_lift_bind. intros [] Hd.
  apply inv_finish, new_connector_wf. left. split; [done|]. exists (zone_id b), (datasets b), (_fingerprint (api_token b)).
  split; [reflexivity|]. split; [done|]. unfold cloudflare_valid in Hv. bprop.
  split; [by intros E; rewrite E in *|]. split; [by apply validate_datasets_in|].
  apply fingerprint_length.
Qed.

Lemma inv_create_aws cx dr b : keeps_inv winv (create_aws cx dr b).
Proof.
  unfold create_aws. apply inv_lift_bind. intros _ Hv%guard_res_ok.
  apply inv_lift_bind. intros _ Ha%guard_res_ok. apply inv_lift_bind. intros _ Hg%guard_res_ok.
  apply inv_finish, new_connector_wf. right; left. split; [done|].
  exists (role_arn b), (log_group b). done.
Qed.

Lemma inv_create_webhook cx dr b : keeps_inv winv (create_webhook cx dr b).
Proof.
  unfold create_webhook. apply inv_lift_bind. intros _ Hv%guard_res_ok.
  apply inv_lift_bind. intros _ Hf%guard_res_ok%str_in_spec.
  apply inv_finish, new_connector_wf. right; right; left. split; [done|]. eauto.
Qed.

Lemma inv_create_syslog cx dr b : keeps_inv winv (create_syslog cx dr b).
Proof.
  unfold create_syslog. apply inv_lift_bind. intros _ Hv%guard_res_ok.
  apply inv_lift_bind. intros [] Hh. apply inv_lift_bind. intros _ Hp%guard_res_ok%str_in_spec.
  apply inv_lift_bind. intros _ _. apply inv_finish, new_connector_wf. right; right; right.
  split; [done|]. unfold syslog_valid in Hv. bprop.
  exists (host b), (port b), (protocol b). unfold syslog_config.
  destruct (facility b) as [f|]; [exists [("facility", VStr f)]|exists []]; repeat split; auto; lia.
Qed.

Lemma inv_test_connector post id now later :
  keeps_inv winv (on_fst (test_connector post id now later)).
Proof.
  apply (inv_on_fst (fun d : D => inv st0 (tables d))). unfold test_connector.
  apply inv_bind; [apply inv_tx, inv_test_first|]. intros [c [out|]]; cbn [fst snd]; [auto with zq|].
  destruct (post _) as [code|e]; [auto with zq|]. destruct (transport_error e); [|by intros ?].
  apply inv_bind; [apply inv_tx, inv_bump_statement|auto with zq].
Qed.

Lemma inv_rotate cx id dr : keeps_inv winv (on_fst (rotate_key cx id dr)).
Proof.
  apply (inv_on_fst (fun d : D => inv st0 (tables d))). unfold rotate_key.
  apply inv_bind.
  - apply inv_tx, inv_get_bind. intros c Hc. apply inv_put. intros _. by apply with_key_wf.
  - intros _. apply inv_bind; [apply inv_tx, inv_refresh|]. intros c.
    apply inv_lift_bind. intros url _. apply inv_lift.
Qed.

Lemma inv_sop o : keeps_inv winv (run_sop o).
Proof.
  assert (Hig : forall A (m : M (D * audit_log) A), keeps_inv winv m -> keeps_inv winv (ignore m))
    by (intros A m Hm; apply inv_bind; auto with zq).
  destruct o; cbn [run_sop]; try apply Hig.
  - apply inv_create_cloudflare.
  - apply inv_create_aws.
  - apply inv_create_webhook.
  - apply inv_create_syslog.
  - apply inv_test_connector.
  - apply inv_rotate.
  - apply inv_bind; [apply inv_fst_tx, inv_get_bind; intros c Hc|intros c; apply inv_audited].
    apply inv_bind; [apply inv_delete|auto with zq].
  - apply (inv_on_fst (fun d : D => inv st0 (tables d))).
    apply inv_bind; [apply inv_tx; by intros ?|auto with zq].
  - apply (inv_on_fst (fun d : D => inv st0 (tables d))).
    apply inv_bind; [apply inv_tx; by intros ?|auto with zq].
Qed.

End OnDatabase.

(** *** The signing secret *)

Definition redraw (f : draws -> string) (dr : draws) : draws :=
  mkDraws (dr_id dr) (dr_key dr) (f dr) (dr_now dr).

(** The same request with another signing secret drawn. *)
Definition redraw_op (f : draws -> string) (o : sop) : sop :=
  match o with
  | OpCloudflare cx dr b => OpCloudflare cx (redraw f dr) b
  | OpAws cx dr b => OpAws cx (redraw f dr) b
  | OpWebhook cx dr b => OpWebhook cx (redraw f dr) b
  | OpSyslog cx dr b => OpSyslog cx (redraw f dr) b
  | OpRotate cx id dr => OpRotate cx id (redraw f dr)
  | o => o
  end.

Section Secret.
Context {D : Type} `{Database D}.

Lemma ignore_state {S A} (m : M S A) s : (ignore m s).1 = (m s).1.
Proof. unfold ignore, mbind, M_bind. by destruct (m s) as [? [?|?]]. Qed.

Lemma bind_state {S A B} (m : M S A) (f g : A -> M S B) s :
  (forall a s, (f a s).1 = (g a s).1) -> ((m ≫= f) s).1 = ((m ≫= g) s).1.
Proof. intros Hf. unfold mbind, M_bind. destruct (m s) as [s' [a|e]]; [apply Hf|done]. Qed.

Lemma redraw_state f o (w : D * audit_log) : (run_sop (redraw_op f o) w).1 = (run_sop o w).1.
Proof.
  destruct o; cbn [redraw_op run_sop]; rewrite ?ignore_state; try done.
  1-3: unfold create_cloudflare, create_aws, create_webhook;
       repeat (apply bind_state; intros ??); done.
  unfold on_fst, rotate_key. destruct w as [d a]. cbn [fst snd].
  assert (E : ((rotate_key cx id (redraw f dr)) d).1 = (rotate_key cx id dr d).1).
  { unfold rotate_key. repeat (apply bind_state; intros ??). done. }
  unfold rotate_key in E.
  repeat match goal with |- context [let '(_, _) := ?x in _] => destruct x end.
  cbn in *. by rewrite E.
Qed.

Lemma redraw_ops f os : forall w : D * audit_log, run_sops (map (redraw_op f) os) w = run_sops os w.
Proof.
  induction os as [|o os IH]; intros w; cbn [map run_sops fold_left]; [done|].
  rewrite redraw_state. apply IH.
Qed.

End Secret.

(** *** Host names *)

Definition octet_ok (o : string) : bool := sforall is_digit o && len_in 1 3 o.

(** An RFC 1123 label: at most 63 letters, digits and inner hyphens. *)
Definition label_ok (l : string) : bool :=
  sforall label_char l && len_in 1 63 l
  && is_alnum_ascii (default "-"%char (String.get 0 l))
  && is_alnum_ascii (default "-"%char (String.get (String.length l - 1) l)).

Lemma den_octet w r : den octet_re w r <-> octet_ok w = true.
Proof. unfold octet_re, octet_ok. by rewrite den_rep_class, andb_true_iff, len_in_spec. Qed.

Lemma get_app_last (a : string) c b : String.get (String.length a) (a +:+ String c b) = Some c.
Proof. induction a as [|x a IH]; cbn; [done|apply IH]. Qed.

Lemma split_last (s : string) : s = "" \/ exists a c, s = a +:+ String c "".
Proof.
  induction s as [|c s [->|(a&d&->)]]; [by left|right; by exists "", c|right].
  by exists (String c a), d.
Qed.

Lemma den_label w r : den label_re w r <-> label_ok w = true.
Proof.
  unfold label_re, label_ok. rewrite den_cat. split.
  - intros (w1&w2&->&(c&->&Hc)&H). assert (Hlc : label_char c = true).
    { unfold label_char. by rewrite Hc. }
    rewrite den_opt, den_cat in H. destruct H as [(w3&w4&->&H3&(d&->&Hd))| ->].
    + apply den_rep_class in H3 as [H3 Hl]. assert (Hld : label_char d = true).
      { unfold label_char. by rewrite Hd. }
      change (String c "" +:+ (w3 +:+ String d "")) with (String c (w3 +:+ String d "")).
      unfold len_in. cbn [sforall String.length]. rewrite sforall_app, sapp_length. cbn [sforall String.length].
      rewrite Hlc, H3, Hld. cbn [andb]. rewrite !andb_true_iff, !Nat.leb_le.
      replace (S (String.length w3 + 1) - 1)%nat with (S (String.length w3)) by lia.
      cbn [String.get]. rewrite get_app_last. cbn [default from_option Datatypes.id]. repeat split; (done || lia).
    + cbn. by rewrite Hlc, Hc.
  - intros H. bprop. apply len_in_spec in H2.
    destruct w as [|c w]; [cbn in H2; lia|]. cbn in H1.
    exists (String c ""), w. rewrite den_opt, den_class. split; [done|]. split; [eauto|].
    destruct (split_last w) as [->|(a&d&->)]; [by right|left].
    rewrite den_cat. exists a, (String d ""). split; [done|]. cbn [sforall String.length] in *.
    rewrite sforall_app in H. rewrite sapp_length in *. cbn [String.length sforall] in *. bprop.
    replace (S (String.length a + 1) - 1)%nat with (S (String.length a)) in H0 by lia.
    cbn [String.get] in H0. rewrite get_app_last in H0. cbn in H0.
    split; [apply den_rep_class; split; [done|lia]|]. rewrite den_class. eauto.
Qed.

Lemma label_no_dot l : label_ok l = true -> sexists (is_char ".") l = false.
Proof. unfold label_ok. intros H. bprop. by apply (class_no_char label_char). Qed.

Lemma octet_no_dot o : octet_ok o = true -> sexists (is_char ".") o = false.
Proof. unfold octet_ok. intros H. bprop. by apply (class_no_char is_digit). Qed.

Lemma den_dotted w r :
  den (Rcat label_re (Rstar (Rcat (Rlit ".") label_re))) w r
  <-> forallb label_ok (split_char "." w) = true.
Proof.
  rewrite den_cat. split.
  - intros (l&rest&->&Hl&Hs). apply den_label in Hl. revert l Hl. cbn [den] in Hs.
    induction Hs as [r|w1 w2 r _ (d&l'&->&->&Hl') _ IH]; intros l Hl.
    + rewrite sapp_nil_r, split_char_one by (by apply label_no_dot). cbn. by rewrite Hl.
    + apply den_label in Hl'. change ((("." +:+ l') +:+ w2)) with (String "." (l' +:+ w2)).
      rewrite split_char_app by (by apply label_no_dot). cbn [forallb]. by rewrite Hl, IH.
  - intros H. rewrite <- (join_split_char "." w). pose proof (split_char_nonnil "." w) as Hn.
    revert H Hn. generalize (split_char "." w). intros ps.
    induction ps as [|p ps IH]; [done|]. cbn [forallb]. intros H _. bprop.
    destruct ps as [|q ps].
    + exists p, "". rewrite sapp_nil_r. cbn [join]. split; [done|].
      split; [by apply den_label|constructor].
    + destruct IH as (l&rest&E&Hl&Hs); [done|done|].
      exists p, (("." +:+ l) +:+ rest). split; [change (p +:+ "." +:+ join "." (q :: ps)
        = p +:+ "." +:+ (l +:+ rest)); by rewrite E|].
      split; [by apply den_label|]. cbn [den]. constructor; [done| |exact Hs].
      exists ".", l. split; [done|]. split; [done|]. apply den_label. by apply den_label in Hl.
Qed.

Definition quad (h : string) : bool :=
  match split_char "." h with
  | [a; b; c; d] => octet_ok a && octet_ok b && octet_ok c && octet_ok d
  | _ => false
  end.

Lemma den_quad w r :
  den (Rcat (Rrep 3 3 (Rcat octet_re (Rlit "."))) octet_re) w r <-> quad w = true.
Proof.
  unfold quad. rewrite den_cat. cbn [den rep_den pred]. split.
  - intros (w1&w2&->&H&Hd%den_octet).
    destruct H as [[? _]|(x1&y1&->&(o1&d1&->&H1&->)&H)]; [done|].
    destruct H as [[? _]|(x2&y2&->&(o2&d2&->&H2&->)&H)]; [done|].
    destruct H as [[? _]|(x3&y3&->&(o3&d3&->&H3&->)&H)]; [done|].
    destruct H as [[_ ->]|[]].
    apply den_octet in H1, H2, H3. rewrite !sapp_assoc.
    cbn [String.append]. rewrite !split_char_app, split_char_one by (by apply octet_no_dot).
    by rewrite H1, H2, H3, Hd.
  - intros H. pose proof (join_split_char "." w) as Hj.
    destruct (split_char "." w) as [|a [|b [|c [|d [|]]]]]; try discriminate H. bprop.
    exists ((a +:+ ".") +:+ ((b +:+ ".") +:+ ((c +:+ ".") +:+ ""))), d.
    split; [rewrite <- Hj, sapp_nil_r, !sapp_assoc; reflexivity|]. split; [|by apply den_octet].
    right. exists (a +:+ "."), ((b +:+ ".") +:+ ((c +:+ ".") +:+ "")). split; [done|].
    split; [exists a, "."; split; [done|split; [by apply den_octet|done]]|].
    right. exists (b +:+ "."), ((c +:+ ".") +:+ ""). split; [done|].
    split; [exists b, "."; split; [done|split; [by apply den_octet|done]]|].
    right. exists (c +:+ "."), "". split; [done|].
    split; [exists c, "."; split; [done|split; [by apply den_octet|done]]|]. by left.
Qed.

Lemma droplast_snoc p (a : string) c : p c = true -> droplast p (a +:+ String c "") = droplast p a.
Proof. intros Hc. induction a as [|x a IH]; cbn; [by rewrite Hc|]. by rewrite IH. Qed.

(** [int] ignores a newline at the end of its text. *)
Lemma py_int_nl o : py_int (o +:+ nl) = py_int o.
Proof. unfold py_int, strip, rstrip, nl. by rewrite droplast_snoc. Qed.

Lemma quad_no_nl w : quad w = true -> sexists (is_char "010") w = false.
Proof.
  unfold quad. intros H. pose proof (join_split_char "." w) as Hj.
  destruct (split_char "." w) as [|a [|b [|c [|d [|]]]]]; try discriminate H. rewrite <- Hj. bprop.
  assert (Ho : forall o, octet_ok o = true -> sexists (is_char "010") o = false).
  { unfold octet_ok. intros o Ho. bprop. by apply (class_no_char is_digit). }
  cbn [join]. rewrite !sexists_app, (Ho a), (Ho b), (Ho c), (Ho d) by done. reflexivity.
Qed.

Lemma dotted_no_nl w : forallb label_ok (split_char "." w) = true -> sexists (is_char "010") w = false.
Proof.
  intros H. rewrite <- (join_split_char "." w). revert H. generalize (split_char "." w). intros ps.
  induction ps as [|p ps IH]; cbn [forallb]; intros H; [done|]. bprop.
  assert (Hp : sexists (is_char "010") p = false).
  { unfold label_ok in H. bprop. by apply (class_no_char label_char). }
  destruct ps as [|q ps]; [done|].
  change (join "." (p :: q :: ps)) with (p +:+ "." +:+ join "." (q :: ps)).
  rewrite !sexists_app, Hp, IH by done. reflexivity.
Qed.

(** Digits are read by [int] as a number that is not negative. *)
Lemma int_digits_some s : forall acc, sforall is_digit s = true ->
  exists z, int_digits s acc true = Some z.
Proof.
  induction s as [|c s IH]; intros acc H; cbn in *; [eauto|]. bprop. rewrite H. by apply IH.
Qed.

Lemma octet_int o : octet_ok o = true -> exists z, py_int o = Some z /\ 0 <= z.
Proof.
  unfold octet_ok. intros H. bprop. apply len_in_spec in H0. unfold py_int.
  rewrite strip_none by (by apply nonspace_digits).
  assert (Hu : exists z, int_unsigned o = Some z /\ 0 <= z).
  { unfold int_unsigned.
    assert (Hc : count_digits o <= 3).
    { assert (Hl : forall s, count_digits s <= Z.of_nat (String.length s)).
      { induction s as [|c s IH]; cbn [count_digits String.length]; [lia|]. destruct (is_digit c); lia. }
      specialize (Hl o). lia. }
    unfold int_max_str_digits. destruct (Z.ltb_spec 4300 (count_digits o)); [lia|].
    destruct o as [|c o]; [cbn in H0; lia|]. cbn in H. bprop. cbn [int_digits]. rewrite H.
    destruct (int_digits_some o (0 * 10 + digit_val c) ltac:(done)) as [z Hz].
    exists z. split; [done|]. eapply int_digits_nonneg; [|exact Hz].
    apply is_digit_range in H. unfold digit_val. lia. }
  destruct o as [|c o]; [cbn in H0; lia|]. cbn in H. bprop.
  ascii_cases c; first [exact Hu | vm_compute in H; discriminate H].
Qed.

Definition small_octet (o : string) : bool :=
  match py_int o with Some v => v <=? 255 | None => false end.

Lemma check_octets_spec os :
  Forall (fun o => exists z, py_int o = Some z /\ 0 <= z) os ->
  check_octets os = Ok tt <-> forallb small_octet os = true.
Proof.
  induction 1 as [|o os (z&Hz&Hp) _ IH]; [done|]. cbn [check_octets forallb].
  unfold small_octet at 1. cbn [int_of]. rewrite Hz. cbv beta iota delta [mbind res_bind].
  destruct (Z.ltb_spec z 0); [lia|]. destruct (Z.ltb_spec 255 z), (Z.leb_spec z 255); try lia; done.
Qed.

Lemma match_ipv4 h : re_match _IPV4_RE h = quad (chomp h).
Proof.
  apply (match_end_chomp _ quad); [intros; apply den_quad|apply quad_no_nl].
Qed.

Lemma hostname_spec h :
  _HOSTNAME_RE h = len_in 1 253 (chomp h) && forallb label_ok (split_char "." (chomp h)).
Proof.
  unfold _HOSTNAME_RE. unfold host_lookahead. rewrite match_class_end by done.
  unfold hostname_body.
  rewrite (match_end_chomp _ (fun w => forallb label_ok (split_char "." w)))
    by (intros; by first [apply den_dotted|apply dotted_no_nl]).
  destruct (forallb label_ok _) eqn:E; [|by rewrite !andb_false_r]. rewrite !andb_true_r.
  apply dotted_no_nl in E. rewrite sexists_sforall in E. bprop. by rewrite E.
Qed.

Lemma split_char_nl w (ps : list string) l :
  split_char "." w = ps ++ [l] -> split_char "." (w +:+ nl) = ps ++ [l +:+ nl].
Proof.
  revert ps l. induction w as [|c w IH]; intros ps l; cbn [split_char String.append].
  - destruct ps as [|p [|q ps]]; cbn; intros H; try discriminate H. by injection H as <-.
  - destruct (is_char "." c) eqn:E.
    + destruct ps as [|p ps]; cbn [app]; intros H.
      * injection H as _ H. by destruct (split_char_nonnil "." w).
      * injection H as <- H. by rewrite (IH ps l).
    + pose proof (split_char_nonnil "." w) as Hn.
      destruct (split_char "." w) as [|h t] eqn:Es; [done|]. intros H.
      destruct ps as [|p ps]; cbn [app] in *.
      * injection H as <- ->. by rewrite (IH [] h eq_refl).
      * injection H as <- ->. by rewrite (IH (h :: ps) l eq_refl).
Qed.

Lemma quad_pieces h :
  quad (chomp h) = true ->
  check_octets (split_char "." h) = Ok tt <-> forallb small_octet (split_char "." (chomp h)) = true.
Proof.
  intros Hq. assert (Hall : Forall (fun o => octet_ok o = true) (split_char "." (chomp h))).
  { unfold quad in Hq. destruct (split_char "." (chomp h)) as [|a [|b [|c [|d [|]]]]]; try done.
    bprop. by repeat constructor. }
  assert (Hint : Forall (fun o => exists z, py_int o = Some z /\ 0 <= z) (split_char "." (chomp h)))
    by (eapply Forall_impl; [exact Hall|intros o; apply octet_int]).
  destruct (chomp_line h) as [E|E].
  { rewrite E at 1. by apply check_octets_spec. }
  rewrite E at 1. destruct (split_char "." (chomp h)) as [|p ps _] eqn:Es using rev_ind.
  { by apply split_char_nonnil in Es. }
  rewrite (split_char_nl _ _ _ Es). apply Forall_app in Hint as [H1 H2].
  apply Forall_cons in H2 as [H2 _].
  rewrite check_octets_spec.
  - rewrite !forallb_app. cbn [forallb]. unfold small_octet at 2 4. by rewrite py_int_nl.
  - apply Forall_app. split; [done|]. constructor; [|constructor]. by rewrite py_int_nl.
Qed.

(** ** Properties *)

(** C21. Whatever requests arrive, in any order, refused or not, and whatever
    connections the database loses: every stored connector keeps the last eight
    characters of its key as fingerprint, the status "active", an error count
    of 0, a 32-bit event counter that is not negative, and a configuration its
    platform's validators accept; no other table changes; and the signing
    secrets that creation and rotation answer with are stored nowhere, since
    drawing others changes neither the database nor the audit log. *)
Theorem source_store_invariant {D : Type} `{DatabaseLaws D} (os : list sop) (w : D * audit_log)
    (Hw : sources_wf (tables w.1)) :
  let w' := run_sops os w in
  (forall id c, db_sources (tables w'.1) !! id = Some c ->
     sc_id c = id
     /\ sc_api_key_fingerprint c = drop_str (String.length (sc_api_key c) - 8) (sc_api_key c)
     /\ sc_status c = "active" /\ sc_error_count c = 0 /\ 0 <= sc_events_received c < 2 ^ 31
     /\ config_wf (sc_platform c) (sc_config c))
  /\ set_sources (fun _ => ∅) (tables w'.1) = set_sources (fun _ => ∅) (tables w.1)
  /\ forall f, run_sops (map (redraw_op f) os) w = w'.
Proof.
  cbv zeta. assert (Hinv : inv (tables w.1) (tables (run_sops os w).1)).
  { assert (Hi : inv (tables w.1) (tables w.1)) by done. revert Hi. generalize (tables w.1) at 1 3.
    clear Hw. revert w. induction os as [|o os IH]; intros w st0 Hi; [done|].
    cbn [run_sops fold_left]. apply (IH _ st0). by apply (inv_sop st0 o w). }
  destruct Hinv as [Hs Hr]. split; [|split; [exact Hr|]].
  - intros id c Hc. apply Hs in Hc as [Hid []]. done.
  - intros f. apply redraw_ops.
Qed.

(** The host of a syslog source is accepted exactly when, without one final
    newline, it is four groups of one to three digits none above 255, or it is
    no such quadruple and has 1 to 253 characters in labels of at most 63
    letters, digits and inner hyphens. *)
Theorem syslog_host_iff (h : string) :
  _validate_syslog_host h = Ok tt
  <-> (if quad (chomp h) then forallb small_octet (split_char "." (chomp h)) = true
       else len_in 1 253 (chomp h) && forallb label_ok (split_char "." (chomp h)) = true).
Proof.
  unfold _validate_syslog_host. rewrite match_ipv4. destruct (quad (chomp h)) eqn:E.
  - by apply quad_pieces.
  - by rewrite guard_res_ok, hostname_spec.
Qed.

(** What the rows of a new syslog source look like. *)
Definition syslog_row (dr : draws) (b : SyslogCreateIn) : SourceConnector :=
  mkConnector (dr_id dr) "syslog"
    (Some (name_or (syslog_name b) ("syslog-" +:+ host b +:+ ":" +:+ str_int (port b))))
    (syslog_config b) (dr_key dr) (drop_str (String.length (dr_key dr) - 8) (dr_key dr))
    "active" 0 0 None (dr_now dr) (dr_now dr).

Lemma finish_syslog (cx : ctx) c secret action extra (d : db) (a : audit_log) :
  present (db_sources d) (sc_id c) = false -> connector_ok c = true -> sc_platform c = "syslog" ->
  finish_create cx c "syslog" secret action extra (d, a)
  = ((set_sources (insert (sc_id c) c) d, a), Raise NameError).
Proof.
  intros Hp Hok Hpl. unfold finish_create, mbind, M_bind, on_fst. cbn [fst snd transaction mem_database].
  unfold run_transaction, insert_connector, refresh. rewrite Hp, Hok. cbn [negb andb fst snd db_sources set_sources].
  rewrite lookup_insert_eq. done.
Qed.

(** A syslog source can be registered but never answered: whatever the
    request and whatever the database loses, creation raises and leaves no audit
    entry, while the row may be stored; a valid request on a working database
    stores the row and then fails with [NameError], so the caller gets a server
    error and nobody learns the key.  Rotating the key of a syslog source stores
    a new key and fails the same way. *)
Theorem syslog_key_lost (cx : ctx) (dr : draws) (b : SyslogCreateIn) :
  (forall (D : Type) `(DatabaseLaws D) (w : D * audit_log),
     (exists e, (create_syslog cx dr b w).2 = Raise e)
     /\ (create_syslog cx dr b w).1.2 = w.2
     /\ (tables (create_syslog cx dr b w).1.1 = tables w.1
         \/ tables (create_syslog cx dr b w).1.1
            = set_sources (insert (dr_id dr) (syslog_row dr b)) (tables w.1)))
  /\ (forall (d : db) (a : audit_log),
       syslog_valid b = true -> _validate_syslog_host (host b) = Ok tt ->
       In (protocol b) SYSLOG_PROTOCOLS -> opt_all (fun f => str_in f SYSLOG_FACILITIES) (facility b) = true ->
       db_sources d !! dr_id dr = None -> connector_ok (syslog_row dr b) = true ->
       create_syslog cx dr b (d, a)
       = ((set_sources (insert (dr_id dr) (syslog_row dr b)) d, a), Raise NameError))
  /\ (forall (d : db) id c,
       db_sources d !! id = Some c -> sc_id c = id -> sc_platform c = "syslog" ->
       connector_ok (with_key (dr_key dr) (dr_now dr) c) = true ->
       rotate_key cx id dr d
       = (set_sources (insert id (with_key (dr_key dr) (dr_now dr) c)) d, Raise NameError)).
Proof.
  split; [|split].
  - intros D HD HL [d a]. unfold create_syslog.
    assert (Hskip : forall (r : res unit) (f : unit -> M (D * audit_log) (list (string * val))),
      (forall u, (exists e, (f u (d, a)).2 = Raise e) /\ (f u (d, a)).1.2 = a
         /\ (tables (f u (d, a)).1.1 = tables d
             \/ tables (f u (d, a)).1.1 = set_sources (insert (dr_id dr) (syslog_row dr b)) (tables d))) ->
      (exists e, ((lift_res r ≫= f) (d, a)).2 = Raise e) /\ ((lift_res r ≫= f) (d, a)).1.2 = a
         /\ (tables ((lift_res r ≫= f) (d, a)).1.1 = tables d
             \/ tables ((lift_res r ≫= f) (d, a)).1.1
                = set_sources (insert (dr_id dr) (syslog_row dr b)) (tables d))).
    { intros r f Hf. unfold mbind, M_bind, lift_res. destruct r as [u|e]; [apply Hf|]. cbn. eauto. }
    do 4 (apply Hskip; intros ?). change (new_connector dr "syslog" _ _) with (syslog_row dr b).
    unfold finish_create, mbind, M_bind, on_fst. cbn [fst snd].
    pose proof (transaction_cases (insert_connector (syslog_row dr b)) d) as L.
    destruct (transaction (insert_connector _) d) as [d1 r1]. cbn [fst snd] in L.
    destruct L as [[E [e ->]]|(u9&E&Hr)]; [cbn; eauto|].
    assert (E1 : tables d1 = set_sources (insert (dr_id dr) (syslog_row dr b)) (tables d)).
    { unfold insert_connector in E. destruct (_ && _); [by injection E as <- _|discriminate E]. }
    destruct Hr as [->| ->]; [|cbn; eauto].
    cbn [fst snd]. pose proof (transaction_cases (refresh (sc_id (syslog_row dr b))) d1) as L.
    destruct (transaction (refresh _) d1) as [d2 r2]. cbn [fst snd] in L.
    assert (E2 : tables d2 = tables d1).
    { destruct L as [[-> _]|(u8&Er&_)]; [done|]. unfold refresh in Er. by injection Er. }
    destruct r2 as [c'|e]; cbn; rewrite E2, E1; eauto.
  - intros d a Hv Hh Hp Hf Hid Hok. unfold create_syslog, mbind, M_bind, lift_res.
    unfold _validate_syslog_protocol, _validate_syslog_facility. apply str_in_spec in Hp.
    rewrite Hv, Hh, Hp, Hf. cbv beta iota delta [guard_res].
    apply (finish_syslog cx (syslog_row dr b)); [by apply present_false|done|done].
  - intros d id c Hc <- Hp Hok. unfold rotate_key, mbind, M_bind, lift_res. cbn [transaction mem_database].
    unfold run_transaction, _get_connector, update_connector, refresh. rewrite Hc, Hok.
    cbn [sc_id with_key db_sources set_sources]. rewrite lookup_insert_eq.
    cbn [sc_platform with_key]. by rewrite Hp.
Qed.

Lemma bump_ok c now : connector_ok c = true -> 0 <= sc_events_received c < 2 ^ 31 - 1 ->
  connector_ok (bump now c) = true.
Proof.
  unfold connector_ok. cbn. intros H He. bprop. rewrite !andb_true_iff. repeat split; auto.
  unfold int32. apply andb_true_iff. rewrite Z.leb_le, Z.ltb_lt. lia.
Qed.

(** Its first transaction: the configuration is checked and the event counted. *)
Lemma test_first_spec (d : db) id c now :
  db_sources d !! id = Some c -> sc_id c = id -> connector_wf c -> connector_ok c = true ->
  sc_events_received c < 2 ^ 31 - 2 ->
  test_first id now d
  = (if String.eqb (sc_platform c) "syslog" then d else set_sources (insert id (bump now c)) d,
     Ok (c, if String.eqb (sc_platform c) "syslog" then Some (answer true 200 "syslog listener reachable")
            else if String.eqb (sc_platform c) "cloudflare"
            then Some (answer true 200 "cloudflare config valid")
            else if String.eqb (sc_platform c) "aws" then Some (answer true 200 "aws config valid")
            else None)).
Proof.
  intros Hc Hid Hwf Hok He. pose proof (wf_events c Hwf) as Hev.
  assert (Hb : update_connector (bump now c) d = (set_sources (insert id (bump now c)) d, Ok tt)).
  { unfold update_connector. rewrite bump_ok by (done || lia). by rewrite <- Hid. }
  unfold test_first, _get_connector. unfold mbind at 1, M_bind at 1. rewrite Hc.
  destruct (wf_config c Hwf) as [(Hp&z&ds&fp&Hcf&Hz&Hne&_)|[(Hp&a&g&Hcf&Ha&Hg)|[(Hp&f&Hcf&_)|(Hp&_)]]];
    rewrite Hp; cbn [String.eqb Ascii.eqb Bool.eqb]; unfold mbind, M_bind, lift_res, match_config.
  - rewrite Hcf. cbn [assoc String.eqb Ascii.eqb Bool.eqb default from_option Datatypes.id]. rewrite Hz.
    destruct ds as [|x ds]; [done|]. cbn [negb map truthy orb]. by rewrite Hb.
  - rewrite Hcf. cbn [assoc String.eqb Ascii.eqb Bool.eqb default from_option Datatypes.id]. rewrite Ha, Hg.
    cbn [negb]. by rewrite Hb.
  - by rewrite Hb.
  - done.
Qed.

(** The test of a stored connector on a working database: a syslog source
    changes nothing and reports success; Cloudflare and AWS sources always pass
    and count one event; a webhook source counts one event before the self-call
    whatever its answer, and a second one when the call cannot be made, which is
    reported as not delivered. *)
Theorem test_connector_spec (d : db) id c now later reply
    (Hc : db_sources d !! id = Some c) (Hid : sc_id c = id) (Hwf : connector_wf c)
    (Hok : connector_ok c = true) (He : sc_events_received c < 2 ^ 31 - 2) :
  let bumped := set_sources (insert id (bump now c)) d in
  match test_connector (fun _ => reply) id now later d with
  | (d', Ok out) =>
      (sc_platform c = "syslog" -> d' = d /\ assoc "delivered" out = Some (VBool true))
      /\ (In (sc_platform c) ["cloudflare"; "aws"] ->
            d' = bumped /\ assoc "delivered" out = Some (VBool true))
      /\ (sc_platform c = "webhook" ->
            match reply with
            | Ok code => d' = bumped /\ assoc "delivered" out = Some (VBool (code =? 200))
            | Raise _ =>
                (exists c', db_sources d' !! id = Some c'
                   /\ sc_events_received c' = sc_events_received c + 2)
                /\ assoc "delivered" out = Some (VBool false)
            end)
  | (d', Raise e) =>
      sc_platform c = "webhook" /\ reply = Raise e /\ transport_error e = false /\ d' = bumped
  end.
Proof.
  cbv zeta. pose proof (wf_events c Hwf) as Hev.
  pose proof (test_first_spec d id c now Hc Hid Hwf Hok He) as Hfirst.
  unfold test_connector. unfold mbind at 1, M_bind at 1. cbn [transaction mem_database].
  unfold run_transaction. rewrite Hfirst. cbn [fst snd].
  assert (Hplat : forall (P Q R : Prop),
    (sc_platform c = "syslog" -> P) -> (In (sc_platform c) ["cloudflare"; "aws"] -> Q) ->
    (sc_platform c = "webhook" -> R) ->
    (sc_platform c = "syslog" -> P) /\ (In (sc_platform c) ["cloudflare"; "aws"] -> Q)
    /\ (sc_platform c = "webhook" -> R)) by tauto.
  destruct (wf_config c Hwf) as [[Hp _]|[[Hp _]|[[Hp _]|[Hp _]]]]; rewrite Hp in *;
    cbn [String.eqb Ascii.eqb Bool.eqb].
  - apply Hplat; [discriminate|done|discriminate].
  - apply Hplat; [discriminate|done|discriminate].
  - destruct reply as [code|e].
    + apply Hplat; [discriminate|intros [?|[?|[]]]; discriminate|done].
    + destruct (transport_error e) eqn:Et; [|done].
      unfold mbind, M_bind, bump_statement, update_connector. cbn [db_sources set_sources].
      rewrite lookup_insert_eq.
      match goal with |- context [connector_ok ?x] => assert (Hx : connector_ok x = true) end.
      { pose proof (bump_ok (bump now c) later) as Hx. unfold connector_ok in *. cbn in *.
        apply Hx; [|lia]. by apply (bump_ok c now); [|lia]. }
      rewrite Hx. apply Hplat; [discriminate|intros [?|[?|[]]]; discriminate|].
      intros _. split; [|done]. cbn [sc_id bump db_sources set_sources]. rewrite Hid.
      eexists. rewrite lookup_insert_eq. split; [done|]. cbn. lia.
  - apply Hplat; [done|intros [?|[?|[]]]; discriminate|discriminate].
Qed.

(** A webhook signature is accepted exactly when the secret is not empty and
    the signature, in either case of letters, is the hexadecimal HMAC-SHA256 of
    the body; the check raises [TypeError], instead of answering no, exactly on
    signatures of 64 characters that are not all ASCII. *)
Theorem verify_webhook_signature_spec (secret : string) (body : list Z) (sig : string) :
  (verify_webhook_signature secret body sig = Ok true
   <-> secret <> "" /\ lower sig = hex (hmac_sha256 (utf8 secret) body))
  /\ (verify_webhook_signature secret body sig = Raise TypeError
      <-> secret <> "" /\ slen sig = 64 /\ is_ascii sig = false)
  /\ (forall e, verify_webhook_signature secret body sig = Raise e -> e = TypeError).
Proof.
  unfold verify_webhook_signature. set (mac := hex (hmac_sha256 (utf8 secret) body)).
  assert (Hl : slen mac = 64).
  { unfold mac. rewrite hex_length. unfold hmac_sha256. by rewrite sha256_length. }
  assert (Ha : is_ascii mac = true) by (apply hex_ascii, hex_is_hex; unfold hmac_sha256; apply sha256_range).
  clearbody mac. destruct secret as [|c secret].
  { rewrite orb_true_r. split; [|split]; [split; [done|by intros [? _]]..|done]. }
  assert (Hne : String c secret <> "") by done.
  destruct (nonempty sig) eqn:Es; cbn [negb orb nonempty]; last first.
  { destruct sig; [|done]. split; [|split]; [split; [done|]..|done].
    - intros [_ E]. rewrite <- E in Hl. done.
    - by intros (_&?&_). }
  destruct (slen sig =? 64) eqn:El; bprop; cbn [negb]; last first.
  { split; [|split]; [split; [done|]..|done].
    - intros [_ E]. rewrite <- E, lower_length in Hl. done.
    - by intros (_&?&_). }
  unfold compare_digest. rewrite Ha, lower_ascii. cbn [andb].
  destruct (is_ascii sig) eqn:Ei.
  - split; [|split].
    + split; [intros [= E%String.eqb_eq]; done|intros [_ ->]; by rewrite String.eqb_refl].
    + split; [done|by intros (_&_&?)].
    + done.
  - split; [|split].
    + split; [done|]. intros [_ E]. rewrite <- E, lower_ascii in Ha. congruence.
    + done.
    + congruence.
Qed.

Lemma render_keys model d out : render_model model d = Ok out -> map fst out = map fst model.
Proof.
  revert out. induction model as [|[k o] model IH]; intros out; cbn [render_model]; [by intros [= <-]|].
  destruct (match assoc k d with Some v => Some v | None => o end); [|done].
  destruct (render_model model d) as [r|]; [|done]. intros [= <-]. cbn. by rewrite (IH r).
Qed.

Lemma ok_bind {S A B} (m : M S A) (f : A -> M S B) s b :
  ((m ≫= f) s).2 = Ok b -> exists a s', (f a s').2 = Ok b.
Proof. unfold mbind, M_bind. destruct (m s) as [s' [a|e]]; [eauto|done]. Qed.

Ltac to_model H :=
  repeat (apply ok_bind in H as (?&?&H)); unfold lift_res in H; cbn [snd] in H;
  apply render_keys in H.

Lemma finish_typed {D : Type} `{Database D} cx c p s act ex (w : D * audit_log) out :
  (finish_create cx c p s act ex w).2 = Ok out -> map fst out = map fst SourceConnectorCreateOut.
Proof. unfold finish_create. intros H0. by to_model H0. Qed.


(** ** Witnesses *)

Definition ex_draws : draws := mkDraws "c1" "00112233445566778899aabbccddeeff" "5ec2e7" 7000000.
Definition ex_ctx : ctx := mkCtx "https://zq.example/" (Some WRITE) good_io 7000001 7000001.
Definition ex_cf : CloudflareCreateIn :=
  mkCfIn "token-12345678" "0123456789abcdef0123456789abcdef" ["http_requests"] None.
Definition ex_syslog : SyslogCreateIn := mkSyslogIn "10.0.0.7" 514 "udp" (Some "auth") None.
Definition no_audit : audit_log := fresh_log None.
Definition ex_cf_row : SourceConnector :=
  new_connector ex_draws "cloudflare" "cf-01234567" (cloudflare_config ex_cf).
Definition ex_cf_db : db := set_sources (insert "c1" ex_cf_row) empty_db.

Lemma source_store_invariant_witness :
  let w' := run_sops [OpCloudflare ex_ctx ex_draws ex_cf; OpTest "c1" 8 9 (Ok 200)] (empty_db, no_audit) in
  exists c, db_sources (tables w'.1) !! "c1" = Some c
    /\ sc_events_received c = 1 /\ 0 <= sc_events_received c < 2 ^ 31
    /\ run_sops (map (redraw_op (fun _ => "other"))
         [OpCloudflare ex_ctx ex_draws ex_cf; OpTest "c1" 8 9 (Ok 200)]) (empty_db, no_audit) = w'.
Proof.
  cbv zeta. eexists. split; [vm_compute; reflexivity|]. split; [reflexivity|].
  assert (Hw : sources_wf (tables (empty_db, no_audit).1)) by (intros id c Hc; discriminate Hc).
  refine (match source_store_invariant
            [OpCloudflare ex_ctx ex_draws ex_cf; OpTest "c1" 8 9 (Ok 200)] (empty_db, no_audit) Hw with
          | conj Hc (conj _ Hs) => conj _ (Hs (fun _ => "other")) end).
  refine (proj1 (proj2 (proj2 (proj2 (proj2 (Hc "c1" _ _)))))). vm_compute. reflexivity.
Defined.

Lemma syslog_host_iff_witness :
  _validate_syslog_host "10.0.0.7" = Ok tt /\ _validate_syslog_host "10.0.0.256" <> Ok tt
  /\ _validate_syslog_host (String "a" "-b.example" +:+ nl) = Ok tt
  /\ _validate_syslog_host "-a.example" <> Ok tt.
Proof.
  split; [|split; [|split]].
  - apply (syslog_host_iff "10.0.0.7"). vm_compute. reflexivity.
  - intros E. apply (syslog_host_iff "10.0.0.256") in E. vm_compute in E. discriminate E.
  - apply (syslog_host_iff (String "a" "-b.example" +:+ nl)). vm_compute. reflexivity.
  - intros E. apply (syslog_host_iff "-a.example") in E. vm_compute in E. discriminate E.
Defined.

Lemma syslog_key_lost_witness :
  create_syslog ex_ctx ex_draws ex_syslog (empty_db, no_audit)
  = ((set_sources (insert "c1" (syslog_row ex_draws ex_syslog)) empty_db, no_audit), Raise NameError).
Proof.
  refine (proj1 (proj2 (syslog_key_lost ex_ctx ex_draws ex_syslog)) empty_db no_audit _ _ _ _ _ _);
    try (vm_compute; reflexivity). by left.
Defined.

Lemma test_connector_spec_witness :
  (test_connector (fun _ => Raise ConnectionError) "c1" 8 9 ex_cf_db).1
  = set_sources (insert "c1" (bump 8 ex_cf_row)) ex_cf_db.
Proof.
  assert (Hwf : connector_wf ex_cf_row).
  { constructor; [reflexivity|reflexivity|vm_compute; split; congruence|reflexivity|].
    left. split; [reflexivity|]. eexists _, ["http_requests"], _. split; [reflexivity|].
    split; [reflexivity|]. split; [discriminate|]. split; [repeat constructor|].
    vm_compute. discriminate. }
  assert (H : match test_connector (fun _ => Raise ConnectionError) "c1" 8 9 ex_cf_db with
              | (d', Ok _) => d' = set_sources (insert "c1" (bump 8 ex_cf_row)) ex_cf_db
              | (_, Raise _) => False end).
  { pose proof (test_connector_spec ex_cf_db "c1" ex_cf_row 8 9 (Raise ConnectionError)
      (lookup_insert_eq _ _ _) eq_refl Hwf ltac:(vm_compute; reflexivity) ltac:(vm_compute; reflexivity)) as S.
    cbv zeta in S. destruct (test_connector _ _ _ _ _) as [d' [out|e]].
    - destruct S as (_&S&_). destruct S as [S _]; [by left|exact S].
    - by destruct S as (S&_). }
  destruct (test_connector _ _ _ _ _) as [d' [out|e]]; [exact H|destruct H].
Defined.

