(* ===== verification/Ingest.v ===== *)
(** * The ingest endpoints: [api/v1/ingest_webhook.py] and
      [api/v1/ingest_cloudflare.py]

    A request is its headers and its body as bytes; a handler works on the
    database, the Redis stream and the audit log.  What one call draws (UUIDs
    and clock readings) is the record [env].  Parameters: the UTF-8 decoder
    ([errors="replace"]), the JSON decoder behind the depth scanner,
    [datetime.fromisoformat], and the stream publication of one row. *)

From S2P Require Import Prelude PyStr PyVal PyStd Regex Json Crypto AuditLog Db.
From Stdlib Require Import Ascii.

(** What a call draws: the identifier and the clock for the [k]th record, and the
    time of the database transaction. *)
Record env : Type := mkEnv {
  new_id : nat -> string;
  clock : nat -> Z;
  tx_now : Z;
  host_now : Z;
  ev_io : io;
  ev_audit_now : Z;
  ev_audit_day : Z
}.

Definition SCHEMA_VERSION : string := "1.0".
Definition MAX_METADATA_CHARS : nat := Z.to_nat 4096.

(** The guard on the Content-Length header and on the body read. *)
Definition size_guard (max : Z) (content_length : option string) (body_len : Z) : res unit :=
  _ ← match content_length with
      | None => Ok tt
      | Some h =>
          let cl := match py_int h with Some n => n | None => -1 end in
          guard_res (negb ((cl <? 0) || (max <? cl))) (HTTPException 413 "body too large")
      end;
  guard_res (negb (max <? body_len)) (HTTPException 413 "body too large").

(** [_truncate], with [None] for [None]. *)
Definition _truncate (v : val) : option string :=
  match v with VNone => None | _ => Some (take_str MAX_METADATA_CHARS (str_of v)) end.

(** INSERT INTO events: a duplicate key is an error. *)
Definition add_event (e : Event) : M db unit := fun d =>
  if event_ok d e && negb (present (db_events d) (e_id e))
  then (set_events (insert (e_id e) e) d, Ok tt) else (d, Raise SqlError).

Fixpoint add_events (es : list Event) : M db unit :=
  match es with
  | [] => mret tt
  | e :: r => _ ← add_event e; add_events r
  end.

(** INSERT INTO hosts ... ON CONFLICT (id) DO UPDATE SET last_seen_at. *)
Definition seen (now : Z) (h : Host) : Host :=
  mkHost (h_id h) (h_first_seen_at h) now (h_last_version h) (h_hostname h) (h_secret h)
    (h_auto_block h) (h_meta h).

Definition upsert_host (h : Host) : M db unit := fun d =>
  match db_hosts d !! h_id h with
  | Some old => (set_hosts (insert (h_id h) (seen (h_last_seen_at h) old)) d, Ok tt)
  | None => (set_hosts (insert (h_id h) h) d, Ok tt)
  end.

(** One transaction for the host and the batch. *)
Definition persist_batch (h : Host) (es : list Event) : M db unit :=
  _ ← upsert_host h; add_events es.

(** Best-effort publication of each row. *)
Fixpoint publish_rows {R} (publish : Event -> M R unit) (rows : list Event) : M R unit :=
  match rows with
  | [] => mret tt
  | r :: rest => _ ← try_M (publish r) (fun _ => mret tt); publish_rows publish rest
  end.

Definition persistence_failed : exn := HTTPException 500 "persistence failed".

(** ** [ingest_webhook.py] *)

Module Webhook.

Definition SourceWebhookDefault : string := "webhook".
Definition MAX_BODY_BYTES : Z := 1048576.

Definition _RECOGNISED_FIELDS : list string :=
  ["src_ip"; "host"; "method"; "uri"; "status"; "user_agent"; "referer"; "country"; "asn";
   "bot_score"; "waf_action"; "waf_rule_id"; "cache_status"; "occurred_at"].

Definition _WEBHOOK_HOST_ID : string := "b1f4b3e0-0000-0000-0000-000000000002".

Definition webhook_host (now : Z) : Host :=
  mkHost _WEBHOOK_HOST_ID now now (Some SCHEMA_VERSION) (Some "webhook-ingest") None false
    [("kind", VStr "webhook"); ("note", VStr "synthesised host for generic webhook ingest")].

(** *** Vendor translators *)

Abbreviation record_ := (list (string * val)).

Fixpoint filter_into (record out : record_) : record_ :=
  match record with
  | [] => out
  | (k, v) :: rest =>
      if negb (str_in k _RECOGNISED_FIELDS) then filter_into rest out
      else match v with
           | VNone => filter_into rest out
           | VList _ | VDict _ => filter_into rest (assoc_set k (VStr (str_of v)) out)
           | _ => filter_into rest (assoc_set k v out)
           end
  end.

Definition _filter_fields (record : record_) : record_ := filter_into record [].

Definition dicts (l : list val) : list record_ :=
  omap (fun v => match v with VDict d => Some d | _ => None end) l.

Definition _translate_generic (body : record_) : list record_ * string :=
  match assoc "events" body with
  | Some (VList l) => (map _filter_fields (dicts l), "")
  | Some _ => ([], "")
  | None => ([_filter_fields body], "")
  end.

Definition _translate_splunk_hec (body : record_) : list record_ * string :=
  match get "event" body with
  | VDict inner =>
      ([_filter_fields inner], match get "sourcetype" body with VStr s => s | _ => "" end)
  | _ => ([], "")
  end.

Definition _translate_elastic_webhook (body : record_) : list record_ * string :=
  match get "hits" body with
  | VDict hits =>
      match get "hits" hits with
      | VList inner =>
          (omap (fun hit => match get "_source" hit with
                            | VDict src => Some (_filter_fields src)
                            | _ => None
                            end) (dicts inner), "")
      | _ => ([], "")
      end
  | _ => ([], "")
  end.

(** [(\w+)=(\S+)]. *)
Definition _SUMO_KV_RE : re :=
  Rcat (Rplus (Rcls is_word)) (Rcat (Rlit "=") (Rplus (Rcls (fun c => negb (is_space c))))).

(** [findall]: a word holds no [=], so the first one separates the groups; each
    match consumes characters, so the length of the text bounds their number. *)
Fixpoint findall (fuel : nat) (s : string) : list (string * string) :=
  match fuel with
  | O => []
  | S n =>
      match re_find _SUMO_KV_RE s with
      | None => []
      | Some (t, r) =>
          let '(k, _, v) := partition_char "=" (between t r) in (k, v) :: findall n r
      end
  end.

Definition dict_of (pairs : list (string * string)) : record_ :=
  fold_left (fun d kv => assoc_set kv.1 (VStr kv.2) d) pairs [].

Section Translators.
Context (loads : string -> res val).

(** A message that is no JSON object: its pairs, or the text itself. *)
Definition sumo_text (msg : string) : record_ :=
  match findall (String.length msg) msg with
  | [] => [("user_agent", VStr (take_str MAX_METADATA_CHARS msg))]
  | pairs => _filter_fields (dict_of pairs)
  end.

Definition sumo_record (rec : record_) : res (option record_) :=
  match get "message" rec with
  | VStr msg =>
      match safe_loads loads msg with
      | Ok (VDict parsed) => Ok (Some (_filter_fields parsed))
      | Ok _ => Ok (Some (sumo_text msg))
      | Raise e => if is_value_error e then Ok (Some (sumo_text msg)) else Raise e
      end
  | _ => Ok None
  end.

Fixpoint sumo_records (recs : list record_) : res (list record_) :=
  match recs with
  | [] => Ok []
  | r :: rest => o ← sumo_record r; l ← sumo_records rest;
                 Ok (match o with Some x => x :: l | None => l end)
  end.

Definition _translate_sumo_logic (body : record_) : res (list record_ * string) :=
  match get "records" body with
  | VList records => l ← sumo_records (dicts records); Ok (l, "")
  | _ => Ok ([], "")
  end.

(** [vendor or header_source or "generic"]. *)
Definition str_or (a : option string) (b : string) : string :=
  match a with Some s => if nonempty s then s else b | None => b end.

Definition _pick_translator (vendor header_source : option string)
    : record_ -> res (list record_ * string) := fun body =>
  let chosen := lower (str_or vendor (str_or header_source "generic")) in
  if String.eqb chosen "splunk_hec" then Ok (_translate_splunk_hec body)
  else if String.eqb chosen "elastic_webhook" then Ok (_translate_elastic_webhook body)
  else if String.eqb chosen "sumo_logic" then _translate_sumo_logic body
  else Ok (_translate_generic body).

End Translators.

(** *** Rows *)

Fixpoint metadata_into (record : record_) (out : list (string * val)) : list (string * val) :=
  match record with
  | [] => out
  | (k, v) :: rest =>
      if String.eqb k "occurred_at" then metadata_into rest out
      else match _truncate v with
           | None => metadata_into rest out
           | Some s => metadata_into rest (assoc_set k (VStr s) out)
           end
  end.

Definition _build_metadata (record : record_) : list (string * val) := metadata_into record [].

(** [d.setdefault(k, v)]. *)
Definition setdefault (k : string) (v : val) (d : list (string * val)) : list (string * val) :=
  if has_key k d then d else assoc_set k v d.

Section Rows.
Context (fromisoformat : string -> res Z).

Definition _parse_occurred_at (now : Z) (raw : val) : res Z :=
  match raw with
  | VStr s =>
      match fromisoformat (replace_char "Z" "+00:00" s) with
      | Ok t => Ok t
      | Raise e => if is_value_error e then Ok now else Raise e
      end
  | _ => Ok now
  end.

Definition event_metadata (vendor src_ip : string) (record : record_) : list (string * val) :=
  assoc_set "vendor" (VStr (default vendor (_truncate (VStr vendor))))
    (setdefault "src_ip" (VStr (default "" (_truncate (VStr src_ip)))) (_build_metadata record)).

Definition event_of (e : env) (k : nat) (source vendor src_ip : string) (record : record_) : res Event :=
  occurred_at ← _parse_occurred_at (clock e k) (get "occurred_at" record);
  Ok (mkEventRow (new_id e k) _WEBHOOK_HOST_ID SCHEMA_VERSION occurred_at (tx_now e) source
        (dumps_compact (VDict record)) (event_metadata vendor src_ip record)).

(** The loop of [_ingest_records]: the rows added and the records rejected. *)
Fixpoint rows_of (e : env) (k : nat) (source vendor : string) (records : list record_)
  : res (list Event * Z) :=
  match records with
  | [] => Ok ([], 0)
  | record :: rest =>
      match get "src_ip" record with
      | VStr src_ip =>
          if nonempty src_ip then
            ev ← event_of e k source vendor src_ip record;
            r ← rows_of e (S k) source vendor rest;
            Ok (ev :: r.1, r.2)
          else r ← rows_of e k source vendor rest; Ok (r.1, r.2 + 1)
      | _ => r ← rows_of e k source vendor rest; Ok (r.1, r.2 + 1)
      end
  end.

Record IngestAck : Type := mkAck { accepted : Z; rejected : Z; ack_source : string }.

Section Handlers.
Context {D R : Type} `{Database D} (publish : Event -> M R unit).

(** [select(Event).where(Event.id.in_(ids))]: in no particular order. *)
Definition _publish_persisted (ids : list string) : M (D * R) unit :=
  rows ← on_fst (transaction (fun d =>
           (d, Ok (filter (fun e => str_in (e_id e) ids = true) (map snd (map_to_list (db_events d)))))));
  on_snd (publish_rows publish rows).

Definition _ingest_records (e : env) (records : list record_) (source vendor : string)
  : M (D * R) IngestAck :=
  r ← try_M (on_fst (transaction
        (r ← lift_res (rows_of e 0 source vendor records);
         _ ← persist_batch (webhook_host (host_now e)) r.1; mret r)))
      (fun _ => raise_M persistence_failed);
  _ ← match r.1 with [] => mret tt | rows => _publish_persisted (map e_id rows) end;
  mret (mkAck (Z.of_nat (length r.1)) r.2 source).

Context (decode_replace : list Z -> string) (loads : string -> res val).

Definition detected_source (x_event_source : option string) (parsed : record_)
    (vendor_source : string) : string :=
  let header_source := strip (default "" x_event_source) in
  let body_source := match get "source" parsed with VStr s => strip s | _ => "" end in
  str_or (Some header_source) (str_or (Some body_source)
    (str_or (Some (strip vendor_source)) SourceWebhookDefault)).

(** Parsing and translation, up to the records, the source and the vendor. *)
Definition webhook_front (vendor x_event_source content_length : option string) (body : list Z)
  : res (list record_ * string * string) :=
  _ ← size_guard MAX_BODY_BYTES content_length (Z.of_nat (length body));
  _ ← guard_res (match body with [] => false | _ => true end) (HTTPException 422 "empty body");
  parsed ← match safe_loads loads (decode_replace body) with
           | Ok v => Ok v
           | Raise e => if is_value_error e then Raise (HTTPException 422 "malformed JSON") else Raise e
           end;
  match parsed with
  | VDict parsed =>
      '(records, vendor_source) ← match _pick_translator loads vendor x_event_source parsed with
                                  | Ok r => Ok r
                                  | Raise _ => Raise (HTTPException 422 "translator failed")
                                  end;
      let header_source := strip (default "" x_event_source) in
      Ok (records, detected_source x_event_source parsed vendor_source,
          str_or vendor (str_or (Some header_source) "generic"))
  | _ => Raise (HTTPException 422 "top-level JSON must be an object")
  end.

Definition ingest_webhook (e : env) (vendor x_event_source content_length : option string)
    (body : list Z) : M (D * R * audit_log) IngestAck :=
  '(records, source, vendor) ← lift_res (webhook_front vendor x_event_source content_length body);
  ack ← on_fst (_ingest_records e records source vendor);
  _ ← on_snd (record (ev_io e) (ev_audit_now e) (ev_audit_day e)
        (mkEntry "webhook" "ingest webhook" source (Some 200)
           [("accepted", VInt (accepted ack)); ("rejected", VInt (rejected ack));
            ("vendor", VStr vendor)]));
  mret ack.

End Handlers.
End Rows.

End Webhook.

(** ** [ingest_cloudflare.py] *)

Module Cloudflare.

#[local] Existing Instance newest_first_dec.

Definition SourceCloudflareLogpush : string := "cloudflare_logpush".
Definition MAX_BODY_BYTES : Z := 5242880.
Definition MAX_LINE_BYTES : Z := 65536.
Definition _DEV_PLACEHOLDER : string := "zaqorincore-dev-cloudflare-secret-change-me".
Definition _LOGPUSH_HOST_ID : string := "b1f4b3e0-0000-0000-0000-000000000001".

(** The secret resolved when the module is imported. *)
Definition _HMAC_SECRET (env_secret zaqorin_env : string) : res (list Z) :=
  let is_dev := negb (String.eqb zaqorin_env "production") in
  if negb (nonempty env_secret) then
    if is_dev then Ok (utf8 _DEV_PLACEHOLDER) else Raise RuntimeError
  else if String.eqb env_secret _DEV_PLACEHOLDER && negb is_dev then Raise RuntimeError
  else Ok (utf8 env_secret).

Definition _CF_TO_METADATA : list (string * string) :=
  [("ClientIP", "src_ip"); ("ClientRequestHost", "host"); ("ClientRequestMethod", "method");
   ("ClientRequestURI", "uri"); ("EdgeResponseStatus", "status");
   ("ClientRequestUserAgent", "user_agent"); ("ClientCountry", "country"); ("ClientASN", "asn");
   ("BotScore", "bot_score"); ("WAFAction", "waf_action"); ("WAFRuleID", "waf_rule_id");
   ("CacheCacheStatus", "cache_status"); ("EdgeStartTimestamp", "edge_start_ts");
   ("EdgeEndTimestamp", "edge_end_ts")].

Fixpoint metadata_from (table : list (string * string)) (record : list (string * val))
    (out : list (string * val)) : list (string * val) :=
  match table with
  | [] => out
  | (cf_field, meta_key) :: rest =>
      match _truncate (get cf_field record) with
      | None => metadata_from rest record out
      | Some s => metadata_from rest record (assoc_set meta_key (VStr s) out)
      end
  end.

Definition _build_metadata (record : list (string * val)) : list (string * val) :=
  metadata_from _CF_TO_METADATA record [].

Definition logpush_host (now : Z) : Host :=
  mkHost _LOGPUSH_HOST_ID now now (Some SCHEMA_VERSION) (Some "cloudflare-logpush") None false
    [("kind", VStr "cloudflare_logpush"); ("note", VStr "synthesised host for Cloudflare Logpush ingest")].

Definition _verify_hmac (secret body : list Z) (presented_signature : string) : res bool :=
  if negb (nonempty presented_signature) then Ok false
  else if negb (slen presented_signature =? 64) then Ok false
  else compare_digest (hex (hmac_sha256 secret body)) (lower presented_signature).

(** [bytes.splitlines()], the open line in reverse. *)
Fixpoint splitlines_from (cur body : list Z) : list (list Z) :=
  match body with
  | [] => match cur with [] => [] | _ => [rev cur] end
  | 13 :: r =>
      match r with
      | 10 :: r' => rev cur :: splitlines_from [] r'
      | _ => rev cur :: splitlines_from [] r
      end
  | 10 :: r => rev cur :: splitlines_from [] r
  | c :: r => splitlines_from (c :: cur) r
  end.

Definition splitlines (body : list Z) : list (list Z) := splitlines_from [] body.

(** [if line.endswith(b"\r"): line = line[:-1]]. *)
Definition drop_cr (line : list Z) : list Z :=
  if List.last line 0 =? 13 then removelast line else line.

Section Lines.
Context (decode_replace : list Z -> string) (loads : string -> res val).
Context (fromisoformat : string -> res Z).

Definition _parse_timestamp (now : Z) (raw : val) : res Z :=
  match raw with
  | VStr s =>
      match fromisoformat (replace_char "Z" "+00:00" s) with
      | Ok t => Ok t
      | Raise e => if is_value_error e then Ok now else Raise e
      end
  | _ => Ok now
  end.

(** The record of a line, unless the line is rejected. *)
Definition line_record (line : list Z) : res (option (list (string * val))) :=
  if MAX_LINE_BYTES <? Z.of_nat (length line) then Ok None
  else match safe_loads loads (decode_replace line) with
       | Ok (VDict record) => Ok (Some record)
       | Ok _ => Ok None
       | Raise e => if is_value_error e then Ok None else Raise e
       end.

Definition event_of (e : env) (k : nat) (line : list Z) (record : list (string * val)) : res Event :=
  occurred_at ← _parse_timestamp (clock e k) (get "EdgeStartTimestamp" record);
  Ok (mkEventRow (new_id e k) _LOGPUSH_HOST_ID SCHEMA_VERSION occurred_at (tx_now e)
        SourceCloudflareLogpush (decode_replace line) (_build_metadata record)).

Fixpoint rows_of (e : env) (k : nat) (lines : list (list Z)) : res (list Event * Z) :=
  match lines with
  | [] => Ok ([], 0)
  | l :: rest =>
      match drop_cr l with
      | [] => rows_of e k rest
      | line =>
          o ← line_record line;
          match o with
          | None => r ← rows_of e k rest; Ok (r.1, r.2 + 1)
          | Some record =>
              ev ← event_of e k line record;
              r ← rows_of e (S k) rest;
              Ok (ev :: r.1, r.2)
          end
      end
  end.

(** The answer of the endpoint. *)
Inductive reply : Type :=
| Ack (accepted rejected : Z)
| Unauthorized.

Section Handlers.
Context {D R : Type} `{Database D} (publish : Event -> M R unit).

Definition is_logpush (e : Event) : bool :=
  String.eqb (e_host_id e) _LOGPUSH_HOST_ID && String.eqb (e_source e) SourceCloudflareLogpush.

(** The last [accepted] rows received, oldest first. *)
Definition last_received (accepted : nat) (d : db) : list Event :=
  rev (take accepted (merge_sort newest_first
         (filter (fun e => is_logpush e = true) (map snd (map_to_list (db_events d)))))).

Definition _publish_accepted (accepted : nat) : M (D * R) unit :=
  rows ← on_fst (transaction (fun d => (d, Ok (last_received accepted d))));
  on_snd (publish_rows publish rows).

(** The transaction of a batch: how many rows were added and lines rejected. *)
Definition persist_ndjson (e : env) (body : list Z) : M D (nat * Z) :=
  try_M (transaction
    (r ← lift_res (rows_of e 0 (splitlines body));
     _ ← persist_batch (logpush_host (host_now e)) r.1;
     mret (length r.1, r.2)))
    (fun _ => raise_M persistence_failed).

Definition _ingest_ndjson (e : env) (body : list Z) : M (D * R) (nat * Z) :=
  r ← on_fst (persist_ndjson e body);
  _ ← match r.1 with O => mret tt | n => _publish_accepted n end;
  mret r.

Definition ingest_cloudflare_logpush (secret : list Z) (e : env)
    (content_length signature : option string) (body : list Z) : M (D * R * audit_log) reply :=
  _ ← lift_res (size_guard MAX_BODY_BYTES content_length (Z.of_nat (length body)));
  match signature with
  | None => mret Unauthorized
  | Some s =>
      ok ← lift_res (_verify_hmac secret body s);
      if negb ok then mret Unauthorized
      else
        _ ← lift_res (guard_res (match body with [] => false | _ => true end)
                        (HTTPException 422 "empty body"));
        r ← on_fst (_ingest_ndjson e body);
        _ ← on_snd (record (ev_io e) (ev_audit_now e) (ev_audit_day e)
              (mkEntry "cloudflare_logpush" "ingest cloudflare" _LOGPUSH_HOST_ID (Some 200)
                 [("accepted", VInt (Z.of_nat r.1)); ("rejected", VInt r.2);
                  ("source", VStr SourceCloudflareLogpush)]));
        mret (Ack (Z.of_nat r.1) r.2)
  end.

End Handlers.
End Lines.

End Cloudflare.

(** ** Lemmas *)

(** *** Batches on the tables *)

Definition with_rows (es : list Event) (d : db) : db :=
  set_events (fun m => fold_left (fun m e => <[e_id e := e]> m) es m) d.

Lemma add_events_ok es : forall d d',
  add_events es d = (d', Ok tt) ->
  d' = with_rows es d /\ Forall (fun e => event_ok d e = true) es
  /\ NoDup (map e_id es) /\ Forall (fun e => db_events d !! e_id e = None) es.
Proof.
  induction es as [|e es IH]; intros d d' H; cbn [add_events] in H.
  - injection H as <-. repeat split; try constructor. by destruct d.
  - unfold mbind, M_bind, add_event in H. destruct (event_ok d e && _) eqn:E; [|discriminate H].
    bprop. apply present_false in H1. apply IH in H as (->&Hok&Hnd&Hf).
    split; [done|]. split; [constructor; [done|exact Hok]|]. cbn [db_events set_events] in Hf.
    assert (Hf' : Forall (fun e' => e_id e' <> e_id e /\ db_events d !! e_id e' = None) es).
    { eapply Forall_impl; [exact Hf|]. cbn beta. intros e' He. apply lookup_insert_None in He.
      by destruct He. }
    split.
    + cbn [map]. constructor; [|done]. intros Hin. apply list_elem_of_In, in_map_iff in Hin as (e'&Ee&Hin).
      rewrite List.Forall_forall in Hf'. by apply Hf' in Hin as [? _].
    + constructor; [done|]. eapply Forall_impl; [exact Hf'|]. by intros e' [_ ?].
Qed.

Lemma add_events_raise es : forall d d' e, add_events es d = (d', Raise e) -> e = SqlError.
Proof.
  induction es as [|x es IH]; intros d d' e H; cbn [add_events] in H; [done|].
  unfold mbind, M_bind, add_event in H. destruct (_ && _); [by apply IH in H|]. by injection H as _ <-.
Qed.

Lemma with_rows_lookup es : forall d id ev,
  db_events (with_rows es d) !! id = Some ev -> db_events d !! id = Some ev \/ In ev es.
Proof.
  induction es as [|e es IH]; intros d id ev; [by left|].
  change (with_rows (e :: es) d) with (with_rows es (set_events (insert (e_id e) e) d)).
  intros [H|H]%IH; [|right; by right]. cbn [db_events set_events] in H.
  rewrite lookup_insert in H. case_decide; [injection H as <-; right; by left|by left].
Qed.

Lemma with_rows_in es : forall d ev,
  NoDup (map e_id es) -> In ev es -> db_events (with_rows es d) !! e_id ev = Some ev.
Proof.
  induction es as [|e es IH]; intros d ev Hnd Hin; [done|].
  change (with_rows (e :: es) d) with (with_rows es (set_events (insert (e_id e) e) d)).
  cbn [map] in Hnd. apply NoDup_cons in Hnd as [Hn Hnd]. destruct Hin as [<-|Hin]; [|by apply IH].
  assert (Hk : forall (l : list Event) d', ~ e_id e ∈ map e_id l ->
    db_events d' !! e_id e = Some e -> db_events (with_rows l d') !! e_id e = Some e).
  { clear. induction l as [|x l IHl]; intros d' Hn Hd; [done|].
    change (with_rows (x :: l) d') with (with_rows l (set_events (insert (e_id x) x) d')).
    apply IHl; [set_solver|]. cbn [db_events set_events]. rewrite lookup_insert_ne; [done|set_solver]. }
  apply Hk; [done|]. cbn [db_events set_events]. apply lookup_insert_eq.
Qed.

Lemma with_rows_old es : forall d id,
  ~ In id (map e_id es) -> db_events (with_rows es d) !! id = db_events d !! id.
Proof.
  induction es as [|e es IH]; intros d id Hn; [done|].
  change (with_rows (e :: es) d) with (with_rows es (set_events (insert (e_id e) e) d)).
  cbn [map In] in Hn. rewrite IH by tauto. cbn [db_events set_events].
  by rewrite lookup_insert_ne by tauto.
Qed.

Lemma upsert_host_ok h d : exists d', upsert_host h d = (d', Ok tt) /\ db_events d' = db_events d
  /\ is_Some (db_hosts d' !! h_id h).
Proof.
  unfold upsert_host. destruct (db_hosts d !! h_id h) as [old|] eqn:E; eexists;
    (split; [reflexivity|]); (split; [done|]); cbn [db_hosts set_hosts]; rewrite lookup_insert_eq; eauto.
Qed.

Lemma persist_batch_ok h es d d' :
  persist_batch h es d = (d', Ok tt) ->
  exists d1, upsert_host h d = (d1, Ok tt) /\ db_events d1 = db_events d /\ d' = with_rows es d1
    /\ Forall (fun e => event_ok d1 e = true) es /\ NoDup (map e_id es)
    /\ Forall (fun e => db_events d !! e_id e = None) es.
Proof.
  unfold persist_batch, mbind, M_bind. destruct (upsert_host_ok h d) as (d1&E&Hev&_). rewrite E.
  intros H. apply add_events_ok in H as (->&Hok&Hnd&Hf). rewrite Hev in Hf. eauto 10.
Qed.

(** *** Metadata *)

Lemma take_str_length n s : (String.length (take_str n s) <= n)%nat.
Proof. revert s. induction n as [|n IH]; intros [|c s]; cbn; [lia..|]. specialize (IH s). lia. Qed.

(** Values of at most 4096 characters under the given keys. *)
Definition meta_bounded (keys : list string) (m : list (string * val)) : Prop :=
  Forall (fun kv => In kv.1 keys /\ exists s, kv.2 = VStr s /\ slen s <= 4096) m.

Lemma assoc_set_forall {A} (P : string * A -> Prop) k v (d : list (string * A)) :
  Forall P d -> P (k, v) -> Forall P (assoc_set k v d).
Proof.
  intros Hd Hk. induction Hd as [|[k' v'] d Hx Hd IH]; cbn [assoc_set]; [by repeat constructor|].
  destruct (String.eqb k k') eqn:E; [|by constructor].
  apply String.eqb_eq in E as <-. by constructor.
Qed.

Lemma assoc_forall {A} (P : string * A -> Prop) k v (d : list (string * A)) :
  Forall P d -> assoc k d = Some v -> P (k, v).
Proof. intros Hd Ha. apply assoc_in in Ha. rewrite List.Forall_forall in Hd. by apply Hd. Qed.

Lemma truncate_bounded v s : _truncate v = Some s -> slen s <= 4096.
Proof.
  assert (H : forall t, slen (take_str MAX_METADATA_CHARS t) <= 4096).
  { intros t. pose proof (take_str_length MAX_METADATA_CHARS t) as L. unfold slen, MAX_METADATA_CHARS in *. lia. }
  unfold _truncate. destruct v; intros E; try discriminate E; apply (inj Some) in E; rewrite <- E; apply H.
Qed.

Module WebhookFacts.
Import Webhook.

Definition keys_in (keys : list string) (r : list (string * val)) : Prop :=
  Forall (fun kv => In kv.1 keys) r.

Lemma filter_fields_keys r : keys_in _RECOGNISED_FIELDS (_filter_fields r).
Proof.
  unfold _filter_fields. assert (H : keys_in _RECOGNISED_FIELDS []) by constructor. revert H.
  generalize (@nil (string * val)) as out. induction r as [|[k v] r IH]; intros out Hout; cbn [filter_into]; [done|].
  destruct (str_in k _RECOGNISED_FIELDS) eqn:E; cbn [negb]; [|by apply IH].
  apply str_in_spec in E.
  destruct v; try (by apply IH); apply IH, assoc_set_forall; done.
Qed.

Definition all_keys (rs : list (list (string * val))) : Prop := Forall (keys_in _RECOGNISED_FIELDS) rs.

Lemma map_filter_keys rs : all_keys (map _filter_fields rs).
Proof. induction rs; constructor; [apply filter_fields_keys|done]. Qed.

Lemma omap_keys {A} (f : A -> option (list (string * val))) l :
  (forall a r, f a = Some r -> keys_in _RECOGNISED_FIELDS r) -> all_keys (omap f l).
Proof.
  intros Hf. induction l as [|a l IH]; [constructor|]. cbn. destruct (f a) as [r|] eqn:E; [|done].
  constructor; [by apply (Hf a)|done].
Qed.

Lemma sumo_text_keys msg : keys_in _RECOGNISED_FIELDS (sumo_text msg).
Proof.
  unfold sumo_text. destruct (findall _ _); [|apply filter_fields_keys].
  constructor; [|constructor]. by apply str_in_spec.
Qed.

Lemma sumo_keys loads recs out :
  sumo_records loads recs = Ok out -> all_keys out.
Proof.
  revert out. induction recs as [|r recs IH]; intros out; cbn [sumo_records]; [by intros [= <-]; constructor|].
  intros H. apply res_bind_ok in H as (x&H&H1). apply res_bind_ok in H1 as (l&H0&H1).
  apply (inj Ok) in H1. subst out. specialize (IH _ H0). destruct x as [x|]; [|done]. constructor; [|done].
  unfold sumo_record in H. destruct (get "message" r); try discriminate H.
  destruct (safe_loads loads s) as [[]|e]; try (injection H as <-; apply sumo_text_keys).
  - injection H as <-. apply filter_fields_keys.
  - destruct (is_value_error e); [|discriminate H]. injection H as <-. apply sumo_text_keys.
Qed.

Lemma translator_keys loads vendor header body recs src :
  _pick_translator loads vendor header body = Ok (recs, src) -> all_keys recs.
Proof.
  unfold _pick_translator. repeat match goal with |- context [if ?b then _ else _] => destruct b end.
  - intros [= H]. unfold _translate_splunk_hec in H.
    destruct (get "event" body); injection H as <- _; try constructor;
      [apply filter_fields_keys|constructor].
  - intros [= H]. unfold _translate_elastic_webhook in H.
    destruct (get "hits" body); try (injection H as <- _; constructor).
    destruct (get "hits" d); injection H as <- _; try constructor.
    apply omap_keys. intros a r. destruct (get "_source" a); try discriminate.
    intros [= <-]. apply filter_fields_keys.
  - unfold _translate_sumo_logic. destruct (get "records" body); try (intros [= <- _]; constructor).
    intros H. inv_res. by eapply sumo_keys.
  - intros [= H]. unfold _translate_generic in H. destruct (assoc "events" body) as [[]|];
      injection H as <- _; try constructor; try apply map_filter_keys; [apply filter_fields_keys|constructor].
Qed.

Definition META_KEYS : list string :=
  ["src_ip"; "host"; "method"; "uri"; "status"; "user_agent"; "referer"; "country"; "asn";
   "bot_score"; "waf_action"; "waf_rule_id"; "cache_status"; "vendor"].

Lemma recognised_meta k : In k _RECOGNISED_FIELDS -> String.eqb k "occurred_at" = false -> In k META_KEYS.
Proof. intros H E. apply String.eqb_neq in E. cbn in *. intuition congruence. Qed.

Lemma metadata_into_bounded record : forall out,
  keys_in _RECOGNISED_FIELDS record -> meta_bounded META_KEYS out ->
  meta_bounded META_KEYS (metadata_into record out).
Proof.
  induction record as [|[k v] record IH]; intros out Hr Hout; cbn [metadata_into]; [done|].
  apply Forall_cons in Hr as [Hk Hr]. destruct (String.eqb k "occurred_at") eqn:E; [by apply IH|].
  destruct (_truncate v) as [s|] eqn:Ev; [|by apply IH].
  apply IH; [done|]. apply assoc_set_forall; [done|]. cbn [fst snd].
  split; [by apply recognised_meta|]. exists s. split; [done|]. by eapply truncate_bounded.
Qed.

Lemma event_metadata_bounded vendor src record :
  keys_in _RECOGNISED_FIELDS record -> meta_bounded META_KEYS (event_metadata vendor src record).
Proof.
  intros Hr. unfold event_metadata. apply assoc_set_forall.
  - assert (Hb : meta_bounded META_KEYS (_build_metadata record))
      by (apply metadata_into_bounded; [done|constructor]).
    unfold setdefault. destruct (has_key "src_ip" _); [done|]. apply assoc_set_forall; [done|].
    split; [by left|]. eexists. split; [reflexivity|].
    destruct (_truncate (VStr src)) as [s|] eqn:E; [by eapply truncate_bounded|done].
  - split; [cbn; tauto|]. eexists. split; [reflexivity|].
    destruct (_truncate (VStr vendor)) as [s|] eqn:E; [by eapply truncate_bounded|].
    discriminate E.
Qed.

Definition has_ip (r : list (string * val)) : bool :=
  match get "src_ip" r with VStr s => nonempty s | _ => false end.

Section RowFacts.
Context (fromisoformat : string -> res Z).

Lemma rows_of_spec e source vendor records : forall k rows n,
  rows_of fromisoformat e k source vendor records = Ok (rows, n) ->
  map e_raw rows = map (fun r => dumps_compact (VDict r)) (List.filter has_ip records)
  /\ Z.of_nat (length rows) + n = Z.of_nat (length records)
  /\ (all_keys records ->
      Forall (fun ev => e_host_id ev = _WEBHOOK_HOST_ID /\ e_source ev = source
                        /\ meta_bounded META_KEYS (e_metadata ev)) rows).
Proof.
  induction records as [|r records IH]; intros k rows n; cbn [rows_of].
  { intros [= <- <-]. repeat split; constructor. }
  assert (Hskip : forall q : res (list Event * Z), has_ip r = false ->
    q = rows_of fromisoformat e k source vendor records ->
    (x ← q; Ok (x.1, x.2 + 1)) = Ok (rows, n) ->
    map e_raw rows = map (fun r => dumps_compact (VDict r)) (List.filter has_ip (r :: records))
    /\ Z.of_nat (length rows) + n = Z.of_nat (length (r :: records))
    /\ (all_keys (r :: records) ->
        Forall (fun ev => e_host_id ev = _WEBHOOK_HOST_ID /\ e_source ev = source
                          /\ meta_bounded META_KEYS (e_metadata ev)) rows)).
  { intros q Hip -> H. apply res_bind_ok in H as ([rows' n']&H&H0). injection H0 as -> <-.
    apply IH in H as (H1&H2&H3). cbn [List.filter length]. rewrite Hip. split; [done|].
    split; [lia|]. intros Hk. apply Forall_cons in Hk as [_ Hk]. auto. }
  destruct (get "src_ip" r) as [| | | |src| |] eqn:Es;
    try (apply Hskip; [unfold has_ip; by rewrite Es|done]).
  destruct (nonempty src) eqn:Ens; [|apply Hskip; [unfold has_ip; by rewrite Es|done]].
  intros H. apply res_bind_ok in H as (ev&Hev&H). apply res_bind_ok in H as ([rows' n']&Hr&H).
  injection H as <- <-. apply IH in Hr as (H1&H2&H3).
  unfold event_of in Hev. apply res_bind_ok in Hev as (t&_&Hev).
  apply (inj Ok) in Hev. cbn [List.filter length map fst snd].
  assert (Hip : has_ip r = true) by (unfold has_ip; by rewrite Es). rewrite Hip.
  split; [cbn [map]; f_equal; [by rewrite <- Hev|exact H1]|]. split; [lia|].
  intros Hk. apply Forall_cons in Hk as [Hk1 Hk]. constructor; [|auto].
  rewrite <- Hev. split; [done|]. split; [done|]. by apply event_metadata_bounded.
Qed.

(** [fromisoformat] refuses with [ValueError] only. *)
Hypothesis iso_errors : forall s e, fromisoformat s = Raise e -> is_value_error e = true.

Lemma rows_of_total e source vendor records : forall k,
  exists r, rows_of fromisoformat e k source vendor records = Ok r.
Proof.
  induction records as [|r records IH]; intros k; cbn [rows_of]; [eauto|].
  destruct (IH k) as [x Hx], (IH (S k)) as [y Hy].
  destruct (get "src_ip" r) as [| | | |src| |]; try (rewrite Hx; eexists; reflexivity).
  destruct (nonempty src); [|rewrite Hx; eexists; reflexivity].
  unfold event_of, _parse_occurred_at.
  destruct (get "occurred_at" r) as [| | | |s| |]; try (rewrite Hy; eexists; reflexivity).
  destruct (fromisoformat (replace_char "Z" "+00:00" s)) as [t|ex] eqn:E;
    [|rewrite (iso_errors _ _ E)]; rewrite Hy; eexists; reflexivity.
Qed.

End RowFacts.

End WebhookFacts.

(** *** Read-only transactions and publication *)

Section Session.
Context {D R : Type} `{DatabaseLaws D}.

Lemma read_only {A} (f : db -> A) (d : D) :
  tables (transaction (fun d => (d, Ok (f d))) d).1 = tables d.
Proof.
  destruct (transaction_cases (fun d => (d, Ok (f d))) d) as [[E _]|(a&E&_)]; [done|].
  by injection E as -> _.
Qed.

Lemma read_only_cases {A} (f : db -> A) (d : D) :
  (transaction (fun d => (d, Ok (f d))) d).2 = Ok (f (tables d))
  \/ exists e, (transaction (fun d => (d, Ok (f d))) d).2 = Raise e.
Proof.
  destruct (transaction_cases (fun d => (d, Ok (f d))) d) as [[_ E]|(a&E&[Hr|Hr])];
    [right; exact E| |right; eauto].
  left. rewrite Hr. by injection E as _ ->.
Qed.

Lemma publish_rows_ok (publish : Event -> M R unit) rows : forall r,
  exists r', publish_rows publish rows r = (r', Ok tt).
Proof.
  induction rows as [|x rows IH]; intros r; cbn [publish_rows]; [by eexists|].
  unfold mbind, M_bind, try_M. destruct (publish x r) as [r1 [[]|e]]; apply IH.
Qed.

(** A batch as one transaction: its effect on the tables, or none. *)
Lemma batch_cases {A} (h : Host) (es : list Event) (a : A) (d : D) :
  let t := _ ← persist_batch h es; mret a in
  (tables (transaction t d).1 = tables d /\ exists e, (transaction t d).2 = Raise e)
  \/ (exists d1, persist_batch h es (tables d) = (tables (transaction t d).1, Ok tt)
        /\ upsert_host h (tables d) = (d1, Ok tt) /\ tables (transaction t d).1 = with_rows es d1
        /\ ((transaction t d).2 = Ok a \/ (transaction t d).2 = Raise SqlError)).
Proof.
  cbv zeta. destruct (transaction_cases (_ ← persist_batch h es; mret a) d) as [L|(a'&E&Hr)]; [by left|right].
  apply M_bind_ok in E as (s1&[]&E&Ea). injection Ea as -> ->.
  pose proof (persist_batch_ok _ _ _ _ E) as (d1&Hu&_&Hw&_). eauto 10.
Qed.

End Session.

(** *** What a webhook batch does to the tables *)

Section WebhookBatch.
Import Webhook WebhookFacts.
Context {D R : Type} `{DatabaseLaws D} (publish : Event -> M R unit).
Context (fromisoformat : string -> res Z).

(** The batch is not stored and refused, or stored as computed. *)
Definition refused (d d' : D) (out : res IngestAck) : Prop :=
  tables d' = tables d /\ out = Raise persistence_failed.

Definition stored (h : Host) (rows : list Event) (d d' : D) : Prop :=
  exists d1, upsert_host h (tables d) = (d1, Ok tt) /\ tables d' = with_rows rows d1
    /\ persist_batch h rows (tables d) = (tables d', Ok tt).

Lemma ingest_records_cases e records source vendor (d : D) (r : R) rows n :
  rows_of fromisoformat e 0 source vendor records = Ok (rows, n) ->
  let '((d', r'), out) := _ingest_records fromisoformat publish e records source vendor (d, r) in
  refused d d' out
  \/ (stored (webhook_host (host_now e)) rows d d'
      /\ (out = Ok (mkAck (Z.of_nat (length rows)) n source) \/ exists x, out = Raise x)).
Proof.
  intros Hrows. unfold _ingest_records. unfold mbind at 1, M_bind at 1.
  assert (Ht : forall d0 : D,
    transaction (r ← lift_res (rows_of fromisoformat e 0 source vendor records);
       _ ← persist_batch (webhook_host (host_now e)) r.1; mret r) d0
    = transaction (_ ← persist_batch (webhook_host (host_now e)) rows; mret (rows, n)) d0).
  { intros d0. rewrite Hrows. reflexivity. }
  unfold try_M at 1, on_fst at 1. cbn [fst snd]. rewrite Ht.
  pose proof (batch_cases (webhook_host (host_now e)) rows (rows, n) d) as L. cbv zeta in L.
  destruct (transaction _ d) as [d1 out1]. cbn [fst snd] in L.
  destruct L as [[E [x ->]]|(s1&Ep&Hu&Hw&Hr)]; [left; split; done|].
  assert (Hst : stored (webhook_host (host_now e)) rows d d1) by (exists s1; auto).
  destruct Hr as [->| ->]; [|right; split; [done|right; eexists; reflexivity]].
  cbn [fst snd]. destruct rows as [|x rows]; [right; split; [done|by left]|].
  unfold _publish_persisted, mbind, M_bind, on_fst, on_snd. cbn [fst snd].
  match goal with |- context [transaction ?t d1] =>
    pose proof (read_only (fun d : db => filter (fun e => str_in (e_id e) (map e_id (x :: rows)) = true)
      (map snd (map_to_list (db_events d)))) d1) as L;
    destruct (transaction t d1) as [d2 o2] end.
  cbn [fst] in L.
  assert (Hst2 : stored (webhook_host (host_now e)) (x :: rows) d d2).
  { destruct Hst as (s&?&?&?). exists s. rewrite L. auto. }
  destruct o2 as [l|ex]; cbn [fst snd]; [|right; split; [done|right; eexists; reflexivity]].
  destruct (publish_rows_ok publish l r) as [r' ->]. right. split; [done|by left].
Qed.

(** Records that are refused store nothing. *)
Lemma refused_rows e records source vendor (d : D) (r : R) ex :
  rows_of fromisoformat e 0 source vendor records = Raise ex ->
  tables (_ingest_records fromisoformat publish e records source vendor (d, r)).1.1 = tables d.
Proof.
  intros Hrows. unfold _ingest_records. unfold mbind at 1, M_bind at 1, try_M, on_fst at 1. cbn [fst snd].
  rewrite Hrows.
  match goal with |- context [transaction ?t d] =>
    pose proof (transaction_cases t d) as L; destruct (transaction t d) as [d1 o1] end.
  cbn [fst snd] in L. destruct L as [[E [x ->]]|(x&E&_)]; [exact E|discriminate E].
Qed.

End WebhookBatch.

(** ** Properties *)


(** Whatever the webhook endpoint stores is bounded: a request that changes
    the events had a body of at most 1 MiB and a Content-Length, if any, between 0
    and 1 MiB, and every new row belongs to the synthetic host, has a source of at
    most 255 characters and metadata under the fourteen known keys only, each
    value a text of at most 4096 characters. *)
Theorem webhook_bounds {D R : Type} `{DatabaseLaws D} (publish : Event -> M R unit)
    (fromisoformat : string -> res Z) (decode_replace : list Z -> string) (loads : string -> res val)
    (e : env) (vendor x_event_source content_length : option string) (body : list Z)
    (w : D * R * audit_log) id ev :
  let w' := (Webhook.ingest_webhook fromisoformat publish decode_replace loads e vendor
               x_event_source content_length body w).1 in
  db_events (tables w'.1.1) !! id = Some ev ->
  db_events (tables w.1.1) !! id = None ->
  Z.of_nat (length body) <= 1048576
  /\ (forall h, content_length = Some h -> exists n, py_int h = Some n /\ 0 <= n <= 1048576)
  /\ e_host_id ev = "b1f4b3e0-0000-0000-0000-000000000002"
  /\ slen (e_source ev) <= 255
  /\ Forall (fun kv => In kv.1 ["src_ip"; "host"; "method"; "uri"; "status"; "user_agent"; "referer";
                                "country"; "asn"; "bot_score"; "waf_action"; "waf_rule_id";
                                "cache_status"; "vendor"]
                       /\ exists s, kv.2 = VStr s /\ slen s <= 4096) (e_metadata ev).
Proof.
  cbv zeta. unfold Webhook.ingest_webhook. unfold mbind at 1, M_bind at 1, lift_res.
  destruct (Webhook.webhook_front decode_replace loads vendor x_event_source content_length body)
    as [[[records source] v]|ex] eqn:Ef; [|cbn [fst]; congruence].
  unfold mbind at 1, M_bind at 1, on_fst at 1. destruct w as [[d r] a]. cbn [fst snd].
  destruct (Webhook.rows_of fromisoformat e 0 source v records) as [[rows n]|ex] eqn:Hrows; last first.
  { intros Hnew Hold. exfalso.
    pose proof (refused_rows publish fromisoformat e records source v d r ex Hrows) as Hsame.
    destruct (Webhook._ingest_records fromisoformat publish e records source v (d, r)) as [[d' r'] [ack|x]];
      cbn [fst snd] in Hsame, Hnew; [|congruence].
    revert Hnew. unfold mbind, M_bind, on_snd. destruct (record _ _ _ _ _) as [? [?|?]]; cbn; congruence. }
  pose proof (ingest_records_cases publish fromisoformat e records source v d r rows n Hrows) as L.
  destruct (Webhook._ingest_records fromisoformat publish e records source v (d, r)) as [[d' r'] out].
  match goal with |- db_events (tables ?x.1.1.1) !! _ = _ -> _ => replace (x.1.1.1) with d' end; last first.
  { destruct out as [ack|x]; [|done]. unfold mbind, M_bind, on_snd. cbn [fst snd].
    by destruct (record _ _ _ _ _) as [? [?|?]]. }
  intros Hnew Hold. destruct L as [[E _]|[(d1&Hu&Hw&Hp) _]]; [congruence|].
  apply persist_batch_ok in Hp as (d2&Hu2&Hev&Hw2&Hok&_). rewrite Hw2 in Hnew.
  apply with_rows_lookup in Hnew as [Hnew|Hin]; [congruence|].
  apply WebhookFacts.rows_of_spec in Hrows as (_&_&Hfacts).
  unfold Webhook.webhook_front in Ef. apply res_bind_ok in Ef as ([]&Hsize&Ef).
  apply res_bind_ok in Ef as ([]&_&Ef). apply res_bind_ok in Ef as (parsed&_&Ef).
  destruct parsed as [| | | | | |parsed]; try discriminate Ef.
  apply res_bind_ok in Ef as ([recs vs]&Ht&Ef). injection Ef as -> _ _.
  assert (Hkeys : WebhookFacts.all_keys records).
  { destruct (Webhook._pick_translator loads vendor x_event_source parsed) as [[rs s]|] eqn:Epick;
      [|discriminate Ht]. injection Ht as -> _. by eapply WebhookFacts.translator_keys. }
  specialize (Hfacts Hkeys). rewrite List.Forall_forall in Hfacts, Hok.
  destruct (Hfacts ev Hin) as (Hh&_&Hm). apply Hok in Hin. unfold event_ok, varchar in Hin. bprop.
  unfold size_guard in Hsize. apply res_bind_ok in Hsize as ([]&Hcl&Hbody).
  apply guard_res_ok in Hbody. bprop.
  split; [unfold Webhook.MAX_BODY_BYTES in *; lia|]. split; [|done].
  intros h ->. apply guard_res_ok in Hcl. unfold Webhook.MAX_BODY_BYTES in Hcl.
  destruct (py_int h) as [z|]; bprop; [|lia]. eexists. split; [done|]. lia.
Qed.

Module CloudflareFacts.
Import Cloudflare.

Definition CF_KEYS : list string := map snd _CF_TO_METADATA.

Lemma metadata_from_bounded table record : forall out,
  (forall f k, In (f, k) table -> In k CF_KEYS) -> meta_bounded CF_KEYS out ->
  meta_bounded CF_KEYS (metadata_from table record out).
Proof.
  induction table as [|[f k] table IH]; intros out Ht Hout; cbn [metadata_from]; [done|].
  assert (Ht' : forall f k, In (f, k) table -> In k CF_KEYS) by (intros f' k' Hin; apply (Ht f'); by right).
  destruct (_truncate (get f record)) as [s|] eqn:E; [|by apply IH].
  apply IH; [done|]. apply assoc_set_forall; [done|]. split; [apply (Ht f); by left|].
  exists s. split; [done|]. by eapply truncate_bounded.
Qed.

Lemma build_metadata_bounded record : meta_bounded CF_KEYS (_build_metadata record).
Proof.
  apply metadata_from_bounded; [|constructor]. intros f k Hin. apply (in_map snd) in Hin. exact Hin.
Qed.

(** The lines hold no line ending, so stripping a carriage return does nothing. *)
Lemma splitlines_clean body : forall cur,
  Forall (fun c => c <> 13) cur -> Forall (Forall (fun c => c <> 13)) (splitlines_from cur body).
Proof.
  induction body as [body IH] using (induction_ltof1 _ (@length Z)). unfold ltof in IH.
  intros cur Hc. assert (Hrev : Forall (fun c => c <> 13) (rev cur)).
  { apply List.Forall_forall. intros c Hin. apply in_rev in Hin. rewrite List.Forall_forall in Hc. auto. }
  destruct body as [|c body]; cbn [splitlines_from]; [destruct cur; by repeat constructor|].
  destruct (decide (c = 13)) as [->|H13].
  - destruct body as [|b body]; [by repeat constructor|].
    destruct (decide (b = 10)) as [->|H10].
    + constructor; [done|]. apply IH; [cbn; lia|constructor].
    + assert (E : (match b with 10 => rev cur :: splitlines_from [] body
                   | _ => rev cur :: splitlines_from [] (b :: body) end)
                  = rev cur :: splitlines_from [] (b :: body)).
      { destruct b as [|p|p]; try done. do 5 (destruct p as [p|p|]; try done). }
      cbv beta iota. rewrite E. constructor; [done|]. apply IH; [cbn; lia|constructor].
  - destruct (decide (c = 10)) as [->|H10].
    + constructor; [done|]. apply IH; [cbn; lia|constructor].
    + assert (E : splitlines_from cur (c :: body) = splitlines_from (c :: cur) body).
      { cbn [splitlines_from]. destruct c as [|p|p]; try done.
        do 5 (destruct p as [p|p|]; try done). }
      change (match c with 13 => _ | _ => _ end) with (splitlines_from cur (c :: body)).
      rewrite E. apply IH; [cbn; lia|by constructor].
Qed.

Lemma drop_cr_clean l : Forall (fun c => c <> 13) l -> drop_cr l = l.
Proof.
  intros Hl. unfold drop_cr. destruct (List.last l 0 =? 13) eqn:E; [|done]. bprop.
  assert (Hin : l = [] \/ In (List.last l 0) l).
  { destruct l as [|x l]; [by left|right].
    assert (El : x :: l = removelast (x :: l) ++ [List.last (x :: l) 0]) by (by apply app_removelast_last).
    rewrite El at 2. apply in_app_iff. right. by left. }
  destruct Hin as [->|Hin]; [done|]. rewrite List.Forall_forall in Hl. by apply Hl in Hin.
Qed.

Definition nonblank (l : list Z) : bool := match l with [] => false | _ => true end.

Section RowFacts.
Context (decode_replace : list Z -> string) (loads : string -> res val).
Context (fromisoformat : string -> res Z).

Lemma logpush_rows_spec e lines : forall k rows n,
  Forall (Forall (fun c => c <> 13)) lines ->
  rows_of decode_replace loads fromisoformat e k lines = Ok (rows, n) ->
  Z.of_nat (length rows) + n = Z.of_nat (length (List.filter nonblank lines))
  /\ Forall (fun ev => is_logpush ev = true /\ e_received_at ev = tx_now e
       /\ (exists l, In l lines /\ e_raw ev = decode_replace l /\ Z.of_nat (length l) <= 65536)
       /\ meta_bounded CF_KEYS (e_metadata ev)) rows.
Proof.
  induction lines as [|l lines IH]; intros k rows n Hcl; cbn [rows_of].
  { intros [= <- <-]. split; [done|constructor]. }
  apply Forall_cons in Hcl as [Hl Hcl]. rewrite drop_cr_clean by done.
  assert (Hweak : forall P Q : Event -> Prop, (forall ev, P ev -> Q ev) ->
    forall l : list Event, Forall P l -> Forall Q l) by (intros P Q HPQ l' Hl'; eapply Forall_impl; eauto).
  destruct l as [|c l].
  { intros H. apply IH in H as [H1 H2]; [|done]. split; [done|]. revert H2. apply Hweak.
    intros ev (?&?&(l&?&?&?)&?). repeat split; try done. exists l. split; [by right|done]. }
  intros H. apply res_bind_ok in H as (o&Ho&H). destruct o as [rec|].
  - apply res_bind_ok in H as (ev&Hev&H). apply res_bind_ok in H as ([rows' n']&Hr&H).
    injection H as <- <-. apply IH in Hr as [H1 H2]; [|done]. cbn [List.filter nonblank length fst snd].
    split; [lia|]. constructor.
    + unfold event_of in Hev. apply res_bind_ok in Hev as (t&_&Hev). apply (inj Ok) in Hev.
      rewrite <- Hev. split; [done|]. split; [done|]. split; [|apply build_metadata_bounded].
      exists (c :: l). split; [by left|]. split; [done|]. unfold line_record in Ho.
      destruct (MAX_LINE_BYTES <? Z.of_nat (length (c :: l))) eqn:E; [discriminate Ho|].
      apply Z.ltb_ge in E. exact E.
    + revert H2. apply Hweak. intros x (?&?&(l'&?&?&?)&?). repeat split; try done.
      exists l'. split; [by right|done].
  - apply res_bind_ok in H as ([rows' n']&Hr&H). injection H as <- <-.
    apply IH in Hr as [H1 H2]; [|done]. cbn [List.filter nonblank length fst snd]. split; [lia|].
    revert H2. apply Hweak. intros x (?&?&(l'&?&?&?)&?). repeat split; try done.
    exists l'. split; [by right|done].
Qed.

End RowFacts.

(** *** The last rows received *)

Lemma sorted_split (m : Z) (l : list Event) :
  StronglySorted newest_first l -> Forall (fun ev => e_received_at ev <= m) l ->
  l = List.filter (fun ev => e_received_at ev =? m) l
      ++ List.filter (fun ev => negb (e_received_at ev =? m)) l.
Proof.
  induction 1 as [|x l Hs IH Hx]; [done|]. intros Hle. apply Forall_cons in Hle as [Hxm Hle].
  cbn [List.filter]. destruct (e_received_at x =? m) eqn:E; cbn [negb app].
  - f_equal. by apply IH.
  - bprop. assert (Hno : List.filter (fun ev => e_received_at ev =? m) l = []).
    { clear IH Hs Hle. induction Hx as [|y l Hy _ IHl]; [done|]. cbn [List.filter]. unfold newest_first in Hy.
      destruct (Z.eqb_spec (e_received_at y) m); [lia|exact IHl]. }
    rewrite Hno. cbn [app]. f_equal. rewrite Hno in IH. by apply IH.
Qed.

#[local] Existing Instance newest_first_dec.

#[local] Instance newest_total : Total newest_first.
Proof. intros a b. unfold newest_first. lia. Qed.

#[local] Instance newest_trans : Transitive newest_first.
Proof. intros a b c. unfold newest_first. lia. Qed.

(** The newest rows, when at least [n] rows carry the latest time. *)
Lemma last_received_newest (d : db) (m : Z) (rows : list Event) (n : nat) :
  (forall id ev, db_events d !! id = Some ev -> is_logpush ev = true -> e_received_at ev <= m) ->
  Forall (fun ev => is_logpush ev = true /\ e_received_at ev = m
                    /\ db_events d !! e_id ev = Some ev) rows ->
  NoDup rows -> (n <= length rows)%nat ->
  length (last_received n d) = n /\ Forall (fun ev => e_received_at ev = m) (last_received n d)
  /\ forall ev, In ev (last_received n d) -> exists id, db_events d !! id = Some ev.
Proof.
  intros Hmax Hrows Hnd Hn. unfold last_received.
  set (F := filter _ _). assert (HF : forall ev, In ev F <-> is_logpush ev = true
    /\ exists id, db_events d !! id = Some ev).
  { intros ev. unfold F. rewrite <- list_elem_of_In, list_elem_of_filter, list_elem_of_In, in_map_iff.
    split.
    - intros [Hl ([id x]&<-&Hin)]. split; [done|]. exists id. cbn.
      by apply list_elem_of_In, elem_of_map_to_list in Hin.
    - intros [Hl [id Hid]]. split; [done|]. exists (id, ev). split; [done|].
      by apply list_elem_of_In, elem_of_map_to_list. }
  pose proof (StronglySorted_merge_sort newest_first F) as Hsort.
  pose proof (merge_sort_Permutation newest_first F) as Hperm.
  set (l := merge_sort newest_first F) in *.
  assert (Hle : Forall (fun ev => e_received_at ev <= m) l).
  { apply List.Forall_forall. intros ev Hin. apply (Permutation_in _ Hperm), HF in Hin as [Hl [id Hid]].
    by eapply Hmax. }
  pose proof (sorted_split m l Hsort Hle) as Hsp.
  set (top := List.filter (fun ev => e_received_at ev =? m) l) in *.
  assert (Htop : (length rows <= length top)%nat).
  { apply submseteq_length, NoDup_submseteq; [done|]. intros ev Hin.
    apply list_elem_of_In in Hin. rewrite List.Forall_forall in Hrows. apply Hrows in Hin as (Hl&Hm&Hd).
    apply list_elem_of_In, filter_In. split; [|by rewrite Hm, Z.eqb_refl].
    apply (Permutation_in _ (Permutation_sym Hperm)), HF. eauto. }
  assert (Hin : forall ev, In ev (take n l) -> In ev top).
  { intros ev. rewrite Hsp, take_app_le by lia. intros Hi.
    rewrite <- (take_drop n top). apply in_app_iff. by left. }
  split; [|split].
  - rewrite length_rev, length_take. rewrite Hsp, length_app. lia.
  - apply List.Forall_forall. intros ev Hi. apply in_rev in Hi. apply Hin, filter_In in Hi as [_ Hi].
    by apply Z.eqb_eq in Hi.
  - intros ev Hi. apply in_rev in Hi. apply Hin, filter_In in Hi as [Hi _].
    by apply (Permutation_in _ Hperm), HF in Hi as [_ Hi].
Qed.

End CloudflareFacts.

Section CloudflareSession.
Import Cloudflare CloudflareFacts.
Context {D : Type} `{DatabaseLaws D}.
Context (decode_replace : list Z -> string) (loads : string -> res val).
Context (fromisoformat : string -> res Z).

Lemma persist_ndjson_ok e body (d d' : D) n r :
  persist_ndjson decode_replace loads fromisoformat e body d = (d', Ok (n, r)) ->
  exists rows d1, rows_of decode_replace loads fromisoformat e 0 (splitlines body) = Ok (rows, r)
    /\ n = length rows /\ upsert_host (logpush_host (host_now e)) (tables d) = (d1, Ok tt)
    /\ db_events d1 = db_events (tables d) /\ tables d' = with_rows rows d1
    /\ NoDup (map e_id rows) /\ Forall (fun ev => db_events (tables d) !! e_id ev = None) rows.
Proof.
  unfold persist_ndjson, try_M.
  match goal with |- context [transaction ?t d] =>
    pose proof (transaction_cases t d) as L; destruct (transaction t d) as [d1 o] end.
  cbn [fst snd] in L. intros Heq. destruct o as [x|x]; [|discriminate Heq]. injection Heq as -> ->.
  destruct L as [[_ [x Hx]]|(a&E&Ha)]; [discriminate Hx|].
  assert (Hax : a = (n, r)) by (destruct Ha as [Ha|Ha]; [by injection Ha|discriminate Ha]). subst a.
  apply M_bind_ok in E as (s1&[rows k]&Er&E). unfold lift_res in Er. injection Er as -> Er.
  apply M_bind_ok in E as (s2&[]&Ep&E). injection E as -> <- <-. cbn [fst snd] in Ep.
  apply persist_batch_ok in Ep as (d1&Hu&Hev&Hw&_&Hnd&Hf). exists rows, d1. auto 10.
Qed.

End CloudflareSession.

Lemma verify_hmac_true secret body s :
  Cloudflare._verify_hmac secret body s = Ok true <-> lower s = hex (hmac_sha256 secret body).
Proof.
  unfold Cloudflare._verify_hmac. set (mac := hex (hmac_sha256 secret body)).
  assert (Hl : slen mac = 64).
  { unfold mac. rewrite hex_length. unfold hmac_sha256. by rewrite sha256_length. }
  assert (Ha : is_ascii mac = true) by (apply hex_ascii, hex_is_hex; unfold hmac_sha256; apply sha256_range).
  clearbody mac.
  destruct (nonempty s) eqn:Es; cbn [negb]; last first.
  { destruct s; [|done]. split; [done|]. intros <-. done. }
  destruct (slen s =? 64) eqn:El; bprop; cbn [negb]; last first.
  { split; [done|]. intros <-. by rewrite lower_length in Hl. }
  unfold compare_digest. rewrite Ha, lower_ascii. cbn [andb]. destruct (is_ascii s) eqn:Ei.
  - split; [intros [= E%String.eqb_eq]; done|intros ->; by rewrite String.eqb_refl].
  - split; [done|]. intros <-. rewrite lower_ascii in Ha. congruence.
Qed.

Lemma verify_hmac_raise secret body s x :
  Cloudflare._verify_hmac secret body s = Raise x ->
  x = TypeError /\ slen s = 64 /\ is_ascii s = false.
Proof.
  unfold Cloudflare._verify_hmac. set (mac := hex (hmac_sha256 secret body)).
  assert (Ha : is_ascii mac = true) by (apply hex_ascii, hex_is_hex; unfold hmac_sha256; apply sha256_range).
  clearbody mac. destruct (nonempty s); cbn [negb]; [|done].
  destruct (slen s =? 64) eqn:El; cbn [negb]; [|done]. bprop.
  unfold compare_digest. rewrite Ha, lower_ascii. cbn [andb]. destruct (is_ascii s); [done|].
  intros [= <-]. done.
Qed.

Lemma size_guard_raise max h n x :
  size_guard max h n = Raise x -> x = HTTPException 413 "body too large".
Proof.
  unfold size_guard. assert (Hg : forall b, guard_res b (HTTPException 413 "body too large") = Raise x ->
    x = HTTPException 413 "body too large") by (intros []; cbn; congruence).
  destruct h as [h|]; cbn [mbind res_bind]; [|apply Hg].
  destruct (guard_res (negb (_ || _)) _) as [[]|y] eqn:E; [apply Hg|].
  intros [= ->]. by apply Hg in E.
Qed.


(** Publication after a Cloudflare batch picks the newest rows instead of its
    own: when a second, later batch of at least as many rows commits between the
    commit of a first one and its publication, the first publishes only rows of the
    second, which the second then publishes again, and none of its own. *)
Theorem cloudflare_publishes_wrong_rows {D : Type} `{DatabaseLaws D}
    (decode_replace : list Z -> string) (loads : string -> res val) (fromisoformat : string -> res Z)
    (eA eB : env) (bodyA bodyB : list Z) (d0 d1 d2 : D) (nA nB : nat) (rA rB : Z)
    (HA : Cloudflare.persist_ndjson decode_replace loads fromisoformat eA bodyA d0 = (d1, Ok (nA, rA)))
    (HB : Cloudflare.persist_ndjson decode_replace loads fromisoformat eB bodyB d1 = (d2, Ok (nB, rB)))
    (Hlater : forall id ev, db_events (tables d1) !! id = Some ev -> e_received_at ev < tx_now eB)
    (Hn : (nA <= nB)%nat) :
  let publishedA := Cloudflare.last_received nA (tables d2) in
  let publishedB := Cloudflare.last_received nB (tables d2) in
  length publishedA = nA
  /\ Forall (fun ev => In ev publishedB) publishedA
  /\ Forall (fun ev => forall id, db_events (tables d1) !! id <> Some ev) publishedA.
Proof.
  cbv zeta. clear HA.
  apply persist_ndjson_ok in HB as (rows&s&Hr&->&_&Hev&Hw&Hnd&Hf).
  apply CloudflareFacts.logpush_rows_spec in Hr as [_ Hr];
    [|apply CloudflareFacts.splitlines_clean; constructor].
  assert (Hmax : forall id ev, db_events (tables d2) !! id = Some ev ->
    Cloudflare.is_logpush ev = true -> e_received_at ev <= tx_now eB).
  { intros id ev Hd _. rewrite Hw in Hd. apply with_rows_lookup in Hd as [Hd|Hd].
    - rewrite Hev in Hd. apply Hlater in Hd. lia.
    - rewrite List.Forall_forall in Hr. apply Hr in Hd as (_&->&_). lia. }
  assert (Hrows : Forall (fun ev => Cloudflare.is_logpush ev = true /\ e_received_at ev = tx_now eB
                           /\ db_events (tables d2) !! e_id ev = Some ev) rows).
  { apply List.Forall_forall. intros ev Hin. rewrite List.Forall_forall in Hr.
    destruct (Hr ev Hin) as (?&?&_). rewrite Hw. split; [done|]. split; [done|]. by apply with_rows_in. }
  assert (Hnd' : NoDup rows) by (by eapply NoDup_fmap_1).
  destruct (CloudflareFacts.last_received_newest _ _ _ nA Hmax Hrows Hnd' Hn) as (Hlen&Htop&_).
  split; [done|]. split.
  - apply List.Forall_forall. intros ev Hin. unfold Cloudflare.last_received in *.
    apply in_rev in Hin. rewrite <- in_rev.
    rewrite <- (Nat.min_l nA (length rows)), <- take_take in Hin by done.
    rewrite <- (take_drop nA (take (length rows) _)). apply in_app_iff. by left.
  - eapply Forall_impl; [exact Htop|]. cbn beta. intros ev Hm id Hid. apply Hlater in Hid. lia.
Qed.

(** ** Witnesses *)

Fixpoint bytes_text (b : list Z) : string :=
  match b with [] => "" | c :: r => String (ascii_of_N (Z.to_N c)) (bytes_text r) end.

Definition no_iso (s : string) : res Z := Raise (ValueError "isoformat").
Definition ex_env (p : string) (t : Z) : env :=
  mkEnv (fun k => p +:+ str_int (Z.of_nat k)) (fun _ => t) t t good_io t t.

Definition good_record : list (string * val) := [("src_ip", VStr "203.0.113.9"); ("uri", VStr "/login")].
Definition nul_record : list (string * val) :=
  [("src_ip", VStr "203.0.113.9"); ("uri", VStr (String "000" ""))].


Definition ex_loads (s : string) : res val :=
  if String.eqb s "A" then Ok (VDict [("ClientIP", VStr "198.51.100.1")])
  else if String.eqb s "B" then Ok (VDict [("ClientIP", VStr "198.51.100.2")])
  else if String.eqb s "W" then Ok (VDict good_record)
  else Raise JSONDecodeError.

Lemma webhook_bounds_witness :
  let w' := (Webhook.ingest_webhook no_iso (fun _ => mret tt) bytes_text ex_loads (ex_env "e" 5) None
               (Some "siem") (Some "1") [87] (empty_db, tt, fresh_log None)).1 in
  exists ev, db_events (tables w'.1.1) !! "e0" = Some ev /\ slen (e_source ev) <= 255.
Proof.
  cbv zeta. eexists. split; [vm_compute; reflexivity|].
  refine (proj1 (proj2 (proj2 (proj2 (webhook_bounds (fun _ => mret tt) no_iso bytes_text ex_loads
    (ex_env "e" 5) None (Some "siem") (Some "1") [87] (empty_db, tt, fresh_log None) "e0" _ _ eq_refl))))).
  vm_compute. reflexivity.
Defined.

Definition ex_secret : list Z := utf8 "s3cret".


Lemma cloudflare_publishes_wrong_rows_witness :
  let a := Cloudflare.persist_ndjson bytes_text ex_loads no_iso (ex_env "a" 5) [65] empty_db in
  let b := Cloudflare.persist_ndjson bytes_text ex_loads no_iso (ex_env "b" 6) [66] a.1 in
  a.2 = Ok (1%nat, 0) /\ b.2 = Ok (1%nat, 0)
  /\ map e_id (Cloudflare.last_received 1 b.1) = ["b0"]
  /\ length (Cloudflare.last_received 1 (tables b.1)) = 1%nat.
Proof.
  cbv zeta. set (a := Cloudflare.persist_ndjson bytes_text ex_loads no_iso (ex_env "a" 5) [65] empty_db).
  set (b := Cloudflare.persist_ndjson bytes_text ex_loads no_iso (ex_env "b" 6) [66] a.1).
  split; [vm_compute; reflexivity|]. split; [vm_compute; reflexivity|]. split; [vm_compute; reflexivity|].
  assert (HA : Cloudflare.persist_ndjson bytes_text ex_loads no_iso (ex_env "a" 5) [65] empty_db
               = (a.1, Ok (1%nat, 0))) by (vm_compute; reflexivity).
  assert (HB : Cloudflare.persist_ndjson bytes_text ex_loads no_iso (ex_env "b" 6) [66] a.1
               = (b.1, Ok (1%nat, 0))) by (vm_compute; reflexivity).
  refine (proj1 (cloudflare_publishes_wrong_rows bytes_text ex_loads no_iso (ex_env "a" 5) (ex_env "b" 6)
            [65] [66] empty_db a.1 b.1 1 1 0 0 HA HB _ (le_n 1))).
  intros id ev Hd. assert (Hm : Forall (fun kv : string * Event => e_received_at kv.2 < 6)
    (map_to_list (db_events (tables a.1)))) by (vm_compute; repeat constructor).
  rewrite Forall_forall in Hm. apply (Hm (id, ev)). by apply elem_of_map_to_list.
Defined.
