(* ===== verification/RulesStudio.v ===== *)
(** * The rule studio: [api/v1/rules_studio.py]

    The rule directories are the record [disk]: relative file names and texts of
    [builtin/] and [custom/], and the reload sentinel.  Parameters: YAML
    ([safe_load] and [safe_dump]), [re.search] of rule authors' patterns, the
    pydantic validation of a [RuleDetail], and the names of the two directories.
    What a request draws (UUID digits, whether the file system accepts the write)
    is an argument. *)

From S2P Require Import Prelude PyStr PyVal PyStd Regex Sigma.
From Stdlib Require Import Ascii.

Record disk : Type := mkDisk {
  builtin : gmap string string;
  custom : gmap string string;
  sentinel : option string
}.

Inductive source : Type := Builtin | Custom.

Definition source_name (s : source) : string :=
  match s with Builtin => "builtin" | Custom => "custom" end.

Definition dir_of (s : source) (d : disk) : gmap string string :=
  match s with Builtin => builtin d | Custom => custom d end.

(** ** Identifiers *)

Definition rule_id_char (c : ascii) : bool :=
  in_range 65 90 c || in_range 97 122 c || is_digit c || is_char "_" c || is_char "." c || is_char "-" c.

Definition _RULE_ID_PATTERN : re := Rcat (Rrep 1 64 (Rcls rule_id_char)) Rend.

Definition _validate_rule_id (rule_id : string) : res string :=
  if re_match _RULE_ID_PATTERN rule_id then Ok rule_id
  else Raise (HTTPException 400 "rule_id").

Definition id_edge (c : ascii) : bool := in_range 97 122 c || is_digit c.
Definition id_inner (c : ascii) : bool := id_edge c || is_char "-" c.

Definition _ID_RE : re :=
  Rcat (Rcat (Rcls id_edge) (Rcat (Rrep 1 62 (Rcls id_inner)) (Rcls id_edge))) Rend.

(** [re.sub(r"[^a-z0-9-]+", "-", s)]: each maximal run becomes one hyphen. *)
Fixpoint sub_runs (in_run : bool) (s : string) : string :=
  match s with
  | EmptyString => EmptyString
  | String c r =>
      if id_inner c then String c (sub_runs false r)
      else if in_run then sub_runs true r else String "-" (sub_runs true r)
  end.

Definition strip_char (x : ascii) (s : string) : string := dropwhile (is_char x) (rstrip_char x s).

(** [hex1] and [hex2] are the eight digits of the UUIDs that may be drawn. *)
Definition _sanitize_rule_id (hex1 hex2 : string) (raw : option string) (title : string) : res string :=
  match match raw with Some r => if nonempty r then Some r else None | None => None end with
  | Some r => if re_match _ID_RE r then Ok r else Raise (HTTPException 422 "invalid rule id")
  | None =>
      let cleaned := strip_char "-" (sub_runs false (lower title)) in
      let cleaned := if nonempty cleaned then cleaned else "rule-" +:+ hex1 in
      let cleaned := strip_char "-" (take_str 64 cleaned) in
      Ok (if re_match _ID_RE cleaned then cleaned else "rule-" +:+ hex2)
  end.

(** ** Conditions *)

Definition spaces1 : re := Rplus (Rcls is_space).
Definition word1 : re := Rplus (Rcls is_word).
Definition group_re : re :=
  Rcat (Rlit "(") (Rcat (Rplus (Rcls (fun c => negb (is_char ")" c)))) (Rlit ")")).
Definition and_re : re := Rcat spaces1 (Rcat (Rlit "and") spaces1).
Definition not_re : re := Rcat (Rlit "not") (Rcat spaces1 word1).

Definition cond2_re : re := Rcat (Rlit "selection") (Rcat and_re not_re).
Definition cond3_re : re := Rcat (Rlit "selection") (Rcat and_re group_re).
Definition cond4_re : re :=
  Rcat (Rlit "selection") (Rcat and_re (Rcat group_re (Rcat and_re not_re))).

Definition _validate_condition (condition : option string) : res string :=
  match condition with
  | None => Ok "selection"
  | Some c =>
      let cond := strip c in
      if String.eqb cond "selection" then Ok cond
      else if re_fullmatch cond2_re cond then Ok cond
      else if re_fullmatch cond3_re cond then Ok cond
      else if re_fullmatch cond4_re cond then Ok cond
      else Raise (HTTPException 422 "unsupported condition")
  end.

(** ** Request bodies *)

Record RuleCreateIn : Type := mkRuleIn {
  b_title : string;
  b_id : option string;
  b_level : string;
  b_description : option string;
  b_logsource : option string;
  b_mitre_id : option string;
  b_detection : list (string * val);
  b_condition : option string;
  b_timeframe : option string;
  b_count : option Z;
  b_cooldown_sec : option Z;
  b_dedup_key : option string;
  b_action : option (list (string * val));
  b_tags : list string;
  b_required_fields : list string
}.

(** What pydantic checks before a handler runs. *)
Definition body_valid (b : RuleCreateIn) : bool :=
  (1 <=? slen (b_title b)) && (slen (b_title b) <=? 200) && str_in (b_level b) levels
  && match assoc "selection" (b_detection b) with Some (VDict _) => true | _ => false end.

Inductive log_format : Type := Syslog | Json | Plain.

Record RuleTestIn : Type := mkTestIn {
  t_sample_log : string;
  t_log_format : log_format;
  t_metadata : list (string * val);  (* texts *)
  t_source : string
}.

Record RuleTestOut : Type := mkTestOut {
  matched : bool;
  evidence : list string;
  parse_errors : list string
}.

Record RuleReloadOut : Type := mkReload {
  builtin_count : Z;
  custom_count : Z;
  load_errors : list string
}.

Record RuleSummary : Type := mkSummary {
  s_id : string;
  s_title : string;
  s_level : string;
  s_source : source;
  s_description : option string;
  s_mitre_id : option string;
  s_logsource : option string;
  s_path : string
}.

(** ** YAML documents *)

(** [doc.setdefault("tags", []).extend(l)]. *)
Definition extend_tags (l : list string) (doc : list (string * val)) : list (string * val) :=
  match default (VList []) (assoc "tags" doc) with
  | VList old => assoc_set "tags" (VList (old ++ map VStr l)) doc
  | _ => doc
  end.

(** [if o: doc[k] = f(o)] for text. *)
Definition set_text (k : string) (f : string -> val) (o : option string) (doc : list (string * val))
  : list (string * val) :=
  match o with Some s => if nonempty s then assoc_set k (f s) doc else doc | None => doc end.

Definition set_opt {A} (k : string) (f : A -> val) (o : option A) (doc : list (string * val))
  : list (string * val) :=
  match o with Some a => assoc_set k (f a) doc | None => doc end.

(** [if l: doc[k] = f(l)] for a list or a mapping. *)
Definition set_items {A} (k : string) (f : list A -> val) (l : list A) (doc : list (string * val))
  : list (string * val) :=
  match l with [] => doc | _ => assoc_set k (f l) doc end.

Definition with_tags (l : list string) (doc : list (string * val)) : list (string * val) :=
  match l with [] => doc | _ => extend_tags l doc end.

Definition with_mitre (m : option string) (doc : list (string * val)) : list (string * val) :=
  match m with
  | Some m => if nonempty m then extend_tags ["attack." +:+ lower m] doc else doc
  | None => doc
  end.

(** The log source goes into the selection unless it names one. *)
Definition with_logsource (l : option string) (detection : list (string * val)) : list (string * val) :=
  match l with
  | Some s =>
      if nonempty s then
        match assoc "selection" detection with
        | Some (VDict sel) => if has_key "source" sel then detection
                              else assoc_set "selection" (VDict (assoc_set "source" (VStr s) sel)) detection
        | _ => detection
        end
      else detection
  | None => detection
  end.

Definition detection_doc (b : RuleCreateIn) (condition : string) : list (string * val) :=
  with_logsource (b_logsource b)
    (set_opt "count" VInt (b_count b)
      (set_opt "timeframe" VStr (b_timeframe b)
        (assoc_set "condition" (VStr condition) (b_detection b)))).

(** The document [_build_yaml] dumps. *)
Definition rule_doc (rule_id : string) (b : RuleCreateIn) (condition : string) : list (string * val) :=
  let doc := [("title", VStr (b_title b)); ("id", VStr rule_id); ("level", VStr (b_level b));
              ("detection", VDict (detection_doc b condition))] in
  let doc := set_text "description" (fun s => VStr (strip s)) (b_description b) doc in
  let doc := with_mitre (b_mitre_id b) doc in
  let doc := with_tags (b_tags b) doc in
  let doc := set_opt "cooldown_sec" VInt (b_cooldown_sec b) doc in
  let doc := set_text "dedup_key" VStr (b_dedup_key b) doc in
  let doc := set_items "action" VDict (default [] (b_action b)) doc in
  set_items "required_fields" (fun l => VList (map VStr l)) (b_required_fields b) doc.

(** [t?\d{4}(?:\.\d{3})?], ignoring case. *)
Definition mitre_re : re :=
  Rcat (Ropt (Rilit "t"))
    (Rcat (Rrep 4 4 (Rcls is_digit)) (Ropt (Rcat (Rlit ".") (Rrep 3 3 (Rcls is_digit))))).

(** The elements a [for] loop sees. *)
Definition iterate (v : val) : res (list val) :=
  match v with
  | VList l => Ok l
  | VDict d => Ok (map (fun kv => VStr kv.1) d)
  | VStr s => Ok (map (fun c => VStr (String c "")) (String.list_ascii_of_string s))
  | _ => Raise TypeError
  end.

Fixpoint first_mitre (tags : list val) : option string :=
  match tags with
  | [] => None
  | VStr tag :: r =>
      match re_find mitre_re tag with
      | Some (t, rest) => Some (upper (between t rest))
      | None => first_mitre r
      end
  | _ :: r => first_mitre r
  end.

Definition _collect_mitre (rule : list (string * val)) : res (option string) :=
  tags ← iterate (val_or (default (VList []) (assoc "tags" rule)) (VList []));
  Ok (first_mitre tags).

(** [x.get(k)] where [x] is [d.get(key) or {}]. *)
Definition dict_or_raise (v : val) : res (list (string * val)) :=
  match val_or v (VDict []) with VDict d => Ok d | _ => Raise AttributeError end.

(** ** Sample events *)

Definition nonspace1 : re := Rplus (Rcls (fun c => negb (is_space c))).

Definition syslog_date : re :=
  Rcat (Rrep 3 3 (Rcls is_word)) (Rcat spaces1 (Rcat (Rrep 1 2 (Rcls is_digit)) (Rcat spaces1
    (Rcat (Rrep 2 2 (Rcls is_digit)) (Rcat (Rlit ":") (Rcat (Rrep 2 2 (Rcls is_digit))
      (Rcat (Rlit ":") (Rcat (Rrep 2 2 (Rcls is_digit)) spaces1)))))))).

(** The matches of the syslog pattern in the order [re] tries them: the greedy
    parts longest first, the lazy process name shortest first. *)
Definition syslog_matches (raw : string) : list (string * string * option string * string) :=
  flat_map (fun s1 =>
  flat_map (fun s2 =>
  flat_map (fun s3 =>
  flat_map (fun s4 =>
  flat_map (fun ps => let '(pid, s5) := ps in
  flat_map (fun s6 =>
  flat_map (fun s7 =>
  flat_map (fun s8 =>
    map (fun _ => (between s1 s2, between s3 s4, pid, between s7 s8)) (rests Rend s8))
    (rests (Rstar (Rcls (fun c => negb (is_char "010" c)))) s7))
    (rests (Rstar (Rcls is_space)) s6))
    (rests (Rlit ":") s5))
    (flat_map (fun s5 => map (fun s6 => (Some (between s5 s6), drop_str 1 s6))
                 (filter (fun s6 => startswith "]" s6 = true) (rests (Rplus (Rcls is_digit)) s5)))
       (rests (Rlit "[") s4) ++ [(None, s4)]))
    (rev (rests nonspace1 s3)))
    (rests spaces1 s2))
    (rests nonspace1 s1))
    (rests (Ropt syslog_date) raw).

Definition setdefault (k : string) (v : val) (d : list (string * val)) : list (string * val) :=
  if has_key k d then d else assoc_set k v d.

(** Values a parsed sample contributes. *)
Definition scalar (v : val) : bool :=
  match v with VStr _ | VInt _ | VFloat _ | VBool _ => true | _ => false end.

Fixpoint merge_sample (parsed metadata : list (string * val)) : list (string * val) :=
  match parsed with
  | [] => metadata
  | (k, v) :: r => merge_sample r (if scalar v then setdefault k (VStr (str_of v)) metadata else metadata)
  end.

Section Studio.
Context (yaml_load : string -> res val) (yaml_dump : val -> string).
Context (re_search : string -> string -> res bool).
Context (detail_model : list (string * val) -> res (list (string * val))).
Context (builtin_dir custom_dir : string).

Definition _build_yaml (rule_id : string) (b : RuleCreateIn) (condition : string) : string :=
  yaml_dump (VDict (rule_doc rule_id b condition)).

(** The file name under a rule directory. *)
Definition rule_file (rule_id : string) : string := rule_id +:+ ".yml".

Definition dir_name (s : source) : string :=
  match s with Builtin => builtin_dir | Custom => custom_dir end.

Definition _resolve_path (s : source) (rule_id : string) : string :=
  dir_name s +:+ "/" +:+ rule_file rule_id.

(** ** Reading *)

Definition yaml_or_os (e : exn) : bool := match e with YAMLError | OSError => true | _ => false end.

(** The stem of a relative path: its last component without the extension. *)
Definition stem (name : string) : string :=
  let base := List.last (split_char "/" name) "" in
  if endswith ".yaml" base then take_str (String.length base - 5) base
  else take_str (String.length base - 4) base.

Definition _summarize_rule (s : source) (name text : string) : res (option RuleSummary) :=
  match yaml_load text with
  | Raise e => if yaml_or_os e then Ok None else Raise e
  | Ok (VDict data) =>
      let rid := str_of (val_or (get "id" data) (VStr (stem name))) in
      detection ← dict_or_raise (get "detection" data);
      selection ← dict_or_raise (get "selection" detection);
      description ← match get "description" data with
                    | VStr d => Ok (if nonempty (strip d) then Some (strip d) else None)
                    | VNone => Ok None
                    | _ => Raise ValidationError
                    end;
      mitre ← _collect_mitre data;
      let level := match val_or (get "level" data) (VStr "medium") with
                   | VStr l => if str_in l levels then l else "medium"
                   | _ => "medium"
                   end in
      Ok (Some (mkSummary rid (str_of (val_or (get "title" data) (VStr rid))) level s description mitre
                 (match get "source" selection with VStr l => Some l | _ => None end)
                 (dir_name s +:+ "/" +:+ name)))
  | Ok _ => Ok None
  end.

(** The files [rglob] yields for one extension. *)
Definition rglob (ext : string) (m : gmap string string) : list (string * string) :=
  filter (fun f => endswith ext f.1 = true) (map_to_list m).

Definition all_files (d : disk) : list (source * (string * string)) :=
  flat_map (fun s => map (pair s) (rglob ".yml" (dir_of s d) ++ rglob ".yaml" (dir_of s d)))
    [Builtin; Custom].

(** The loop of [_list_rules]; [seen] holds "source:id" keys. *)
Fixpoint summaries (seen : list string) (files : list (source * (string * string)))
  : res (list RuleSummary) :=
  match files with
  | [] => Ok []
  | (s, (name, text)) :: rest =>
      o ← _summarize_rule s name text;
      match o with
      | None => summaries seen rest
      | Some r =>
          let key := source_name s +:+ ":" +:+ s_id r in
          if str_in key seen then summaries seen rest
          else l ← summaries (key :: seen) rest; Ok (r :: l)
      end
  end.

(** [key=lambda r: (r.source != "custom", r.title.lower())]. *)
Definition summary_le (a b : RuleSummary) : Prop :=
  match s_source a, s_source b with
  | Custom, Builtin => True
  | Builtin, Custom => False
  | _, _ => String.leb (lower (s_title a)) (lower (s_title b)) = true
  end.

#[local] Instance summary_le_dec a b : Decision (summary_le a b).
Proof. unfold summary_le. destruct (s_source a), (s_source b); apply _. Defined.

Definition _list_rules (d : disk) : res (list RuleSummary) :=
  merge_sort summary_le <$> summaries [] (all_files d).

(** The file of a rule: custom before builtin, [.yml] before [.yaml]. *)
Definition find_rule (rule_id : string) (d : disk) : option (source * string) :=
  match custom d !! (rule_id +:+ ".yml") with
  | Some t => Some (Custom, t)
  | None =>
  match custom d !! (rule_id +:+ ".yaml") with
  | Some t => Some (Custom, t)
  | None =>
  match builtin d !! (rule_id +:+ ".yml") with
  | Some t => Some (Builtin, t)
  | None => pair Builtin <$> builtin d !! (rule_id +:+ ".yaml")
  end end end.

Definition _read_rule_detail (rule_id : string) (d : disk)
  : res (string * list (string * val) * source) :=
  _ ← _validate_rule_id rule_id;
  match find_rule rule_id d with
  | None => Raise (HTTPException 404 "rule not found")
  | Some (s, text) =>
      parsed ← yaml_load text;
      match val_or parsed (VDict []) with
      | VDict doc => Ok (text, doc, s)
      | _ => Raise (HTTPException 422 "rule is not a mapping")
      end
  end.

Definition opt_text (o : option string) : val := match o with Some s => VStr s | None => VNone end.

Definition get_rule (rule_id : string) (d : disk) : res (list (string * val)) :=
  '(text, parsed, s) ← _read_rule_detail rule_id d;
  let detection_v := val_or (get "detection" parsed) (VDict []) in
  detection ← match detection_v with VDict x => Ok x | _ => Raise AttributeError end;
  let selection := val_or (get "selection" detection) (VDict []) in
  mitre ← _collect_mitre parsed;
  count ← match get "count" detection with VNone => Ok VNone | v => VInt <$> int_of v end;
  tags ← iterate (val_or (get "tags" parsed) (VList []));
  detail_model
    [("id", VStr (str_of (val_or (get "id" parsed) (VStr rule_id))));
     ("title", VStr (str_of (val_or (get "title" parsed) (VStr rule_id))));
     ("level", val_or (get "level" parsed) (VStr "medium"));
     ("source", VStr (source_name s));
     ("description", match get "description" parsed with
                     | VStr t => if nonempty (strip t) then VStr (strip t) else VNone
                     | _ => VNone
                     end);
     ("mitre_id", opt_text mitre);
     ("logsource", match selection with VDict x => get "source" x | _ => VNone end);
     ("path", VStr (_resolve_path s rule_id)); ("yaml", VStr text);
     ("detection", detection_v);
     ("condition", VStr (str_of (val_or (get "condition" detection) (VStr "selection"))));
     ("timeframe", match get "timeframe" detection with VNone => VNone | v => VStr (str_of v) end);
     ("count", count); ("cooldown_sec", get "cooldown_sec" parsed);
     ("dedup_key", get "dedup_key" parsed); ("action", get "action" parsed); ("tags", VList tags)].

(** ** Writing *)

Definition set_custom (f : gmap string string -> gmap string string) (d : disk) : disk :=
  mkDisk (builtin d) (f (custom d)) (sentinel d).

(** [_atomic_write_text] onto a custom rule: the whole text, or an [OSError] with
    the directory as it was. *)
Definition _atomic_write_text (io_ok : bool) (name text : string) : M disk unit := fun d =>
  if io_ok then (set_custom (insert name text) d, Ok tt) else (d, Raise OSError).

(** [parse_rule_file(_atomic_write_then_load(path, text))], with the loader's own
    error turned into 422. *)
Definition write_then_compile (io_ok : bool) (name text : string) : M disk (list CompiledSigmaRule) :=
  _ ← _atomic_write_text io_ok name text;
  lift_res (match parse_rule_file (yaml_load text) with
            | Raise (SigmaRuleLoadError r) => Raise (HTTPException 422 "sigma compile error")
            | r => r
            end).

Definition body_checked {A} (b : RuleCreateIn) (m : M disk A) : M disk A :=
  if body_valid b then m else raise_M (HTTPException 422 "body").

Definition read_disk {A} (f : disk -> res A) : M disk A := fun d => (d, f d).

Definition create_rule (hex1 hex2 : string) (io_ok : bool) (b : RuleCreateIn)
  : M disk (list (string * val)) :=
  body_checked b (
    rule_id ← lift_res (_sanitize_rule_id hex1 hex2 (b_id b) (b_title b));
    condition ← lift_res (_validate_condition (b_condition b));
    exists_ ← read_disk (fun d => Ok (bool_decide (is_Some (custom d !! rule_file rule_id))));
    if exists_ : bool then raise_M (HTTPException 409 "rule already exists")
    else
      rules ← write_then_compile io_ok (rule_file rule_id) (_build_yaml rule_id b condition);
      match rules with
      | [] => raise_M (HTTPException 422 "rule produced no compiled matcher")
      | _ => read_disk (get_rule rule_id)
      end).

(** The checks [update_rule] and [delete_rule] share. *)
Definition custom_present (rule_id : string) (d : disk) : res unit :=
  if bool_decide (is_Some (custom d !! rule_file rule_id)) then Ok tt
  else if bool_decide (is_Some (builtin d !! rule_file rule_id))
  then Raise (HTTPException 409 "rule is built-in")
  else Raise (HTTPException 404 "rule not found").

Definition update_rule (rule_id : string) (io_ok : bool) (b : RuleCreateIn)
  : M disk (list (string * val)) :=
  body_checked b (
    _ ← lift_res (_validate_rule_id rule_id);
    _ ← read_disk (custom_present rule_id);
    condition ← lift_res (_validate_condition (b_condition b));
    _ ← write_then_compile io_ok (rule_file rule_id) (_build_yaml rule_id b condition);
    read_disk (get_rule rule_id)).

Definition unlink (io_ok : bool) (name : string) : M disk unit := fun d =>
  if io_ok then (set_custom (delete name) d, Ok tt)
  else (d, Raise (HTTPException 500 "delete failed")).

Definition delete_rule (rule_id : string) (io_ok : bool) : M disk unit :=
  _ ← lift_res (_validate_rule_id rule_id);
  _ ← read_disk (custom_present rule_id);
  unlink io_ok (rule_file rule_id).

(** ** Test bench *)

Definition parse_rule_for_text (text : string) : res (list CompiledSigmaRule) :=
  parse_rule_file (yaml_load text).

Definition _build_test_event (event_id : string) (now : Z) (b : RuleTestIn)
  : res (ParsedEvent * list string) :=
  let finish src md errs :=
    Ok (mkEvent event_id (uuid_text 0) src (t_sample_log b) md now, errs) in
  match t_log_format b with
  | Json =>
      match yaml_load (t_sample_log b) with
      | Raise YAMLError => finish (t_source b) (t_metadata b) ["json parse error"]
      | Raise e => Raise e
      | Ok (VDict parsed) =>
          let md := merge_sample parsed (t_metadata b) in
          finish (match assoc "source" md with Some v => str_of v | None => t_source b end) md []
      | Ok _ => finish (t_source b) (t_metadata b) []
      end
  | Syslog =>
      match syslog_matches (t_sample_log b) with
      | [] => finish (t_source b) (t_metadata b) ["syslog parse: regex did not match"]
      | (host, proc, pid, msg) :: _ =>
          let md := setdefault "process" (VStr proc) (setdefault "hostname" (VStr host) (t_metadata b)) in
          let md := match pid with Some p => setdefault "pid" (VStr p) md | None => md end in
          let md := setdefault "message" (VStr msg) md in
          let process := get "process" md in
          finish (if truthy process then str_of process else t_source b) md []
      end
  | Plain => finish (t_source b) (t_metadata b) []
  end.

Definition test_rule (rule_id event_id : string) (now : Z) (b : RuleTestIn) (d : disk)
  : res RuleTestOut :=
  '(text, _, _) ← _read_rule_detail rule_id d;
  match parse_rule_for_text text with
  | Raise (SigmaRuleLoadError r) => Ok (mkTestOut false [] [r])
  | Raise e => Raise e
  | Ok [] => Ok (mkTestOut false [] ["rule compiled to zero matchers"])
  | Ok (rule :: _) =>
      '(event, errs) ← _build_test_event event_id now b;
      m ← matches re_search rule event;
      if negb m then Ok (mkTestOut false [] errs)
      else
        rendered ← render_action rule event;
        Ok (mkTestOut true
              ("rule matched sample" :: match rendered with Some _ => ["would fire action"] | None => [] end)
              errs)
  end.

(** ** Reload *)

(** Rules of the files of one directory, and the errors of the files skipped. *)
Fixpoint count_rules (files : list (string * string)) : res (Z * list string) :=
  match files with
  | [] => Ok (0, [])
  | (_, text) :: rest =>
      match parse_rule_file (yaml_load text) with
      | Ok rules => r ← count_rules rest; Ok (Z.of_nat (length rules) + r.1, r.2)
      | Raise (SigmaRuleLoadError e) => r ← count_rules rest; Ok (r.1, e :: r.2)
      | Raise e => Raise e
      end
  end.

Definition rule_files (s : source) (d : disk) : list (string * string) :=
  rglob ".yml" (dir_of s d) ++ rglob ".yaml" (dir_of s d).

Definition reload_engine (io_ok : bool) (now : Z) : M disk RuleReloadOut := fun d =>
  match b ← count_rules (rule_files Builtin d); c ← count_rules (rule_files Custom d); Ok (b, c) with
  | Raise e => (d, Raise e)
  | Ok (b, c) =>
      if io_ok
      then (mkDisk (builtin d) (custom d) (Some (isoformat now +:+ String "010" "")),
            Ok (mkReload b.1 c.1 (b.2 ++ c.2)))
      else (d, Raise OSError)
  end.

End Studio.

(** ** Lemmas *)

(** *** Identifiers *)

Definition no_slash (s : string) : bool := negb (sexists (is_char "/") s).

(** A character of a stored identifier: the alphabet, or the newline that [$]
    lets through at the end. *)
Definition stored_char (c : ascii) : bool := rule_id_char c || is_char "010" c.

Lemma chomp_bound s : (String.length s <= String.length (chomp s) + 1)%nat.
Proof.
  destruct (chomp_line s) as [E|E]; rewrite E at 1; rewrite ?sapp_length; cbn; lia.
Qed.

Lemma stored_of_chomp p s :
  (forall c, p c = true -> rule_id_char c = true) -> sforall p (chomp s) = true ->
  sforall stored_char s = true.
Proof.
  intros Hp H. assert (Hc : sforall stored_char (chomp s) = true).
  { revert H. apply sforall_impl. intros c Hc. unfold stored_char. by rewrite Hp. }
  destruct (chomp_line s) as [E|E]; rewrite E; rewrite ?sforall_app, Hc; done.
Qed.

Lemma validate_rule_id_stored s r :
  _validate_rule_id s = Ok r -> r = s /\ sforall stored_char s = true /\ (String.length s <= 65)%nat.
Proof.
  unfold _validate_rule_id. destruct (re_match _RULE_ID_PATTERN s) eqn:E; [|done]. intros [= <-].
  unfold _RULE_ID_PATTERN in E. rewrite match_class_end in E by done. bprop.
  apply len_in_spec in H0. split; [done|]. split; [by eapply stored_of_chomp|].
  pose proof (chomp_bound s). lia.
Qed.

Lemma inner_char c : id_inner c = true -> rule_id_char c = true.
Proof. unfold id_inner, id_edge, rule_id_char. intros H. rewrite !orb_true_iff in *. tauto. Qed.

Lemma den_id w r :
  den (Rcat (Rcls id_edge) (Rcat (Rrep 1 62 (Rcls id_inner)) (Rcls id_edge))) w r ->
  sforall id_inner w = true /\ (3 <= String.length w <= 64)%nat.
Proof.
  rewrite den_cat. intros (w1&w2&->&(c&->&Hc)&H). rewrite den_cat in H.
  destruct H as (w3&w4&->&H3&(e&->&He)). apply den_rep_class in H3 as [H3 Hl].
  rewrite !sforall_app, !sapp_length, H3. cbn [sforall String.length].
  unfold id_inner at 1 2. rewrite Hc, He. split; [done|lia].
Qed.

Lemma match_id_stored s :
  re_match _ID_RE s = true -> sforall stored_char s = true /\ (String.length s <= 65)%nat.
Proof.
  unfold _ID_RE. rewrite match_end. intros (w&Hw&H). apply den_id in H as [Hc Hl].
  assert (Hs : sforall stored_char w = true).
  { revert Hc. apply sforall_impl. intros c Hc. unfold stored_char. by rewrite inner_char. }
  destruct Hw as [->| ->]; rewrite ?sforall_app, ?sapp_length, Hs; cbn; (split; [done|lia]).
Qed.

(** Eight hexadecimal digits. *)
Definition hex8 (s : string) : bool := sforall is_hexc s && (String.length s =? 8)%nat.

Lemma hexc_stored c : is_hexc c = true -> stored_char c = true.
Proof. by ascii_cases c. Qed.

Lemma sanitize_stored hex1 hex2 raw title id :
  hex8 hex2 = true -> _sanitize_rule_id hex1 hex2 raw title = Ok id ->
  sforall stored_char id = true /\ (String.length id <= 65)%nat.
Proof.
  unfold hex8, _sanitize_rule_id. intros Hh. bprop. apply Nat.eqb_eq in H0.
  assert (Hfall : sforall stored_char ("rule-" +:+ hex2) = true
                  /\ (String.length ("rule-" +:+ hex2) <= 65)%nat).
  { cbn [String.append sforall String.length]. rewrite H0. split; [|lia].
    rewrite (sforall_impl is_hexc) by (done || apply hexc_stored). done. }
  destruct (match raw with Some r => if nonempty r then Some r else None | None => None end) as [r|].
  - destruct (re_match _ID_RE r) eqn:E; [|done]. intros [= <-]. by apply match_id_stored.
  - intros [= <-]. destruct (re_match _ID_RE _) eqn:E; [by apply match_id_stored|done].
Qed.

Lemma stored_no_slash s : sforall stored_char s = true -> no_slash s = true.
Proof.
  unfold no_slash. intros H. rewrite sexists_sforall, negb_involutive.
  revert H. apply sforall_impl. intros c. by ascii_cases c.
Qed.

(** *** Scanners and regular expressions agree *)

Definition stops (p : ascii -> bool) (s : string) : Prop :=
  match s with EmptyString => True | String c _ => p c = false end.

Definition run (p : ascii -> bool) (s : string) : Prop := sforall p s = true /\ nonempty s = true.

Lemma eat_spec p s r : eat p s = Some r <-> s = p +:+ r.
Proof.
  unfold eat. destruct (startswith p s) eqn:E.
  - apply startswith_spec in E as [t ->]. rewrite drop_str_app. split; [by intros [= ->]|].
    intros H. apply sapp_inj_l in H. by subst.
  - split; [done|]. intros ->. by rewrite startswith_app in E.
Qed.

Lemma span_spec p (s a b : string) :
  span p s = (a, b) <-> s = a +:+ b /\ sforall p a = true /\ stops p b.
Proof.
  split.
  - revert a b. induction s as [|c s IH]; intros a b; cbn [span].
    + by intros [= <- <-].
    + destruct (p c) eqn:Ec.
      * destruct (span p s) as [x y]. intros [= <- <-]. destruct (IH x y eq_refl) as (->&H1&H2).
        cbn. by rewrite Ec, H1.
      * intros [= <- <-]. by cbn.
  - intros (->&Ha&Hb). destruct b as [|c b]; [rewrite sapp_nil_r; by apply span_all|].
    by apply span_stop.
Qed.

Lemma eat1_spec p s a b : eat1 p s = Some (a, b) <-> s = a +:+ b /\ run p a /\ stops p b.
Proof.
  unfold eat1, run. destruct (span p s) as [x y] eqn:E. split.
  - destruct (nonempty x) eqn:Ex; [|done]. intros [= <- <-]. apply span_spec in E. tauto.
  - intros (->&[Ha Hn]&Hb). assert (E2 : span p (a +:+ b) = (a, b)) by (by apply span_spec).
    rewrite E2 in E. injection E as <- <-. by rewrite Hn.
Qed.

Lemma eat_spaces_spec s r :
  eat_spaces s = Some r <-> exists a, s = a +:+ r /\ run is_space a /\ stops is_space r.
Proof.
  unfold eat_spaces. split.
  - destruct (eat1 is_space s) as [[a b]|] eqn:E; [|done]. intros [= <-]. apply eat1_spec in E. eauto.
  - intros (a&->&Ha&Hr). by rewrite (proj2 (eat1_spec is_space (a +:+ r) a r)).
Qed.

Lemma opt_bind_some {A B} (o : option A) (f : A -> option B) b :
  (o ≫= f) = Some b <-> exists a, o = Some a /\ f a = Some b.
Proof. destruct o; cbn; split; naive_solver. Qed.

Lemma eat_and_spec s r :
  eat_and s = Some r
  <-> exists a b, s = a +:+ "and" +:+ b +:+ r /\ run is_space a /\ run is_space b /\ stops is_space r.
Proof.
  unfold eat_and. rewrite opt_bind_some. split.
  - intros (s1&H1&H). apply opt_bind_some in H as (s2&H2&H3).
    apply eat_spaces_spec in H1 as (a&->&Ha&_). apply eat_spec in H2 as ->.
    apply eat_spaces_spec in H3 as (b&->&Hb&Hr). eauto 10.
  - intros (a&b&->&Ha&Hb&Hr). exists ("and" +:+ b +:+ r). split; [apply eat_spaces_spec; by exists a|].
    cbv beta. rewrite eat_app. cbn [mbind option_bind].
    apply eat_spaces_spec. eauto.
Qed.

Lemma run_stops p q s r : run q s -> (forall c, q c = true -> p c = false) -> stops p (s +:+ r).
Proof. intros [Hs Hn] Hpq. destruct s as [|c s]; [done|]. cbn in *. bprop. auto. Qed.

Lemma eat_not_word_spec s w :
  eat_not_word s = Some w
  <-> exists a, s = "not" +:+ a +:+ w /\ run is_space a /\ run is_word w.
Proof.
  unfold eat_not_word. rewrite opt_bind_some. split.
  - intros (s1&H1&H). apply eat_spec in H1 as ->. apply opt_bind_some in H as (s2&H2&H).
    apply eat_spaces_spec in H2 as (a&->&Ha&_). apply opt_bind_some in H as ([x y]&H3&H).
    apply eat1_spec in H3 as (->&Hx&_). unfold at_end in H. destruct y; [|discriminate H].
    injection H as <-. exists a. by rewrite sapp_nil_r.
  - intros (a&->&Ha&Hw). exists (a +:+ w). split; [by apply eat_spec|].
    cbv beta. assert (Hst : stops is_space w).
    { rewrite <- (sapp_nil_r w). eapply run_stops; [exact Hw|apply word_not_space]. }
    rewrite (proj2 (eat_spaces_spec (a +:+ w) w)) by eauto. cbn [mbind option_bind].
    rewrite (proj2 (eat1_spec is_word w w "")) by (rewrite sapp_nil_r; done). done.
Qed.

Definition not_close (c : ascii) : bool := negb (is_char ")" c).

Lemma eat_group_spec s w r :
  eat_group s = Some (w, r) <-> s = "(" +:+ w +:+ ")" +:+ r /\ run not_close w.
Proof.
  unfold eat_group. rewrite opt_bind_some. split.
  - intros (s1&H1&H). apply eat_spec in H1 as ->. apply opt_bind_some in H as ([x y]&H2&H).
    apply eat1_spec in H2 as (->&Hx&_). apply opt_bind_some in H as (z&H3&H).
    apply eat_spec in H3 as ->. by injection H as <- <-.
  - intros (->&Hw). exists (w +:+ ")" +:+ r). split; [by apply eat_spec|].
    cbv beta. rewrite (proj2 (eat1_spec (fun c => negb (is_char ")" c)) (w +:+ ")" +:+ r) w (")" +:+ r)))
      by done. cbn [mbind option_bind].
    by rewrite eat_app.
Qed.

Lemma den_spaces w r : den spaces1 w r <-> run is_space w.
Proof. unfold spaces1. apply den_plus_class. Qed.

Lemma den_and w r :
  den and_re w r <-> exists a b, w = a +:+ "and" +:+ b /\ run is_space a /\ run is_space b.
Proof.
  unfold and_re. rewrite den_cat. split.
  - intros (a&v&->&Ha%den_spaces&(b&->&Hb%den_spaces)%den_lit_cat). eauto.
  - intros (a&b&->&Ha&Hb). exists a, ("and" +:+ b). split; [done|]. split; [by apply den_spaces|].
    apply den_lit_cat. exists b. split; [done|by apply den_spaces].
Qed.

Lemma den_not w r :
  den not_re w r <-> exists a f, w = "not" +:+ a +:+ f /\ run is_space a /\ run is_word f.
Proof.
  unfold not_re. rewrite den_lit_cat. split.
  - intros (v&->&H). rewrite den_cat in H. destruct H as (a&f&->&Ha%den_spaces&Hf).
    apply den_plus_class in Hf. unfold run at 2. eauto.
  - intros (a&f&->&Ha&Hf). exists (a +:+ f). split; [done|]. rewrite den_cat. exists a, f.
    split; [done|]. split; [by apply den_spaces|by apply den_plus_class].
Qed.

Lemma den_group w r : den group_re w r <-> exists g, w = "(" +:+ g +:+ ")" /\ run not_close g.
Proof.
  unfold group_re. rewrite den_lit_cat. split.
  - intros (v&->&H). rewrite den_cat in H. destruct H as (g&q&->&Hg&Hq). apply den_plus_class in Hg.
    apply den_lit in Hq as ->. unfold run. eauto.
  - intros (g&->&Hg). exists (g +:+ ")"). split; [done|]. rewrite den_cat. exists g, ")".
    split; [done|]. split; [by apply den_plus_class|by apply den_lit].
Qed.

Lemma pattern2_full s : re_fullmatch cond2_re s = true <-> is_Some (pattern2 s).
Proof.
  rewrite re_fullmatch_spec. unfold cond2_re. rewrite den_lit_cat. split.
  - intros (v&->&H). rewrite den_cat in H.
    destruct H as (w1&w2&->&(a&b&->&Ha&Hb)%den_and&(c&f&->&Hc&Hf)%den_not).
    exists f. unfold pattern2. rewrite eat_app. cbn [mbind option_bind].
    rewrite (proj2 (eat_and_spec _ ("not" +:+ c +:+ f))).
    + cbn [mbind option_bind]. apply eat_not_word_spec. by exists c.
    + exists a, b. by rewrite !sapp_assoc.
  - intros [f H]. unfold pattern2 in H. apply opt_bind_some in H as (s1&H1%eat_spec&H). subst s.
    apply opt_bind_some in H as (s2&H2&H). apply eat_and_spec in H2 as (a&b&->&Ha&Hb&_).
    apply eat_not_word_spec in H as (c&->&Hc&Hf). eexists. split; [reflexivity|].
    rewrite den_cat. exists (a +:+ "and" +:+ b), ("not" +:+ c +:+ f).
    rewrite !sapp_assoc. split; [done|]. split; [apply den_and; eauto|apply den_not; eauto].
Qed.

Lemma pattern3_full s : re_fullmatch cond3_re s = true <-> is_Some (pattern3 s).
Proof.
  rewrite re_fullmatch_spec. unfold cond3_re. rewrite den_lit_cat. split.
  - intros (v&->&H). rewrite den_cat in H.
    destruct H as (w1&w2&->&(a&b&->&Ha&Hb)%den_and&(g&->&Hg)%den_group).
    exists g. unfold pattern3. rewrite eat_app. cbn [mbind option_bind].
    rewrite (proj2 (eat_and_spec _ ("(" +:+ g +:+ ")"))) by (exists a, b; by rewrite !sapp_assoc).
    cbn [mbind option_bind]. rewrite (proj2 (eat_group_spec _ g "")); done.
  - intros [g H]. unfold pattern3 in H. apply opt_bind_some in H as (s1&H1%eat_spec&H). subst s.
    apply opt_bind_some in H as (s2&H2&H). apply eat_and_spec in H2 as (a&b&->&Ha&Hb&_).
    apply opt_bind_some in H as ([x r]&H3&H). apply eat_group_spec in H3 as [-> Hx].
    unfold at_end in H. destruct r; [|discriminate H]. eexists. split; [reflexivity|].
    rewrite den_cat. exists (a +:+ "and" +:+ b), ("(" +:+ x +:+ ")"). rewrite !sapp_assoc.
    split; [done|]. split; [apply den_and; eauto|apply den_group; eauto].
Qed.

Lemma pattern4_full s : re_fullmatch cond4_re s = true <-> is_Some (pattern4 s).
Proof.
  rewrite re_fullmatch_spec. unfold cond4_re. rewrite den_lit_cat. split.
  - intros (v&->&H). rewrite den_cat in H. destruct H as (w1&w2&->&(a&b&->&Ha&Hb)%den_and&H).
    rewrite den_cat in H. destruct H as (w3&w4&->&(g&->&Hg)%den_group&H).
    rewrite den_cat in H. destruct H as (w5&w6&->&(a2&b2&->&Ha2&Hb2)%den_and&(c&f&->&Hc&Hf)%den_not).
    exists (g, f). unfold pattern4. rewrite eat_app. cbn [mbind option_bind].
    rewrite (proj2 (eat_and_spec _ ("(" +:+ g +:+ ")" +:+ (a2 +:+ "and" +:+ b2 +:+ ("not" +:+ c +:+ f)))))
      by (exists a, b; by rewrite !sapp_assoc).
    cbn [mbind option_bind]. rewrite (proj2 (eat_group_spec _ g (a2 +:+ "and" +:+ b2 +:+ ("not" +:+ c +:+ f)))) by done.
    cbn [mbind option_bind]. rewrite (proj2 (eat_and_spec _ ("not" +:+ c +:+ f))) by (exists a2, b2; done).
    cbn [mbind option_bind]. by rewrite (proj2 (eat_not_word_spec _ f)) by (by exists c).
  - intros [[g f] H]. unfold pattern4 in H. apply opt_bind_some in H as (s1&H1%eat_spec&H). subst s.
    apply opt_bind_some in H as (s2&H2&H). apply eat_and_spec in H2 as (a&b&->&Ha&Hb&_).
    apply opt_bind_some in H as ([x r]&H3&H). apply eat_group_spec in H3 as [-> Hx].
    apply opt_bind_some in H as (s3&H4&H). apply eat_and_spec in H4 as (a2&b2&->&Ha2&Hb2&_).
    apply opt_bind_some in H as (y&H5&H). apply eat_not_word_spec in H5 as (c&->&Hc&Hf).
    eexists. split; [reflexivity|]. rewrite den_cat.
    exists (a +:+ "and" +:+ b), (("(" +:+ x +:+ ")") +:+ ((a2 +:+ "and" +:+ b2) +:+ ("not" +:+ c +:+ y))).
    rewrite !sapp_assoc. split; [done|]. split; [apply den_and; eauto|]. rewrite den_cat.
    exists ("(" +:+ x +:+ ")"), ((a2 +:+ "and" +:+ b2) +:+ ("not" +:+ c +:+ y)).
    rewrite !sapp_assoc. split; [done|]. split; [apply den_group; eauto|]. rewrite den_cat.
    exists (a2 +:+ "and" +:+ b2), ("not" +:+ c +:+ y). rewrite !sapp_assoc.
    split; [done|]. split; [apply den_and; eauto|apply den_not; eauto].
Qed.

(** *** Requests that change the directories *)

Inductive sreq : Type :=
| ReqCreate (hex1 hex2 : string) (io_ok : bool) (b : RuleCreateIn)
| ReqUpdate (rule_id : string) (io_ok : bool) (b : RuleCreateIn)
| ReqDelete (rule_id : string) (io_ok : bool)
| ReqReload (io_ok : bool) (now : Z).

(** The digits come from [uuid4]. *)
Definition req_ok (q : sreq) : bool :=
  match q with ReqCreate h1 h2 _ _ => hex8 h1 && hex8 h2 | _ => true end.

Section Requests.
Context (yaml_load : string -> res val) (yaml_dump : val -> string).
Context (detail_model : list (string * val) -> res (list (string * val))).
Context (builtin_dir custom_dir : string).

Definition run_req (q : sreq) (d : disk) : disk :=
  match q with
  | ReqCreate h1 h2 ok b =>
      (create_rule yaml_load yaml_dump detail_model builtin_dir custom_dir h1 h2 ok b d).1
  | ReqUpdate id ok b =>
      (update_rule yaml_load yaml_dump detail_model builtin_dir custom_dir id ok b d).1
  | ReqDelete id ok => (delete_rule id ok d).1
  | ReqReload ok now => (reload_engine yaml_load ok now d).1
  end.

Definition run_reqs (qs : list sreq) (d : disk) : disk := fold_left (fun d q => run_req q d) qs d.

(** A file name the studio may touch. *)
Definition studio_name (name : string) : bool :=
  endswith ".yml" name && sforall stored_char (take_str (String.length name - 4) name)
  && (String.length name <=? 69)%nat.

Lemma studio_name_intro id :
  sforall stored_char id = true /\ (String.length id <= 65)%nat -> studio_name (id +:+ ".yml") = true.
Proof.
  intros [H Hl]. unfold studio_name. rewrite endswith_app, sapp_length.
  replace (String.length id + String.length ".yml" - 4)%nat with (String.length id) by (cbn; lia).
  rewrite take_str_app, H. apply Nat.leb_le. cbn. lia.
Qed.

Lemma studio_name_elim name :
  studio_name name = true ->
  exists id, name = id +:+ ".yml" /\ sforall stored_char id = true /\ (String.length name <= 69)%nat.
Proof.
  unfold studio_name. intros H. bprop. apply endswith_spec in H as [id ->]. exists id.
  rewrite sapp_length in *. 
  replace (String.length id + String.length ".yml" - 4)%nat with (String.length id) in H1 by (cbn; lia).
  rewrite take_str_app in H1. apply Nat.leb_le in H0. done.
Qed.

Definition confined (d0 d : disk) : Prop :=
  builtin d = builtin d0 /\ forall name, studio_name name = false -> custom d !! name = custom d0 !! name.

Variable d0 : disk.

Lemma confined_put (name text : string) (d : disk) :
  studio_name name = true -> confined d0 d -> confined d0 (set_custom (insert name text) d).
Proof.
  intros Hn [Hb Hc]. split; [exact Hb|]. intros x Hx. cbn [custom set_custom].
  rewrite lookup_insert_ne; [by apply Hc|]. intros ->. congruence.
Qed.

Lemma confined_delete (name : string) (d : disk) :
  studio_name name = true -> confined d0 d -> confined d0 (set_custom (delete name) d).
Proof.
  intros Hn [Hb Hc]. split; [exact Hb|]. intros x Hx. cbn [custom set_custom].
  rewrite lookup_delete_ne; [by apply Hc|]. intros ->. congruence.
Qed.

Lemma write_confined io_ok name text :
  studio_name name = true -> keeps_inv (confined d0) (write_then_compile yaml_load io_ok name text).
Proof.
  intros Hn. unfold write_then_compile. apply inv_bind; [|auto with zq].
  intros d Hd. unfold _atomic_write_text. destruct io_ok; [by apply confined_put|done].
Qed.

Lemma inv_read {A} (f : disk -> res A) : keeps_inv (confined d0) (read_disk f).
Proof. by intros d. Qed.

Lemma inv_raise {A} e : keeps_inv (confined d0) (@raise_M disk A e).
Proof. by intros d. Qed.

Lemma run_req_confined q d : req_ok q = true -> confined d0 d -> confined d0 (run_req q d).
Proof.
  intros Hq. assert (Hinv : forall A (m : M disk A), keeps_inv (confined d0) m ->
    confined d0 d -> confined d0 (m d).1) by (intros A m Hm; apply Hm).
  destruct q as [h1 h2 ok b|id ok b|id ok|ok now]; cbn [run_req].
  - apply Hinv. unfold create_rule, body_checked. destruct (body_valid b); [|apply inv_raise].
    apply inv_lift_bind. intros id Hid. apply inv_lift_bind. intros c _.
    apply inv_bind; [apply inv_read|]. intros []; [apply inv_raise|].
    apply inv_bind; [|intros [|? ?]; [apply inv_raise|apply inv_read]].
    apply write_confined. cbn in Hq. bprop. apply studio_name_intro. by eapply sanitize_stored.
  - apply Hinv. unfold update_rule, body_checked. destruct (body_valid b); [|apply inv_raise].
    apply inv_lift_bind. intros r Hr%validate_rule_id_stored.
    apply inv_bind; [apply inv_read|]. intros _. apply inv_lift_bind. intros c _.
    apply inv_bind; [|intros _; apply inv_read]. apply write_confined, studio_name_intro. tauto.
  - apply Hinv. unfold delete_rule. apply inv_lift_bind. intros r Hr%validate_rule_id_stored.
    apply inv_bind; [apply inv_read|]. intros _ d' Hd. unfold unlink.
    destruct ok; [|done]. apply confined_delete; [|done]. apply studio_name_intro. tauto.
  - intros Hd. unfold reload_engine. repeat split_match; done.
Qed.

End Requests.

(** ** Properties *)



(** *** The document of a rule *)

Lemma at_text_other k k' f o (d : list (string * val)) :
  k <> k' -> assoc k' (set_text k f o d) = assoc k' d.
Proof.
  intros H. unfold set_text. destruct o as [s|]; [|done].
  destruct (nonempty s); [by apply assoc_set_other|done].
Qed.

Lemma at_opt_other {A} k k' (f : A -> val) o d : k <> k' -> assoc k' (set_opt k f o d) = assoc k' d.
Proof. intros H. destruct o; cbn [set_opt]; [by apply assoc_set_other|done]. Qed.

Lemma at_tags_other k' l d : "tags" <> k' -> assoc k' (extend_tags l d) = assoc k' d.
Proof. intros H. unfold extend_tags. destruct (default _ _); try done. by apply assoc_set_other. Qed.

Lemma at_items_other {A} k k' (f : list A -> val) l d :
  k <> k' -> assoc k' (set_items k f l d) = assoc k' d.
Proof. intros H. destruct l; cbn [set_items]; [done|by apply assoc_set_other]. Qed.

Lemma at_items_same {A} k (f : list A -> val) l d :
  assoc k (set_items k f l d) = match l with [] => assoc k d | _ => Some (f l) end.
Proof. destruct l; cbn [set_items]; [done|apply assoc_set_same]. Qed.

Lemma at_mitre_other k' m d : "tags" <> k' -> assoc k' (with_mitre m d) = assoc k' d.
Proof.
  intros H. destruct m as [m|]; cbn [with_mitre]; [|done].
  destruct (nonempty m); [by apply at_tags_other|done].
Qed.

Lemma at_taglist_other k' l d :
  "tags" <> k' -> assoc k' (with_tags l d) = assoc k' d.
Proof. intros H. destruct l; [done|by apply at_tags_other]. Qed.

Lemma at_text_same k f o (d : list (string * val)) :
  assoc k (set_text k f o d)
  = match o with Some s => if nonempty s then Some (f s) else assoc k d | None => assoc k d end.
Proof. unfold set_text. destruct o as [s|]; [|done]. destruct (nonempty s); [apply assoc_set_same|done]. Qed.

(** The layers of [rule_doc] one by one. *)
Ltac layers :=
  repeat first
    [ rewrite assoc_set_same | rewrite assoc_set_other by discriminate
    | rewrite at_text_other by discriminate | rewrite at_opt_other by discriminate
    | rewrite at_tags_other by discriminate | rewrite at_items_other by discriminate
    | rewrite at_mitre_other by discriminate | rewrite at_taglist_other by discriminate ].

Lemma rule_doc_base id b c k :
  In k ["title"; "id"; "level"; "detection"] ->
  assoc k (rule_doc id b c)
  = assoc k [("title", VStr (b_title b)); ("id", VStr id); ("level", VStr (b_level b));
             ("detection", VDict (detection_doc b c))].
Proof. unfold rule_doc. intros [<-|[<-|[<-|[<-|[]]]]]; layers; done. Qed.

Lemma rule_doc_cooldown id b c :
  assoc "cooldown_sec" (rule_doc id b c) = VInt <$> b_cooldown_sec b.
Proof. unfold rule_doc. destruct (b_cooldown_sec b) as [z|]; cbn [set_opt]; layers; done. Qed.

Lemma rule_doc_action id b c :
  assoc "action" (rule_doc id b c)
  = match b_action b with Some (kv :: r) => Some (VDict (kv :: r)) | _ => None end.
Proof.
  unfold rule_doc. layers. rewrite at_items_same.
  destruct (b_action b) as [[|kv r]|]; cbn [default from_option Datatypes.id]; layers; done.
Qed.

Lemma rule_doc_required id b c :
  assoc "required_fields" (rule_doc id b c)
  = match b_required_fields b with [] => None | l => Some (VList (map VStr l)) end.
Proof. unfold rule_doc. rewrite at_items_same. destruct (b_required_fields b); layers; done. Qed.

Lemma rule_doc_dedup id b c :
  assoc "dedup_key" (rule_doc id b c)
  = match b_dedup_key b with Some s => if nonempty s then Some (VStr s) else None | None => None end.
Proof.
  unfold rule_doc. layers. rewrite at_text_same.
  destruct (b_dedup_key b) as [s|]; [destruct (nonempty s)|]; layers; done.
Qed.

(** The selection and the counters of the detection block. *)
Definition stored_selection (b : RuleCreateIn) (sel : list (string * val)) : list (string * val) :=
  match b_logsource b with
  | Some s => if nonempty s && negb (has_key "source" sel) then assoc_set "source" (VStr s) sel else sel
  | None => sel
  end.

Lemma with_logsource_other l k d : "selection" <> k -> assoc k (with_logsource l d) = assoc k d.
Proof.
  intros Hk. unfold with_logsource. destruct l as [s|]; [|done]. destruct (nonempty s); [|done].
  destruct (assoc "selection" d) as [[]|]; try done. destruct (has_key _ _); [done|].
  by apply assoc_set_other.
Qed.

Lemma detection_selection b c sel :
  assoc "selection" (b_detection b) = Some (VDict sel) ->
  assoc "selection" (detection_doc b c) = Some (VDict (stored_selection b sel)).
Proof.
  intros Hs. unfold detection_doc, stored_selection.
  set (inner := set_opt "count" VInt _ _).
  assert (Hi : assoc "selection" inner = Some (VDict sel)) by (unfold inner; layers; exact Hs).
  unfold with_logsource. rewrite Hi. destruct (b_logsource b) as [s|]; [|done].
  destruct (nonempty s); cbn [andb]; [|done]. destruct (has_key "source" sel); cbn [negb]; [done|].
  apply assoc_set_same.
Qed.

Lemma detection_condition b c : assoc "condition" (detection_doc b c) = Some (VStr c).
Proof. unfold detection_doc. rewrite with_logsource_other by discriminate. layers. done. Qed.

Lemma detection_count b c :
  assoc "count" (detection_doc b c)
  = match b_count b with Some n => Some (VInt n) | None => assoc "count" (b_detection b) end.
Proof.
  unfold detection_doc. rewrite with_logsource_other by discriminate.
  destruct (b_count b); cbn [set_opt]; layers; done.
Qed.

Lemma detection_timeframe b c :
  assoc "timeframe" (detection_doc b c)
  = match b_timeframe b with Some t => Some (VStr t) | None => assoc "timeframe" (b_detection b) end.
Proof.
  unfold detection_doc. rewrite with_logsource_other by discriminate.
  destruct (b_timeframe b); cbn [set_opt]; layers; done.
Qed.

Lemma level_nonempty l : str_in l levels = true -> nonempty l = true.
Proof. intros H. apply str_in_spec in H. by destruct H as [<-|[<-|[<-|[<-|[]]]]]. Qed.

(** What the engine compiles from a stored rule. *)
Lemma compile_rule_doc id b c sel n :
  body_valid b = true -> nonempty id = true -> nonempty c = true ->
  assoc "selection" (b_detection b) = Some (VDict sel) -> b_count b = Some n ->
  _compile (rule_doc id b c)
  = Ok (mkRule id (b_title b) (b_level b) (stored_selection b sel) (detection_doc b c) c
          (if n =? 0 then 1 else n)
          (_parse_timeframe (default (VStr "60s") (assoc "timeframe" (detection_doc b c))))
          (match b_cooldown_sec b with Some z => if z =? 0 then 300 else z | None => 300 end)
          (default "" (b_dedup_key b))
          (match b_action b with Some (kv :: r) => Some (kv :: r) | _ => None end)
          (b_required_fields b)).
Proof.
  intros Hv Hid Hc Hsel Hn. unfold body_valid in Hv. bprop.
  assert (Ht : nonempty (b_title b) = true) by (destruct (b_title b); [unfold slen in *; cbn in *; lia|done]).
  pose proof (level_nonempty _ H1) as Hl.
  assert (Hs : forall s, nonempty s = true -> forall v, val_or (VStr s) v = VStr s).
  { intros s Es v. unfold val_or. cbn [truthy]. by rewrite Es. }
  unfold _compile, get. rewrite !rule_doc_base by (cbn; tauto).
  rewrite rule_doc_cooldown, rule_doc_action, rule_doc_required, rule_doc_dedup.
  cbn [assoc String.eqb Ascii.eqb Bool.eqb default from_option Datatypes.id].
  rewrite !Hs by done. cbn [str_of]. rewrite H1. cbn [guard_res]. cbv beta iota delta [mbind res_bind].
  rewrite (detection_selection b c sel Hsel), detection_condition, detection_count, Hn.
  cbn [default from_option Datatypes.id]. rewrite !Hs by done. cbn [str_of].
  assert (Hz : forall z k, int_of (val_or (VInt z) (VInt k)) = Ok (if z =? 0 then k else z)).
  { intros z k. unfold val_or. cbn [truthy]. by destruct (z =? 0). }
  rewrite Hz.
  assert (Hcd : int_of (val_or (default VNone (VInt <$> b_cooldown_sec b)) (VInt 300))
    = Ok (match b_cooldown_sec b with Some z => if z =? 0 then 300 else z | None => 300 end)).
  { destruct (b_cooldown_sec b); [apply Hz|done]. }
  rewrite Hcd.
  assert (Hdd : str_of (val_or (default VNone (match b_dedup_key b with
      | Some s => if nonempty s then Some (VStr s) else None | None => None end)) (VStr ""))
    = default "" (b_dedup_key b)).
  { destruct (b_dedup_key b) as [s|]; [|done]. destruct (nonempty s) eqn:Es; cbn [default from_option Datatypes.id].
    - by rewrite Hs. 
    - by destruct s. }
  rewrite Hdd.
  assert (Hrq : match default (VList []) (match b_required_fields b with
      | [] => None | l => Some (VList (map VStr l)) end) with
    | VList l => Ok (map str_of l)
    | _ => Raise (SigmaRuleLoadError "'required_fields' must be a list of strings") end
    = Ok (b_required_fields b)).
  { destruct (b_required_fields b) as [|f fs]; [done|]. cbn [default from_option Datatypes.id].
    f_equal. rewrite map_map. cbn. f_equal. by rewrite map_id. }
  destruct (b_action b) as [[|kv r]|]; cbn [default from_option Datatypes.id]; rewrite Hrq; reflexivity.
Qed.

Lemma compile_bad_count id b c sel s :
  body_valid b = true -> assoc "selection" (b_detection b) = Some (VDict sel) ->
  b_count b = None -> assoc "count" (b_detection b) = Some (VStr s) ->
  nonempty s = true -> py_int s = None ->
  _compile (rule_doc id b c) = Raise (ValueError "int").
Proof.
  intros Hv Hsel Hn Hs Hne Hint. unfold body_valid in Hv. bprop.
  pose proof (level_nonempty _ H1) as Hl.
  unfold _compile, get. rewrite !rule_doc_base by (cbn; tauto).
  cbn [assoc String.eqb Ascii.eqb Bool.eqb default from_option Datatypes.id].
  assert (El : val_or (VStr (b_level b)) (VStr "medium") = VStr (b_level b)).
  { unfold val_or. cbn [truthy]. by rewrite Hl. }
  rewrite El. cbn [str_of]. rewrite H1. cbn [guard_res]. cbv beta iota delta [mbind res_bind].
  rewrite (detection_selection b c sel Hsel), detection_count, Hn, Hs.
  assert (Es : val_or (VStr s) (VInt 1) = VStr s).
  { unfold val_or. cbn [truthy]. by rewrite Hne. }
  cbn [default from_option Datatypes.id]. rewrite Es. cbn [int_of]. by rewrite Hint.
Qed.

Lemma parse_one d : parse_rule_file (Ok (VDict d)) = r ← _compile d; Ok [r].
Proof. cbn [parse_rule_file mapM_res]. by destruct (_compile d). Qed.

Lemma sanitize_nonempty hex1 hex2 raw title id :
  _sanitize_rule_id hex1 hex2 raw title = Ok id -> nonempty id = true.
Proof.
  assert (Hm : forall s, re_match _ID_RE s = true -> nonempty s = true).
  { intros [|c s]; [|done]. intros H. vm_compute in H. discriminate H. }
  unfold _sanitize_rule_id. destruct (match raw with Some r => _ | None => _ end) as [r|].
  - destruct (re_match _ID_RE r) eqn:E; [|done]. intros [= <-]. by apply Hm.
  - intros [= <-]. destruct (re_match _ID_RE _) eqn:E; [by apply Hm|done].
Qed.

Lemma condition_nonempty o c : _validate_condition o = Ok c -> nonempty c = true.
Proof.
  unfold _validate_condition. destruct o as [s|]; [|by intros [= <-]].
  destruct (strip s) as [|x t]; [|repeat split_match; by intros [= <-]].
  cbn. intros H. discriminate H.
Qed.

Section Creation.
Context (yaml_load : string -> res val) (yaml_dump : val -> string).
Context (detail_model : list (string * val) -> res (list (string * val))).
Context (builtin_dir custom_dir : string).
Context (hex1 hex2 : string) (b : RuleCreateIn) (d : disk) (id c : string).
Hypothesis valid : body_valid b = true.
Hypothesis id_ok : _sanitize_rule_id hex1 hex2 (b_id b) (b_title b) = Ok id.
Hypothesis condition_ok : _validate_condition (b_condition b) = Ok c.

(** YAML reads back what it wrote, on this document. *)
Hypothesis yaml_roundtrip :
  yaml_load (yaml_dump (VDict (rule_doc id b c))) = Ok (VDict (rule_doc id b c)).

Let text := yaml_dump (VDict (rule_doc id b c)).
Let create := create_rule yaml_load yaml_dump detail_model builtin_dir custom_dir hex1 hex2 true b.

Lemma create_eq :
  custom d !! rule_file id = None ->
  create d =
  match _compile (rule_doc id b c) with
  | Ok r => (set_custom (insert (rule_file id) text) d,
             get_rule yaml_load detail_model builtin_dir custom_dir id
               (set_custom (insert (rule_file id) text) d))
  | Raise (SigmaRuleLoadError _) =>
      (set_custom (insert (rule_file id) text) d, Raise (HTTPException 422 "sigma compile error"))
  | Raise e => (set_custom (insert (rule_file id) text) d, Raise e)
  end.
Proof.
  intros Hfree. unfold create, create_rule, body_checked. rewrite valid.
  unfold mbind, M_bind, lift_res, read_disk. rewrite id_ok, condition_ok, Hfree.
  rewrite bool_decide_eq_false_2 by (by intros [? ?]).
  unfold write_then_compile, mbind, M_bind, lift_res, _atomic_write_text, _build_yaml.
  rewrite yaml_roundtrip, parse_one. destruct (_compile (rule_doc id b c)) as [r|e]; [done|].
  by destruct e.
Qed.

Lemma create_again :
  custom d !! rule_file id <> None ->
  create d = (d, Raise (HTTPException 409 "rule already exists")).
Proof.
  intros Hex. unfold create, create_rule, body_checked. rewrite valid.
  unfold mbind, M_bind, lift_res, read_disk. rewrite id_ok, condition_ok.
  rewrite bool_decide_eq_true_2; [done|]. by apply not_eq_None_Some.
Qed.

End Creation.

(** A file that makes the loader raise something else stops every load. *)
Lemma first_error_in l1 l2 e : exists x, first_error (l1 ++ Raise e :: l2) = Some x.
Proof. induction l1 as [|[r|x] l1 IH]; cbn; eauto. Qed.

Lemma count_rules_raises yaml_load files name text e :
  In (name, text) files -> parse_rule_file (yaml_load text) = Raise e ->
  (forall r, e <> SigmaRuleLoadError r) -> exists x, count_rules yaml_load files = Raise x.
Proof.
  intros Hin He Hne. induction files as [|[n t] files IH]; [done|]. cbn [count_rules].
  destruct Hin as [[= -> ->]|Hin].
  - rewrite He. destruct e; try (eexists; reflexivity). by destruct (Hne reason).
  - destruct (IH Hin) as [x Hx]. destruct (parse_rule_file (yaml_load t)) as [rs|[]]; rewrite ?Hx;
      eexists; reflexivity.
Qed.


(** A rejected rule stays on disk, and one such rule stops the engine: a
    creation without a threshold whose detection block carries a count that is no
    number raises (a server error to the caller), but its file has been written,
    so a second creation is refused with 409, and from then on the loader of the
    rule directory and the reload endpoint raise, whatever other rules exist. *)
Theorem rejected_rule_stops_engine (yaml_load : string -> res val) (yaml_dump : val -> string)
    (detail_model : list (string * val) -> res (list (string * val))) (builtin_dir custom_dir : string)
    (hex1 hex2 : string) (b : RuleCreateIn) (d : disk) (id c s : string) (sel : list (string * val))
    (Hv : body_valid b = true)
    (Hid : _sanitize_rule_id hex1 hex2 (b_id b) (b_title b) = Ok id)
    (Hc : _validate_condition (b_condition b) = Ok c)
    (Hsel : assoc "selection" (b_detection b) = Some (VDict sel)) (Hn : b_count b = None)
    (Hs : assoc "count" (b_detection b) = Some (VStr s)) (Hne : s <> "") (Hint : py_int s = None)
    (Hfree : custom d !! (id +:+ ".yml") = None)
    (Hyaml : yaml_load (yaml_dump (VDict (rule_doc id b c))) = Ok (VDict (rule_doc id b c))) :
  let create := create_rule yaml_load yaml_dump detail_model builtin_dir custom_dir hex1 hex2 true b in
  exists text d',
    create d = (d', Raise (ValueError "int"))
    /\ custom d' !! (id +:+ ".yml") = Some text
    /\ create d' = (d', Raise (HTTPException 409 "rule already exists"))
    /\ (forall before after, exists e,
          load_rules_from_dir true (before ++ yaml_load text :: after) = Raise e)
    /\ (forall io_ok now, exists e, reload_engine yaml_load io_ok now d' = (d', Raise e)).
Proof.
  cbv zeta. assert (Hne' : nonempty s = true) by (by destruct s).
  pose proof (compile_bad_count id b c sel s Hv Hsel Hn Hs Hne' Hint) as Hbad.
  set (text := yaml_dump (VDict (rule_doc id b c))) in *.
  set (d' := set_custom (insert (rule_file id) text) d).
  assert (Hin : custom d' !! rule_file id = Some text) by apply lookup_insert_eq.
  assert (Hparse : parse_rule_file (yaml_load text) = Raise (ValueError "int")).
  { by rewrite Hyaml, parse_one, Hbad. }
  exists text, d'. split; [|split; [exact Hin|split; [|split]]].
  - rewrite (create_eq yaml_load yaml_dump detail_model builtin_dir custom_dir hex1 hex2 b d id c
      Hv Hid Hc Hyaml Hfree). by rewrite Hbad.
  - apply (create_again yaml_load yaml_dump detail_model builtin_dir custom_dir hex1 hex2 b d' id c
      Hv Hid Hc). by rewrite Hin.
  - intros before after. cbn [load_rules_from_dir]. rewrite load_files_eq, map_app. cbn [map].
    unfold file_outcome at 2. rewrite Hparse.
    destruct (first_error_in (map file_outcome before) (map file_outcome after) (ValueError "int")) as [x Hx].
    rewrite Hx. eauto.
  - intros io_ok now. unfold reload_engine.
    assert (Hf : In (rule_file id, text) (rule_files Custom d')).
    { unfold rule_files. apply in_app_iff. left. unfold rglob.
      apply list_elem_of_In, list_elem_of_filter. split; [apply endswith_app|].
      by apply elem_of_map_to_list. }
    destruct (count_rules_raises yaml_load _ _ _ _ Hf Hparse ltac:(discriminate)) as [x Hx].
    destruct (count_rules yaml_load (rule_files Builtin d')) as [bc|e]; cbn [mbind res_bind].
    + rewrite Hx. cbn [mbind res_bind]. eauto.
    + eauto.
Qed.

(** ** Instances *)

Module Sample.

Definition d0 : disk := mkDisk {["ssh.yml" := "title: ssh"]} {["old.yml" := "title: old"]} None.

Definition selection : list (string * val) := [("type", VStr "auth.failed")].

Definition sample_body (count : option Z) (detection : list (string * val)) : RuleCreateIn :=
  mkRuleIn "Failed logins" (Some "failed-logins") "high" None (Some "agent") None detection
    (Some " selection ") None count (Some 0) None None [] ["src_ip"].

Definition good : RuleCreateIn := sample_body (Some 5) [("selection", VDict selection)].
Definition bad : RuleCreateIn := sample_body None [("selection", VDict selection); ("count", VStr "many")].

Definition dump (v : val) : string := "rule text".

Definition load (doc : list (string * val)) (text : string) : res val :=
  if String.eqb text "rule text" then Ok (VDict doc) else Raise YAMLError.

Definition loader (b : RuleCreateIn) : string -> res val := load (rule_doc "failed-logins" b "selection").

End Sample.

Import Sample.




Lemma rejected_rule_stops_engine_witness :
  (create_rule (loader bad) dump (fun d => Ok d) "builtin" "custom" "0123abcd" "0123abce" true bad d0).2
  = Raise (ValueError "int")
  /\ exists e, load_rules_from_dir true [Raise YAMLError; loader bad "rule text"] = Raise e.
Proof.
  destruct (rejected_rule_stops_engine (loader bad) dump (fun d => Ok d) "builtin" "custom"
    "0123abcd" "0123abce" bad d0 "failed-logins" "selection" "many" selection
    eq_refl eq_refl eq_refl eq_refl eq_refl eq_refl ltac:(discriminate) eq_refl eq_refl eq_refl)
    as (text&d'&H1&H2&_&H4&_).
  split; [by rewrite H1|].
  assert (Ht : text = "rule text").
  { assert (E : Some text = custom (create_rule (loader bad) dump (fun d => Ok d) "builtin" "custom"
      "0123abcd" "0123abce" true bad d0).1 !! "failed-logins.yml") by (rewrite H1; exact (eq_sym H2)).
    vm_compute in E. by injection E. }
  subst text. exact (H4 [Raise YAMLError] []).
Defined.
