(* ===== verification/Shell.v ===== *)
(** * Shell words: [shlex.quote] and how a POSIX shell reads it back

    [quote] is the function of the standard library with which the server builds
    commands for an operator to paste.  [sh_words] is a reader for simple
    commands whose words are literal: it follows the quoting rules of the POSIX
    shell and gives up ([None]) on everything the shell would interpret, so that
    [sh_words t = Some ws] says that a shell runs [t] as exactly the words [ws].
    [here_document] reads the lines of a here-document. *)

From S2P Require Import Prelude PyStr Regex.
From Stdlib Require Import Ascii.

Definition dquote : ascii := "034"%char.
Definition squote : ascii := "'"%char.

(** A text between double quotes. *)
Definition dq (s : string) : string := String dquote (s +:+ String dquote "").

(** ** [shlex.quote] *)

Definition is_ascii_word (c : ascii) : bool :=
  is_digit c || in_range 65 90 c || in_range 97 122 c || is_char "_" c.

(** The characters outside [[^\w@%+=:,./-]] of an ASCII pattern. *)
Definition safe_char (c : ascii) : bool :=
  is_ascii_word c || sexists (is_char c) "@%+=:,./-".

(** A single quote inside single quotes: close, a quoted quote, open. *)
Definition quoted_quote : string :=
  String squote (String dquote (String squote (String dquote (String squote "")))).

Definition quote (s : string) : string :=
  if negb (nonempty s) then String squote (String squote "")
  else if sforall safe_char s then s
  else String squote (replace_char squote quoted_quote s +:+ String squote "").

(** ** The reader *)

Inductive sh_mode : Type := Plain | Single | Double.

(** What a shell takes literally between double quotes. *)
Definition dquote_char (c : ascii) : bool :=
  negb (is_char dquote c) && negb (sexists (is_char c) "$`\!").

Definition sh_flush (cur : option string) (ws : list string) : list string :=
  match cur with Some w => w :: ws | None => ws end.

Definition push (c : ascii) (cur : option string) : option string :=
  Some (default "" cur +:+ String c "").

(** [cur] is the word being read, if one has begun. *)
Fixpoint sh_read (m : sh_mode) (cur : option string) (s : string) : option (list string) :=
  match m, s with
  | Plain, "" => Some (sh_flush cur [])
  | Plain, String c r =>
      if is_char " " c || is_char "009" c then sh_flush cur <$> sh_read Plain None r
      else if is_char squote c then sh_read Single (Some (default "" cur)) r
      else if is_char dquote c then sh_read Double (Some (default "" cur)) r
      else if safe_char c then sh_read Plain (push c cur) r
      else None
  | Single, String c r =>
      if is_char squote c then sh_read Plain cur r else sh_read Single (push c cur) r
  | Double, String c r =>
      if is_char dquote c then sh_read Plain cur r
      else if dquote_char c then sh_read Double (push c cur) r
      else None
  | _, "" => None
  end.

Definition sh_words (s : string) : option (list string) := sh_read Plain None s.

Example sh_words_examples :
  sh_words "ssh -p 2222 'a b'c" = Some ["ssh"; "-p"; "2222"; "a bc"]
  /\ sh_words "echo $HOME" = None /\ sh_words "a; b" = None /\ sh_words "'a" = None
  /\ sh_words (quote "'; rm -rf /'") = Some ["'; rm -rf /'"] /\ sh_words (quote "") = Some [""].
Proof. repeat split. Qed.

(** ** Reading quoted words *)

Lemma safe_not_special c :
  safe_char c = true ->
  is_char " " c = false /\ is_char "009" c = false /\ is_char squote c = false /\ is_char dquote c = false.
Proof. ascii_cases c; try discriminate; repeat split. Qed.

Lemma push_app c cur w : default "" (push c cur) +:+ w = default "" cur +:+ String c w.
Proof. unfold push. cbn [default from_option Datatypes.id]. by rewrite sapp_assoc. Qed.

Lemma read_safe (w : string) : forall cur r,
  nonempty w = true \/ cur <> None -> sforall safe_char w = true ->
  sh_read Plain cur (w +:+ r) = sh_read Plain (Some (default "" cur +:+ w)) r.
Proof.
  induction w as [|c w IH]; intros cur r Hn Hs.
  - destruct cur as [a|]; [cbn; by rewrite sapp_nil_r|]. by destruct Hn.
  - cbn [sforall] in Hs. bprop. destruct (safe_not_special c) as (H1&H2&H3&H4); [done|].
    cbn [String.append sh_read]. rewrite H1, H2, H3, H4, H. cbn [orb].
    rewrite IH by (done || by right). by rewrite push_app.
Qed.

Lemma read_single (w : string) : forall a r,
  sh_read Single (Some a) (replace_char squote quoted_quote w +:+ String squote r)
  = sh_read Plain (Some (a +:+ w)) r.
Proof.
  induction w as [|c w IH]; intros a r; [cbn; by rewrite sapp_nil_r|].
  cbn [replace_char]. destruct (is_char squote c) eqn:E.
  - apply is_char_spec in E as <-. rewrite sapp_assoc. cbn. rewrite IH.
    by rewrite sapp_assoc.
  - cbn [String.append sh_read]. rewrite E. unfold push. cbn [default from_option Datatypes.id].
    rewrite IH. by rewrite sapp_assoc.
Qed.

(** A quoted text is read as one word, whatever it holds. *)
Lemma read_quote (w r : string) : sh_read Plain None (quote w +:+ r) = sh_read Plain (Some w) r.
Proof.
  unfold quote. destruct (nonempty w) eqn:En; cbn [negb]; [|by destruct w].
  destruct (sforall safe_char w) eqn:Es; [by rewrite read_safe by auto|].
  change (sh_read Plain None (?a +:+ r)) with (sh_read Plain None (a +:+ r)).
  cbn [String.append]. rewrite sapp_assoc. cbn [String.append].
  change (sh_read Plain None (String squote ?x)) with (sh_read Single (Some "") x).
  by rewrite read_single.
Qed.

(** [" ".join(map(shlex.quote, words))] is read as the words. *)
Lemma quote_words (ws : list string) : sh_words (join " " (map quote ws)) = Some ws.
Proof.
  unfold sh_words. induction ws as [|w [|v ws] IH]; [done| |].
  - cbn [map join]. rewrite <- (sapp_nil_r (quote w)), read_quote. done.
  - change (join " " (map quote (w :: v :: ws))) with (quote w +:+ String " " (join " " (map quote (v :: ws)))).
    rewrite read_quote. cbn [sh_read]. change (is_char " " " " || _) with true. cbn iota.
    rewrite IH. done.
Qed.

(** ** Here-documents *)

(** The lines before the first that ends the document, and what follows it. *)
Fixpoint here_lines (stop : string -> bool) (lines : list string) : option (list string * list string) :=
  match lines with
  | [] => None
  | l :: r => if stop l then Some ([], l :: r)
              else '(body, rest) ← here_lines stop r; Some (l :: body, rest)
  end.

Definition here_document (stop : string -> bool) (text : string) : option (string * string) :=
  '(body, rest) ← here_lines stop (split_char "010" text); Some (join nl body, join nl rest).

Lemma here_lines_app stop body l rest :
  Forall (fun x => stop x = false) body -> stop l = true ->
  here_lines stop (body ++ l :: rest) = Some (body, l :: rest).
Proof.
  intros Hb Hl. induction Hb as [|x body Hx Hb IH]; cbn [here_lines app]; [by rewrite Hl|].
  by rewrite Hx, IH.
Qed.

(** ** Lines *)

Definition one_line (s : string) : bool := negb (sexists (is_char "010") s).

Lemma join_lines (s : string) : join nl (split_char "010" s) = s.
Proof. apply (join_split_char "010"). Qed.

Lemma split_join_lines (ls : list string) :
  ls <> [] -> forallb one_line ls = true -> split_char "010" (join nl ls) = ls.
Proof.
  induction ls as [|l [|l2 ls] IH]; [done| |]; intros _ H; cbn [forallb] in H; bprop; unfold one_line in *; bprop.
  - by apply split_char_one.
  - change (join nl (l :: l2 :: ls)) with (l +:+ String "010" (join nl (l2 :: ls))).
    rewrite split_char_app by done. f_equal. apply IH; [done|]. cbn [forallb].
    unfold one_line. rewrite H0. cbn [negb andb]. done.
Qed.

Lemma join_cons (sep l : string) (ls : list string) :
  ls <> [] -> join sep (l :: ls) = l +:+ sep +:+ join sep ls.
Proof. by destruct ls. Qed.

Lemma join_app (sep : string) (a b : list string) :
  a <> [] -> b <> [] -> join sep (a ++ b) = join sep a +:+ sep +:+ join sep b.
Proof.
  intros Ha Hb. induction a as [|x [|y a] IH]; [done| |].
  - cbn [app]. by rewrite join_cons.
  - change ((x :: y :: a) ++ b) with (x :: (y :: a) ++ b). rewrite (join_cons _ x ((y :: a) ++ b)) by done.
    rewrite (join_cons _ x (y :: a)) by done. rewrite IH by done. by rewrite !sapp_assoc.
Qed.

(** Joining texts of several lines joins their lines. *)
Lemma join_concat (sep : string) (parts : list (list string)) :
  Forall (fun p => p <> []) parts -> join sep (map (join sep) parts) = join sep (concat parts).
Proof.
  induction 1 as [|p parts Hp Hps IH]; [done|]. destruct parts as [|q parts]; [cbn; by rewrite app_nil_r|].
  cbn [map concat]. change (q ++ concat parts) with (concat (q :: parts)).
  rewrite join_cons by done. rewrite join_app; [|done|].
  - by rewrite <- IH.
  - inversion Hps; subst. cbn. by destruct q.
Qed.
