(* ===== verification/Toml.v ===== *)
(** * The agent's configuration file: [render_agent_toml] and its helpers

    [api/v1/agents_provision.py] writes [agent.toml] by hand.  The first part is
    the generator; the second is a reader of the fragment of TOML 1.0 it uses
    (comments, pairs of a bare key with a basic string, a boolean or an integer,
    tables and arrays of tables), against which the generator is proved. *)

From S2P Require Import Prelude PyStr PyVal PyStd Regex Crypto Shell.
From Stdlib Require Import Ascii.

(** ** The generator *)

Inductive OSLit : Type := Linux | Macos | Windows.
Inductive ArchLit : Type := Amd64 | Arm64.

#[export] Instance oslit_eq_dec : EqDecision OSLit.
Proof. solve_decision. Defined.

Definition os_text (o : OSLit) : string :=
  match o with Linux => "linux" | Macos => "macos" | Windows => "windows" end.
Definition arch_text (a : ArchLit) : string := match a with Amd64 => "amd64" | Arm64 => "arm64" end.

(** A log source: its fields in order. *)
Abbreviation source_row := (list (string * string)).

Definition _LOG_SOURCE_PRESETS (o : OSLit) : list source_row :=
  match o with
  | Linux => [[("name", "auth"); ("path", "/var/log/auth.log")];
              [("name", "syslog"); ("path", "/var/log/syslog")]]
  | Macos => [[("name", "unified_auth"); ("path", "/var/log/auth.log")];
              [("name", "install"); ("path", "/var/log/install.log")]]
  | Windows => [[("name", "security_evtx"); ("path", "Security")];
                [("name", "system_evtx"); ("path", "System")]]
  end.

Definition _MAX_TEMPLATE_BYTES : Z := 64 * 1024.

Definition bslash : ascii := "\"%char.

(** [f"{cp:04X}"]. *)
Definition hex4 (n : Z) : string := upper (hexw 4 n).

Definition control (c : ascii) : bool := (code c <? 32)%N || (code c =? 127)%N.

Definition toml_escape (c : ascii) : string :=
  if is_char bslash c then String bslash (String bslash "")
  else if is_char dquote c then String bslash (String dquote "")
  else if control c then String bslash (String "u" (hex4 (Z.of_N (code c))))
  else String c "".

Fixpoint toml_escaped (s : string) : string :=
  match s with EmptyString => "" | String c r => toml_escape c +:+ toml_escaped r end.

Definition _toml_quote (value : string) : string := dq (toml_escaped value).

Definition toml_pair (kv : string * string) : string := kv.1 +:+ " = " +:+ _toml_quote kv.2.

Definition _toml_array_of_tables (rows : list source_row) : string :=
  let chunks := flat_map (fun row => (nl +:+ "[[log_source]]") :: map toml_pair row) rows in
  join nl chunks +:+ (match chunks with [] => "" | _ => nl end).

Definition state_dir_line (o : OSLit) : string :=
  match o with
  | Windows => "state_dir = " +:+ dq "C:\\ProgramData\\zaqorin-agent"
  | _ => "state_dir = " +:+ dq "/var/lib/zaqorin-agent"
  end.

Definition render_sections (o : OSLit) (arch : ArchLit) (server_url agent_id auth_token : string)
    (log_sources : list source_row) (include_windows_block : bool) : list string :=
  ["# ZaqorinCore agent configuration";
   "# Generated by /api/v1/agents/provision/template";
   "# OS: " +:+ os_text o +:+ "    Arch: " +:+ arch_text arch;
   "# See ARCHITECTURE.md and agent.example.toml for field semantics.";
   "";
   "server_url = " +:+ _toml_quote server_url;
   "agent_id    = " +:+ _toml_quote agent_id;
   "auth_token  = " +:+ _toml_quote auth_token;
   "";
   "log_level = " +:+ dq "info";
   state_dir_line o;
   "dry_run = true";
   "";
   rstrip_char "010" (_toml_array_of_tables log_sources);
   ""]
  ++ (if include_windows_block || bool_decide (o = Windows)
      then ["[windows_eventlog]"; "mode = " +:+ dq "pull"; ""] else [])
  ++ ["[response]";
      "allow_block_ip        = true";
      "allow_kill_process    = false";
      "allow_disable_user    = false";
      "block_default_ttl_sec = 3600";
      ""].

Definition render_agent_toml (o : OSLit) (arch : ArchLit) (server_url agent_id auth_token : string)
    (log_sources : option (list source_row)) (include_windows_block : bool) : res string :=
  let rows := default (_LOG_SOURCE_PRESETS o) log_sources in
  let rendered := join nl (render_sections o arch server_url agent_id auth_token rows include_windows_block) in
  if _MAX_TEMPLATE_BYTES <? Z.of_nat (length (utf8 rendered))
  then Raise (HTTPException 422 "rendered template is too large")
  else Ok rendered.

(** [tomllib.loads] is an argument. *)
Definition parse_agent_toml (loads : string -> res (list (string * val))) (text : string)
  : res (list (string * val)) :=
  match loads text with
  | Ok d => Ok d
  | Raise TOMLDecodeError => Raise (HTTPException 500 "generated TOML is not parseable")
  | Raise e => Raise e
  end.

(** ** A reader of the fragment *)

Definition toml_blank (c : ascii) : bool := is_char " " c || is_char "009" c.
Definition bare_char (c : ascii) : bool := is_ascii_word c || is_char "-" c.
Definition bare_key (k : string) : bool := nonempty k && sforall bare_char k.

(** What may stand in a comment: no control character but the tab. *)
Definition comment_ok (s : string) : bool := sforall (fun c => negb (control c) || is_char "009" c) s.

Definition hex4_val (a b c d : ascii) : option Z :=
  x ← hex_val a; y ← hex_val b; z ← hex_val c; w ← hex_val d;
  Some (((x * 16 + y) * 16 + z) * 16 + w).

(** A basic string after its opening quote: its value and what follows. *)
Fixpoint toml_string (s : string) : option (string * string) :=
  let add c (x : option (string * string)) := '(v, r) ← x; Some (String c v, r) in
  match s with
  | EmptyString => None
  | String c r =>
      if is_char dquote c then Some ("", r)
      else if is_char bslash c then
        match r with
        | String e r1 =>
            if is_char dquote e || is_char bslash e then add e (toml_string r1)
            else if is_char "b" e then add "008"%char (toml_string r1)
            else if is_char "t" e then add "009"%char (toml_string r1)
            else if is_char "n" e then add "010"%char (toml_string r1)
            else if is_char "f" e then add "012"%char (toml_string r1)
            else if is_char "r" e then add "013"%char (toml_string r1)
            else if is_char "u" e then
              match r1 with
              | String h1 (String h2 (String h3 (String h4 r2))) =>
                  n ← hex4_val h1 h2 h3 h4;
                  if n <? 256 then add (ascii_of_N (Z.to_N n)) (toml_string r2) else None
              | _ => None
              end
            else None
        | EmptyString => None
        end
      else if control c && negb (is_char "009" c) then None
      else add c (toml_string r)
  end.

Definition toml_value (s : string) : option (val * string) :=
  match s with
  | String c r =>
      if is_char dquote c then '(v, r') ← toml_string r; Some (VStr v, r')
      else if startswith "true" s then Some (VBool true, drop_str 4 s)
      else if startswith "false" s then Some (VBool false, drop_str 5 s)
      else match span is_digit s with
           | (String d ds, r') =>
               if is_char "0" d && nonempty ds then None
               else z ← int_unsigned (String d ds); Some (VInt z, r')
           | _ => None
           end
  | EmptyString => None
  end.

Inductive toml_item : Type :=
| TBlank
| TPair (k : string) (v : val)
| TTable (k : string)
| TArray (k : string).

(** Only blanks and a comment may follow. *)
Definition line_end (s : string) : bool :=
  match dropwhile toml_blank s with
  | EmptyString => true
  | String c r => is_char "#" c && comment_ok r
  end.

Definition toml_line (l : string) : option toml_item :=
  let s := dropwhile toml_blank l in
  if line_end s then Some TBlank
  else if startswith "[[" s then
    let '(k, r) := span bare_char (drop_str 2 s) in
    if nonempty k && startswith "]]" r && line_end (drop_str 2 r) then Some (TArray k) else None
  else if startswith "[" s then
    let '(k, r) := span bare_char (drop_str 1 s) in
    if nonempty k && startswith "]" r && line_end (drop_str 1 r) then Some (TTable k) else None
  else
    let '(k, r) := span bare_char s in
    if nonempty k then
      match dropwhile toml_blank r with
      | String e r' =>
          if is_char "=" e then
            '(v, r'') ← toml_value (dropwhile toml_blank r');
            if line_end r'' then Some (TPair k v) else None
          else None
      | EmptyString => None
      end
    else None.

(** Where the next pair goes. *)
Inductive toml_scope : Type := Root | InTable (k : string) | InRow (k : string).

Abbreviation doc := (list (string * val)).

Definition add_pair (k : string) (v : val) (d : doc) : option doc :=
  if has_key k d then None else Some (d ++ [(k, v)]).

Fixpoint on_last (f : val -> option val) (l : list val) : option (list val) :=
  match l with
  | [] => None
  | [x] => y ← f x; Some [y]
  | x :: r => r' ← on_last f r; Some (x :: r')
  end.

Definition on_dict (f : doc -> option doc) (v : val) : option val :=
  match v with VDict d => d' ← f d; Some (VDict d') | _ => None end.

Definition on_key (k : string) (f : val -> option val) (d : doc) : option doc :=
  v ← assoc k d; v' ← f v; Some (assoc_set k v' d).

Definition toml_step (item : toml_item) (st : toml_scope * doc) : option (toml_scope * doc) :=
  let '(sc, d) := st in
  match item with
  | TBlank => Some st
  | TTable k => d' ← add_pair k (VDict []) d; Some (InTable k, d')
  | TArray k =>
      d' ← match assoc k d with
           | None => add_pair k (VList [VDict []]) d
           | Some (VList rows) => Some (assoc_set k (VList (rows ++ [VDict []])) d)
           | Some _ => None
           end;
      Some (InRow k, d')
  | TPair k v =>
      d' ← match sc with
           | Root => add_pair k v d
           | InTable t => on_key t (on_dict (add_pair k v)) d
           | InRow t => on_key t (fun x => match x with
                          | VList rows => rows' ← on_last (on_dict (add_pair k v)) rows; Some (VList rows')
                          | _ => None end) d
           end;
      Some (sc, d')
  end.

Fixpoint toml_lines (ls : list string) (st : toml_scope * doc) : option (toml_scope * doc) :=
  match ls with
  | [] => Some st
  | l :: r => item ← toml_line l; st' ← toml_step item st; toml_lines r st'
  end.

Definition toml_read (text : string) : option doc :=
  '(_, d) ← toml_lines (split_char "010" text) (Root, []); Some d.

Example toml_read_examples :
  toml_read (join nl ["# c"; "a = 1"; "[[t]]"; "b = true # x"; "[[t]]"; "[u]"; "c-d= 10"])
  = Some [("a", VInt 1); ("t", VList [VDict [("b", VBool true)]; VDict []]); ("u", VDict [("c-d", VInt 10)])]
  /\ toml_read (join nl ["a = 1"; "a = 2"]) = None /\ toml_read "a = 01" = None /\ toml_read "a" = None.
Proof. repeat split. Qed.

(** ** Strings are read back *)

Lemma toml_string_escape c r :
  toml_string (toml_escape c +:+ r) = ('(v, r') ← toml_string r; Some (String c v, r')).
Proof. ascii_cases c; reflexivity. Qed.

Lemma toml_string_quote (v r : string) :
  toml_string (toml_escaped v +:+ String dquote r) = Some (v, r).
Proof.
  induction v as [|c v IH]; [done|]. cbn [toml_escaped]. rewrite sapp_assoc, toml_string_escape.
  by rewrite IH.
Qed.

Lemma toml_value_quote (v r : string) : toml_value (_toml_quote v +:+ r) = Some (VStr v, r).
Proof.
  unfold _toml_quote, dq. cbn [String.append toml_value]. rewrite sapp_assoc. cbn [String.append].
  change (is_char dquote dquote) with true. cbn iota. by rewrite toml_string_quote.
Qed.

(** A quoted value stays on its line. *)
Lemma toml_escape_line c : one_line (toml_escape c) = true.
Proof. ascii_cases c; reflexivity. Qed.

Lemma one_line_app (a b : string) : one_line (a +:+ b) = one_line a && one_line b.
Proof. unfold one_line. by rewrite sexists_app, negb_orb. Qed.

Lemma toml_quote_line (v : string) : one_line (_toml_quote v) = true.
Proof.
  unfold _toml_quote, dq. change (String dquote ?x) with (String dquote "" +:+ x).
  rewrite !one_line_app. induction v as [|c v IH]; [done|]. cbn [toml_escaped].
  rewrite one_line_app, toml_escape_line. done.
Qed.

(** ** Lines are read back *)

Lemma bare_first c :
  bare_char c = true ->
  toml_blank c = false /\ is_char "#" c = false /\ Ascii.eqb "[" c = false.
Proof. ascii_cases c; try discriminate; repeat split. Qed.

Lemma bare_stop (b1 r : string) :
  sforall toml_blank b1 = true -> span bare_char (b1 +:+ String "=" r) = ("", b1 +:+ String "=" r).
Proof.
  destruct b1 as [|c b1]; [done|]. cbn [sforall String.append span]. intros H. bprop.
  destruct (bare_char c) eqn:E; [|done]. apply bare_first in E as (E&_). congruence.
Qed.

Lemma span_prefix p (a b : string) :
  sforall p a = true -> span p (a +:+ b) = (let '(x, y) := span p b in (a +:+ x, y)).
Proof.
  induction a as [|c a IH]; cbn; [by destruct (span p b)|]. intros H. bprop. rewrite H, IH by done.
  by destruct (span p b).
Qed.

Lemma dropwhile_prefix p (a b : string) : sforall p a = true -> dropwhile p (a +:+ b) = dropwhile p b.
Proof. induction a as [|c a IH]; cbn; [done|]. intros H. bprop. by rewrite H, IH. Qed.

Lemma toml_line_key (k b1 : string) x (rest : string) :
  bare_key k = true -> sforall toml_blank b1 = true -> toml_blank x = false ->
  toml_line (k +:+ b1 +:+ "= " +:+ String x rest)
  = ('(v, r) ← toml_value (String x rest); if line_end r then Some (TPair k v) else None).
Proof.
  intros Hk Hb Hx. unfold bare_key in Hk. bprop. destruct k as [|c k]; [done|].
  assert (Hc : bare_char c = true) by (cbn in H0; by bprop).
  destruct (bare_first c Hc) as (H1&H2&H3).
  set (value := String x rest). set (tail := b1 +:+ "= " +:+ value).
  assert (Hd : dropwhile toml_blank (String c k +:+ tail) = String c k +:+ tail) by (cbn; by rewrite H1).
  unfold toml_line. unfold line_end at 1. rewrite !Hd. cbn [String.append]. rewrite H2. cbn [andb].
  unfold startswith. cbn [String.prefix].
  destruct (ascii_dec "[" c) as [E|_]; [apply Ascii.eqb_eq in E; congruence|].
  change (String c (k +:+ tail)) with (String c k +:+ tail). rewrite span_prefix by done.
  assert (Hs : span bare_char tail = ("", tail)) by (by apply (bare_stop b1 (String " " value))).
  rewrite Hs, sapp_nil_r. cbn [nonempty].
  assert (Ht : dropwhile toml_blank tail = String "=" (String " " value)).
  { unfold tail. by rewrite dropwhile_prefix. }
  rewrite Ht. change (is_char "=" "=") with true. cbv iota.
  assert (Hv : dropwhile toml_blank (String " " value) = value).
  { change (dropwhile toml_blank (String " " value)) with (dropwhile toml_blank value).
    unfold value. cbn [dropwhile]. by rewrite Hx. }
  by rewrite Hv.
Qed.

Lemma toml_line_pair (k b1 v : string) :
  bare_key k = true -> sforall toml_blank b1 = true ->
  toml_line (k +:+ b1 +:+ "= " +:+ _toml_quote v) = Some (TPair k (VStr v)).
Proof.
  intros Hk Hb. unfold _toml_quote, dq. rewrite toml_line_key by done.
  change (String dquote (toml_escaped v +:+ String dquote "")) with (_toml_quote v).
  pose proof (toml_value_quote v "") as Hq. rewrite sapp_nil_r in Hq. rewrite Hq. done.
Qed.

(** A text put between quotes as it is: read back if it holds no control
    character, and refused otherwise. *)
Definition no_control (s : string) : bool := sforall (fun c => negb (control c)) s.

Lemma toml_string_raw (s r : string) :
  sexists (fun c => is_char dquote c || is_char bslash c || is_char "009" c) s = false ->
  toml_string (s +:+ String dquote r) = if no_control s then Some (s, r) else None.
Proof.
  unfold no_control. induction s as [|c s IH]; [done|]. cbn [sexists String.append sforall]. intros H. bprop.
  cbn [toml_string]. rewrite H, H2, H1. destruct (control c); [done|]. cbn [andb negb].
  rewrite IH by done. by destruct (sforall _ s).
Qed.

Lemma toml_line_raw (k b1 s : string) :
  bare_key k = true -> sforall toml_blank b1 = true ->
  sexists (fun c => is_char dquote c || is_char bslash c || is_char "009" c) s = false ->
  toml_line (k +:+ b1 +:+ "= " +:+ dq s) = if no_control s then Some (TPair k (VStr s)) else None.
Proof.
  intros Hk Hb Hs. unfold dq. rewrite toml_line_key by done. unfold toml_value.
  change (is_char dquote dquote) with true. cbv iota. rewrite toml_string_raw by done.
  by destruct (no_control s).
Qed.

(** ** Documents are read back *)

Lemma toml_lines_app (a b : list string) st :
  toml_lines (a ++ b) st = (st' ← toml_lines a st; toml_lines b st').
Proof.
  revert st. induction a as [|l a IH]; intros st; [done|]. cbn [app toml_lines].
  destruct (toml_line l) as [item|]; [|done]. cbn. destruct (toml_step item st) as [st'|]; [|done].
  cbn. apply IH.
Qed.

Lemma assoc_last {A} k (v : A) d : has_key k d = false -> assoc k (d ++ [(k, v)]) = Some v.
Proof.
  unfold has_key. induction d as [|[k' v'] d IH]; cbn; [by rewrite String.eqb_refl|].
  destruct (String.eqb k k'); [done|]. exact IH.
Qed.

Lemma assoc_set_last {A} k (v v' : A) d :
  has_key k d = false -> assoc_set k v' (d ++ [(k, v)]) = d ++ [(k, v')].
Proof.
  unfold has_key. induction d as [|[k2 v2] d IH]; cbn; [by rewrite String.eqb_refl|].
  destruct (String.eqb k k2); [done|]. intros H. by rewrite IH.
Qed.

Lemma on_last_app f (l : list val) x : on_last f (l ++ [x]) = (y ← f x; Some (l ++ [y])).
Proof.
  induction l as [|a l IH]; [done|]. destruct l as [|b l]; cbn [app on_last] in *.
  - by destruct (f x).
  - rewrite IH. by destruct (f x).
Qed.

(** A row that TOML can hold. *)
Definition row_ok (row : source_row) : Prop :=
  Forall (fun kv => bare_key kv.1 = true) row /\ List.NoDup (map fst row).

Definition row_doc (row : source_row) : doc := map (fun kv => (kv.1, VStr kv.2)) row.

Lemma has_key_row k r (row : source_row) :
  has_key k (r ++ row_doc row) = false <-> has_key k r = false /\ ~ In k (map fst row).
Proof.
  unfold has_key. induction r as [|[k' v'] r IH]; cbn [app assoc].
  - rewrite <- (assoc_none k row). assert (E : assoc k (row_doc row) = VStr <$> assoc k row).
    { induction row as [|[k2 v2] row IHr]; [done|]. cbn. by destruct (String.eqb k k2). }
    rewrite E. split; [intros H; split; [done|]|intros [_ H]]; destruct (assoc k row); done.
  - destruct (String.eqb k k'); [by split; [|intros []]|exact IH].
Qed.

Lemma row_pairs_read (row : source_row) d acc : forall r,
  has_key "log_source" d = false ->
  Forall (fun kv => bare_key kv.1 = true) row -> List.NoDup (map fst row) ->
  (forall k, In k (map fst row) -> has_key k r = false) ->
  toml_lines (map toml_pair row) (InRow "log_source", d ++ [("log_source", VList (acc ++ [VDict r]))])
  = Some (InRow "log_source", d ++ [("log_source", VList (acc ++ [VDict (r ++ row_doc row)]))]).
Proof.
  induction row as [|[k v] row IH]; intros r Hd Hb Hn Hk; [cbn; by rewrite app_nil_r|].
  apply Forall_cons in Hb as [Hkb Hb]. cbn [fst] in Hkb. inversion Hn as [|? ? Hni Hn']; subst.
  cbn [map toml_lines]. change (toml_pair (k, v)) with (k +:+ " " +:+ "= " +:+ _toml_quote v).
  rewrite toml_line_pair by done. cbn [mbind option_bind toml_step]. unfold on_key.
  rewrite assoc_last by done. cbn [mbind option_bind]. rewrite on_last_app. cbn [mbind option_bind on_dict].
  unfold add_pair. rewrite (Hk k) by (by left). cbn [mbind option_bind]. rewrite assoc_set_last by done.
  rewrite IH; [|done|done|done|].
  - by rewrite <- app_assoc.
  - intros k' Hin. change [(k, VStr v)] with (row_doc [(k, v)]). apply has_key_row.
    split; [apply Hk; by right|]. intros [<-|[]]. done.
Qed.

Definition row_lines (row : source_row) : list string := "" :: "[[log_source]]" :: map toml_pair row.

Definition with_rows (d : doc) (rows : list val) : doc :=
  match rows with [] => d | _ => d ++ [("log_source", VList rows)] end.

Lemma row_read (row : source_row) sc d acc :
  has_key "log_source" d = false -> row_ok row ->
  toml_lines (row_lines row) (sc, with_rows d acc)
  = Some (InRow "log_source", with_rows d (acc ++ [VDict (row_doc row)])).
Proof.
  intros Hd [Hb Hn]. unfold row_lines. cbn [toml_lines].
  change (toml_line "") with (Some TBlank). cbn [mbind option_bind toml_step].
  change (toml_line "[[log_source]]") with (Some (TArray "log_source")). cbn [mbind option_bind toml_step].
  assert (Hw : with_rows d (acc ++ [VDict (row_doc row)])
               = d ++ [("log_source", VList (acc ++ [VDict ([] ++ row_doc row)]))]) by (by destruct acc).
  rewrite Hw. destruct acc as [|a acc]; cbn [with_rows].
  - assert (E : assoc "log_source" d = None) by (unfold has_key in Hd; by destruct (assoc _ d)).
    rewrite E. unfold add_pair. rewrite Hd. cbn [mbind option_bind].
    by apply (row_pairs_read row d [] []).
  - rewrite assoc_last by done. cbn [mbind option_bind]. rewrite assoc_set_last by done.
    by apply (row_pairs_read row d (a :: acc) []).
Qed.

Lemma rows_read (rows : list source_row) d : forall sc acc,
  has_key "log_source" d = false -> Forall row_ok rows ->
  exists sc', toml_lines (flat_map row_lines rows) (sc, with_rows d acc)
  = Some (sc', with_rows d (acc ++ map (fun row => VDict (row_doc row)) rows)).
Proof.
  induction rows as [|row rows IH]; intros sc acc Hd Hr.
  - exists sc. cbn. by rewrite app_nil_r.
  - apply Forall_cons in Hr as [Hrow Hr]. cbn [flat_map map]. rewrite toml_lines_app, row_read by done.
    cbn [mbind option_bind]. destruct (IH (InRow "log_source") (acc ++ [VDict (row_doc row)]) Hd Hr) as [sc' E].
    exists sc'. rewrite E. by rewrite <- app_assoc.
Qed.

(** ** The lines of the generated text *)

Lemma droplast_drop p (a : string) c : p c = true -> droplast p (a +:+ String c "") = droplast p a.
Proof. intros Hc. induction a as [|x a IH]; cbn [String.append droplast]; [by rewrite Hc|by rewrite IH]. Qed.

Lemma one_line_droplast (l : string) : one_line l = true -> droplast (is_char "010") l = l.
Proof.
  unfold one_line. rewrite sexists_sforall, negb_involutive. apply droplast_none.
Qed.

Lemma rstrip_lines (init : list string) (l : string) :
  nonempty l = true -> one_line l = true ->
  rstrip_char "010" (join nl (init ++ [l]) +:+ nl) = join nl (init ++ [l]).
Proof.
  intros Hn Hl. unfold rstrip_char.
  change (join nl (init ++ [l]) +:+ nl) with (join nl (init ++ [l]) +:+ String "010" "").
  rewrite droplast_drop by done.
  destruct init as [|x init]; [by apply one_line_droplast|].
  rewrite join_app by done. apply (droplast_app _ (join nl (x :: init))); [done|].
  apply (droplast_app _ nl); [done|]. by apply one_line_droplast.
Qed.

Definition row_parts (row : source_row) : list (list string) :=
  [""; "[[log_source]]"] :: map (fun kv => [toml_pair kv]) row.

Lemma parts_join (rows : list source_row) :
  map (join nl) (flat_map row_parts rows)
  = flat_map (fun row => (nl +:+ "[[log_source]]") :: map toml_pair row) rows.
Proof.
  induction rows as [|row rows IH]; [done|]. cbn [flat_map]. rewrite map_app, IH. f_equal.
  cbn [row_parts map]. f_equal. by rewrite map_map.
Qed.

Lemma concat_singletons {A B} (f : A -> B) (l : list A) : concat (map (fun x => [f x]) l) = map f l.
Proof. induction l as [|x l IH]; [done|]. cbn. by rewrite IH. Qed.

Lemma parts_concat (rows : list source_row) : concat (flat_map row_parts rows) = flat_map row_lines rows.
Proof.
  induction rows as [|row rows IH]; [done|]. cbn [flat_map]. rewrite concat_app, IH. f_equal.
  unfold row_parts. cbn [concat app]. by rewrite concat_singletons.
Qed.

Lemma parts_nonnil (rows : list source_row) : Forall (fun p => p <> []) (flat_map row_parts rows).
Proof.
  induction rows as [|row rows IH]; cbn [flat_map]; [constructor|]. apply Forall_app. split; [|done].
  constructor; [done|]. apply Forall_map. by apply Forall_true.
Qed.

Lemma bare_key_line k : bare_key k = true -> one_line k = true.
Proof.
  unfold bare_key, one_line. intros H. bprop. rewrite (class_no_char bare_char); [done|done|done].
Qed.

Lemma toml_pair_line kv : bare_key kv.1 = true -> one_line (toml_pair kv) = true.
Proof. intros H. unfold toml_pair. by rewrite !one_line_app, bare_key_line, toml_quote_line. Qed.

Lemma row_lines_one_line row : row_ok row -> Forall (fun l => one_line l = true) (row_lines row).
Proof.
  intros [Hb _]. do 2 (constructor; [done|]). apply Forall_map.
  eapply Forall_impl; [exact Hb|]. intros kv. apply toml_pair_line.
Qed.

Lemma row_lines_last row :
  row_ok row -> exists init l, row_lines row = init ++ [l] /\ nonempty l = true /\ one_line l = true.
Proof.
  intros [Hb _]. unfold row_lines. destruct row as [|kv row _] using rev_ind.
  - by exists [""], "[[log_source]]".
  - apply Forall_app in Hb as [_ Hkv]. inversion Hkv as [|? ? Hk _]; subst.
    exists ("" :: "[[log_source]]" :: map toml_pair row), (toml_pair kv).
    rewrite map_app. split; [done|]. split; [|by apply toml_pair_line].
    unfold toml_pair. by destruct kv as [[|c k] v].
Qed.

(** The lines the array of tables takes in the text; without rows, an empty one. *)
Definition rows_lines (rows : list source_row) : list string :=
  match rows with [] => [""] | _ => flat_map row_lines rows end.

Lemma array_section (rows : list source_row) :
  Forall row_ok rows -> rstrip_char "010" (_toml_array_of_tables rows) = join nl (rows_lines rows).
Proof.
  intros Hr. unfold _toml_array_of_tables. rewrite <- parts_join, join_concat, parts_concat by apply parts_nonnil.
  destruct rows as [|row rows _] using rev_ind; [done|].
  apply Forall_app in Hr as [_ Hrow]. inversion Hrow as [|? ? Hok _]; subst.
  destruct (row_lines_last row Hok) as (init&l&E&Hn&Hl).
  assert (Hnn : rows_lines (rows ++ [row]) = (flat_map row_lines rows ++ init) ++ [l]).
  { unfold rows_lines. destruct (rows ++ [row]) eqn:En; [by destruct rows|]. rewrite <- En.
    rewrite flat_map_app. cbn [flat_map]. by rewrite app_nil_r, E, app_assoc. }
  assert (Hf : flat_map row_lines (rows ++ [row]) = rows_lines (rows ++ [row])).
  { unfold rows_lines. destruct (rows ++ [row]) eqn:En; [by destruct rows|done]. }
  rewrite Hf, Hnn. destruct (map (join nl) (flat_map row_parts (rows ++ [row]))) eqn:Em.
  - exfalso. rewrite flat_map_app, map_app in Em. apply app_eq_nil in Em as [_ Em]. discriminate Em.
  - by apply rstrip_lines.
Qed.

Definition head_lines (o : OSLit) (arch : ArchLit) (server_url agent_id auth_token : string) : list string :=
  take 13 (render_sections o arch server_url agent_id auth_token [] false).

Definition tail_lines (windows_block : bool) : list string :=
  drop 14 (render_sections Linux Amd64 "" "" "" [] windows_block).

Definition windows_block (o : OSLit) (include : bool) : bool := include || bool_decide (o = Windows).

Lemma render_sections_split o arch u a t rows w :
  render_sections o arch u a t rows w
  = head_lines o arch u a t ++ rstrip_char "010" (_toml_array_of_tables rows) :: tail_lines (windows_block o w).
Proof. unfold windows_block. by destruct o, w. Qed.

(** The configuration the text stands for. *)
Definition agent_doc (o : OSLit) (server_url agent_id auth_token : string) (rows : list source_row)
    (windows_block : bool) : doc :=
  with_rows [("server_url", VStr server_url); ("agent_id", VStr agent_id); ("auth_token", VStr auth_token);
             ("log_level", VStr "info");
             ("state_dir", VStr (match o with Windows => "C:\ProgramData\zaqorin-agent"
                                            | _ => "/var/lib/zaqorin-agent" end));
             ("dry_run", VBool true)]
    (map (fun row => VDict (row_doc row)) rows)
  ++ (if windows_block then [("windows_eventlog", VDict [("mode", VStr "pull")])] else [])
  ++ [("response", VDict [("allow_block_ip", VBool true); ("allow_kill_process", VBool false);
                          ("allow_disable_user", VBool false); ("block_default_ttl_sec", VInt 3600)])].

Lemma head_read o arch u a t :
  toml_lines (head_lines o arch u a t) (Root, []) = Some (Root, with_rows (take 6 (agent_doc o u a t [] false)) []).
Proof.
  change (head_lines o arch u a t) with
    (take 5 (head_lines o arch "" "" "")
     ++ ["server_url" +:+ " " +:+ "= " +:+ _toml_quote u; "agent_id" +:+ "    " +:+ "= " +:+ _toml_quote a;
         "auth_token" +:+ "  " +:+ "= " +:+ _toml_quote t]
     ++ drop 8 (head_lines o arch "" "" "")).
  rewrite toml_lines_app.
  replace (toml_lines (take 5 (head_lines o arch "" "" "")) (Root, [])) with (Some (Root, [] : doc))
    by (by destruct o, arch).
  cbn [mbind option_bind]. rewrite toml_lines_app.
  assert (E : toml_lines ["server_url" +:+ " " +:+ "= " +:+ _toml_quote u;
      "agent_id" +:+ "    " +:+ "= " +:+ _toml_quote a; "auth_token" +:+ "  " +:+ "= " +:+ _toml_quote t] (Root, [])
    = Some (Root, [("server_url", VStr u); ("agent_id", VStr a); ("auth_token", VStr t)])).
  { cbn [toml_lines]. by rewrite !toml_line_pair. }
  rewrite E. by destruct o, arch.
Qed.

(** A table of the text. *)
Lemma table_read t header (lines : list string) (items : list (string * val)) sc d :
  toml_line header = Some (TTable t) ->
  Forall2 (fun l kv => toml_line l = Some (TPair kv.1 kv.2)) lines items ->
  has_key t d = false -> List.NoDup (map fst items) ->
  toml_lines (header :: lines) (sc, d) = Some (InTable t, d ++ [(t, VDict items)]).
Proof.
  intros Hh Hl Hd Hn. cbn [toml_lines]. rewrite Hh. cbn [mbind option_bind toml_step]. unfold add_pair at 1.
  rewrite Hd. cbn [mbind option_bind].
  assert (H : forall r : doc, (forall k, In k (map fst items) -> has_key k r = false) ->
    toml_lines lines (InTable t, d ++ [(t, VDict r)]) = Some (InTable t, d ++ [(t, VDict (r ++ items))])).
  { revert Hn. induction Hl as [|l [k v] lines items El Hl IH]; intros Hn r Hk; [by rewrite app_nil_r|].
    inversion Hn as [|? ? Hni Hn']; subst. cbn [toml_lines]. rewrite El. cbn [mbind option_bind toml_step fst snd].
    unfold on_key. rewrite assoc_last by done. cbn [mbind option_bind on_dict]. unfold add_pair.
    rewrite (Hk k) by (by left). cbn [mbind option_bind]. rewrite assoc_set_last by done.
    rewrite IH; [by rewrite <- app_assoc|done|]. intros k' Hin. unfold has_key.
    specialize (Hk k' (or_intror Hin)). unfold has_key in Hk.
    induction r as [|[k2 v2] r IHr]; cbn in *; [|destruct (String.eqb k' k2); [done|by apply IHr]].
    destruct (String.eqb_spec k' k) as [->|]; done. }
  by apply (H []).
Qed.

Lemma has_key_app {A} k (d e : list (string * A)) : has_key k (d ++ e) = has_key k d || has_key k e.
Proof.
  unfold has_key. induction d as [|[k' v] d IH]; cbn; [done|]. destruct (String.eqb k k'); [done|exact IH].
Qed.

Lemma response_read sc d :
  has_key "response" d = false ->
  toml_lines (drop 1 (tail_lines false)) (sc, d)
  = Some (InTable "response", d ++ drop 6 (agent_doc Linux "" "" "" [] false)).
Proof.
  intros Hr. change (drop 1 (tail_lines false))
    with (("[response]" :: take 4 (drop 2 (tail_lines false))) ++ [("" : string)]).
  rewrite toml_lines_app. rewrite (table_read "response" "[response]" _
    [("allow_block_ip", VBool true); ("allow_kill_process", VBool false);
     ("allow_disable_user", VBool false); ("block_default_ttl_sec", VInt 3600)]);
    [done|done|by repeat constructor|done|].
  repeat constructor; cbn; intuition congruence.
Qed.

Lemma tail_read sc d w :
  has_key "windows_eventlog" d = false -> has_key "response" d = false ->
  toml_lines (tail_lines w) (sc, d)
  = Some (InTable "response", d ++ drop 6 (agent_doc Linux "" "" "" [] w)).
Proof.
  intros Hw Hr. destruct w.
  - change (tail_lines true) with ([("" : string)] ++ (["[windows_eventlog]"; nth 2 (tail_lines true) ""]
      ++ ([("" : string)] ++ drop 1 (tail_lines false)))).
    rewrite toml_lines_app. change (toml_lines [""] (sc, d)) with (Some (sc, d)). cbn [mbind option_bind].
    rewrite toml_lines_app. rewrite (table_read "windows_eventlog" "[windows_eventlog]" _ [("mode", VStr "pull")]);
      [|done|by repeat constructor|done|repeat constructor; by intros []].
    cbn [mbind option_bind]. rewrite toml_lines_app.
    change (toml_lines [""] ?st) with (Some st). cbn [mbind option_bind].
    rewrite response_read; [by rewrite <- app_assoc|]. rewrite has_key_app, Hr. done.
  - change (tail_lines false) with ([("" : string)] ++ drop 1 (tail_lines false)).
    rewrite toml_lines_app. change (toml_lines [""] (sc, d)) with (Some (sc, d)). cbn [mbind option_bind].
    by apply response_read.
Qed.

Lemma head_one_line o arch u a t : forallb one_line (head_lines o arch u a t) = true.
Proof.
  assert (H : forall s v, one_line s = true -> one_line (s +:+ _toml_quote v) = true).
  { intros s v Hs. by rewrite one_line_app, Hs, toml_quote_line. }
  apply forallb_forall. intros l Hl.
  destruct o, arch; cbn [head_lines render_sections take app In] in Hl;
    repeat (destruct Hl as [<-|Hl]; [first [reflexivity|by apply H]|]); destruct Hl.
Qed.

(** The text of a configuration, as its lines. *)
Definition text_lines o arch u a t (rows : list source_row) w : list string :=
  head_lines o arch u a t ++ rows_lines rows ++ tail_lines (windows_block o w).

Lemma rows_lines_nonnil rows : rows_lines rows <> [].
Proof. by destruct rows as [|row rows]. Qed.

Lemma rendered_lines o arch u a t rows w :
  Forall row_ok rows ->
  join nl (render_sections o arch u a t rows w) = join nl (text_lines o arch u a t rows w)
  /\ forallb one_line (text_lines o arch u a t rows w) = true.
Proof.
  intros Hr. unfold text_lines. rewrite render_sections_split, array_section by done.
  assert (Hh : head_lines o arch u a t <> []) by (by destruct o, arch).
  assert (Ht : tail_lines (windows_block o w) <> []) by (unfold windows_block; by destruct o, w).
  pose proof (rows_lines_nonnil rows) as Hn. split.
  - rewrite (join_app nl (head_lines o arch u a t)) by done. rewrite (join_cons nl (join nl (rows_lines rows))) by done.
    rewrite (join_app nl (head_lines o arch u a t)); [|done|by destruct (rows_lines rows)].
    by rewrite (join_app nl (rows_lines rows)).
  - rewrite !forallb_app, head_one_line. unfold windows_block. apply andb_true_iff. split; [done|].
    apply andb_true_iff. split; [|by destruct o, w].
    apply forallb_forall. intros l Hl. unfold rows_lines in Hl. destruct rows as [|row rows]; [by destruct Hl as [<-|[]]|].
    apply in_flat_map in Hl as (row'&Hin&Hl). rewrite Forall_forall in Hr.
    pose proof (row_lines_one_line row' (Hr row' (proj2 (list_elem_of_In _ _) Hin))) as Hf.
    rewrite Forall_forall in Hf. by apply Hf, list_elem_of_In.
Qed.

Lemma rendered_read o arch u a t rows w :
  Forall row_ok rows ->
  toml_read (join nl (render_sections o arch u a t rows w)) = Some (agent_doc o u a t rows (windows_block o w)).
Proof.
  intros Hr. destruct (rendered_lines o arch u a t rows w Hr) as [-> Hl].
  unfold toml_read. rewrite split_join_lines; [|by destruct o, arch|done].
  unfold text_lines. rewrite toml_lines_app, head_read. cbn [mbind option_bind]. rewrite toml_lines_app.
  set (base := take 6 (agent_doc o u a t [] false)).
  assert (Hb : forall k, In k ["log_source"; "windows_eventlog"; "response"] -> has_key k base = false).
  { intros k. cbn [In]. intros [<-|[<-|[<-|[]]]]; by destruct o. }
  assert (E : exists sc, toml_lines (rows_lines rows) (Root, with_rows base [])
    = Some (sc, with_rows base (map (fun row => VDict (row_doc row)) rows))).
  { destruct rows as [|row rows]; [by exists Root|]. unfold rows_lines.
    apply (rows_read (row :: rows) base Root []); [apply Hb; by left|done]. }
  destruct E as [sc ->]. cbn [mbind option_bind].
  assert (Hw : forall k, In k ["windows_eventlog"; "response"] ->
    has_key k (with_rows base (map (fun row => VDict (row_doc row)) rows)) = false).
  { intros k Hk. destruct rows as [|row rows]; cbn [map with_rows]; [apply Hb; by right|].
    rewrite has_key_app, Hb by (by right). destruct Hk as [<-|[<-|[]]]; done. }
  rewrite tail_read by (apply Hw; cbn; auto). cbn [mbind option_bind]. f_equal.
Qed.

(** C28. What [render_agent_toml] writes is the configuration it was asked for,
    whatever characters the values hold: a text within the limit is read back,
    as TOML, to exactly the given server URL, agent id, token and log sources
    next to the fixed settings of the platform; a longer one is refused with
    422 and nothing else is. *)
Theorem agent_toml_roundtrip (o : OSLit) (arch : ArchLit) (server_url agent_id auth_token : string)
    (log_sources : option (list source_row)) (include_windows_block : bool)
    (Hrows : Forall row_ok (default (_LOG_SOURCE_PRESETS o) log_sources)) :
  match render_agent_toml o arch server_url agent_id auth_token log_sources include_windows_block with
  | Ok text =>
      Z.of_nat (length (utf8 text)) <= 65536
      /\ toml_read text = Some (agent_doc o server_url agent_id auth_token
           (default (_LOG_SOURCE_PRESETS o) log_sources) (windows_block o include_windows_block))
  | Raise e =>
      e = HTTPException 422 "rendered template is too large"
      /\ 65536 < Z.of_nat (length (utf8 (join nl (render_sections o arch server_url agent_id auth_token
            (default (_LOG_SOURCE_PRESETS o) log_sources) include_windows_block))))
  end.
Proof.
  unfold render_agent_toml, _MAX_TEMPLATE_BYTES. destruct (Z.ltb_spec (64 * 1024) (Z.of_nat (length
    (utf8 (join nl (render_sections o arch server_url agent_id auth_token
       (default (_LOG_SOURCE_PRESETS o) log_sources) include_windows_block)))))) as [Hl|Hl].
  - split; [reflexivity|exact Hl].
  - split; [exact Hl|]. by apply rendered_read.
Qed.

(** *** Sizes *)

Lemma utf8_length (s : string) : (length (utf8 s) <= 2 * String.length s)%nat.
Proof.
  induction s as [|c s IH]; [done|]. cbn [utf8 String.length]. rewrite length_app.
  destruct (Z.of_N (code c) <? 128); cbn [length]; lia.
Qed.

Lemma toml_escape_length c : (String.length (toml_escape c) <= 6)%nat.
Proof. apply Nat.leb_le. ascii_cases c; reflexivity. Qed.

Lemma toml_quote_length (v : string) : (String.length (_toml_quote v) <= 6 * String.length v + 2)%nat.
Proof.
  unfold _toml_quote, dq. cbn [String.length]. rewrite sapp_length. cbn [String.length].
  assert (H : (String.length (toml_escaped v) <= 6 * String.length v)%nat); [|lia].
  induction v as [|c v IH]; [done|]. cbn [toml_escaped String.length]. rewrite sapp_length.
  pose proof (toml_escape_length c). lia.
Qed.

Lemma presets_ok o : Forall row_ok (_LOG_SOURCE_PRESETS o).
Proof. destruct o; repeat constructor; cbn; intuition congruence. Qed.

(** The size of a text of lines. *)
Fixpoint lines_size (ls : list string) : Z :=
  match ls with [] => 0 | l :: r => slen l + 1 + lines_size r end.

Lemma lines_size_app a b : lines_size (a ++ b) = lines_size a + lines_size b.
Proof. induction a as [|l a IH]; cbn [app lines_size]; lia. Qed.

Lemma join_size (ls : list string) : slen (join nl ls) <= lines_size ls.
Proof.
  induction ls as [|l [|l2 ls] IH]; [done|cbn; lia|].
  rewrite join_cons, !slen_app by done. change (slen nl) with 1. cbn [lines_size] in *. lia.
Qed.

Lemma head_size o arch u a t :
  lines_size (head_lines o arch u a t) <= 600 + 6 * (slen u + slen a + slen t).
Proof.
  change (head_lines o arch u a t) with
    (take 5 (head_lines o arch "" "" "")
     ++ ["server_url = " +:+ _toml_quote u; "agent_id    = " +:+ _toml_quote a;
         "auth_token  = " +:+ _toml_quote t]
     ++ drop 8 (head_lines o arch "" "" "")).
  rewrite !lines_size_app. cbn [lines_size]. rewrite !slen_app.
  assert (Hq : forall v, slen (_toml_quote v) <= 6 * slen v + 2).
  { intros v. unfold slen. pose proof (toml_quote_length v). lia. }
  pose proof (Hq u). pose proof (Hq a). pose proof (Hq t).
  assert (Hc : lines_size (take 5 (head_lines o arch "" "" ""))
               + lines_size (drop 8 (head_lines o arch "" "" "")) <= 400).
  { apply Z.leb_le. destruct o, arch; vm_compute; reflexivity. }
  change (slen "server_url = ") with 13. change (slen "agent_id    = ") with 14.
  change (slen "auth_token  = ") with 14. lia.
Qed.

(** A short configuration with the preset log sources is within the limit. *)
Lemma render_small o arch u a t w :
  slen u + slen a + slen t <= 1000 ->
  render_agent_toml o arch u a t (Some (_LOG_SOURCE_PRESETS o)) w
  = Ok (join nl (render_sections o arch u a t (_LOG_SOURCE_PRESETS o) w)).
Proof.
  intros Hs. unfold render_agent_toml. cbn [default from_option Datatypes.id].
  destruct (Z.ltb_spec _MAX_TEMPLATE_BYTES (Z.of_nat (length (utf8 (join nl
    (render_sections o arch u a t (_LOG_SOURCE_PRESETS o) w)))))) as [Hl|_]; [exfalso|done].
  destruct (rendered_lines o arch u a t _ w (presets_ok o)) as [E _]. rewrite E in Hl.
  pose proof (utf8_length (join nl (text_lines o arch u a t (_LOG_SOURCE_PRESETS o) w))) as Hu.
  pose proof (join_size (text_lines o arch u a t (_LOG_SOURCE_PRESETS o) w)) as Hj.
  pose proof (head_size o arch u a t) as Hh. unfold text_lines in *. rewrite !lines_size_app in Hj.
  assert (H1 : lines_size (rows_lines (_LOG_SOURCE_PRESETS o)) + lines_size (tail_lines (windows_block o w)) <= 600).
  { apply Z.leb_le. destruct o, w; vm_compute; reflexivity. }
  unfold slen in Hj at 1. unfold _MAX_TEMPLATE_BYTES in Hl. lia.
Qed.

(** ** Instances *)

Definition ex_rows : list source_row := [[("name", "a" +:+ nl +:+ "b"); ("path", "C:\x")]; []].

Lemma agent_toml_roundtrip_witness :
  exists text, render_agent_toml Windows Arm64 "wss://h" (String dquote "#") "t" (Some ex_rows) false = Ok text
    /\ toml_read text = Some (agent_doc Windows "wss://h" (String dquote "#") "t" ex_rows true).
Proof.
  assert (Hr : Forall row_ok ex_rows) by (repeat constructor; cbn; intuition congruence).
  pose proof (agent_toml_roundtrip Windows Arm64 "wss://h" (String dquote "#") "t" (Some ex_rows) false Hr) as H.
  destruct (render_agent_toml Windows Arm64 "wss://h" (String dquote "#") "t" (Some ex_rows) false) as [text|e] eqn:E.
  - exists text. split; [reflexivity|]. exact (proj2 H).
  - exfalso. assert (Ho : is_ok (render_agent_toml Windows Arm64 "wss://h" (String dquote "#") "t" (Some ex_rows) false) = true)
      by (vm_compute; reflexivity). rewrite E in Ho. discriminate Ho.
Defined.
