(* ===== verification/Provision.v ===== *)
(** * Agent provisioning: [api/v1/agents_provision.py], [api/v1/agents.py]

    The endpoints that write configurations and commands for an operator, rotate
    the secret of a host and report which agents are connected.  Answers are the
    JSON objects of the response models.  [uuid4] and [secrets.token_hex] are
    integers given to the request; [loads] is [tomllib.loads]; [special] is the
    classification of addresses by [ipaddress], which changes between versions
    of Python. *)

From S2P Require Import Prelude PyStr PyVal PyStd Regex NetAddr Crypto Db Shell Toml.
From Stdlib Require Import Ascii.

Definition _DEFAULT_SERVER_URL : string := "wss://zaqorin.example.com:8443/api/v1/events".

Definition zeros64 : string := "0000000000000000000000000000000000000000000000000000000000000000".

Definition _ARTIFACT_SHA256_BY_OS (o : OSLit) : option string :=
  match o with Linux | Windows => Some zeros64 | Macos => None end.

(** ** Input checks *)

Definition alnum_ascii (c : ascii) : bool := is_digit c || in_range 65 90 c || in_range 97 122 c.
Definition host_char (c : ascii) : bool := alnum_ascii c || sexists (is_char c) "._-:".
Definition user_first (c : ascii) : bool := in_range 65 90 c || in_range 97 122 c || is_char "_" c.
Definition ssh_user_char (c : ascii) : bool := is_ascii_word c || sexists (is_char c) ".-".
Definition key_id_char (c : ascii) : bool := is_ascii_word c || sexists (is_char c) ".-/+=@:,".

Definition _HOST_RE : re :=
  Rcat (Rcat (Rcls alnum_ascii) (Rcat (Rrep 0 253 (Rcls host_char)) (Rcls alnum_ascii))) Rend.
Definition _USER_RE : re := Rcat (Rcat (Rcls user_first) (Rrep 0 63 (Rcls ssh_user_char))) Rend.
Definition _KEY_ID_RE : re := Rcat (Rrep 1 128 (Rcls key_id_char)) Rend.

Definition refuse_422 {A} (why : string) : res A := Raise (HTTPException 422 why).

(** [raw[1:-1]] for a bracketed text. *)
Definition unbracket (raw : string) : string :=
  if startswith "[" raw && endswith "]" raw
  then drop_str 1 (take_str (String.length raw - 1) raw) else raw.

Definition _safe_host (raw : string) : res string :=
  if negb (nonempty raw) || (255 <? slen raw) then refuse_422 "host must be 1..255 chars"
  else if re_match _HOST_RE (unbracket raw) then Ok raw
  else refuse_422 "invalid host".

Definition _safe_user (raw : string) : res string :=
  if re_match _USER_RE raw then Ok raw else refuse_422 "invalid user".

Definition _safe_key_id (raw : option string) : res (option string) :=
  match raw with
  | None => Ok None
  | Some k => if re_match _KEY_ID_RE k then Ok (Some k) else refuse_422 "invalid ssh_key_id"
  end.

(** [Field(min_length=..., max_length=...)]. *)
Definition field_len (lo hi : Z) (s : string) : bool := (lo <=? slen s) && (slen s <=? hi).

(** ** [GET /provision/template] *)

(** [secrets.token_hex(32)] of 256 random bits; [uuid4().hex[:12]] of 128. *)
Definition token_hex32 (n : Z) : string := hexw 64 n.
Definition template_agent_id (u : Z) : string := "agent-" +:+ hexw 12 (u / 2 ^ 80).

Section Endpoints.
Context (loads : string -> res (list (string * val))).

Definition get_provision_template (o : OSLit) (arch : ArchLit) (u n : Z) : res val :=
  toml_text ← render_agent_toml o arch _DEFAULT_SERVER_URL (template_agent_id u) (token_hex32 n) None false;
  _ ← parse_agent_toml loads toml_text;
  Ok (VDict [("os", VStr (os_text o)); ("arch", VStr (arch_text arch));
             ("server_url", VStr _DEFAULT_SERVER_URL); ("toml", VStr toml_text);
             ("filename", VStr ("agent-" +:+ os_text o +:+ "-" +:+ arch_text arch +:+ ".toml"))]).

(** ** [POST /provision/dry-run] *)

Record DryRunIn : Type := mkDryRunIn {
  dr_host : string;
  dr_port : Z;
  dr_user : string;
  dr_ssh_key_id : option string
}.

Definition dry_run_fields (b : DryRunIn) : bool :=
  field_len 1 255 (dr_host b) && ((1 <=? dr_port b) && (dr_port b <=? 65535))
  && field_len 1 64 (dr_user b) && opt_all (field_len 0 128) (dr_ssh_key_id b).

Definition dry_run_in (b : DryRunIn) : res DryRunIn :=
  if dry_run_fields b then Ok b else refuse_422 "validation error".

Definition ssh_args (host : string) (port : Z) (user : string) (key_id : option string) : list string :=
  ["ssh"]
  ++ (if port =? 22 then [] else ["-p"; str_int port])
  ++ (match key_id with
      | Some k => if nonempty k then ["-i"; "~/.ssh/" +:+ k] else []
      | None => []
      end)
  ++ ["-o"; "BatchMode=yes"; "-o"; "StrictHostKeyChecking=accept-new"; user +:+ "@" +:+ host].

Definition dry_run_heredoc : string :=
  "cat > /etc/zaqorin/agent.toml.dry-run <<'ZAQORIN_EOF'" +:+ nl
  +:+ "# dry-run: this file is NOT the real agent config" +:+ nl
  +:+ "server_url = " +:+ dq _DEFAULT_SERVER_URL +:+ nl
  +:+ "log_level  = " +:+ dq "info" +:+ nl
  +:+ "ZAQORIN_EOF" +:+ nl
  +:+ "systemctl --no-pager status zaqorin-agent || true".

Definition verify_probe : string :=
  "test -f /etc/zaqorin/agent.toml.dry-run && echo OK || echo MISSING".

Definition install_line (args : list string) : string :=
  join " " (map quote args) +:+ " " +:+ quote dry_run_heredoc.

Definition verify_line (args : list string) : string :=
  join " " (map quote (args ++ [quote verify_probe])).

Definition dry_run_notes (port : Z) (key_id : option string) : list string :=
  (if port =? 22 then [] else ["non-default SSH port " +:+ str_int port +:+ "; ensure sshd listens there"])
  ++ (match key_id with
      | Some k => if nonempty k then ["using local SSH key alias " +:+ repr_str k
                                      +:+ "; ensure it is loaded in your agent"] else []
      | None => []
      end).

Definition post_provision_dry_run (body : DryRunIn) : res val :=
  b ← dry_run_in body;
  host ← _safe_host (dr_host b);
  user ← _safe_user (dr_user b);
  key_id ← _safe_key_id (dr_ssh_key_id b);
  let port := dr_port b in
  let args := ssh_args host port user key_id in
  Ok (VDict [("host", VStr host); ("port", VInt port); ("user", VStr user);
             ("install_command", VStr (install_line args)); ("verify_command", VStr (verify_line args));
             ("notes", VList (map VStr (dry_run_notes port key_id)))]).

(** ** [POST /provision/install-command] *)

Record InstallCommandIn : Type := mkInstallIn {
  ic_agent_id : string;
  ic_host : string;
  ic_os : OSLit
}.

Definition install_in (b : InstallCommandIn) : res InstallCommandIn :=
  if field_len 1 64 (ic_agent_id b) && field_len 1 255 (ic_host b)
  then Ok b else refuse_422 "validation error".

(** The characters the agent id may not hold. *)
Definition agent_id_bad (c : ascii) : bool :=
  sexists (is_char c) " $`" || is_char "009" c || is_char "010" c || is_char "013" c
  || is_char dquote c || is_char bslash c.

Definition clean_agent_id (raw : string) : res string :=
  let agent_id := strip raw in
  if negb (nonempty agent_id) then refuse_422 "agent_id must not be blank"
  else if sexists agent_id_bad agent_id then refuse_422 "agent_id must not contain whitespace"
  else Ok agent_id.

Definition download_url (o : OSLit) : string :=
  "https://releases.zaqorin.example.com/${ZAQORIN_VERSION:-latest}/zaqorin-agent-" +:+ os_text o +:+ ".tar.gz".

Definition toml_inline (agent_id auth_token : string) : string :=
  "server_url = " +:+ dq _DEFAULT_SERVER_URL +:+ nl
  +:+ "agent_id    = " +:+ dq agent_id +:+ nl
  +:+ "auth_token  = " +:+ dq auth_token +:+ nl.

Definition posix_head (o : OSLit) (sha : string) : string :=
  "set -euo pipefail; tmp=$(mktemp -d); tgz=$tmp/zaqorin-agent.tar.gz; "
  +:+ "curl -fsSL " +:+ quote (download_url o) +:+ " -o $tgz; "
  +:+ "actual=$(sha256sum $tgz | awk '{print $1}'); "
  +:+ "expected=" +:+ quote sha +:+ "; "
  +:+ "if [ " +:+ dq "$actual" +:+ " != " +:+ dq "$expected" +:+ " ]; then "
  +:+ "echo " +:+ dq "SHA-256 mismatch: expected $expected, got $actual" +:+ " >&2; "
  +:+ "rm -rf $tmp; exit 1; fi; tar -xz -C $tmp -f $tgz; "
  +:+ "install -m 0755 $tmp/zaqorin-agent /usr/local/bin/zaqorin-agent; "
  +:+ "install -d -m 0755 /etc/zaqorin; "
  +:+ "cat > /etc/zaqorin/agent.toml <<'ZAQORIN_EOF'" +:+ nl.

Definition posix_tail : string :=
  "ZAQORIN_EOF" +:+ nl
  +:+ "install -m 0644 $tmp/zaqorin-agent.service /etc/systemd/system/; "
  +:+ "systemctl daemon-reload; systemctl enable --now zaqorin-agent".

Definition windows_head (o : OSLit) (sha : string) : string :=
  "$ErrorActionPreference = 'Stop'; $url = '" +:+ download_url o +:+ "'; "
  +:+ "$dst = Join-Path $env:TEMP 'zaqorin-agent.tar.gz'; $expected = '" +:+ sha +:+ "'; "
  +:+ "Invoke-WebRequest -Uri $url -OutFile $dst -UseBasicParsing; "
  +:+ "$actual = (Get-FileHash -Algorithm SHA256 -Path $dst).Hash.ToLower(); "
  +:+ "if ($actual -ne $expected) { Remove-Item $dst -Force; "
  +:+ "throw " +:+ dq "SHA-256 mismatch: expected $expected, got $actual" +:+ " }; "
  +:+ "New-Item -ItemType Directory -Force -Path 'C:\ProgramData\zaqorin-agent' | Out-Null; "
  +:+ "tar -xzf $dst -C 'C:\ProgramData\zaqorin-agent'; "
  +:+ "Set-Content -Path 'C:\ProgramData\zaqorin-agent\agent.toml' -Value @'" +:+ nl.

Definition windows_tail : string := "'@; & 'C:\ProgramData\zaqorin-agent\zaqorin-agent.exe' --register".

Definition install_head (o : OSLit) (sha : string) : string :=
  match o with Windows => windows_head o sha | _ => posix_head o sha end.
Definition install_tail (o : OSLit) : string :=
  match o with Windows => windows_tail | _ => posix_tail end.

Context (special : ipaddr -> bool).

Definition is_internal (host : string) : bool :=
  match ip_address host with Some addr => special addr | None => false end.

Definition host_fp (host : string) : string := take_str 12 (hexdigest (utf8 host)).

Definition install_warnings (o : OSLit) (host : string) : list string :=
  (match _ARTIFACT_SHA256_BY_OS o with
   | None => ["no pinned SHA-256 for os"]
   | Some _ => []
   end)
  ++ (if is_internal host then [] else ["host " +:+ host_fp host +:+ " is a public DNS name"]).

Definition post_provision_install_command (body : InstallCommandIn) (n : Z) : res val :=
  b ← install_in body;
  host ← _safe_host (ic_host b);
  agent_id ← clean_agent_id (ic_agent_id b);
  let sha := default zeros64 (_ARTIFACT_SHA256_BY_OS (ic_os b)) in
  let command := install_head (ic_os b) sha +:+ toml_inline agent_id (token_hex32 n) +:+ install_tail (ic_os b) in
  Ok (VDict [("command", VStr command); ("sha256", VStr sha);
             ("warnings", VList (map VStr (install_warnings (ic_os b) host)))]).

(** ** [POST /{agent_id}/rotate-secret] *)

Definition not_found {A} : res A := Raise (HTTPException 404 "unknown agent_id").

Definition with_secret (secret : string) (now : Z) (h : Host) : Host :=
  mkHost (h_id h) (h_first_seen_at h) now (h_last_version h) (h_hostname h) (Some secret)
    (h_auto_block h) (h_meta h).

Definition find_host (agent_id : string) : M db Host := fun d =>
  (d, match db_hosts d !! agent_id with Some h => Ok h | None => not_found end).

(** The flush of the two changed columns. *)
Definition save_secret (agent_id secret : string) (now : Z) : M db unit := fun d =>
  (set_hosts (alter (with_secret secret now) agent_id) d, Ok tt).

Definition rotate_statement (agent_id secret : string) (now : Z) : M db Host :=
  host ← find_host agent_id;
  _ ← save_secret agent_id secret now;
  mret (with_secret secret now host).

Definition text_or_null (o : option string) : val := match o with Some s => VStr s | None => VNone end.

Context {D : Type} `{Database D}.

Definition post_rotate_secret (agent_id : string) (n now : Z) : M D val :=
  let new_secret := token_hex32 n in
  host ← transaction (rotate_statement agent_id new_secret now);
  mret (VDict [("agent_id", VStr agent_id); ("rotated_at", VStr (isoformat (h_last_seen_at host)));
               ("secret_preview", VStr (take_str 8 new_secret))]).

(** ** [GET /{agent_id}/config] *)

(** The text shown in place of the secret; [dash] is its em dash. *)
Context (dash : string).
Definition hidden_token : string := "<hidden " +:+ dash +:+ " set out-of-band>".

Definition get_agent_config (agent_id : string) : M D val :=
  host ← transaction (find_host agent_id);
  toml_text ← lift_res (render_agent_toml Linux Amd64 _DEFAULT_SERVER_URL (h_id host) hidden_token
                          (Some (_LOG_SOURCE_PRESETS Linux)) false);
  _ ← lift_res (parse_agent_toml loads toml_text);
  mret (VDict [("agent_id", VStr (h_id host)); ("server_url", VStr _DEFAULT_SERVER_URL);
               ("agent_id_field", VStr (h_id host)); ("hostname", text_or_null (h_hostname host));
               ("last_seen_at", VStr (isoformat (h_last_seen_at host))); ("toml", VStr toml_text);
               ("warnings", VList [])]).

(** ** [agents.py] *)

Definition _STALE_AFTER_SECONDS : Z := 300.

Definition agent_entry (host_id : string) (host : option Host) : val :=
  match host with
  | None => VDict [("host_id", VStr host_id); ("connected", VBool true); ("last_seen_at", VNone);
                   ("last_version", VNone); ("hostname", VNone)]
  | Some h => VDict [("host_id", VStr (h_id h)); ("connected", VBool true);
                     ("last_seen_at", VStr (isoformat (h_last_seen_at h)));
                     ("last_version", text_or_null (h_last_version h)); ("hostname", text_or_null (h_hostname h))]
  end.

(** [host_ids] are the connected hosts; without any, the database is not read. *)
Definition list_agents (host_ids : list string) : M D val :=
  rows ← (match host_ids with
          | [] => mret []
          | _ => transaction (fun d => (d, Ok (map (fun id => (id, db_hosts d !! id)) host_ids)))
          end);
  mret (VDict [("agents", VList (map (fun r => agent_entry r.1 r.2) rows));
               ("count", VInt (Z.of_nat (length rows)))]).

(** Microseconds to whole seconds, never negative. *)
Definition age_of (now last_seen_at : Z) : Z := Z.max 0 (Z.quot (now - last_seen_at) 1000000).

Definition agent_status (connected : bool) (age : Z) : string :=
  if negb connected then "offline" else if _STALE_AFTER_SECONDS <? age then "stale" else "online".

Definition get_agent_health (agent_id : string) (connected : bool) (now : Z) : M D val :=
  host ← transaction (find_host agent_id);
  let age := age_of now (h_last_seen_at host) in
  mret (VDict [("host_id", VStr (h_id host)); ("connected", VBool connected);
               ("status", VStr (agent_status connected age));
               ("last_seen_at", VStr (isoformat (h_last_seen_at host)));
               ("last_version", text_or_null (h_last_version host)); ("hostname", text_or_null (h_hostname host));
               ("age_seconds", VInt age)]).

End Endpoints.

(** ** What the input checks accept *)

Fixpoint last_is (p : ascii -> bool) (s : string) : bool :=
  match s with
  | EmptyString => false
  | String c EmptyString => p c
  | String _ r => last_is p r
  end.

Definition first_is (p : ascii -> bool) (s : string) : bool :=
  match s with EmptyString => false | String c _ => p c end.

Definition host_shape (w : string) : bool :=
  len_in 2 255 w && first_is alnum_ascii w && last_is alnum_ascii w && sforall host_char w.

Definition user_shape (w : string) : bool := len_in 1 64 w && first_is user_first w && sforall ssh_user_char w.

Lemma last_is_snoc p (m : string) d : last_is p (m +:+ String d "") = p d.
Proof.
  induction m as [|c m IH]; [done|]. cbn [String.append last_is].
  destruct (m +:+ String d "") eqn:E; [by destruct m|]. done.
Qed.

Lemma snoc_inv (s : string) : s = "" \/ exists m d, s = m +:+ String d "".
Proof.
  induction s as [|c s [->|(m&d&->)]]; [by left| |]; right; [by exists "", c|by exists (String c m), d].
Qed.

Lemma alnum_host c : alnum_ascii c = true -> host_char c = true.
Proof. unfold host_char. by intros ->. Qed.

Lemma host_shape_spec w :
  host_shape w = true
  <-> exists c m d, w = String c (m +:+ String d "") /\ alnum_ascii c = true /\ alnum_ascii d = true
        /\ sforall host_char m = true /\ (String.length m <= 253)%nat.
Proof.
  unfold host_shape. rewrite !andb_true_iff, len_in_spec. split.
  - intros [[[Hl Hf] He] Ha]. destruct w as [|c w]; [done|]. cbn in Hl.
    destruct (snoc_inv w) as [->|(m&d&->)]; [cbn in Hl; lia|]. exists c, m, d.
    change (String c (m +:+ String d "")) with (String c m +:+ String d "") in He. rewrite last_is_snoc in He.
    cbn in Ha. rewrite sforall_app in Ha. rewrite sapp_length in Hl. cbn in Hl. bprop.
    repeat split; try done. lia.
  - intros (c&m&d&->&Hc&Hd&Hm&Hl).
    change (String c (m +:+ String d "")) with (String c m +:+ String d "").
    rewrite last_is_snoc, sforall_app, sapp_length. cbn [String.length sforall String.append first_is].
    rewrite Hc, Hd, Hm, !alnum_host by done. cbn. repeat split; lia.
Qed.

Lemma match_host s : re_match _HOST_RE s = host_shape (chomp s).
Proof.
  apply match_end_chomp.
  - intros w r. rewrite host_shape_spec, den_cat. split.
    + intros (w1&w2&->&(c&->&Hc)&H). apply den_cat in H as (m&w3&->&Hm&(d&->&Hd)).
      apply den_rep_class in Hm as [Hm Hl]. exists c, m, d. repeat split; try done. lia.
    + intros (c&m&d&->&Hc&Hd&Hm&Hl). exists (String c ""), (m +:+ String d "").
      split; [done|]. split; [by exists c|]. apply den_cat. exists m, (String d "").
      split; [done|]. split; [apply den_rep_class; split; [done|lia]|by exists d].
  - intros w Hw. unfold host_shape in Hw. bprop. by apply (class_no_char host_char).
Qed.

Lemma match_user s : re_match _USER_RE s = user_shape (chomp s).
Proof.
  apply match_end_chomp.
  - intros w r. rewrite den_cat. unfold user_shape. rewrite !andb_true_iff, len_in_spec. split.
    + intros (w1&m&->&(c&->&Hc)&Hm). apply den_rep_class in Hm as [Hm Hl]. cbn [String.append first_is sforall String.length].
      rewrite Hc, Hm. assert (ssh_user_char c = true) as ->; [|repeat split; lia].
      clear -Hc. revert Hc. ascii_cases c; (discriminate || reflexivity).
    + intros [[Hl Hf] Ha]. destruct w as [|c m]; [done|]. cbn in Hl, Hf, Ha. bprop.
      exists (String c ""), m. split; [done|]. split; [by exists c|]. apply den_rep_class. split; [done|lia].
  - intros w Hw. unfold user_shape in Hw. bprop. by apply (class_no_char ssh_user_char).
Qed.

Lemma match_key_id s : re_match _KEY_ID_RE s = sforall key_id_char (chomp s) && len_in 1 128 (chomp s).
Proof. by apply match_class_end. Qed.

(** The bodies a dry run accepts, spelled out. *)
Definition host_ok (raw : string) : bool := (slen raw <=? 255) && host_shape (chomp (unbracket raw)).

Definition key_ok (k : string) : bool := sforall key_id_char (chomp k) && len_in 1 128 (chomp k).

Definition dry_run_ok (b : DryRunIn) : bool :=
  dry_run_fields b && host_ok (dr_host b) && user_shape (chomp (dr_user b)) && opt_all key_ok (dr_ssh_key_id b).

Lemma chomp_nonempty s : nonempty (chomp s) = true -> nonempty s = true.
Proof. by destruct s. Qed.

Lemma unbracket_nonempty raw : nonempty (unbracket raw) = true -> nonempty raw = true.
Proof. by destruct raw. Qed.

Lemma host_shape_nonempty w : host_shape w = true -> nonempty w = true.
Proof. by destruct w. Qed.

Lemma safe_host_spec raw :
  match _safe_host raw with
  | Ok h => h = raw /\ host_ok raw = true
  | Raise e => host_ok raw = false /\ exists why, e = HTTPException 422 why
  end.
Proof.
  unfold _safe_host, host_ok. rewrite match_host. destruct (nonempty raw) eqn:En; cbn [negb orb].
  - rewrite Z.ltb_antisym. destruct (slen raw <=? 255); cbn [negb andb]; [|by split; [|eexists]].
    destruct (host_shape _); [done|by split; [|eexists]].
  - split; [|by eexists]. apply not_true_iff_false. intros H. bprop.
    apply host_shape_nonempty, chomp_nonempty, unbracket_nonempty in H0. congruence.
Qed.

Lemma safe_user_spec raw :
  match _safe_user raw with
  | Ok u => u = raw /\ user_shape (chomp raw) = true
  | Raise e => user_shape (chomp raw) = false /\ exists why, e = HTTPException 422 why
  end.
Proof. unfold _safe_user. rewrite match_user. destruct (user_shape _); [done|by split; [|eexists]]. Qed.

Lemma safe_key_spec raw :
  match _safe_key_id raw with
  | Ok k => k = raw /\ opt_all key_ok raw = true
  | Raise e => opt_all key_ok raw = false /\ exists why, e = HTTPException 422 why
  end.
Proof.
  unfold _safe_key_id. destruct raw as [k|]; [|done]. rewrite match_key_id. cbn [opt_all]. unfold key_ok.
  destruct (sforall _ _ && _); [done|by split; [|eexists]].
Qed.

Lemma user_shape_first raw : user_shape (chomp raw) = true -> first_is user_first raw = true.
Proof.
  unfold user_shape. intros H. bprop. destruct raw as [|c r]; [done|]. cbn [chomp] in H1.
  by destruct (String.eqb r "" && is_char "010" c).
Qed.

(** A text field of an answer. *)
Definition answer_field (k : string) (answer : val) : val := match answer with VDict d => get k d | _ => VNone end.

Lemma quote_words_last (ws : list string) w :
  ws <> [] -> sh_words (join " " (map quote ws) +:+ " " +:+ quote w) = Some (ws ++ [w]).
Proof.
  intros Hn. rewrite <- quote_words, map_app. f_equal. symmetry. apply (join_app " "); [|done].
  by destruct ws.
Qed.

(** *** The agent id of an installer *)

Lemma clean_agent_id_spec raw :
  match clean_agent_id raw with
  | Ok a => a = strip raw /\ sexists agent_id_bad a = false
  | Raise e => exists why, e = HTTPException 422 why
  end.
Proof.
  unfold clean_agent_id. destruct (nonempty (strip raw)); cbn [negb]; [|by eexists].
  destruct (sexists agent_id_bad (strip raw)) eqn:E; [by eexists|done].
Qed.

Definition inline_lines (agent_id auth_token : string) : list string :=
  ["server_url = " +:+ dq _DEFAULT_SERVER_URL; "agent_id    = " +:+ dq agent_id;
   "auth_token  = " +:+ dq auth_token].

Definition here_stop (o : OSLit) (l : string) : bool :=
  match o with Windows => startswith "'@" l | _ => String.eqb "ZAQORIN_EOF" l end.

Lemma dq_line s : one_line s = true -> one_line (dq s) = true.
Proof.
  intros H. unfold dq. change (String dquote ?x) with (String dquote "" +:+ x). by rewrite !one_line_app, H.
Qed.

Lemma inline_one_line a t :
  one_line a = true -> one_line t = true -> forallb one_line (inline_lines a t) = true.
Proof.
  intros Ha Ht. unfold inline_lines. cbn [forallb]. rewrite !one_line_app, !dq_line by done. done.
Qed.

Lemma tail_lines_read o : split_char "010" (install_tail o) <> []
  /\ exists l r, split_char "010" (install_tail o) = l :: r /\ here_stop o l = true.
Proof. split; [apply split_char_nonnil|]. destruct o; by eexists _, _. Qed.

(** Whatever the agent id, the here-document of the installer holds the three
    lines of the configuration and nothing else. *)
Lemma inline_here o a t :
  one_line a = true -> one_line t = true ->
  here_document (here_stop o) (toml_inline a t +:+ install_tail o)
  = Some (join nl (inline_lines a t), install_tail o).
Proof.
  intros Ha Ht. destruct (tail_lines_read o) as [_ (l&r&E&Hl)].
  assert (Hj : toml_inline a t +:+ install_tail o
    = join nl (inline_lines a t ++ split_char "010" (install_tail o))).
  { rewrite join_app; [|done|by rewrite E]. rewrite join_lines.
    unfold toml_inline, inline_lines. cbn [join]. by rewrite !sapp_assoc. }
  assert (Hs : split_char "010" (toml_inline a t +:+ install_tail o)
    = inline_lines a t ++ split_char "010" (install_tail o)).
  { rewrite Hj. apply split_join_lines; [done|]. rewrite forallb_app, inline_one_line by done.
    apply forallb_forall. intros x Hx. unfold one_line. apply negb_true_iff.
    pose proof (split_char_no_sep "010" (install_tail o)) as Hn. rewrite Forall_forall in Hn.
    by apply Hn, list_elem_of_In. }
  unfold here_document. rewrite Hs, E. rewrite here_lines_app; [|by destruct o; repeat constructor|done].
  cbn [mbind option_bind]. rewrite <- E. by rewrite join_lines.
Qed.

Lemma hexw_no_control k n : no_control (hexw k n) = true.
Proof.
  unfold no_control. eapply sforall_impl; [|apply hexw_hexc]. intros c.
  ascii_cases c; (discriminate || reflexivity).
Qed.

Lemma hexw_plain k n p :
  (forall c, is_hexc c = true -> p c = false) -> sexists p (hexw k n) = false.
Proof.
  intros Hp. pose proof (hexw_hexc k n) as H. induction (hexw k n) as [|c s IH]; [done|].
  cbn in *. bprop. by rewrite Hp, IH.
Qed.

Lemma token_raw n :
  sexists (fun c => is_char dquote c || is_char bslash c || is_char "009" c) (token_hex32 n) = false.
Proof. apply hexw_plain. intros c. ascii_cases c; (discriminate || reflexivity). Qed.

Lemma agent_id_raw a :
  sexists agent_id_bad a = false ->
  sexists (fun c => is_char dquote c || is_char bslash c || is_char "009" c) a = false /\ one_line a = true.
Proof.
  unfold one_line. induction a as [|c a IH]; [done|]. cbn [sexists]. intros H. bprop.
  destruct (IH H0) as [H1 H2%negb_true_iff]. rewrite H1, H2. unfold agent_id_bad in H. bprop.
  repeat match goal with Hx : is_char _ c = false |- _ => rewrite Hx; clear Hx end. done.
Qed.

Lemma token_line n : one_line (token_hex32 n) = true.
Proof.
  unfold one_line. apply negb_true_iff. apply hexw_plain. intros c. ascii_cases c; (discriminate || reflexivity).
Qed.

(** The configuration of an installer, read as TOML. *)
Lemma inline_read a n :
  sexists agent_id_bad a = false ->
  toml_read (join nl (inline_lines a (token_hex32 n)))
  = if no_control a
    then Some [("server_url", VStr _DEFAULT_SERVER_URL); ("agent_id", VStr a);
               ("auth_token", VStr (token_hex32 n))]
    else None.
Proof.
  intros Ha. destruct (agent_id_raw a Ha) as [Hr Hl]. pose proof (token_raw n) as Ht.
  pose proof (token_line n) as Htl.
  unfold toml_read. rewrite split_join_lines; [|done|by apply inline_one_line].
  unfold inline_lines. cbn [toml_lines].
  change ("server_url = " +:+ dq _DEFAULT_SERVER_URL)
    with ("server_url" +:+ " " +:+ "= " +:+ dq _DEFAULT_SERVER_URL).
  change ("agent_id    = " +:+ dq a) with ("agent_id" +:+ "    " +:+ "= " +:+ dq a).
  change ("auth_token  = " +:+ dq (token_hex32 n)) with ("auth_token" +:+ "  " +:+ "= " +:+ dq (token_hex32 n)).
  rewrite !toml_line_raw by done. change (no_control _DEFAULT_SERVER_URL) with true. cbv iota.
  unfold token_hex32. rewrite hexw_no_control. by destruct (no_control a).
Qed.

(** The commands of a dry run mean what they should to the operator's
    shell, and the verification cannot succeed on the remote one.  For every
    body: it is refused with 422 exactly when a field is out of its language
    (spelled out in [dry_run_ok]); otherwise a shell reads the install command
    as one call of ssh whose last words are the destination and the whole
    script, whatever the host, user and key are, and the destination is not an
    option.  The verify command reaches the remote shell as one quoted word, so
    that it runs a program of that name instead of the probe. *)
Theorem dry_run_words (body : DryRunIn) :
  match post_provision_dry_run body with
  | Ok answer =>
      dry_run_ok body = true
      /\ exists install verify, answer_field "install_command" answer = VStr install
           /\ answer_field "verify_command" answer = VStr verify
           /\ let args := ssh_args (dr_host body) (dr_port body) (dr_user body) (dr_ssh_key_id body) in
              let dest := dr_user body +:+ "@" +:+ dr_host body in
              last args = Some dest /\ first_is user_first dest = true
              /\ sh_words install = Some (args ++ [dry_run_heredoc])
              /\ sh_words verify = Some (args ++ [quote verify_probe])
              /\ sh_words (quote verify_probe) = Some [verify_probe]
  | Raise e => dry_run_ok body = false /\ exists why, e = HTTPException 422 why
  end.
Proof.
  unfold post_provision_dry_run, dry_run_in, dry_run_ok.
  pose proof (safe_host_spec (dr_host body)) as Hh. pose proof (safe_user_spec (dr_user body)) as Hu.
  pose proof (safe_key_spec (dr_ssh_key_id body)) as Hk.
  destruct (dry_run_fields body); cbn [mbind res_bind refuse_422 andb]; [|by split; [|eexists]].
  destruct (_safe_host (dr_host body)) as [h|e]; cbn [mbind res_bind];
    [destruct Hh as [-> Hh]; rewrite Hh|destruct Hh as [Hh Hw]; by rewrite Hh].
  destruct (_safe_user (dr_user body)) as [u|e]; cbn [mbind res_bind];
    [destruct Hu as [-> Hu]; rewrite Hu|destruct Hu as [Hu Hw]; by rewrite Hu].
  destruct (_safe_key_id (dr_ssh_key_id body)) as [k|e]; cbn [mbind res_bind];
    [destruct Hk as [-> Hk]; rewrite Hk|destruct Hk as [Hk Hw]; by rewrite Hk].
  split; [done|]. eexists _, _. split; [reflexivity|]. split; [reflexivity|]. cbv zeta.
  set (args := ssh_args _ _ _ _). assert (Hn : args <> []) by done.
  split; [unfold args, ssh_args; rewrite !last_app; done|].
  split; [apply user_shape_first in Hu; by destruct (dr_user body)|].
  split; [by apply quote_words_last|]. split; [apply quote_words|]. reflexivity.
Qed.

(** The bodies for which an installer is written. *)
Definition install_ok (b : InstallCommandIn) : bool :=
  field_len 1 64 (ic_agent_id b) && field_len 1 255 (ic_host b) && host_ok (ic_host b)
  && nonempty (strip (ic_agent_id b)) && negb (sexists agent_id_bad (strip (ic_agent_id b))).

Lemma VStr_inj (a b : string) : VStr a = VStr b -> a = b.
Proof. by intros [=]. Qed.

Lemma install_answer (special : ipaddr -> bool) (b : InstallCommandIn) (n : Z) :
  match post_provision_install_command special b n with
  | Ok answer => install_ok b = true /\ answer
      = VDict [("command", VStr (install_head (ic_os b) zeros64
                  +:+ (toml_inline (strip (ic_agent_id b)) (token_hex32 n) +:+ install_tail (ic_os b))));
               ("sha256", VStr zeros64);
               ("warnings", VList (map VStr (install_warnings special (ic_os b) (ic_host b))))]
  | Raise e => install_ok b = false /\ exists why, e = HTTPException 422 why
  end.
Proof.
  unfold post_provision_install_command, install_in, install_ok.
  destruct (field_len 1 64 (ic_agent_id b) && field_len 1 255 (ic_host b));
    cbn [mbind res_bind refuse_422 andb]; [|by split; [|eexists]].
  pose proof (safe_host_spec (ic_host b)) as Hh.
  destruct (_safe_host (ic_host b)) as [h|e]; cbn [mbind res_bind];
    [destruct Hh as [-> Hh]; rewrite Hh|destruct Hh as [Hh Hw]; by rewrite Hh].
  unfold clean_agent_id. destruct (nonempty (strip (ic_agent_id b))); cbn [negb andb mbind res_bind refuse_422];
    [|by split; [|eexists]].
  destruct (sexists agent_id_bad (strip (ic_agent_id b))); cbn [negb mbind res_bind];
    [by split; [|eexists]|].
  split; [done|]. by destruct (ic_os b).
Qed.

Lemma install_ok_agent b : install_ok b = true -> sexists agent_id_bad (strip (ic_agent_id b)) = false.
Proof. unfold install_ok. intros H. by bprop. Qed.

(** C29. Nothing a request says can leave the configuration it is written into:
    for every body, an installer is written exactly when the fields are in
    their languages (422 otherwise); it is the fixed script of the platform
    around one here-document that the shell (or PowerShell) reads as three
    lines of configuration, which TOML reads as the server URL, the agent id
    and the token of the request, and as nothing valid when the agent id holds
    a control character, which is accepted.  The host only appears as its
    fingerprint. *)
Theorem install_confined (special : ipaddr -> bool) (body : InstallCommandIn) (n : Z) :
  match post_provision_install_command special body n with
  | Ok answer =>
      install_ok body = true
      /\ let agent_id := strip (ic_agent_id body) in
         exists rest config,
           answer_field "command" answer = VStr (install_head (ic_os body) zeros64 +:+ rest)
           /\ here_document (here_stop (ic_os body)) rest = Some (config, install_tail (ic_os body))
           /\ toml_read config
              = (if no_control agent_id
                 then Some [("server_url", VStr _DEFAULT_SERVER_URL); ("agent_id", VStr agent_id);
                            ("auth_token", VStr (token_hex32 n))]
                 else None)
           /\ (forall host', host_fp host' = host_fp (ic_host body) ->
               is_internal special host' = is_internal special (ic_host body) ->
               install_ok (mkInstallIn (ic_agent_id body) host' (ic_os body)) = true ->
               post_provision_install_command special
                 (mkInstallIn (ic_agent_id body) host' (ic_os body)) n = Ok answer)
  | Raise e => install_ok body = false /\ exists why, e = HTTPException 422 why
  end.
Proof.
  pose proof (install_answer special body n) as Hb.
  destruct (post_provision_install_command special body n) as [answer|e]; [|exact Hb].
  destruct Hb as [Hok ->]. split; [done|]. cbv zeta.
  pose proof (install_ok_agent body Hok) as Ha.
  eexists _, _. split; [reflexivity|]. split.
  { apply inline_here; [apply (agent_id_raw _ Ha)|apply token_line]. }
  split; [by apply inline_read|].
  intros host' Hfp Hi Hok'. pose proof (install_answer special (mkInstallIn (ic_agent_id body) host' (ic_os body)) n) as Hrun.
  destruct (post_provision_install_command _ _ n) as [answer'|e]; [|destruct Hrun; congruence].
  destruct Hrun as [_ ->]. cbn [ic_os ic_agent_id ic_host]. unfold install_warnings. by rewrite Hfp, Hi.
Qed.

(** ** The agent that reads the configuration

    [Load] and [ResolveAgentID] of agent/internal/config/config.go, on the
    document the TOML decoder gives them (settings these checks do not look at
    are left out).  [url.Parse], [filepath.IsAbs] and [uuid.Parse] are
    arguments. *)

Module Agent.

Record Config : Type := mkConfig {
  ServerURL : string;
  AgentID : string;
  LogLevel : string;
  StateDir : string;
  LogSources : list (string * string);
  BlockDefaultTTLSec : Z;
  EventlogMode : string
}.

Definition text_field (k dflt : string) (d : doc) : res string :=
  match assoc k d with None => Ok dflt | Some (VStr s) => Ok s | Some _ => Raise TypeError end.

Definition int_field (k : string) (dflt : Z) (d : doc) : res Z :=
  match assoc k d with None => Ok dflt | Some (VInt z) => Ok z | Some _ => Raise TypeError end.

Definition table_field (k : string) (d : doc) : res doc :=
  match assoc k d with None => Ok [] | Some (VDict r) => Ok r | Some _ => Raise TypeError end.

Fixpoint source_rows (rows : list val) : res (list (string * string)) :=
  match rows with
  | [] => Ok []
  | VDict r :: rest =>
      name ← text_field "name" "" r; path ← text_field "path" "" r;
      l ← source_rows rest; Ok ((name, path) :: l)
  | _ => Raise TypeError
  end.

(** [toml.Decode] into [Defaults()]. *)
Definition decode (d : doc) : res Config :=
  url ← text_field "server_url" "" d;
  id ← text_field "agent_id" "auto" d;
  level ← text_field "log_level" "info" d;
  dir ← text_field "state_dir" "/var/lib/zaqorin-agent" d;
  sources ← match assoc "log_source" d with
            | None => Ok []
            | Some (VList rows) => source_rows rows
            | Some _ => Raise TypeError
            end;
  response ← table_field "response" d;
  ttl ← int_field "block_default_ttl_sec" 3600 response;
  eventlog ← table_field "windows_eventlog" d;
  mode ← text_field "mode" "pull" eventlog;
  Ok (mkConfig url id level dir sources ttl mode).

(** [strings.TrimSpace(s) == ""]. *)
Definition blank (s : string) : bool :=
  sforall (fun c => in_range 9 13 c || is_char " " c || (code c =? 133)%N || (code c =? 160)%N) s.

Section Loader.
Context (url_parse : string -> option (string * string)) (is_abs uuid_parse : string -> bool).

Definition fail {A} (why : string) : res A := Raise (ValueError why).

Fixpoint check_sources (seen : list string) (l : list (string * string)) : res unit :=
  match l with
  | [] => Ok tt
  | (name, path) :: r =>
      if blank name then fail "name is required"
      else if blank path then fail "path is required"
      else if negb (is_abs path) then fail "path must be absolute"
      else if str_in name seen then fail "duplicate name"
      else check_sources (name :: seen) r
  end.

Definition validate (c : Config) : res Config :=
  if blank (ServerURL c) then fail "server_url is required"
  else match url_parse (ServerURL c) with
  | None => fail "server_url is not a valid URL"
  | Some (scheme, host) =>
      if negb (str_in scheme ["ws"; "wss"]) then fail "server_url scheme"
      else if negb (nonempty host) then fail "server_url is missing a host"
      else
        let id := if nonempty (AgentID c) then AgentID c else "auto" in
        if negb (str_in (LogLevel c) ["debug"; "info"; "warn"; "error"]) then fail "log_level"
        else if negb (nonempty (StateDir c)) then fail "state_dir must not be empty"
        else match LogSources c with
        | [] => fail "at least one [[log_source]] entry is required"
        | sources =>
            _ ← check_sources [] sources;
            if BlockDefaultTTLSec c <? 0 then fail "block_default_ttl_sec must be >= 0"
            else if nonempty (EventlogMode c) && negb (str_in (EventlogMode c) ["pull"; "push"])
            then fail "windows_eventlog.mode"
            else Ok (mkConfig (ServerURL c) id (LogLevel c) (StateDir c) sources (BlockDefaultTTLSec c)
                       (EventlogMode c))
        end
  end.

(** [ResolveAgentID]: [generated] is the id kept in the state directory. *)
Definition resolve_agent_id (generated : string) (c : Config) : res string :=
  if negb (String.eqb (AgentID c) "auto")
  then if uuid_parse (AgentID c) then Ok (AgentID c) else fail "agent_id is not a valid UUID"
  else Ok generated.

(** What [main] does before it connects. *)
Definition start (generated : string) (d : doc) : res (Config * string) :=
  c ← decode d; c ← validate c; id ← resolve_agent_id generated c; Ok (c, id).

End Loader.
End Agent.

(** ** What the agent makes of the configurations it is given *)

Lemma validate_agent_id url_parse is_abs c c' :
  Agent.validate url_parse is_abs c = Ok c' ->
  Agent.AgentID c' = (if nonempty (Agent.AgentID c) then Agent.AgentID c else "auto")
  /\ Agent.LogSources c <> [].
Proof.
  unfold Agent.validate, Agent.fail. repeat (split_match; try done).
  all: destruct (Agent.check_sources _ _ _); cbn [mbind res_bind]; try done.
  all: repeat (split_match; try done); intros [= <-]; done.
Qed.

Lemma start_no_sources url_parse is_abs uuid_parse generated d c :
  Agent.decode d = Ok c -> Agent.LogSources c = [] ->
  is_ok (Agent.start url_parse is_abs uuid_parse generated d) = false.
Proof.
  intros Hd Hs. unfold Agent.start. rewrite Hd. cbn [mbind res_bind].
  destruct (Agent.validate url_parse is_abs c) as [c'|e] eqn:E; [|done].
  apply validate_agent_id in E as [_ E]. congruence.
Qed.

Lemma start_bad_id url_parse is_abs uuid_parse generated d c :
  Agent.decode d = Ok c -> nonempty (Agent.AgentID c) = true -> Agent.AgentID c <> "auto" ->
  uuid_parse (Agent.AgentID c) = false ->
  is_ok (Agent.start url_parse is_abs uuid_parse generated d) = false.
Proof.
  intros Hd Hn Ha Hu. unfold Agent.start. rewrite Hd. cbn [mbind res_bind].
  destruct (Agent.validate url_parse is_abs c) as [c'|e] eqn:E; [|done].
  apply validate_agent_id in E as [E _]. rewrite Hn in E. cbn [mbind res_bind].
  unfold Agent.resolve_agent_id. rewrite E, Hu. destruct (String.eqb_spec (Agent.AgentID c) "auto"); done.
Qed.

Lemma agent_doc_decode o u a t :
  Agent.decode (agent_doc o u a t (_LOG_SOURCE_PRESETS o) (windows_block o false))
  = Ok (Agent.mkConfig u a "info"
          (match o with Windows => "C:\ProgramData\zaqorin-agent" | _ => "/var/lib/zaqorin-agent" end)
          (map (fun row => (default "" (assoc "name" row), default "" (assoc "path" row))) (_LOG_SOURCE_PRESETS o))
          3600 "pull").
Proof. by destruct o. Qed.

Lemma slen_hexw k n : slen (hexw k n) = Z.of_nat k.
Proof. unfold slen. by rewrite hexw_length. Qed.

Lemma slen_uuid s : is_uuid s -> slen s = 36.
Proof.
  intros (n&_&->). unfold uuid_text. rewrite !slen_app, !slen_hexw. reflexivity.
Qed.

Lemma template_answer (loads : string -> res (list (string * val)))
    (Hloads : forall t d, toml_read t = Some d -> loads t = Ok d) o arch u n :
  exists answer text, get_provision_template loads o arch u n = Ok answer
    /\ answer_field "toml" answer = VStr text
    /\ toml_read text = Some (agent_doc o _DEFAULT_SERVER_URL (template_agent_id u) (token_hex32 n)
                                (_LOG_SOURCE_PRESETS o) (windows_block o false)).
Proof.
  unfold get_provision_template.
  assert (Hs : slen _DEFAULT_SERVER_URL + slen (template_agent_id u) + slen (token_hex32 n) <= 1000).
  { unfold template_agent_id, token_hex32. rewrite slen_app, !slen_hexw. vm_compute. discriminate. }
  change (render_agent_toml o arch _DEFAULT_SERVER_URL (template_agent_id u) (token_hex32 n) None false)
    with (render_agent_toml o arch _DEFAULT_SERVER_URL (template_agent_id u) (token_hex32 n)
            (Some (_LOG_SOURCE_PRESETS o)) false).
  rewrite render_small by done. cbn [mbind res_bind]. unfold parse_agent_toml.
  pose proof (rendered_read o arch _DEFAULT_SERVER_URL (template_agent_id u) (token_hex32 n) _ false (presets_ok o)) as Hr.
  rewrite (Hloads _ _ Hr). cbn [mbind res_bind]. eexists _, _. split; [reflexivity|]. by split.
Qed.

Lemma config_answer (loads : string -> res (list (string * val)))
    (Hloads : forall t d, toml_read t = Some d -> loads t = Ok d) (dash : string) id (d : db) h :
  db_hosts d !! id = Some h -> slen (h_id h) + slen dash <= 900 ->
  exists answer text, get_agent_config loads dash id d = (d, Ok answer)
    /\ answer_field "toml" answer = VStr text
    /\ toml_read text = Some (agent_doc Linux _DEFAULT_SERVER_URL (h_id h) (hidden_token dash)
                                (_LOG_SOURCE_PRESETS Linux) false).
Proof.
  intros Hh Hs. unfold get_agent_config, mbind, M_bind. cbn [transaction mem_database].
  unfold run_transaction, find_host, lift_res. rewrite Hh. cbn [fst snd].
  rewrite render_small.
  2:{ unfold hidden_token. rewrite !slen_app. change (slen _DEFAULT_SERVER_URL) with 44.
      change (slen "<hidden ") with 8. change (slen " set out-of-band>") with 17. lia. }
  unfold parse_agent_toml.
  pose proof (rendered_read Linux Amd64 _DEFAULT_SERVER_URL (h_id h) (hidden_token dash) _ false (presets_ok Linux)) as Hr.
  rewrite (Hloads _ _ Hr). eexists _, _. split; [reflexivity|]. by split.
Qed.

Lemma validate_linux url_parse (is_abs : string -> bool) host id :
  url_parse _DEFAULT_SERVER_URL = Some ("wss", host) -> nonempty host = true -> nonempty id = true ->
  (forall p, startswith "/" p = true -> is_abs p = true) ->
  let c := Agent.mkConfig _DEFAULT_SERVER_URL id "info" "/var/lib/zaqorin-agent"
             [("auth", "/var/log/auth.log"); ("syslog", "/var/log/syslog")] 3600 "pull" in
  Agent.validate url_parse is_abs c = Ok c.
Proof.
  intros Hurl Hn Hid Habs. cbv zeta. unfold Agent.validate.
  cbn [Agent.ServerURL Agent.AgentID Agent.LogLevel Agent.StateDir Agent.LogSources Agent.BlockDefaultTTLSec
       Agent.EventlogMode].
  change (Agent.blank _DEFAULT_SERVER_URL) with false. cbv iota. rewrite Hurl, Hn, Hid.
  assert (Hs : Agent.check_sources is_abs [] [("auth", "/var/log/auth.log"); ("syslog", "/var/log/syslog")] = Ok tt).
  { cbn [Agent.check_sources]. rewrite !Habs by done. vm_compute. reflexivity. }
  rewrite Hs. reflexivity.
Qed.

(** C30. The configurations handed to operators do not start an agent, except the
    one nobody is asked to install.  Every template is valid TOML that the
    agent's loader refuses (its agent id is no UUID); so is every configuration
    an install command writes (it has no log source); the configuration shown
    for a registered host starts an agent with that host's id. *)
Theorem provisioned_configs (loads : string -> res (list (string * val)))
    (special : ipaddr -> bool) (dash generated : string)
    (url_parse : string -> option (string * string)) (is_abs uuid_parse : string -> bool)
    (Hloads : forall t d, toml_read t = Some d -> loads t = Ok d)
    (Huuid : forall s, uuid_parse s = true -> In (slen s) [32; 36; 38; 45])
    (Hcanonical : forall s, is_uuid s -> uuid_parse s = true)
    (Hurl : url_parse _DEFAULT_SERVER_URL = Some ("wss", "zaqorin.example.com:8443"))
    (Habs : forall p, startswith "/" p = true -> is_abs p = true)
    (Hdash : slen dash <= 4) :
  let start := Agent.start url_parse is_abs uuid_parse generated in
  (forall o arch u n, exists answer text d,
     get_provision_template loads o arch u n = Ok answer /\ answer_field "toml" answer = VStr text
     /\ toml_read text = Some d /\ is_ok (start d) = false)
  /\ (forall body n answer rest config tail d,
        post_provision_install_command special body n = Ok answer ->
        answer_field "command" answer = VStr (install_head (ic_os body) zeros64 +:+ rest) ->
        here_document (here_stop (ic_os body)) rest = Some (config, tail) ->
        toml_read config = Some d -> is_ok (start d) = false)
  /\ (forall (base : db) id h,
        db_hosts base !! id = Some h -> is_uuid (h_id h) ->
        exists answer text d c, get_agent_config loads dash id base = (base, Ok answer)
          /\ answer_field "toml" answer = VStr text /\ toml_read text = Some d /\ start d = Ok (c, h_id h)).
Proof.
  cbv zeta. split; [|split].
  - intros o arch u n. destruct (template_answer loads Hloads o arch u n) as (answer&text&E&Ht&Hr).
    exists answer, text. eexists. split; [done|]. split; [done|]. split; [exact Hr|].
    eapply start_bad_id; [apply agent_doc_decode|done|done|]. cbn [Agent.AgentID].
    apply not_true_iff_false. intros H%Huuid. unfold template_agent_id in H.
    rewrite slen_app, slen_hexw in H. vm_compute in H. intuition discriminate.
  - intros body n answer rest config tail d E Hc Hh Hr. pose proof (install_answer special body n) as Ha.
    rewrite E in Ha. destruct Ha as [Hok ->]. apply VStr_inj, sapp_inj_l in Hc as <-.
    pose proof (install_ok_agent body Hok) as Hag.
    rewrite inline_here in Hh; [|apply (agent_id_raw _ Hag)|apply token_line].
    assert (Hcfg : config = join nl (inline_lines (strip (ic_agent_id body)) (token_hex32 n))) by congruence.
    subst config. rewrite inline_read in Hr by done. destruct (no_control _); [|done].
    injection Hr as <-. by eapply start_no_sources.
  - intros base id h Hh Hu. pose proof (slen_uuid _ Hu) as Hl.
    destruct (config_answer loads Hloads dash id base h Hh ltac:(lia)) as (answer&text&E&Ht&Hr).
    exists answer, text. eexists _, _. split; [done|]. split; [done|]. split; [exact Hr|].
    assert (Hne : nonempty (h_id h) = true) by (destruct (h_id h); [discriminate Hl|done]).
    unfold Agent.start.
    assert (Hdec : Agent.decode (agent_doc Linux _DEFAULT_SERVER_URL (h_id h) (hidden_token dash)
        (_LOG_SOURCE_PRESETS Linux) false)
      = Ok (Agent.mkConfig _DEFAULT_SERVER_URL (h_id h) "info" "/var/lib/zaqorin-agent"
          [("auth", "/var/log/auth.log"); ("syslog", "/var/log/syslog")] 3600 "pull"))
      by (apply (agent_doc_decode Linux)).
    rewrite Hdec. cbn [mbind res_bind].
    rewrite (validate_linux _ _ _ _ Hurl eq_refl Hne Habs). cbn [mbind res_bind].
    unfold Agent.resolve_agent_id. cbn [Agent.AgentID].
    destruct (String.eqb_spec (h_id h) "auto") as [Ea|_]; [rewrite Ea in Hl; discriminate Hl|].
    cbn [negb]. by rewrite Hcanonical.
Qed.

(** ** Secrets *)

(** The requests of both routers; the connected hosts and the clock are those of
    the moment. *)
Inductive preq : Type :=
| RqTemplate (o : OSLit) (arch : ArchLit) (u n : Z)
| RqDryRun (body : DryRunIn)
| RqInstall (body : InstallCommandIn) (n : Z)
| RqRotate (agent_id : string) (n now : Z)
| RqConfig (agent_id : string)
| RqList (host_ids : list string)
| RqHealth (agent_id : string) (connected : bool) (now : Z).

Definition without_secret (h : Host) : Host :=
  mkHost (h_id h) (h_first_seen_at h) (h_last_seen_at h) (h_last_version h) (h_hostname h) None
    (h_auto_block h) (h_meta h).

(** The hosts as they are when nobody knows a secret. *)
Definition public_hosts (d : db) : gmap string Host := without_secret <$> db_hosts d.

Section Requests.
Context (loads : string -> res (list (string * val))) (special : ipaddr -> bool) (dash : string).

Definition run_preq {D} `{Database D} (r : preq) : M D val :=
  match r with
  | RqTemplate o arch u n => lift_res (get_provision_template loads o arch u n)
  | RqDryRun body => lift_res (post_provision_dry_run body)
  | RqInstall body n => lift_res (post_provision_install_command special body n)
  | RqRotate id n now => post_rotate_secret id n now
  | RqConfig id => get_agent_config loads dash id
  | RqList ids => list_agents ids
  | RqHealth id connected now => get_agent_health id connected now
  end.

Fixpoint run_preqs (reqs : list preq) (d : db) : db * list (res val) :=
  match reqs with
  | [] => (d, [])
  | r :: reqs' =>
      let '(d1, out) := run_preq r d in
      let '(d2, outs) := run_preqs reqs' d1 in (d2, out :: outs)
  end.

(** The same request, up to the part of a new secret that is not shown. *)
Definition alike (r r' : preq) : Prop :=
  match r, r' with
  | RqRotate id n now, RqRotate id' n' now' =>
      id = id' /\ now = now' /\ take_str 8 (token_hex32 n) = take_str 8 (token_hex32 n')
  | _, _ => r = r'
  end.

Lemma public_lookup d id : public_hosts d !! id = without_secret <$> (db_hosts d !! id).
Proof. apply lookup_fmap. Qed.

Lemma public_rotate d id secret now :
  public_hosts (set_hosts (alter (with_secret secret now) id) d)
  = alter (fun h => mkHost (h_id h) (h_first_seen_at h) now (h_last_version h) (h_hostname h) None
                      (h_auto_block h) (h_meta h)) id (public_hosts d).
Proof.
  apply map_eq. intros i. rewrite public_lookup. cbn [db_hosts set_hosts].
  destruct (decide (i = id)) as [->|Hi].
  - rewrite !lookup_alter_eq, public_lookup. by destruct (db_hosts d !! id).
  - rewrite !lookup_alter_ne, public_lookup by done. done.
Qed.

(** Equal public rows come from rows that only differ in the secret. *)
Lemma public_cases d d' id :
  public_hosts d = public_hosts d' ->
  (db_hosts d !! id = None /\ db_hosts d' !! id = None)
  \/ exists h h', db_hosts d !! id = Some h /\ db_hosts d' !! id = Some h' /\ without_secret h = without_secret h'.
Proof.
  intros E. apply (f_equal (fun m => m !! id)) in E. rewrite !public_lookup in E.
  destruct (db_hosts d !! id) as [h|], (db_hosts d' !! id) as [h'|]; try discriminate E; [right|by left].
  apply (inj Some) in E. by exists h, h'.
Qed.

Lemma entries_alike d d' ids :
  public_hosts d = public_hosts d' ->
  map (fun id => agent_entry id (db_hosts d !! id)) ids = map (fun id => agent_entry id (db_hosts d' !! id)) ids.
Proof.
  intros E. apply map_ext. intros id. destruct (public_cases d d' id E) as [[-> ->]|(h&h'&->&->&Eh)]; [done|].
  injection Eh as E1 E2 E3 E4 E5 E6 E7. cbn [agent_entry]. by rewrite E1, E3, E4, E5.
Qed.

Lemma rotate_mem id n now (d : db) :
  post_rotate_secret id n now d
  = match db_hosts d !! id with
    | Some h => (set_hosts (alter (with_secret (token_hex32 n) now) id) d,
                 Ok (VDict [("agent_id", VStr id); ("rotated_at", VStr (isoformat now));
                            ("secret_preview", VStr (take_str 8 (token_hex32 n)))]))
    | None => (d, not_found)
    end.
Proof.
  unfold post_rotate_secret. unfold mbind at 1, M_bind at 1. cbn [transaction mem_database].
  unfold run_transaction, rotate_statement, mbind, M_bind, find_host. by destruct (db_hosts d !! id).
Qed.

Lemma request_alike r r' d d' :
  alike r r' -> public_hosts d = public_hosts d' ->
  public_hosts (run_preq r d).1 = public_hosts (run_preq r' d').1 /\ (run_preq r d).2 = (run_preq r' d').2.
Proof.
  intros Hr E. destruct r; destruct r'; cbn [alike] in Hr; try discriminate Hr; try (injection Hr as <-; subst).
  all: try (by split); cbn [run_preq].
  - destruct Hr as (<-&<-&Hp). rewrite !rotate_mem.
    destruct (public_cases d d' agent_id E) as [[-> ->]|(h&h'&->&->&Eh)]; [by split|]. cbn [fst snd].
    rewrite !public_rotate, E, Hp. by split.
  - unfold get_agent_config, mbind, M_bind. cbn [transaction mem_database]. unfold run_transaction, find_host.
    destruct (public_cases d d' agent_id E) as [[-> ->]|(h&h'&->&->&Eh)]; [by split|]. cbn [fst snd].
    injection Eh as E1 E2 E3 E4 E5 E6 E7. rewrite E1, E3, E5. unfold lift_res.
    destruct (render_agent_toml _ _ _ _ _ _ _) as [text|e]; [|by split].
    by destruct (parse_agent_toml loads text).
  - unfold list_agents, mbind, M_bind. pose proof (entries_alike d d' host_ids E) as El.
    destruct host_ids as [|i ids]; [by split|]. cbn [transaction mem_database]. unfold run_transaction. cbn [fst snd].
    split; [done|]. rewrite !map_map, !length_map. cbn [fst snd]. by rewrite El.
  - unfold get_agent_health, mbind, M_bind. cbn [transaction mem_database]. unfold run_transaction, find_host.
    destruct (public_cases d d' agent_id E) as [[-> ->]|(h&h'&->&->&Eh)]; [by split|]. cbn [fst snd].
    injection Eh as E1 E2 E3 E4 E5 E6 E7. by rewrite E1, E3, E4, E5.
Qed.

(** C31. What the provisioning API answers does not depend on the secrets of the
    hosts, over any sequence of its requests: two runs whose databases differ
    in secrets only, and whose rotations draw secrets with the same first eight
    digits, give the same answers and end in databases that differ in secrets
    only.  (So the rest of a new secret is known to nobody but the database.) *)
Theorem secrets_hidden (reqs reqs' : list preq) (d d' : db) :
  Forall2 alike reqs reqs' -> public_hosts d = public_hosts d' ->
  (run_preqs reqs d).2 = (run_preqs reqs' d').2
  /\ public_hosts (run_preqs reqs d).1 = public_hosts (run_preqs reqs' d').1.
Proof.
  intros Hr. revert d d'. induction Hr as [|r r' reqs reqs' Ha Hr IH]; intros d d' E; [done|].
  cbn [run_preqs]. destruct (request_alike r r' d d' Ha E) as [E1 E2].
  destruct (run_preq r d) as [d1 out], (run_preq r' d') as [d1' out']. cbn [fst snd] in E1, E2. subst out'.
  destruct (IH d1 d1' E1) as [E3 E4].
  destruct (run_preqs reqs d1) as [d2 outs], (run_preqs reqs' d1') as [d2' outs']. cbn [fst snd] in *. by subst.
Qed.

End Requests.

(** What a rotation does to the database, whatever happens to the connection, and
    what it hides: it replaces the secret and moves [last_seen_at], so a
    connected agent that has been silent for any time is reported online for
    the next five minutes. *)
Theorem rotation_spec {D} `{DatabaseLaws D} (d : D) (id : string) (n now : Z) :
  match db_hosts (tables d) !! id with
  | None => tables (post_rotate_secret id n now d).1 = tables d
      /\ exists e, (post_rotate_secret id n now d).2 = Raise e
  | Some h =>
      let rotated := set_hosts (insert id (with_secret (token_hex32 n) now h)) (tables d) in
      match post_rotate_secret id n now d with
      | (d', Ok answer) =>
          tables d' = rotated /\ answer_field "secret_preview" answer = VStr (take_str 8 (token_hex32 n))
          /\ forall d2 later, tables d2 = tables d' -> now <= later < now + 301000000 ->
               match (get_agent_health id true later d2).2 with
               | Ok health => answer_field "status" health = VStr "online"
               | Raise e => e = SqlError
               end
      | (d', Raise e) => tables d' = tables d \/ tables d' = rotated
      end
  end.
Proof.
  unfold post_rotate_secret. set (t := rotate_statement id (token_hex32 n) now).
  assert (Ht : t (tables d) = match db_hosts (tables d) !! id with
    | Some h => (set_hosts (alter (with_secret (token_hex32 n) now) id) (tables d), Ok (with_secret (token_hex32 n) now h))
    | None => (tables d, not_found) end).
  { unfold t, rotate_statement, find_host, save_secret, mbind, M_bind. by destruct (db_hosts (tables d) !! id). }
  pose proof (transaction_cases t d) as L. rewrite Ht in L. unfold mbind, M_bind.
  destruct (db_hosts (tables d) !! id) as [h|] eqn:Eh.
  - cbv zeta. assert (Ha : set_hosts (alter (with_secret (token_hex32 n) now) id) (tables d)
      = set_hosts (insert id (with_secret (token_hex32 n) now h)) (tables d)).
    { unfold set_hosts. f_equal. apply map_eq. intros i. destruct (decide (i = id)) as [->|Hi].
      - by rewrite lookup_alter_eq, lookup_insert_eq, Eh.
      - by rewrite lookup_alter_ne, lookup_insert_ne. }
    rewrite Ha in L. destruct (transaction t d) as [d1 r1]. cbn [fst snd] in L.
    destruct L as [[E [e ->]]|(a&E&Hr)]; [by left|]. injection E as E <-.
    destruct Hr as [->| ->]; [|by right]. split; [done|]. split; [reflexivity|].
    intros d2 later E2 Hl. rewrite <- E in E2. unfold get_agent_health, mbind, M_bind.
    assert (Hf : find_host id (tables d2) = (tables d2, Ok (with_secret (token_hex32 n) now h))).
    { unfold find_host. rewrite E2. cbn [db_hosts set_hosts]. by rewrite lookup_insert_eq. }
    pose proof (transaction_law _ (find_host id) d2) as L2. rewrite Hf in L2.
    destruct (transaction (find_host id) d2) as [d3 r3]. cbn [fst snd] in L2.
    destruct L2 as [[_ ->]|[[_ ->]|[_ ->]]]; [|done..].
    cbn [fst snd answer_field get assoc h_last_seen_at with_secret]. cbn. f_equal. unfold agent_status, age_of, _STALE_AFTER_SECONDS.
    cbn [negb]. destruct (Z.ltb_spec 300 (Z.max 0 (Z.quot (later - now) 1000000))) as [Hq|_]; [|done].
    rewrite Z.quot_div_nonneg in Hq by lia. exfalso.
    assert ((later - now) / 1000000 <= 300); [|lia]. apply Z.lt_succ_r, Z.div_lt_upper_bound; lia.
  - destruct (transaction t d) as [d1 r1]. cbn [fst snd] in L.
    destruct L as [[E [e ->]]|(a&E&_)]; [by split; [|eexists]|discriminate E].
Qed.

(** ** Instances *)

Definition ex_loads (t : string) : res (list (string * val)) :=
  match toml_read t with Some d => Ok d | None => Raise TOMLDecodeError end.

(** A canonical UUID text. *)
Definition ex_uuid_parse (s : string) : bool :=
  match parse_uuid s with Ok u => String.eqb u s && (slen s =? 36) | Raise _ => false end.

Definition ex_host : Host := mkHost (uuid_text 7) 0 5 None (Some "web-1") (Some "s3cret") false [].
Definition ex_db : db := set_hosts (insert (uuid_text 7) ex_host) empty_db.
Definition ex_db' : db := set_hosts (insert (uuid_text 7) (with_secret "other" 5 ex_host)) empty_db.

Example dry_run_example :
  match post_provision_dry_run (mkDryRunIn "db1.example.com" 2222 "root" None) with
  | Ok answer => answer_field "verify_command" answer
      = VStr ("ssh -p 2222 -o BatchMode=yes -o StrictHostKeyChecking=accept-new root@db1.example.com "
              +:+ quote (quote verify_probe))
  | Raise _ => False
  end
  /\ is_ok (post_provision_dry_run (mkDryRunIn "h" 22 "root" None)) = false
  /\ is_ok (post_provision_dry_run (mkDryRunIn "db1;id" 22 "root" None)) = false.
Proof. vm_compute. repeat split. Qed.

(** The version of the download is not expanded by the shell: the address is
    quoted, so that curl is given the text of the parameter expansion. *)
Example download_not_expanded :
  contains ("curl -fsSL " +:+ quote (download_url Linux) +:+ " -o $tgz; ") (install_head Linux zeros64) = true
  /\ sh_words ("curl -fsSL " +:+ quote (download_url Linux))
     = Some ["curl"; "-fsSL"; "https://releases.zaqorin.example.com/${ZAQORIN_VERSION:-latest}/zaqorin-agent-linux.tar.gz"].
Proof. vm_compute. repeat split. Qed.

Lemma provisioned_configs_witness :
  exists answer text d c, get_agent_config ex_loads "-" (uuid_text 7) ex_db = (ex_db, Ok answer)
    /\ answer_field "toml" answer = VStr text /\ toml_read text = Some d
    /\ Agent.start (fun _ => Some ("wss", "zaqorin.example.com:8443")) (startswith "/") ex_uuid_parse "" d
       = Ok (c, uuid_text 7).
Proof.
  refine (proj2 (proj2 (provisioned_configs ex_loads (fun _ => false) "-" ""
    (fun _ => Some ("wss", "zaqorin.example.com:8443")) (startswith "/") ex_uuid_parse _ _ _ eq_refl _ _))
    ex_db (uuid_text 7) ex_host _ _).
  - intros t d E. unfold ex_loads. by rewrite E.
  - intros s. unfold ex_uuid_parse. destruct (parse_uuid s); [|done]. intros H.
    apply andb_true_iff in H as [_ H%Z.eqb_eq]. rewrite H. right. by left.
  - intros s Hs. unfold ex_uuid_parse. rewrite (parse_uuid_id s Hs), String.eqb_refl, (slen_uuid s Hs). reflexivity.
  - done.
  - vm_compute. discriminate.
  - vm_compute. reflexivity.
  - exists 7. split; [lia|reflexivity].
Defined.

Lemma secrets_hidden_witness :
  (run_preqs ex_loads (fun _ => false) "-" [RqRotate (uuid_text 7) 1 9; RqConfig (uuid_text 7)] ex_db).2
  = (run_preqs ex_loads (fun _ => false) "-" [RqRotate (uuid_text 7) 2 9; RqConfig (uuid_text 7)] ex_db').2
  /\ token_hex32 1 <> token_hex32 2.
Proof.
  split; [|vm_compute; discriminate].
  apply (secrets_hidden ex_loads (fun _ => false) "-").
  - constructor; [split; [reflexivity|split; [reflexivity|vm_compute; reflexivity]]|]. constructor; [reflexivity|constructor].
  - vm_compute. reflexivity.
Defined.
