(* ===== verification/ReadApi.v ===== *)
(** * The query endpoints: [api/v1/alerts.py], [events.py], [hosts.py],
    [evidence.py], [auth.py], [healthcheck.py], [version.py], [stats.py] and
    [api/health.py]

    The tables are those of [Db], the evidence store that of [Evidence]; an
    answer is the [val] that becomes the JSON body.  Instants are integers in
    microseconds.  Query parameters arrive typed, as FastAPI delivers them; its
    refusal of a value out of range is the 422 the handlers start with.

    Parameters: how pydantic reads a [datetime] query parameter, the JSON and
    UTF-8 decoders, [Path.resolve], the probes of PostgreSQL and Redis. *)

From S2P Require Import Prelude PyStr PyVal PyStd Json Crypto Auth Db Evidence.
From Stdlib Require Import Ascii.

Definition in_bounds (lo hi n : Z) : bool := (lo <=? n) && (n <=? hi).

Definition iso_or_null (t : option Z) : val :=
  match t with Some us => VStr (isoformat us) | None => VNone end.
Definition str_or_null (o : option string) : val :=
  match o with Some s => VStr s | None => VNone end.

(** ** [alerts.py] *)

Module AlertsApi.

Record Query : Type := mkQuery {
  q_host_id : option string;
  q_detector : option string;
  q_since : option Z;
  q_until : option Z
}.

(** The [where] clauses. *)
Definition selects (q : Query) (a : Alert) : bool :=
  match q_host_id q with Some h => bool_decide (al_host_id a = Some h) | None => true end
  && opt_all (String.eqb (al_detector a)) (q_detector q)
  && opt_all (fun t => t <=? al_created_at a) (q_since q)
  && opt_all (fun t => al_created_at a <? t) (q_until q).

(** [order_by(created_at.desc())]; SQL leaves the order of equal instants open,
    here it is that of the sort. *)
Definition newest_alert (a b : Alert) : Prop := al_created_at b <= al_created_at a.

#[export] Instance newest_alert_dec a b : Decision (newest_alert a b).
Proof. unfold newest_alert. apply _. Defined.

Definition alerts_of (q : Query) (d : db) : list Alert :=
  filter (fun a => selects q a = true) (map snd (map_to_list (db_alerts d))).

Definition view (q : Query) (d : db) : list Alert := merge_sort newest_alert (alerts_of q d).

Definition alert_item (a : Alert) : val :=
  VDict [("id", VStr (al_id a));
         ("host_id", str_or_null (al_host_id a));
         ("detector", VStr (al_detector a)); ("severity", VStr (al_severity a));
         ("summary", VStr (al_summary a)); ("detail", VDict (al_detail a));
         ("created_at", VStr (isoformat (al_created_at a)));
         ("acknowledged_at", iso_or_null (al_acknowledged_at a))].

(** One row more than asked for tells whether there is a next page. *)
Definition has_more (limit : nat) (rows : list Alert) : bool := (limit <? length rows)%nat.

Definition next_before (limit : nat) (rows : list Alert) : val :=
  match last (take limit rows) with
  | Some a => if has_more limit rows then VStr (isoformat (al_created_at a)) else VNone
  | None => VNone
  end.

Definition list_alerts {D} `{Database D} (q : Query) (limit : Z) : M D val :=
  if negb (in_bounds 1 500 limit) then raise_M (HTTPException 422 "limit")
  else
    let n := Z.to_nat limit in
    rows ← transaction (fun d => (d, Ok (take (n + 1) (view q d))));
    mret (VDict [("items", VList (map alert_item (take n rows))); ("next_before", next_before n rows)]).

(** A client that follows the cursor: it sends [next_before] as [until] until
    the cursor is null.  [None] when [fuel] requests were not enough. *)
Definition with_until (t : Z) (q : Query) : Query :=
  mkQuery (q_host_id q) (q_detector q) (q_since q) (Some t).

Section Client.
Context (parse_datetime : string -> option Z).

Fixpoint follow (fuel : nat) (q : Query) (limit : Z) (d : db) : option (list val) :=
  match fuel with
  | O => None
  | S n =>
      match list_alerts q limit d with
      | (_, Ok (VDict [(_, VList items); (_, VNone)])) => Some items
      | (_, Ok (VDict [(_, VList items); (_, VStr cursor)])) =>
          t ← parse_datetime cursor;
          rest ← follow n (with_until t q) limit d;
          Some (items ++ rest)
      | _ => None
      end
  end.

End Client.
End AlertsApi.

(** ** [events.py] *)

Module EventsApi.

Definition event_item (r : Event) : val :=
  VDict [("id", VStr (e_id r)); ("host_id", VStr (e_host_id r)); ("schema", VStr (e_schema r));
         ("occurred_at", VStr (isoformat (e_occurred_at r)));
         ("received_at", VStr (isoformat (e_received_at r)));
         ("source", VStr (e_source r)); ("raw", VStr (e_raw r)); ("metadata", VDict (e_metadata r))].

Definition api_list_events {D} `{Database D} (host : option string) (since : option Z) (limit offset : Z)
  : M D val :=
  if negb (in_bounds 1 1000 limit && (0 <=? offset)) then raise_M (HTTPException 422 "limit")
  else rows ← list_events host since (Z.to_nat limit) (Z.to_nat offset);
       mret (VList (map event_item rows)).

End EventsApi.

(** ** [hosts.py] *)

Module HostsApi.
Section Endpoints.
Context {D : Type} `{Database D}.

Definition host_item (h : Host) : val :=
  VDict [("id", VStr (h_id h)); ("first_seen_at", VStr (isoformat (h_first_seen_at h)));
         ("last_seen_at", VStr (isoformat (h_last_seen_at h)));
         ("last_version", str_or_null (h_last_version h)); ("hostname", str_or_null (h_hostname h));
         ("auto_block", VBool (h_auto_block h))].

Definition api_list_hosts (limit offset : Z) : M D val :=
  if negb (in_bounds 1 500 limit && (0 <=? offset)) then raise_M (HTTPException 422 "limit")
  else rows ← list_hosts (Z.to_nat limit) (Z.to_nat offset); mret (VList (map host_item rows)).

Definition events_of (host_id : string) (d : db) : list Event :=
  filter (fun e => e_host_id e = host_id) (map snd (map_to_list (db_events d))).

(** [select(func.count(Event.id))] and [select(func.max(Event.occurred_at))]. *)
Definition count_events (host_id : string) : M D Z :=
  transaction (fun d => (d, Ok (Z.of_nat (length (events_of host_id d))))).

Definition latest (l : list Event) : option Z :=
  foldr (fun e acc => Some (match acc with Some t => Z.max (e_occurred_at e) t | None => e_occurred_at e end))
    None l.

Definition last_event (host_id : string) : M D (option Z) :=
  transaction (fun d => (d, Ok (latest (events_of host_id d)))).

Definition api_get_host (host_id : string) : M D val :=
  found ← get_host host_id;
  match found with
  | None => raise_M (HTTPException 404 "host not found")
  | Some host =>
      count ← count_events host_id;
      last ← last_event host_id;
      mret (VDict [("id", VStr (h_id host)); ("first_seen_at", VStr (isoformat (h_first_seen_at host)));
                   ("last_seen_at", VStr (isoformat (h_last_seen_at host)));
                   ("last_version", str_or_null (h_last_version host));
                   ("hostname", str_or_null (h_hostname host)); ("event_count", VInt count);
                   ("last_event_at", iso_or_null last); ("auto_block", VBool (h_auto_block host))])
  end.

Definition set_auto_block (b : bool) (h : Host) : Host :=
  mkHost (h_id h) (h_first_seen_at h) (h_last_seen_at h) (h_last_version h) (h_hostname h)
    (h_secret h) b (h_meta h).

(** UPDATE hosts SET ... WHERE id = ... RETURNING; a missing row ends the session
    without a commit. *)
Definition update_host (host_id : string) (b : bool) : M db Host := fun d =>
  match db_hosts d !! host_id with
  | Some h => (set_hosts (insert host_id (set_auto_block b h)) d, Ok (set_auto_block b h))
  | None => (d, Raise (HTTPException 404 "host not found"))
  end.

Definition patch_host (host_id : string) (auto_block : option bool) : M D val :=
  match auto_block with
  | None => raise_M (HTTPException 400 "no fields to update")
  | Some b =>
      host ← transaction (update_host host_id b);
      mret (VDict [("id", VStr (h_id host)); ("auto_block", VBool (h_auto_block host))])
  end.

End Endpoints.
End HostsApi.

(** ** [evidence.py] *)

Module EvidenceApi.

Definition _PROD_PLACEHOLDER : string := "zaqorincore-dev-evidence-key-change-me".

Definition _is_dev (env : option string) : bool := negb (String.eqb (default "production" env) "production").

(** The key the module signs with; [RuntimeError] stops the import. *)
Definition _env_key (env evidence_key : option string) : res string :=
  let k := default "" evidence_key in
  if negb (nonempty k) then
    if _is_dev env then Ok _PROD_PLACEHOLDER else Raise RuntimeError
  else if String.eqb k _PROD_PLACEHOLDER && negb (_is_dev env) then Raise RuntimeError
  else Ok k.

Definition _STORE (env evidence_key evidence_dir : option string) : res store :=
  k ← _env_key env evidence_key;
  Ok (new_store (default "/var/lib/zaqorincore/evidence" evidence_dir) (utf8 k) []).

Section Endpoints.
Context (resolve : string -> string).
Context (decode_replace : list Z -> string) (decode_strict : list Z -> res string).
Context (loads : string -> res val).

Definition submit_evidence (st : store) (payload : EvidenceSubmit) : M disk val :=
  rec ← try_M (submit resolve st payload)
          (fun e => raise_M (if is_value_error e then HTTPException 400 "evidence" else e));
  mret (VDict [("alert_id", VStr (alert_id (er_submit rec)));
               ("bundle_sha256", VStr (bundle_sha256 (er_submit rec)));
               ("sidecar_signature", VStr (sidecar_signature rec))]).

Definition verify_evidence (st : store) (id : string) (d : disk) : res val :=
  ok ← verify resolve decode_replace decode_strict loads st id d;
  Ok (VDict [("alert_id", VStr id); ("verified", VBool ok)]).

(** [response_model=dict]: another JSON value fails the validation of the answer. *)
Definition get_sidecar (st : store) (id : string) (d : disk) : res val :=
  dir ← _alert_dir resolve st id;
  match read_bytes (sidecar_of dir) d with
  | None => Raise (HTTPException 404 "not found")
  | Some data =>
      text ← decode_strict data;
      v ← safe_loads loads text;
      match v with VDict _ => Ok v | _ => Raise ResponseValidationError end
  end.

End Endpoints.
End EvidenceApi.

(** ** [auth.py]: the caller's role *)

Module WhoAmI.

Definition role_text (r : Role) : string :=
  match r with READ => "read" | WRITE => "write" | INGEST => "ingest" end.

Definition whoami (env : option string) (s : KeySettings) (x_api_key : option string) : res val :=
  role ← require_role s "/api/v1/auth/whoami" "GET" x_api_key;
  Ok (VDict [("role", VStr (role_text role));
             ("dev_mode", if String.eqb (default "production" env) "development"
                          then VBool true else VNone)]).

End WhoAmI.

(** ** [healthcheck.py], [version.py], [stats.py], [api/health.py] *)

Module Ops.

(** A directory as the names of everything below it, [None] when it does not
    exist; the walk may fail. *)
Definition yml_name (name : string) : bool := endswith ".yml" name.

Definition _count_yml_files (root : option (res (list string))) : Z :=
  match root with
  | None => -1
  | Some (Raise _) => -1
  | Some (Ok names) => Z.of_nat (length (filter (fun n => yml_name n = true) names))
  end.

Definition healthcheck (app_version : string) (root : option (res (list string))) (agents : Z) : val :=
  let rules := _count_yml_files root in
  VDict [("ok", VBool ((0 <=? rules) && (0 <=? agents))); ("version", VStr app_version);
         ("rules_loaded", VInt rules); ("agents_connected", VInt agents)].

Section BuildInfo.
Context (decode_strict : list Z -> res string) (loads : string -> res val).

(** A file: [None] when it does not exist, [Raise] when it cannot be read. *)
Definition json_file (data : res (list Z)) : res val := b ← data; t ← decode_strict b; loads t.

Definition sha_text (key : string) (data : val) : string :=
  match data with
  | VDict d => match get key d with VStr s => if nonempty s then s else "unknown" | _ => "unknown" end
  | _ => "unknown"
  end.

Definition _read_build_info (path : option (res (list Z))) : res (string * string) :=
  match path with
  | None => Ok ("unknown", "unknown")
  | Some f =>
      match json_file f with
      | Raise OSError | Raise JSONDecodeError => Ok ("unknown", "unknown")
      | Raise e => Raise e
      | Ok data => Ok (sha_text "git_sha" data, sha_text "git_sha_full" data)
      end
  end.

(** [version.py]: the handler behind its role check. *)
Definition version (app_version : string) (path : option (res (list Z))) : res val :=
  '(short, full) ← _read_build_info path;
  Ok (VDict [("version", VStr app_version); ("git_sha", VStr short); ("git_sha_full", VStr full)]).

Definition _read_git_sha (path : option (res (list Z))) : res string :=
  match path with
  | None => Ok "unknown"
  | Some f =>
      match json_file f with
      | Raise e => if (match e with OSError => true | _ => is_value_error e end) then Ok "unknown" else Raise e
      | Ok data => Ok (sha_text "git_sha" data)
      end
  end.

(** Monotonic clock readings in nanoseconds. *)
Definition uptime_seconds (started_at now : Z) : Z := Z.max 0 (Z.quot (now - started_at) 1000000000).

Definition stats (app_version : string) (root : option (res (list string))) (agents : Z)
    (path : option (res (list Z))) (started_at now pid : Z) : res val :=
  sha ← _read_git_sha path;
  Ok (VDict [("version", VStr app_version); ("git_sha", VStr sha);
             ("rules_loaded", VInt (_count_yml_files root)); ("agents_connected", VInt agents);
             ("uptime_seconds", VInt (uptime_seconds started_at now)); ("pid", VInt pid)]).

End BuildInfo.

(** A probe: the answer of the service, or the text of the exception. *)
Inductive outcome : Type := Reached | Failed (text : string).

Definition failures_of (postgres redis : outcome) : list string :=
  match postgres with Reached => [] | Failed t => ["postgres: " +:+ t] end
  ++ match redis with Reached => [] | Failed t => ["redis: " +:+ t] end.

(** Status code and body. *)
Definition readyz (postgres redis : outcome) : Z * val :=
  match failures_of postgres redis with
  | [] => (200, VDict [("status", VStr "ready")])
  | failures => (503, VDict [("status", VStr "unready"); ("detail", VStr (join "; " failures))])
  end.

(** [latency] is the [repr] of the rounded milliseconds. *)
Definition probe (o : outcome) (latency : string) : val :=
  match o with
  | Reached => VDict [("ok", VBool true); ("latency_ms", VFloat latency)]
  | Failed t => VDict [("ok", VBool false); ("latency_ms", VFloat latency); ("error", VStr t)]
  end.

Definition probe_ok (d : val) : bool :=
  match d with VDict fs => truthy (get "ok" fs) | _ => false end.

Definition healthz_deps (postgres redis : outcome) (pg_ms redis_ms : string) : Z * val :=
  let pg := probe postgres pg_ms in
  let rd := probe redis redis_ms in
  let all_ok := probe_ok pg && probe_ok rd in
  (if all_ok then 200 else 503,
   VDict [("status", VStr (if all_ok then "ok" else "degraded")); ("ok", VBool all_ok);
          ("deps", VDict [("postgres", pg); ("redis", rd)])]).

End Ops.

(** ** Pagination *)

Module AlertsFacts.
Import AlertsApi.

#[export] Instance newest_alert_trans : Transitive newest_alert.
Proof. unfold newest_alert. intros a b c. lia. Qed.
#[export] Instance newest_alert_total : Total newest_alert.
Proof. unfold newest_alert. intros a b. lia. Qed.

Lemma view_sorted q d : StronglySorted newest_alert (view q d).
Proof. apply (StronglySorted_merge_sort _). Qed.

Lemma view_perm q d : view q d ≡ₚ alerts_of q d.
Proof. apply merge_sort_Permutation. Qed.

(** The next request selects what it selected before, older than the cursor. *)
Definition older (t : Z) (a : Alert) : Prop := al_created_at a < t.

#[export] Instance older_dec t a : Decision (older t a).
Proof. unfold older. apply _. Defined.

Lemma selects_until t q a :
  (forall u, q_until q = Some u -> t < u) ->
  selects (with_until t q) a = true <-> older t a /\ selects q a = true.
Proof.
  intros Hu. unfold selects, older. cbn [q_host_id q_detector q_since q_until with_until opt_all].
  rewrite !andb_true_iff, Z.ltb_lt.
  assert (al_created_at a < t -> opt_all (fun u => al_created_at a <? u) (q_until q) = true).
  { intros Ht. destruct (q_until q) as [u|]; cbn; [|done]. specialize (Hu _ eq_refl). apply Z.ltb_lt. lia. }
  intuition.
Qed.

Lemma alerts_until t q d :
  (forall u, q_until q = Some u -> t < u) ->
  alerts_of (with_until t q) d = filter (older t) (alerts_of q d).
Proof.
  intros Hu. unfold alerts_of. rewrite list_filter_filter.
  apply list_filter_iff. intros a. by apply selects_until.
Qed.

Lemma view_until t q d :
  (forall u, q_until q = Some u -> t < u) ->
  view (with_until t q) d ≡ₚ filter (older t) (view q d).
Proof. intros Hu. rewrite view_perm, alerts_until, view_perm; done. Qed.

Lemma view_selected q d a : a ∈ view q d -> selects q a = true.
Proof. rewrite view_perm. unfold alerts_of. rewrite list_elem_of_filter. tauto. Qed.

Lemma view_bound q d a u : a ∈ view q d -> q_until q = Some u -> al_created_at a < u.
Proof.
  intros Ha E. apply view_selected in Ha. unfold selects in Ha. rewrite E in Ha. cbn in Ha.
  rewrite !andb_true_iff, Z.ltb_lt in Ha. tauto.
Qed.

(** A page that is not the last: its last alert bounds what follows. *)
Lemma filter_page t page rest :
  Forall (fun a => t <= al_created_at a) page ->
  filter (older t) (page ++ rest) = filter (older t) rest.
Proof.
  induction 1 as [|a page Ha _ IH]; [done|]. cbn [app]. rewrite filter_cons_False; [done|].
  unfold older. lia.
Qed.

Lemma filter_older t l : Forall (older t) l -> filter (older t) l = l.
Proof.
  induction 1 as [|a l Ha _ IH]; [done|]. rewrite filter_cons_True by done. by rewrite IH.
Qed.

Lemma page_bound (page rest : list Alert) a :
  StronglySorted newest_alert (page ++ rest) -> last page = Some a ->
  Forall (fun b => al_created_at a <= al_created_at b) page /\ Forall (newest_alert a) rest.
Proof.
  intros H Hl. apply last_Some in Hl as [l ->].
  rewrite <- app_assoc in H. apply StronglySorted_app in H as (H1 & _ & H2).
  cbn in H2. apply StronglySorted_cons in H2 as [H2 _]. split; [|done].
  apply Forall_app. split; [|by repeat constructor].
  apply Forall_forall. intros b Hb. apply (H1 b a); [done|]. cbn. left.
Qed.

(** What one request answers. *)
Lemma list_alerts_answer q (limit : nat) d :
  (1 <= limit <= 500)%nat ->
  list_alerts q (Z.of_nat limit) d
  = (d, Ok (VDict [("items", VList (map alert_item (take limit (view q d))));
                   ("next_before", next_before limit (take (limit + 1) (view q d)))])).
Proof.
  intros Hl. unfold list_alerts. assert (in_bounds 1 500 (Z.of_nat limit) = true) as ->.
  { unfold in_bounds. rewrite andb_true_iff, !Z.leb_le. lia. }
  cbn [negb]. rewrite Nat2Z.id. cbn -[take]. unfold mbind, M_bind, mret, M_ret. cbn -[take alert_item].
  rewrite take_take, Nat.min_l by lia. done.
Qed.

Lemma next_before_end (limit : nat) l :
  (length l <= limit)%nat -> next_before limit (take (limit + 1) l) = VNone.
Proof.
  intros H. unfold next_before, has_more. rewrite length_take.
  destruct (last _); [|done]. by rewrite (proj2 (Nat.ltb_ge _ _)) by lia.
Qed.

Lemma next_before_more (limit : nat) l :
  (1 <= limit < length l)%nat ->
  exists a, last (take limit l) = Some a
            /\ next_before limit (take (limit + 1) l) = VStr (isoformat (al_created_at a)).
Proof.
  intros H. unfold next_before, has_more. rewrite take_take, Nat.min_l, length_take by lia.
  rewrite (proj2 (Nat.ltb_lt _ _)) by lia.
  destruct (last (take limit l)) as [a|] eqn:E; [eauto|].
  apply last_None in E. apply (f_equal length) in E. rewrite length_take in E. cbn in E. lia.
Qed.

Section Follow.
Context (parse_datetime : string -> option Z) (d : db).

(** The decoder reads the cursors the server writes. *)
Hypothesis reads_cursors : forall i a, db_alerts d !! i = Some a ->
  parse_datetime (isoformat (al_created_at a)) = Some (al_created_at a).

Lemma view_read q a :
  a ∈ view q d -> parse_datetime (isoformat (al_created_at a)) = Some (al_created_at a).
Proof.
  rewrite view_perm. unfold alerts_of. intros [_ Ha]%list_elem_of_filter.
  apply list_elem_of_fmap in Ha as ([i a']&->&Hi). apply elem_of_map_to_list in Hi.
  by apply (reads_cursors i).
Qed.

(** What the following requests see. *)
Lemma view_rest q limit a :
  (1 <= limit)%nat -> last (take limit (view q d)) = Some a ->
  let q' := with_until (al_created_at a) q in
  view q' d ≡ₚ filter (older (al_created_at a)) (drop limit (view q d))
  /\ parse_datetime (isoformat (al_created_at a)) = Some (al_created_at a).
Proof.
  intros Hl Ha q'.
  assert (Hin : a ∈ view q d).
  { apply last_Some in Ha as [l E]. rewrite <- (take_drop limit (view q d)), E. set_solver. }
  split; [|by apply (view_read q)].
  unfold q'. rewrite view_until by (intros u Hu; eapply view_bound; eauto).
  rewrite <- (take_drop limit (view q d)) at 1.
  rewrite filter_page; [done|].
  refine (proj1 (page_bound _ (drop limit (view q d)) a _ Ha)). rewrite take_drop. apply view_sorted.
Qed.

Lemma map_inj (l : list Alert) (a b : Alert) :
  NoDup (map al_created_at l) -> a ∈ l -> b ∈ l -> al_created_at a = al_created_at b -> a = b.
Proof.
  induction l as [|c l IH]; [set_solver|]. cbn [map]. rewrite NoDup_cons.
  intros [Hc Hl] Ha Hb E. rewrite list_elem_of_fmap in Hc.
  apply elem_of_cons in Ha as [->|Ha]; apply elem_of_cons in Hb as [->|Hb]; auto; exfalso; apply Hc; eauto.
Qed.

(** With distinct instants the rest is exactly the rest of the view. *)
Lemma view_rest_exact q limit a :
  (1 <= limit)%nat -> last (take limit (view q d)) = Some a ->
  NoDup (map al_created_at (view q d)) ->
  view (with_until (al_created_at a) q) d = drop limit (view q d).
Proof.
  intros Hl Ha Hnd. destruct (view_rest q limit a Hl Ha) as [Hp _].
  assert (Hf : filter (older (al_created_at a)) (drop limit (view q d)) = drop limit (view q d)).
  { apply filter_older, Forall_forall. intros b Hb.
    pose proof (view_sorted q d) as Hs. rewrite <- (take_drop limit (view q d)) in Hs, Hnd.
    pose proof (proj2 (page_bound _ _ _ Hs Ha)) as Hle. rewrite Forall_forall in Hle.
    specialize (Hle b Hb). unfold newest_alert, older in *.
    rewrite map_app in Hnd. apply NoDup_app in Hnd as (_ & Hne & _).
    assert (al_created_at b <> al_created_at a); [|lia].
    intros E. apply (Hne (al_created_at a)).
    - apply list_elem_of_fmap. exists a. split; [done|].
      apply last_Some in Ha as [l ->]. set_solver.
    - apply list_elem_of_fmap. eauto. }
  rewrite Hf in Hp.
  apply (StronglySorted_unique_strong newest_alert); [|apply view_sorted| |done].
  - intros b c Hb Hc H1 H2. unfold newest_alert in *.
    assert (E : al_created_at b = al_created_at c) by lia.
    assert (Hsub : forall e, e ∈ drop limit (view q d) -> e ∈ view q d)
      by (intros e He; rewrite <- (take_drop limit (view q d)); set_solver).
    rewrite Hp in Hb. apply (map_inj (view q d)); auto.
  - eapply StronglySorted_app_1_r. rewrite take_drop. apply view_sorted.
Qed.

(** One step of the client. *)
Lemma follow_step n q (limit : nat) :
  (1 <= limit <= 500)%nat ->
  follow parse_datetime (S n) q (Z.of_nat limit) d
  = (if (length (view q d) <=? limit)%nat then Some (map alert_item (view q d))
     else a ← last (take limit (view q d));
          rest ← follow parse_datetime n (with_until (al_created_at a) q) (Z.of_nat limit) d;
          Some (map alert_item (take limit (view q d)) ++ rest)).
Proof.
  intros Hl. cbn [follow]. rewrite list_alerts_answer by done.
  destruct (Nat.leb_spec (length (view q d)) limit) as [H|H].
  - rewrite next_before_end by done. by rewrite take_ge.
  - destruct (next_before_more limit (view q d)) as (a&Ha&->); [lia|]. rewrite Ha. cbn [mbind option_bind].
    destruct (view_rest q limit a) as [_ ->]; [lia|done|]. done.
Qed.

(** A full page followed by older alerts. *)
Lemma follow_all (limit : nat) (Hl : (1 <= limit <= 500)%nat) n : forall q,
  (length (view q d) < n)%nat ->
  exists l, follow parse_datetime n q (Z.of_nat limit) d = Some (map alert_item l)
    /\ l ⊆+ view q d /\ StronglySorted newest_alert l
    /\ (NoDup (map al_created_at (view q d)) -> l = view q d).
Proof.
  induction n as [|n IH]; intros q Hn; [lia|]. rewrite follow_step by done.
  destruct (Nat.leb_spec (length (view q d)) limit) as [H|H].
  { exists (view q d). split_and!; [done| |apply view_sorted|done]. reflexivity. }
  destruct (next_before_more limit (view q d)) as (a&Ha&_); [lia|]. rewrite Ha. cbn [mbind option_bind].
  destruct (view_rest q limit a) as [Hp _]; [lia|done|]. cbv zeta in Hp.
  assert (Hsub : view (with_until (al_created_at a) q) d ⊆+ drop limit (view q d)).
  { rewrite Hp. apply sublist_submseteq, sublist_filter. }
  destruct (IH (with_until (al_created_at a) q)) as (l&->&Hs&Hsort&Hex).
  { apply submseteq_length in Hsub. rewrite length_drop in Hsub. lia. }
  exists (take limit (view q d) ++ l). rewrite map_app. split; [done|]. split_and!.
  - rewrite <- (take_drop limit (view q d)) at 2. apply submseteq_app; [done|]. by etrans.
  - apply StronglySorted_app. split_and!; [|eapply StronglySorted_app_1_l; rewrite take_drop; apply view_sorted|done].
    intros b c Hb Hc. pose proof (view_sorted q d) as Hv. rewrite <- (take_drop limit (view q d)) in Hv.
    eapply StronglySorted_app_1_elem_of; [exact Hv|done|].
    eapply elem_of_submseteq; [exact Hc|]. by etrans.
  - intros Hnd. assert (E := view_rest_exact q limit a ltac:(lia) Ha Hnd).
    rewrite Hex, E; [apply take_drop|]. rewrite E.
    rewrite <- (take_drop limit (view q d)), map_app in Hnd. by apply NoDup_app in Hnd as (_&_&Hnd).
Qed.

End Follow.
End AlertsFacts.

(** ** Theorems on alerts *)

Section Pagination.
Import AlertsApi AlertsFacts.

(** C33. Following the cursor terminates: whatever the filters and the page size,
    one request more than there are matching alerts always suffices, and more
    fuel gives the same answer.  The client sees each alert at most once, newest
    first; when no two matching alerts share an instant it sees all of them, in
    the order of the whole listing. *)
Theorem alerts_pagination (parse_datetime : string -> option Z) (d : db) (q : Query) (limit : Z)
    (fuel : nat) :
  (forall i a, db_alerts d !! i = Some a ->
     parse_datetime (isoformat (al_created_at a)) = Some (al_created_at a)) ->
  1 <= limit <= 500 ->
  (length (alerts_of q d) < fuel)%nat ->
  exists l, follow parse_datetime fuel q limit d = Some (map alert_item l)
    /\ l ⊆+ alerts_of q d /\ StronglySorted newest_alert l
    /\ (NoDup (map al_created_at (alerts_of q d)) -> l = view q d).
Proof.
  intros Hr Hl Hf. rewrite <- (Z2Nat.id limit) by lia.
  destruct (follow_all parse_datetime d Hr (Z.to_nat limit) ltac:(lia) fuel q) as (l&E&Hs&Ho&Hx).
  { by rewrite view_perm. }
  exists l. split_and!; [done| |done|].
  - by rewrite <- view_perm.
  - intros Hn. apply Hx. by rewrite view_perm.
Qed.

Definition ex_alert (id : string) (t : Z) : Alert := mkAlert id None "ssh" "high" "s" [] t None.

Definition ex_db (ts : list (string * Z)) : db :=
  mkDb ∅ ∅ (list_to_map (map (fun p => (p.1, ex_alert p.1 p.2)) ts)) ∅ ∅.

(** A decoder of the cursors of these examples. *)
Definition ex_parse (ts : list (string * Z)) (s : string) : option Z :=
  assoc s (map (fun p => (isoformat p.2, p.2)) ts).

Definition ex_all : Query := mkQuery None None None None.

(** Two alerts of one instant at a page boundary: the second is never listed. *)
Example tie_lost :
  let ts := [("a", 5); ("b", 5); ("c", 7)] in
  option_map length (follow (ex_parse ts) 10 ex_all 2 (ex_db ts)) = Some 2%nat
  /\ length (alerts_of ex_all (ex_db ts)) = 3%nat.
Proof. vm_compute. done. Qed.

Lemma ex_read ts :
  (forall p, In p ts -> ex_parse ts (isoformat p.2) = Some p.2) ->
  forall i a, db_alerts (ex_db ts) !! i = Some a ->
  ex_parse ts (isoformat (al_created_at a)) = Some (al_created_at a).
Proof.
  intros H i a Ha. apply elem_of_list_to_map_2, list_elem_of_fmap in Ha as (p&[= -> ->]&Hp).
  by apply H, list_elem_of_In.
Qed.

Lemma alerts_pagination_witness :
  let ts := [("a", 5); ("b", 6); ("c", 7)] in
  exists l, follow (ex_parse ts) 4 ex_all 1 (ex_db ts) = Some (map alert_item l)
    /\ l ⊆+ alerts_of ex_all (ex_db ts) /\ StronglySorted newest_alert l
    /\ (NoDup (map al_created_at (alerts_of ex_all (ex_db ts))) -> l = view ex_all (ex_db ts)).
Proof.
  apply alerts_pagination.
  - apply ex_read. intros p [<-|[<-|[<-|[]]]]; vm_compute; reflexivity.
  - lia.
  - apply Nat.ltb_lt. vm_compute. reflexivity.
Defined.

End Pagination.

(** ** Hosts *)

Section HostTheorems.
Import HostsApi.

(** The only change an operator can make to a host, on the tables. *)
Definition patched (host_id : string) (b : bool) (d : db) : db :=
  set_hosts (alter (set_auto_block b) host_id) d.

(** Patching a host: an empty patch is refused with 400 and an unknown host
    with 404 without a trace; otherwise the answer is 200 and exactly the
    [auto_block] of that host has the new value.  A lost connection leaves the
    old value or the new one, and nothing else. *)
Theorem patch_host_spec {D : Type} `{DatabaseLaws D} (d : D) (host_id : string) (auto_block : option bool) :
  let t := tables d in
  let t' := tables (patch_host host_id auto_block d).1 in
  match auto_block, db_hosts t !! host_id, (patch_host host_id auto_block d).2 with
  | None, _, r => t' = t /\ r = Raise (HTTPException 400 "no fields to update")
  | Some _, None, Raise e => t' = t /\ (e = HTTPException 404 "host not found" \/ e = SqlError)
  | Some b, Some h, Ok v =>
      t' = patched host_id b t /\ v = VDict [("id", VStr (h_id h)); ("auto_block", VBool b)]
  | Some b, Some _, Raise e => (t' = t \/ t' = patched host_id b t) /\ e = SqlError
  | Some _, None, Ok _ => False
  end.
Proof.
  intros t t'. subst t t'. destruct auto_block as [b|]; [|done].
  unfold patch_host, mbind, M_bind, mret, M_ret.
  pose proof (transaction_law _ (update_host host_id b) d) as L. unfold update_host in L at 1.
  destruct (db_hosts (tables d) !! host_id) as [h|] eqn:E.
  - assert (Hp : set_hosts (insert host_id (set_auto_block b h)) (tables d) = patched host_id b (tables d)).
    { unfold patched, set_hosts. f_equal. apply map_eq. intros i. destruct (decide (i = host_id)) as [->|Hi].
      - by rewrite lookup_insert_eq, lookup_alter_eq, E.
      - by rewrite lookup_insert_ne, lookup_alter_ne. }
    destruct (transaction (update_host host_id b) d) as [d' [host|e]]; cbn in L |- *;
      destruct L as [[-> L]|[[-> L]|[-> L]]]; inversion L; subst; auto.
  - destruct (transaction (update_host host_id b) d) as [d' [host|e]]; cbn in L |- *;
      destruct L as [Lt [L|L]]; inversion L; subst; auto.
Qed.

(** Readiness and the dependency report give the same status code. *)
Lemma readyz_deps_agree postgres redis a b :
  (Ops.readyz postgres redis).1 = (Ops.healthz_deps postgres redis a b).1.
Proof. by destruct postgres, redis. Qed.

End HostTheorems.

(** ** The key of the evidence store *)

Section KeyTheorems.
Import EvidenceApi.

(** In production the module is imported only with a key of the operator's own;
    in any other environment, whatever its name, the public key signs when none
    is configured. *)
Lemma evidence_key_spec (env evidence_key : option string) :
  match _env_key env evidence_key with
  | Ok k =>
      k <> "" /\ (k = _PROD_PLACEHOLDER -> default "production" env <> "production")
      /\ (forall s, evidence_key = Some s -> s <> "" -> k = s)
  | Raise e =>
      e = RuntimeError /\ default "production" env = "production"
      /\ (default "" evidence_key = "" \/ evidence_key = Some _PROD_PLACEHOLDER)
  end.
Proof.
  unfold _env_key, _is_dev.
  destruct (String.eqb_spec (default "production" env) "production") as [E|E]; cbn [negb andb];
    destruct evidence_key as [k|]; cbn [default from_option Datatypes.id];
    try (destruct k as [|c k]; cbn [nonempty negb]);
    try (destruct (String.eqb_spec (String c k) _PROD_PLACEHOLDER) as [P|P]; cbn [andb]);
    rewrite ?andb_false_r; cbn; split_and?; try done; try tauto; try (intros s [= <-]; done);
    try congruence; try (right; congruence).
Qed.

(** Any name but production selects the public key, and one character passes for
    a secret of 32 bytes. *)
Example evidence_key_loose :
  _env_key (Some "prod") None = Ok _PROD_PLACEHOLDER
  /\ _env_key None (Some "x") = Ok "x".
Proof. done. Qed.

End KeyTheorems.

(** ** The build identity *)

Section BuildTheorems.
Import Ops.

(** Two endpoints read the same file.  The statistics always have an answer.
    The version endpoint gives the same [git_sha] unless the file is not UTF-8
    text: then it raises, while the statistics say [unknown]. *)
Theorem build_identity (decode_strict : list Z -> res string) (loads : string -> res val)
    (path : option (res (list Z))) :
  (forall b e, decode_strict b = Raise e -> e = ValueError "utf-8") ->
  (forall s e, loads s = Raise e -> e = JSONDecodeError) ->
  (forall e, path = Some (Raise e) -> e = OSError) ->
  exists sha, _read_git_sha decode_strict loads path = Ok sha
    /\ ((exists b, path = Some (Ok b) /\ is_ok (decode_strict b) = false
                   /\ sha = "unknown" /\ _read_build_info decode_strict loads path = Raise (ValueError "utf-8"))
        \/ exists full, _read_build_info decode_strict loads path = Ok (sha, full)).
Proof.
  intros Hd Hj Hf. unfold _read_git_sha, _read_build_info.
  destruct path as [[b|e]|]; [| |eauto]; unfold json_file; cbn [mbind res_bind].
  - destruct (decode_strict b) as [t|e] eqn:E; cbn [mbind res_bind].
    + destruct (loads t) as [v|e] eqn:F; [eauto|]. rewrite (Hj _ _ F). eauto.
    + rewrite (Hd _ _ E). cbn. eexists. split; [done|]. left. exists b. by rewrite E.
  - rewrite (Hf e eq_refl). eauto.
Qed.

(** A decoder of ASCII text, and a JSON decoder that knows one document. *)
Definition ex_ascii (b : list Z) : res string :=
  if forallb (fun z => z <? 128) b then Ok (latin_decode b) else Raise (ValueError "utf-8").

Definition ex_loads (s : string) : res val :=
  if String.eqb s "doc" then Ok (VDict [("git_sha", VStr "abc1234")]) else Raise JSONDecodeError.

Example build_identity_files :
  _read_build_info ex_ascii ex_loads (Some (Ok [100; 111; 99])) = Ok ("abc1234", "unknown")
  /\ _read_git_sha ex_ascii ex_loads (Some (Ok [255])) = Ok "unknown"
  /\ _read_build_info ex_ascii ex_loads (Some (Ok [255])) = Raise (ValueError "utf-8").
Proof. done. Qed.

Lemma build_identity_witness :
  exists sha, _read_git_sha ex_ascii ex_loads (Some (Ok [255])) = Ok sha
    /\ ((exists b, Some (Ok [255]) = Some (Ok b) /\ is_ok (ex_ascii b) = false
                   /\ sha = "unknown"
                   /\ _read_build_info ex_ascii ex_loads (Some (Ok [255])) = Raise (ValueError "utf-8"))
        \/ exists full, _read_build_info ex_ascii ex_loads (Some (Ok [255])) = Ok (sha, full)).
Proof.
  apply build_identity.
  - intros b e. unfold ex_ascii. destruct (forallb _ b); congruence.
  - intros s e. unfold ex_loads. destruct (String.eqb s "doc"); congruence.
  - intros e [=].
Defined.

End BuildTheorems.

Section HostWitness.
Import HostsApi.

Definition ex_host : Host := mkHost "h1" 1 2 None None None true [].
Definition ex_hosts : db := mkDb {["h1" := ex_host]} ∅ ∅ ∅ ∅.

Lemma patch_host_spec_witness :
  let t := tables ex_hosts in
  let t' := tables (patch_host "h1" (Some false) ex_hosts).1 in
  (patch_host "h1" (Some false) ex_hosts).2
    = Ok (VDict [("id", VStr "h1"); ("auto_block", VBool false)])
  /\ t' = patched "h1" false t.
Proof.
  pose proof (patch_host_spec ex_hosts "h1" (Some false)) as H.
  assert (E : (patch_host "h1" (Some false) ex_hosts).2
    = Ok (VDict [("id", VStr "h1"); ("auto_block", VBool false)])) by reflexivity.
  cbv beta iota zeta in H |- *. rewrite E in H. split; [done|].
  change (db_hosts (tables ex_hosts) !! "h1") with (Some ex_host) in H. exact (proj1 H).
Defined.

End HostWitness.
