(* ===== verification/Middleware.v ===== *)
(** * The HTTP middlewares: [error_envelope.py], [request_id.py], [cors.py],
    [security.py], [api/v1/security.py] and their stacking in [main.create_app]

    A response is a status, a header map with lower-case names and a body, in
    chunks when it is streamed; a handler works on the structlog context and on
    a state of its own and may raise.  The limiter is that of [RateLimit].

    Parameters: [Response(...)] of Starlette, the CORS middleware of Starlette,
    the JSON decoder and the lenient UTF-8 decoder. *)

From S2P Require Import Prelude PyStr PyVal PyStd Json Crypto Regex RateLimit.
From Stdlib Require Import Ascii.

(** ** Requests and responses *)

Inductive chunk : Type := CBytes (b : list Z) | CStr (s : string).

Inductive body : Type := Iterator (chunks : list chunk) | Whole (b : list Z).

Abbreviation headers := (list (string * string)).

Record Response : Type := mkResponse { status_code : Z; r_headers : headers; r_body : body }.

Record HttpRequest : Type := mkHttp {
  rq_url_path : string;
  rq_method : string;
  rq_headers : headers;
  rq_peer : option string
}.

(** [headers.get(name, "")] and [headers.setdefault]; names are not case
    sensitive. *)
Definition header (name : string) (h : headers) : string := default "" (assoc name h).
Definition set_default (name value : string) (h : headers) : headers :=
  if has_key (lower name) h then h else h ++ [(lower name, value)].

Definition set_headers (f : headers -> headers) (r : Response) : Response :=
  mkResponse (status_code r) (f (r_headers r)) (r_body r).

(** ** [error_envelope.py] *)

Module Envelope.

Definition _EXCLUDED_PREFIXES : list string :=
  ["/healthz"; "/readyz"; "/api/v1/healthcheck"; "/api/v1/ingest/cloudflare"; "/api/v1/ingest/webhook";
   "/api/v1/security"; "/api/v1/stats"; "/api/v1/kanban"; "/static"].

Definition _is_excluded (path : string) : bool :=
  if String.eqb path "/" then true else existsb (fun p => startswith p path) _EXCLUDED_PREFIXES.

(** A [dict] keyed by status codes. *)
Fixpoint table (code : Z) (d : list (Z * string)) : option string :=
  match d with
  | [] => None
  | (k, v) :: t => if k =? code then Some v else table code t
  end.

Definition _STATUS_CODE_TO_ERROR_CODE : list (Z * string) :=
  [(400, "bad_request"); (401, "unauthorized"); (403, "forbidden"); (404, "not_found");
   (405, "method_not_allowed"); (406, "not_acceptable"); (409, "conflict");
   (413, "payload_too_large"); (415, "unsupported_media_type"); (422, "unprocessable_entity");
   (429, "rate_limited"); (500, "internal_error"); (501, "not_implemented"); (502, "bad_gateway");
   (503, "service_unavailable"); (504, "gateway_timeout")].

Definition _HTTP_STATUS_TEXT : list (Z * string) :=
  [(400, "Bad Request"); (401, "Unauthorized"); (403, "Forbidden"); (404, "Not Found");
   (405, "Method Not Allowed"); (406, "Not Acceptable"); (409, "Conflict");
   (413, "Payload Too Large"); (415, "Unsupported Media Type"); (422, "Unprocessable Entity");
   (429, "Too Many Requests"); (500, "Internal Server Error"); (501, "Not Implemented");
   (502, "Bad Gateway"); (503, "Service Unavailable"); (504, "Gateway Timeout")].

Definition _error_code_for (status : Z) : string :=
  default "http_error" (table status _STATUS_CODE_TO_ERROR_CODE).

Definition _is_envelope_enabled (env : option string) : bool :=
  str_in (lower (strip (default "" env))) ["1"; "true"; "yes"].

Section Wrap.
Context (decode_replace : list Z -> string) (loads : string -> res val).

Definition _extract_detail (data : list Z) (content_type : string) : res string :=
  match data with
  | [] => Ok ""
  | _ =>
      let text := decode_replace data in
      if contains "json" (lower content_type) then
        match safe_loads loads text with
        | Raise e => if is_value_error e then Ok text else Raise e
        | Ok (VDict d) =>
            match get "detail" d with
            | VStr s => Ok s
            | VNone => Ok text
            | detail => Ok (dumps_compact detail)
            end
        | Ok _ => Ok text
        end
      else Ok text
  end.

Definition chunk_bytes (c : chunk) : list Z :=
  match c with CBytes b => b | CStr s => utf8 s end.

Definition _drain_body (chunks : list chunk) : list Z := concat (map chunk_bytes chunks).

Definition body_bytes (b : body) : list Z :=
  match b with Iterator chunks => _drain_body chunks | Whole b => b end.

(** What is left of a body once it has been read. *)
Definition drained (r : Response) : Response :=
  mkResponse (status_code r) (r_headers r)
    (match r_body r with Iterator _ => Iterator [] | b => b end).

Definition request_id_of (r : Response) (vars : list (string * val)) : val :=
  let h := header "x-request-id" (r_headers r) in
  if nonempty h then VStr h else get "request_id" vars.

Definition envelope (status : Z) (detail : string) (request_id : val) : val :=
  VDict [("error", VDict [("code", VStr (_error_code_for status)); ("message", VStr detail);
                          ("request_id", request_id)]);
         ("detail", VStr detail)].

Definition detail_or_text (status : Z) (detail : string) : string :=
  if nonempty detail then detail
  else default ("HTTP " +:+ str_int status) (table status _HTTP_STATUS_TEXT).

(** [Response(content, status_code, media_type, headers)]. *)
Context (make_response : list Z -> Z -> string -> headers -> Response).

(** The middleware after [call_next]. *)
Definition wrap (env : option string) (path : string) (vars : list (string * val)) (response : Response)
  : res Response :=
  if negb (_is_envelope_enabled env) then Ok response
  else if status_code response <? 400 then Ok response
  else if _is_excluded path then Ok response
  else
    match body_bytes (r_body response) with
    | [] => Ok (drained response)
    | data =>
        detail ← _extract_detail data (header "content-type" (r_headers response));
        let detail := detail_or_text (status_code response) detail in
        Ok (make_response
              (utf8 (dumps (envelope (status_code response) detail (request_id_of response vars))))
              (status_code response) "application/json" (r_headers response))
    end.

End Wrap.
End Envelope.

(** ** [request_id.py] *)

Module RequestId.

Definition _HEADER : string := "x-request-id".
Definition _MAX_LEN : Z := 64.

Definition safe_char (c : ascii) : bool :=
  is_alnum c && (code c <? 128)%N || is_char "." c || is_char "_" c || is_char "-" c.

Definition _SAFE_RE : re := Rcat (Rplus (Rcls safe_char)) Rend.

(** [fresh] is [uuid4().hex]. *)
Definition _resolve_request_id (fresh : string) (request : HttpRequest) : string :=
  let raw := strip (header _HEADER (rq_headers request)) in
  if nonempty raw && (slen raw <=? _MAX_LEN) && re_fullmatch _SAFE_RE raw then raw
  else take_str 16 fresh.

End RequestId.

(** ** [cors.py] *)

Module Cors.

Definition _ALLOWED_METHODS : list string := ["GET"; "POST"; "PUT"; "DELETE"].
Definition _ALLOWED_HEADERS : list string := ["X-ZaQorin-Key"; "Content-Type"].

Definition _parse_origins (raw : string) : list string :=
  List.filter nonempty (map strip (split_char "," raw)).

Record policy : Type := mkPolicy {
  enabled : bool;
  allow_origins : list string;
  allow_methods : list string;
  allow_headers : list string;
  allow_credentials : bool
}.

Definition build_cors_middleware (cors_origins : string) : res (option policy) :=
  match _parse_origins cors_origins with
  | [] => Ok None
  | origins =>
      let allow_credentials := false in
      if str_in "*" origins && allow_credentials then Raise RuntimeError
      else Ok (Some (mkPolicy true origins _ALLOWED_METHODS _ALLOWED_HEADERS allow_credentials))
  end.

Definition describe_cors_policy (cors_origins : string) : policy :=
  let origins := _parse_origins cors_origins in
  mkPolicy (match origins with [] => false | _ => true end) origins _ALLOWED_METHODS _ALLOWED_HEADERS false.

End Cors.

(** ** [security.py] and [api/v1/security.py] *)

Module SecurityHeaders.

Definition _CSP_BASE : string :=
  "default-src 'self'; script-src 'self'; style-src 'self'; img-src 'self' data:; connect-src 'self'; frame-ancestors 'none'; base-uri 'self'; form-action 'self'".

Definition html_csp (nonce : string) : string :=
  "default-src 'self'; script-src 'self' 'nonce-" +:+ nonce +:+ "'; style-src 'self' 'nonce-" +:+ nonce
  +:+ "'; img-src 'self' data:; connect-src 'self'; frame-ancestors 'none'; base-uri 'self'; form-action 'self'".

Definition fixed_headers : headers :=
  [("X-Content-Type-Options", "nosniff"); ("X-Frame-Options", "DENY");
   ("Referrer-Policy", "no-referrer");
   ("Permissions-Policy", "camera=(), microphone=(), geolocation=(), payment=()")].

Definition csp_for (nonce : string) (h : headers) : string :=
  if startswith "text/html" (header "content-type" h) then html_csp nonce else _CSP_BASE.

(** The middleware after [call_next]; the nonce on [request.state] is for the
    handlers. *)
Definition secured (nonce : string) (h : headers) : headers :=
  foldl (fun h kv => set_default kv.1 kv.2 h) h
    (("Content-Security-Policy", csp_for nonce h) :: fixed_headers).

(** The text constants of the module [security], by attribute name. *)
Definition security_module : headers := [("_CSP_BASE", _CSP_BASE)].

Definition security_attr (name : string) : res string :=
  match assoc name security_module with Some s => Ok s | None => Raise AttributeError end.

Definition _header_snapshot : headers :=
  match security_attr "_CSP" with
  | Ok csp => ("Content-Security-Policy", csp) :: fixed_headers
  | Raise _ => []
  end.

Definition text_dict (h : headers) : val := VDict (map (fun kv => (kv.1, VStr kv.2)) h).

Definition count_of {A} (l : list A) : val := VInt (Z.of_nat (length l)).

Definition security_headers : val :=
  VDict [("headers", text_dict _header_snapshot); ("count", count_of _header_snapshot)].

Definition _REQUIRED_HEADERS : list string :=
  ["Content-Security-Policy"; "X-Content-Type-Options"; "X-Frame-Options"; "Referrer-Policy";
   "Permissions-Policy"].

Definition _REQUIRED_VALUES : headers := fixed_headers.

(** The loop over the required headers; [emitted] is the snapshot. *)
Definition violation (emitted : headers) (name : string) : list val :=
  let triple expected actual :=
    [VDict [("header", VStr name); ("expected", VStr expected); ("actual", VStr actual)]] in
  match assoc name emitted, assoc name _REQUIRED_VALUES with
  | None, expected => triple (default "" expected) ""
  | Some _, None => []
  | Some actual, Some expected => if String.eqb actual expected then [] else triple expected actual
  end.

Definition audit_of (emitted : headers) : val :=
  let violations := flat_map (violation emitted) _REQUIRED_HEADERS in
  VDict [("headers", text_dict emitted); ("contract", text_dict _REQUIRED_VALUES);
         ("violations", VList violations);
         ("healthy", VBool (match violations with [] => true | _ => false end
                            && (length emitted =? length _REQUIRED_HEADERS)%nat));
         ("checked", count_of _REQUIRED_HEADERS); ("count", count_of emitted)].

Definition _audit_security_headers : val := audit_of _header_snapshot.

Definition csp_test : val :=
  match assoc "Content-Security-Policy" _header_snapshot with
  | Some csp => VDict [("csp", VStr csp); ("present", VBool true)]
  | None => VDict [("csp", VNone); ("present", VBool false)]
  end.

End SecurityHeaders.

(** ** The stack of [create_app]

    The middleware added last runs first.  A handler works on the structlog
    context of the request, the limiter and a state [S] of the application. *)

Section Stack.
Context {A : Type}.

Record world : Type := mkWorld { vars : list (string * val); limits : limiter; app_state : A }.

Abbreviation handler := (HttpRequest -> M world Response).

Definition set_vars (v : list (string * val)) (w : world) : world := mkWorld v (limits w) (app_state w).

(** What a request draws: a UUID, a nonce and the reading of the clock. *)
Record request_draws : Type := mkDraws { uuid_hex : string; nonce : string; now : Z }.

Context (decode_replace : list Z -> string) (loads : string -> res val).
Context (make_response : list Z -> Z -> string -> headers -> Response).
Context (starlette_cors : Cors.policy -> handler -> handler).
Context (env : option string) (cors_origins : string).

Definition security_headers_mw (dr : request_draws) (call_next : handler) : handler := fun request =>
  response ← call_next request;
  mret (set_headers (SecurityHeaders.secured (nonce dr)) response).

Definition cors_mw (call_next : handler) : handler :=
  let p := Cors.describe_cors_policy cors_origins in
  if Cors.enabled p then starlette_cors p call_next else call_next.

Definition limiter_view (request : HttpRequest) : RateLimit.Request :=
  RateLimit.mkRequest (rq_url_path request) (assoc "x-api-key" (rq_headers request)) (rq_peer request).

Definition too_many (limit_per_min retry : Z) : Response :=
  make_response
    (utf8 (dumps_compact (VDict [("detail", VStr "rate limit exceeded");
       ("limit_per_min", VInt limit_per_min); ("retry_after_sec", VInt retry)])))
    429 "application/json" [("retry-after", str_int retry)].

Definition rate_limit_mw (dr : request_draws) (call_next : handler) : handler := fun request w =>
  let '(l, v) := dispatch (now dr) (limiter_view request) (limits w) in
  let w := mkWorld (vars w) l (app_state w) in
  match v with
  | Raise e => (w, Raise e)
  | Ok Forward => call_next request w
  | Ok (TooMany retry) => (w, Ok (too_many (_limit (limits w)) retry))
  end.

(** [bind_contextvars], and [clear_contextvars] in the [finally] clause. *)
Definition request_id_mw (dr : request_draws) (call_next : handler) : handler := fun request w =>
  let rid := RequestId._resolve_request_id (uuid_hex dr) request in
  let '(w, response) := call_next request (set_vars (assoc_set "request_id" (VStr rid) (vars w)) w) in
  (set_vars [] w, set_headers (assoc_set RequestId._HEADER rid) <$> response).

Definition envelope_mw (call_next : handler) : handler := fun request w =>
  let '(w, response) := call_next request w in
  (w, r ← response; Envelope.wrap decode_replace loads make_response env (rq_url_path request) (vars w) r).

Definition create_app (dr : request_draws) (router : handler) : handler :=
  envelope_mw (request_id_mw dr (rate_limit_mw dr (cors_mw (security_headers_mw dr router)))).

End Stack.
Arguments world A : clear implicits.

(** ** What Starlette promises of a response built from a body, a status, a
    media type and headers *)

Class StarletteResponse (make_response : list Z -> Z -> string -> headers -> Response) : Prop := {
  make_status b s m h : status_code (make_response b s m h) = s;
  make_body b s m h : Envelope.body_bytes (r_body (make_response b s m h)) = b;
  make_keeps b s m h k v : assoc k h = Some v -> assoc k (r_headers (make_response b s m h)) = Some v;
  make_adds b s m h k :
    has_key k (r_headers (make_response b s m h)) = true ->
    has_key k h = true \/ In k ["content-length"; "content-type"]
}.

(** A response whose length and type are added when they are missing. *)
Definition plain_response (b : list Z) (s : Z) (media : string) (h : headers) : Response :=
  mkResponse s (set_default "content-type" media
                 (set_default "content-length" (str_int (Z.of_nat (length b))) h)) (Whole b).

Lemma assoc_app_some {A} k (v : A) d e : assoc k d = Some v -> assoc k (d ++ e) = Some v.
Proof.
  induction d as [|[k' v'] d IH]; [done|]. cbn [assoc app].
  destruct (String.eqb k k'); auto.
Qed.

Lemma has_key_set_default k name v h :
  has_key k (set_default name v h) = has_key k h || String.eqb k (lower name).
Proof.
  unfold set_default. destruct (has_key (lower name) h) eqn:E.
  - destruct (String.eqb_spec k (lower name)) as [->|]; [by rewrite E|by rewrite orb_false_r].
  - induction h as [|[k' v'] h IH]; unfold has_key in *; cbn [assoc app] in *.
    + by destruct (String.eqb k (lower name)).
    + destruct (String.eqb (lower name) k') eqn:E'; [done|].
      destruct (String.eqb k k'); [done|]. by apply IH.
Qed.

Lemma assoc_set_default k name v h w :
  assoc k h = Some w -> assoc k (set_default name v h) = Some w.
Proof.
  intros H. unfold set_default. destruct (has_key (lower name) h); [done|]. by apply assoc_app_some.
Qed.

#[export] Instance plain_response_starlette : StarletteResponse plain_response.
Proof.
  constructor; try done.
  - intros b s m h k v H. unfold plain_response. cbn [r_headers]. by do 2 apply assoc_set_default.
  - intros b s m h k. unfold plain_response. cbn [r_headers]. rewrite !has_key_set_default.
    change (lower "content-type") with "content-type". change (lower "content-length") with "content-length".
    rewrite !orb_true_iff, !String.eqb_eq. cbn. intuition.
Qed.

(** ** Request ids *)

Section RequestIds.
Import RequestId.

Definition safe_id (s : string) : bool :=
  nonempty s && (slen s <=? _MAX_LEN) && sforall safe_char s.

Lemma safe_re s : re_fullmatch _SAFE_RE s = nonempty s && sforall safe_char s.
Proof.
  apply eq_true_iff_eq. rewrite re_fullmatch_spec, andb_true_iff. unfold _SAFE_RE. rewrite den_cat. split.
  - intros (w1&w2&->&H1&[-> _]). rewrite !sapp_nil_r in *. apply den_plus_class in H1. tauto.
  - intros [Hn Hs]. exists s, "". rewrite sapp_nil_r. split; [done|].
    split; [by apply den_plus_class|]. cbn. auto.
Qed.

Lemma hexc_safe c : is_hexc c = true -> safe_char c = true.
Proof. ascii_cases c; vm_compute; congruence. Qed.

Lemma take_class p n : forall s,
  (n <= String.length s)%nat -> sforall p s = true ->
  String.length (take_str n s) = n /\ sforall p (take_str n s) = true.
Proof.
  induction n as [|n IH]; intros s Hn Hs; [done|]. destruct s as [|c s]; [cbn in Hn; lia|].
  cbn in *. bprop. destruct (IH s) as [-> ->]; [lia|done|]. by split; [|apply andb_true_intro].
Qed.

Lemma fresh_safe n : safe_id (take_str 16 (hexw 32 n)) = true.
Proof.
  destruct (take_class safe_char 16 (hexw 32 n)) as [Hl Hs].
  - rewrite hexw_length. lia.
  - apply (sforall_impl is_hexc); [apply hexc_safe|apply hexw_hexc].
  - unfold safe_id. rewrite Hs. unfold slen. rewrite Hl.
    by destruct (take_str 16 (hexw 32 n)).
Qed.

(** The id of every request is a text of 1 to 64 safe characters: the header of
    the caller, stripped, when it is such a text, and 16 digits of the UUID
    otherwise. *)
Lemma request_id_spec n request :
  let raw := strip (header _HEADER (rq_headers request)) in
  let rid := _resolve_request_id (hexw 32 n) request in
  safe_id rid = true /\ rid = if safe_id raw then raw else take_str 16 (hexw 32 n).
Proof.
  intros raw rid. subst rid. unfold _resolve_request_id. fold raw. rewrite safe_re.
  assert (E : nonempty raw && (slen raw <=? _MAX_LEN) && (nonempty raw && sforall safe_char raw) = safe_id raw).
  { unfold safe_id. destruct (nonempty raw), (slen raw <=? _MAX_LEN), (sforall safe_char raw); done. }
  rewrite E. destruct (safe_id raw) eqn:F; [done|]. split; [apply fresh_safe|done].
Qed.

End RequestIds.

(** ** Security headers *)

Section Headers.
Import SecurityHeaders.

Definition header_names : list string :=
  ["content-security-policy"; "x-content-type-options"; "x-frame-options"; "referrer-policy";
   "permissions-policy"].

Lemma secured_keys n h k : has_key k (secured n h) = has_key k h || str_in k header_names.
Proof.
  unfold secured. cbn [foldl fixed_headers fst snd]. rewrite !has_key_set_default.
  unfold header_names. cbn [str_in existsb]. rewrite !orb_assoc, orb_false_r. reflexivity.
Qed.

(** A header the handler has set is kept, and every other one has the value of
    the policy. *)
Lemma secured_keeps n h k v : assoc k h = Some v -> assoc k (secured n h) = Some v.
Proof. intros H. unfold secured. cbn [foldl fixed_headers fst snd]. by do 5 apply assoc_set_default. Qed.

(** The diagnostic endpoints read a constant that does not exist: they report no
    header at all, whatever the middleware sends. *)
Lemma diagnostics_blind :
  _header_snapshot = []
  /\ security_headers = VDict [("headers", VDict []); ("count", VInt 0)]
  /\ csp_test = VDict [("csp", VNone); ("present", VBool false)]
  /\ exists violations, _audit_security_headers
       = VDict [("headers", VDict []); ("contract", text_dict _REQUIRED_VALUES);
                ("violations", VList violations); ("healthy", VBool false);
                ("checked", VInt 5); ("count", VInt 0)]
     /\ length violations = 5%nat.
Proof. repeat split. eexists. split; reflexivity. Qed.

(** With the constant under its present name the audit is healthy. *)
Example diagnostics_intended : exists h, audit_of (("Content-Security-Policy", _CSP_BASE) :: fixed_headers) =
  VDict [("headers", h); ("contract", text_dict _REQUIRED_VALUES); ("violations", VList []);
         ("healthy", VBool true); ("checked", VInt 5); ("count", VInt 5)].
Proof. eexists. reflexivity. Qed.

End Headers.

(** ** The stack *)

Section StackFacts.
Context {A : Type}.
Context (decode_replace : list Z -> string) (loads : string -> res val).
Context (make_response : list Z -> Z -> string -> headers -> Response) `{!StarletteResponse make_response}.
Context (starlette_cors : Cors.policy -> (HttpRequest -> M (world A) Response) ->
          HttpRequest -> M (world A) Response).
Context (env : option string) (cors_origins : string).

Abbreviation app dr router :=
  (create_app decode_replace loads make_response starlette_cors env cors_origins dr router).

(** The envelope keeps the headers it is given. *)
Lemma wrap_keeps path v r r' k x :
  Envelope.wrap decode_replace loads make_response env path v r = Ok r' ->
  assoc k (r_headers r) = Some x -> assoc k (r_headers r') = Some x.
Proof.
  unfold Envelope.wrap. intros H Hx.
  destruct (negb _); [by injection H as <-|]. destruct (status_code r <? 400); [by injection H as <-|].
  destruct (Envelope._is_excluded path); [by injection H as <-|].
  destruct (Envelope.body_bytes (r_body r)); [by injection H as <-|].
  apply res_bind_ok in H as (det&_&[= <-]). by apply make_keeps.
Qed.

(** A header of the wrapped response is one of the original, or its length or
    type. *)
Lemma wrap_adds path v r r' k :
  Envelope.wrap decode_replace loads make_response env path v r = Ok r' ->
  has_key k (r_headers r') = true ->
  has_key k (r_headers r) = true \/ In k ["content-length"; "content-type"].
Proof.
  unfold Envelope.wrap. intros H Hx.
  destruct (negb _); [injection H as <-; auto|]. destruct (status_code r <? 400); [injection H as <-; auto|].
  destruct (Envelope._is_excluded path); [injection H as <-; auto|].
  destruct (Envelope.body_bytes (r_body r)); [injection H as <-; auto|].
  apply res_bind_ok in H as (det&_&[= <-]). by eapply make_adds.
Qed.

(** What the layers inside the request-id middleware see and leave. *)
Lemma app_answer dr router request w w' r :
  app dr router request w = (w', Ok r) ->
  exists r0 w0 rid,
    rid = RequestId._resolve_request_id (uuid_hex dr) request
    /\ rate_limit_mw make_response dr (cors_mw starlette_cors cors_origins (security_headers_mw dr router))
         request (set_vars (assoc_set "request_id" (VStr rid) (vars w)) w) = (w0, Ok r0)
    /\ w' = set_vars [] w0
    /\ Envelope.wrap decode_replace loads make_response env (rq_url_path request) []
         (set_headers (assoc_set RequestId._HEADER rid) r0) = Ok r.
Proof.
  unfold create_app, envelope_mw, request_id_mw. intros H.
  destruct (rate_limit_mw _ _ _ _ _) as [w0 [r0|e]] eqn:E; cbn in H; [|discriminate].
  injection H as <- H. eauto 10.
Qed.

Lemma app_vars dr router request w : vars (app dr router request w).1 = [].
Proof.
  unfold create_app, envelope_mw, request_id_mw.
  destruct (rate_limit_mw _ _ _ _ _) as [w0 r0]. reflexivity.
Qed.


Lemma has_key_some {X} k (h : list (string * X)) : has_key k h = true <-> exists v, assoc k h = Some v.
Proof. unfold has_key. destruct (assoc k h); split; naive_solver. Qed.

Lemma wrap_status path v r r' :
  Envelope.wrap decode_replace loads make_response env path v r = Ok r' -> status_code r' = status_code r.
Proof.
  unfold Envelope.wrap. intros H.
  destruct (negb _); [by injection H as <-|]. destruct (status_code r <? 400); [by injection H as <-|].
  destruct (Envelope._is_excluded path); [by injection H as <-|].
  destruct (Envelope.body_bytes (r_body r)); [by injection H as <-|].
  apply res_bind_ok in H as (det&_&[= <-]). apply make_status.
Qed.

Lemma has_key_set_other k k' rid (h : headers) :
  k <> k' -> has_key k' (assoc_set k rid h) = has_key k' h.
Proof. intros H. unfold has_key. by rewrite assoc_set_other by congruence. Qed.

(** The answer of the limiter has no header of the security policy, through all
    the outer layers. *)
Lemma limited_headers path l retry rid r k :
  Envelope.wrap decode_replace loads make_response env path []
    (set_headers (assoc_set RequestId._HEADER rid) (too_many make_response l retry)) = Ok r ->
  In k header_names -> has_key k (r_headers r) = false.
Proof.
  intros Hw Hk. apply not_true_is_false. intros H.
  assert (Hne : k <> RequestId._HEADER /\ ~ In k ["content-length"; "content-type"]
                /\ has_key k [("retry-after", str_int retry)] = false).
  { unfold header_names in Hk. unfold RequestId._HEADER, has_key. cbn [In assoc] in *.
    repeat (destruct Hk as [<-|Hk]; [cbn; intuition congruence|]). done. }
  destruct Hne as (H1&H2&H3).
  destruct (wrap_adds _ _ _ _ _ Hw H) as [H'|H']; [|done].
  cbn [set_headers r_headers] in H'. rewrite has_key_set_other in H' by congruence.
  destruct (make_adds _ _ _ _ _ H') as [H''|H'']; [congruence|done].
Qed.

Lemma app_unfold dr router request w :
  let rid := RequestId._resolve_request_id (uuid_hex dr) request in
  app dr router request w
  = let '(w0, r0) := rate_limit_mw make_response dr
                       (cors_mw starlette_cors cors_origins (security_headers_mw dr router)) request
                       (set_vars (assoc_set "request_id" (VStr rid) (vars w)) w) in
    (set_vars [] w0,
     r ← set_headers (assoc_set RequestId._HEADER rid) <$> r0;
     Envelope.wrap decode_replace loads make_response env (rq_url_path request) [] r).
Proof.
  unfold create_app, envelope_mw, request_id_mw. cbv zeta.
  destruct (rate_limit_mw _ _ _ _ _) as [w0 r0]. reflexivity.
Qed.

(** Without CORS the innermost layer adds its headers to what the router answers. *)
Lemma inner_headers dr router request w w' r :
  Cors._parse_origins cors_origins = [] ->
  cors_mw starlette_cors cors_origins (security_headers_mw dr router) request w = (w', Ok r) ->
  exists h, r_headers r = SecurityHeaders.secured (nonce dr) h.
Proof.
  intros Hc. unfold cors_mw, Cors.describe_cors_policy. rewrite Hc. cbn [Cors.enabled].
  unfold security_headers_mw, mbind, M_bind, mret, M_ret.
  destruct (router request w) as [w1 [r1|e]]; intros [= <- <-]. by exists (r_headers r1).
Qed.


End StackFacts.

(** ** The envelope *)

Lemma utf8_app a b : utf8 (a +:+ b) = utf8 a ++ utf8 b.
Proof.
  induction a as [|c a IH]; [done|]. cbn [utf8 String.append]. by rewrite IH, app_assoc.
Qed.

Section EnvelopeFacts.
Import Envelope.
Context (decode_replace : list Z -> string) (loads : string -> res val).
Context (make_response : list Z -> Z -> string -> headers -> Response) `{!StarletteResponse make_response}.

(** Nothing is wrapped unless the switch is on, the status is an error and the
    path is not excluded; an empty body stays empty. *)
Lemma wrap_off env path v r :
  _is_envelope_enabled env = false \/ status_code r < 400 \/ _is_excluded path = true ->
  wrap decode_replace loads make_response env path v r = Ok r.
Proof.
  intros H. unfold wrap. destruct (_is_envelope_enabled env); [|done]. cbn [negb].
  destruct (Z.ltb_spec (status_code r) 400); [done|]. destruct (_is_excluded path); [done|].
  destruct H as [?|[?|?]]; [done|lia|done].
Qed.

Lemma wrap_empty env path v r :
  body_bytes (r_body r) = [] ->
  exists r', wrap decode_replace loads make_response env path v r = Ok r'
    /\ status_code r' = status_code r /\ r_headers r' = r_headers r /\ body_bytes (r_body r') = [].
Proof.
  intros Hb. unfold wrap. destruct (negb _); [eauto|]. destruct (_ <? 400); [eauto|].
  destruct (_is_excluded path); [eauto|]. rewrite Hb. eexists. split; [done|].
  cbn. destruct (r_body r); auto.
Qed.

(** Every error code and every fallback text of the two tables is for the same
    statuses, so a wrapped response always has a message. *)
Lemma tables_agree : map fst _STATUS_CODE_TO_ERROR_CODE = map fst _HTTP_STATUS_TEXT.
Proof. reflexivity. Qed.

Lemma dumps_detail s :
  dumps (VDict [("detail", VStr s)]) = "{" +:+ (json_string "detail" +:+ ": " +:+ json_string s) +:+ "}".
Proof. reflexivity. Qed.

Lemma dumps_envelope status s rid :
  exists front, dumps (envelope status s rid)
    = "{" +:+ (front +:+ ", ") +:+ (json_string "detail" +:+ ": " +:+ json_string s) +:+ "}".
Proof.
  exists (json_string "error" +:+ ": " +:+ dumps (VDict [("code", VStr (_error_code_for status));
    ("message", VStr s); ("request_id", rid)])).
  unfold envelope. cbn [dumps map fst snd join]. by rewrite !sapp_assoc.
Qed.

(** A wrapped error never has the length it declares: an error of an
    endpoint, a JSON object with its message under [detail], becomes the envelope
    around that message, but keeps the Content-Length of the original body, which
    the new body always exceeds. *)
Theorem envelope_length (env : option string) (path : string) (v : list (string * val))
    (r : Response) (s : string) :
  let data := body_bytes (r_body r) in
  _is_envelope_enabled env = true -> _is_excluded path = false -> 400 <= status_code r ->
  data <> [] -> nonempty s = true ->
  contains "json" (lower (header "content-type" (r_headers r))) = true ->
  assoc "content-length" (r_headers r) = Some (str_int (Z.of_nat (length data))) ->
  safe_loads loads (decode_replace data) = Ok (VDict [("detail", VStr s)]) ->
  (length data <= length (utf8 (dumps (VDict [("detail", VStr s)]))))%nat ->
  exists r', wrap decode_replace loads make_response env path v r = Ok r'
    /\ status_code r' = status_code r
    /\ body_bytes (r_body r') = utf8 (dumps (envelope (status_code r) s (request_id_of r v)))
    /\ exists declared, assoc "content-length" (r_headers r') = Some (str_int (Z.of_nat declared))
         /\ (declared < length (body_bytes (r_body r')))%nat.
Proof.
  intros data He Hx Hs Hd Hn Hj Hl Hp Hle. unfold wrap. rewrite He, Hx. cbn [negb].
  rewrite (proj2 (Z.ltb_ge _ _) Hs). fold data. destruct data as [|b data'] eqn:Ed; [done|].
  unfold _extract_detail. rewrite Hj, Hp. cbn [get assoc String.eqb Ascii.eqb Bool.eqb default from_option
    Datatypes.id mbind res_bind].
  unfold detail_or_text. rewrite Hn. eexists. split; [reflexivity|].
  rewrite make_status, make_body. split_and!; [done..|].
  exists (length (b :: data')). split; [by apply make_keeps|].
  destruct (dumps_envelope (status_code r) s (request_id_of r v)) as [front ->].
  rewrite dumps_detail, !utf8_app, !length_app in Hle. rewrite !utf8_app, !length_app.
  change (length (utf8 ", ")) with 2%nat. change (length (utf8 "{")) with 1%nat in *. lia.
Qed.

(** FastAPI answers a refused parameter with a list under [detail]; its envelope
    holds the text of that list. *)
Example validation_detail :
  _extract_detail (fun _ => "doc") (fun _ => Ok (VDict [("detail", VList [VDict [("msg", VStr "m")]])]))
    [1] "application/json"
  = Ok (dumps_compact (VList [VDict [("msg", VStr "m")]])).
Proof. reflexivity. Qed.

End EnvelopeFacts.

(** ** Concrete requests *)

Section Witnesses.

Definition ex_request : HttpRequest := mkHttp "/api/v1/hosts" "GET" [("x-request-id", " abc-1 ")] (Some "10.0.0.1").
Definition ex_world (lim : Z) : world unit := mkWorld [] (new_limiter true lim) tt.
Definition ex_router (text : string) : HttpRequest -> M (world unit) Response := fun _ w =>
  (w, Ok (plain_response (utf8 text) 200 "application/json" [])).
Definition ex_app (dr : request_draws) : HttpRequest -> M (world unit) Response :=
  create_app (fun _ => "") (fun _ => Raise JSONDecodeError) plain_response (fun _ h => h) None "" dr (ex_router "ok").



Definition ex_error : Response :=
  let data := utf8 (dumps (VDict [("detail", VStr "host not found")])) in
  mkResponse 404 [("content-length", str_int (Z.of_nat (length data))); ("content-type", "application/json")]
    (Iterator [CBytes data]).

Lemma envelope_length_witness :
  let text := dumps (VDict [("detail", VStr "host not found")]) in
  exists r', Envelope.wrap (fun _ => text) (fun _ => Ok (VDict [("detail", VStr "host not found")])) plain_response
               (Some " TRUE ") "/api/v1/hosts" [] ex_error = Ok r'
    /\ status_code r' = 404
    /\ Envelope.body_bytes (r_body r') = utf8 (dumps (Envelope.envelope 404 "host not found" VNone))
    /\ exists declared, assoc "content-length" (r_headers r') = Some (str_int (Z.of_nat declared))
         /\ (declared < length (Envelope.body_bytes (r_body r')))%nat.
Proof.
  apply (envelope_length _ _ plain_response (Some " TRUE ") "/api/v1/hosts" [] ex_error "host not found");
    try reflexivity; try (by vm_compute).
Defined.

End Witnesses.
