(* ===== verification/SelfDefense.v ===== *)
(** * Self-defence events: [self_defense/__init__.py],
    [self_defense/event_normalizer.py], [self_defense/csp_violation_reporter.py]

    The event ring and the throttle table are the record [state]; the endpoint is
    a step on it, taken under its lock.  A request arrives with its JSON body
    already parsed (FastAPI refuses other bodies with 422) and headers with
    lower-case names.  Instants of the wall clock are integer nanoseconds, the
    text of [_now_iso] is an argument.  The rules of the pack are loaded and
    matched as [Sigma] does. *)

From S2P Require Import Prelude PyStr PyVal PyStd Sigma RateLimit.
From Stdlib Require Import Ascii.

(** ** [event_normalizer.py] *)

Record ZaqorinEvent : Type := mkZaqorin {
  ts : string;
  event_type : string;
  src_ip : option string;
  route : option string;
  status : option Z;
  auth_method : option string;
  key_id : option string;
  agent_id : option string;
  message_size_bytes : option Z;
  jsonl_persistence_enabled : option bool;
  violated_directive : option string;
  trigger : option string;
  target_table : option string;
  target_chain : option string;
  cmdline : option string
}.

(** [if self.x is not None: md[x] = self.x]. *)
Definition opt_field {A} (key : string) (f : A -> val) (o : option A) : list (string * val) :=
  match o with Some a => [(key, f a)] | None => [] end.

Definition to_metadata (e : ZaqorinEvent) : list (string * val) :=
  ("event_type", VStr (event_type e)) :: ("src_ip", from_option VStr VNone (src_ip e))
  :: opt_field "route" VStr (route e) ++ opt_field "status" VInt (status e)
  ++ opt_field "auth_method" VStr (auth_method e) ++ opt_field "key_id" VStr (key_id e)
  ++ opt_field "agent_id" VStr (agent_id e)
  ++ opt_field "message_size_bytes" VInt (message_size_bytes e)
  ++ opt_field "jsonl_persistence_enabled" VBool (jsonl_persistence_enabled e)
  ++ opt_field "violated_directive" VStr (violated_directive e) ++ opt_field "trigger" VStr (trigger e)
  ++ opt_field "target_table" VStr (target_table e) ++ opt_field "target_chain" VStr (target_chain e)
  ++ opt_field "cmdline" VStr (cmdline e).

Definition _opt_int (record : list (string * val)) (key : string) : res (option Z) :=
  match get key record with
  | VNone => Ok None
  | v => match int_of v with
         | Ok z => Ok (Some z)
         | Raise TypeError => Ok None
         | Raise e => if is_value_error e then Ok None else Raise e
         end
  end.

Definition _opt_bool (record : list (string * val)) (key : string) : option bool :=
  match get key record with
  | VBool b => Some b
  | VStr s =>
      let lo := lower (strip s) in
      if str_in lo ["true"; "1"; "yes"] then Some true
      else if str_in lo ["false"; "0"; "no"] then Some false else None
  | _ => None
  end.

(** [record.get(key) if isinstance(record.get(key), str) else None]. *)
Definition str_field (record : list (string * val)) (key : string) : option string :=
  match get key record with VStr s => Some s | _ => None end.

Definition from_log_record (now_iso : string) (record : list (string * val)) : res ZaqorinEvent :=
  let event_type := str_of (val_or (get "event_type" record) (VStr "")) in
  status ← _opt_int record "status";
  message_size_bytes ← _opt_int record "message_size_bytes";
  Ok (mkZaqorin now_iso event_type (str_field record "src_ip") (str_field record "route") status
        (str_field record "auth_method") (str_field record "key_id") (str_field record "agent_id")
        message_size_bytes (_opt_bool record "jsonl_persistence_enabled")
        (str_field record "violated_directive") (str_field record "trigger")
        (str_field record "target_table") (str_field record "target_chain") (str_field record "cmdline")).

(** [s.split(sep, 1)[0]]. *)
Definition before (sep : ascii) (s : string) : string := (partition_char sep s).1.1.

Definition bare_directive (v : val) : string :=
  let violated := match v with VStr s => s | _ => "" end in
  let violated := strip (before ";" violated) in
  if sexists (is_char " ") violated then strip (before " " violated) else violated.

Definition non_blank (s : string) : option string := if nonempty s then Some s else None.

Definition from_csp_report (now_iso : string) (body : list (string * val)) (src_ip : option string)
    (status : option Z) : ZaqorinEvent :=
  let inner := match get "csp-report" body with VDict d => d | _ => body end in
  let violated := bare_directive (val_or (get "violated-directive" inner) (get "effective-directive" inner)) in
  mkZaqorin now_iso "csp.violation" src_ip (Some "/api/v1/_csp-report") status None None None None None
    (non_blank violated) None None None None.

(** ** The event ring *)

Definition STREAM_MAX : nat := Z.to_nat 4096.

Definition last_n {A} (n : nat) (l : list A) : list A := drop (length l - n) l.

(** [deque(maxlen=4096).append]. *)
Definition emit (event : ZaqorinEvent) (stream : list ZaqorinEvent) : list ZaqorinEvent :=
  last_n STREAM_MAX (stream ++ [event]).

(** [list(_STREAM)[-max_items:]]: a bound of zero or below is not a bound. *)
Definition drain (max_items : Z) (stream : list ZaqorinEvent) : list ZaqorinEvent :=
  if 0 <? max_items then last_n (Z.to_nat max_items) stream
  else drop (Z.to_nat (- max_items)) stream.

(** ** The throttle *)

Definition _THROTTLE_WINDOW_SEC : Z := 60 * NS.
Definition _THROTTLE_BUDGET : Z := 10.
Definition _MAX_BODY_BYTES : Z := 16 * 1024.

Definition fresh_bucket (cutoff : Z) (bucket : list Z) : option (list Z) :=
  match last bucket with
  | None => None
  | Some t => if t <? cutoff then None else Some bucket
  end.

Definition _evict_stale (now : Z) (recent : gmap string (list Z)) : gmap string (list Z) :=
  omap (fresh_bucket (now - _THROTTLE_WINDOW_SEC)) recent.

Definition _throttle_allowed (src : string) (now : Z) (recent : gmap string (list Z))
  : gmap string (list Z) * bool :=
  let recent := _evict_stale now recent in
  let bucket := popleft_while (now - _THROTTLE_WINDOW_SEC) (default [] (recent !! src)) in
  if _THROTTLE_BUDGET <=? Z.of_nat (length bucket) then (<[src := bucket]> recent, false)
  else (<[src := bucket ++ [now]]> recent, true).

(** ** The endpoint *)

Record CspRequest : Type := mkCspRequest {
  csp_headers : list (string * string);
  csp_client : option string
}.

(** [configured] is the environment variable [ZAQORIN_SRC_IP_HEADER]. *)
Definition _resolve_src_ip (configured : option string) (request : CspRequest) : string :=
  let name := strip (default "" configured) in
  let peer := match csp_client request with
              | Some h => if nonempty h then h else "<unknown>"
              | None => "<unknown>"
              end in
  if nonempty name then
    match assoc (lower name) (csp_headers request) with
    | Some raw => if nonempty raw
                  then let first := strip (before "," raw) in
                       if nonempty first then first else "<unknown>"
                  else peer
    | None => peer
    end
  else peer.

Record state : Type := mkState { _recent : gmap string (list Z); _STREAM : list ZaqorinEvent }.

(** The checks on the headers: the status of the refusal. *)
Definition refuse_headers (request : CspRequest) : option Z :=
  let header name := default "" (assoc name (csp_headers request)) in
  if existsb (fun te => contains "chunked" (lower te))
       [header "transfer-encoding"; header "te"; header "x-transfer-encoding"]
  then Some 411
  else match assoc "content-length" (csp_headers request) with
       | None => None
       | Some cl => match py_int cl with
                    | None => Some 400
                    | Some n => if _MAX_BODY_BYTES <? n then Some 413 else None
                    end
       end.

Definition receive_csp_report (configured : option string) (now_iso : string) (now : Z)
    (payload : list (string * val)) (request : CspRequest) (st : state) : state * Z :=
  match refuse_headers request with
  | Some code => (st, code)
  | None =>
      let src := _resolve_src_ip configured request in
      let '(recent, allowed) := _throttle_allowed src now (_recent st) in
      if negb allowed then (mkState recent (_STREAM st), 429)
      else (mkState recent (emit (from_csp_report now_iso payload (Some src) (Some 204)) (_STREAM st)), 204)
  end.

(** ** The rule pack *)

(** [docs] lists the documents of the rule directory, [None] when it does not
    exist. *)
Definition load_rules (docs : option (list (res val))) : res (list CompiledSigmaRule) :=
  match docs with None => Ok [] | Some ds => load_rules_from_dir true ds end.

(** [SELF_DEFENSE_RULES] and [RULE_TITLES]: both are built on import. *)
Definition rule_titles (docs : option (list (res val))) : res (list string) :=
  rules ← load_rules docs; Ok (map rule_title rules).

(** ** A sequence of reports *)

Record report : Type := mkReport {
  rp_now : Z;
  rp_iso : string;
  rp_payload : list (string * val);
  rp_request : CspRequest
}.

Fixpoint csp_run (configured : option string) (trace : list report) (st : state) : state * list Z :=
  match trace with
  | [] => (st, [])
  | r :: rest =>
      let '(st1, code) := receive_csp_report configured (rp_iso r) (rp_now r) (rp_payload r) (rp_request r) st in
      let '(st2, codes) := csp_run configured rest st1 in (st2, code :: codes)
  end.

(** The reports answered 204, with their sources. *)
Fixpoint accepted (configured : option string) (trace : list report) (codes : list Z) : log :=
  match trace, codes with
  | r :: rest, code :: codes =>
      (if code =? 204 then [(_resolve_src_ip configured (rp_request r), rp_now r)] else [])
      ++ accepted configured rest codes
  | _, _ => []
  end.

(** The answer to each report given the log of accepted ones, which forgets
    nothing. *)
Definition spec_code (configured : option string) (r : report) (l : log) : Z :=
  match refuse_headers (rp_request r) with
  | Some code => code
  | None =>
      if 10 <=? Z.of_nat (length (since (rp_now r - 60 * NS)
                (times (_resolve_src_ip configured (rp_request r)) l)))
      then 429 else 204
  end.

Fixpoint spec_codes (configured : option string) (trace : list report) (l : log) : list Z :=
  match trace with
  | [] => []
  | r :: rest =>
      let code := spec_code configured r l in
      code :: spec_codes configured rest (l ++ accepted configured [r] [code])
  end.

Fixpoint nondecreasing (last : Z) (trace : list report) : bool :=
  match trace with
  | [] => true
  | r :: rest => (last <=? rp_now r) && nondecreasing (rp_now r) rest
  end.

(** ** The throttle table agrees with the log *)

Definition held (recent : gmap string (list Z)) (src : string) : list Z := default [] (recent !! src).

Definition table_agrees (last : Z) (recent : gmap string (list Z)) (l : log) : Prop :=
  (forall src, StronglySorted Z.le (times src l) /\ forall x, x ∈ times src l -> x <= last)
  /\ (forall src, exists c, c <= last - _THROTTLE_WINDOW_SEC /\ held recent src = since c (times src l))
  /\ map_Forall (fun _ b => b <> [] /\ Z.of_nat (length b) <= _THROTTLE_BUDGET) recent.

Lemma since_none c l : (forall x, x ∈ l -> x < c) -> since c l = [].
Proof.
  induction l as [|x l IH]; intros H; [done|].
  rewrite since_cons, decide_False by (specialize (H x); set_solver by lia). apply IH. set_solver.
Qed.

Lemma since_stale c b t : StronglySorted Z.le b -> last b = Some t -> t < c -> since c b = [].
Proof.
  intros Hs Hl Hc. apply last_Some in Hl as [l ->]. apply StronglySorted_app in Hs as (H&_&_).
  apply since_none. intros x [Hx| ->%list_elem_of_singleton]%elem_of_app; [|done].
  specialize (H x t Hx). cbn in H. rewrite list_elem_of_singleton in H. specialize (H eq_refl). lia.
Qed.

(** What is left of a bucket after the sweep, seen from the start of the window. *)
Lemma evicted_held now recent src l c :
  StronglySorted Z.le (times src l) -> c <= now - _THROTTLE_WINDOW_SEC ->
  held recent src = since c (times src l) ->
  exists c', c' <= now - _THROTTLE_WINDOW_SEC /\ held (_evict_stale now recent) src = since c' (times src l).
Proof.
  intros Hs Hc Hh. unfold held, _evict_stale in *. rewrite lookup_omap.
  destruct (recent !! src) as [b|] eqn:E; cbn [default from_option mbind option_bind Datatypes.id] in *;
    [|by exists c].
  unfold fresh_bucket. destruct (last b) as [t|] eqn:El.
  - destruct (t <? now - _THROTTLE_WINDOW_SEC) eqn:Et; cbn [default from_option Datatypes.id]; [|by exists c].
    bprop. exists (now - _THROTTLE_WINDOW_SEC). split; [lia|].
    rewrite <- (since_since c), <- Hh by done. symmetry. eapply since_stale; [|done..].
    rewrite Hh. by apply sorted_since.
  - apply last_None in El as ->. cbn. by exists c.
Qed.

Lemma evicted_forall now recent (P : string -> list Z -> Prop) :
  map_Forall P recent -> map_Forall P (_evict_stale now recent).
Proof.
  intros H src b. unfold _evict_stale. rewrite lookup_omap.
  destruct (recent !! src) as [b0|] eqn:E; [|done]. cbn. unfold fresh_bucket.
  destruct (last b0) as [t|]; [|done]. destruct (t <? _); [done|]. intros [= <-]. by apply H.
Qed.

Lemma popleft_length c l : (length (popleft_while c l) <= length l)%nat.
Proof. induction l as [|x l IH]; [done|]. cbn. destruct (x <? c); cbn; lia. Qed.

Lemma throttle_step now src recent l :
  table_agrees now recent l ->
  let '(recent', ok) := _throttle_allowed src now recent in
  ok = negb (10 <=? Z.of_nat (length (since (now - 60 * NS) (times src l))))
  /\ table_agrees now recent' (if ok : bool then l ++ [(src, now)] else l).
Proof.
  intros (Hs&Hh&Hf). unfold _throttle_allowed. set (r1 := _evict_stale now recent).
  assert (Hh1 : forall s, exists c, c <= now - _THROTTLE_WINDOW_SEC /\ held r1 s = since c (times s l)).
  { intros s. destruct (Hh s) as (c&Hc&E). eapply evicted_held; [apply Hs|exact Hc|exact E]. }
  assert (Hf1 := evicted_forall now recent _ Hf). fold r1 in Hf1.
  change (default [] (r1 !! src)) with (held r1 src).
  assert (Hp : popleft_while (now - _THROTTLE_WINDOW_SEC) (held r1 src)
               = since (now - 60 * NS) (times src l)).
  { destruct (Hh1 src) as (c&Hc&->). rewrite popleft_since by (apply sorted_since, Hs).
    by apply since_since. }
  rewrite Hp. set (kept := since (now - 60 * NS) (times src l)).
  assert (Hle : Z.of_nat (length (held r1 src)) <= 10).
  { unfold held. destruct (r1 !! src) as [b|] eqn:Eb; cbn; [|lia]. by apply (Hf1 src). }
  assert (Hkept : Z.of_nat (length kept) <= 10).
  { pose proof (popleft_length (now - _THROTTLE_WINDOW_SEC) (held r1 src)) as Hpl.
    rewrite Hp in Hpl. fold kept in Hpl. lia. }
  change _THROTTLE_BUDGET with 10. destruct (10 <=? Z.of_nat (length kept)) eqn:E; (split; [done|]); bprop.
  - split; [done|]. split.
    + intros s. unfold held. destruct (decide (s = src)) as [->|Hne].
      * rewrite lookup_insert_eq. exists (now - 60 * NS). split; [done|]. done.
      * rewrite lookup_insert_ne by done. apply Hh1.
    + apply map_Forall_insert_2; [|done]. split; [by destruct kept|done].
  - split; [|split].
    + intros s. rewrite times_snoc. destruct (decide (src = s)) as [->|]; [|apply Hs].
      split; [by apply sorted_snoc; apply Hs|]. intros x Hx.
      apply elem_of_app in Hx as [Hx| ->%list_elem_of_singleton]; [by apply (proj2 (Hs s))|lia].
    + intros s. unfold held. rewrite times_snoc. destruct (decide (src = s)) as [->|Hne].
      * rewrite lookup_insert_eq. exists (now - 60 * NS). split; [done|]. cbn.
        rewrite since_app. f_equal. rewrite since_cons, decide_True by (unfold NS; lia). done.
      * rewrite lookup_insert_ne by done. apply Hh1.
    + apply map_Forall_insert_2; [|done]. split; [by destruct kept|].
      rewrite length_app. cbn [length]. unfold _THROTTLE_BUDGET. lia.
Qed.

Lemma table_later last now recent l :
  last <= now -> table_agrees last recent l -> table_agrees now recent l.
Proof.
  intros Hle (Hs&Hh&Hf). split; [|split; [|done]].
  - intros src. split; [apply Hs|]. intros x Hx. apply Hs in Hx. lia.
  - intros src. destruct (Hh src) as (c&Hc&E). exists c. split; [lia|done].
Qed.

Lemma refuse_codes request code : refuse_headers request = Some code -> (code =? 204) = false.
Proof.
  unfold refuse_headers. destruct (existsb _ _); [by intros [= <-]|].
  destruct (assoc _ _); [|done]. destruct (py_int _); [|by intros [= <-]].
  destruct (_ <? _); [by intros [= <-]|done].
Qed.

(** One report: its answer is that of the log, and the table agrees with the
    longer log. *)
Lemma report_step configured r st l :
  table_agrees (rp_now r) (_recent st) l ->
  let '(st', code) := receive_csp_report configured (rp_iso r) (rp_now r) (rp_payload r) (rp_request r) st in
  code = spec_code configured r l
  /\ table_agrees (rp_now r) (_recent st') (l ++ accepted configured [r] [code]).
Proof.
  intros Hag. unfold receive_csp_report, spec_code, accepted.
  destruct (refuse_headers (rp_request r)) as [code|] eqn:E.
  - split; [done|]. apply refuse_codes in E. rewrite E. cbn. by rewrite app_nil_r.
  - pose proof (throttle_step (rp_now r) (_resolve_src_ip configured (rp_request r)) (_recent st) l Hag) as H.
    destruct (_throttle_allowed _ _ _) as [recent ok]. destruct H as [-> H].
    destruct (10 <=? _); cbn [negb _recent] in *; (split; [done|]); cbn [Z.eqb Pos.eqb app];
      [by rewrite app_nil_r|done].
Qed.

Lemma run_agrees configured trace : forall last st l,
  nondecreasing last trace = true -> table_agrees last (_recent st) l ->
  let '(st', codes) := csp_run configured trace st in
  codes = spec_codes configured trace l
  /\ exists last', table_agrees last' (_recent st') (l ++ accepted configured trace codes).
Proof.
  induction trace as [|r rest IH]; intros last st l Hm Hag.
  { split; [done|]. exists last. cbn. by rewrite app_nil_r. }
  cbn [nondecreasing] in Hm. bprop. apply (table_later _ (rp_now r)) in Hag; [|done].
  pose proof (report_step configured r st l Hag) as Hstep. cbn [csp_run spec_codes].
  destruct (receive_csp_report _ _ _ _ _ _) as [st1 code]. destruct Hstep as [-> Hag1].
  specialize (IH _ st1 _ ltac:(eassumption) Hag1).
  destruct (csp_run configured rest st1) as [st2 codes]. destruct IH as [-> [last' Hl]].
  split; [done|]. exists last'. revert Hl. cbn [accepted]. by rewrite app_nil_r, <- app_assoc.
Qed.

(** ** The budget *)

Lemma spec_budget configured trace : forall last l,
  nondecreasing last trace = true -> bounded 10 last l ->
  exists last', bounded 10 last' (l ++ accepted configured trace (spec_codes configured trace l)).
Proof.
  induction trace as [|r rest IH]; intros last l Hm Hb; [exists last; cbn; by rewrite app_nil_r|].
  cbn [nondecreasing] in Hm. bprop. cbn [spec_codes accepted].
  assert (Hb1 : bounded 10 (rp_now r) (l ++ accepted configured [r] [spec_code configured r l])).
  { intros key. cbn [accepted]. rewrite app_nil_r.
    destruct (Hb key) as [Hx Hn].
    assert (Hx' : forall x, x ∈ times key l -> x <= rp_now r) by (intros x Hin; specialize (Hx x Hin); lia).
    destruct (spec_code configured r l =? 204) eqn:E; [|by rewrite app_nil_r].
    rewrite times_snoc. destruct (decide (_ = key)) as [<-|]; [|done]. split; [|].
    { intros x. rewrite elem_of_app, list_elem_of_singleton. intros [Hin| ->]; [by apply Hx'|lia]. }
    intros t. specialize (Hn t). unfold in_window in *. rewrite filter_app, length_app, filter_cons.
    destruct (decide (t <= rp_now r <= t + WINDOW_SEC)) as [Ht|]; cbn; [|lia].
    unfold spec_code in E. destruct (refuse_headers (rp_request r)) as [code|] eqn:Er.
    { apply refuse_codes in Er. congruence. }
    destruct (10 <=? _) eqn:E10; [done|]. bprop.
    pose proof (admitted_since t (rp_now r - 60 * NS)
      (times (_resolve_src_ip configured (rp_request r)) l)) as Hle.
    specialize (Hle ltac:(unfold WINDOW_SEC in *; lia)). unfold in_window, WINDOW_SEC in *. lia. }
  destruct (IH (rp_now r) _ ltac:(done) Hb1) as [last' Hl]. exists last'.
  revert Hl. cbn [accepted]. rewrite app_nil_r. by rewrite <- app_assoc.
Qed.

Definition idle : state := mkState ∅ [].

Lemma idle_agrees last : table_agrees last (_recent idle) [].
Proof.
  split; [|split].
  - intros src. split; [constructor|set_solver].
  - intros src. exists (last - _THROTTLE_WINDOW_SEC). done.
  - apply map_Forall_empty.
Qed.


Definition ex_report (now : Z) : report :=
  mkReport now "2026-01-01T00:00:00+00:00"
    [("csp-report", VDict [("violated-directive", VStr "script-src 'self'; x")])]
    (mkCspRequest [("content-length", "90")] (Some "10.0.0.9")).

(** Eleven reports within a minute, and one a minute after the first. *)
Definition ex_reports : list report := map ex_report (map (fun i => i * NS) [0;1;2;3;4;5;6;7;8;9;10;61]).

Example csp_budget_codes :
  (csp_run None ex_reports idle).2 = [204;204;204;204;204;204;204;204;204;204;429;204].
Proof. vm_compute. reflexivity. Qed.


(** ** The ring and the rules over it *)

Lemma last_n_snoc {A} n (l : list A) x : last_n n (last_n n l ++ [x]) = last_n n (l ++ [x]).
Proof.
  unfold last_n. rewrite !length_app, length_drop. cbn [length].
  destruct (decide (length l <= n)%nat) as [H|H].
  - replace (length l - n)%nat with 0%nat by lia. cbn [drop]. do 2 f_equal. lia.
  - rewrite <- (drop_app_le l [x]) by lia. rewrite drop_drop. f_equal. lia.
Qed.

(** The events of the accepted reports, oldest first. *)
Fixpoint accepted_events (configured : option string) (trace : list report) (codes : list Z)
  : list ZaqorinEvent :=
  match trace, codes with
  | r :: rest, code :: codes =>
      (if code =? 204
       then [from_csp_report (rp_iso r) (rp_payload r)
               (Some (_resolve_src_ip configured (rp_request r))) (Some 204)] else [])
      ++ accepted_events configured rest codes
  | _, _ => []
  end.

Lemma report_stream configured r st :
  let '(st', code) := receive_csp_report configured (rp_iso r) (rp_now r) (rp_payload r) (rp_request r) st in
  _STREAM st' = if code =? 204
    then emit (from_csp_report (rp_iso r) (rp_payload r)
                 (Some (_resolve_src_ip configured (rp_request r))) (Some 204)) (_STREAM st)
    else _STREAM st.
Proof.
  unfold receive_csp_report. destruct (refuse_headers (rp_request r)) as [code|] eqn:E.
  - apply refuse_codes in E. by rewrite E.
  - destruct (_throttle_allowed _ _ _) as [recent [|]]; reflexivity.
Qed.

Lemma run_stream configured trace : forall st all,
  _STREAM st = last_n STREAM_MAX all ->
  let '(st', codes) := csp_run configured trace st in
  _STREAM st' = last_n STREAM_MAX (all ++ accepted_events configured trace codes).
Proof.
  induction trace as [|r rest IH]; intros st all Hst; [cbn; by rewrite app_nil_r|].
  cbn [csp_run]. pose proof (report_stream configured r st) as Hr.
  destruct (receive_csp_report _ _ _ _ _ _) as [st1 code].
  set (new := if code =? 204
       then [from_csp_report (rp_iso r) (rp_payload r)
               (Some (_resolve_src_ip configured (rp_request r))) (Some 204)] else []) in *.
  assert (H1 : _STREAM st1 = last_n STREAM_MAX (all ++ new)).
  { unfold new. rewrite Hr. destruct (code =? 204); [|by rewrite app_nil_r].
    unfold emit. by rewrite Hst, last_n_snoc. }
  specialize (IH st1 _ H1). destruct (csp_run configured rest st1) as [st2 codes].
  rewrite IH. cbn [accepted_events]. fold new. by rewrite app_assoc.
Qed.

(** The selections of the rules T1505.003, T1505.004 and T1505.005. *)
Definition directive_selection : list (string * val) :=
  [("event_type", VStr "csp.violation");
   ("violated_directive", VList [VStr "script-src"; VStr "style-src"])].
Definition burst_selection : list (string * val) :=
  [("event_type", VStr "csp.violation"); ("status", VInt 429)].
Definition no_blocked_selection : list (string * val) :=
  [("event_type", VStr "csp.violation"); ("blocked_uri", VStr "")].

(** What the engine sees of an event. *)
Definition seen_as (pe : ParsedEvent) (e : ZaqorinEvent) : Prop := ev_metadata pe = to_metadata e.

Section Rules.
Context (re_search : string -> string -> res bool).

Lemma csp_metadata iso payload src :
  to_metadata (from_csp_report iso payload (Some src) (Some 204))
  = [("event_type", VStr "csp.violation"); ("src_ip", VStr src); ("route", VStr "/api/v1/_csp-report");
     ("status", VInt 204)]
    ++ opt_field "violated_directive" VStr (violated_directive (from_csp_report iso payload (Some src) (Some 204))).
Proof. unfold to_metadata. cbn. by rewrite app_nil_r. Qed.

Lemma csp_never_burst pe iso payload src :
  seen_as pe (from_csp_report iso payload (Some src) (Some 204)) ->
  _match_selection re_search pe burst_selection = Ok false.
Proof. unfold seen_as. rewrite csp_metadata. intros E. cbn. unfold match_item. by rewrite E. Qed.

Lemma csp_never_unblocked pe iso payload src :
  seen_as pe (from_csp_report iso payload (Some src) (Some 204)) ->
  _match_selection re_search pe no_blocked_selection = Ok false.
Proof.
  unfold seen_as. rewrite csp_metadata. intros E. cbn. unfold match_item. rewrite E. cbn.
  by destruct (non_blank _).
Qed.

Lemma csp_directive pe iso payload src :
  seen_as pe (from_csp_report iso payload (Some src) (Some 204)) ->
  _match_selection re_search pe directive_selection
  = Ok (match violated_directive (from_csp_report iso payload (Some src) (Some 204)) with
        | Some d => str_in d ["script-src"; "style-src"]
        | None => false
        end).
Proof.
  unfold seen_as. rewrite csp_metadata. intros E. unfold directive_selection. cbn [_match_selection].
  unfold match_item. rewrite E. cbn. destruct (non_blank _) as [d|]; cbn; [|done].
  unfold val_in, str_in. cbn. by destruct (String.eqb d "script-src"), (String.eqb d "style-src").
Qed.

End Rules.

(** The events of the endpoint and the rules written for them: after any
    reports the ring holds the newest 4096 events of the accepted ones, so the
    rule for a burst, which selects status 429, and the rule for a missing
    blocked-uri can never fire on it, while the rule on directives selects exactly
    the events whose bare directive is script-src or style-src. *)
Theorem csp_rules (re_search : string -> string -> res bool) (configured : option string)
    (trace : list report) (e : ZaqorinEvent) (pe : ParsedEvent) (r : CompiledSigmaRule) :
  let '(st, codes) := csp_run configured trace idle in
  _STREAM st = last_n STREAM_MAX (accepted_events configured trace codes)
  /\ (e ∈ _STREAM st -> seen_as pe e -> rule_condition r = "selection" -> rule_required_fields r = [] ->
       (rule_selection r = burst_selection \/ rule_selection r = no_blocked_selection ->
          matches re_search r pe = Ok false)
       /\ (rule_selection r = directive_selection ->
            matches re_search r pe = Ok (match violated_directive e with
                                         | Some d => str_in d ["script-src"; "style-src"]
                                         | None => false
                                         end))).
Proof.
  pose proof (run_stream configured trace idle [] eq_refl) as H.
  destruct (csp_run configured trace idle) as [st codes]. rewrite H. cbn [app].
  split; [done|]. intros He Hpe Hc Hreq.
  assert (Hform : exists iso payload src, e = from_csp_report iso payload (Some src) (Some 204)).
  { assert (Hin : e ∈ accepted_events configured trace codes).
    { unfold last_n in He. rewrite <- (take_drop (length (accepted_events configured trace codes) - STREAM_MAX)).
      set_solver. }
    clear -Hin. revert codes Hin. induction trace as [|r rest IH]; intros [|c cs]; cbn; try set_solver.
    intros [Hin|Hin]%elem_of_app; [|by eapply IH]. destruct (c =? 204); [|set_solver].
    apply list_elem_of_singleton in Hin as ->. eauto. }
  destruct Hform as (iso&payload&src&->). unfold matches. rewrite Hreq, Hc. cbn [forallb negb String.eqb].
  change (String.eqb "selection" "selection") with true. cbv iota. split.
  - intros [->| ->]; [by eapply csp_never_burst|by eapply csp_never_unblocked].
  - intros ->. by apply csp_directive.
Qed.

Definition ex_rule : CompiledSigmaRule :=
  mkRule "8f3a9b21" "burst" "medium" burst_selection [] "selection" 1 300 0 "" None [].

Lemma csp_rules_witness :
  let e := from_csp_report "2026-01-01T00:00:00+00:00"
             [("csp-report", VDict [("violated-directive", VStr "script-src 'self'; x")])]
             (Some "10.0.0.9") (Some 204) in
  let pe := mkEvent "i" "h" "" "" (to_metadata e) 0 in
  e ∈ _STREAM (csp_run None ex_reports idle).1
  /\ matches (fun _ _ => Ok false) ex_rule pe = Ok false.
Proof.
  intros e pe. pose proof (csp_rules (fun _ _ => Ok false) None ex_reports e pe ex_rule) as H.
  assert (Hin : e ∈ _STREAM (csp_run None ex_reports idle).1).
  { vm_compute. left. }
  split; [done|]. destruct (csp_run None ex_reports idle) as [st codes].
  destruct H as [_ H]. apply H; [done..|]. by left.
Defined.

(** [from_log_record] has an answer for every record but one with an infinite
    status or size: the [OverflowError] of [int] is not caught. *)
Lemma from_log_record_total now_iso record :
  (forall key r b, In key ["status"; "message_size_bytes"] ->
     get key record = VFloat r -> float_value r <> FInf b) ->
  exists e, from_log_record now_iso record = Ok e.
Proof.
  intros Hinf.
  assert (Hint : forall key, In key ["status"; "message_size_bytes"] ->
    exists o, _opt_int record key = Ok o).
  { intros key Hk. unfold _opt_int. destruct (get key record) as [|b|z|r|s|l|d] eqn:E; cbn [int_of]; eauto.
    - destruct (float_value r) as [|b|m x] eqn:F; cbn; eauto. exfalso. by apply (Hinf key r b Hk E).
    - destruct (py_int s); cbn; eauto. }
  unfold from_log_record.
  destruct (Hint "status") as [a ->]; [by left|]. destruct (Hint "message_size_bytes") as [b ->]; [by right; left|].
  cbn [mbind res_bind]. eauto.
Qed.

Example infinite_status :
  from_log_record "t" [("event_type", VStr "http.request"); ("status", VFloat "inf")] = Raise OverflowError.
Proof. reflexivity. Qed.

(** Without a positive bound [drain] is not bounded. *)
Example drain_zero (stream : list ZaqorinEvent) : drain 0 stream = stream.
Proof. reflexivity. Qed.

(** A negative Content-Length, or one with an underscore, passes the check. *)
Example odd_lengths :
  refuse_headers (mkCspRequest [("content-length", "-1")] None) = None
  /\ refuse_headers (mkCspRequest [("content-length", "1_0")] None) = None
  /\ refuse_headers (mkCspRequest [("content-length", "16385")] None) = Some 413
  /\ refuse_headers (mkCspRequest [("te", "trailers, Chunked")] None) = Some 411.
Proof. repeat split; reflexivity. Qed.
