(* ===== verification/Hunt.v ===== *)
(** * Retrospective hunts: [api/v1/hunt.py]

    A rule of the operator is replayed against the stored events.  The state is
    the database and the temporary files of the process (their texts, oldest
    first); the rule reaches the parser of [Sigma] through a file.  Parameters:
    YAML ([safe_dump] and [safe_load]) and [re.search] of rule authors' patterns.
    Instants are integers in microseconds. *)

From S2P Require Import Prelude PyStr PyVal PyStd Sigma Redis SigmaRunner Db Pipeline.
From Stdlib Require Import Ascii.

Record HuntRunRequest : Type := mkHunt { hq_rule : list (string * val); hq_lookback_hours : Z }.

Record HuntFire : Type := mkHuntFire {
  hf_event_id : string;
  hf_host_id : string;
  hf_occurred_at : Z;
  hf_source : string;
  hf_rule_id : string;
  hf_rule_title : string;
  hf_count : Z;
  hf_dedup_key : string
}.

Record HuntRunResponse : Type := mkResponse {
  fires : list HuntFire;
  events_scanned : Z;
  rules_evaluated : Z
}.

Definition rule_summary (r : CompiledSigmaRule) : val :=
  VDict [("id", VStr (rule_id r)); ("title", VStr (rule_title r)); ("level", VStr (rule_level r));
         ("count", VInt (rule_count r)); ("timeframe_sec", VInt (rule_timeframe_sec r));
         ("cooldown_sec", VInt (rule_cooldown_sec r));
         ("has_action", VBool (match rule_action r with Some _ => true | None => false end));
         ("source_path", VNone)].

(** [GET /rules]; the documents of [rules_dir]. *)
Definition list_rules (is_dir : bool) (docs : list (res val)) : res val :=
  rules ← load_rules_from_dir is_dir docs;
  Ok (VDict [("rules", VList (map rule_summary rules))]).

(** [meta.setdefault(key, "")]. *)
Definition fill_in (key : string) (meta : list (string * val)) : list (string * val) :=
  if has_key key meta then meta else meta ++ [(key, VStr "")].

Definition hunt_keys : list string := ["source_ip"; "user"; "url"; "status"].

Definition hunt_metadata (meta : list (string * val)) : list (string * val) :=
  foldl (fun m k => fill_in k m) meta hunt_keys.

Definition parsed_row (row : Event) : ParsedEvent :=
  mkEvent (e_id row) (e_host_id row) (e_source row) (e_raw row) (hunt_metadata (e_metadata row))
    (e_occurred_at row).

Definition hunt_fire (rule : CompiledSigmaRule) (row : Event) : HuntFire :=
  let key := render_dedup_key rule (parsed_row row) in
  mkHuntFire (e_id row) (e_host_id row) (e_occurred_at row) (e_source row) (rule_id rule)
    (rule_title rule) 1 (if nonempty key then key else rule_id rule).

Definition recent_rows (since : Z) (d : db) : list Event :=
  filter (fun e => since <= e_occurred_at e) (map snd (map_to_list (db_events d))).

Section Hunt.
Context {D : Type} `{Database D}.
Context (yaml_dump : val -> res string) (yaml_load : string -> res val).
Context (re_search : string -> string -> res bool).

(** The loop over the rows. *)
Fixpoint hunt_rows (rule : CompiledSigmaRule) (rows : list Event) : res (list HuntFire) :=
  match rows with
  | [] => Ok []
  | row :: rest =>
      m ← matches re_search rule (parsed_row row);
      fs ← hunt_rows rule rest;
      Ok (if m : bool then hunt_fire rule row :: fs else fs)
  end.

(** The rule the request asks for, through its temporary file. *)
Definition compile_rule (rule : list (string * val)) : M (D * list string) CompiledSigmaRule := fun w =>
  match yaml_dump (VDict rule) with
  | Raise e => ((w.1, w.2 ++ [""]), Raise e)
  | Ok text =>
      ((w.1, w.2 ++ [text]),
       match parse_rule_file (yaml_load text) with
       | Raise _ => Raise (HTTPException 400 "invalid rule")
       | Ok [] => Raise (HTTPException 400 "rule did not compile")
       | Ok (r :: _) => Ok r
       end)
  end.

Definition run_hunt (now : Z) (payload : HuntRunRequest) : M (D * list string) HuntRunResponse :=
  if negb ((1 <=? hq_lookback_hours payload) && (hq_lookback_hours payload <=? 24 * 30))
  then raise_M (HTTPException 422 "lookback_hours")
  else
    rule ← compile_rule (hq_rule payload);
    let since := now - hq_lookback_hours payload * 3600 * 1000000 in
    rows ← on_fst (transaction (fun d => (d, Ok (recent_rows since d))));
    fs ← lift_res (hunt_rows rule rows);
    mret (mkResponse fs (Z.of_nat (length rows)) 1).

End Hunt.

(** ** Matching does not look at the identity of an event *)

Section Ext.
Context (re_search : string -> string -> res bool).

Definition same_content (a b : ParsedEvent) : Prop :=
  ev_source a = ev_source b /\ ev_raw a = ev_raw b /\ ev_metadata a = ev_metadata b.

Lemma match_item_ext a b k v :
  same_content a b -> match_item re_search a k v = match_item re_search b k v.
Proof. intros (H1&H2&H3). unfold match_item. by rewrite H1, H2, H3. Qed.

Lemma match_selection_ext a b sel :
  same_content a b -> _match_selection re_search a sel = _match_selection re_search b sel.
Proof.
  intros H. induction sel as [|[k v] sel IH]; [done|]. cbn. by rewrite (match_item_ext a b), IH.
Qed.

Lemma match_selection_val_ext a b v :
  same_content a b -> match_selection_val re_search a v = match_selection_val re_search b v.
Proof. intros H. destruct v; try done. by apply match_selection_ext. Qed.

Lemma any_filter_ext a b det names :
  same_content a b -> any_filter re_search a det names = any_filter re_search b det names.
Proof.
  intros H. induction names as [|n names IH]; [done|]. cbn.
  by rewrite (match_selection_val_ext a b), IH.
Qed.

Lemma matches_ext a b r : same_content a b -> matches re_search r a = matches re_search r b.
Proof.
  intros H. pose proof H as (_&_&Hm). unfold matches. rewrite Hm, (match_selection_ext a b) by done.
  destruct (negb _); [done|]. destruct (String.eqb _ _); [done|].
  destruct (pattern2 _).
  { by rewrite (match_selection_val_ext a b). }
  destruct (pattern3 _).
  { by rewrite (any_filter_ext a b). }
  destruct (pattern4 _) as [[inner nf]|]; [|done].
  by rewrite (any_filter_ext a b), (match_selection_val_ext a b).
Qed.

(** What the consumer of the stream evaluates for a stored row. *)
Definition live_view (p : ParsedEvent) (row : Event) : ParsedEvent :=
  with_payload p (e_raw row) (coerce_meta (e_metadata row)).

(** Metadata of which hunts and the live engine take the same view: text values,
    and the four keys a hunt fills in. *)
Definition plain_metadata (md : list (string * val)) : bool :=
  forallb (fun kv => is_str kv.2) md && forallb (fun k => has_key k md) hunt_keys.

Lemma coerce_plain md : forallb (fun kv => is_str kv.2) md = true -> coerce_meta md = md.
Proof.
  unfold coerce_meta. induction md as [|[k v] md IH]; [done|]. cbn. intros H. bprop.
  rewrite IH by done. by destruct v.
Qed.

Lemma hunt_metadata_plain md : forallb (fun k => has_key k md) hunt_keys = true -> hunt_metadata md = md.
Proof.
  unfold hunt_keys, hunt_metadata. cbn. intros H. bprop. unfold fill_in.
  repeat match goal with H : has_key _ _ = true |- _ => rewrite H; clear H end. done.
Qed.

Lemma live_same p row :
  ev_source p = e_source row -> plain_metadata (e_metadata row) = true ->
  same_content (parsed_row row) (live_view p row).
Proof.
  unfold plain_metadata. intros Hs H. bprop. split; [done|]. split; [done|].
  cbn [ev_metadata parsed_row live_view with_payload]. by rewrite hunt_metadata_plain, coerce_plain.
Qed.

(** The rows a hunt reports. *)
Definition reported (rule : CompiledSigmaRule) (row : Event) : bool :=
  match matches re_search rule (parsed_row row) with Ok true => true | _ => false end.

Lemma hunt_rows_spec rule rows fs :
  hunt_rows re_search rule rows = Ok fs ->
  fs = map (hunt_fire rule) (filter (fun row => reported rule row = true) rows).
Proof.
  revert fs. induction rows as [|row rows IH]; intros fs; [by intros [= <-]|].
  cbn [hunt_rows]. intros H. apply res_bind_ok in H as (m&Hm&H). apply res_bind_ok in H as (fs'&Hf&[= <-]).
  rewrite filter_cons. apply IH in Hf as ->. destruct m.
  - by rewrite decide_True by (unfold reported; by rewrite Hm).
  - rewrite decide_False by (unfold reported; by rewrite Hm). done.
Qed.

End Ext.

(** ** The hunt and the live engine *)

Section Theorems.
Context {D : Type} `{DatabaseLaws D}.
Context (yaml_dump : val -> res string) (yaml_load : string -> res val).
Context (re_search : string -> string -> res bool).

(** A read leaves the tables alone. *)
Lemma read_rows {A} (f : db -> A) (d d' : D) (r : res A) :
  transaction (fun t => (t, Ok (f t))) d = (d', r) ->
  tables d' = tables d /\ (r = Ok (f (tables d)) \/ r = Raise SqlError).
Proof.
  intros E. pose proof (transaction_law A (fun t => (t, Ok (f t))) d) as L. rewrite E in L. cbn in L.
  destruct L as [[-> ->]|[[-> ->]|[-> ->]]]; auto.
Qed.

(** C37. A hunt that answers has changed no table and has compared the one rule
    with every event of the window: it reports exactly the rows its rule matches,
    each once and with a count of 1, whatever count, timeframe and cooldown the
    rule asks for.  Where the metadata of a row is text and holds the four keys
    the hunt fills in, that match is the match of the live engine on the event.  Every request that gets past its bounds leaves one
    temporary file behind. *)
Theorem hunt_matches_live (now : Z) (payload : HuntRunRequest) (d d' : D) (tmp tmp' : list string)
    (answer : HuntRunResponse) :
  run_hunt yaml_dump yaml_load re_search now payload (d, tmp) = ((d', tmp'), Ok answer) ->
  tables d' = tables d
  /\ (exists text, tmp' = tmp ++ [text])
  /\ exists rule rows,
       (exists text more, yaml_dump (VDict (hq_rule payload)) = Ok text
          /\ parse_rule_file (yaml_load text) = Ok (rule :: more))
       /\ rows = recent_rows (now - hq_lookback_hours payload * 3600 * 1000000) (tables d)
       /\ events_scanned answer = Z.of_nat (length rows)
       /\ fires answer = map (hunt_fire rule)
            (filter (fun row => reported re_search rule row = true) rows)
       /\ forall row p, plain_metadata (e_metadata row) = true -> ev_source p = e_source row ->
            matches re_search rule (parsed_row row) = matches re_search rule (live_view p row).
Proof.
  unfold run_hunt. destruct (negb _); [discriminate|]. intros Hrun.
  apply M_bind_ok in Hrun as ([d1 t1]&rule&Hc&Hrun). apply M_bind_ok in Hrun as ([d2 t2]&rows&Hr&Hrun).
  apply M_bind_ok in Hrun as ([d3 t3]&fs&Hf&Hm). inversion Hm; subst; clear Hm.
  unfold lift_res in Hf. inversion Hf as [[E1 E2 Hfs]]; subst; clear Hf. apply hunt_rows_spec in Hfs.
  unfold compile_rule in Hc. cbn [fst snd] in Hc. destruct (yaml_dump _) as [text|e] eqn:Ed; [|discriminate].
  inversion Hc as [[E1 E2 Hc']]; clear Hc; rename Hc' into Hc; subst. unfold on_fst in Hr. cbn [fst snd] in Hr.
  destruct (transaction _ _) as [d4 r4] eqn:Et. simplify_eq.
  apply read_rows in Et as [Ht [Hrows|]]; [|discriminate]. injection Hrows as ->.
  split; [done|]. split; [by exists text|].
  destruct (parse_rule_file (yaml_load text)) as [[|r0 more]|e] eqn:Ep; try discriminate. injection Hc as ->.
  exists rule. eexists. split; [by exists text, more|]. split_and!; [done..|].
  intros row p Hp Hs. apply matches_ext. by apply live_same.
Qed.

End Theorems.

(** ** Concrete hunts *)

Section Examples.

Definition ex_doc (status : val) : list (string * val) :=
  [("id", VStr "r1"); ("title", VStr "t"); ("required_fields", VList [VStr "user"]);
   ("detection", VDict [("selection", VDict [("status", status)]); ("count", VInt 5)])].

Definition ex_row (status : val) : Event :=
  mkEventRow "e1" "h1" "v1" 5000000 5000000 "nginx" "raw" [("status", status)].

Definition ex_full (status : val) : Event :=
  mkEventRow "e1" "h1" "v1" 5000000 5000000 "nginx" "raw"
    [("source_ip", VStr "10.0.0.1"); ("user", VStr "u"); ("url", VStr "/"); ("status", status)].

Definition ex_tables (row : Event) : db := mkDb ∅ {["e1" := row]} ∅ ∅ ∅.

Definition ex_hunt (status : val) (row : Event) : (db * list string) * res HuntRunResponse :=
  run_hunt (fun _ => Ok "text") (fun _ => Ok (VDict (ex_doc status))) (fun _ _ => Ok false) 6000000
    (mkHunt (ex_doc status) 1) (ex_tables row, []).

(** A rule that asks for the number 429 and for a user, and for five events
    within a minute: the hunt reports one event whose status is the number and
    which has no user; live, the number is text and the user is missing. *)
Example hunt_differs :
  (exists a, (ex_hunt (VInt 429) (ex_row (VInt 429))).2 = Ok a /\ length (fires a) = 1%nat)
  /\ forall p r, ev_source p = "nginx" -> rule_condition r = "selection" ->
       rule_selection r = [("status", VInt 429)] -> rule_required_fields r = [] ->
       matches (fun _ _ => Ok false) r (live_view p (ex_row (VInt 429))) = Ok false.
Proof.
  split; [eexists; split; reflexivity|].
  intros p r Hs Hc Hsel Hreq. unfold matches. by rewrite Hreq, Hc, Hsel.
Qed.

Definition ex_answer : HuntRunResponse :=
  mkResponse [mkHuntFire "e1" "h1" 5000000 "nginx" "r1" "t" 1 "r1"] 1 1.

Lemma hunt_matches_live_witness :
  let tables0 := ex_tables (ex_full (VStr "429")) in
  ex_hunt (VStr "429") (ex_full (VStr "429")) = ((tables0, ["text"]), Ok ex_answer)
  /\ exists rule rows,
       rows = recent_rows (6000000 - 1 * 3600 * 1000000) tables0
       /\ fires ex_answer = map (hunt_fire rule)
            (filter (fun row => reported (fun _ _ => Ok false) rule row = true) rows)
       /\ forall row p, plain_metadata (e_metadata row) = true -> ev_source p = e_source row ->
            matches (fun _ _ => Ok false) rule (parsed_row row)
            = matches (fun _ _ => Ok false) rule (live_view p row).
Proof.
  intros tables0. assert (E : ex_hunt (VStr "429") (ex_full (VStr "429")) = ((tables0, ["text"]), Ok ex_answer))
    by reflexivity.
  split; [exact E|].
  destruct (hunt_matches_live (fun _ => Ok "text") (fun _ => Ok (VDict (ex_doc (VStr "429"))))
    (fun _ _ => Ok false) 6000000 (mkHunt (ex_doc (VStr "429")) 1) tables0 tables0 [] ["text"] ex_answer E)
    as (_&_&rule&rows&_&Hr&_&Hf&Hm).
  exists rule, rows. split; [exact Hr|]. split; [exact Hf|exact Hm].
Defined.

End Examples.
