(* ===== verification/Canary.v ===== *)
(** * Canary tokens: [canary.py], [api/v1/canary.py]

    The store of a process is a dictionary in insertion order.  UUIDs, secrets and
    clock readings (microseconds, [datetime.utcnow]) are arguments; pydantic's
    check of the kind is the type of the argument. *)

From S2P Require Import Prelude PyStr PyVal PyStd Json.
From Stdlib Require Import Ascii.

(** ** [canary.py] *)

Inductive CanaryKind : Type := File | TcpSocket | HttpEndpoint | Credential.

Definition kind_text (k : CanaryKind) : string :=
  match k with
  | File => "file" | TcpSocket => "tcp_socket" | HttpEndpoint => "http_endpoint" | Credential => "credential"
  end.

Record CanaryDescriptor : Type := mkDescriptor {
  cd_id : string;
  cd_kind : CanaryKind;
  cd_path : string;
  cd_created_at : Z;
  cd_secret : string
}.

(** [isoformat] of a naive instant. *)
Definition naive_iso (us : Z) : string :=
  iso_seconds (us / 1000000)
  +:+ (if us mod 1000000 =? 0 then "" else "." +:+ decw 6 (us mod 1000000)).

Definition to_dict (c : CanaryDescriptor) : val :=
  VDict [("id", VStr (cd_id c)); ("kind", VStr (kind_text (cd_kind c))); ("path", VStr (cd_path c));
         ("created_at", VStr (naive_iso (cd_created_at c))); ("secret", VStr (cd_secret c))].

Record CanarySpec : Type := mkSpec { sp_kind : CanaryKind; sp_path : string }.

Definition make_canary (uuid secret : string) (now : Z) (spec : CanarySpec) : CanaryDescriptor :=
  mkDescriptor uuid (sp_kind spec) (sp_path spec) now secret.

(** The path that was written, and the text of the file ([json.dumps(indent=2)]). *)
Definition persist_canary_descriptor (base_dir : string) (descriptor : CanaryDescriptor)
    (d : gmap string string) : gmap string string * string :=
  let out := base_dir +:+ "/" +:+ cd_id descriptor +:+ ".json" in
  (<[out := pretty_at 0 (to_dict descriptor)]> d, out).

(** ** [api/v1/canary.py] *)

Record CanaryOut : Type := mkOut {
  co_id : string;
  co_kind : CanaryKind;
  co_path : string;
  co_host_id : string;
  co_created_at : Z
}.

(** An entry of the store: the shown fields and the secret. *)
Record entry : Type := mkEntry { en_out : CanaryOut; en_secret : string }.

Abbreviation canary_store := (list (string * entry)).

Definition list_canaries (st : canary_store) : list CanaryOut := map (fun kv => en_out kv.2) st.

Definition create_canary (uuid secret : string) (now : Z) (spec : CanarySpec) (host_id : string)
  : M canary_store CanaryOut := fun st =>
  if negb (nonempty host_id) then (st, Raise (HTTPException 422 "host_id required"))
  else
    let desc := make_canary uuid secret now spec in
    let out := mkOut (cd_id desc) (sp_kind spec) (sp_path spec) host_id (cd_created_at desc) in
    (assoc_set (cd_id desc) (mkEntry out (cd_secret desc)) st, Ok out).

Definition delete_canary (canary_id : string) : M canary_store Z := fun st =>
  if negb (has_key canary_id st) then (st, Raise (HTTPException 404 "canary not found"))
  else (assoc_del canary_id st, Ok 204).

Definition ingest_canary_touched (canary_id touched_by : string) : val :=
  VDict [("status", VStr "accepted"); ("canary_id", VStr canary_id); ("touched_by", VStr touched_by)].

(** The requests of a process. *)
Inductive request : Type :=
| ReqList
| ReqCreate (uuid secret : string) (now : Z) (spec : CanarySpec) (host_id : string)
| ReqDelete (canary_id : string)
| ReqTouched (canary_id touched_by : string).

Inductive answer : Type :=
| Listed (l : list CanaryOut)
| Created (r : res CanaryOut)
| Deleted (r : res Z)
| Touched (v : val).

Definition handle (r : request) (st : canary_store) : canary_store * answer :=
  match r with
  | ReqList => (st, Listed (list_canaries st))
  | ReqCreate uuid secret now spec host_id =>
      let '(st', a) := create_canary uuid secret now spec host_id st in (st', Created a)
  | ReqDelete id => let '(st', a) := delete_canary id st in (st', Deleted a)
  | ReqTouched id who => (st, Touched (ingest_canary_touched id who))
  end.

Fixpoint handle_all (rs : list request) (st : canary_store) : canary_store * list answer :=
  match rs with
  | [] => (st, [])
  | r :: rest =>
      let '(st1, a) := handle r st in
      let '(st2, l) := handle_all rest st1 in (st2, a :: l)
  end.

(** ** Specification: the registered canaries, oldest first, without secrets *)

Definition spec_step (r : request) (live : list CanaryOut) : list CanaryOut * answer :=
  match r with
  | ReqList => (live, Listed live)
  | ReqCreate uuid _ now spec host_id =>
      if nonempty host_id
      then let c := mkOut uuid (sp_kind spec) (sp_path spec) host_id now in (live ++ [c], Created (Ok c))
      else (live, Created (Raise (HTTPException 422 "host_id required")))
  | ReqDelete id =>
      if existsb (fun c => String.eqb id (co_id c)) live
      then (filter (fun c => co_id c <> id) live, Deleted (Ok 204))
      else (live, Deleted (Raise (HTTPException 404 "canary not found")))
  | ReqTouched id who => (live, Touched (ingest_canary_touched id who))
  end.

Fixpoint spec_all (rs : list request) (live : list CanaryOut) : list CanaryOut * list answer :=
  match rs with
  | [] => (live, [])
  | r :: rest =>
      let '(l1, a) := spec_step r live in
      let '(l2, l) := spec_all rest l1 in (l2, a :: l)
  end.

Definition new_ids (rs : list request) : list string :=
  flat_map (fun r => match r with ReqCreate uuid _ _ _ _ => [uuid] | _ => [] end) rs.

(** ** Lemmas *)

(** The keys are the ids of the entries, without repetition. *)
Definition store_ok (st : canary_store) : Prop :=
  Forall (fun kv => co_id (en_out kv.2) = kv.1) st /\ NoDup (map fst st).

Definition abs (st : canary_store) : list CanaryOut := map (fun kv => en_out kv.2) st.

Lemma assoc_set_new {A} k (v : A) d : ~ In k (map fst d) -> assoc_set k v d = d ++ [(k, v)].
Proof.
  induction d as [|[k' v'] d IH]; [done|]. cbn. intros H.
  destruct (String.eqb_spec k k') as [->|]; [tauto|]. by rewrite IH by tauto.
Qed.

Lemma has_key_abs id st :
  Forall (fun kv => co_id (en_out kv.2) = kv.1) st ->
  has_key id st = existsb (fun c => String.eqb id (co_id c)) (abs st).
Proof.
  unfold has_key. induction 1 as [|[k e] st Hk _ IH]; [done|]. cbn in *. rewrite Hk.
  by destruct (String.eqb id k).
Qed.

Lemma abs_del id st :
  store_ok st -> abs (assoc_del id st) = filter (fun c => co_id c <> id) (abs st).
Proof.
  unfold abs. intros [Hf Hn]. induction Hf as [|[k e] st Hk Hf IH]; [done|].
  cbn [map fst snd assoc_del] in *. apply NoDup_cons in Hn as [Hk' Hn]. rewrite filter_cons.
  destruct (String.eqb_spec id k) as [->|Hne].
  - rewrite decide_False by tauto. clear IH Hn Hk.
    induction Hf as [|[k2 e2] st Hk2 Hf IH]; [done|]. cbn [map fst snd] in *.
    rewrite filter_cons, decide_True, <- IH; [done| |]; set_solver.
  - rewrite decide_True by congruence. cbn [map fst snd]. by rewrite IH.
Qed.

Lemma del_ok id st : store_ok st -> store_ok (assoc_del id st).
Proof.
  intros [Hf Hn]. assert (Hs : assoc_del id st `sublist_of` st).
  { clear. induction st as [|[k e] st IH]; [done|]. cbn. destruct (String.eqb id k); [by apply sublist_cons|by apply sublist_skip]. }
  split.
  - rewrite Forall_forall in *. intros kv Hin. apply Hf. by eapply elem_of_sublist.
  - eapply sublist_NoDup; [exact Hn|]. by apply (fmap_sublist fst).
Qed.

Lemma del_keys id (st : canary_store) k : In k (map fst (assoc_del id st)) -> In k (map fst st).
Proof.
  induction st as [|[k' e] st IH]; [done|]. cbn. destruct (String.eqb id k'); cbn; tauto.
Qed.

(** One request, when a new id is not in use. *)
Lemma handle_step r st :
  store_ok st -> (forall id, In id (new_ids [r]) -> ~ In id (map fst st)) ->
  let '(st', a) := handle r st in
  spec_step r (abs st) = (abs st', a) /\ store_ok st'
  /\ (forall k, In k (map fst st') -> In k (map fst st) \/ In k (new_ids [r])).
Proof.
  intros Hok Hnew. destruct r as [|uuid secret now spec host_id|id|id who]; cbn [handle].
  - split; [done|]. auto.
  - unfold create_canary. cbn [spec_step]. destruct (nonempty host_id); cbn [negb]; [|split; [done|]; auto].
    cbn [make_canary cd_id cd_created_at cd_secret].
    assert (Hn : ~ In uuid (map fst st)) by (apply Hnew; cbn; auto).
    rewrite assoc_set_new by done. unfold abs. rewrite map_app. split; [done|]. split.
    + destruct Hok as [Hf Hd]. split; [rewrite Forall_app; split; [done|by repeat constructor]|].
      rewrite map_app, NoDup_app. split; [done|]. split; [|repeat constructor; set_solver].
      intros k Hk Hk2. cbn in Hk2. apply list_elem_of_singleton in Hk2 as ->.
      by apply Hn, list_elem_of_In.
    + intros k. rewrite map_app, in_app_iff. cbn. tauto.
  - unfold delete_canary. cbn [spec_step]. rewrite <- has_key_abs by apply Hok.
    destruct (has_key id st); cbn [negb]; [|split; [done|]; auto].
    rewrite abs_del by done. split; [done|]. split; [by apply del_ok|]. intros k Hk. left. by eapply del_keys.
  - split; [done|]. auto.
Qed.

Lemma new_ids_cons r rs : new_ids (r :: rs) = new_ids [r] ++ new_ids rs.
Proof. unfold new_ids. cbn. by rewrite app_nil_r. Qed.

Lemma handle_refines rs : forall st,
  store_ok st -> NoDup (new_ids rs) -> (forall id, In id (new_ids rs) -> ~ In id (map fst st)) ->
  spec_all rs (abs st) = (abs (handle_all rs st).1, (handle_all rs st).2).
Proof.
  induction rs as [|r rs IH]; intros st Hok Hnd Hnew; [done|]. rewrite new_ids_cons in Hnd, Hnew.
  apply NoDup_app in Hnd as (_&Hdis&Hnd). cbn [handle_all spec_all].
  pose proof (handle_step r st Hok) as Hs. destruct (handle r st) as [st1 a].
  destruct Hs as (->&Hok1&Hk); [intros id Hid; apply Hnew, in_app_iff; auto|].
  rewrite IH; [by destruct (handle_all rs st1)|done|done|].
  intros id Hid Hin. destruct (Hk id Hin) as [Hold|Hsame].
  - apply (Hnew id); [apply in_app_iff; auto|done].
  - apply (Hdis id); by apply list_elem_of_In.
Qed.

(** Whatever is registered, listed, removed and reported touched, in any order,
    with ids that are not drawn twice: every answer is that of a list of the
    registered canaries that holds no secrets, so no answer depends on a secret;
    a listing shows the canaries in the order of their registration, a removal is
    answered 204 exactly for a registered id, and a reported touch changes
    nothing and is accepted for any id. *)
Theorem canary_refines (rs : list request) :
  NoDup (new_ids rs) ->
  (handle_all rs []).2 = (spec_all rs []).2
  /\ list_canaries (handle_all rs []).1 = (spec_all rs []).1.
Proof.
  intros Hnd. pose proof (handle_refines rs []) as H. cbn [abs map] in H.
  rewrite H; [done| |done|cbn; tauto]. split; constructor.
Qed.

Definition ex_requests : list request :=
  [ReqCreate "u1" "s1" 0 (mkSpec File "/etc/shadow.bak") "h1"; ReqTouched "nobody" "cat";
   ReqCreate "u2" "s2" 1 (mkSpec Credential "aws") ""; ReqDelete "u2"; ReqList; ReqDelete "u1"; ReqList].

Lemma canary_refines_witness :
  (handle_all ex_requests []).2 = (spec_all ex_requests []).2
  /\ list_canaries (handle_all ex_requests []).1 = (spec_all ex_requests []).1.
Proof. apply canary_refines. vm_compute. repeat constructor; set_solver. Defined.

Example canary_answers :
  (handle_all ex_requests []).2
  = [Created (Ok (mkOut "u1" File "/etc/shadow.bak" "h1" 0)); Touched (ingest_canary_touched "nobody" "cat");
     Created (Raise (HTTPException 422 "host_id required"));
     Deleted (Raise (HTTPException 404 "canary not found"));
     Listed [mkOut "u1" File "/etc/shadow.bak" "h1" 0]; Deleted (Ok 204); Listed []].
Proof. reflexivity. Qed.
