(* ===== verification/Streams.v ===== *)
(** * The event stream and the loops that read it: [streams/publisher.py],
    [streams/consumer.py] and [run] of [detectors/runner.py]

    One Redis stream and its consumer group ([settings.stream_name],
    [settings.stream_group]), seen through the commands the code sends: the class
    [StreamServer].  Any number of server processes run the loop of the
    detectors, each under a consumer name of its own, next to the stub consumer;
    a schedule of their steps and of publications is a list of [step]s.  The log
    of messages a worker was given is kept beside the world for the statements
    only. *)

From S2P Require Import Prelude PyStr PyVal PyStd Sigma Redis SigmaRunner Detectors Db Pipeline.

Abbreviation fieldmap := (list (string * string)).

(** ** The stream *)

(** The group: the last entry delivered, and the entries delivered to a consumer
    and not yet acknowledged. *)
Record group : Type := mkGroup { g_last : Z; g_pending : list (string * string) }.

(** Entries carry increasing ids; [x_top] is the last id given out. *)
Record rstream : Type := mkStream {
  x_entries : list (Z * fieldmap);
  x_top : Z;
  x_group : option group
}.

Definition empty_stream : rstream := mkStream [] 0 None.

(** The text of an id. *)
Definition entry_id (n : Z) : string := str_int n +:+ "-0".

Definition set_group (g : option group) (st : rstream) : rstream :=
  mkStream (x_entries st) (x_top st) g.

Definition after (last : Z) (l : list (Z * fieldmap)) : list (Z * fieldmap) :=
  filter (fun p => (last <? p.1) = true) l.

(** What the group has still to deliver. *)
Definition backlog (st : rstream) : list (Z * fieldmap) :=
  match x_group st with Some g => after (g_last g) (x_entries st) | None => [] end.

Definition pending (st : rstream) : list (string * string) :=
  match x_group st with Some g => g_pending g | None => [] end.

(** XADD key MAXLEN ~ maxlen: the entry gets a larger id; old entries may be
    dropped, never below [maxlen]. *)
Definition xadd_post (maxlen : Z) (f : fieldmap) (st st' : rstream) (r : res string) : Prop :=
  exists n k, x_top st < n /\ r = Ok (entry_id n)
  /\ st' = mkStream (drop k (x_entries st ++ [(n, f)])) n (x_group st)
  /\ (k = 0%nat \/ maxlen <= Z.of_nat (length (x_entries st'))).

(** XGROUP CREATE key group $ MKSTREAM. *)
Definition spec_xgroup_create (st : rstream) : rstream * res unit :=
  match x_group st with
  | Some _ => (st, Raise (ResponseError "BUSYGROUP"))
  | None => (set_group (Some (mkGroup (x_top st) [])) st, Ok tt)
  end.

Definition read_ids (c : string) (l : list (Z * fieldmap)) : list (string * string) :=
  map (fun p => (c, entry_id p.1)) l.

(** XREADGROUP GROUP group consumer COUNT count STREAMS key >. *)
Definition spec_xreadgroup (c : string) (count : nat) (st : rstream)
  : rstream * res (list (string * fieldmap)) :=
  match x_group st with
  | None => (st, Raise (ResponseError "NOGROUP"))
  | Some g =>
      let new := take count (backlog st) in
      (set_group (Some (mkGroup (List.last (map fst new) (g_last g))
                          (g_pending g ++ read_ids c new))) st,
       Ok (map (fun p => (entry_id p.1, p.2)) new))
  end.

(** XACK key group id. *)
Definition spec_xack (id : string) (st : rstream) : rstream :=
  match x_group st with
  | None => st
  | Some g => set_group (Some (mkGroup (g_last g)
                (List.filter (fun p => negb (String.eqb p.2 id)) (g_pending g)))) st
  end.

Class StreamServer (T : Type) : Type := {
  xadd : Z -> fieldmap -> M T string;
  xgroup_create : M T unit;
  xreadgroup : string -> nat -> M T (list (string * fieldmap));
  xack : string -> M T unit;
  stream_of : T -> rstream
}.

(** A command that is answered, and one whose connection may be lost before or
    after it took effect. *)
Definition answered {T A} `{StreamServer T} (post : rstream -> rstream -> res A -> Prop)
    (c : M T A) : Prop :=
  forall t, post (stream_of t) (stream_of (c t).1) (c t).2.

Definition may_be_lost {T A} `{StreamServer T} (post : rstream -> rstream -> res A -> Prop)
    (c : M T A) : Prop :=
  forall t, post (stream_of t) (stream_of (c t).1) (c t).2
  \/ ((c t).2 = Raise ConnectionError
      /\ (stream_of (c t).1 = stream_of t
          \/ exists x, post (stream_of t) (stream_of (c t).1) x)).

Definition does {A} (f : rstream -> rstream * res A) (st st' : rstream) (r : res A) : Prop :=
  (st', r) = f st.

(** A server reached over connections that may break. *)
Class StreamLaws (T : Type) `{StreamServer T} : Prop := {
  xadd_lost maxlen f : may_be_lost (xadd_post maxlen f) (xadd maxlen f);
  xgroup_create_lost : may_be_lost (does spec_xgroup_create) xgroup_create;
  xreadgroup_lost c n : may_be_lost (does (spec_xreadgroup c n)) (xreadgroup c n);
  xack_lost id : may_be_lost (does (fun st => (spec_xack id st, Ok tt))) (xack id)
}.

(** A server that answers every command. *)
Class StreamUp (T : Type) `{StreamServer T} : Prop := {
  xadd_up maxlen f : answered (xadd_post maxlen f) (xadd maxlen f);
  xgroup_create_up : answered (does spec_xgroup_create) xgroup_create;
  xreadgroup_up c n : answered (does (spec_xreadgroup c n)) (xreadgroup c n);
  xack_up id : answered (does (fun st => (spec_xack id st, Ok tt))) (xack id)
}.

(** The windows and cooldowns of the rules live under other keys. *)
Definition frame {T A} `{StreamServer T} (m : M T A) : Prop :=
  forall t, stream_of (m t).1 = stream_of t.

Class StreamFrame (T : Type) `{StreamServer T} `{Redis T} : Prop := {
  zremrangebyscore_frame now k lo hi : frame (zremrangebyscore now k lo hi);
  zadd_frame now k m x : frame (zadd now k m x);
  zcard_frame now k : frame (zcard now k);
  expire_frame now k sec : frame (expire now k sec);
  exists_frame now k : frame (exists_key now k);
  set_frame now k ex nx : frame (set_ex now k ex nx);
  sismember_frame now k m : frame (sismember now k m);
  sadd_frame now k m : frame (sadd now k m)
}.

(** ** [streams/publisher.py] *)

Section Client.
Context {C : Type} (from_url : res C).

(** The module-level client: built once, dropped by [close_redis] (unless
    [aclose] raises). *)
Definition get_redis : M (option C) C := fun s =>
  match s with
  | Some c => (s, Ok c)
  | None => match from_url with
            | Ok c => (Some c, Ok c)
            | Raise e => (None, Raise e)
            end
  end.

Definition close_redis (aclose : C -> res unit) : M (option C) unit := fun s =>
  match s with
  | None => (None, Ok tt)
  | Some c => match aclose c with Ok _ => (None, Ok tt) | Raise e => (s, Raise e) end
  end.

End Client.

Definition ensure_consumer_group {T} `{StreamServer T} : M T unit :=
  try_M xgroup_create (fun e =>
    match e with
    | ResponseError code => if contains "BUSYGROUP" code then mret tt else raise_M e
    | _ => raise_M e
    end).

(** ** The workers *)

(** The loop of [detectors/runner.py] in the process [pid], or the loop of
    [streams/consumer.py]. *)
Inductive worker : Type := Runner (pid : Z) | Stub.

#[export] Instance worker_eq_dec : EqDecision worker.
Proof. solve_decision. Defined.

Definition _BATCH : nat := 100.
Definition _consumer_name (pid : Z) : string := "zaqorin-detector-" +:+ str_int pid.

Definition consumer_of (w : worker) : string :=
  match w with Runner pid => _consumer_name pid | Stub => "stub" end.
Definition count_of (w : worker) : nat :=
  match w with Runner _ => _BATCH | Stub => 10 end.

(** What the coroutine of a worker has come to. *)
Inductive status : Type := Running | Returned | Failed.

(** The steps of the system: an event is published, a worker starts, makes one
    turn of its loop, or is told to stop. *)
Inductive step : Type :=
| Publish (e : Event)
| Start (w : worker)
| Turn (w : worker)
| Stop (w : worker).

Section Workers.
Context {D T : Type} `{Database D} `{Redis T} `{StreamServer T}.
Context (maxlen : Z) (uuid4 : M D string) (re_search : string -> string -> res bool).
Context (detectors : list (Z -> ParsedEvent -> M T (list DetectionResult))).
Context (clock : string -> Z) (rules : string -> res (list CompiledSigmaRule)).

(** The messages given to workers, beside the database and the Redis server. *)
Abbreviation sys := (list (worker * (string * fieldmap)) * (D * T))%type.

Definition on_redis {A} (m : M T A) : M sys A := on_snd (on_snd m).

Definition note (w : worker) (msg : string * fieldmap) : M sys unit := fun s =>
  ((s.1 ++ [(w, msg)], s.2), Ok tt).

(** The [except] clauses around the two reads; what is raised inside one of them
    is not caught by the others. *)
Definition run_except (e : exn) : M sys (list (string * fieldmap)) :=
  match e with
  | ResponseError code =>
      if contains "NOGROUP" code
      then _ ← on_redis ensure_consumer_group; mret []
      else mret []
  | _ => mret []
  end.

Definition consumer_except (e : exn) : M sys (list (string * fieldmap)) :=
  match e with
  | ResponseError code =>
      if contains "NOGROUP" code
      then _ ← on_redis ensure_consumer_group; mret []
      else raise_M e
  | _ => raise_M e
  end.

(** One turn of the [while] loop of [run]; the clock and the rule directory are
    read when a message is handled. *)
Definition run (pid : Z) : M sys unit :=
  entries ← try_M (on_redis (xreadgroup (_consumer_name pid) _BATCH)) run_except;
  for_each (fun msg =>
    _ ← note (Runner pid) msg;
    on_snd (handle_message uuid4 xack re_search detectors (clock msg.1) (rules msg.1) msg)) entries.

(** One turn of the [while] loop of [run_consumer]. *)
Definition run_consumer : M sys unit :=
  entries ← try_M (on_redis (xreadgroup "stub" 10)) consumer_except;
  for_each (fun msg => _ ← note Stub msg; on_redis (xack msg.1)) entries.

Definition turn (w : worker) : M sys unit :=
  match w with Runner pid => run pid | Stub => run_consumer end.

(** Before the loop. *)
Definition start (w : worker) : M sys unit :=
  match w with Runner _ => on_redis ensure_consumer_group | Stub => mret tt end.

(** [m] carried out by [w]: an exception ends the coroutine. *)
Definition carry_out (w : worker) (ws : list (worker * status)) (m : M sys unit)
  : M sys (list (worker * status)) :=
  try_M (_ ← m; mret ((w, Running) :: ws)) (fun _ => mret ((w, Failed) :: ws)).

Fixpoint status_of (w : worker) (ws : list (worker * status)) : option status :=
  match ws with
  | [] => None
  | (w', s) :: ws' => if decide (w = w') then Some s else status_of w ws'
  end.

(** The newest entry of [ws] for a worker is its status. *)
Definition do_step (x : step) (ws : list (worker * status)) : M sys (list (worker * status)) :=
  match x with
  | Publish e => _ ← try_M (_ ← on_redis (publish_event (xadd maxlen) e); mret tt) (fun _ => mret tt);
                 mret ws
  | Start w => match status_of w ws with
               | None => carry_out w ws (start w)
               | Some _ => mret ws
               end
  | Turn w => match status_of w ws with
              | Some Running => carry_out w ws (turn w)
              | _ => mret ws
              end
  | Stop w => match status_of w ws with
              | Some Running => mret ((w, Returned) :: ws)
              | _ => mret ws
              end
  end.

Fixpoint run_steps (l : list step) (ws : list (worker * status)) : M sys (list (worker * status)) :=
  match l with
  | [] => mret ws
  | x :: l' => ws' ← do_step x ws; run_steps l' ws'
  end.

End Workers.

(** ** Servers that obey the laws *)

(** Answers every command; an entry more than [maxlen] pushes the oldest out. *)
Definition MemStream : Type := rstream.

#[export] Instance mem_stream : StreamServer MemStream := {
  xadd maxlen f st :=
    let all := x_entries st ++ [(x_top st + 1, f)] in
    (mkStream (drop (length all - Z.to_nat (Z.max 0 maxlen)) all) (x_top st + 1) (x_group st),
     Ok (entry_id (x_top st + 1)));
  xgroup_create st := spec_xgroup_create st;
  xreadgroup c n st := spec_xreadgroup c n st;
  xack id st := (spec_xack id st, Ok tt);
  stream_of st := st
}.

(** Reached over a connection with a schedule of outages: the next command is
    answered, never arrives, or takes effect without a reply. *)
Inductive outage : Type := Answer | Unsent | Unanswered.

Definition FlakyStream : Type := rstream * list outage.

Definition flaky {A} (c : M MemStream A) : M FlakyStream A := fun s =>
  let '(st, x) := c s.1 in
  match s.2 with
  | Unsent :: o => ((s.1, o), Raise ConnectionError)
  | Unanswered :: o => ((st, o), Raise ConnectionError)
  | Answer :: o => ((st, o), x)
  | [] => ((st, []), x)
  end.

#[export] Instance flaky_stream : StreamServer FlakyStream := {
  xadd maxlen f := flaky (xadd maxlen f);
  xgroup_create := flaky xgroup_create;
  xreadgroup c n := flaky (xreadgroup c n);
  xack id := flaky (xack id);
  stream_of s := s.1
}.

(** The stream and the other keys of one server. *)
#[export] Instance pair_stream {S R} `{StreamServer S} : StreamServer (S * R) := {
  xadd maxlen f := on_fst (xadd maxlen f);
  xgroup_create := on_fst xgroup_create;
  xreadgroup c n := on_fst (xreadgroup c n);
  xack id := on_fst (xack id);
  stream_of s := stream_of s.1
}.

#[export] Instance pair_redis {S R} `{Redis R} : Redis (S * R) := {
  zremrangebyscore now k lo hi := on_snd (zremrangebyscore now k lo hi);
  zadd now k m x := on_snd (zadd now k m x);
  zcard now k := on_snd (zcard now k);
  expire now k sec := on_snd (expire now k sec);
  exists_key now k := on_snd (exists_key now k);
  set_ex now k ex nx := on_snd (set_ex now k ex nx);
  sismember now k m := on_snd (sismember now k m);
  sadd now k m := on_snd (sadd now k m);
  contents s := contents s.2
}.

#[export] Instance pair_frame {S R} `{StreamServer S} `{Redis R} : StreamFrame (S * R).
Proof. constructor; intros; intros [s r]; unfold frame; cbn; unfold on_snd; cbn; by case_match. Qed.

#[export] Instance mem_stream_up : StreamUp MemStream.
Proof.
  constructor; intros; intros st; try reflexivity.
  - cbn. set (all := x_entries st ++ _). set (k := (length all - _)%nat).
    exists (x_top st + 1), k. split; [lia|]. split; [done|]. split; [done|].
    cbn [x_entries]. rewrite length_drop. destruct (decide (k = 0%nat)); [by left|right].
    subst k. lia.
  - unfold does. cbn. by destruct (spec_xgroup_create st).
  - unfold does. cbn. by destruct (spec_xreadgroup c n st).
Qed.

Lemma lost_flaky {A} (post : rstream -> rstream -> res A -> Prop) (c : M MemStream A) :
  answered post c -> may_be_lost (T := FlakyStream) post (flaky c).
Proof.
  intros Hc [st o]. specialize (Hc st). unfold flaky. cbn in *. destruct (c st) as [st' x].
  cbn in *. destruct o as [|[] o]; cbn; eauto 6.
Qed.

#[export] Instance flaky_stream_laws : StreamLaws FlakyStream.
Proof. constructor; intros; apply lost_flaky; apply mem_stream_up. Qed.

#[export] Instance pair_laws {S R} `{StreamLaws S} : StreamLaws (S * R).
Proof.
  constructor; intros; intros [s r]; cbn; unfold on_fst; cbn;
    [pose proof (xadd_lost maxlen f s) as L|pose proof (xgroup_create_lost s) as L
    |pose proof (xreadgroup_lost c n s) as L|pose proof (xack_lost id s) as L]; by case_match.
Qed.

#[export] Instance pair_up {S R} `{StreamUp S} : StreamUp (S * R).
Proof.
  constructor; intros; intros [s r]; cbn; unfold on_fst; cbn;
    [pose proof (xadd_up maxlen f s) as L|pose proof (xgroup_create_up s) as L
    |pose proof (xreadgroup_up c n s) as L|pose proof (xack_up id s) as L]; by case_match.
Qed.

(** ** Lemmas *)

Lemma entry_id_inj a b : entry_id a = entry_id b -> a = b.
Proof. intros Hab. apply str_int_inj. eapply sapp_inj_r. exact Hab. Qed.

Lemma frame_ret {T A} `{StreamServer T} (a : A) : frame (mret a : M T A).
Proof. by intros t. Qed.
Lemma frame_lift {T A} `{StreamServer T} (r : res A) : frame (lift_res r : M T A).
Proof. by intros t. Qed.

Lemma frame_bind {T A B} `{StreamServer T} (m : M T A) (f : A -> M T B) :
  frame m -> (forall a, frame (f a)) -> frame (m ≫= f).
Proof.
  intros Hm Hf t. unfold mbind, M_bind. specialize (Hm t). destruct (m t) as [t' [a|e]]; [|done].
  cbn in Hm. rewrite <- Hm. apply Hf.
Qed.

Lemma frame_try {T A} `{StreamServer T} (m : M T A) (h : exn -> M T A) :
  frame m -> (forall e, frame (h e)) -> frame (try_M m h).
Proof.
  intros Hm Hh t. unfold try_M. specialize (Hm t). destruct (m t) as [t' [a|e]]; [done|].
  cbn in Hm. rewrite <- Hm. apply Hh.
Qed.

#[export] Hint Resolve frame_ret frame_lift zremrangebyscore_frame zadd_frame zcard_frame
  expire_frame exists_frame set_frame sismember_frame sadd_frame : zq.

(** The Sigma runner and the built-in detectors only use the other keys. *)
Section Frames.
Context {T : Type} `{StreamFrame T}.

Ltac frames :=
  repeat first [ solve [auto with zq] | apply frame_bind; [|intros ?] | apply frame_try; [|intros ?]
               | case_match ].

Lemma frame_evaluate re_search now rules event : frame (evaluate (R := T) re_search now rules event).
Proof.
  induction rules as [|rule rules IH]; cbn [evaluate]; [auto with zq|].
  apply frame_bind; [|intros f; apply frame_bind; auto with zq].
  unfold eval_rule, eval_matched, _is_in_cooldown, _count_in_window, _record_event, _set_cooldown.
  frames.
Qed.

Lemma frame_window now key lo cutoff member score ttl :
  frame (window_pipeline (R := T) now key lo cutoff member score ttl).
Proof.
  intros t. unfold window_pipeline.
  pose proof (zremrangebyscore_frame now key lo cutoff t) as E1.
  destruct (zremrangebyscore _ _ _ _ t) as [t1 a1]. cbn in E1.
  pose proof (zadd_frame now key member score t1) as E2.
  destruct (zadd _ _ _ _ t1) as [t2 a2]. cbn in E2.
  pose proof (zcard_frame now key t2) as E3. destruct (zcard _ _ t2) as [t3 a3]. cbn in E3.
  pose proof (expire_frame now key ttl t3) as E4. destruct (expire _ _ _ t3) as [t4 a4]. cbn in *.
  congruence.
Qed.
#[local] Hint Resolve frame_window : zq.

Lemma frame_ms_window now event key member w : frame (ms_window (R := T) now event key member w).
Proof. unfold ms_window. frames. Qed.
#[local] Hint Resolve frame_ms_window : zq.

Lemma frame_failed_login settings now event ip :
  frame (Ssh.on_failed_login (R := T) settings now event ip).
Proof.
  intros t. unfold Ssh.on_failed_login.
  match goal with |- context [window_pipeline ?n ?k ?l ?c ?m ?s ?x t] =>
    pose proof (frame_window n k l c m s x t) as E;
    destruct (window_pipeline n k l c m s x t) as [t1 [n1|e]] end; cbn in E; [|done].
  destruct (n1 <? _); [done|].
  match goal with |- context [set_ex now ?k ?s ?b t1] =>
    pose proof (set_frame now k s b t1) as E1; destruct (set_ex now k s b t1) as [t2 x] end.
  cbn in E1. case_match; cbn; congruence.
Qed.

Lemma frame_first_free now event ip ms tags :
  frame (WebAttack.first_free (R := T) now event ip ms tags).
Proof.
  induction tags as [|tag tags IH]; intros t; cbn [WebAttack.first_free]; [done|].
  match goal with |- context [set_ex now ?k ?s ?b t] =>
    pose proof (set_frame now k s b t) as E1; destruct (set_ex now k s b t) as [t2 x] end.
  cbn in E1. rewrite <- E1. case_match; [done|apply IH].
Qed.
#[local] Hint Resolve frame_failed_login frame_first_free : zq.

Lemma frame_builtin settings :
  Forall (fun d => forall now event, frame (d now event)) (BUILTIN_DETECTORS (R := T) settings).
Proof.
  unfold BUILTIN_DETECTORS. repeat apply Forall_cons_2; [..|apply Forall_nil_2]; intros now event.
  - unfold Ssh.on_event. frames.
  - unfold PortScan.on_event. frames.
  - unfold WebAttack.on_event. frames.
  - unfold DnsTunnel.on_event. frames.
  - unfold AuthAnomaly.on_event, AuthAnomaly.observe. frames.
Qed.

End Frames.

(** *** Positions in the stream *)

(** Everything up to here has been delivered, or will never be. *)
Definition floor (st : rstream) : Z :=
  match x_group st with Some g => g_last g | None => x_top st end.

Abbreviation ids := (map (fst : Z * fieldmap -> Z)).

Record ordered (st : rstream) : Prop := {
  o_sorted : StronglySorted Z.lt (ids (x_entries st));
  o_top : Forall (fun n => n <= x_top st) (ids (x_entries st));
  o_floor : floor st <= x_top st;
  o_pending : Forall (fun p => exists n, p.2 = entry_id n /\ n <= floor st) (pending st)
}.

Lemma last_cons a l c : List.last (a :: l) c = List.last l a :> Z.
Proof.
  revert a c. induction l as [|b l IH]; intros a c; [done|].
  transitivity (List.last (b :: l) c); [done|]. transitivity (List.last (b :: l) a); [|done].
  by rewrite !IH.
Qed.

Lemma sorted_last l : forall c, StronglySorted Z.lt l -> Forall (fun n => c < n) l ->
  c <= List.last l c /\ Forall (fun n => n <= List.last l c) l.
Proof.
  induction l as [|a l IH]; intros c Hs Hc; [split; [cbn; lia|constructor]|].
  apply StronglySorted_inv in Hs as [Hs Ha]. inversion_clear Hc. rewrite last_cons.
  destruct (IH a Hs Ha) as [Hle Hall]. split; [lia|]. by constructor.
Qed.

Lemma last_or_in (l : list Z) : forall c, List.last l c = c \/ List.last l c ∈ l.
Proof.
  induction l as [|a l IH]; intros c; [by left|right]. rewrite last_cons.
  destruct (IH a) as [->|Hin]; [left|by right].
Qed.

Lemma sorted_app_lt (l1 l2 : list Z) :
  StronglySorted Z.lt (l1 ++ l2) <->
  StronglySorted Z.lt l1 /\ StronglySorted Z.lt l2 /\ forall a b, a ∈ l1 -> b ∈ l2 -> a < b.
Proof.
  induction l1 as [|x l1 IH]; cbn; [split; [intros; split; [constructor|]; split; [done|]; intros a b Ha; inversion Ha|tauto]|].
  split.
  - intros Hs. apply StronglySorted_inv in Hs as [Hs Hx]. apply IH in Hs as (H1&H2&H12).
    apply Forall_app in Hx as [Hx1 Hx2]. split; [by constructor|]. split; [done|].
    intros a b [->|Ha]%list_elem_of_In Hb; [|].
    + by eapply Forall_forall in Hx2.
    + apply H12; [by apply list_elem_of_In|done].
  - intros (H1&H2&H12). apply StronglySorted_inv in H1 as [H1 Hx]. constructor.
    + apply IH. split; [done|]. split; [done|]. intros a b Ha. apply H12. by right.
    + apply Forall_app. split; [done|]. apply Forall_forall. intros b Hb. apply H12; [by left|done].
Qed.

Lemma after_app c l1 l2 : after c (l1 ++ l2) = after c l1 ++ after c l2.
Proof. apply filter_app. Qed.

Lemma after_all c l : Forall (fun n => c < n) (ids l) -> after c l = l.
Proof.
  induction l as [|p l IH]; [done|]. cbn [map]. intros Hc. inversion_clear Hc as [|?? Hp Hl].
  unfold after. rewrite filter_cons_True by (cbn; by apply Z.ltb_lt). f_equal. by apply IH.
Qed.

Lemma after_none c l : Forall (fun n => n <= c) (ids l) -> after c l = [].
Proof.
  induction l as [|p l IH]; [done|]. cbn [map]. intros Hc. inversion_clear Hc as [|?? Hp Hl].
  unfold after. rewrite filter_cons_False by (cbn; apply not_true_iff_false, Z.ltb_ge; lia).
  by apply IH.
Qed.

Lemma after_above c l : Forall (fun n => c < n) (ids (after c l)).
Proof.
  apply Forall_map, Forall_forall. intros p Hp. apply list_elem_of_filter in Hp as [Hp _].
  by apply Z.ltb_lt.
Qed.

(** In a sorted stream what comes after a position is its end. *)
Lemma after_suffix c l : StronglySorted Z.lt (ids l) ->
  exists pre, l = pre ++ after c l /\ Forall (fun n => n <= c) (ids pre).
Proof.
  induction l as [|p l IH]; intros Hs; [by exists []|]. cbn [map] in Hs.
  apply StronglySorted_inv in Hs as [Hs Hp]. destruct (Z.le_gt_cases p.1 c).
  - destruct (IH Hs) as (pre&E&Hpre). exists (p :: pre). unfold after.
    rewrite filter_cons_False by (apply not_true_iff_false, Z.ltb_ge; lia).
    split; [cbn; by f_equal|]. by constructor.
  - exists []. split; [|constructor]. cbn [app]. symmetry. apply after_all. cbn [map].
    constructor; [done|]. eapply Forall_impl; [exact Hp|]. cbn. lia.
Qed.

Lemma ids_after_sorted c l : StronglySorted Z.lt (ids l) -> StronglySorted Z.lt (ids (after c l)).
Proof.
  intros Hs. destruct (after_suffix c l Hs) as (pre&E&_). rewrite E, map_app in Hs.
  by apply sorted_app_lt in Hs as (_&Hs&_).
Qed.

(** Delivering [count] entries moves the group past them. *)
Lemma after_take c count l : StronglySorted Z.lt (ids l) ->
  let new := take count (after c l) in
  let c' := List.last (ids new) c in
  after c' l = drop count (after c l) /\ c <= c' /\ Forall (fun n => c < n <= c') (ids new).
Proof.
  intros Hs. cbn zeta. destruct (after_suffix c l Hs) as (pre&E&Hpre).
  pose proof (after_above c l) as Hab. pose proof (ids_after_sorted c l Hs) as HsB.
  set (B := after c l) in *. clearbody B.
  rewrite <- (take_drop count B), map_app in Hab, HsB.
  apply Forall_app in Hab as [Hab1 Hab2]. apply sorted_app_lt in HsB as (Hs1&_&Hs12).
  destruct (sorted_last _ c Hs1 Hab1) as [Hle Hall].
  assert (Hdrop : Forall (fun n => List.last (ids (take count B)) c < n) (ids (drop count B))).
  { apply Forall_forall. intros n Hn. destruct (last_or_in (ids (take count B)) c) as [->|Hin].
    - by eapply Forall_forall in Hab2.
    - by apply Hs12. }
  split; [|split; [done|]].
  - rewrite E at 1. rewrite <- (take_drop count B) at 2. rewrite !after_app.
    rewrite (after_none _ pre), (after_none _ (take count B)), (after_all _ (drop count B)); [done..|].
    eapply Forall_impl; [exact Hpre|]. cbn. lia.
  - apply Forall_and. split; assumption.
Qed.

(** *** Commands that do not move the group *)

Record steady (st st' : rstream) : Prop := {
  st_entries : x_entries st' = x_entries st;
  st_top : x_top st' = x_top st;
  st_floor : floor st' = floor st;
  st_pending : forall p, p ∈ pending st' -> p ∈ pending st
}.

Lemma steady_refl st : steady st st.
Proof. by constructor. Qed.

Lemma steady_trans st1 st2 st3 : steady st1 st2 -> steady st2 st3 -> steady st1 st3.
Proof. intros [] []. constructor; [congruence..|auto]. Qed.

Lemma steady_ordered st st' : steady st st' -> ordered st -> ordered st'.
Proof.
  intros [He Ht Hf Hp] [Hs Htop Hfl Hpe]. constructor; rewrite ?He, ?Ht, ?Hf; [done..|].
  apply Forall_forall. intros p Hin. by eapply Forall_forall in Hpe; [|apply Hp].
Qed.

Lemma xack_steady id st : steady st (spec_xack id st).
Proof.
  unfold spec_xack. destruct (x_group st) as [g|] eqn:E; [|apply steady_refl].
  constructor; cbn; [done|done|unfold floor; by rewrite E|]. intros p Hp. unfold pending. rewrite E.
  apply list_elem_of_In, filter_In in Hp as [Hp _]. by apply list_elem_of_In.
Qed.

Lemma xgroup_create_steady st : steady st (spec_xgroup_create st).1.
Proof.
  unfold spec_xgroup_create. destruct (x_group st) as [g|] eqn:E; [apply steady_refl|].
  constructor; cbn; [done|done|unfold floor; by rewrite E|]. intros p Hp. inversion Hp.
Qed.

Lemma xack_idem id st : spec_xack id (spec_xack id st) = spec_xack id st.
Proof.
  unfold spec_xack. destruct (x_group st) as [g|] eqn:E; cbn; [|by rewrite E].
  unfold set_group. cbn. do 3 f_equal. induction (g_pending g) as [|p l IH]; [done|].
  cbn. destruct (negb _) eqn:En; cbn; [rewrite En; by f_equal|done].
Qed.

Lemma does_steady {T A} `{StreamServer T} (f : rstream -> rstream * res A) (c : M T A) t :
  (forall st, steady st (f st).1) -> may_be_lost (does f) c ->
  steady (stream_of t) (stream_of (c t).1).
Proof.
  intros Hf Hc. unfold does in Hc. destruct (Hc t) as [E|(_&[->|[x E]])]; [|apply steady_refl|];
    pose proof (Hf (stream_of t)) as Hs; by rewrite <- E in Hs.
Qed.

(** What a read delivers. *)
Lemma read_spec c count st entries :
  ordered st -> (spec_xreadgroup c count st).2 = Ok entries ->
  let st' := (spec_xreadgroup c count st).1 in
  exists new, new = take count (backlog st) /\ entries = map (fun p => (entry_id p.1, p.2)) new
  /\ backlog st' = drop count (backlog st) /\ pending st' = pending st ++ read_ids c new
  /\ StronglySorted Z.lt (ids new) /\ Forall (fun n => floor st < n <= floor st') (ids new).
Proof.
  intros Ho. unfold spec_xreadgroup. destruct (x_group st) as [g|] eqn:E; [|done]. cbn [snd fst].
  intros [= <-]. exists (take count (backlog st)). split; [done|]. split; [done|].
  unfold backlog, pending, floor. rewrite E. cbn.
  destruct (after_take (g_last g) count _ (o_sorted _ Ho)) as (H1&H2&H3).
  split; [exact H1|]. split; [done|]. split; [|exact H3].
  pose proof (ids_after_sorted (g_last g) _ (o_sorted _ Ho)) as Hs.
  rewrite <- (take_drop count (after _ _)), map_app in Hs. by apply sorted_app_lt in Hs as [Hs _].
Qed.

Lemma read_moves c count st :
  ordered st -> let st' := (spec_xreadgroup c count st).1 in
  ordered st' /\ floor st <= floor st'.
Proof.
  intros Ho. cbn zeta. unfold spec_xreadgroup. destruct (x_group st) as [g|] eqn:E; [|done].
  cbn [fst]. pose proof Ho as [Hs Ht Hf Hp]. unfold floor, pending in *. rewrite E in Hf, Hp.
  destruct (after_take (g_last g) count _ Hs) as (_&H2&H3).
  unfold backlog in *. rewrite E in *. set (new := take count _) in *.
  assert (Hl : List.last (ids new) (g_last g) <= x_top st).
  { destruct (last_or_in (ids new) (g_last g)) as [->|Hin]; [done|].
    apply list_elem_of_In, in_map_iff in Hin as (p&<-&Hp1).
    eapply Forall_forall in Ht; [exact Ht|]. apply list_elem_of_fmap_2.
    apply list_elem_of_In, elem_of_take in Hp1 as (i&Hi&_).
    apply list_elem_of_lookup_2, list_elem_of_filter in Hi as [_ Hi]. done. }
  split; [|exact H2]. constructor; cbn; [done..|].
  apply Forall_app. split.
  - eapply Forall_impl; [exact Hp|]. intros p (n&?&?). exists n. split; [done|lia].
  - unfold read_ids. apply Forall_map. apply Forall_map in H3. eapply Forall_impl; [exact H3|].
    cbn. intros p [_ ?]. eauto.
Qed.

(** A publication: the backlog grows by the new entry, if it is not so long that
    entries are trimmed away. *)
Lemma xadd_moves maxlen f st st' r :
  ordered st -> xadd_post maxlen f st st' r -> ordered st' /\ floor st <= floor st'.
Proof.
  intros [Hs Ht Hf Hp] (n&k&Hn&_&->&_). unfold floor, pending in *. cbn.
  assert (Hall : StronglySorted Z.lt (ids (x_entries st ++ [(n, f)]))
                 /\ Forall (fun m => m <= n) (ids (x_entries st ++ [(n, f)]))).
  { rewrite map_app. cbn. split.
    - apply sorted_app_lt. split; [done|]. split; [repeat constructor|].
      intros a b Ha Hb%list_elem_of_singleton. subst b. eapply Forall_forall in Ht; [|exact Ha].
      cbn in Ht. lia.
    - apply Forall_app. split; [|by constructor]. eapply Forall_impl; [exact Ht|]. cbn. lia. }
  rewrite <- (take_drop k (x_entries st ++ [(n, f)])), map_app in Hall.
  destruct Hall as [[_ [Hs2 _]]%sorted_app_lt [_ Ht2]%Forall_app].
  split; [|destruct (x_group st); lia]. constructor; cbn; [done|done| |].
  - unfold floor. cbn. destruct (x_group st); lia.
  - unfold pending, floor. cbn. destruct (x_group st); [done|constructor].
Qed.

Lemma xadd_backlog maxlen f st st' r :
  ordered st -> xadd_post maxlen f st st' r -> x_group st <> None ->
  Z.of_nat (length (backlog st)) + 1 <= maxlen ->
  (exists n, backlog st' = backlog st ++ [(n, f)]) /\ pending st' = pending st /\ x_group st' = x_group st.
Proof.
  intros [Hs Ht Hf Hp] (n&k&Hn&_&->&Hk) Hg Hlen. unfold backlog, pending, floor in *.
  cbn [x_entries x_group x_top] in *. destruct (x_group st) as [g|]; [|done]. split; [|done]. exists n.
  destruct (after_suffix (g_last g) _ Hs) as (pre&E&Hpre). pose proof (after_above (g_last g) (x_entries st)) as Hab.
  set (B := after (g_last g) (x_entries st)) in *. clearbody B. rewrite E.
  rewrite <- app_assoc.
  assert (Hkle : (k <= length pre)%nat).
  { destruct Hk as [->|Hk]; [lia|]. rewrite E, length_drop, !length_app in Hk. cbn in Hk.
    destruct (Nat.le_gt_cases k (length pre)); [done|lia]. }
  rewrite drop_app_le by done. rewrite after_app, (after_none _ (drop k pre)), (after_all _ (B ++ _)); [done| |].
  - rewrite map_app. apply Forall_app. split; [done|]. constructor; [cbn; lia|constructor].
  - rewrite <- (take_drop k pre), map_app in Hpre. by apply Forall_app in Hpre as [_ ?].
Qed.

(** *** A message in the hands of a worker *)

Lemma inv_other {S T A} (I : T -> Prop) (m : M S A) : keeps_inv (fun w : S * T => I w.2) (on_fst m).
Proof. intros [s t] Hs. unfold on_fst. cbn in *. by destruct (m s). Qed.

Lemma inv_half {S T A} (I : T -> Prop) (m : M T A) :
  keeps_inv I m -> keeps_inv (fun w : S * T => I w.2) (on_snd m).
Proof. intros Hm [s t] Hs. unfold on_snd. cbn in *. specialize (Hm t Hs). by destruct (m t). Qed.

Lemma inv_frame {T A} `{StreamServer T} (P : rstream -> Prop) (m : M T A) :
  frame m -> keeps_inv (fun t => P (stream_of t)) m.
Proof. intros Hm t Ht. by rewrite Hm. Qed.

#[export] Hint Resolve inv_other : zq.

Section Message.
Context {D T : Type} `{Database D} `{StreamFrame T}.
Context (uuid4 : M D string) (re_search : string -> string -> res bool).
Context (detectors : list (Z -> ParsedEvent -> M T (list DetectionResult))).
Hypothesis detectors_frame : Forall (fun d => forall now event, frame (d now event)) detectors.

Abbreviation Holds P := (fun w : D * T => P (stream_of w.2)).

Lemma inv_each {A} (P : rstream -> Prop) (f : A -> M (D * T) unit) l :
  Forall (fun x => keeps_inv (Holds P) (f x)) l -> keeps_inv (Holds P) (for_each f l).
Proof.
  induction 1 as [|x l Hx _ IH]; cbn [for_each]; [apply inv_ret|].
  apply inv_bind; [exact Hx|]. intros _. exact IH.
Qed.

Lemma results_frame P now host rs :
  keeps_inv (Holds P) (for_each (handle_result uuid4 now host) rs).
Proof.
  apply inv_each, Forall_forall. intros r _. unfold handle_result, swallow.
  apply inv_bind; [apply inv_try; [apply inv_bind|]; auto with zq; apply (inv_other (fun t => P (stream_of t)))|].
  intros [i|]; [|auto with zq]. destruct (dr_action r); [|auto with zq].
  apply inv_try; [apply inv_bind|]; auto with zq. apply (inv_other (fun t => P (stream_of t))).
Qed.

Lemma detectors_keep P now p : keeps_inv (Holds P) (for_each (run_detector uuid4 now p) detectors).
Proof.
  apply inv_each. eapply Forall_impl; [exact detectors_frame|]. intros d Hd. unfold run_detector.
  apply inv_bind; [|intros rs; apply results_frame].
  apply inv_try; [|auto with zq]. apply (inv_half (fun t => P (stream_of t))), inv_frame, Hd.
Qed.

Lemma sigma_keeps P now rules msg :
  keeps_inv (Holds P) (_process_sigma_one uuid4 re_search now rules msg).
Proof.
  unfold _process_sigma_one, _load_event_payload.
  apply inv_bind; [auto with zq|]. intros [p|]; [|auto with zq].
  apply inv_bind; [apply (inv_other (fun t => P (stream_of t)))|]. intros [[raw meta]|]; [|auto with zq].
  apply inv_bind; [auto with zq|]. intros [|rule rs]; [auto with zq|].
  apply inv_bind; [apply (inv_half (fun t => P (stream_of t))), inv_frame, frame_evaluate|].
  intros fires. apply inv_each, Forall_forall. intros fire _. unfold swallow.
  apply inv_try; [apply inv_bind|]; auto with zq. apply (inv_other (fun t => P (stream_of t))).
Qed.

(** Whatever [xack] does happens at most at the end of [_process_one]. *)
Definition ends_with_ack {A} (id : string) (m : M (D * T) A) : Prop :=
  forall w, exists w' : D * T, stream_of w'.2 = stream_of w.2
  /\ ((exists e, m w = (w', Raise e)) \/ (m w).1 = (on_snd (xack id) w').1).

Lemma ends_bind {A B} id (m : M (D * T) A) (f : A -> M (D * T) B) :
  (forall P, keeps_inv (Holds P) m) -> (forall a, ends_with_ack id (f a)) -> ends_with_ack id (m ≫= f).
Proof.
  intros Hm Hf w. unfold mbind, M_bind. pose proof (Hm (fun st => st = stream_of w.2) w eq_refl) as E.
  destruct (m w) as [w1 [a|e]]; cbn in E; [|exists w1; eauto].
  destruct (Hf a w1) as (w'&E'&Hw'). exists w'. split; [congruence|done].
Qed.

Lemma process_ends now msg_id msg : ends_with_ack msg_id (_process_one uuid4 xack detectors now msg_id msg).
Proof.
  assert (Hack : ends_with_ack msg_id (on_snd (S := D) (xack (T := T) msg_id))).
  { intros w. exists w. by split; [|right]. }
  unfold _process_one, _load_event_payload.
  apply ends_bind; [auto with zq|]. intros [p|]; [|done].
  apply ends_bind; [intros P; apply (inv_other (fun t => P (stream_of t)))|].
  intros [[raw meta]|]; [|done]. apply ends_bind; [|done]. intros P. apply detectors_keep.
Qed.

(** With a server that answers, a handled message is acknowledged; otherwise the
    group at least stays where it is. *)
Lemma handle_acks `{!StreamUp T} now rules msg (w : D * T) :
  stream_of (handle_message uuid4 xack re_search detectors now rules msg w).1.2
  = spec_xack msg.1 (stream_of w.2).
Proof.
  assert (Hx : forall w : D * T, stream_of (on_snd (xack msg.1) w).1.2 = spec_xack msg.1 (stream_of w.2)).
  { intros [d t]. unfold on_snd. cbn. pose proof (xack_up msg.1 t) as E. unfold does in E.
    injection E as E _. by destruct (xack msg.1 t). }
  assert (Hsw : forall w : D * T, stream_of (swallow (on_snd (xack msg.1)) w).1.2
                                  = spec_xack msg.1 (stream_of w.2)).
  { intros w1. rewrite <- Hx. unfold swallow, try_M, mbind, M_bind. by destruct (on_snd _ w1) as [? []]. }
  unfold handle_message, try_M, mbind at 1, M_bind at 1.
  destruct (process_ends now msg.1 msg.2 w) as (w'&E&[[e ->]|Hp]); [by rewrite Hsw, E|].
  specialize (Hx w'). rewrite <- Hp, E in Hx.
  destruct (_process_one uuid4 xack detectors now msg.1 msg.2 w) as [w1 [[]|e]]; cbn [fst] in Hx.
  - pose proof (sigma_keeps (fun st => st = stream_of w1.2) now rules msg.2 w1 eq_refl) as Es.
    destruct (_process_sigma_one _ _ _ _ _ w1) as [w2 [[]|e]]; cbn in Es |- *; [by rewrite Es, Hx|].
    by rewrite Hsw, Es, Hx, xack_idem.
  - by rewrite Hsw, Hx, xack_idem.
Qed.

Lemma handle_steady `{!StreamLaws T} now rules msg (w : D * T) :
  steady (stream_of w.2) (stream_of (handle_message uuid4 xack re_search detectors now rules msg w).1.2).
Proof.
  assert (Hx : forall w : D * T, steady (stream_of w.2) (stream_of (on_snd (xack msg.1) w).1.2)).
  { intros [d t]. unfold on_snd. cbn.
    pose proof (does_steady (fun st => (spec_xack msg.1 st, Ok tt)) _ t (xack_steady msg.1) (xack_lost msg.1)) as Hs.
    by destruct (xack msg.1 t). }
  assert (Hsw : forall w : D * T, steady (stream_of w.2) (stream_of (swallow (on_snd (xack msg.1)) w).1.2)).
  { intros w1. specialize (Hx w1). unfold swallow, try_M, mbind, M_bind.
    by destruct (on_snd _ w1) as [? []]. }
  unfold handle_message, try_M, mbind at 1, M_bind at 1.
  destruct (process_ends now msg.1 msg.2 w) as (w'&E&[[e ->]|Hp]); [by rewrite <- E|].
  specialize (Hx w'). rewrite <- Hp, E in Hx.
  destruct (_process_one uuid4 xack detectors now msg.1 msg.2 w) as [w1 [[]|e]]; cbn [fst] in Hx.
  - pose proof (sigma_keeps (fun st => st = stream_of w1.2) now rules msg.2 w1 eq_refl) as Es.
    destruct (_process_sigma_one _ _ _ _ _ w1) as [w2 [[]|e]]; cbn in Es |- *; [by rewrite Es|].
    eapply steady_trans; [exact Hx|]. rewrite <- Es. apply Hsw.
  - eapply steady_trans; [exact Hx|]. apply Hsw.
Qed.

End Message.

(** *** Schedules over connections that may break *)

Lemma up_laws {T} `{StreamServer T} : StreamUp T -> StreamLaws T.
Proof. intros Hup. constructor; intros; intros t; left; apply Hup. Qed.

Section Schedule.
Context {D T : Type} `{Database D} `{StreamFrame T}.
Context (maxlen : Z) (uuid4 : M D string) (re_search : string -> string -> res bool).
Context (detectors : list (Z -> ParsedEvent -> M T (list DetectionResult))).
Context (clock : string -> Z) (rules : string -> res (list CompiledSigmaRule)).
Hypothesis detectors_frame : Forall (fun d => forall now event, frame (d now event)) detectors.

Abbreviation sys := (list (worker * (string * fieldmap)) * (D * T))%type.
Abbreviation str s := (stream_of (snd (snd s))).

(** The two loops side by side. *)
Definition on_read_error (w : worker) : exn -> M sys (list (string * fieldmap)) :=
  match w with Runner _ => run_except | Stub => consumer_except end.

Definition handle' (w : worker) (msg : string * fieldmap) : M sys unit :=
  match w with
  | Runner _ =>
      on_snd (handle_message uuid4 xack re_search detectors (clock msg.1) (rules msg.1) msg)
  | Stub => on_redis (xack msg.1)
  end.

Abbreviation turn' := (turn uuid4 re_search detectors clock rules).
Abbreviation do_step' := (do_step maxlen uuid4 re_search detectors clock rules).
Abbreviation run_steps' := (run_steps maxlen uuid4 re_search detectors clock rules).

Lemma on_redis_run {A} (m : M T A) (s : sys) :
  on_redis m s = ((s.1, (s.2.1, (m s.2.2).1)), (m s.2.2).2).
Proof. unfold on_redis, on_snd. by destruct (m s.2.2). Qed.

Definition calm {A} (m : M sys A) : Prop := forall s, (m s).1.1 = s.1 /\ steady (str s) (str (m s).1).

(** The workers were given entries past the group's position, in order. *)
Definition progress {A} (m : M sys A) : Prop := forall s, ordered (str s) ->
  let s' := (m s).1 in ordered (str s') /\ floor (str s) <= floor (str s')
  /\ exists ms ns, s'.1 = s.1 ++ ms /\ map (fun x => x.2.1) ms = map entry_id ns
     /\ StronglySorted Z.lt ns /\ Forall (fun n => floor (str s) < n <= floor (str s')) ns.

Lemma calm_progress {A} (m : M sys A) : calm m -> progress m.
Proof.
  intros Hm s Ho. destruct (Hm s) as [Hl Hs]. split; [by eapply steady_ordered|].
  split; [destruct Hs as [_ _ -> _]; done|]. exists [], []. rewrite Hl, app_nil_r.
  by repeat split; try constructor.
Qed.

Lemma calm_ret {A} (a : A) : calm (mret a).
Proof. intros s. split; [done|apply steady_refl]. Qed.

Lemma calm_raise {A} e : calm (raise_M e : M sys A).
Proof. intros s. split; [done|apply steady_refl]. Qed.

Lemma calm_bind {A B} (m : M sys A) (f : A -> M sys B) : calm m -> (forall a, calm (f a)) -> calm (m ≫= f).
Proof.
  intros Hm Hf s. unfold mbind, M_bind. destruct (Hm s) as [Hl Hs]. destruct (m s) as [s1 [a|e]]; [|done].
  destruct (Hf a s1) as [Hl1 Hs1]. cbn in *. rewrite Hl1. split; [done|]. by eapply steady_trans.
Qed.

Lemma calm_on_redis {A} (m : M T A) :
  (forall t, steady (stream_of t) (stream_of (m t).1)) -> calm (on_redis m).
Proof. intros Hm s. rewrite on_redis_run. split; [done|]. apply Hm. Qed.

Lemma progress_trans (s1 s2 s3 : sys) ms1 ns1 ms2 ns2 :
  floor (str s1) <= floor (str s2) -> floor (str s2) <= floor (str s3) ->
  map (fun x : worker * (string * fieldmap) => x.2.1) ms1 = map entry_id ns1 ->
  map (fun x : worker * (string * fieldmap) => x.2.1) ms2 = map entry_id ns2 ->
  StronglySorted Z.lt ns1 -> StronglySorted Z.lt ns2 ->
  Forall (fun n => floor (str s1) < n <= floor (str s2)) ns1 ->
  Forall (fun n => floor (str s2) < n <= floor (str s3)) ns2 ->
  map (fun x : worker * (string * fieldmap) => x.2.1) (ms1 ++ ms2) = map entry_id (ns1 ++ ns2)
  /\ StronglySorted Z.lt (ns1 ++ ns2)
  /\ Forall (fun n => floor (str s1) < n <= floor (str s3)) (ns1 ++ ns2).
Proof.
  intros H12 H23 E1 E2 S1 S2 F1 F2. split; [by rewrite !map_app, E1, E2|]. split.
  - apply sorted_app_lt. split; [done|]. split; [done|]. intros a b Ha Hb.
    eapply Forall_forall in F1; [|exact Ha]. eapply Forall_forall in F2; [|exact Hb]. cbn in *. lia.
  - apply Forall_app. split; (eapply Forall_impl; [eassumption|]); cbn; lia.
Qed.

Lemma progress_bind {A B} (m : M sys A) (f : A -> M sys B) :
  progress m -> (forall a, progress (f a)) -> progress (m ≫= f).
Proof.
  intros Hm Hf s Ho. unfold mbind, M_bind. destruct (Hm s Ho) as (Ho1&Hle1&ms1&ns1&El1&E1&S1&F1).
  destruct (m s) as [s1 [a|e]]; [|cbn in *; eauto 10]. cbn [fst] in *.
  destruct (Hf a s1 Ho1) as (Ho2&Hle2&ms2&ns2&El2&E2&S2&F2). split; [done|]. split; [cbn in *; lia|].
  exists (ms1 ++ ms2), (ns1 ++ ns2). split; [by rewrite El2, El1, app_assoc|].
  eapply (progress_trans s s1); eassumption.
Qed.

Lemma progress_try {A} (m : M sys A) (h : exn -> M sys A) :
  progress m -> (forall e, progress (h e)) -> progress (try_M m h).
Proof.
  intros Hm Hh s Ho. unfold try_M. destruct (Hm s Ho) as (Ho1&Hle1&ms1&ns1&El1&E1&S1&F1).
  destruct (m s) as [s1 [a|e]]; [cbn in *; eauto 10|]. cbn [fst] in *.
  destruct (Hh e s1 Ho1) as (Ho2&Hle2&ms2&ns2&El2&E2&S2&F2). split; [done|]. split; [cbn in *; lia|].
  exists (ms1 ++ ms2), (ns1 ++ ns2). split; [by rewrite El2, El1, app_assoc|].
  eapply (progress_trans s s1); eassumption.
Qed.

(** One turn, with its read made explicit. *)
Lemma turn_run w (s : sys) :
  turn' w s =
  let read := xreadgroup (consumer_of w) (count_of w) s.2.2 in
  let s1 : sys := (s.1, (s.2.1, read.1)) in
  let each l := for_each (fun msg => _ ← note w msg; handle' w msg) l in
  match read.2 with
  | Ok entries => each entries s1
  | Raise e => match on_read_error w e s1 with
               | (s2, Ok l) => each l s2
               | (s2, Raise e') => (s2, Raise e')
               end
  end.
Proof.
  destruct w as [pid|]; unfold turn, run, run_consumer, mbind at 1, M_bind at 1, try_M;
    rewrite on_redis_run; cbn zeta; by destruct (xreadgroup _ _ s.2.2) as [t1 [l|e]].
Qed.

Section Lossy.
Context `{!StreamLaws T}.

Lemma xack_calm id : calm (on_redis (xack id)).
Proof.
  apply calm_on_redis. intros t.
  exact (does_steady (fun st => (spec_xack id st, Ok tt)) _ t (xack_steady id) (xack_lost id)).
Qed.

Lemma ensure_calm : calm (on_redis ensure_consumer_group).
Proof.
  apply calm_on_redis. intros t.
  pose proof (does_steady _ _ t xgroup_create_steady xgroup_create_lost) as Hs.
  unfold ensure_consumer_group, try_M. destruct (xgroup_create t) as [t1 [[]|e]]; [done|].
  cbn in Hs. destruct e; try done. by case_match.
Qed.

Lemma handle_calm w msg : calm (handle' w msg).
Proof.
  destruct w as [pid|]; [|apply xack_calm]. intros [l dt]. cbn [handle']. unfold on_snd.
  pose proof (handle_steady uuid4 re_search detectors detectors_frame (clock msg.1) (rules msg.1) msg dt) as Hs.
  cbn [fst snd]. by destruct (handle_message _ _ _ _ _ _ _ dt).
Qed.

Lemma each_calm w l (s : sys) :
  let s' := (for_each (fun msg => _ ← note w msg; handle' w msg) l s).1 in
  (exists k, s'.1 = s.1 ++ map (pair w) (take k l)) /\ steady (str s) (str s').
Proof.
  revert s. induction l as [|m l IH]; intros s; cbn [for_each].
  - split; [|apply steady_refl]. exists 0%nat. by rewrite app_nil_r.
  - unfold mbind at 1, M_bind at 1. unfold mbind at 1, M_bind at 1.
    unfold mbind at 2, M_bind at 2. unfold mbind at 2, M_bind at 2. unfold note at 1 3. cbn [fst].
    set (s0 := (s.1 ++ [(w, m)], s.2)). destruct (handle_calm w m s0) as [Hl Hs].
    destruct (handle' w m s0) as [s1 [[]|e]]; cbn [fst] in *.
    + destruct (IH s1) as [[k Ek] Hs2]. split; [|by eapply steady_trans].
      exists (S k). rewrite Ek, Hl. subst s0. cbn. by rewrite <- app_assoc.
    + split; [|done]. exists 1%nat. by rewrite Hl.
Qed.

Lemma read_error_calm w e : calm (on_read_error w e).
Proof.
  unfold on_read_error, run_except, consumer_except.
  destruct w, e; try apply calm_ret; try apply calm_raise; (destruct (contains _ _);
    [apply calm_bind; [apply ensure_calm|]; intros _; apply calm_ret|]);
    first [apply calm_ret|apply calm_raise].
Qed.

Lemma read_error_empty w e s s1 l : on_read_error w e s = (s1, Ok l) -> l = [].
Proof.
  unfold on_read_error, run_except, consumer_except, mbind, M_bind, mret, M_ret, raise_M.
  destruct w, e; try congruence; repeat case_match; congruence.
Qed.

Lemma turn_progress w : progress (turn' w).
Proof.
  intros s Ho. rewrite turn_run. cbn zeta.
  pose proof (xreadgroup_lost (consumer_of w) (count_of w) s.2.2) as L. unfold does in L.
  destruct (xreadgroup (consumer_of w) (count_of w) s.2.2) as [t1 x]. cbn [fst snd] in *.
  destruct (read_moves (consumer_of w) (count_of w) _ Ho) as [Ho1 Hle1].
  set (s1 := (s.1, (s.2.1, t1))).
  assert (Hmove : ordered (str s1) /\ floor (str s) <= floor (str s1)).
  { cbn. destruct L as [E|(_&[->|[y E]])]; [|done|]; by rewrite <- E in Ho1, Hle1. }
  clear Ho1 Hle1. destruct Hmove as [Ho1 Hle1]. destruct x as [entries|e].
  - destruct L as [E|(E&_)]; [|done].
    destruct (read_spec (consumer_of w) (count_of w) _ entries Ho) as (new&_&->&_&_&S1&F1).
    { by rewrite <- E. }
    rewrite <- E in F1. cbn [fst] in F1.
    destruct (each_calm w (map (fun p => (entry_id p.1, p.2)) new) s1) as [[k Ek] Hs].
    destruct (for_each _ _ s1) as [s2 y]. cbn [fst] in *. split; [by eapply steady_ordered|].
    pose proof (st_floor _ _ Hs) as Hf. split; [cbn in *; lia|].
    eexists. exists (take k (map fst new)). split; [exact Ek|]. split.
    { rewrite <- !firstn_map, !map_map. done. }
    rewrite <- (take_drop k (map fst new)) in S1, F1. apply sorted_app_lt in S1 as [S1 _].
    apply Forall_app in F1 as [F1 _]. split; [done|]. cbn in *. by rewrite Hf.
  - destruct (calm_progress _ (read_error_calm w e) s1 Ho1) as (Ho2&Hle2&ms&ns&El&Em&S&F).
    destruct (on_read_error w e s1) as [s2 [l|e2]] eqn:Er; cbn [fst] in *.
    + assert (l = []) as ->.
      { by apply read_error_empty in Er. }
      cbn. split; [done|]. split; [cbn in *; lia|]. exists ms, ns. split; [exact El|]. split; [done|].
      split; [done|]. eapply Forall_impl; [exact F|]. cbn in *. lia.
    + split; [done|]. split; [cbn in *; lia|]. exists ms, ns. split; [exact El|]. split; [done|].
      split; [done|]. eapply Forall_impl; [exact F|]. cbn in *. lia.
Qed.

Lemma publish_progress e : progress (on_redis (D := D) (publish_event (R := T) (xadd maxlen) e)).
Proof.
  intros s Ho. rewrite on_redis_run. unfold publish_event.
  pose proof (xadd_lost maxlen (publish_fields e) s.2.2) as L.
  destruct (xadd maxlen (publish_fields e) s.2.2) as [t1 x]. cbn in *.
  assert (Hm : ordered (stream_of t1) /\ floor (str s) <= floor (stream_of t1)).
  { destruct L as [E|(_&[->|[y E]])]; [|done|]; by eapply xadd_moves. }
  destruct Hm as [Ho1 Hle]. split; [done|]. split; [done|]. exists [], []. rewrite app_nil_r.
  by repeat split; try constructor.
Qed.

Lemma carry_progress w ws (m : M sys unit) : progress m -> progress (carry_out w ws m).
Proof.
  intros Hm. apply progress_try; [|intros e; apply calm_progress, calm_ret].
  apply progress_bind; [done|]. intros _. apply calm_progress, calm_ret.
Qed.

Lemma step_progress x ws : progress (do_step' x ws).
Proof.
  assert (Hret : forall ws', progress (mret ws' : M sys (list (worker * status))))
    by (intros ws'; apply calm_progress, calm_ret).
  assert (Hunit : progress (mret tt : M sys unit)) by apply calm_progress, calm_ret.
  destruct x as [e|w|w|w]; cbn [do_step].
  - apply progress_bind; [|done]. apply progress_try; [|done].
    apply progress_bind; [apply publish_progress|done].
  - destruct (status_of w ws); [done|]. apply carry_progress. destruct w; [|done].
    apply calm_progress, ensure_calm.
  - destruct (status_of w ws) as [[]|]; try done. apply carry_progress, turn_progress.
  - by destruct (status_of w ws) as [[]|].
Qed.

Lemma run_progress l : forall ws, progress (run_steps' l ws).
Proof.
  induction l as [|x l IH]; intros ws; cbn [run_steps]; [apply calm_progress, calm_ret|].
  apply progress_bind; [apply step_progress|exact IH].
Qed.

End Lossy.

(** *** Schedules over a server that answers *)

Section Exact.
Context `{!StreamUp T}.

(** The stream after some entries were acknowledged. *)
Definition acked (l : list string) (st st' : rstream) : Prop :=
  x_entries st' = x_entries st /\ x_top st' = x_top st
  /\ match x_group st, x_group st' with
     | Some g, Some g' => g_last g' = g_last g
         /\ g_pending g' = List.filter (fun p => negb (existsb (String.eqb p.2) l)) (g_pending g)
     | _, _ => False
     end.

Lemma filter_filter_and {A} (f g : A -> bool) l :
  List.filter g (List.filter f l) = List.filter (fun x => f x && g x) l.
Proof.
  induction l as [|x l IH]; [done|]. cbn. destruct (f x); cbn; [|done]. destruct (g x); by rewrite IH.
Qed.

Lemma filter_nothing {A} (f : A -> bool) l : (forall x, In x l -> f x = false) -> List.filter f l = [].
Proof.
  induction l as [|x l IH]; [done|]. intros Hf. cbn. rewrite (Hf x) by (by left).
  apply IH. intros y Hy. apply Hf. by right.
Qed.

Lemma acked_cons id l st st' : acked l (spec_xack id st) st' -> acked (id :: l) st st'.
Proof.
  unfold acked, spec_xack. destruct (x_group st) as [g|] eqn:Eg; cbn; [|rewrite Eg; tauto].
  destruct (x_group st') as [g'|]; [|tauto]. rewrite filter_filter_and. intros (?&?&?&->).
  split; [done|]. split; [done|]. split; [done|]. apply filter_ext. intros p. by rewrite negb_orb.
Qed.

Lemma handle_exact w msg (s : sys) :
  exists s1, handle' w msg s = (s1, Ok tt) /\ s1.1 = s.1 /\ str s1 = spec_xack msg.1 (str s).
Proof.
  destruct w as [pid|]; cbn [handle'].
  - destruct s as [l dt]. unfold on_snd. cbn [fst snd].
    pose proof (handle_acks uuid4 re_search detectors detectors_frame (clock msg.1) (rules msg.1) msg dt) as Hs.
    pose proof (handle_message_ok uuid4 xack re_search detectors (clock msg.1) (rules msg.1) msg dt) as Hok.
    destruct (handle_message _ _ _ _ _ _ _ dt) as [dt1 x]. cbn [fst snd] in *. subst x. by eexists.
  - rewrite on_redis_run. pose proof (xack_up msg.1 s.2.2) as E. unfold does in E.
    injection E as E ->. by eexists.
Qed.

Lemma each_exact w l : forall s : sys, x_group (str s) <> None ->
  exists s1, for_each (fun msg => _ ← note w msg; handle' w msg) l s = (s1, Ok tt)
  /\ s1.1 = s.1 ++ map (pair w) l /\ acked (map fst l) (str s) (str s1).
Proof.
  induction l as [|m l IH]; intros s Hg; cbn [for_each].
  - exists s. split; [done|]. split; [by rewrite app_nil_r|]. unfold acked. cbn.
    destruct (x_group (str s)) as [g|]; [|done]. do 3 (split; [done|]).
    induction (g_pending g) as [|p q IHq]; [done|]. cbn. by f_equal.
  - unfold mbind at 1, M_bind at 1. unfold mbind at 1, M_bind at 1. unfold note at 1.
    destruct (handle_exact w m (s.1 ++ [(w, m)], s.2)) as (s1&->&E1&Es1). cbn [fst snd] in *.
    destruct (IH s1) as (s2&->&E2&Ha).
    { rewrite Es1. unfold spec_xack. by destruct (x_group (str s)). }
    exists s2. split; [done|]. split; [by rewrite E2, E1, <- app_assoc|].
    cbn [map]. apply acked_cons. by rewrite <- Es1.
Qed.

Lemma acked_backlog l st st' : acked l st st' -> backlog st' = backlog st /\ x_group st' <> None.
Proof.
  unfold acked, backlog. intros (->&_&Hg). destruct (x_group st), (x_group st'); try done.
  by destruct Hg as [-> _].
Qed.

(** The entries of a read are the ones whose acknowledgement empties it again. *)
Lemma acked_pending w new st st' :
  Forall (fun p => exists n, p.2 = entry_id n /\ n <= floor st) (pending st) ->
  Forall (fun n => floor st < n) (ids new) ->
  acked (map (fun p => entry_id p.1) new) (set_group (Some (mkGroup (floor st') (pending st ++ read_ids w new))) st) st' ->
  pending st' = pending st.
Proof.
  intros Hp Hn (_&_&Hg). cbn in Hg. unfold pending at 1. destruct (x_group st') as [g'|]; [|done].
  destruct Hg as [_ ->]. rewrite List.filter_app.
  assert (Hin : List.filter (fun p => negb (existsb (String.eqb p.2) (map (fun p => entry_id p.1) new)))
                  (pending st) = pending st).
  { clear st'. induction Hp as [|p l (n&E&Hle) _ IH]; [done|]. cbn. rewrite IH.
    destruct (existsb _ _) eqn:Ex; [exfalso|done].
    apply existsb_exists in Ex as (x&Hx&Eq). apply in_map_iff in Hx as (q&<-&Hq).
    bprop. rewrite E in Eq. apply entry_id_inj in Eq.
    eapply Forall_forall in Hn; [|apply list_elem_of_fmap_2, list_elem_of_In, Hq]. cbn in Hn. lia. }
  rewrite Hin. replace (List.filter _ (read_ids w new)) with (@nil (string * string)); [apply app_nil_r|].
  symmetry. apply filter_nothing. intros p Hpin. unfold read_ids in Hpin.
  apply in_map_iff in Hpin as (q&<-&Hq). cbn. apply negb_false_iff, existsb_exists.
  exists (entry_id q.1). split; [apply in_map_iff; eauto|apply String.eqb_refl].
Qed.

Lemma turn_exact w (s : sys) : ordered (str s) -> x_group (str s) <> None ->
  exists s1, turn' w s = (s1, Ok tt) /\ x_group (str s1) <> None
  /\ s1.1 = s.1 ++ map (fun p => (w, (entry_id p.1, p.2))) (take (count_of w) (backlog (str s)))
  /\ backlog (str s1) = drop (count_of w) (backlog (str s)) /\ pending (str s1) = pending (str s).
Proof.
  intros Ho Hg. rewrite turn_run. cbn zeta.
  pose proof (xreadgroup_up (consumer_of w) (count_of w) s.2.2) as E. unfold does in E.
  destruct (xreadgroup (consumer_of w) (count_of w) s.2.2) as [t1 x]. cbn [fst snd] in *.
  pose proof (read_spec (consumer_of w) (count_of w) (str s)) as R. rewrite <- E in R. cbn [fst snd] in R.
  destruct x as [entries|e].
  2: { unfold spec_xreadgroup in E. destruct (x_group (str s)); [|done]. by injection E. }
  destruct (R entries Ho eq_refl) as (new&En&->&Hb&Hp&_&HF). rewrite <- En.
  destruct (each_exact w (map (fun p => (entry_id p.1, p.2)) new) (s.1, (s.2.1, t1))) as (s1&->&E1&Ha).
  { cbn. unfold spec_xreadgroup in E. destruct (x_group (str s)); [|done]. by injection E as ->. }
  cbn [fst snd] in *. rewrite map_map in E1. rewrite map_map in Ha. cbn [fst] in Ha.
  destruct (acked_backlog _ _ _ Ha) as [Hb1 Hg1]. exists s1. split; [done|]. split; [done|].
  split; [done|]. split; [congruence|].
  apply (acked_pending (consumer_of w) new); [apply o_pending, Ho| |].
  - eapply Forall_impl; [exact HF|]. cbn. lia.
  - unfold acked in *. cbn. destruct Ha as (He&Ht&Hg2). unfold spec_xreadgroup in E.
    unfold pending in *. destruct (x_group (str s)) as [g|] eqn:Eg; [|done]. injection E as Et _.
    rewrite Et in *. cbn in *. split; [done|]. split; [done|]. unfold floor.
    destruct (x_group (str s1)); [|done]. destruct Hg2 as [_ Hg2]. rewrite <- En in Hg2. by rewrite Hg2.
Qed.

(** What one step, and a schedule, publish. *)
Definition published (l : list step) : list fieldmap :=
  flat_map (fun x => match x with Publish e => [publish_fields e] | _ => [] end) l.

Definition contents_of (ms : list (worker * (string * fieldmap))) : list fieldmap :=
  map (fun x => x.2.2) ms.

(** From [s] to [s1] the workers were given [ms], and what [l] published is
    either with them or in the backlog; nothing stays unacknowledged. *)
Definition conserved (l : list fieldmap) (s s1 : sys) : Prop :=
  x_group (str s1) <> None /\ ordered (str s1) /\ pending (str s1) = pending (str s)
  /\ exists ms, s1.1 = s.1 ++ ms
     /\ contents_of ms ++ map snd (backlog (str s1)) = map snd (backlog (str s)) ++ l.

Lemma conserved_refl s : x_group (str s) <> None -> ordered (str s) -> conserved [] s s.
Proof. intros Hg Ho. do 3 (split; [done|]). exists []. by rewrite !app_nil_r. Qed.

Lemma conserved_trans l1 l2 s1 s2 s3 :
  conserved l1 s1 s2 -> conserved l2 s2 s3 -> conserved (l1 ++ l2) s1 s3.
Proof.
  intros (_&_&P1&ms1&E1&C1) (G2&O2&P2&ms2&E2&C2). split; [done|]. split; [done|].
  split; [congruence|]. exists (ms1 ++ ms2). split; [by rewrite E2, E1, app_assoc|].
  unfold contents_of in *. by rewrite map_app, <- app_assoc, C2, app_assoc, C1, <- app_assoc.
Qed.

Lemma conserved_length l s s1 :
  conserved l s s1 -> (length (backlog (str s1)) <= length (backlog (str s)) + length l)%nat.
Proof.
  intros (_&_&_&ms&_&C). apply (f_equal length) in C. rewrite !length_app, !length_map in C. lia.
Qed.

(** The workers that run are not stopped by anything else than [Stop]. *)
Definition keeps_running (l : list step) (ws ws1 : list (worker * status)) : Prop :=
  forall w, status_of w ws = Some Running -> Stop w ∉ l -> status_of w ws1 = Some Running.

Lemma status_cons w w' x ws :
  status_of w ((w', x) :: ws) = if decide (w = w') then Some x else status_of w ws.
Proof. done. Qed.

Lemma turn_conserved w (s : sys) : x_group (str s) <> None -> ordered (str s) ->
  exists s1, turn' w s = (s1, Ok tt) /\ conserved [] s s1
  /\ backlog (str s1) = drop (count_of w) (backlog (str s)).
Proof.
  intros Hg Ho. destruct (turn_exact w s Ho Hg) as (s1&E&Hg1&El&Hb&Hp). exists s1.
  split; [done|]. split; [|done]. split; [done|]. split.
  - pose proof (up_laws _) as Hl. pose proof (turn_progress w s Ho) as [Ho1 _]. by rewrite E in Ho1.
  - split; [done|]. eexists. split; [exact El|]. rewrite Hb, app_nil_r. unfold contents_of.
    rewrite map_map. cbn. rewrite <- map_app. by rewrite take_drop.
Qed.

Lemma step_conserved x ws (s : sys) : x_group (str s) <> None -> ordered (str s) ->
  Z.of_nat (length (backlog (str s)) + length (published [x])) <= maxlen ->
  exists s1 ws1, do_step' x ws s = (s1, Ok ws1) /\ conserved (published [x]) s s1
  /\ keeps_running [x] ws ws1.
Proof.
  intros Hg Ho Hlen. assert (Hsame : exists s1 ws1, (s, Ok ws) = (s1, Ok ws1) :> sys * _
    /\ conserved [] s s1 /\ keeps_running [x] ws ws1).
  { exists s, ws. split; [done|]. split; [by apply conserved_refl|]. by intros w. }
  assert (Hrun : forall w s1, conserved [] s s1 ->
    exists s2 ws2, (s1, Ok ((w, Running) :: ws)) = (s2, Ok ws2) :> sys * _
      /\ conserved [] s s2 /\ keeps_running [x] ws ws2).
  { intros w s1 Hc. exists s1, ((w, Running) :: ws). split; [done|]. split; [done|].
    intros w' Hw' _. rewrite status_cons. by case_decide. }
  destruct x as [e|w|w|w]; cbn [do_step published flat_map app] in *.
  - unfold mbind at 1, M_bind at 1, try_M, mbind at 1, M_bind at 1. rewrite on_redis_run.
    unfold publish_event. pose proof (xadd_up maxlen (publish_fields e) s.2.2) as E.
    destruct (xadd maxlen (publish_fields e) s.2.2) as [t1 x]. cbn [fst snd] in *.
    destruct (xadd_moves _ _ _ _ _ Ho E) as [Ho1 _].
    destruct (xadd_backlog _ _ _ _ _ Ho E Hg) as ((n&Hb)&Hp&Hg1); [cbn in Hlen; lia|].
    destruct E as (?&?&_&->&_). cbn. eexists _, ws. split; [done|]. split; [|by intros w].
    split; [cbn; congruence|]. split; [done|]. split; [done|]. exists []. split; [by rewrite app_nil_r|].
    cbn [snd]. by rewrite Hb, map_app.
  - destruct (status_of w ws) as [y|] eqn:Ew; [done|]. unfold carry_out, try_M, mbind, M_bind, start.
    destruct w as [pid|]; [|by apply Hrun, conserved_refl].
    rewrite on_redis_run. pose proof (xgroup_create_up s.2.2) as E. unfold does, spec_xgroup_create in E.
    unfold ensure_consumer_group, try_M. destruct (xgroup_create s.2.2) as [t1 x]. cbn [fst snd] in E.
    destruct (x_group (str s)) eqn:Eg; [|done]. injection E as Et ->. cbn. apply Hrun.
    split; [cbn; rewrite Et; congruence|]. split; [cbn; by rewrite Et|]. cbn. rewrite Et.
    split; [done|]. exists []. by rewrite !app_nil_r.
  - destruct (status_of w ws) as [[]|]; try done. unfold carry_out, try_M, mbind, M_bind.
    destruct (turn_conserved w s Hg Ho) as (s1&->&Hc&_). by apply Hrun.
  - destruct (status_of w ws) as [[]|]; try done. exists s, ((w, Returned) :: ws).
    split; [done|]. split; [by apply conserved_refl|]. intros w' Hw' Hn. rewrite status_cons.
    case_decide; [subst w'; destruct Hn; by left|done].
Qed.

Lemma run_conserved l : forall ws (s : sys), x_group (str s) <> None -> ordered (str s) ->
  Z.of_nat (length (backlog (str s)) + length (published l)) <= maxlen ->
  exists s1 ws1, run_steps' l ws s = (s1, Ok ws1) /\ conserved (published l) s s1
  /\ keeps_running l ws ws1.
Proof.
  induction l as [|x l IH]; intros ws s Hg Ho Hlen; cbn [run_steps].
  - exists s, ws. split; [done|]. split; [by apply conserved_refl|]. by intros w.
  - change (published (x :: l)) with (published ([x] ++ l)) in *.
    unfold published in Hlen. rewrite flat_map_app, length_app in Hlen. fold (published [x]) (published l) in Hlen.
    destruct (step_conserved x ws s Hg Ho) as (s1&ws1&Es&Hc&Hk); [lia|].
    unfold mbind, M_bind. rewrite Es. pose proof (conserved_length _ _ _ Hc) as Hle.
    destruct (IH ws1 s1) as (s2&ws2&->&Hc2&Hk2); [apply Hc|apply Hc|lia|].
    exists s2, ws2. split; [done|]. split.
    + unfold published. rewrite flat_map_app. by eapply conserved_trans.
    + intros w Hw Hn. apply not_elem_of_cons in Hn as [Hn1 Hn2]. apply Hk2; [|done].
      apply Hk; [done|]. by intros E%list_elem_of_singleton.
Qed.

(** Turns of one worker empty the backlog. *)
Lemma turns_drain w n : forall ws (s : sys), x_group (str s) <> None -> ordered (str s) ->
  status_of w ws = Some Running -> (length (backlog (str s)) <= n * count_of w)%nat ->
  exists s1 ws1, run_steps' (repeat (Turn w) n) ws s = (s1, Ok ws1) /\ conserved [] s s1
  /\ backlog (str s1) = [].
Proof.
  induction n as [|n IH]; intros ws s Hg Ho Hw Hlen; cbn [repeat run_steps].
  - exists s, ws. split; [done|]. split; [by apply conserved_refl|].
    destruct (backlog (str s)); [done|cbn in Hlen; lia].
  - unfold mbind at 1, M_bind at 1. cbn [do_step]. rewrite Hw. unfold carry_out, try_M, mbind at 1, M_bind at 1.
    destruct (turn_conserved w s Hg Ho) as (s1&->&Hc&Hb).
    destruct (IH ((w, Running) :: ws) s1) as (s2&ws2&E&Hc2&Hb2); [apply Hc|apply Hc| | |].
    + rewrite status_cons. by rewrite decide_True.
    + rewrite Hb, length_drop. lia.
    + exists s2, ws2. split; [exact E|]. split; [|done]. by eapply (conserved_trans [] []).
Qed.

End Exact.
End Schedule.

Lemma run_steps_app {D T} `{Database D} `{Redis T} `{StreamServer T} maxlen uuid4 re_search detectors
    clock rules l1 l2 ws (s : list (worker * (string * fieldmap)) * (D * T)) :
  run_steps maxlen uuid4 re_search detectors clock rules (l1 ++ l2) ws s
  = (ws1 ← run_steps maxlen uuid4 re_search detectors clock rules l1 ws;
     run_steps maxlen uuid4 re_search detectors clock rules l2 ws1) s.
Proof.
  revert ws s. induction l1 as [|x l1 IH]; intros ws s; [done|]. cbn [run_steps app].
  unfold mbind, M_bind. destruct (do_step _ _ _ _ _ _ x ws s) as [s1 [ws1|e]]; [|done].
  rewrite IH. unfold mbind, M_bind. done.
Qed.

Lemma entry_ids_nodup ns : StronglySorted Z.lt ns -> NoDup (map entry_id ns).
Proof.
  intros Hs. apply NoDup_fmap_2; [intros a b; apply entry_id_inj|].
  induction Hs as [|n ns _ IH Hn]; constructor; [|done]. intros Hin.
  eapply Forall_forall in Hn; [|exact Hin]. cbn in Hn. lia.
Qed.

(** ** Properties *)



(** *** Concrete runs *)

Definition fresh_stream : rstream := mkStream [] 0 (Some (mkGroup 0 [])).

Lemma ordered_fresh : ordered fresh_stream.
Proof. constructor; cbn; try constructor; done. Qed.

Definition nginx_event (i : Z) : Event :=
  mkEventRow (uuid_text i) (uuid_text 9) "v1" 100 0 "nginx" "GET / HTTP/1.1" [].

(** Two runners and the stub on one stream. *)
Definition two_runners : list step :=
  [Start (Runner 1); Publish (nginx_event 7); Start (Runner 2); Turn (Runner 2);
   Start Stub; Publish (nginx_event 8); Turn Stub; Stop (Runner 2); Publish (nginx_event 10)].

Definition mem_run (T : Type) `{Redis T} `{StreamServer T} (l : list step)
    (ws : list (worker * status)) (t : T) :=
  run_steps 10000 mem_uuid4 no_regex (BUILTIN_DETECTORS default_settings) (fun _ => 200 * SEC)
    (fun _ => Ok []) l ws ([], (mem_world.1, t)).


(** Who was given what. *)
Example two_runners_log :
  map (fun x => (x.1, x.2.1))
    (mem_run (MemStream * MemRedis) (two_runners ++ [Turn (Runner 1)]) [] (fresh_stream, ∅)).1.1
  = [(Runner 2, "1-0"); (Stub, "2-0"); (Runner 1, "3-0")].
Proof. vm_compute. reflexivity. Qed.

(** The reply of the first read is lost: its entry stays pending, although the
    runner goes on and handles the next one. *)
Definition lost_reply : list step :=
  [Start (Runner 1); Publish (nginx_event 7); Turn (Runner 1); Publish (nginx_event 8);
   Turn (Runner 1); Turn (Runner 1)].


(** The group is missing and the connection breaks while it is made again: what
    is raised inside an [except] clause ends the loop of the runner for good. *)
Example runner_fails :
  let '(s1, r) := mem_run (FlakyStream * MemRedis)
      [Turn (Runner 1); Publish (nginx_event 7); Start (Runner 1); Turn (Runner 1)]
      [(Runner 1, Running)] ((empty_stream, [Answer; Unsent]), ∅) in
  r = Ok [(Runner 1, Failed); (Runner 1, Running)] /\ s1.1 = [].
Proof. vm_compute. split; reflexivity. Qed.

(** What is published before the group is made again is skipped. *)
Example entries_before_group_skipped :
  let s1 := (mem_run (MemStream * MemRedis)
      [Publish (nginx_event 7); Turn (Runner 1); Turn (Runner 1); Publish (nginx_event 8); Turn (Runner 1)]
      [(Runner 1, Running)] (empty_stream, ∅)).1 in
  map (fun x => x.2.1) s1.1 = ["2-0"].
Proof. vm_compute. reflexivity. Qed.

(** [close_redis] drops the client; the next call connects again. *)
Example client_life :
  let '(s1, r1) := get_redis (Ok 1) None in
  let '(s2, r2) := get_redis (Ok 2) s1 in
  let '(s3, r3) := close_redis (fun _ => Ok tt) s2 in
  r1 = Ok 1 /\ r2 = Ok 1 /\ s3 = None.
Proof. done. Qed.
