(* ===== verification/SoarTasks.v ===== *)
(** * The concurrent deliveries of the SOAR worker: [soar/worker.py]

    Every drain starts a task per item; the tasks run [_run_one] under a semaphore
    of ten.  [Soar] gives the meaning of one delivery run alone; here a task is
    cut at its awaits (the semaphore, the sleep before a retry, the backend's
    call, the transaction that stores the attempt) and the tasks are interleaved
    by an arbitrary list of events.  The outside [N] holds the delivery table and
    the dead-letter directory. *)

From S2P Require Import Prelude PyStr PyVal PyStd Json Redis Crypto Db SoarConfig Soar.

(** Where a task stands: for the semaphore, asleep until an instant, in
    [deliver], in the transaction of [_persist_attempt]. *)
Inductive phase : Type :=
| Waiting
| Sleeping (until : Z)
| Calling
| Saving (outcome : DeliverOutcome).

Record task : Type := mkTask {
  tk_id : nat;
  tk_item : PendingDelivery;
  tk_attempt : Z;
  tk_eligible : Z;
  tk_phase : phase
}.

Definition set_phase (ph : phase) (t : task) : task :=
  mkTask (tk_id t) (tk_item t) (tk_attempt t) (tk_eligible t) ph.

(** The tasks that have not ended, oldest first; the monotonic clock; the stop
    event. *)
Record pool : Type := mkPool {
  p_tasks : list task;
  p_next : nat;
  p_clock : Z;
  p_stop : bool
}.

Definition empty_pool : pool := mkPool [] 0 0 false.

Definition set_tasks (l : list task) (p : pool) : pool := mkPool l (p_next p) (p_clock p) (p_stop p).

Definition holds (t : task) : bool := match tk_phase t with Waiting => false | _ => true end.
Definition holders (p : pool) : list task := List.filter holds (p_tasks p).

Definition SEMAPHORE : nat := 10.

(** What a task does next: go on, end as finished, or return early. *)
Inductive next : Type := Go (t : task) | Finish | Return.

(** The head of the [while] loop, up to the next await. *)
Definition loop_head (p : pool) (t : task) : next :=
  if bc_max_retries (pd_config (tk_item t)) + 1 <? tk_attempt t then Finish
  else if (1 <? tk_attempt t) && p_stop p then Return
  else if p_clock p <? tk_eligible t then Go (set_phase (Sleeping (tk_eligible t)) t)
  else Go (set_phase Calling t).

Inductive event : Type :=
| Drain                                     (* a turn of the worker's loop *)
| Admit                                     (* the first waiting task gets the semaphore *)
| Wake (i : nat)                            (* the sleep of task [i] ends *)
| Reply (i : nat) (r : res DeliverOutcome)  (* [deliver] returns or raises *)
| Save (i : nat)                            (* the attempt is stored *)
| Tick (dt : Z)                             (* time passes *)
| SetStop.                                  (* [stop] is called *)

Definition find_task (i : nat) (p : pool) : option task :=
  find (fun t => Nat.eqb (tk_id t) i) (p_tasks p).

Definition drop_task (i : nat) (p : pool) : pool :=
  set_tasks (List.filter (fun t => negb (Nat.eqb (tk_id t) i)) (p_tasks p)) p.

Definition put_task (t : task) (p : pool) : pool :=
  set_tasks (map (fun u => if Nat.eqb (tk_id u) (tk_id t) then t else u) (p_tasks p)) p.

Section Tasks.
Context {N : Type} (utcnow : M N Z).
Context (persist : SoarDelivery -> M N unit) (write_file : string -> string -> M N unit).

Abbreviation state := (pool * (worker * N))%type.

(** [_drain_queue_once]: at most [n] items become tasks. *)
Fixpoint spawn (n : nat) (s : state) : state :=
  match n with
  | O => s
  | S n' =>
      if p_stop s.1 then s
      else match w_queue s.2.1 with
           | [] => s
           | item :: q =>
               spawn n' (mkPool (p_tasks s.1 ++ [mkTask (p_next s.1) item (pd_attempt item)
                                                   (pd_next_eligible_at item) Waiting])
                           (S (p_next s.1)) (p_clock s.1) (p_stop s.1),
                         (set_queue q s.2.1, s.2.2))
           end
  end.

(** A task ends; only a finished one is marked. *)
Definition proceed (t : task) (x : next) (s : state) : state :=
  match x with
  | Go t' => (put_task t' s.1, s.2)
  | Finish => (drop_task (tk_id t) s.1,
               (add_finished (s_id (pd_alert (tk_item t)), pd_backend_name (tk_item t)) s.2.1, s.2.2))
  | Return => (drop_task (tk_id t) s.1, s.2)
  end.

(** After an attempt is stored: give up, succeed, or schedule the next one. *)
Definition decide_next (p : pool) (t : task) (outcome : DeliverOutcome) : M (worker * N) next :=
  let item := tk_item t in
  let result := o_result outcome in
  if d_dead_lettered result then
    _ ← _maybe_dead_letter write_file item outcome (tk_attempt t); mret Finish
  else if (200 <=? d_status_code result) && (d_status_code result <? 400) then
    _ ← _mark_cooldown (fun n => (n, Ok (p_clock p))) item; mret Finish
  else if bc_max_retries (pd_config item) <? tk_attempt t then
    _ ← _maybe_dead_letter write_file item outcome (tk_attempt t); mret Finish
  else
    mret (loop_head p (mkTask (tk_id t) item (tk_attempt t + 1)
                         (p_clock p + backoff (tk_attempt t) * SEC) (tk_phase t))).

Definition fire (e : event) (s : state) : state :=
  match e with
  | Drain => spawn (Nat.min 16 (length (w_queue s.2.1))) s
  | Admit =>
      if (length (holders s.1) <? SEMAPHORE)%nat then
        match find (fun t => negb (holds t)) (p_tasks s.1) with
        | Some t => proceed t (loop_head s.1 t) s
        | None => s
        end
      else s
  | Wake i =>
      match find_task i s.1 with
      | Some t =>
          match tk_phase t with
          | Sleeping until =>
              if p_stop s.1 then proceed t Return s
              else if until <=? p_clock s.1 then proceed t (Go (set_phase Calling t)) s
              else s
          | _ => s
          end
      | None => s
      end
  | Reply i r =>
      match find_task i s.1 with
      | Some t =>
          match tk_phase t with
          | Calling =>
              match r with
              | Ok outcome => proceed t (Go (set_phase (Saving outcome) t)) s
              | Raise e =>
                  match utcnow s.2.2 with
                  | (n, Ok now) =>
                      proceed t (Go (set_phase (Saving (exception_outcome (tk_item t) now e)) t))
                        (s.1, (s.2.1, n))
                  | (n, Raise _) => proceed t Return (s.1, (s.2.1, n))
                  end
              end
          | _ => s
          end
      | None => s
      end
  | Save i =>
      match find_task i s.1 with
      | Some t =>
          match tk_phase t with
          | Saving outcome =>
              match (_ ← _persist_attempt persist (tk_item t) outcome (tk_attempt t);
                     decide_next s.1 t outcome) s.2 with
              | (w, Ok x) => proceed t x (s.1, w)
              | (w, Raise _) => proceed t Return (s.1, w)
              end
          | _ => s
          end
      | None => s
      end
  | Tick dt => (mkPool (p_tasks s.1) (p_next s.1) (p_clock s.1 + Z.max 0 dt) (p_stop s.1), s.2)
  | SetStop => (mkPool (p_tasks s.1) (p_next s.1) (p_clock s.1) true, s.2)
  end.

Definition fire_all (l : list event) (s : state) : state := foldl (fun s e => fire e s) s l.

End Tasks.

(** ** Lemmas *)

(** *** The semaphore *)

Definition held (l : list task) : nat := length (List.filter holds l).
#[local] Arguments held : simpl never.
Definition bit (t : task) : nat := if holds t then 1%nat else 0%nat.

Lemma held_cons t l : held (t :: l) = (bit t + held l)%nat.
Proof. unfold held, bit. cbn. by destruct (holds t). Qed.

Lemma held_app l1 l2 : held (l1 ++ l2) = (held l1 + held l2)%nat.
Proof. unfold held. by rewrite List.filter_app, length_app. Qed.

Lemma held_filter f l : (held (List.filter f l) <= held l)%nat.
Proof.
  induction l as [|t l IH]; [done|]. cbn [List.filter].
  destruct (f t); rewrite ?held_cons; lia.
Qed.

Lemma replace_absent t l : tk_id t ∉ map tk_id l ->
  map (fun u => if Nat.eqb (tk_id u) (tk_id t) then t else u) l = l.
Proof.
  induction l as [|u l IH]; [done|]. cbn [map]. intros [Hu Hl]%not_elem_of_cons.
  rewrite (proj2 (Nat.eqb_neq _ _)) by congruence. f_equal. by apply IH.
Qed.

Lemma held_replace u t l : NoDup (map tk_id l) -> u ∈ l -> tk_id u = tk_id t ->
  (held (map (fun v => if Nat.eqb (tk_id v) (tk_id t) then t else v) l) + bit u = held l + bit t)%nat.
Proof.
  intros Hnd Hu Hid. induction l as [|v l IH]; [inversion Hu|]. cbn [map] in *.
  apply NoDup_cons in Hnd as [Hv Hnd]. rewrite !held_cons. apply elem_of_cons in Hu as [<-|Hu].
  - rewrite Hid, Nat.eqb_refl, replace_absent by (by rewrite <- Hid). lia.
  - destruct (Nat.eqb_spec (tk_id v) (tk_id t)) as [E|_].
    + destruct Hv. rewrite E, <- Hid. by apply list_elem_of_fmap_2.
    + specialize (IH Hnd Hu). lia.
Qed.

Lemma replace_ids t l :
  map tk_id (map (fun v => if Nat.eqb (tk_id v) (tk_id t) then t else v) l) = map tk_id l.
Proof.
  rewrite map_map. apply map_ext. intros v. destruct (Nat.eqb_spec (tk_id v) (tk_id t)); congruence.
Qed.

Record pool_ok (p : pool) : Prop := {
  ok_ids : NoDup (map tk_id (p_tasks p));
  ok_next : Forall (fun i => i < p_next p)%nat (map tk_id (p_tasks p));
  ok_held : (held (p_tasks p) <= SEMAPHORE)%nat
}.

Lemma drop_ok i p : pool_ok p -> pool_ok (drop_task i p).
Proof.
  intros [Hi Hn Hh]. unfold drop_task. constructor; cbn.
  - eapply sublist_NoDup; [exact Hi|]. apply fmap_sublist. clear.
    induction (p_tasks p) as [|t l IH]; [constructor|]. cbn. destruct (negb _); by constructor.
  - apply Forall_map. apply Forall_map in Hn. apply Forall_forall. intros t Ht.
    apply list_elem_of_In, filter_In in Ht as [Ht _]. eapply Forall_forall in Hn; [exact Hn|].
    by apply list_elem_of_In.
  - etrans; [apply held_filter|done].
Qed.

Lemma put_ok u t p : pool_ok p -> u ∈ p_tasks p -> tk_id u = tk_id t ->
  (holds u = true \/ (held (p_tasks p) < SEMAPHORE)%nat) -> pool_ok (put_task t p).
Proof.
  intros [Hi Hn Hh] Hu Hid Hb. pose proof (held_replace u t _ Hi Hu Hid) as E.
  unfold put_task. constructor; cbn; rewrite ?replace_ids; [done|done|].
  unfold bit in E. destruct Hb as [Hb|Hb]; [rewrite Hb in E|]; destruct (holds t), (holds u); lia.
Qed.

Lemma find_task_in i p t : find_task i p = Some t -> t ∈ p_tasks p /\ tk_id t = i.
Proof.
  intros Hf. apply find_some in Hf as [Hin Hid]. split; [by apply list_elem_of_In|].
  by apply Nat.eqb_eq.
Qed.

Lemma loop_head_go p t t' : loop_head p t = Go t' -> tk_id t' = tk_id t /\ tk_item t' = tk_item t.
Proof. unfold loop_head. repeat case_match; intros [= <-]; done. Qed.

Section Pool.
Context {N : Type} (utcnow : M N Z).
Context (persist : SoarDelivery -> M N unit) (write_file : string -> string -> M N unit).
Abbreviation fireN := (fire utcnow persist write_file).

Lemma proceed_ok u x (s : pool * (worker * N)) :
  pool_ok s.1 -> u ∈ p_tasks s.1 -> (forall t, x = Go t -> tk_id t = tk_id u) ->
  (holds u = true \/ (held (p_tasks s.1) < SEMAPHORE)%nat) -> pool_ok (proceed u x s).1.
Proof.
  intros Hok Hu Hx Hb. destruct x as [t| |]; cbn; [|by apply drop_ok..].
  eapply put_ok; [done|exact Hu|by rewrite (Hx t)|done].
Qed.

Lemma spawn_ok n : forall s : pool * (worker * N), pool_ok s.1 -> pool_ok (spawn n s).1.
Proof.
  induction n as [|n IH]; intros s Hok; [done|]. cbn [spawn]. destruct (p_stop s.1); [done|].
  destruct (w_queue s.2.1) as [|item q]; [done|]. apply IH. destruct Hok as [Hi Hn Hh].
  constructor; cbn.
  - rewrite map_app. apply NoDup_app. split; [done|]. split; [|by apply NoDup_singleton].
    intros i Hin Hnew%list_elem_of_singleton. cbn in Hnew. subst i.
    eapply Forall_forall in Hn; [|exact Hin]. cbn in Hn. lia.
  - rewrite map_app. apply Forall_app. split; [|repeat constructor].
    eapply Forall_impl; [exact Hn|]. cbn. lia.
  - rewrite held_app. unfold held at 2. cbn. lia.
Qed.

Lemma decide_next_go p t o (w : worker * N) t' :
  (decide_next write_file p t o w).2 = Ok (Go t') -> tk_id t' = tk_id t.
Proof.
  unfold decide_next, mbind, M_bind. intros Hd.
  repeat match type of Hd with
  | context [if ?b then _ else _] => destruct b
  | context [match ?m with (_, _) => _ end] => destruct m as [? [?|?]]
  end; try discriminate Hd; cbn in Hd.
  injection Hd as Hd. by apply loop_head_go in Hd as [-> _].
Qed.

Lemma fire_ok e (s : pool * (worker * N)) : pool_ok s.1 -> pool_ok (fireN e s).1.
Proof.
  intros Hok. destruct e as [| |i|i r|i|dt|]; cbn [fire].
  - by apply spawn_ok.
  - destruct (Nat.ltb_spec (length (holders s.1)) SEMAPHORE) as [Hlt|]; [|done].
    destruct (find _ _) as [t|] eqn:Ef; [|done]. apply find_some in Ef as [Hin _].
    apply proceed_ok; [done|by apply list_elem_of_In| |by right].
    intros t' E. by apply loop_head_go in E as [-> _].
  - destruct (find_task i s.1) as [t|] eqn:Ef; [|done]. apply find_task_in in Ef as [Hin _].
    destruct (tk_phase t) eqn:Ep; try done. assert (holds t = true) by (unfold holds; by rewrite Ep).
    destruct (p_stop s.1); [by apply drop_ok|]. destruct (_ <=? _); [|done].
    apply proceed_ok; [done|done|by intros ? [= <-]|by left].
  - destruct (find_task i s.1) as [t|] eqn:Ef; [|done]. apply find_task_in in Ef as [Hin _].
    destruct (tk_phase t) eqn:Ep; try done. assert (holds t = true) by (unfold holds; by rewrite Ep).
    destruct r as [o|x]; [apply proceed_ok; [done|done|by intros ? [= <-]|by left]|].
    destruct (utcnow s.2.2) as [n [now|y]]; [|by apply drop_ok].
    apply proceed_ok; [done|done|by intros ? [= <-]|by left].
  - destruct (find_task i s.1) as [t|] eqn:Ef; [|done]. apply find_task_in in Ef as [Hin _].
    destruct (tk_phase t) eqn:Ep; try done. assert (holds t = true) by (unfold holds; by rewrite Ep).
    unfold mbind, M_bind. destruct (_persist_attempt _ _ _ _ s.2) as [w [[]|x]]; [|by apply drop_ok].
    pose proof (decide_next_go s.1 t outcome w) as Hgo.
    destruct (decide_next write_file s.1 t outcome w) as [w' [x|x]]; [|by apply drop_ok].
    apply proceed_ok; [done|done| |by left]. intros t' ->. by apply Hgo.
  - by destruct Hok.
  - by destruct Hok.
Qed.

Lemma fire_all_ok l : forall s : pool * (worker * N), pool_ok s.1 ->
  pool_ok (fire_all utcnow persist write_file l s).1.
Proof. induction l as [|e l IH]; intros s Hok; [done|]. cbn. by apply IH, fire_ok. Qed.

End Pool.

(** *** Ten sleeping retries *)

(** The time that passes in a list of events. *)
Definition elapsed (l : list event) : Z :=
  foldr (fun e a => match e with Tick dt => Z.max 0 dt + a | _ => a end) 0 l.

Lemma elapsed_nonneg l : 0 <= elapsed l.
Proof. unfold elapsed. induction l as [|e l IH]; [done|]. cbn. destruct e; lia. Qed.

Section Blocked.
Context {N : Type} (utcnow : M N Z).
Context (persist : SoarDelivery -> M N unit) (write_file : string -> string -> M N unit).
Abbreviation state := (pool * (worker * N))%type.

(** Nothing but new waiting tasks, taken from the queue. *)
Definition only_queued (s s' : state) : Prop :=
  p_stop s'.1 = false
  /\ exists new q, p_tasks s'.1 = p_tasks s.1 ++ new /\ Forall (fun t => tk_phase t = Waiting) new
     /\ map tk_item new ++ q = w_queue s.2.1 /\ s'.2 = (set_queue q s.2.1, s.2.2).

Lemma set_queue_same w : set_queue (w_queue w) w = w.
Proof. by destruct w. Qed.

Lemma only_queued_refl (s : state) : p_stop s.1 = false -> only_queued s s.
Proof.
  intros Hs. split; [done|]. exists [], (w_queue s.2.1). rewrite app_nil_r, set_queue_same.
  by destruct s as [p [w n]].
Qed.

Lemma only_queued_trans (s1 s2 s3 : state) :
  only_queued s1 s2 -> only_queued s2 s3 -> only_queued s1 s3.
Proof.
  intros (_&new1&q1&T1&W1&Q1&E1) (S2&new2&q2&T2&W2&Q2&E2). split; [done|].
  exists (new1 ++ new2), q2. rewrite T2, T1, app_assoc. split; [done|]. split; [by apply Forall_app|].
  rewrite E1 in Q2, E2. cbn in Q2. split; [by rewrite map_app, <- app_assoc, Q2|]. by rewrite E2.
Qed.

Lemma spawn_queued n : forall s : state, p_stop s.1 = false -> only_queued s (spawn n s).
Proof.
  induction n as [|n IH]; intros s Hs; [by apply only_queued_refl|]. cbn [spawn]. rewrite Hs.
  destruct (w_queue s.2.1) as [|item q] eqn:Eq; [by apply only_queued_refl|].
  match goal with |- only_queued _ (spawn n ?x) => apply (only_queued_trans s x) end; [|by apply IH].
  split; [done|]. cbn. eexists [_], q. split; [reflexivity|]. split; [by repeat constructor|].
  by split; [rewrite Eq|].
Qed.

Lemma fire_blocked T e (s : state) :
  p_stop s.1 = false -> (SEMAPHORE <= held (p_tasks s.1))%nat -> p_clock s.1 < T ->
  Forall (fun t => exists u, tk_phase t = Sleeping u /\ T <= u) (holders s.1) -> e <> SetStop ->
  only_queued s (fire utcnow persist write_file e s)
  /\ p_clock (fire utcnow persist write_file e s).1 = p_clock s.1 + elapsed [e].
Proof.
  intros Hs Hh Hc Hsl He.
  assert (Hnone : only_queued s s /\ p_clock s.1 = p_clock s.1 + 0)
    by (split; [by apply only_queued_refl|lia]).
  assert (Hfound : forall i t, find_task i s.1 = Some t ->
    tk_phase t = Waiting \/ exists u, tk_phase t = Sleeping u /\ T <= u).
  { intros i t Hf. apply find_task_in in Hf as [Hin _]. destruct (holds t) eqn:Eh.
    - right. eapply Forall_forall in Hsl; [exact Hsl|].
      apply list_elem_of_In, filter_In. by rewrite <- list_elem_of_In.
    - left. unfold holds in Eh. by destruct (tk_phase t). }
  destruct e as [| |i|i r|i|dt|]; cbn [fire elapsed foldr]; [..|done].
  - split; [by apply spawn_queued|]. rewrite Z.add_0_r. clear.
    generalize (Nat.min 16 (length (w_queue s.2.1))). intros n. revert s.
    induction n as [|n IH]; intros s; [done|]. cbn [spawn]. destruct (p_stop s.1); [done|].
    destruct (w_queue s.2.1); [done|]. by rewrite IH.
  - destruct (Nat.ltb_spec (length (holders s.1)) SEMAPHORE); [|exact Hnone].
    unfold held, holders in *. lia.
  - destruct (find_task i s.1) as [t|] eqn:Ef; [|exact Hnone].
    destruct (Hfound i t Ef) as [->|(u&->&Hu)]; [exact Hnone|]. rewrite Hs.
    destruct (Z.leb_spec u (p_clock s.1)); [lia|exact Hnone].
  - destruct (find_task i s.1) as [t|] eqn:Ef; [|exact Hnone].
    destruct (Hfound i t Ef) as [->|(u&->&Hu)]; exact Hnone.
  - destruct (find_task i s.1) as [t|] eqn:Ef; [|exact Hnone].
    destruct (Hfound i t Ef) as [->|(u&->&Hu)]; exact Hnone.
  - split; [|cbn; lia]. destruct (only_queued_refl s Hs) as (_&H'). by split.
Qed.

Lemma queued_holders (s s' : state) : only_queued s s' -> holders s'.1 = holders s.1.
Proof.
  intros (_&new&q&T&W&_). unfold holders. rewrite T, List.filter_app.
  replace (List.filter holds new) with (@nil task); [apply app_nil_r|].
  clear T. induction W as [|t l Ht _ IH]; [done|]. cbn. unfold holds at 1. by rewrite Ht.
Qed.

End Blocked.

(** *** A task alone *)

Section Alone.
Context {N : Type} (utcnow : M N Z).
Context (persist : SoarDelivery -> M N unit) (write_file : string -> string -> M N unit).

(** The outside of [Soar._run_one]: the answers the backend will give, the clock,
    and the rest. *)
Record outside : Type := mkOutside {
  a_answers : list (res DeliverOutcome);
  a_clock : Z;
  a_rest : N
}.

Definition on_rest {A} (m : M N A) : M outside A := fun o =>
  let '(n, x) := m (a_rest o) in (mkOutside (a_answers o) (a_clock o) n, x).
Definition alone_deliver (_ : string) (_ : SAlert) : M outside DeliverOutcome := fun o =>
  match a_answers o with
  | [] => (o, Raise TimeoutError)
  | r :: rs => (mkOutside rs (a_clock o) (a_rest o), r)
  end.
Definition alone_wait (ns : Z) : M outside bool := fun o =>
  (mkOutside (a_answers o) (a_clock o + ns) (a_rest o), Ok false).

Definition alone_attempts := attempts alone_deliver (fun o => (o, Ok (a_clock o))) (on_rest utcnow)
  (mret false) alone_wait (fun r => on_rest (persist r)) (fun f t => on_rest (write_file f t)).
Definition alone_run_one := _run_one alone_deliver (fun o => (o, Ok (a_clock o))) (on_rest utcnow)
  (mret false) alone_wait (fun r => on_rest (persist r)) (fun f t => on_rest (write_file f t)).

(** One attempt after the other: the wait before it, the reply, the row. *)
Fixpoint attempt_events (a : Z) (rs : list (res DeliverOutcome)) : list event :=
  match rs with
  | [] => []
  | r :: rs' => Tick (if a =? 1 then 0 else backoff (a - 1) * SEC) :: Wake 0 :: Reply 0 r :: Save 0
                :: attempt_events (a + 1) rs'
  end.

Abbreviation fireN := (fire utcnow persist write_file).
Abbreviation fire_allN := (fire_all utcnow persist write_file).

Lemma fire_no_task e (p : pool) (w : worker * N) : p_tasks p = [] -> e <> Drain ->
  exists p', fireN e (p, w) = (p', w) /\ p_tasks p' = [].
Proof.
  intros Hp He. destruct e; try done; cbn [fire fst snd]; unfold find_task; rewrite ?Hp; cbn;
    [|eauto..]. case_match; eauto.
Qed.

Lemma no_task_left a rs : forall (p : pool) (w : worker * N), p_tasks p = [] ->
  exists p', fire_allN (attempt_events a rs) (p, w) = (p', w) /\ p_tasks p' = [].
Proof.
  assert (Hd : Forall (fun e => e <> Drain) (attempt_events a rs)).
  { revert a. induction rs; intros b; cbn; [constructor|]. by repeat constructor. }
  induction Hd as [|e l He _ IH]; intros p w Hp; [by exists p|]. cbn [fire_all foldl].
  destruct (fire_no_task e p w Hp He) as (p'&->&Hp'). by apply IH.
Qed.

Definition lifted {A} (m : M (worker * N) A) (m' : M (worker * outside) A) : Prop :=
  forall w n rs c, m' (w, mkOutside rs c n)
    = let '((w', n'), x) := m (w, n) in ((w', mkOutside rs c n'), x).

Lemma persist_lifted item o a :
  lifted (_persist_attempt persist item o a) (_persist_attempt (fun r => on_rest (persist r)) item o a).
Proof.
  intros w n rs c. unfold _persist_attempt, on_snd, on_rest. cbn.
  by destruct (persist (delivery_row item o a) n).
Qed.

Lemma dead_letter_lifted item o a :
  lifted (_maybe_dead_letter write_file item o a)
    (_maybe_dead_letter (fun f t => on_rest (write_file f t)) item o a).
Proof.
  intros w n rs c. unfold _maybe_dead_letter. destruct (negb _); [done|].
  unfold try_M, on_snd, on_rest. cbn [fst snd a_rest a_answers a_clock].
  match goal with |- context [write_file ?f ?t n] => destruct (write_file f t n) as [n1 [[]|[]]] end; done.
Qed.

(** The head of the loop for one more attempt. *)
Lemma loop_head_start p t :
  p_stop p = false -> tk_attempt t <= bc_max_retries (pd_config (tk_item t)) + 1 ->
  loop_head p t = Go (set_phase (if p_clock p <? tk_eligible t then Sleeping (tk_eligible t) else Calling) t).
Proof.
  intros Hs Ha. unfold loop_head. rewrite Hs, andb_false_r.
  rewrite (proj2 (Z.ltb_ge _ _) Ha). by destruct (_ <? _).
Qed.

(** One attempt of [Soar.attempts], its wait and reply made explicit. *)
Definition after_reply (k : nat) (item : PendingDelivery) (a : Z) (outcome : DeliverOutcome)
  : M (worker * outside) bool :=
  _ ← _persist_attempt (fun r => on_rest (persist r)) item outcome a;
  let result := o_result outcome in
  if d_dead_lettered result then
    _ ← _maybe_dead_letter (fun f t => on_rest (write_file f t)) item outcome a; mret true
  else if (200 <=? d_status_code result) && (d_status_code result <? 400) then
    _ ← _mark_cooldown (fun o => (o, Ok (a_clock o))) item; mret true
  else if bc_max_retries (pd_config item) <? a then
    _ ← _maybe_dead_letter (fun f t => on_rest (write_file f t)) item outcome a; mret true
  else
    now ← on_snd (fun o => (o, Ok (a_clock o)));
    alone_attempts k item (a + 1) (now + backoff a * SEC).

Lemma attempts_step k item a el r rs clock (w : worker) (n : N) :
  alone_attempts (S k) item a el (w, mkOutside (r :: rs) clock n)
  = match r with
    | Ok o => after_reply k item a o (w, mkOutside rs (Z.max clock el) n)
    | Raise e =>
        match utcnow n with
        | (n', Ok now) =>
            after_reply k item a (exception_outcome item now e) (w, mkOutside rs (Z.max clock el) n')
        | (n', Raise e') => ((w, mkOutside rs (Z.max clock el) n'), Raise e')
        end
    end.
Proof.
  unfold alone_attempts. cbn [attempts]. unfold mbind at 1, M_bind at 1.
  assert (Hw : wait_turn (fun o : outside => (o, Ok (a_clock o))) (mret false) alone_wait a el
    (w, mkOutside (r :: rs) clock n) = ((w, mkOutside (r :: rs) (Z.max clock el) n), Ok false)).
  { unfold wait_turn, mbind, M_bind. assert (Hs : forall s : worker * outside,
      (if 1 <? a then on_snd (mret false) else mret false) s = (s, Ok false))
      by (intros [? ?]; by destruct (1 <? a)). rewrite Hs. unfold on_snd. cbn.
    destruct (Z.ltb_spec clock el);
      [replace (Z.max clock el) with (clock + (el - clock)) by lia
      |replace (Z.max clock el) with clock by lia]; done. }
  rewrite Hw. unfold mbind at 1, M_bind at 1, try_M at 1, on_snd at 1, alone_deliver at 1.
  cbn [fst snd a_answers a_clock a_rest]. destruct r as [o|e]; [done|].
  unfold mbind at 1, M_bind at 1, on_snd at 1, on_rest at 1. cbn [fst snd a_answers a_clock a_rest].
  by destruct (utcnow n) as [n' [now|e']].
Qed.

(** Storing the attempt and deciding, in the pool and in [Soar]. *)
Lemma save_alone k p item a el ph o rs (w : worker) (n : N) :
  p_stop p = false ->
  let '((w2, n2), y) :=
    (_ ← _persist_attempt persist item o a; decide_next write_file p (mkTask 0 item a el ph) o) (w, n) in
  let out := after_reply k item a o (w, mkOutside rs (p_clock p) n) in
  match y with
  | Ok Finish => out = ((w2, mkOutside rs (p_clock p) n2), Ok true)
  | Ok Return => False
  | Ok (Go t2) =>
      let el2 := p_clock p + backoff a * SEC in
      out = alone_attempts k item (a + 1) el2 (w2, mkOutside rs (p_clock p) n2)
      /\ t2 = mkTask 0 item (a + 1) el2 (if p_clock p <? el2 then Sleeping el2 else Calling)
      /\ a <= bc_max_retries (pd_config item)
  | Raise e => out = ((w2, mkOutside rs (p_clock p) n2), Raise e)
  end.
Proof.
  intros Hs. unfold after_reply, decide_next, mbind, M_bind. cbn [tk_item tk_attempt tk_id tk_phase].
  rewrite (persist_lifted item o a w n rs (p_clock p)).
  destruct (_persist_attempt persist item o a (w, n)) as [[w1 n1] [[]|e]]; [|done].
  destruct (d_dead_lettered (o_result o)).
  { rewrite (dead_letter_lifted item o a w1 n1 rs (p_clock p)).
    by destruct (_maybe_dead_letter write_file item o a (w1, n1)) as [[w2 n2] [[]|e]]. }
  destruct (_ && _); [done|]. destruct (Z.ltb_spec (bc_max_retries (pd_config item)) a) as [Hlt|Hle].
  { rewrite (dead_letter_lifted item o a w1 n1 rs (p_clock p)).
    by destruct (_maybe_dead_letter write_file item o a (w1, n1)) as [[w2 n2] [[]|e]]. }
  unfold mret, M_ret. rewrite loop_head_start by (cbn; try done; lia).
  cbn [set_phase tk_id tk_item tk_attempt tk_eligible]. by repeat split.
Qed.

(** The clock moves on and the task wakes up. *)
Lemma wait_alone item a el ph nx clock d (w : worker) (n : N) l :
  ph = (if clock <? el then Sleeping el else Calling) -> clock + Z.max 0 d = Z.max clock el ->
  fire_allN (Tick d :: Wake 0 :: l) (mkPool [mkTask 0 item a el ph] nx clock false, (w, n))
  = fire_allN l (mkPool [mkTask 0 item a el Calling] nx (Z.max clock el) false, (w, n)).
Proof.
  intros Hph Htick.
  cbn [fire_all foldl fire fst snd find_task find p_tasks p_clock p_stop p_next tk_id tk_phase Nat.eqb].
  rewrite Htick. unfold find_task. cbn [p_tasks find tk_id Nat.eqb]. subst ph.
  destruct (Z.ltb_spec clock el) as [Hlt|Hge]; cbn [tk_phase]; [|done].
  by rewrite (proj2 (Z.leb_le _ _)) by lia.
Qed.

(** The end of the task, whatever events are left. *)
Lemma ended_alone a rs clock p (w : worker) (n : N) (x : res unit) : p_tasks p = [] ->
  exists p' w' n' (o : list (res DeliverOutcome) * Z * res unit),
    fire_allN (attempt_events a rs) (p, (w, n)) = (p', (w', n'))
    /\ p_tasks p' = [] /\ ((w, mkOutside rs clock n), x) = ((w', mkOutside o.1.1 o.1.2 n'), o.2).
Proof.
  intros Hp. destruct (no_task_left a rs p (w, n) Hp) as (p'&->&Hp'). by exists p', w, n, (rs, clock, x).
Qed.

(** A single task from the head of its loop on, against the loop of [Soar]. *)
Lemma attempts_alone item rs : forall a el nx clock ph (w : worker) (n : N),
  ph = (if clock <? el then Sleeping el else Calling) ->
  (if a =? 1 then el <= clock else el = clock + backoff (a - 1) * SEC) -> 1 <= a ->
  Z.of_nat (length rs) = bc_max_retries (pd_config item) + 2 - a -> rs <> [] ->
  exists p' w' n' o,
    fire_allN (attempt_events a rs) (mkPool [mkTask 0 item a el ph] nx clock false, (w, n)) = (p', (w', n'))
    /\ p_tasks p' = []
    /\ (d ← alone_attempts (length rs) item a el;
        if d : bool then modify (add_finished (s_id (pd_alert item), pd_backend_name item)) else mret tt)
         (w, mkOutside rs clock n) = ((w', mkOutside o.1.1 o.1.2 n'), o.2).
Proof.
  induction rs as [|r rs IH]; intros a el nx clock ph w n Hph Hel Ha Hlen Hne; [done|]. clear Hne.
  assert (Hmax : a <= bc_max_retries (pd_config item) + 1) by (cbn [length] in Hlen; lia).
  set (clock' := Z.max clock el).
  change (attempt_events a (r :: rs)) with
    (Tick (if a =? 1 then 0 else backoff (a - 1) * SEC) :: Wake 0 :: [Reply 0 r; Save 0] ++ attempt_events (a + 1) rs).
  assert (Htick : clock + Z.max 0 (if a =? 1 then 0 else backoff (a - 1) * SEC) = clock').
  { subst clock'. destruct (a =? 1); lia. }
  rewrite (wait_alone item a el ph nx clock _ w n _ Hph Htick). fold clock'. clear Hel Htick.
  set (t0 := mkTask 0 item a el Calling).
  pose proof (ended_alone (a + 1) rs clock') as Hended.
  change (length (r :: rs)) with (S (length rs)).
  unfold mbind at 1, M_bind at 1. rewrite attempts_step. fold clock'.
  assert (Hafter : forall o n1, exists p' w' n' (x : list (res DeliverOutcome) * Z * res unit),
    fire_allN (Save 0 :: attempt_events (a + 1) rs) (mkPool [set_phase (Saving o) t0] nx clock' false, (w, n1))
      = (p', (w', n')) /\ p_tasks p' = []
    /\ match after_reply (length rs) item a o (w, mkOutside rs clock' n1) with
       | (s', Ok d) => (if d : bool then modify (add_finished (s_id (pd_alert item), pd_backend_name item))
                        else mret tt) s'
       | (s', Raise e) => (s', Raise e)
       end = ((w', mkOutside x.1.1 x.1.2 n'), x.2)).
  { intros o n1. change (fire_allN (Save 0 :: ?l) ?s) with (fire_allN l (fireN (Save 0) s)).
    pose proof (save_alone (length rs) (mkPool [set_phase (Saving o) t0] nx clock' false) item a el (Saving o) o rs w n1
      eq_refl) as Hsave.
    cbn [fire fst snd]. unfold find_task. cbn [p_tasks find set_phase t0 tk_id Nat.eqb tk_phase tk_item tk_attempt].
    cbn [set_phase t0 tk_id tk_item tk_attempt tk_eligible p_clock] in Hsave. cbn zeta in Hsave.
    destruct ((_ ← _persist_attempt persist item o a; _) (w, n1)) as [[w2 n2] [[t2| |]|e]].
    - destruct Hsave as (->&->&Hle). cbn [p_clock] in *.
      destruct rs as [|r2 rs]; [cbn [length] in Hlen; lia|].
      destruct (IH (a + 1) (clock' + backoff a * SEC) nx clock' _ w2 n2 eq_refl) as (p'&w'&n'&x&E1&E2&E3).
      + rewrite (proj2 (Z.eqb_neq _ _)) by lia. by replace (a + 1 - 1) with a by lia.
      + lia.
      + cbn [length] in *. lia.
      + done.
      + exists p', w', n', x. split; [exact E1|]. split; [done|]. rewrite <- E3. done.
    - rewrite Hsave. by apply Hended.
    - done.
    - rewrite Hsave. by apply Hended. }
  change (fire_allN ([Reply 0 r; Save 0] ++ ?l) ?s) with (fire_allN (Save 0 :: l) (fireN (Reply 0 r) s)).
  cbn [fire fst snd]. unfold find_task. cbn [p_tasks find t0 tk_id Nat.eqb tk_phase tk_item].
  destruct r as [o|e]; [apply Hafter|].
  destruct (utcnow n) as [n1 [now|e1]]; [apply Hafter|]. by apply Hended.
Qed.

End Alone.

(** ** Properties *)


(** At most ten deliveries are under way: over any events, from a pool where
    this holds, at most ten tasks hold the semaphore, and no two tasks share an
    id. *)
Theorem at_most_ten_deliveries {N : Type} (utcnow : M N Z) (persist : SoarDelivery -> M N unit)
    (write_file : string -> string -> M N unit) (l : list event) (s : pool * (worker * N)) :
  pool_ok s.1 ->
  let s' := fire_all utcnow persist write_file l s in
  (length (holders s'.1) <= 10)%nat /\ NoDup (map tk_id (p_tasks s'.1)).
Proof.
  intros Hok. destruct (fire_all_ok utcnow persist write_file l s Hok) as [Hi _ Hh]. by split.
Qed.


(** *** Concrete runs *)

Definition fire_unit : list event -> pool * (worker * unit) -> pool * (worker * unit) :=
  fire_all (fun n => (n, Ok 0)) (fun _ => mret tt) (fun _ _ => mret tt).

Definition flaky_item (retries : Z) : PendingDelivery := mkPending some_alert "slack" (slack_config retries) 1 0.


(** Five failed attempts of ten items whose backend answers 500. *)
Definition failing_round (a : Z) : list event :=
  Tick (if a =? 1 then 0 else backoff (a - 1) * SEC)
  :: flat_map (fun i => [Wake i; Reply i (Ok (answer 500)); Save i]) (seq 0 10).

Definition eleven_items : pool * (worker * unit) :=
  (empty_pool, (set_queue (repeat (flaky_item 5) 11) fresh_worker, tt)).

Definition ten_asleep : pool * (worker * unit) :=
  fire_unit (Drain :: repeat Admit 11 ++ flat_map failing_round [1; 2; 3; 4; 5]) eleven_items.

Lemma at_most_ten_deliveries_witness :
  (length (holders ten_asleep.1) <= 10)%nat /\ NoDup (map tk_id (p_tasks ten_asleep.1)).
Proof.
  refine (at_most_ten_deliveries (N := unit) (fun n => (n, Ok 0)) (fun _ => mret tt) (fun _ _ => mret tt)
    (Drain :: repeat Admit 11 ++ flat_map failing_round [1; 2; 3; 4; 5]) eleven_items _).
  constructor; [constructor|constructor|]. vm_compute. lia.
Defined.

