(* ===== verification/SoarPoll.v ===== *)
(** * The polling side of the SOAR worker: [soar/worker.py], [soar/__init__.py]
    and the list of deliveries of [api/v1/soar.py]

    The registry of backends and its installation, the query of a poll and what
    it enqueues, a turn of the worker's loop over the pool of [SoarTasks], and the
    start and stop of the worker.  Wall-clock instants are in microseconds. *)

From S2P Require Import Prelude PyStr PyVal PyStd Json Redis Crypto Db SoarConfig Soar SoarTasks ReadApi.

(** ** The registry *)

(** A registered object: the stand-in of [soar/__init__.py], or a backend class
    with its block of the configuration. *)
Inductive backend : Type :=
| Stub (name : string)
| Real (name : string) (cfg : BackendConfig).

Definition name_of (b : backend) : string := match b with Stub n | Real n _ => n end.

Fixpoint register (b : backend) (registry : list backend) : list backend :=
  match registry with
  | [] => [b]
  | x :: r => if String.eqb (name_of x) (name_of b) then b :: r else x :: register b r
  end.

Definition import_registry : list backend :=
  foldl (fun r n => register (Stub n) r)
    [] ["generic_webhook"; "slack"; "discord"; "pagerduty"; "thehive"; "jira"].

Definition backend_classes : list string :=
  ["generic_webhook"; "slack"; "discord"; "pagerduty"; "thehive"; "jira"].

Definition _install_backends (config : SoarConfig) : M (list backend) unit := fun registry =>
  if existsb (fun nc => negb (str_in nc.1 backend_classes)) (sc_backends config)
  then (registry, Raise RuntimeError)
  else (foldl (fun r name => match assoc name (sc_backends config) with
                             | Some cfg => register (Real name cfg) r
                             | None => r
                             end) registry backend_classes, Ok tt).

(** ** Polling *)

(** The alerts of the last sixty seconds, newest first, at most 200. *)
Definition recent (now : Z) : AlertsApi.Query := AlertsApi.mkQuery None None (Some (now - 60 * 1000000)) None.
Definition poll_rows (now : Z) (d : db) : list Alert := take 200 (AlertsApi.view (recent now) d).

Section Poll.
Context {D O : Type} `{Database D}.
Context (config : SoarConfig) (registry : list backend).
Context (monotonic utcnow : M (D * O) Z) (write_file : string -> string -> M (D * O) unit).
Context (persist : SoarDelivery -> M (D * O) unit).

Definition _poll_once : M (worker * (D * O)) unit :=
  now ← on_snd utcnow;
  rows ← on_snd (on_fst (transaction (fun d => (d, Ok (poll_rows now d)))));
  enqueue_rows config monotonic utcnow write_file (map name_of registry) rows.

(** One turn of [_run]: a poll that raises is logged, then items become tasks. *)
Definition _run (s : pool * (worker * (D * O))) : pool * (worker * (D * O)) :=
  if p_stop s.1 then s
  else
    let polled := if sc_enabled config then (s.1, (_poll_once s.2).1) else s in
    fire utcnow persist write_file Drain polled.

End Poll.

(** ** Life cycle *)

(** Whether the worker has a task, and its stop event. *)
Record life : Type := mkLife { lf_task : bool; lf_stop : bool }.

Definition start (l : life) : life := if lf_task l then l else mkLife true (lf_stop l).
Definition stop (l : life) : life := mkLife false true.

(** ** [list_deliveries] *)

(** A row with its id; SQL refuses a negative limit. *)
Definition newest_delivery (a b : string * SoarDelivery) : Prop :=
  sd_attempted_at b.2 <= sd_attempted_at a.2.

#[export] Instance newest_delivery_dec a b : Decision (newest_delivery a b).
Proof. unfold newest_delivery. apply _. Defined.

Definition wanted (alert_id backend : option string) (r : string * SoarDelivery) : bool :=
  opt_all (fun a => bool_decide (sd_alert_id r.2 = Some a)) alert_id
  && opt_all (String.eqb (sd_backend r.2)) backend.

Definition delivery_item (r : string * SoarDelivery) : val :=
  let d := r.2 in
  VDict [("id", VStr r.1); ("alert_id", str_or_null (sd_alert_id d)); ("backend", VStr (sd_backend d));
         ("status_code", VInt (sd_status_code d)); ("attempted_at", VStr (isoformat (sd_attempted_at d)));
         ("duration_ms", VInt (sd_duration_ms d)); ("attempt", VInt (sd_attempt d));
         ("error", str_or_null (sd_error d)); ("dead_lettered", VBool (sd_dead_lettered d));
         ("payload_sha256", str_or_null (sd_payload_sha256 d))].

Definition list_deliveries (alert_id backend : option string) (limit : Z)
    (table : list (string * SoarDelivery)) : res val :=
  if limit <? 0 then Raise SqlError
  else
    let rows := take (Z.to_nat limit)
                  (merge_sort newest_delivery (filter (fun r => wanted alert_id backend r = true) table)) in
    Ok (VDict [("items", VList (map delivery_item rows)); ("count", VInt (Z.of_nat (length rows)))]).

(** ** Lemmas *)

Lemma register_names b r : In (name_of b) (map name_of r) -> map name_of (register b r) = map name_of r.
Proof.
  induction r as [|x r IH]; [done|]. cbn. destruct (String.eqb_spec (name_of x) (name_of b)) as [E|Hne].
  - by rewrite E.
  - intros [?|Hin]; [done|]. cbn. by rewrite IH.
Qed.

Definition find_backend (name : string) (r : list backend) : option backend :=
  find (fun b => String.eqb (name_of b) name) r.

Lemma find_register name b r : find_backend name (register b r)
  = if String.eqb (name_of b) name then Some b else find_backend name r.
Proof.
  unfold find_backend. induction r as [|x r IH]; [done|]. cbn [register].
  destruct (String.eqb_spec (name_of x) (name_of b)) as [E|Hne]; cbn [find].
  - rewrite E. by destruct (String.eqb (name_of b) name).
  - rewrite IH. destruct (String.eqb_spec (name_of x) name), (String.eqb_spec (name_of b) name); congruence.
Qed.

Lemma install_fold bs names : forall r,
  Forall (fun n => In n (map name_of r)) names ->
  let r' := foldl (fun r name => match assoc name bs with
                                 | Some cfg => register (Real name cfg) r
                                 | None => r
                                 end) r names in
  map name_of r' = map name_of r
  /\ forall name, find_backend name r'
       = match (if str_in name names then assoc name bs else None) with
         | Some cfg => Some (Real name cfg)
         | None => find_backend name r
         end.
Proof.
  induction names as [|x names IH]; intros r Hr; [done|]. cbn zeta. cbn [foldl].
  inversion_clear Hr as [|?? Hx Hrest].
  set (r1 := match assoc x bs with Some cfg => register (Real x cfg) r | None => r end).
  assert (Hn1 : map name_of r1 = map name_of r)
    by (subst r1; destruct (assoc x bs); [by apply register_names|done]).
  destruct (IH r1) as [Hn Hf]; [by rewrite Hn1|]. split; [by rewrite Hn|]. intros name. rewrite Hf.
  assert (Hf1 : find_backend name r1 = match (if String.eqb name x then assoc name bs else None) with
                                       | Some cfg => Some (Real name cfg)
                                       | None => find_backend name r
                                       end).
  { subst r1. destruct (String.eqb_spec name x) as [->|Hne].
    - destruct (assoc x bs); [|done]. rewrite find_register. cbn. by rewrite String.eqb_refl.
    - destruct (assoc x bs); [|done]. rewrite find_register. cbn.
      by rewrite (proj2 (String.eqb_neq _ _)) by congruence. }
  rewrite Hf1. unfold str_in. cbn [existsb].
  destruct (String.eqb name x), (existsb _ names), (assoc name bs); done.
Qed.

(** What a poll adds to the queue. *)
Definition polled (config : SoarConfig) (w : worker) (t : Z) (names : list string) (rows : list Alert)
  : list PendingDelivery :=
  flat_map (fun row => if bool_decide (al_id row ∈ w_enqueued w) then []
                       else selected config w t (row_alert row) names) rows.

Lemma selected_cooldowns config w w' t a names :
  w_cooldowns w' = w_cooldowns w -> selected config w' t a names = selected config w t a names.
Proof. intros E. unfold selected, accepts, cooling. by rewrite E. Qed.

Lemma polled_ext config w w' t names rows :
  w_cooldowns w' = w_cooldowns w ->
  (forall row, row ∈ rows -> al_id row ∈ w_enqueued w' <-> al_id row ∈ w_enqueued w) ->
  polled config w' t names rows = polled config w t names rows.
Proof.
  intros Hc. unfold polled. induction rows as [|row rows IH]; [done|]. intros He. cbn [flat_map].
  rewrite IH by (intros r Hr; apply He; by right). f_equal.
  rewrite (selected_cooldowns _ w) by done. pose proof (He row ltac:(left)).
  do 2 case_bool_decide; tauto.
Qed.

Section Rows.
Context {N : Type} (config : SoarConfig) (monotonic utcnow : M N Z).
Context (write_file : string -> string -> M N unit) (t : Z) (names : list string).
Hypothesis clock_stands : forall n, monotonic n = (n, Ok t).

Lemma selected_length w a : (length (selected config w t a names) <= length names)%nat.
Proof.
  unfold selected. induction names as [|x l IH]; [done|]. cbn [omap list_omap length].
  match goal with |- context [match ?o with Some _ => _ | None => _ end] => destruct o end; cbn; lia.
Qed.

Lemma enqueue_rows_room rows : forall (w : worker) (n : N),
  NoDup (map al_id rows) ->
  Z.of_nat (length (w_queue w) + length rows * length names) <= sc_queue_max config ->
  exists w', enqueue_rows config monotonic utcnow write_file names rows (w, n) = ((w', n), Ok tt)
  /\ w_queue w' = w_queue w ++ polled config w t names rows
  /\ w_cooldowns w' = w_cooldowns w
  /\ forall i, i ∈ w_enqueued w' -> i ∈ w_enqueued w \/ i ∈ map al_id rows.
Proof.
  induction rows as [|row rows IH]; intros w n Hnd Hroom.
  { exists w. cbn. rewrite app_nil_r. split; [done|]. split; [done|]. split; [done|]. by left. }
  cbn [map] in Hnd. apply NoDup_cons in Hnd as [Hnew Hnd]. cbn [length Nat.mul] in Hroom.
  cbn [enqueue_rows]. unfold mbind at 1, M_bind at 1.
  unfold _enqueue_row, mbind at 1, M_bind at 1, read. cbn [fst].
  assert (Hstep : exists w1, (if bool_decide (al_id row ∈ w_enqueued w) then mret tt
       else enqueue_backends config monotonic utcnow write_file (row_alert row) names) (w, n) = ((w1, n), Ok tt)
    /\ w_queue w1 = w_queue w ++ polled config w t names [row] /\ w_cooldowns w1 = w_cooldowns w
    /\ w_enqueued w ⊆ w_enqueued w1
    /\ forall i, i ∈ w_enqueued w1 -> i ∈ w_enqueued w \/ i = al_id row).
  { unfold polled. cbn [flat_map]. case_bool_decide.
    - exists w. rewrite !app_nil_r. do 4 (split; [done|]). by left.
    - destruct (enqueue_backends_room config monotonic utcnow write_file t clock_stands (row_alert row) names w n)
        as (w1&E&Hq&Hc&_&He); [lia|]. exists w1. rewrite app_nil_r. split; [exact E|]. split; [done|].
      split; [done|]. split; [rewrite He; destruct (selected _ _ _ _ _); [done|set_solver]|].
      intros i. rewrite He. destruct (selected _ _ _ _ _); [by left|]. cbn. set_solver. }
  destruct Hstep as (w1&E1&Hq1&Hc1&Hs1&He1). rewrite E1.
  assert (Hlen : (length (polled config w t names [row]) <= length names)%nat).
  { unfold polled. cbn [flat_map]. rewrite app_nil_r. destruct (bool_decide _); [cbn; lia|]. apply selected_length. }
  destruct (IH w1 n Hnd) as (w'&E&Hq&Hc&He).
  { rewrite Hq1, length_app. lia. }
  exists w'. split; [exact E|]. split; [|split; [congruence|]].
  - assert (Hp : polled config w t names (row :: rows)
        = polled config w t names [row] ++ polled config w t names rows)
      by (unfold polled; cbn [flat_map]; by rewrite app_nil_r).
    rewrite Hq, Hq1, Hp, <- app_assoc. f_equal. f_equal. apply polled_ext; [done|].
    intros r Hr. split; [intros [?|Er]%He1; [done|]|].
    + destruct Hnew. rewrite <- Er. by apply list_elem_of_fmap_2.
    + apply Hs1.
  - intros i [Hi|Hi]%He; [|right; by right]. apply He1 in Hi as [?| ->]; [by left|right; by left].
Qed.

End Rows.

(** Which alerts a poll sees. *)
Lemma alerts_of_in now d a :
  a ∈ AlertsApi.alerts_of (recent now) d
  <-> (exists i, db_alerts d !! i = Some a) /\ now - 60 * 1000000 <= al_created_at a.
Proof.
  unfold AlertsApi.alerts_of. rewrite list_elem_of_filter.
  assert (Hs : AlertsApi.selects (recent now) a = true <-> now - 60 * 1000000 <= al_created_at a).
  { unfold AlertsApi.selects, recent. cbn. rewrite andb_true_r. apply Z.leb_le. }
  rewrite Hs. assert (Hm : a ∈ map snd (map_to_list (db_alerts d)) <-> exists i, db_alerts d !! i = Some a).
  { rewrite list_elem_of_fmap. split.
    - intros ([i b]&->&Hi). exists i. by apply elem_of_map_to_list.
    - intros [i Hi]. exists (i, a). split; [done|]. by apply elem_of_map_to_list. }
  rewrite Hm. tauto.
Qed.

Lemma poll_rows_spec now d :
  let all := AlertsApi.alerts_of (recent now) d in
  length (poll_rows now d) = Nat.min 200 (length all)
  /\ (forall a, a ∈ poll_rows now d -> a ∈ all)
  /\ (forall a, a ∈ all -> a ∈ poll_rows now d
        \/ (length (poll_rows now d) = 200%nat /\ Forall (fun b => al_created_at a <= al_created_at b) (poll_rows now d))).
Proof.
  cbn zeta. unfold poll_rows. pose proof (AlertsFacts.view_perm (recent now) d) as Hp.
  pose proof (AlertsFacts.view_sorted (recent now) d) as Hs.
  set (v := AlertsApi.view (recent now) d) in *. set (all := AlertsApi.alerts_of (recent now) d) in *.
  clearbody v all. rewrite length_take, (Permutation_length Hp). split; [done|].
  rewrite <- (take_drop 200 v) in Hs. split.
  - intros a Ha. rewrite <- Hp. apply elem_of_take in Ha as (i&Hi&_). by apply list_elem_of_lookup_2 in Hi.
  - intros a Ha. rewrite <- Hp, <- (take_drop 200 v) in Ha. apply elem_of_app in Ha as [Ha|Ha]; [by left|right].
    assert (Hlen : (200 < length v)%nat).
    { destruct (Nat.le_gt_cases (length v) 200) as [Hle|]; [|done].
      rewrite drop_ge in Ha by done. inversion Ha. }
    split; [rewrite <- (Permutation_length Hp); lia|]. apply Forall_forall. intros b Hb.
    apply StronglySorted_app in Hs as (Hx&_&_). by apply (Hx b a).
Qed.

(** ** Properties *)

(** What one poll enqueues: when the read succeeds and the queue has room,
    the items added are, for each of the 200 newest alerts of the last sixty
    seconds that were not enqueued before, those of the configured backends that
    accept it, newest alert first; no cooldown changes, so two alerts of one
    host and detector in one poll are both enqueued.  Every alert of the last
    sixty seconds is among the rows, unless there are 200 newer ones. *)
Theorem poll_enqueues {D O : Type} `{DatabaseLaws D} (config : SoarConfig) (registry : list backend)
    (monotonic utcnow : M (D * O) Z) (write_file : string -> string -> M (D * O) unit)
    (t now : Z) (w : worker) (d : D) (o : O) :
  (forall n, monotonic n = (n, Ok t)) -> (forall n, utcnow n = (n, Ok now)) ->
  is_ok (transaction (fun st => (st, Ok (poll_rows now st))) d).2 = true ->
  NoDup (map al_id (poll_rows now (tables d))) ->
  Z.of_nat (length (w_queue w) + length (poll_rows now (tables d)) * length registry) <= sc_queue_max config ->
  let rows := poll_rows now (tables d) in
  (exists w' d', _poll_once config registry monotonic utcnow write_file (w, (d, o)) = ((w', (d', o)), Ok tt)
    /\ tables d' = tables d
    /\ w_queue w' = w_queue w ++ polled config w t (map name_of registry) rows
    /\ w_cooldowns w' = w_cooldowns w)
  /\ forall i a, db_alerts (tables d) !! i = Some a -> now - 60 * 1000000 <= al_created_at a ->
       a ∈ rows \/ (length rows = 200%nat /\ Forall (fun b => al_created_at a <= al_created_at b) rows).
Proof.
  intros Hmono Hutc Hok Hnd Hroom. cbn zeta. split.
  - unfold _poll_once, mbind, M_bind, on_snd at 1. cbn [fst snd]. rewrite Hutc. unfold on_snd at 1, on_fst.
    cbn [fst snd].
    pose proof (transaction_cases (fun st => (st, Ok (poll_rows now st))) d) as L.
    destruct (transaction (fun st => (st, Ok (poll_rows now st))) d) as [d1 y]. cbn [fst snd] in *.
    destruct L as [[_ [e ->]]|(rows&E&Hy)]; [done|]. injection E as E <-.
    destruct Hy as [->| ->]; [|done].
    destruct (enqueue_rows_room config monotonic utcnow write_file t (map name_of registry) Hmono
      (poll_rows now (tables d)) w (d1, o) Hnd) as (w'&Er&Hq&Hc&_).
    { by rewrite length_map. }
    exists w', d1. split; [exact Er|]. split; [by symmetry|]. done.
  - intros i a Ha Hrec. apply poll_rows_spec. apply alerts_of_in. eauto.
Qed.

(** Every configuration that loads can be installed: the registry keeps its six
    names, and holds the configured class under each configured name. *)
Theorem install_loaded (raw : option (list (string * val))) (config : SoarConfig) :
  load_config raw = Ok config ->
  exists registry, _install_backends config import_registry = (registry, Ok tt)
  /\ map name_of registry = KNOWN_BACKENDS
  /\ forall name, In name KNOWN_BACKENDS ->
       find_backend name registry = Some (match assoc name (sc_backends config) with
                                          | Some cfg => Real name cfg
                                          | None => Stub name
                                          end).
Proof.
  intros Hc.
  assert (Hk : Forall (fun nc => In nc.1 KNOWN_BACKENDS) (sc_backends config)).
  { destruct raw as [raw|].
    - unfold load_config in Hc. inv_res. eapply Forall_impl; [by eapply load_backends_ok|].
      intros nc Hnc. apply Hnc.
    - injection Hc as <-. constructor. }
  unfold _install_backends.
  destruct (existsb _ _) eqn:E.
  { apply existsb_exists in E as (nc&Hin&Hn). eapply List.Forall_forall in Hk; [|exact Hin].
    apply negb_true_iff in Hn. destruct (str_in nc.1 backend_classes) eqn:Es; [done|].
    apply str_in_spec in Hk. unfold KNOWN_BACKENDS in Hk. unfold backend_classes in Es. by rewrite Hk in Es. }
  destruct (install_fold (sc_backends config) backend_classes import_registry) as [Hn Hf].
  { apply Forall_forall. intros n Hn. by apply list_elem_of_In. }
  eexists. split; [reflexivity|]. split; [exact Hn|]. intros name Hin. rewrite Hf.
  apply str_in_spec in Hin as Hs. unfold KNOWN_BACKENDS in Hs. unfold backend_classes at 1. rewrite Hs.
  destruct (assoc name (sc_backends config)); [done|].
  repeat (destruct Hin as [<-|Hin]; [reflexivity|]). destruct Hin.
Qed.

(** *** Concrete runs *)

Definition jira_config : SoarConfig := mkSoar true (float_value "2.0") 1000 "" "" [("jira", slack_config 5)].

Lemma install_loaded_witness :
  exists config registry,
    load_config (Some [("backends", VDict [("jira", VDict [("enabled", VBool true)])])]) = Ok config
    /\ _install_backends config import_registry = (registry, Ok tt)
    /\ map name_of registry = KNOWN_BACKENDS /\ find_backend "slack" registry = Some (Stub "slack").
Proof.
  eexists _. destruct (install_loaded (Some [("backends", VDict [("jira", VDict [("enabled", VBool true)])])])
    _ eq_refl) as (registry&E&Hn&Hf).
  exists registry. split; [reflexivity|]. split; [exact E|]. split; [exact Hn|].
  rewrite (Hf "slack") by (cbn; tauto). vm_compute. reflexivity.
Defined.

(** Two alerts of one detector on one host are both sent; the one that is older
    than a minute is not seen. *)
Definition alert_at (id : string) (created : Z) : Alert :=
  mkAlert id (Some "h") "ssh_bruteforce" "high" "s" [] created None.

Definition three_alerts : db :=
  set_alerts (fun _ => list_to_map [("a", alert_at "a" 100000000); ("b", alert_at "b" 130000000);
                                    ("c", alert_at "c" 30000000)]) empty_db.

Definition poll_three : list (string * string) :=
  map (fun i => (s_id (pd_alert i), pd_backend_name i))
    (w_queue (_poll_once (D := db) (O := unit) jira_config import_registry (fun n => (n, Ok (3600 * SEC)))
                (fun n => (n, Ok 140000000)) (fun _ _ => mret tt) (fresh_worker, (three_alerts, tt))).1.1).

Lemma poll_enqueues_witness : poll_three = [("b", "jira"); ("a", "jira")].
Proof.
  pose proof (poll_enqueues (D := db) (O := unit) jira_config import_registry (fun n => (n, Ok (3600 * SEC)))
    (fun n => (n, Ok 140000000)) (fun _ _ => mret tt) (3600 * SEC) 140000000 fresh_worker three_alerts tt
    (fun _ => eq_refl) (fun _ => eq_refl)) as P.
  destruct P as [(w'&d'&E&_&Hq&_) _].
  - vm_compute. reflexivity.
  - assert (Hr : map al_id (poll_rows 140000000 (tables three_alerts)) = ["b"; "a"]) by (vm_compute; reflexivity).
    rewrite Hr. apply (bool_decide_unpack _). vm_compute. exact I.
  - vm_compute. discriminate.
  - unfold poll_three. rewrite E. cbn [fst]. rewrite Hq. vm_compute. reflexivity.
Defined.

(** A turn of the loop makes a task of each. *)
Example run_turn :
  let s := _run (D := db) (O := unit) jira_config import_registry (fun n => (n, Ok (3600 * SEC)))
    (fun n => (n, Ok 140000000)) (fun _ _ => mret tt) (fun _ => mret tt)
    (empty_pool, (fresh_worker, (three_alerts, tt))) in
  map tk_phase (p_tasks s.1) = [Waiting; Waiting] /\ w_queue s.2.1 = [].
Proof. vm_compute. split; reflexivity. Qed.

(** The stop event is never cleared: a worker started again stops at once. *)
Example restart_stops : start (stop (start (mkLife false false))) = mkLife true true.
Proof. reflexivity. Qed.

Example deliveries_limit :
  list_deliveries None (Some "jira") (-1) [] = Raise SqlError
  /\ list_deliveries None (Some "jira") 5 [("r", mkSoarRow None "slack" 200 0 3 1 None false None)]
     = Ok (VDict [("items", VList []); ("count", VInt 0)]).
Proof. vm_compute. split; reflexivity. Qed.

