(* ===== verification/App.v ===== *)
(** * Start and shutdown of the application: [main.py], [db.py], and the DNS
    interface of [detection/dns_intel_interface.py]

    The engine and session factory of [db.py] and the client of
    [streams/publisher.py] are module-level singletons; [lifespan] opens them,
    starts the background tasks, and takes everything down again.  The libraries
    (engine, Redis client) and the constructor of the SOAR worker are
    parameters that may raise; what is started and stopped is logged. *)

From S2P Require Import Prelude PyStr PyVal PyStd Sigma Redis SigmaRunner Detectors Db Pipeline Streams.

(** ** [db.py] *)

Section Engine.
Context {E : Type} (create_async_engine : res E) (dispose : E -> res unit).

(** The two globals; a factory holds the engine it was made for. *)
Record globals : Type := mkGlobals { g_engine : option E; g_factory : option E }.

Definition no_globals : globals := mkGlobals None None.

Definition init_engine : M globals E := fun g =>
  match g_engine g with
  | Some e => (g, Ok e)
  | None => match create_async_engine with
            | Ok e => (mkGlobals (Some e) (Some e), Ok e)
            | Raise x => (g, Raise x)
            end
  end.

Definition get_session_factory : M globals E := fun g =>
  let '(g1, r) := match g_factory g with
                  | None => let '(g1, r) := init_engine g in
                            (g1, match r with Ok _ => Ok tt | Raise x => Raise x end)
                  | Some _ => (g, Ok tt)
                  end in
  match r with
  | Raise x => (g1, Raise x)
  | Ok _ => match g_factory g1 with
            | Some f => (g1, Ok f)
            | None => (g1, Raise AssertionError)
            end
  end.

Definition dispose_engine : M globals unit := fun g =>
  match g_engine g with
  | None => (no_globals, Ok tt)
  | Some e => match dispose e with Ok _ => (no_globals, Ok tt) | Raise x => (g, Raise x) end
  end.

End Engine.
Arguments globals E : clear implicits.
Arguments mkGlobals {E}.
Arguments no_globals {E}.

(** ** [lifespan] *)

Record AppSettings : Type := mkApp {
  streams_enabled : bool;
  detectors_enabled : bool;
  dispatcher_enabled : bool;
  soar_enabled : bool
}.

Inductive part : Type := Engine | Client | RunnerTask | DispatcherTask | SoarTask.

Inductive mark : Type := Up (p : part) | Down (p : part).

Section Lifespan.
Context {E C T : Type} `{StreamServer T}.
Context (settings : AppSettings).
Context (create_async_engine : res E) (dispose : E -> res unit).
Context (from_url : res C) (aclose : C -> res unit).
Context (make_soar_worker : res unit).

Record app : Type := mkState {
  a_globals : globals E;
  a_client : option C;
  a_server : T;
  a_log : list mark
}.

Definition with_log (x : mark) (a : app) : app :=
  mkState (a_globals a) (a_client a) (a_server a) (a_log a ++ [x]).
Definition write (x : mark) : M app unit := fun a => (with_log x a, Ok tt).

Definition on_globals {A} (m : M (globals E) A) : M app A := fun a =>
  let '(g, r) := m (a_globals a) in (mkState g (a_client a) (a_server a) (a_log a), r).
Definition on_client {A} (m : M (option C) A) : M app A := fun a =>
  let '(c, r) := m (a_client a) in (mkState (a_globals a) c (a_server a) (a_log a), r).
Definition on_server {A} (m : M T A) : M app A := fun a =>
  let '(t, r) := m (a_server a) in (mkState (a_globals a) (a_client a) t (a_log a), r).

Definition when (b : bool) (m : M app unit) : M app unit := if b then m else mret tt.

(** Up to the [yield]. *)
Definition startup : M app unit :=
  _ ← on_globals (init_engine create_async_engine);
  _ ← write (Up Engine);
  _ ← on_globals (get_session_factory create_async_engine);
  _ ← when (streams_enabled settings)
        (_ ← on_client (get_redis from_url);
         _ ← write (Up Client);
         _ ← on_server ensure_consumer_group;
         when (detectors_enabled settings) (write (Up RunnerTask)));
  _ ← when (dispatcher_enabled settings) (write (Up DispatcherTask));
  when (soar_enabled settings) (_ ← lift_res make_soar_worker; write (Up SoarTask)).

(** The [finally] clause; [runner_done] says whether the task of the detectors
    had ended by itself, and its exceptions are swallowed. *)
Definition shutdown (runner_done : bool) : M app unit :=
  _ ← when (soar_enabled settings) (write (Down SoarTask));
  _ ← when (dispatcher_enabled settings) (write (Down DispatcherTask));
  _ ← when (streams_enabled settings && detectors_enabled settings && negb runner_done)
        (write (Down RunnerTask));
  _ ← when (streams_enabled settings)
        (_ ← on_client (close_redis aclose); write (Down Client));
  _ ← on_globals (dispose_engine dispose);
  write (Down Engine).

(** The whole life of a process whose serving phase ends after [startup]. *)
Definition lifespan (runner_done : bool) : M app unit := _ ← startup; shutdown runner_done.

(** What the settings ask for, in the order it is started. *)
Definition parts : list part :=
  [Engine]
  ++ (if streams_enabled settings
      then [Client] ++ (if detectors_enabled settings then [RunnerTask] else []) else [])
  ++ (if dispatcher_enabled settings then [DispatcherTask] else [])
  ++ (if soar_enabled settings then [SoarTask] else []).

End Lifespan.
Arguments app E C T : clear implicits.
Arguments mkState {E C T}.

(** ** [Dispatcher.start] and [Dispatcher.stop] *)

Module DispatcherLife.

(** Whether there is a task, and the stop event. *)
Record life : Type := mkLife { task : bool; stop_event : bool }.

Definition start (l : life) : life := if task l then l else mkLife true (stop_event l).
Definition stop (l : life) : life := mkLife false true.

(** The loop of [Dispatcher._run] goes on. *)
Definition running (l : life) : bool := task l && negb (stop_event l).

End DispatcherLife.

(** ** [detection/dns_intel_interface.py] *)

Module DnsIntel.

Record DomainIntel : Type := mkIntel {
  domain_name : string;
  age_days : option Z;
  age_seconds : option Z;
  registrar : option string;
  last_seen_days : option Z;
  is_legitimate_brand : bool
}.

(** The client keeps [base_url or os.environ.get(...)]. *)
Record WHOISRDAPClient : Type := mkClient { base_url : option string; timeout : string }.

Definition new_client (environ : option string) (url : option string) (timeout : string) : WHOISRDAPClient :=
  mkClient (match url with Some (String _ _ as u) => Some u | _ => environ end) timeout.

(** The stub answers with empty fields. *)
Definition lookup (c : WHOISRDAPClient) (domain : string) : DomainIntel :=
  mkIntel domain None None None None false.

Definition default_client (environ : option string) : WHOISRDAPClient := new_client environ None "2.0".

End DnsIntel.

(** ** Lemmas *)

(** The two globals are set and cleared together. *)
Definition globals_ok {E} (g : globals E) : Prop := g_factory g = g_engine g.

Lemma init_engine_ok {E} (create : res E) : keeps_inv globals_ok (init_engine create).
Proof.
  intros g Hg. unfold init_engine. destruct (g_engine g) eqn:Eg; [done|]. by destruct create.
Qed.

Lemma dispose_engine_ok {E} (dispose : E -> res unit) : keeps_inv globals_ok (dispose_engine dispose).
Proof.
  intros g Hg. unfold dispose_engine. destruct (g_engine g) as [e|]; [|done]. by destruct (dispose e).
Qed.

Lemma get_session_factory_ok {E} (create : res E) : keeps_inv globals_ok (get_session_factory create).
Proof.
  intros g Hg. unfold get_session_factory. destruct (g_factory g) eqn:Ef; [by rewrite Ef|].
  pose proof (init_engine_ok create g Hg) as H1. destruct (init_engine create g) as [g1 [e|x]]; [|done].
  cbn in *. by destruct (g_factory g1).
Qed.

(** ** Properties *)

(** The database globals stay together over any calls, and from such a state the
    assertion of [get_session_factory] holds: it answers the factory of the
    engine, or raises what the creation of the engine raised. *)
Theorem session_factory_spec {E : Type} (create : res E) (g : globals E) :
  globals_ok g ->
  (get_session_factory create g).2 = match g_engine g with Some e => Ok e | None => create end
  /\ globals_ok (get_session_factory create g).1
  /\ (forall e, create = Ok e -> g_engine (get_session_factory create g).1 = Some (default e (g_engine g))).
Proof.
  intros Hg. pose proof (get_session_factory_ok create g Hg) as Hk. split; [|split; [done|]]; clear Hk;
    destruct g as [e f]; unfold globals_ok in Hg; cbn in Hg; subst f;
    unfold get_session_factory, init_engine; cbn; destruct e as [e|], create; cbn; try done.
  all: by intros e' [= <-].
Qed.

(** The shutdown mirrors the start: when nothing raises, what the settings ask
    for is started in order and taken down in the opposite order, each part
    once, and no engine, factory or client is left. *)
Theorem lifespan_mirrors {E C T : Type} `{StreamServer T} (settings : AppSettings)
    (e : E) (c : C) (dispose : E -> res unit) (aclose : C -> res unit) (a : app E C T) :
  a_globals a = no_globals -> a_client a = None ->
  dispose e = Ok tt -> aclose c = Ok tt -> (ensure_consumer_group (a_server a)).2 = Ok tt ->
  exists a', lifespan settings (Ok e) dispose (Ok c) aclose (Ok tt) false a = (a', Ok tt)
  /\ a_globals a' = no_globals /\ a_client a' = None
  /\ a_log a' = a_log a ++ map Up (parts settings) ++ map Down (rev (parts settings)).
Proof.
  intros Hg Hc Hd Ha He. destruct a as [g cl t l]. cbn [a_globals a_client a_server a_log] in *. subst g cl.
  unfold lifespan, startup, shutdown, parts, when. destruct settings as [s d di so].
  cbn [streams_enabled detectors_enabled dispatcher_enabled soar_enabled].
  unfold mbind, M_bind, mret, M_ret, on_globals, on_client, on_server, write, with_log, get_session_factory,
    init_engine, get_redis, close_redis, dispose_engine, lift_res.
  destruct (ensure_consumer_group t) as [t1 r] eqn:Et. cbn [snd] in He. subst r.
  destruct s, d, di, so; cbn; rewrite ?Et; cbn; rewrite ?Ha; cbn; rewrite ?Hd; cbn;
    eexists; (split; [reflexivity|]); cbn; (split; [reflexivity|]); (split; [reflexivity|]);
    by rewrite <- ?app_assoc.
Qed.

(** A start that fails takes nothing down: when the SOAR configuration does not
    load, the exception leaves [lifespan] before its [try], with the engine
    open, the client connected and the tasks running. *)
Theorem failed_start_leaks {E C T : Type} `{StreamServer T} (settings : AppSettings)
    (e : E) (c : C) (x : exn) (dispose : E -> res unit) (aclose : C -> res unit) (a : app E C T) :
  a_globals a = no_globals -> a_client a = None -> soar_enabled settings = true ->
  (ensure_consumer_group (a_server a)).2 = Ok tt ->
  exists a', lifespan settings (Ok e) dispose (Ok c) aclose (Raise x) false a = (a', Raise x)
  /\ a_globals a' = mkGlobals (Some e) (Some e)
  /\ a_client a' = (if streams_enabled settings then Some c else None)
  /\ a_log a' ++ [Up SoarTask] = a_log a ++ map Up (parts settings).
Proof.
  intros Hg Hc Hs He. destruct a as [g cl t l]. cbn [a_globals a_client a_server a_log] in *. subst g cl.
  unfold lifespan, startup, parts, when. destruct settings as [s d di so].
  cbn [streams_enabled detectors_enabled dispatcher_enabled soar_enabled] in *. subst so.
  unfold mbind, M_bind, mret, M_ret, on_globals, on_client, on_server, write, with_log, get_session_factory,
    init_engine, get_redis, lift_res.
  destruct (ensure_consumer_group t) as [t1 r] eqn:Et. cbn [snd] in He. subst r.
  destruct s, d, di; cbn; rewrite ?Et; cbn;
    eexists; (split; [reflexivity|]); cbn; (split; [reflexivity|]); (split; [reflexivity|]);
    by rewrite <- ?app_assoc.
Qed.

(** *** Concrete runs *)

Definition all_on : AppSettings := mkApp true true true true.
Definition fresh_app : app Z Z MemStream := mkState no_globals None empty_stream [].

Lemma session_factory_spec_witness :
  (get_session_factory (Ok 5) (mkGlobals (Some 3) (Some 3))).2 = Ok 3
  /\ (get_session_factory (Raise OSError) (no_globals (E := Z))).2 = Raise OSError.
Proof.
  split.
  - exact (proj1 (session_factory_spec (Ok 5) (mkGlobals (Some 3) (Some 3)) eq_refl)).
  - exact (proj1 (session_factory_spec (Raise OSError) no_globals eq_refl)).
Defined.

Lemma lifespan_mirrors_witness :
  exists a', lifespan all_on (Ok 1) (fun _ => Ok tt) (Ok 2) (fun _ => Ok tt) (Ok tt) false fresh_app = (a', Ok tt)
  /\ a_globals a' = no_globals /\ a_client a' = None
  /\ a_log a' = [Up Engine; Up Client; Up RunnerTask; Up DispatcherTask; Up SoarTask;
                 Down SoarTask; Down DispatcherTask; Down RunnerTask; Down Client; Down Engine].
Proof.
  exact (lifespan_mirrors (T := MemStream) all_on 1 2 (fun _ => Ok tt) (fun _ => Ok tt) fresh_app
    eq_refl eq_refl eq_refl eq_refl eq_refl).
Defined.

Lemma failed_start_leaks_witness :
  exists a', lifespan all_on (Ok 1) (fun _ => Ok tt) (Ok 2) (fun _ => Ok tt)
               (Raise (ValueError "soar.toml: unknown backend")) false fresh_app
             = (a', Raise (ValueError "soar.toml: unknown backend"))
  /\ a_globals a' = mkGlobals (Some 1) (Some 1) /\ a_client a' = Some 2
  /\ a_log a' ++ [Up SoarTask] = [Up Engine; Up Client; Up RunnerTask; Up DispatcherTask; Up SoarTask].
Proof.
  exact (failed_start_leaks (T := MemStream) all_on 1 2 (ValueError "soar.toml: unknown backend")
    (fun _ => Ok tt) (fun _ => Ok tt) fresh_app eq_refl eq_refl eq_refl eq_refl).
Defined.

(** A client that fails to close keeps the engine from being disposed. *)
Example close_error_keeps_engine :
  let '(a', r) := lifespan (T := MemStream) all_on (Ok 1) (fun _ => Ok tt) (Ok 2)
    (fun _ => Raise ConnectionError) (Ok tt) false fresh_app in
  r = Raise ConnectionError /\ g_engine (a_globals a') = Some 1.
Proof. split; reflexivity. Qed.

Example intel_degrades :
  DnsIntel.lookup (DnsIntel.default_client None) "example.com"
  = DnsIntel.mkIntel "example.com" None None None None false.
Proof. reflexivity. Qed.

(** Starting twice makes one task; after a stop the loop never runs again. *)
Example dispatcher_life :
  let l := DispatcherLife.start (DispatcherLife.start (DispatcherLife.mkLife false false)) in
  DispatcherLife.running l = true
  /\ DispatcherLife.running (DispatcherLife.start (DispatcherLife.stop l)) = false.
Proof. split; reflexivity. Qed.
