(* ===== verification/Response.v ===== *)
(** * From an attack to the blocked address

    The path of one event through the parts that have a file each: the consumer
    loads it ([Pipeline]), the web-attack detector recognises it ([Detectors]), its
    alert and action are written ([Db]), and the next tick signs the command and
    sends it ([Dispatcher], [Actions], [Crypto]).  The database and the network
    answer here; Redis obeys its laws. *)

From S2P Require Import Prelude PyStr PyVal PyStd Json Crypto Actions Sigma Redis SigmaRunner.
From S2P Require Import Detectors Db Pipeline Dispatcher.

(** The rows a result leads to, with the ids that are drawn for them. *)
Definition result_alert (i : string) (now : Z) (host_id : string) (x : DetectionResult) : Alert :=
  mkAlert i (Some host_id) (dr_detector x) (dr_severity x) (take_str 512 (dr_summary x))
    (enrich (dr_detail x) (dr_dedup_key x) (dr_cooldown_sec x)) now None.

Definition result_action (j i : string) (now : Z) (host_id : string) (a : DetectionAction) : Action :=
  mkAction j (Some host_id) (Some i) (da_kind a) (da_target a) (da_ttl_sec a) "pending" None None now.

(** A stored event as the consumer shows it to the detectors. *)
Definition shown_event (e : Event) : ParsedEvent :=
  mkEvent (e_id e) (e_host_id e) (e_source e) (e_raw e) (coerce_meta (e_metadata e)) (e_occurred_at e).

(** A network on which every send succeeds. *)
Definition reliable {C} : C -> string -> M (list (C * string)) unit := send_log (fun _ _ => true).

(** ** Lemmas *)

Lemma text_ok_app a b : text_ok (a +:+ b) = text_ok a && text_ok b.
Proof. unfold text_ok. by rewrite sexists_app, negb_orb. Qed.

Lemma text_ok_take n s : text_ok s = true -> text_ok (take_str n s) = true.
Proof.
  unfold text_ok. revert n. induction s as [|c s IH]; intros n Hs; [by destruct n|].
  destruct n as [|n]; [done|]. cbn in *. apply negb_true_iff, orb_false_iff in Hs as [-> Hs]. cbn.
  apply IH. by rewrite Hs.
Qed.

Lemma slen_take n s : slen (take_str n s) <= Z.of_nat n.
Proof.
  unfold slen. revert n. induction s as [|c s IH]; intros [|n]; cbn; try lia. specialize (IH n). lia.
Qed.

(** *** Detectors that find nothing *)

Section Detection.
Context {R : Type} `{RedisLaws R}.
Context (uuid4 : M db string).

Lemma silent_run now p (det : Z -> ParsedEvent -> M R (list DetectionResult)) (st : db) r :
  silent (det now p) ->
  run_detector uuid4 now p det (st, r) = ((st, (det now p r).1), Ok tt).
Proof.
  intros Hs. unfold run_detector, try_M, on_snd, mbind, M_bind. cbn [fst snd].
  pose proof (Hs r) as Hr. destruct (det now p r) as [r' [l|e]]; [|done].
  by rewrite (Hr l eq_refl).
Qed.

Lemma ssh_passes settings now p : Ssh._is_failed_login p = Ok false ->
  Ssh.on_event (R := R) settings now p = mret [].
Proof. intros Hf. unfold Ssh.on_event, mbind, M_bind, lift_res. by rewrite Hf. Qed.

(** The port-scan detector fails before its first Redis command. *)
Lemma port_scan_keeps now p (r : R) : (PortScan.on_event now p r).1 = r.
Proof.
  unfold PortScan.on_event, mbind, M_bind, lift_res, try_M.
  destruct (PortScan._is_port_knock p) as [[|]|]; cbn [negb]; try done.
  destruct (PortScan._extract_dest_port p) as [port|]; [|done].
  by destruct (source_ip p), port.
Qed.

(** *** The rows are written *)

Lemma handle_result_writes now host_id (x : DetectionResult) a i j (st : db) (r : R) :
  let al := result_alert i now host_id x in let act := result_action j i now host_id a in
  let st1 := set_alerts (insert i al) st in
  dr_action x = Some a -> uuid4 st = (st, Ok i) -> uuid4 st1 = (st1, Ok j) ->
  alert_ok st al = true -> action_ok st1 act = true ->
  handle_result uuid4 now host_id x (st, r) = ((set_actions (insert j act) st1, r), Ok tt).
Proof.
  intros al act st1 Ha Hi Hj Hal Hact.
  unfold handle_result, swallow, try_M, on_fst, mbind, M_bind. cbn [fst snd]. rewrite Hi.
  unfold write_alert, mbind, M_bind. cbn [transaction mem_database]. unfold run_transaction, insert_alert.
  match goal with |- context [alert_ok st ?y] => change y with al end. rewrite Hal.
  change (al_id al) with i. fold st1. unfold mret, M_ret. cbn [fst snd]. rewrite Ha.
  cbn [fst snd]. rewrite Hj. unfold write_action, mbind, M_bind. cbn [transaction mem_database].
  unfold run_transaction, insert_action.
  match goal with |- context [action_ok st1 ?y] => change y with act end. by rewrite Hact.
Qed.

(** *** The row of a web attack fits its columns *)

Lemma match_tags_ok p : Forall (fun t => text_ok t = true /\ slen t <= 14) (WebAttack._match_patterns p).
Proof.
  unfold WebAttack._match_patterns. apply Forall_map, Forall_forall. intros [t re].
  intros [_ Hin]%list_elem_of_filter. apply list_elem_of_In in Hin. cbn in Hin.
  destruct Hin as [[= <- _]|[[= <- _]|[[= <- _]|[[= <- _]|[]]]]]; split; try done; vm_compute; discriminate.
Qed.

Lemma attack_alert_ok p ip tag i now (st : db) :
  text_ok (ev_raw p) = true -> text_ok ip = true ->
  In tag (WebAttack._match_patterns p) -> db_alerts st !! i = None ->
  present (db_hosts st) (ev_host_id p) = true ->
  alert_ok st (result_alert i now (ev_host_id p) (WebAttack.result p ip tag (WebAttack._match_patterns p)))
  = true.
Proof.
  intros Hraw Hip Htag Hi Hh. pose proof (match_tags_ok p) as Htags.
  generalize dependent (WebAttack._match_patterns p). intros ms Htag Htags.
  assert (Ht : text_ok tag = true).
  { eapply Forall_forall in Htags as [Ht _]; [exact Ht|]. by apply list_elem_of_In. }
  assert (Hjson : forallb jsonb_ok (map VStr ms) = true).
  { clear Htag. induction Htags as [|t l [Hl _] _ IH]; [done|]. cbn. by rewrite Hl. }
  unfold alert_ok. cbn [al_id al_host_id al_detector al_severity al_summary al_detail result_alert opt_all].
  rewrite (proj2 (present_false _ _)) by done. rewrite Hh. cbn [negb andb].
  assert (Hsum : varchar 512 (take_str 512 (dr_summary (WebAttack.result p ip tag ms))) = true).
  { unfold varchar. pose proof (slen_take 512 (dr_summary (WebAttack.result p ip tag ms))) as Hl.
    rewrite (proj2 (Z.leb_le _ _)) by lia. cbn [andb]. apply text_ok_take. cbn [dr_summary WebAttack.result].
    by rewrite !text_ok_app, Ht, Hip. }
  rewrite Hsum. clear Hsum. unfold enrich.
  cbn [WebAttack.result dr_detector dr_severity dr_detail dr_dedup_key dr_cooldown_sec].
  change (WebAttack.cooldown_sec =? 0) with false.
  assert (Hsev : varchar 16 (if str_in tag ["sqli"; "scanner"] then "high" else "medium") = true)
    by (by destruct (str_in tag _)).
  rewrite Hsev. change (varchar 64 "web_attack") with true. cbn [andb].
  assert (Hd : text_ok (ip +:+ ":" +:+ tag) = true) by (by rewrite !text_ok_app, Hip, Ht).
  cbn [String.append] in Hd.
  destruct (nonempty _); cbn -[text_ok take_str]; by rewrite ?Hip, ?Hjson, ?Hd, ?(text_ok_take _ _ Hraw).
Qed.

(** *** The message of an attack *)

Section Attack.
Context (xack : string -> M R unit) (re_search : string -> string -> res bool).
Context (settings : Settings) (e : Event) (ip tag i j : string) (now : Z) (st : db).

Abbreviation p := (shown_event e).
Abbreviation x := (WebAttack.result p ip tag (WebAttack._match_patterns p)).
Abbreviation st1 := (set_alerts (insert i (result_alert i now (e_host_id e) x)) st).
Abbreviation act := (result_action j i now (e_host_id e) (mkDAction "block_ip" ip (Some 3600))).

Hypothesis no_login : Ssh._is_failed_login p = Ok false.
Hypothesis http : WebAttack._is_http_event p = Ok true.
Hypothesis from_ip : source_ip p = Some ip.
Hypothesis ids : uuid4 st = (st, Ok i) /\ uuid4 st1 = (st1, Ok j).
Hypothesis fits : alert_ok st (result_alert i now (e_host_id e) x) = true /\ action_ok st1 act = true.

(** The first signature that is not in its cooldown. *)
Definition reported (r : R) : option string :=
  find (fun t => negb (spec_exists now (WebAttack._cooldown_key (e_host_id e) ip t) (contents r)))
    (WebAttack._match_patterns p).

Lemma attack_detected r : reported r = Some tag ->
  exists r', for_each (run_detector uuid4 now p) (BUILTIN_DETECTORS settings) (st, r)
    = ((set_actions (insert j act) st1, r'), Ok tt).
Proof.
  intros Htag. destruct ids as [Hu1 Hu2], fits as [Hal Hact].
  unfold BUILTIN_DETECTORS. cbn [for_each]. unfold mbind, M_bind.
  rewrite silent_run by (rewrite ssh_passes by done; apply silent_nil).
  rewrite (ssh_passes settings now p no_login). cbn [fst snd mret M_ret].
  rewrite silent_run by apply port_scan_silent. cbn [fst snd]. rewrite port_scan_keeps.
  unfold run_detector at 1. unfold mbind at 1, M_bind at 1, try_M at 1, on_snd at 1. cbn [fst snd].
  pose proof (web_attack_spec now p ip r http from_ip) as Hweb.
  change (find _ _) with (reported r) in Hweb. rewrite Htag in Hweb.
  destruct (WebAttack.on_event now p r) as [r1 y]. cbn [snd] in Hweb. subst y. cbn [for_each].
  unfold mbind at 1, M_bind at 1. change (ev_host_id p) with (e_host_id e).
  rewrite (handle_result_writes now (e_host_id e) x (mkDAction "block_ip" ip (Some 3600)) i j st r1
    eq_refl Hu1 Hu2 Hal Hact). unfold mret, M_ret.
  rewrite silent_run by apply dns_tunnel_silent. rewrite silent_run by apply auth_anomaly_silent.
  by eexists.
Qed.

(** The consumer on the message, with no Sigma rule loaded, whatever the
    acknowledgement does. *)
Lemma attack_written msg_id r :
  is_uuid (e_id e) -> is_uuid (e_host_id e) -> fromtimestamp (e_occurred_at e) = Ok (e_occurred_at e) ->
  db_events st !! e_id e = Some e -> reported r = Some tag ->
  exists r', handle_message uuid4 xack re_search (BUILTIN_DETECTORS settings) now (Ok [])
    (msg_id, publish_fields e) (st, r) = ((set_actions (insert j act) st1, r'), Ok tt).
Proof.
  intros Hi Hh Ht He Htag. destruct (attack_detected r Htag) as (r2&Hdets).
  assert (Hload : forall t : R, _load_event_payload (e_id e) (st, t)
    = ((st, t), Ok (Some (e_raw e, coerce_meta (e_metadata e))))).
  { intros t. unfold _load_event_payload, on_fst. cbn [fst snd transaction mem_database].
    unfold run_transaction. rewrite He. done. }
  unfold handle_message, try_M, swallow, mbind at 1, M_bind at 1. cbn [fst snd].
  unfold _process_one, _process_sigma_one. rewrite (publish_parse_roundtrip e Hi Hh Ht).
  unfold mbind, M_bind, lift_res. cbn [ev_event_id]. rewrite Hload.
  change (with_payload _ _ _) with p. rewrite Hdets. unfold on_snd. cbn [fst snd].
  destruct (xack msg_id r2) as [r3 [[]|err]].
  - unfold _load_event_payload, on_fst. cbn [fst snd transaction mem_database]. unfold run_transaction.
    cbn [db_events set_actions set_alerts]. rewrite He. by eexists.
  - unfold try_M. cbn [fst snd]. destruct (xack msg_id r3) as [r4 [[]|err']]; by eexists.
Qed.

End Attack.
End Detection.

(** *** The tick *)

Section Tick.
Context {C : Type} (allow : bool) (mode : string).

(** What a delivered row leaves in the log of the network. *)
Lemma dispatch_row_logged now row host c secret kind (d : db) log (conns : gmap string C) :
  row.2 = Some host -> h_auto_block host = true -> conns !! h_id host = Some c ->
  may_send allow mode row.1 host secret kind ->
  exists d', dispatch_row reliable allow mode now row (d, (log, conns))
    = ((d', (log ++ [(c, dumps (command_frame secret now row.1))], conns)), Ok tt).
Proof.
  destruct row as [a oh]. cbn [fst snd]. intros -> Hb Hc Hm. cbn [dispatch_row]. rewrite Hb. cbn [negb].
  unfold mbind, M_bind, get_conn, reg_get, lift_res. cbn [fst snd]. rewrite Hc.
  assert (Hf : _build_command_frame allow mode now a host = Ok (Some (command_frame secret now a)))
    by (apply build_frame_iff; eauto). rewrite Hf.
  unfold try_M, on_snd, on_fst, reliable, send_log, mret, M_ret. cbn [fst snd].
  rewrite mark_dispatched_mem. destruct (db_actions d !! ac_id a) as [b|]; [|by eexists].
  destruct (String.eqb _ _); by eexists.
Qed.

Lemma dispatch_rows_logged now row host c secret kind rows : forall (d : db) log (conns : gmap string C),
  In row rows -> row.2 = Some host -> h_auto_block host = true -> conns !! h_id host = Some c ->
  may_send allow mode row.1 host secret kind ->
  In (c, dumps (command_frame secret now row.1))
     (dispatch_rows reliable allow mode now rows (d, (log, conns))).1.2.1.
Proof.
  induction rows as [|row' rows IH]; intros d log conns Hin Hh Hb Hc Hm; [done|].
  cbn [dispatch_rows]. unfold mbind, M_bind. destruct Hin as [->|Hin].
  - destruct (dispatch_row_logged now row host c secret kind d log conns Hh Hb Hc Hm) as (d'&->).
    destruct (dispatch_rows_sends (fun _ _ => true) allow mode now conns rows d'
      (log ++ [(c, dumps (command_frame secret now row.1))]) conns) as (sent&rows'&E&_); [done|].
    unfold reliable. rewrite E. apply in_app_iff. left. apply in_app_iff. right. by left.
  - destruct (dispatch_row_adv reliable allow mode (fun _ _ _ => eq_refl) now row' d log conns)
      as (d'&log'&->&_). by apply IH.
Qed.

Definition pending_list (d : db) : list Action :=
  filter (fun a => ac_status a = "pending") (map snd (map_to_list (db_actions d))).

(** With few pending rows a tick sees them all. *)
Lemma few_pending (d : db) id a :
  db_actions d !! id = Some a -> ac_status a = "pending" -> (length (pending_list d) <= TICK_LIMIT)%nat ->
  In (a, h ← ac_host_id a; db_hosts d !! h) (pending_rows d).
Proof.
  intros Ha Hs Hlen. unfold pending_rows. fold (pending_list d). apply in_map_iff. exists a. split; [done|].
  rewrite take_ge by (by rewrite merge_sort_Permutation). apply list_elem_of_In.
  rewrite merge_sort_Permutation. apply list_elem_of_filter. split; [done|].
  apply list_elem_of_In, in_map_iff. exists (id, a). split; [done|].
  by apply list_elem_of_In, elem_of_map_to_list.
Qed.

Lemma pending_insert (d : db) id a :
  db_actions d !! id = None ->
  (length (pending_list (set_actions (insert id a) d)) <= S (length (pending_list d)))%nat.
Proof.
  intros Hn. unfold pending_list. cbn [db_actions set_actions].
  assert (Hp : map snd (map_to_list (<[id := a]> (db_actions d)))
    ≡ₚ a :: map snd (map_to_list (db_actions d))).
  { rewrite map_to_list_insert by done. done. }
  rewrite Hp, filter_cons. case_decide; cbn; lia.
Qed.

(** The row is sent and becomes dispatched. *)
Lemma tick_sends_row now id a host c secret kind (d : db) log (conns : gmap string C) :
  keyed d -> db_actions d !! id = Some a -> ac_status a = "pending" ->
  (length (pending_list d) <= TICK_LIMIT)%nat ->
  ac_host_id a = Some (h_id host) -> db_hosts d !! h_id host = Some host ->
  h_auto_block host = true -> conns !! h_id host = Some c -> may_send allow mode a host secret kind ->
  exists d' log', _tick reliable allow mode now (d, (log, conns)) = ((d', (log', conns)), Ok tt)
  /\ db_actions d' !! id = Some (as_dispatched now a)
  /\ In (c, dumps (command_frame secret now a)) log'.
Proof.
  intros Hk Ha Hs Hlen Hh Hhost Hb Hc Hm. pose proof (few_pending d id a Ha Hs Hlen) as Hin.
  rewrite Hh in Hin. cbn in Hin. rewrite Hhost in Hin. unfold _tick, mbind, M_bind, on_fst.
  cbn [fst snd transaction mem_database]. unfold run_transaction. cbn [fst snd].
  destruct (dispatch_rows_adv reliable allow mode (fun _ _ _ => eq_refl) now (pending_rows d) d log conns)
    as (d'&log'&E&Hrows).
  pose proof (dispatch_rows_logged now _ host c secret kind (pending_rows d) d log conns
    Hin eq_refl Hb Hc Hm) as Hlog.
  exists d', log'. split; [exact E|]. rewrite E in Hlog. split; [|exact Hlog].
  destruct (Hrows id a Ha) as (a'&Ha'&_&Heq). rewrite Ha'. f_equal.
  apply (Heq _ Hin); [|apply (Hk id a Ha)|done].
  by exists host, c, secret, kind.
Qed.

End Tick.

Lemma block_action_fits i j now host_id ip al (st : db) :
  db_actions st !! j = None -> present (db_hosts st) host_id = true -> text_ok ip = true -> slen ip <= 512 ->
  action_ok (set_alerts (insert i al) st)
    (result_action j i now host_id (mkDAction "block_ip" ip (Some 3600))) = true.
Proof.
  intros Hj Hh Hip Hlen. unfold action_ok, varchar.
  cbn [ac_id ac_host_id ac_alert_id ac_kind ac_target ac_status ac_ttl_sec result_action da_kind da_target
       da_ttl_sec opt_all db_actions db_hosts db_alerts set_alerts].
  rewrite (proj2 (present_false _ _)) by done. rewrite Hh, Hip, (proj2 (Z.leb_le (slen ip) 512) Hlen).
  rewrite (proj2 (present_true _ _)) by (exists al; apply lookup_insert_eq). done.
Qed.

(** ** Properties *)


(** ** A concrete run *)

Definition attacked_host : Host := mkHost (uuid_text 9) 0 0 None None (Some "s3cret") true [].

Definition attack_row : Event :=
  mkEventRow (uuid_text 7) (uuid_text 9) "v1" 100 0 "nginx" "GET /?q=<script HTTP/1.1"
    [("source", VStr "nginx"); ("source_ip", VStr "8.8.8.8")].

Definition attacked : db :=
  set_events (insert (uuid_text 7) attack_row) (set_hosts (insert (uuid_text 9) attacked_host) empty_db).

Definition nine : gmap string string := {[uuid_text 9 := "c9"]}.

