(* ===== verification/System.v ===== *)
(** * The server as a whole

    The loops that share the database, the Redis server and the network, stepped
    in any order: connections of agents ([ws_agent]), the processes that read
    the event stream ([run], [run_consumer]), the dispatcher ([_tick]) and the
    HTTP routes.  The routes appear as transactions that leave the actions
    alone and keep what is stored; no route of the program writes an action.

    The history of a run is a list of steps, each with the state it was taken
    in.  The theorem follows a command from the frame on the wire back to the
    event that caused it. *)

From S2P Require Import Ingest Provision ReadApi.
From S2P Require Import Prelude PyStr PyVal PyStd Json Sigma Redis SigmaRunner Detectors Db Pipeline.
From S2P Require Import Dispatcher Ws Streams Response.

Abbreviation entries_of t := (x_entries (Streams.stream_of t)).

(** A network that records the texts; [ok] says which closing handshakes raise. *)
Definition close_log {C} (ok : C -> Z -> bool) (c : C) (code : Z) : M (list (C * string)) unit :=
  fun log => (log, if ok c code then Ok tt else Raise ConnectionError).

Section System.
Context {D T C : Type} `{DatabaseLaws D} `{StreamFrame T} `{!StreamLaws T}.
Context `{Countable C}.
Context (maxlen : Z) (uuid4 : M D string) (re_search : string -> string -> res bool).
Context (detectors : list (Z -> ParsedEvent -> M T (list DetectionResult))).
Context (clock : string -> Z) (rules : string -> res (list CompiledSigmaRule)).
Context (loads : string -> res val).
Context (hello_validate : list (string * val) -> res HelloFrame).
Context (event_validate : list (string * val) -> res EventInner).
Context (ack_validate : list (string * val) -> res CommandAckFrame).
Context (settings : WsSettings) (allow : bool) (mode : string).

(** ** The state *)

Record sys : Type := mkSys {
  y_db : D;
  y_redis : T;
  y_net : list (C * string);
  y_reg : registry C;
  y_sessions : gmap C (option string * phase);
  y_workers : list (worker * status);
  y_given : list (worker * (string * fieldmap))
}.

Inductive act : Type :=
| Connect (c : C) (nonce : string) (ok : C -> string -> bool) (closes : C -> Z -> bool)
| Receive (c : C) (mono now : Z) (input : res string)
    (ok : C -> string -> bool) (closes : C -> Z -> bool)
| Work (x : step)
| Tick (now : Z) (ok : C -> string -> bool)
| Route (t : M db unit).

Definition shared (s : sys) : (D * T) * (list (C * string) * registry C) :=
  ((y_db s, y_redis s), (y_net s, y_reg s)).

(** A connection hands the world back with its own [agent_id] and phase. *)
Definition hand_back (c : C) (s : sys)
    (out : (option string * ((D * T) * (list (C * string) * registry C))) * phase) : sys :=
  let '((agent, ((d, t), (n, g))), ph) := out in
  mkSys d t n g (<[c := (agent, ph)]> (y_sessions s)) (y_workers s) (y_given s).

Definition publish (e : Event) : M T unit := _ ← publish_event (xadd maxlen) e; mret tt.

Definition perform (a : act) (s : sys) : sys :=
  match a with
  | Connect c nonce ok closes =>
      hand_back c s (connect (D := D) (R := T) (send_log ok) (close_log closes) c nonce (shared s))
  | Receive c mono now input ok closes =>
      match y_sessions s !! c with
      | None => s
      | Some (agent, ph) =>
          hand_back c s (on_text (send_log ok) (close_log closes) loads hello_validate event_validate
            ack_validate publish settings c mono now ph input (agent, shared s))
      end
  | Work x =>
      let '((given, (d, t)), ws) := do_step maxlen uuid4 re_search detectors clock rules x
          (y_workers s) (y_given s, (y_db s, y_redis s)) in
      mkSys d t (y_net s) (y_reg s) (y_sessions s)
        (match ws with Ok l => l | Raise _ => y_workers s end) given
  | Tick now ok =>
      let '((d, (n, g)), _) := _tick (send_log ok) allow mode now (y_db s, (y_net s, y_reg s)) in
      mkSys d (y_redis s) n g (y_sessions s) (y_workers s) (y_given s)
  | Route t =>
      mkSys (transaction t (y_db s)).1 (y_redis s) (y_net s) (y_reg s) (y_sessions s) (y_workers s)
        (y_given s)
  end.

(** ** What the rows have to satisfy *)

Definition well_formed (e : Event) : Prop :=
  is_uuid (e_id e) /\ is_uuid (e_host_id e) /\ fromtimestamp (e_occurred_at e) = Ok (e_occurred_at e).

Definition hosts_ok (st : db) : Prop := forall id h, db_hosts st !! id = Some h -> h_id h = id.
Definition events_ok (st : db) : Prop :=
  forall id e, db_events st !! id = Some e -> e_id e = id /\ well_formed e.

(** Events stay as they are; of an alert the host, the detector and the severity
    do. *)
Definition extends (st st' : db) : Prop :=
  db_events st ⊆ db_events st'
  /\ forall i al, db_alerts st !! i = Some al -> exists al', db_alerts st' !! i = Some al'
       /\ al_host_id al' = al_host_id al /\ al_detector al' = al_detector al
       /\ al_severity al' = al_severity al.

(** A transaction of the HTTP routes. *)
Definition route_ok (t : M db unit) : Prop :=
  forall st st', t st = (st', Ok tt) ->
    db_actions st' = db_actions st /\ extends st st'
    /\ (hosts_ok st -> hosts_ok st') /\ (events_ok st -> events_ok st').

(** When a step may be taken: a connection is new, what is published is stored. *)
Definition enabled (a : act) (s : sys) : Prop :=
  match a with
  | Connect c _ _ _ => y_sessions s !! c = None
  | Work (Publish e) => db_events (tables (y_db s)) !! e_id e = Some e
  | Route t => route_ok t
  | _ => True
  end.

(** [history s0 tr s]: the steps of [tr], newest first, lead from [s0] to [s]. *)
Inductive history (s0 : sys) : list (sys * act) -> sys -> Prop :=
| history_nil : history s0 [] s0
| history_cons tr s a : history s0 tr s -> enabled a s -> history s0 ((s, a) :: tr) (perform a s).

(** The server starts: rows of hosts and events, nothing ordered or streamed yet. *)
Definition initial (s : sys) : Prop :=
  hosts_ok (tables (y_db s)) /\ events_ok (tables (y_db s)) /\ db_actions (tables (y_db s)) = ∅
  /\ entries_of (y_redis s) = [] /\ y_reg s = ∅ /\ y_sessions s = ∅.

(** ** Causes *)

(** What a detector or a rule asks for on an event: the detector, the severity
    and the action. *)
Inductive demand (e : Event) : string -> string -> option (string * string * option Z) -> Prop :=
| demand_detector det now t rs r :
    In det detectors -> (det now (shown_event e) t).2 = Ok rs -> In r rs ->
    demand e (dr_detector r) (dr_severity r)
      (a ← dr_action r; Some (da_kind a, da_target a, da_ttl_sec a))
| demand_rule id now t rs fires f act :
    rules id = Ok rs -> (evaluate re_search now rs (shown_event e) t).2 = Ok fires -> In f fires ->
    match fire_rendered_action f with
    | Some a => exists k ttl, text_param (ra_kind a) = Ok k /\ int_param (ra_ttl_sec a) = Ok ttl
                  /\ act = Some (k, ra_target a, ttl)
    | None => act = None
    end ->
    demand e (rule_id (fire_rule f)) (rule_level (fire_rule f)) act.

(** The alert of the action was raised on a stored event of the same host, and
    the action is what was asked for then. *)
Definition traced (st : db) (a : Action) : Prop :=
  exists i al e, ac_alert_id a = Some i /\ db_alerts st !! i = Some al
  /\ db_events st !! e_id e = Some e
  /\ al_host_id al = Some (e_host_id e) /\ ac_host_id a = Some (e_host_id e)
  /\ demand e (al_detector al) (al_severity al) (Some (ac_kind a, ac_target a, ac_ttl_sec a)).

Definition actions_ok (st : db) : Prop :=
  forall id a, db_actions st !! id = Some a -> ac_id a = id /\ traced st a.

Definition announced (ev : gmap string Event) (f : fieldmap) : Prop :=
  exists e, ev !! e_id e = Some e /\ well_formed e /\ f = publish_fields e.

(** The invariant of the database and the stream; [ev] are events known to be
    stored, [xs] the entries of the stream. *)
Record rows_ok (ev : gmap string Event) (xs : list (Z * fieldmap)) (st : db) : Prop := {
  r_hosts : hosts_ok st;
  r_events : events_ok st;
  r_actions : actions_ok st;
  r_known : ev ⊆ db_events st;
  r_stream : Forall (fun p => announced (db_events st) p.2) xs
}.

Definition sound (ev : gmap string Event) (w : D * T) : Prop :=
  rows_ok ev (entries_of w.2) (tables w.1).

(** The HELLO that opened a session: read on [c] in answer to the nonce [c] was
    sent, it carried the signature under the secret its host then had. *)
Definition proved_by (tr : list (sys * act)) (c : C) (host_id : string) : Prop :=
  exists s0 s1 nonce mono now raw ok closes ok' closes' hello h,
    In (s0, Connect c nonce ok closes) tr /\ In (s1, Receive c mono now (Ok raw) ok' closes') tr
    /\ genuine loads hello_validate nonce raw (tables (y_db s1)) hello h
    /\ h_id h = host_id.

Definition live (s : sys) (c : C) (host_id : string) : Prop :=
  exists start count, y_sessions s !! c = Some (Some host_id, Drain start count).

Record sessions_ok (tr : list (sys * act)) (s : sys) : Prop := {
  s_reg : forall h c, y_reg s !! h = Some c -> live s c h;
  s_live : forall h c, live s c h -> proved_by tr c h;
  s_await : forall c ag nonce, y_sessions s !! c = Some (ag, AwaitHello nonce) ->
    ag = None /\ exists s0 ok closes, In (s0, Connect c nonce ok closes) tr;
  s_drain : forall c ag start count, y_sessions s !! c = Some (ag, Drain start count) -> ag <> None
}.

(** Everything a command stands for. *)
Definition commanded (tr : list (sys * act)) (s : sys) (now : Z) (row : Action * option Host)
    (m : C * string) : Prop :=
  let st := tables (y_db s) in
  exists host secret kind i al e,
    db_actions st !! ac_id row.1 = Some row.1 /\ ac_status row.1 = "pending"
    /\ ac_host_id row.1 = Some (h_id host) /\ db_hosts st !! h_id host = Some host
    /\ h_auto_block host = true /\ may_send allow mode row.1 host secret kind
    /\ m.2 = dumps (command_frame secret now row.1)
    /\ live s m.1 (h_id host) /\ proved_by tr m.1 (h_id host)
    /\ ac_alert_id row.1 = Some i /\ db_alerts st !! i = Some al
    /\ db_events st !! e_id e = Some e /\ e_host_id e = h_id host
    /\ demand e (al_detector al) (al_severity al)
         (Some (ac_kind row.1, ac_target row.1, ac_ttl_sec row.1)).

(** ** Lemmas *)

Hypothesis uuid4_pure : forall d, tables (uuid4 d).1 = tables d.
Hypothesis detectors_frame : Forall (fun d => forall now event, frame (d now event)) detectors.
Hypothesis validated : forall p i, event_validate p = Ok i ->
  is_uuid (in_id i) /\ is_uuid (in_host_id i) /\ fromtimestamp (in_timestamp i) = Ok (in_timestamp i).

Lemma extends_refl st : extends st st.
Proof. split; [done|]. intros i al Hal. by exists al. Qed.

Lemma traced_extends st st' a : extends st st' -> traced st a -> traced st' a.
Proof.
  intros [He Ha] (i&al&e&Hi&Hal&Hev&Hh&Hh'&Hd). destruct (Ha i al Hal) as (al'&Hal'&E1&E2&E3).
  exists i, al', e. rewrite E1, E2, E3. repeat split; try done. by eapply lookup_weaken.
Qed.

Lemma announced_mono ev ev' f : ev ⊆ ev' -> announced ev f -> announced ev' f.
Proof. intros Hsub (e&He&?). exists e. split; [by eapply lookup_weaken|done]. Qed.

(** Statements that only add to what is stored. *)
Lemma rows_extends ev xs st st' :
  rows_ok ev xs st -> extends st st' -> hosts_ok st' -> events_ok st' ->
  (forall id a, db_actions st' !! id = Some a -> ac_id a = id /\ traced st' a) -> rows_ok ev xs st'.
Proof.
  intros [Hh He Ha Hk Hs] Hx Hh' He' Ha'. split; [done..| |].
  - etrans; [exact Hk|]. apply Hx.
  - eapply Forall_impl; [exact Hs|]. intros p. apply announced_mono, Hx.
Qed.

(** ... and leave the actions alone. *)
Lemma rows_same_actions ev xs st st' :
  rows_ok ev xs st -> extends st st' -> hosts_ok st' -> events_ok st' ->
  db_actions st' = db_actions st -> rows_ok ev xs st'.
Proof.
  intros Hr Hx Hh He Ea. eapply rows_extends; try eassumption. rewrite Ea. intros id a Ha.
  destruct (r_actions _ _ _ Hr id a Ha) as [Hid Ht]. split; [done|]. by eapply traced_extends.
Qed.

(** An action of its own alert, or one that keeps its order. *)
Lemma rows_set_action ev xs st a :
  rows_ok ev xs st -> traced st a -> rows_ok ev xs (set_actions (insert (ac_id a) a) st).
Proof.
  intros [Hh He Ha Hk Hs] Ht. split; [done..| |done|done].
  intros id b. cbn [db_actions set_actions]. rewrite lookup_insert. case_decide as Hid.
  - intros [= <-]. by split.
  - apply Ha.
Qed.

Lemma update_action_rows ev xs st st' n id status f :
  (forall a, ac_id (f a) = ac_id a /\ order_of (f a) = order_of a) ->
  rows_ok ev xs st -> update_action id status f st = (st', Ok n) -> rows_ok ev xs st'.
Proof.
  intros Hf Hr. unfold update_action. destruct (db_actions st !! id) as [a|] eqn:Ea; [|by intros [= <- _]].
  destruct (String.eqb _ _); [|by intros [= <- _]]. intros [= <- _].
  destruct (r_actions _ _ _ Hr id a Ea) as [<- (i&al&e&Ht)]. destruct (Hf a) as [<- Ho].
  apply rows_set_action; [done|]. exists i, al, e. unfold order_of in Ho.
  injection Ho as -> -> -> -> -> _. exact Ht.
Qed.

(** *** Transactions *)

Abbreviation Rows ev xs := (fun d : D => rows_ok ev xs (tables d)).

Lemma hoare_transaction {A} (P : db -> Prop) (t : M db A) (Q : A -> db -> Prop) (E : db -> Prop) :
  (forall st, P st -> E st) -> (forall st st' a, P st -> t st = (st', Ok a) -> Q a st' /\ E st') ->
  hoare (fun d : D => P (tables d)) (transaction t) (fun a d => Q a (tables d)) (fun d => E (tables d)).
Proof.
  intros HE Ht d Hd. pose proof (transaction_cases t d) as L.
  destruct (transaction t d) as [d' x]. cbn [fst snd] in L. destruct L as [[Hsame [e ->]]|(a&Ea&Hx)].
  - rewrite Hsame. by apply HE.
  - destruct (Ht _ _ _ Hd Ea). by destruct Hx as [->| ->].
Qed.

Lemma rows_transaction {A} ev xs (t : M db A) :
  (forall st st' a, rows_ok ev xs st -> t st = (st', Ok a) -> rows_ok ev xs st') ->
  hoare (Rows ev xs) (transaction t) (fun _ => Rows ev xs) (Rows ev xs).
Proof. intros Ht. apply (hoare_transaction (rows_ok ev xs) t (fun _ => rows_ok ev xs)); [done|]. eauto. Qed.

Lemma uuid4_rows (P E : db -> Prop) : (forall st, P st -> E st) ->
  hoare (fun d : D => P (tables d)) uuid4 (fun _ d => P (tables d)) (fun d => E (tables d)).
Proof.
  intros HE d Hd. rewrite <- uuid4_pure in Hd. destruct (uuid4 d) as [d' [i|e]]; [done|by apply HE].
Qed.

(** *** The result of a detector *)

Definition alert_at (i : string) (e : Event) (det sev : string) (st : db) : Prop :=
  exists al, db_alerts st !! i = Some al /\ al_host_id al = Some (e_host_id e)
  /\ al_detector al = det /\ al_severity al = sev.

Lemma insert_alert_rows ev xs st st' al e :
  rows_ok ev xs st -> al_host_id al = Some (e_host_id e) -> insert_alert al st = (st', Ok tt) ->
  rows_ok ev xs st' /\ alert_at (al_id al) e (al_detector al) (al_severity al) st'.
Proof.
  intros Hr Hh Ei. apply insert_alert_cases in Ei as [[? _]|(_&->&Hn)]; [done|]. split.
  - apply (rows_same_actions ev xs st); [done| |apply Hr|apply Hr|done]. split; [done|].
    intros i b Hb. exists b. cbn. split; [|done]. rewrite lookup_insert_ne; [done|congruence].
  - exists al. cbn. by rewrite lookup_insert_eq.
Qed.

Lemma insert_action_rows ev xs st st' a e det sev i :
  rows_ok ev xs st -> ev !! e_id e = Some e -> alert_at i e det sev st -> ac_alert_id a = Some i ->
  ac_host_id a = Some (e_host_id e) -> demand e det sev (Some (ac_kind a, ac_target a, ac_ttl_sec a)) ->
  insert_action a st = (st', Ok tt) -> rows_ok ev xs st'.
Proof.
  intros Hr He (al&Hal&Hh&<-&<-) Hi Hha Hd Ei.
  apply insert_action_cases in Ei as [[? _]|(_&->&_)]; [done|].
  apply rows_set_action; [done|]. exists i, al, e. repeat split; try done.
  eapply lookup_weaken; [exact He|]. apply Hr.
Qed.

Lemma handle_result_sound ev e r now :
  ev !! e_id e = Some e ->
  demand e (dr_detector r) (dr_severity r) (a ← dr_action r; Some (da_kind a, da_target a, da_ttl_sec a)) ->
  keeps_inv (sound ev) (handle_result uuid4 now (e_host_id e) r).
Proof.
  intros He Hd. apply hoare_inv. unfold handle_result.
  apply (hoare_bind _ _ (fun o w => sound ev w /\ forall i, o = Some i ->
    alert_at i e (dr_detector r) (dr_severity r) (tables w.1))).
  - apply (hoare_try _ _ _ _ _ (sound ev)).
    2:{ intros x w Hw. by split. }
    apply (hoare_bind _ _ (fun i w => sound ev w
      /\ alert_at i e (dr_detector r) (dr_severity r) (tables w.1))).
    2:{ intros i w [Hw Hal]. split; [done|]. by intros ? [= <-]. }
    apply hoare_on_fst. intros t. unfold sound. cbn [fst snd].
    eapply hoare_bind; [by apply (uuid4_rows (rows_ok ev (entries_of t)) (rows_ok ev (entries_of t)))|].
    intros i. unfold write_alert.
    apply (hoare_bind _ _ (fun _ d => rows_ok ev (entries_of t) (tables d)
      /\ alert_at i e (dr_detector r) (dr_severity r) (tables d))); [|by intros u d].
    apply (hoare_transaction (rows_ok ev (entries_of t)) _ (fun _ st => rows_ok ev (entries_of t) st
      /\ alert_at i e (dr_detector r) (dr_severity r) st)); [done|].
    intros st st' [] Hr Ei. eapply (insert_alert_rows ev _ _ _ _ e) in Ei as [Hr' Hal];
      [|exact Hr|done]. done.
  - intros [i|]; [|intros w [Hw _]; by destruct (dr_action r)].
    destruct (dr_action r) as [a|]; [|by intros w [Hw _]]. cbn in Hd.
    apply (hoare_try _ _ _ _ _ (sound ev)); [|by intros x w].
    eapply hoare_bind; [|intros u; apply (hoare_ret tt (fun _ => sound ev))].
    apply (hoare_on_fst _ _ (fun _ => sound ev)). intros t. unfold sound. cbn [fst snd].
    eapply hoare_bind.
    + apply (uuid4_rows (fun st => rows_ok ev (entries_of t) st /\ forall j, Some i = Some j ->
        alert_at j e (dr_detector r) (dr_severity r) st) (rows_ok ev (entries_of t))). by intros st [? _].
    + intros j. unfold write_action.
      apply (hoare_bind _ _ (fun _ d => rows_ok ev (entries_of t) (tables d))); [|by intros u d].
      apply (hoare_transaction (fun st => rows_ok ev (entries_of t) st /\ forall j, Some i = Some j ->
        alert_at j e (dr_detector r) (dr_severity r) st) _ (fun _ => rows_ok ev (entries_of t)));
        [by intros st [? _]|].
      intros st st' [] [Hr Hal] Ei. split; eapply insert_action_rows; eauto; done.
Qed.

(** *** A message *)

Lemma keeps_each {S R A} (I : S * R -> Prop) (f : A -> M (S * R) unit) l :
  (forall x, In x l -> keeps_inv I (f x)) -> keeps_inv I (for_each f l).
Proof.
  induction l as [|x l IH]; intros Hf; cbn [for_each]; [apply inv_ret|].
  apply inv_bind; [apply Hf; by left|]. intros _. apply IH. intros y Hy. apply Hf. by right.
Qed.

Lemma sound_on_snd {A} ev (m : M T A) :
  (forall t, entries_of (m t).1 = entries_of t) -> keeps_inv (sound ev) (on_snd m).
Proof.
  intros Hm [d t] Hw. unfold on_snd, sound in *. cbn [fst snd] in *. specialize (Hm t).
  destruct (m t) as [t1 a]. cbn in *. by rewrite Hm.
Qed.

Lemma sound_frame {A} ev (m : M T A) : frame m -> keeps_inv (sound ev) (on_snd m).
Proof. intros Hm. apply sound_on_snd. intros t. by rewrite Hm. Qed.

Lemma xack_entries id t : entries_of (xack id t).1 = entries_of t.
Proof.
  exact (st_entries _ _ (does_steady (fun st => (spec_xack id st, Ok tt)) _ t
           (xack_steady id) (xack_lost id))).
Qed.

Lemma payload_sound ev e : ev !! e_id e = Some e ->
  hoare (sound ev) (_load_event_payload (e_id e))
    (fun o w => sound ev w /\ o = Some (e_raw e, coerce_meta (e_metadata e))) (sound ev).
Proof.
  intros He. unfold _load_event_payload. apply hoare_on_fst. intros t. unfold sound. cbn [fst snd].
  apply (hoare_transaction (rows_ok ev (entries_of t)) _ (fun o st => rows_ok ev (entries_of t) st
    /\ o = Some (e_raw e, coerce_meta (e_metadata e))) (rows_ok ev (entries_of t))); [done|].
  intros st st' o Hr [= <- <-]. pose proof (lookup_weaken _ _ _ _ He (r_known _ _ _ Hr)) as ->. done.
Qed.

Lemma run_detector_sound ev e now det :
  ev !! e_id e = Some e -> In det detectors ->
  keeps_inv (sound ev) (run_detector uuid4 now (shown_event e) det).
Proof.
  intros He Hdet. apply hoare_inv. unfold run_detector.
  apply (hoare_bind _ _ (fun rs w => sound ev w /\ forall r, In r rs ->
    demand e (dr_detector r) (dr_severity r)
      (a ← dr_action r; Some (da_kind a, da_target a, da_ttl_sec a)))).
  - apply (hoare_try _ _ _ _ _ (sound ev)); [|by intros x w].
    apply hoare_result.
    + apply sound_frame. eapply Forall_forall in detectors_frame; [|by apply list_elem_of_In]. done.
    + intros [d t] w' rs _. unfold on_snd. cbn [fst snd]. intros Hrs r Hr.
      apply (demand_detector e det now t rs r Hdet); [|done].
      destruct (det now (shown_event e) t) as [t' x]. by injection Hrs as _ ->.
  - intros rs. apply hoare_pure. intros Hrs. apply hoare_inv, keeps_each.
    intros r Hr. apply handle_result_sound; auto.
Qed.

Lemma persist_fire_rows ev xs e f i j now st st' :
  rows_ok ev xs st -> ev !! e_id e = Some e -> fire_event f = shown_event e ->
  (forall act, match fire_rendered_action f with
    | Some a => exists k ttl, text_param (ra_kind a) = Ok k /\ int_param (ra_ttl_sec a) = Ok ttl
                  /\ act = Some (k, ra_target a, ttl)
    | None => act = None
    end -> demand e (rule_id (fire_rule f)) (rule_level (fire_rule f)) act) ->
  persist_fire "live" i j now f st = (st', Ok tt) -> rows_ok ev xs st'.
Proof.
  intros Hr He Hf Hd. unfold persist_fire. cbn [String.eqb]. intros Ep.
  apply M_bind_ok in Ep as (st1&[]&Ei&Ep).
  eapply (insert_alert_rows ev xs _ _ _ e) in Ei as [Hr1 Hal]; [|done|by cbn; rewrite Hf].
  destruct (fire_rendered_action f) as [ra|]; [|by injection Ep as ->].
  apply M_bind_ok in Ep as (st2&act&Ea&Ei). unfold lift_res in Ea. injection Ea as <- Ea.
  unfold fire_action in Ea. inv_res. revert Ei.
  apply (insert_action_rows ev xs st1 st' _ e _ _ i Hr1 He Hal); [done|by cbn; rewrite Hf|].
  cbn. apply Hd. eauto.
Qed.

Lemma fires_event now rs event : forall r r' fs f,
  evaluate (R := T) re_search now rs event r = (r', Ok fs) -> In f fs -> fire_event f = event.
Proof.
  induction rs as [|rule rs IH]; intros r r' fs f Heq Hin; cbn [evaluate] in Heq.
  - by injection Heq as _ <-.
  - apply M_bind_ok in Heq as (r1&o&Ho&Heq). apply M_bind_ok in Heq as (r2&fs'&Hfs&Heq).
    injection Heq as _ <-. destruct o as [g|]; [|by eapply IH].
    destruct Hin as [<-|Hin]; [|by eapply IH]. clear Hfs IH. unfold eval_rule in Ho.
    apply M_bind_ok in Ho as (r3&m&_&Ho). destruct m; [|discriminate Ho]. unfold eval_matched in Ho.
    apply M_bind_ok in Ho as (r4&c&_&Ho). destruct c; [discriminate Ho|].
    apply M_bind_ok in Ho as (r5&n&_&Ho). apply M_bind_ok in Ho as (r6&u&_&Ho).
    destruct (_ <? _); [discriminate Ho|]. apply M_bind_ok in Ho as (r7&v&_&Ho).
    apply M_bind_ok in Ho as (r8&a&_&Ho). by injection Ho as _ <-.
Qed.

Lemma sigma_sound ev e now id :
  ev !! e_id e = Some e -> well_formed e ->
  keeps_inv (sound ev) (_process_sigma_one uuid4 re_search now (rules id) (publish_fields e)).
Proof.
  intros He (Hi&Hh&Ht). apply hoare_inv. unfold _process_sigma_one.
  rewrite (publish_parse_roundtrip e Hi Hh Ht).
  eapply hoare_bind; [apply hoare_lift|]. intros o. apply hoare_pure. intros [= <-]. cbn [ev_event_id].
  eapply hoare_bind; [by apply payload_sound|]. intros o. apply hoare_pure. intros ->.
  eapply hoare_bind; [apply hoare_lift|]. intros rs. apply hoare_pure. intros Hrs.
  destruct rs as [|rule rs']; [by intros w|]. set (rs := rule :: rs') in *.
  change (with_payload _ _ _) with (shown_event e).
  apply (hoare_bind _ _ (fun fs w => sound ev w /\ exists t t',
    evaluate re_search now rs (shown_event e) t = (t', Ok fs))).
  - apply hoare_result; [apply sound_frame, frame_evaluate|].
    intros [d t] w' fs _. unfold on_snd. cbn [fst snd]. intros Hfs. exists t.
    destruct (evaluate _ _ _ _ t) as [t' x]. injection Hfs as _ ->. eauto.
  - intros fs. apply hoare_pure. intros (t&t'&Hfs). apply hoare_inv, keeps_each. intros f Hin.
    pose proof (fires_event _ _ _ _ _ _ _ Hfs Hin) as Hf.
    apply inv_swallow, hoare_inv, (hoare_on_fst _ _ (fun _ => sound ev)). intros x. unfold sound.
    cbn [fst snd].
    eapply hoare_bind; [by apply (uuid4_rows (rows_ok ev (entries_of x)) (rows_ok ev (entries_of x)))|].
    intros i.
    eapply hoare_bind; [by apply (uuid4_rows (rows_ok ev (entries_of x)) (rows_ok ev (entries_of x)))|].
    intros j. apply rows_transaction. intros st st' [] Hr. apply (persist_fire_rows ev _ e); [done..|].
    intros act Hact. apply (demand_rule e id now t rs fs f act Hrs); [by rewrite Hfs|done|done].
Qed.

Lemma message_sound ev e now msg :
  ev !! e_id e = Some e -> well_formed e -> msg.2 = publish_fields e ->
  keeps_inv (sound ev) (handle_message uuid4 xack re_search detectors now (rules msg.1) msg).
Proof.
  intros He Hwf Hm. unfold handle_message. rewrite Hm.
  pose proof (sound_on_snd ev (xack msg.1) (xack_entries msg.1)) as Hack.
  apply inv_try; [|intros x; by apply inv_swallow].
  apply inv_bind; [|intros _; by apply sigma_sound]. apply hoare_inv. unfold _process_one.
  destruct Hwf as (Hi&Hh&Ht). rewrite (publish_parse_roundtrip e Hi Hh Ht).
  eapply hoare_bind; [apply hoare_lift|]. intros o. apply hoare_pure. intros [= <-]. cbn [ev_event_id].
  eapply hoare_bind; [by apply payload_sound|]. intros o. apply hoare_pure. intros ->.
  apply hoare_inv, inv_bind; [|intros _; exact Hack].
  apply keeps_each. intros det Hdet. by apply run_detector_sound.
Qed.

(** *** The steps *)

Lemma sound_mono ev ev' w : ev ⊆ ev' -> sound ev' w -> sound ev w.
Proof. intros Hsub [Hh He Ha Hk Hs]. split; [done..| |done]. by etrans. Qed.

Lemma sound_now ev w : sound ev w -> sound (db_events (tables w.1)) w.
Proof. intros [Hh He Ha Hk Hs]. by split. Qed.

Lemma publish_sound ev e :
  hoare (fun w => sound ev w /\ db_events (tables w.1) !! e_id e = Some e) (on_snd (publish e))
    (fun _ => sound ev) (sound ev).
Proof.
  apply (hoare_on_snd _ _ (fun _ => sound ev)). intros d t [Hw He].
  assert (Ht : sound ev (d, (publish e t).1)).
  { unfold publish, publish_event, mbind, M_bind.
    pose proof (xadd_lost maxlen (publish_fields e) t) as L.
    destruct (xadd maxlen (publish_fields e) t) as [t1 x]. cbn [fst snd] in L.
    assert (Hx : forall x', xadd_post maxlen (publish_fields e) (Streams.stream_of t)
      (Streams.stream_of t1) x' -> sound ev (d, t1)).
    { intros x' (n&k&_&_&E&_). destruct Hw as [Hh Hev Ha Hk Hs]. split; [done..|]. cbn [snd].
      rewrite E. cbn [x_entries]. apply Forall_drop, Forall_app. split; [exact Hs|].
      constructor; [|constructor]. exists e. split; [done|]. split; [|done]. by apply (Hev (e_id e)). }
    assert (Ht1 : sound ev (d, t1)).
    { destruct L as [L|(_&[E|[x' L]])]; [by apply (Hx x)| |by apply (Hx x')].
      unfold sound in *. cbn [fst snd] in *. by rewrite E. }
    by destruct x. }
  destruct (publish e t) as [t1 [u|x]]; exact Ht.
Qed.

Lemma persist_sound ev now inner p : event_validate p = Ok inner ->
  keeps_inv (sound ev) (persist_event publish now inner).
Proof.
  intros (Hi&Hh&Ht)%validated. apply hoare_inv. unfold persist_event.
  apply (hoare_bind _ _ (fun row w => sound ev w /\ db_events (tables w.1) !! e_id row = Some row)).
  - apply hoare_on_fst. intros t. unfold sound, persist_row. cbn [fst snd].
    apply (hoare_transaction (rows_ok ev (entries_of t)) _ (fun row st => rows_ok ev (entries_of t) st
      /\ db_events st !! e_id row = Some row) (rows_ok ev (entries_of t))); [done|].
    intros st st' row Hr Er. apply M_bind_ok in Er as (s1&o&Ei&Er). destruct o as [e|]; [|discriminate Er].
    injection Er as -> <-. unfold insert_event in Ei. destruct (event_ok _ _); [|discriminate Ei].
    cbn [e_id event_row] in Ei. destruct (db_events st !! in_id inner) eqn:En; [discriminate Ei|].
    injection Ei as <- <-.
    assert (Hr' : rows_ok ev (entries_of t) (set_events (insert (in_id inner) (event_row now inner)) st)).
    { apply (rows_same_actions _ _ st); [done| |apply Hr| |done].
      - split; [by apply insert_subseteq|]. intros i al Hal. by exists al.
      - intros id e. cbn [db_events set_events]. rewrite lookup_insert. case_decide as Hid.
        + intros [= <-]. split; [done|]. by repeat split.
        + apply Hr. }
    split; [|done]. split; [done|]. cbn. by rewrite lookup_insert_eq.
  - intros row. apply (hoare_bind _ _ (fun _ => sound ev)); [|by intros u w].
    apply (hoare_try _ _ _ _ _ (sound ev)); [apply publish_sound|by intros x w].
Qed.

Lemma mark_sound ev status id now : keeps_inv (sound ev) (on_fst (Ws.mark status id now)).
Proof.
  apply hoare_inv, (hoare_on_fst _ _ (fun _ => sound ev)). intros t. unfold sound. cbn [fst snd].
  unfold mark, mark_applied, mark_failed.
  destruct (String.eqb status "applied"); (eapply hoare_bind; [apply rows_transaction|by intros n d]);
    intros st st' n Hr; by apply update_action_rows.
Qed.

Abbreviation local := (option string * ((D * T) * (list (C * string) * registry C)))%type.
Abbreviation Sound ev := (fun s : local => sound ev s.2.1).

Lemma sound_on_db {A} ev (m : M (D * T) A) : 
  keeps_inv (sound ev) m -> keeps_inv (Sound ev) (on_db (C := C) m).
Proof.
  intros Hm [a [w ng]] Hw. unfold on_db, on_snd, on_fst. cbn [fst snd] in *. specialize (Hm w Hw).
  by destruct (m w).
Qed.

Lemma sound_on_net {A} ev (m : M (list (C * string)) A) : keeps_inv (Sound ev) (on_net m).
Proof. intros [a [w [n g]]] Hw. unfold on_net, on_snd, on_fst. cbn [fst snd] in *. by destruct (m n). Qed.

Lemma sound_agent ev a : keeps_inv (Sound ev) (set_agent a).
Proof. by intros s. Qed.
Lemma sound_registry ev f : keeps_inv (Sound ev) (on_registry f).
Proof. by intros s. Qed.

Ltac sounds :=
  repeat first [ solve [auto with zq] | apply sound_on_net | apply sound_agent | apply sound_registry
               | apply inv_bind; [|intros ?] | case_match ]; auto with zq.

Lemma first_frame_sound ev ok closes c mono nonce raw :
  keeps_inv (Sound ev) (on_hello (send_log ok) (close_log closes) loads hello_validate c mono nonce raw).
Proof.
  assert (Hread : forall a, keeps_inv (Sound ev)
    (on_db (N := list (C * string)) (on_fst (transaction (D := D) (upsert_on_hello a))))).
  { intros a. apply sound_on_db, hoare_inv, (hoare_on_fst _ _ (fun _ => sound ev)). intros t.
    apply (rows_transaction ev (entries_of t)). intros st st' h Hr. unfold upsert_on_hello.
    by intros [= <- _]. }
  unfold on_hello, hello_host, close_with. sounds; first [apply Hread|by intros s].
Qed.

Lemma frame_sound ev now payload :
  keeps_inv (Sound ev) (on_frame (N := list (C * string)) event_validate ack_validate publish now payload).
Proof.
  unfold on_frame. cbv zeta beta. destruct (val_eqb _ _).
  - destruct (event_validate payload) as [inner|x] eqn:Ev; [|destruct x; sounds; by intros s].
    apply inv_try; [|intros x; destruct x; by intros s].
    apply inv_bind; [|auto with zq]. by eapply sound_on_db, persist_sound.
  - destruct (val_eqb _ _); [|by intros s; destruct (val_eqb _ _)].
    destruct (ack_validate payload) as [ack|x]; [|destruct x; sounds; by intros s].
    apply inv_bind; [|auto with zq]. apply sound_on_db, (mark_sound ev (ack_status ack)).
Qed.

Lemma text_sound ev ok closes c mono now ph input s :
  Sound ev s ->
  Sound ev (on_text (send_log ok) (close_log closes) loads hello_validate event_validate ack_validate
    publish settings c mono now ph input s).1.
Proof.
  intros Hs. unfold on_text.
  assert (Hend : forall s' : local, Sound ev s' -> Sound ev (finally_ s').1).
  { intros [[a|] w]; done. }
  assert (Hb : keeps_inv (Sound ev) (body (send_log ok) (close_log closes) loads hello_validate
    event_validate ack_validate publish settings c mono now ph input)).
  { unfold body. apply inv_bind; [auto with zq|]. intros raw.
    destruct ph as [nonce|start count|]; [apply first_frame_sound| |auto with zq].
    unfold on_drain, close_with. cbv zeta. sounds; first [apply frame_sound|by intros w]. }
  specialize (Hb s Hs). destruct ph; [..|done].
  all: destruct (body _ _ _ _ _ _ _ _ _ _ _ _ _ s) as [s1 [[]|x]]; cbn [fst] in Hb;
    try exact Hb; try (by apply Hend).
  all: pose proof (sound_on_net ev (close_log closes c 1011) s1 Hb) as Hc; destruct x; by apply Hend.
Qed.

Lemma connect_sound ev ok closes c nonce (w : (D * T) * (list (C * string) * registry C)) :
  sound ev w.1 -> sound ev (connect (send_log ok) (close_log closes) c nonce w).1.2.1.
Proof.
  intros Hw. unfold connect.
  assert (Hend : forall s' : local, Sound ev s' -> Sound ev (finally_ s').1).
  { intros [[a|] w']; done. }
  pose proof (sound_on_net ev (send_log ok c (dumps (challenge nonce))) (None, w) Hw) as Hn1.
  destruct (on_net _ _) as [s1 [u|x]]; [exact Hn1|].
  pose proof (sound_on_net ev (close_log closes c 1011) s1 Hn1) as Hc. destruct x; by apply Hend.
Qed.

(** A worker handles what its read gave it; each entry was announced. *)
Lemma each_sound ev w l :
  Forall (fun msg : string * fieldmap => announced ev msg.2) l ->
  keeps_inv (fun s : list (worker * (string * fieldmap)) * (D * T) => sound ev s.2)
    (for_each (fun msg => _ ← note w msg;
       handle' uuid4 re_search detectors clock rules w msg) l).
Proof.
  intros Hl. apply keeps_each. intros msg Hin%list_elem_of_In.
  eapply Forall_forall in Hl as (e&He&Hwf&Hm); [|exact Hin].
  apply inv_bind; [by intros s|]. intros _. destruct w as [pid|]; cbn [handle'].
  - apply (inv_half (sound ev)). by apply (message_sound ev e).
  - apply (inv_half (sound ev)), sound_on_snd, xack_entries.
Qed.

Lemma read_announced ev c n d t l :
  sound ev (d, t) -> (xreadgroup c n t).2 = Ok l ->
  Forall (fun msg => announced (db_events (tables d)) msg.2) l.
Proof.
  intros [_ _ _ _ Hs] Hl. pose proof (xreadgroup_lost c n t) as L. unfold does in L.
  destruct (xreadgroup c n t) as [t1 x]. cbn [fst snd] in *. subst x.
  destruct L as [E|[? _]]; [|done]. unfold spec_xreadgroup in E.
  destruct (x_group _) as [g|] eqn:Eg; [|done]. injection E as _ ->. apply Forall_map, Forall_take.
  unfold backlog. rewrite Eg. unfold after. apply Forall_forall.
  intros p [_ Hp]%list_elem_of_filter. eapply Forall_forall in Hs; [exact Hs|done].
Qed.

Lemma read_entries c n t : entries_of (xreadgroup c n t).1 = entries_of t.
Proof.
  assert (Hr : forall st, x_entries (spec_xreadgroup c n st).1 = x_entries st).
  { intros st. unfold spec_xreadgroup. by destruct (x_group st). }
  pose proof (xreadgroup_lost c n t) as L. unfold does in L.
  pose proof (Hr (Streams.stream_of t)) as E.
  destruct L as [L|(_&[->|[x L]])]; [|done|]; by rewrite <- L in E.
Qed.

Lemma ensure_entries t : entries_of (ensure_consumer_group t).1 = entries_of t.
Proof.
  pose proof (does_steady _ _ t xgroup_create_steady xgroup_create_lost) as Hs.
  unfold ensure_consumer_group, try_M. destruct (xgroup_create t) as [t1 [[]|e]]; [apply Hs|].
  cbn [fst] in Hs. destruct e; try apply Hs. case_match; apply Hs.
Qed.

Lemma turn_sound ev w s :
  sound ev s.2 -> sound ev (turn uuid4 re_search detectors clock rules w s).1.2.
Proof.
  intros Hs. rewrite turn_run. cbv zeta. destruct s as [given [d t]]. cbn [fst snd] in *.
  pose proof (read_announced ev (consumer_of w) (count_of w) d t) as Hann.
  pose proof (read_entries (consumer_of w) (count_of w) t) as Hent.
  destruct (xreadgroup (consumer_of w) (count_of w) t) as [t1 x]. cbn [fst snd] in *.
  assert (Hd1 : sound ev (d, t1)) by (unfold sound in *; cbn [fst snd] in *; by rewrite Hent).
  destruct x as [l|e].
  - apply (sound_mono ev (db_events (tables d))); [apply Hs|].
    apply each_sound; [by apply Hann|]. apply (sound_now ev _ Hd1).
  - pose proof (inv_half (S := list (worker * (string * fieldmap))) (sound ev)
      (on_snd (S := D) (ensure_consumer_group (T := T)))
      (sound_on_snd ev _ ensure_entries)) as Hens.
    assert (He : sound ev (on_read_error w e (given, (d, t1))).1.2).
    { unfold on_read_error, run_except, consumer_except.
      destruct w, e; try exact Hd1; (destruct (contains _ _); [|exact Hd1]);
        apply (inv_bind _ _ _ Hens); try done; by intros [] s. }
    destruct (on_read_error w e (given, (d, t1))) as [s2 [l|e']] eqn:Er; [|exact He].
    apply read_error_empty in Er. by subst l.
Qed.

Lemma work_sound ev x ws s :
  match x with Publish e => db_events (tables s.2.1) !! e_id e = Some e | _ => True end ->
  sound ev s.2 ->
  sound ev (do_step maxlen uuid4 re_search detectors clock rules x ws s).1.2.
Proof.
  assert (Hcarry : forall w m, (sound ev s.2 -> sound ev (m s).1.2) -> sound ev s.2 ->
    sound ev (carry_out (D := D) (T := T) w ws m s).1.2).
  { intros w m Hm Hs. specialize (Hm Hs). unfold carry_out, try_M, mbind, M_bind.
    by destruct (m s) as [s' [u|e]]. }
  intros Hen Hs. destruct x as [e|w|w|w]; cbn [do_step].
  - pose proof (publish_sound ev e s.2 (conj Hs Hen)) as Hp. destruct s as [given [d t]].
    unfold publish, on_snd in Hp. unfold on_redis, on_snd, try_M, mbind, M_bind in *.
    cbn [fst snd] in *. by destruct (publish_event (xadd maxlen) e t) as [t1 [u|x]].
  - destruct (status_of w ws); [done|]. apply Hcarry; [|done]. clear Hs. intros Hs.
    destruct w as [pid|]; [|done].
    exact (inv_half (sound ev) _ (sound_on_snd ev _ ensure_entries) s Hs).
  - destruct (status_of w ws) as [[]|]; try done. apply Hcarry; [|done]. apply turn_sound.
  - by destruct (status_of w ws) as [[]|].
Qed.

Lemma tick_sound ev ok now d t n g :
  sound ev (d, t) -> sound ev ((_tick (C := C) (send_log ok) allow mode now (d, (n, g))).1.1, t).
Proof.
  intros Hs. set (xs := entries_of t).
  assert (Ht : keeps_inv (fun s : D * (list (C * string) * gmap string C) => rows_ok ev xs (tables s.1))
    (_tick (send_log ok) allow mode now)).
  { assert (Hdb : forall A (m : M D A), hoare (Rows ev xs) m (fun _ => Rows ev xs) (Rows ev xs) ->
      keeps_inv (fun s : D * (list (C * string) * gmap string C) => rows_ok ev xs (tables s.1)) (on_fst m)).
    { intros A m Hm. apply (inv_on_fst (Rows ev xs)). by apply hoare_inv. }
    apply inv_bind.
    - apply Hdb, rows_transaction. by intros st st' a Hr [= <- _].
    - intros rows. induction rows as [|row rows IH]; [apply inv_ret|]. cbn [dispatch_rows].
      apply inv_bind; [|intros _; exact IH]. clear IH rows.
      assert (Hmark : forall i, keeps_inv
        (fun s : D * (list (C * string) * gmap string C) => rows_ok ev xs (tables s.1))
        (on_fst (mark_dispatched i now))).
      { intros i. apply Hdb. unfold mark_dispatched.
        apply (hoare_bind _ _ (fun _ => Rows ev xs)); [|by intros k d0].
        apply rows_transaction. intros st st' k Hr. by apply update_action_rows. }
      destruct row as [a [h|]]; cbn [dispatch_row]; [|apply inv_ret].
      destruct (negb _); [apply inv_ret|]. apply inv_bind; [by intros s|]. intros [c|]; [|apply inv_ret].
      apply inv_bind; [apply inv_lift|]. intros [f|]; [|apply inv_ret].
      apply inv_bind; [apply inv_try|].
      + apply inv_bind; [apply (inv_on_snd (Rows ev xs))|auto with zq].
      + by intros x s.
      + intros []; [|apply inv_ret]. apply inv_bind; [apply Hmark|auto with zq]. }
  exact (Ht (d, (n, g)) Hs).
Qed.

Lemma route_sound ev (t : M db unit) d r :
  route_ok t -> sound ev (d, r) -> sound ev ((transaction t d).1, r).
Proof.
  intros Hok Hs. pose proof (rows_transaction ev (entries_of r) t) as L.
  assert (Hd : rows_ok ev (entries_of r) (tables (transaction t d).1)).
  { specialize (L ltac:(intros st st' [] Hr Et; destruct (Hok st st' Et) as (Ea&Hx&Hh&He);
      apply (rows_same_actions ev _ st); [done|done|apply Hh, Hr|apply He, Hr|done]) d Hs).
    by destruct (transaction t d) as [d' [u|e]]. }
  exact Hd.
Qed.

(** Every step keeps the rows sound. *)
Lemma perform_sound ev a s :
  enabled a s -> sound ev (y_db s, y_redis s) ->
  sound ev (y_db (perform a s), y_redis (perform a s)).
Proof.
  intros Hen Hs. destruct a as [c nonce ok cl|c mono now input ok cl|x|now ok|t]; cbn [perform].
  - pose proof (connect_sound ev ok cl c nonce (shared s) Hs) as H5.
    by destruct (connect _ _ _ _ _) as [[ag [[d t] [n g]]] ph].
  - destruct (y_sessions s !! c) as [[ag ph]|]; [|exact Hs].
    pose proof (text_sound ev ok cl c mono now ph input (ag, shared s) Hs) as H5.
    by destruct (on_text _ _ _ _ _ _ _ _ _ _ _ _ _ _) as [[ag' [[d t] [n g]]] ph'].
  - assert (Hx : match x with Publish e => db_events (tables (y_db s)) !! e_id e = Some e | _ => True end).
    { by destruct x. }
    pose proof (work_sound ev x (y_workers s) (y_given s, (y_db s, y_redis s)) Hx Hs) as H5.
    by destruct (do_step _ _ _ _ _ _ _ _ _) as [[given [d t]] ws].
  - pose proof (tick_sound ev ok now (y_db s) (y_redis s) (y_net s) (y_reg s) Hs) as H5.
    by destruct (_tick _ _ _ _ _) as [[d [n g]] r].
  - by apply route_sound.
Qed.

Lemma history_sound s0 tr s : initial s0 -> history s0 tr s -> sound ∅ (y_db s, y_redis s).
Proof.
  intros (Hh&He&Ha&Hx&_). induction 1 as [|tr s a Htr IH Hen]; [|by apply perform_sound].
  split; cbn [fst snd]; [done|done| |apply map_empty_subseteq|by rewrite Hx].
  intros id a Hid. by rewrite Ha in Hid.
Qed.

(** *** Connections *)

Lemma conclude_cases (closes : C -> Z -> bool) c (s1 : local) out :
  let '(s', ph) := conclude (close_log closes) c s1 out in
  (out = Ok ph /\ s' = s1 /\ ph <> Closed)
  \/ (ph = Closed /\ s'.1 = None /\ (forall p, out = Ok p -> p = Closed)
      /\ registry_of s' = match s1.1 with
                          | Some a => unregister a (registry_of s1)
                          | None => registry_of s1
                          end).
Proof.
  assert (Hf : forall s2 : local, same s1 s2 -> s2.1 = s1.1 -> (forall p, out = Ok p -> p = Closed) ->
    let '(s', ph) := finally_ s2 in
    (out = Ok ph /\ s' = s1 /\ ph <> Closed)
    \/ (ph = Closed /\ s'.1 = None /\ (forall p, out = Ok p -> p = Closed)
        /\ registry_of s' = match s1.1 with
                            | Some a => unregister a (registry_of s1)
                            | None => registry_of s1
                            end)).
  { intros s2 (_&_&G2) A2 Hp. pose proof (finally_same s2) as Hf.
    destruct (finally_ s2) as [s' ph]. destruct Hf as (->&Hn&_&_&Hg). rewrite A2, G2 in Hg. by right. }
  pose proof (on_net_same (close_log closes c 1011) s1) as [Hs2 Ha2].
  unfold conclude. destruct out as [[| |]|e]; [by left|by left| |].
  - apply Hf; [done|done|]. by intros p [= <-].
  - destruct e; (apply Hf; [first [exact Hs2|done]|first [exact Ha2|done]|discriminate]).
Qed.

Lemma text_conclude ok closes c mono now ph input (s : local) : ph <> Closed ->
  on_text (send_log ok) (close_log closes) loads hello_validate event_validate ack_validate
    publish settings c mono now ph input s
  = let '(s1, out) := body (send_log ok) (close_log closes) loads hello_validate event_validate
      ack_validate publish settings c mono now ph input s in conclude (close_log closes) c s1 out.
Proof.
  intros Hph. unfold on_text, conclude. destruct ph; [..|done];
    by destruct (body _ _ _ _ _ _ _ _ _ _ _ _ _ s) as [s1 [[]|[]]].
Qed.

Lemma connect_outcome ok closes c nonce (w : (D * T) * (list (C * string) * registry C)) :
  let '(s', ph) := connect (send_log ok) (close_log closes) c nonce w in
  s'.1 = None /\ registry_of s' = w.2.2 /\ (ph = AwaitHello nonce \/ ph = Closed).
Proof.
  destruct w as [[d t] [n g]]. unfold connect, on_net, on_snd, on_fst, send_log, close_log. cbn.
  by destruct (ok c _); cbn; auto.
Qed.

(** A reading that is not yet authenticated. *)
Lemma await_outcome ok closes c mono now nonce input
    (w : (D * T) * (list (C * string) * registry C)) :
  let '(s', ph) := on_text (send_log ok) (close_log closes) loads hello_validate event_validate
    ack_validate publish settings c mono now (AwaitHello nonce) input (None, w) in
  (ph = Closed /\ s'.1 = None
   /\ (registry_of s' = w.2.2 \/ exists a, registry_of s' = unregister a w.2.2))
  \/ exists raw hello h, input = Ok raw
       /\ genuine loads hello_validate nonce raw (tables w.1.1) hello h
       /\ ph = Drain mono 0 /\ s'.1 = Some (hello_agent_id hello)
       /\ registry_of s' = register (h_id h) c w.2.2.
Proof.
  rewrite text_conclude by done. set (s := (None, w) : local).
  destruct input as [raw|x].
  - assert (Ho : forall s1 out, body (send_log ok) (close_log closes) loads hello_validate event_validate
      ack_validate publish settings c mono now (AwaitHello nonce) (Ok raw) s = (s1, out) ->
      hello_outcome loads hello_validate c mono nonce raw s s1 out).
    { intros s1 out Hb. exact (on_hello_outcome _ _ _ _ c mono nonce raw s s1 out Hb). }
    destruct (body _ _ _ _ _ _ _ _ _ _ _ _ _ s) as [s1 out]. specialize (Ho s1 out eq_refl).
    pose proof (conclude_cases closes c s1 out) as Hc.
    destruct (conclude _ c s1 out) as [s' ph].
    destruct Ho as [((_&_&Hreg)&Hcl&Hag)|(hello&h&->&Hg&Ha&_&_&Hreg)].
    + left. destruct Hc as [(->&_&Hne)|(->&Hn&_&Hreg')]; [by rewrite (Hcl ph eq_refl) in Hne|].
      split; [done|]. split; [done|]. rewrite Hreg', Hreg.
      destruct Hag as [[-> _]|(a&->&_)]; [by left|right; by exists a].
    + right. exists raw, hello, h. destruct Hc as [([= <-]&->&_)|(_&_&Hcl&_)]; [done|].
      by specialize (Hcl _ eq_refl).
  - unfold body, lift_res, mbind, M_bind.
    pose proof (conclude_cases closes c s (Raise x)) as Hc. destruct (conclude _ c s _) as [s' ph].
    left. destruct Hc as [([=]&_)|(->&Hn&_&Hreg)]. auto.
Qed.

(** A reading of an authenticated connection. *)
Lemma drain_outcome ok closes c mono now start count agent input
    (w : (D * T) * (list (C * string) * registry C)) :
  let '(s', ph) := on_text (send_log ok) (close_log closes) loads hello_validate event_validate
    ack_validate publish settings c mono now (Drain start count) input (Some agent, w) in
  (ph = Closed /\ s'.1 = None /\ registry_of s' = unregister agent w.2.2)
  \/ (exists start' count', ph = Drain start' count') /\ s'.1 = Some agent /\ registry_of s' = w.2.2.
Proof.
  rewrite text_conclude by done. set (s := (Some agent, w) : local).
  assert (Hb : forall s1 out, body (send_log ok) (close_log closes) loads hello_validate event_validate
      ack_validate publish settings c mono now (Drain start count) input s = (s1, out) ->
    s1.1 = Some agent /\ registry_of s1 = w.2.2
    /\ forall p, out = Ok p -> p = Closed \/ exists st k, p = Drain st k).
  { intros s1 out. destruct input as [raw|x]; unfold body, lift_res, mbind, M_bind;
      [|by intros [= <- <-]].
    intros Hb. destruct (on_drain_spec _ _ _ _ _ _ c mono now start count raw s s1 out Hb) as (Ha&Hg&Hp&_).
    split; [done|]. split; [done|].
    intros p Hout. destruct (Hp p Hout) as [->|[-> _]]; [by left|right; by do 2 eexists]. }
  destruct (body _ _ _ _ _ _ _ _ _ _ _ _ _ s) as [s1 out]. destruct (Hb s1 out eq_refl) as (Ha&Hg&Hp).
  pose proof (conclude_cases closes c s1 out) as Hc. destruct (conclude _ c s1 out) as [s' ph].
  destruct Hc as [(->&->&Hne)|(->&Hn&_&Hreg)].
  - right. destruct (Hp ph eq_refl) as [->|Hd]; done.
  - left. rewrite Ha, Hg in Hreg. done.
Qed.

Lemma live_insert s c v c' h d t n g ws gv :
  live (mkSys d t n g (<[c := v]> (y_sessions s)) ws gv) c' h <->
  (c' = c /\ exists st k, v = (Some h, Drain st k)) \/ (c' <> c /\ live s c' h).
Proof.
  split.
  - intros (st&k&Hl). cbn [y_sessions] in Hl. destruct (decide (c' = c)) as [->|Hne].
    + rewrite lookup_insert_eq in Hl. injection Hl as ->. left. eauto.
    + rewrite lookup_insert_ne in Hl by done. right. split; [done|]. by exists st, k.
  - intros [[-> (st&k&->)]|[Hne (st&k&Hl)]]; exists st, k; cbn [y_sessions];
      [apply lookup_insert_eq|by rewrite lookup_insert_ne].
Qed.

Lemma proved_more tr x c h : proved_by tr c h -> proved_by (x :: tr) c h.
Proof.
  intros (s0&s1&nonce&mono&now&raw&ok&cl&ok'&cl'&hello&host&H5&H6&H7).
  exists s0, s1, nonce, mono, now, raw, ok, cl, ok', cl', hello, host. cbn. tauto.
Qed.

(** A connection that takes its place among the sessions: what it needs. *)
Lemma sessions_put tr x s c ag ph g d t n ws gv :
  sessions_ok tr s ->
  (forall h c', g !! h = Some c' -> (c' <> c /\ y_reg s !! h = Some c')
     \/ c' = c /\ exists st k, (ag, ph) = (Some h, Drain st k)) ->
  (forall h st k, (ag, ph) = (Some h, Drain st k) -> proved_by (x :: tr) c h) ->
  (forall nonce, ph = AwaitHello nonce -> ag = None
     /\ exists s0 ok closes, In (s0, Connect c nonce ok closes) (x :: tr)) ->
  (forall st k, ph = Drain st k -> ag <> None) ->
  sessions_ok (x :: tr) (mkSys d t n g (<[c := (ag, ph)]> (y_sessions s)) ws gv).
Proof.
  intros [Hreg Hlive Haw Hdr] Hg Hp Hn Hd. split; cbn [y_reg y_sessions].
  - intros h c' Hc'. apply live_insert. destruct (Hg h c' Hc') as [[? ?]|[-> ?]]; auto.
  - intros h c' [(->&st&k&E)|[Hne Hl]]%live_insert; [by eapply Hp|]. by apply proved_more, Hlive.
  - intros c' ag' nonce. rewrite lookup_insert. case_decide as Hc; [intros [= <- ->]; subst; auto|].
    intros Hl. destruct (Haw _ _ _ Hl) as [-> (s0&ok&cl&Hin)]. split; [done|].
    exists s0, ok, cl. by right.
  - intros c' ag' st k. rewrite lookup_insert. case_decide as Hc; [intros [= <- ->]; eauto|]. apply Hdr.
Qed.

(** A connection outside the sessions, or not draining, is in no registration. *)
Lemma not_registered tr s c ph :
  sessions_ok tr s -> y_sessions s !! c = ph ->
  (forall h st k, ph <> Some (Some h, Drain st k)) -> forall h c', y_reg s !! h = Some c' -> c' <> c.
Proof. intros Hs <- Hph h c' Hr ->. destruct (s_reg _ _ Hs h c Hr) as (st&k&Hl). by apply (Hph h st k). Qed.

Lemma unregister_lookup {A} h a (g : registry A) v :
  unregister a g !! h = Some v -> h <> a /\ g !! h = Some v.
Proof. unfold unregister. by intros [??]%lookup_delete_Some. Qed.

(** Steps that leave the sessions alone may only take registrations away. *)
Lemma sessions_less tr x s s' :
  sessions_ok tr s -> y_sessions s' = y_sessions s -> y_reg s' ⊆ y_reg s -> sessions_ok (x :: tr) s'.
Proof.
  intros [Hreg Hlive Haw Hdr] Es Hg. split; unfold live; rewrite ?Es.
  - intros h c Hc. apply Hreg. by eapply lookup_weaken.
  - intros h c Hl. by apply proved_more, Hlive.
  - intros c ag nonce Hl. destruct (Haw _ _ _ Hl) as [-> (s0&ok&cl&Hin)]. split; [done|].
    exists s0, ok, cl. by right.
  - exact Hdr.
Qed.

(** A reading of a connection that has not said HELLO. *)
Lemma await_sessions tr s c ag nonce mono now input ok closes :
  hosts_ok (tables (y_db s)) -> sessions_ok tr s -> y_sessions s !! c = Some (ag, AwaitHello nonce) ->
  let a := Receive c mono now input ok closes in sessions_ok ((s, a) :: tr) (perform a s).
Proof.
  intros Hh Hs Ec a. subst a. set (x := (s, _)). cbn [perform]. rewrite Ec.
  destruct (s_await _ _ Hs _ _ _ Ec) as [-> (s0&ok0&cl0&Hin)].
  pose proof (not_registered tr s c _ Hs Ec ltac:(done)) as Hnot.
  pose proof (await_outcome ok closes c mono now nonce input (shared s)) as Ho.
  destruct (on_text _ _ _ _ _ _ _ _ _ _ _ _ _ _) as [[ag' [[d t] [n g]]] ph'].
  unfold registry_of in Ho. cbn [fst snd shared hand_back] in *.
  destruct Ho as [(->&->&Hg)|(raw&hello&h&->&Hgen&->&->&->)].
  - apply (sessions_put tr x s); try done. intros h c' Hl. left.
    assert (Hl' : y_reg s !! h = Some c').
    { destruct Hg as [->|[a ->]]; [done|]. by apply unregister_lookup in Hl as [_ ?]. }
    split; [by apply (Hnot h)|done].
  - assert (Hid : h_id h = hello_agent_id hello) by (destruct Hgen as (_&f&sec&Hx); apply Hh, Hx).
    apply (sessions_put tr x s); try done.
    + intros h' c'. unfold register. rewrite lookup_insert. case_decide as He.
      * intros [= <-]. right. split; [done|]. exists mono, 0. by rewrite <- Hid, He.
      * intros Hl. left. split; [by apply (Hnot h')|done].
    + intros h' st k [= <- _ _].
      exists s0, s, nonce, mono, now, raw, ok0, cl0, ok, closes, hello, h.
      split; [by right|]. split; [by left|]. done.
Qed.

(** A reading of an authenticated connection. *)
Lemma drain_sessions tr s c agent start count mono now input ok closes :
  sessions_ok tr s -> y_sessions s !! c = Some (Some agent, Drain start count) ->
  let a := Receive c mono now input ok closes in sessions_ok ((s, a) :: tr) (perform a s).
Proof.
  intros Hs Ec a. subst a. set (x := (s, _)). cbn [perform]. rewrite Ec.
  assert (Hlive : live s c agent) by (by exists start, count).
  assert (Hreg : forall h, y_reg s !! h = Some c -> h = agent).
  { intros h Hr. destruct (s_reg _ _ Hs h c Hr) as (st&k&Hl). congruence. }
  pose proof (drain_outcome ok closes c mono now start count agent input (shared s)) as Ho.
  destruct (on_text _ _ _ _ _ _ _ _ _ _ _ _ _ _) as [[ag' [[d t] [n g]]] ph'].
  unfold registry_of in Ho. cbn [fst snd shared hand_back] in *.
  destruct Ho as [(->&->&->)|((st&k&->)&->&->)]; apply (sessions_put tr x s); try done.
  - intros h c' [Hne Hl]%unregister_lookup. left. split; [|done]. intros ->. by apply Hne, Hreg.
  - intros h c' Hl. destruct (decide (c' = c)) as [->|Hne]; [right|by left]. split; [done|].
    exists st, k. by rewrite (Hreg h Hl).
  - intros h st' k' [= <- _ _]. by apply proved_more, Hs.
Qed.

Lemma receive_sessions tr s c mono now input ok closes :
  hosts_ok (tables (y_db s)) -> sessions_ok tr s ->
  let a := Receive c mono now input ok closes in sessions_ok ((s, a) :: tr) (perform a s).
Proof.
  intros Hh Hs. destruct (y_sessions s !! c) as [[ag [nonce|start count|]]|] eqn:Ec.
  - by apply (await_sessions _ _ _ ag nonce).
  - destruct ag as [agent|]; [|by destruct (s_drain _ _ Hs _ _ _ _ Ec)].
    by apply (drain_sessions _ _ _ agent start count).
  - intros a. subst a. cbn [perform]. rewrite Ec. unfold on_text. cbn [hand_back shared].
    apply (sessions_put tr _ s); try done. intros h c' Hl. left. split; [|done].
    by apply (not_registered tr s c _ Hs Ec ltac:(done) h).
  - intros a. subst a. cbn [perform]. rewrite Ec. by apply (sessions_less tr _ s).
Qed.

Lemma tick_registry ok now d n g :
  (_tick (C := C) (send_log ok) allow mode now (d, (n, g))).1.2.2 ⊆ g.
Proof.
  unfold _tick, mbind, M_bind, on_fst. cbn [fst snd]. destruct (transaction _ d) as [d1 [rows|e]]; [|done].
  cbn [fst snd]. assert (Hg : g ⊆ g) by done. revert d1 n Hg. generalize g at 1 3.
  induction rows as [|row rows IH]; intros g' d1 n Hg; [done|]. cbn [dispatch_rows].
  unfold mbind, M_bind. destruct (dispatch_row_sends ok allow mode now g row d1 n g' Hg) as [Hg1 _].
  destruct (dispatch_row _ _ _ _ row _) as [[d2 [n2 g2]] [u|e]]; [by apply IH|done].
Qed.

Lemma perform_sessions tr a s :
  hosts_ok (tables (y_db s)) -> enabled a s -> sessions_ok tr s -> sessions_ok ((s, a) :: tr) (perform a s).
Proof.
  intros Hh Hen Hs. destruct a as [c nonce ok cl|c mono now input ok cl|x|now ok|t].
  - cbn [perform]. pose proof (connect_outcome ok cl c nonce (shared s)) as Ho.
    pose proof (not_registered tr s c _ Hs Hen ltac:(done)) as Hnot.
    destruct (connect _ _ _ _ _) as [[ag [[d t] [n g]]] ph]. unfold registry_of in Ho.
    cbn [fst snd shared hand_back] in *. destruct Ho as (->&->&Hph).
    apply (sessions_put tr _ s); try done.
    + intros h c' Hl. left. split; [by apply (Hnot h)|done].
    + intros nonce' ->. split; [done|]. destruct Hph as [[= ->]|]; [|done]. exists s, ok, cl. by left.
    + intros st k ->. by destruct Hph.
  - by apply receive_sessions.
  - apply (sessions_less tr _ s); [done|..]; cbn [perform];
      by destruct (do_step _ _ _ _ _ _ _ _ _) as [[given [d t]] ws].
  - apply (sessions_less tr _ s); [done|..]; cbn [perform];
      pose proof (tick_registry ok now (y_db s) (y_net s) (y_reg s)) as Hg;
      by destruct (_tick _ _ _ _ _) as [[d [n g]] r].
  - by apply (sessions_less tr _ s).
Qed.

Lemma history_sessions s0 tr s : initial s0 -> history s0 tr s -> sessions_ok tr s.
Proof.
  intros Hi Htr. pose proof Hi as (_&_&_&_&Hr&Hs). induction Htr as [|tr s a Htr IH Hen].
  - split; unfold live; rewrite ?Hr, ?Hs; try done.
    intros h c (st&k&Hl). done.
  - apply perform_sessions; [|done..]. apply (r_hosts _ _ _ (history_sound s0 tr s Hi Htr)).
Qed.

(** A row a tick may send for is a command with its whole history. *)
Lemma row_commanded tr s now row m :
  sound ∅ (y_db s, y_redis s) -> sessions_ok tr s ->
  In row (pending_rows (tables (y_db s))) -> authorised allow mode now (y_reg s) row m ->
  commanded tr s now row m.
Proof.
  intros Hw Hs Hin (host&secret&kind&Hh&Hb&Hc&Hm&Ht). destruct row as [a oh]. cbn [fst snd] in *.
  subst oh. apply pending_rows_in in Hin as ((id&Ha)&Hst&Hhost).
  destruct (ac_host_id a) as [h|] eqn:Eh; [|done]. cbn in Hhost.
  pose proof (r_hosts _ _ _ Hw _ _ (eq_sym Hhost)) as <-.
  destruct (r_actions _ _ _ Hw id a Ha) as [<- (i&al&e&Hi&Hal&He&Hah&Heh&Hd)].
  assert (Hid : e_host_id e = h_id host) by congruence.
  pose proof (s_reg _ _ Hs _ _ Hc) as Hlive.
  exists host, secret, kind, i, al, e. repeat split; try done; try apply Hm. by apply Hs.
Qed.

(** ** Routes that write

    The statements by which the HTTP routes change hosts and events: the toggle
    of [auto_block], a new secret, and a batch of events with its host. *)

Lemma hosts_route (t : M db unit) :
  (forall st st', t st = (st', Ok tt) -> exists f, st' = set_hosts f st
     /\ (hosts_ok st -> hosts_ok (set_hosts f st))) -> route_ok t.
Proof.
  intros Ht st st' (f&->&Hh)%Ht. split; [done|]. split; [|by split].
  split; [done|]. intros i al Hal. by exists al.
Qed.

Lemma hosts_ok_insert st h : hosts_ok st -> hosts_ok (set_hosts (insert (h_id h) h) st).
Proof. intros Hh id x. cbn. rewrite lookup_insert. case_decide; [by intros [= <-]|apply Hh]. Qed.

Lemma patch_route host_id b : route_ok (_ ← HostsApi.update_host host_id b; mret tt).
Proof.
  apply hosts_route. intros st st'. unfold mbind, M_bind, HostsApi.update_host.
  destruct (db_hosts st !! host_id) as [h|] eqn:Eh; [|done]. intros [= <-]. eexists. split; [done|].
  intros Hh. pose proof (Hh _ _ Eh) as <-. by apply (hosts_ok_insert st (HostsApi.set_auto_block b h)).
Qed.

Lemma rotate_route agent_id secret now : route_ok (_ ← rotate_statement agent_id secret now; mret tt).
Proof.
  apply hosts_route. intros st st' Et.
  apply M_bind_ok in Et as (st1&h1&Er&Et). injection Et as <-.
  unfold rotate_statement in Er.
  apply M_bind_ok in Er as (st2&h2&E2&Er). apply M_bind_ok in Er as (st3&u&E3&Er).
  injection E2 as <- _. injection E3 as <- _. injection Er as <- _.
  eexists. split; [done|]. intros Hh id h. cbn. rewrite lookup_alter. case_decide as Hid; [|apply Hh].
  destruct (db_hosts st !! agent_id) as [h'|] eqn:Eh; [|done]. intros [= <-]. rewrite <- Hid.
  exact (Hh _ _ Eh).
Qed.

Lemma extends_trans st1 st2 st3 : extends st1 st2 -> extends st2 st3 -> extends st1 st3.
Proof.
  intros [He1 Ha1] [He2 Ha2]. split; [by etrans|]. intros i al Hal.
  destruct (Ha1 i al Hal) as (b&Hb&E1&E2&E3). destruct (Ha2 i b Hb) as (x&Hx&F1&F2&F3).
  exists x. split; [done|]. by rewrite F1, F2, F3.
Qed.

Lemma batch_route h es : Forall well_formed es -> route_ok (persist_batch h es).
Proof.
  intros Hes st st' Et. unfold persist_batch in Et. apply M_bind_ok in Et as (st1&[]&Eh&Ee).
  assert (Hst1 : db_actions st1 = db_actions st /\ extends st st1
    /\ (hosts_ok st -> hosts_ok st1) /\ (events_ok st -> events_ok st1)).
  { unfold upsert_host in Eh. destruct (db_hosts st !! h_id h) as [old|] eqn:Eo; injection Eh as <-;
      (split; [done|]; split; [split; [done|]; intros i al Hal; by exists al|]; split; [|done]);
      intros Hh; [|by apply hosts_ok_insert].
    pose proof (Hh _ _ Eo) as Hid. rewrite <- Hid. by apply (hosts_ok_insert st (seen _ old)). }
  clear Eh. revert st1 Ee Hst1. induction Hes as [|e es Hwf Hes IH]; intros st1 Ee (Ha&Hx&Hh&He).
  { by injection Ee as <-. }
  cbn [add_events] in Ee. apply M_bind_ok in Ee as (st2&[]&Ei&Ee). apply (IH st2 Ee). clear IH Ee.
  unfold add_event in Ei. destruct (_ && _) eqn:Eok; [|discriminate Ei]. injection Ei as <-. bprop.
  split; [done|]. split; [|split; [done|]].
  - eapply extends_trans; [exact Hx|]. split; [|by intros i al Hal; exists al].
    apply insert_subseteq. by apply present_false.
  - intros Hev id x. cbn. rewrite lookup_insert. case_decide as Hid; [|by apply He].
    intros [= <-]. by split.
Qed.

(** ** Properties *)

(** C1. Every command has its cause.  Connections, frames, worker turns, ticks
    and routes in any order, over database, Redis and network connections that
    may be lost: whenever the dispatcher ticks, the texts it sends belong, in
    order, to some of the pending rows, and each of them is the frame of its
    row, signed with the present secret of the row's host, for a kind and target
    the policy allows, the host having opted in; it goes to a live connection
    that was opened by a HELLO with the HMAC of the nonce it had been sent; and
    the row belongs to an alert that a detector or a rule raised on a stored
    event of that same host, asking for exactly this kind, target and ttl. *)
Theorem commands_have_cause (s0 s : sys) (tr : list (sys * act)) (now : Z) (ok : C -> string -> bool) :
  initial s0 -> history s0 tr s ->
  exists sent rows,
    y_net (perform (Tick now ok) s) = y_net s ++ sent
    /\ rows `sublist_of` pending_rows (tables (y_db s))
    /\ Forall2 (commanded tr s now) rows sent.
Proof.
  intros Hi Htr. pose proof (history_sound s0 tr s Hi Htr) as Hw.
  pose proof (history_sessions s0 tr s Hi Htr) as Hs.
  destruct (tick_sends_authorised ok allow mode now (y_db s) (y_net s) (y_reg s))
    as (sent&rows&E&Hsub&HF&_).
  exists sent, rows. split; [|split; [exact Hsub|]].
  - cbn [perform]. by destruct (_tick _ _ _ _ _) as [[d [n g]] r].
  - assert (Hall : Forall (fun row => In row (pending_rows (tables (y_db s)))) rows).
    { apply Forall_forall. intros row Hrow. apply list_elem_of_In. by eapply elem_of_sublist. }
    clear E Hsub. induction HF; inversion_clear Hall; constructor; [|auto]. by apply row_commanded.
Qed.

End System.

(** ** A concrete run *)

#[local] Instance mem_stream_laws : StreamLaws MemStream.
Proof. apply up_laws, _. Qed.

(** A frame schema that checks the ids and the time, as pydantic's types do. *)
Definition ex_event_validate (d : list (string * val)) : res EventInner :=
  match get "event" d with
  | VDict e =>
      match get "id" e, get "host_id" e, get "timestamp" e, get "source" e, get "raw" e, get "metadata" e with
      | VStr i, VStr h, VInt t, VStr s, VStr r, VDict md =>
          id ← parse_uuid i; host ← parse_uuid h;
          if (-62135596800 <=? t) && (t <=? 253402300799) then Ok (mkInner id host "v1" t s r md)
          else Raise ValidationError
      | _, _, _, _, _, _ => Raise ValidationError
      end
  | _ => Raise ValidationError
  end.

Lemma ex_validated p i : ex_event_validate p = Ok i ->
  is_uuid (in_id i) /\ is_uuid (in_host_id i) /\ fromtimestamp (in_timestamp i) = Ok (in_timestamp i).
Proof.
  assert (Hu : forall s u, parse_uuid s = Ok u -> is_uuid u).
  { intros s u. unfold parse_uuid. cbv zeta. destruct (negb _); [done|].
    destruct (py_int16 _) as [n|]; [|done]. destruct (_ && _) eqn:En; [|done]. intros [= <-]. bprop.
    exists n. split; [lia|done]. }
  unfold ex_event_validate. intros Hv. repeat case_match; try discriminate Hv;
    apply res_bind_ok in Hv as (id&Hid&Hv); apply res_bind_ok in Hv as (host&Hhost&Hv);
    [injection Hv as <-|discriminate Hv]. cbn.
  split; [by eapply Hu|]. split; [by eapply Hu|]. unfold fromtimestamp.
  by match goal with E : (_ && _) = true |- _ => rewrite E end.
Qed.

Definition web_host (n : Z) : Host :=
  mkHost (uuid_text n) 0 0 None (Some "web") (Some "s3cret") true [].

Definition two_hosts : db :=
  set_hosts (fun _ => {[uuid_text 9 := web_host 9; uuid_text 10 := web_host 10]}) empty_db.

Abbreviation mem_sys := (sys (D := db) (T := MemStream * MemRedis) (C := string)).
Abbreviation mem_act := (act (C := string)).

Definition booted : mem_sys := mkSys two_hosts (empty_stream, ∅) [] ∅ ∅ [] [].

Definition hello_frame (n : Z) : val :=
  ex_hello (uuid_text n) "n" (_compute_sig "s3cret" "n").

(** A scan of the web server on host [n]. *)
Definition scan_frame (n : Z) : val :=
  VDict [("type", VStr "event");
         ("event", VDict [("id", VStr (uuid_text 7)); ("host_id", VStr (uuid_text n));
                          ("timestamp", VInt 100); ("source", VStr "nginx");
                          ("raw", VStr "GET /?q=<script HTTP/1.1");
                          ("metadata", VDict [("source", VStr "nginx"); ("source_ip", VStr "8.8.8.8")])])].

Definition ex_frames : list val := [hello_frame 9; hello_frame 10; scan_frame 9; scan_frame 10].

Definition up {C} (_ : C) (_ : string) : bool := true.
Definition shuts {C} (_ : C) (_ : Z) : bool := true.

Definition mem_perform : mem_act -> mem_sys -> mem_sys :=
  perform 10000 mem_uuid4 no_regex (BUILTIN_DETECTORS default_settings) (fun _ => 200 * SEC)
    (fun _ => Ok []) (ex_loads ex_frames) ex_hello_validate ex_event_validate ex_ack_validate
    (mkWs 65536 100) false "enterprise".

(** The agent of host 9 connects and reports a scan on host [n], whose own agent
    is connected as well; a runner reads it. *)
Definition scan_of (n : Z) : list mem_act :=
  [Work (Start (Runner 1)); Connect "c9" "n" up shuts; Connect "c10" "n" up shuts;
   Receive "c9" 5 5 (Ok (dumps (hello_frame 9))) up shuts;
   Receive "c10" 6 6 (Ok (dumps (hello_frame 10))) up shuts;
   Receive "c9" 7 7 (Ok (dumps (scan_frame n))) up shuts; Work (Turn (Runner 1))].

Fixpoint trail (l : list mem_act) (s : mem_sys) (tr : list (mem_sys * mem_act))
  : list (mem_sys * mem_act) * mem_sys :=
  match l with
  | [] => (tr, s)
  | a :: l' => trail l' (mem_perform a s) ((s, a) :: tr)
  end.

Abbreviation mem_history := (history 10000 mem_uuid4 no_regex (BUILTIN_DETECTORS default_settings)
  (fun _ => 200 * SEC) (fun _ => Ok []) (ex_loads ex_frames) ex_hello_validate ex_event_validate
  ex_ack_validate (mkWs 65536 100) false "enterprise").

Fixpoint all_enabled (l : list mem_act) (s : mem_sys) : Prop :=
  match l with
  | [] => True
  | a :: l' => enabled a s /\ all_enabled l' (mem_perform a s)
  end.

Lemma trail_history s0 l : forall s tr,
  mem_history s0 tr s -> all_enabled l s -> mem_history s0 (trail l s tr).1 (trail l s tr).2.
Proof.
  induction l as [|a l IH]; intros s tr Htr; [done|]. intros [Ha Hl]. apply IH; [|exact Hl].
  by constructor.
Qed.

Lemma booted_initial : initial booted.
Proof.
  split; [|by repeat split].
  intros id h. cbn. rewrite lookup_insert. case_decide as Hid; [by intros [= <-]|].
  rewrite lookup_insert. case_decide; [by intros [= <-]|done].
Qed.

Definition scan_trace : list (mem_sys * mem_act) := (trail (scan_of 9) booted []).1.
Definition scanned : mem_sys := (trail (scan_of 9) booted []).2.

Lemma scan_history : mem_history booted scan_trace scanned.
Proof. apply trail_history; [constructor|]. vm_compute. repeat split. Qed.

(** The scan reaches the firewall of its host. *)
Lemma commands_have_cause_witness :
  (exists sent rows, y_net (mem_perform (Tick 300 up) scanned) = y_net scanned ++ sent
     /\ rows `sublist_of` pending_rows (tables (y_db scanned))
     /\ Forall2 (commanded no_regex (BUILTIN_DETECTORS default_settings) (fun _ => Ok [])
          (ex_loads ex_frames) ex_hello_validate false "enterprise" scan_trace scanned
          300) rows sent)
  /\ map fst (y_net scanned) = ["c9"; "c10"; "c9"; "c10"]
  /\ map fst (y_net (mem_perform (Tick 300 up) scanned)) = ["c9"; "c10"; "c9"; "c10"; "c9"].
Proof.
  split; [|vm_compute; split; reflexivity].
  refine (commands_have_cause (D := db) 10000 mem_uuid4 no_regex (BUILTIN_DETECTORS default_settings)
    (fun _ => 200 * SEC) (fun _ => Ok []) (ex_loads ex_frames) ex_hello_validate ex_event_validate
    ex_ack_validate (mkWs 65536 100) false "enterprise" (fun _ => eq_refl) (frame_builtin _) ex_validated
    booted scanned scan_trace 300 up booted_initial scan_history).
Defined.

(** The event need not come from the host it names: the agent of host 9 reports
    a scan on host 10, and the command goes to the agent of host 10. *)
Example agent_speaks_for_another :
  let s := (trail (scan_of 10) booted []).2 in
  map fst (y_net (mem_perform (Tick 300 up) s)) = ["c9"; "c10"; "c9"; "c10"; "c10"].
Proof. vm_compute. reflexivity. Qed.

(** A tick on which the send fails takes the connection out of the registry, and
    the row stays pending. *)
Example failed_send_drops_connection :
  let s := mem_perform (Tick 300 (fun _ _ => false)) scanned in
  map_to_list (y_reg s) = [(uuid_text 10, "c10")]
  /\ map (fun kv => ac_status kv.2) (map_to_list (db_actions (y_db s))) = ["pending"].
Proof. vm_compute. split; reflexivity. Qed.
